(* ===== verification/_CoqProject ===== *)
-Q . S2P
Prelude.v
GoStd.v
Errors.v
Metrics.v
Kube.v
State.v
Conditions.v
Infra.v
Azure.v
Scope.v
DnsClient.v
DnsRecords.v
DnsService.v
PrivateClient.v
PrivateDns.v
Controller.v
Main.v
AzureSpec.v
InfraFacts.v
TagFacts.v
DnsClientFacts.v
DnsRecordsFacts.v
DnsServiceFacts.v
PrivateFacts.v
PrivateClientFacts.v
ControllerFacts.v
DnsReconcile.v
Idempotence.v
Settling.v
ClientProps.v
PrivateReconcile.v
InfraProps.v
ScopeProps.v
ControllerProps.v
Services.v
Footprint.v
Termination.v
EndToEnd.v
Operator.v
Finalizers.v
LiveFinalizers.v
Interference.v
Interleaving.v
Reference.v
ReferencePrivate.v
Scenario.v
Witnesses.v
OperatorWitnesses.v
InterleavingWitnesses.v
