(* ===== verification/Prelude.v ===== *)
(** * dns-operator-azure, verified

    The operator watches Cluster API clusters and keeps their DNS records in
    Azure: for every workload cluster a public zone [<cluster>.<base domain>]
    with A records for the API server (and, outside of AzureClusters, for the
    ingress and the gateways), a wildcard CNAME record, and an NS record in the
    base zone that delegates to it; and, where annotations ask for it, private
    zones linked to the management cluster's network.

    ** The program's parts and the files that model them

    - Prelude.v: outcomes of a Go computation (value, error, panic, a loop out
      of fuel), the state monad [M] they run in, weakest preconditions [wp],
      the relational rule set [runs] ("returns, stays within a relation, and a
      returned value satisfies P"), and the tactics for it.
    - GoStd.v: the parts of Go's standard library the operator computes with
      (prefixes and suffixes, [slices.IndexFunc], [net.ParseIP], [IP.To4],
      [IP.IsPrivate], [IP.String]), written out.
    - Errors.v: azure/errors.go, pkg/errors/errors.go,
      azure/services/dns/errors.go over an interface of giantswarm/microerror.
    - Metrics.v: pkg/metrics/metrics.go and [deleteClusterMetrics], over an
      interface of the Prometheus client.
    - Kube.v, Azure.v: the fields of Kubernetes, Cluster API and Azure objects
      the operator reads and writes, and the classes [Kubernetes] and
      [AzureSDK] of the calls it makes; none of them is defined here.
    - State.v: the state [St W] of a run: the world [W] (Azure and Kubernetes),
      the metrics, the fields the scope fills lazily, and the infrastructure
      cluster object, which the scope, the patcher and the controller share by
      pointer and which is therefore one component of the state.
    - Conditions.v: [SetUnstructuredCondition] of pkg/infracluster/scope.go.
    - Infra.v: the rest of pkg/infracluster: annotations, [Patcher] and
      [CommonPatcher], the public IP service, [Scope], its memoised lookups and
      [NewScope].
    - Scope.v: azure/scope, the public and the private DNS scope.
    - DnsClient.v, DnsRecords.v, DnsService.v: azure/services/dns: the interface
      [client] and its implementation [azureClient], the record computations
      (arecords.go, cnamerecords.go, nsrecords.go), the resource group and the
      [Service] with [Reconcile] and [ReconcileDelete].
    - PrivateClient.v, PrivateDns.v: azure/services/privatedns, likewise.
    - Controller.v: controllers/cluster_controller.go; Main.v: main.go (the
      scheme, flags, environment, the reconciler, [mainError] and [main]) and
      [SetupWithManager].

    The controller's [Reconcile] reads the cluster, builds the scope and runs
    [reconcileNormal] or [reconcileDelete]; these build the private services
    and the public service from the scope and run them; a service talks to
    Azure through its client only.  Functions keep the names of the source; a
    method takes its receiver as an argument, and a method of a type that
    shares its name with another gets the type as a prefix
    ([azureClient_GetZone], [cp_PatchObject]).

    ** The contracts

    AzureSpec.v is the abstract view of Azure ([AzureView]): public zones with
    their record sets by type and name, resource groups, private zones and
    their network links.  A view may follow a part of Azure only
    ([shows_zone], [shows_record], [shows_group]): the laws of a call say what
    it did to what the view shows.  [FullView] is a view of all of Azure,
    [ClusterView] (Footprint.v) one that shows what belongs to a cluster, which
    is all that the theorems about a run ask for.  Against it are stated

    - [ClientSpec] and [PrivateClientSpec] (PrivateFacts.v): what a service
      expects of its client; [PatcherSpec]: what it expects of the patcher and
      the public IP service; [KubeKeepsAzure]: no call of the Kubernetes API
      changes Azure;
    - [SDKSpec], [SDKConstructors] (DnsClientFacts.v) and [PrivateSDKSpec],
      [PrivateSDKConstructors] (PrivateClientFacts.v): what the SDK documents
      of each call, pager and poller; the contracts of the clients are derived
      from these; [PrivateSDKPublic]: its private DNS calls change nothing
      public, whoever else writes private zones;
    - [CapzSpec] (InfraFacts.v), [ClusterLookup] (Footprint.v), [MetadataKept]
      and [FinalizerFunctions] (Finalizers.v), [StatusSubresource] and
      [ConditionLaws] (InfraProps.v): the documented behaviour of capz, of the
      lookups by name, of object metadata, of controllerutil, of the status
      subresource and of the converters.

    InfraFacts.v, TagFacts.v, DnsClientFacts.v, DnsRecordsFacts.v,
    DnsServiceFacts.v, PrivateFacts.v, PrivateClientFacts.v and
    ControllerFacts.v hold the lemmas about the components, each against these
    interfaces only; Services.v shows that what the controller builds meets
    them.

    ** The theorems

    - Operator.v: the handler as a whole and the operator as a transition
      system whose steps are runs of the handler: what a successful run leaves
      in place, what a deletion leaves, that runs for other clusters disturb
      neither, a pass over several clusters, and that a zone's record sets
      keep the form Azure asks for ([zones_wf]).  What is to be in place is
      the [plan] of the request: a function of the request and of the state at
      the start of its run, which gives the cluster's subscription, the target
      of its wildcard record and the A records it is to have; the handler is
      proved to leave exactly these [in_place] ([Reconcile_in_place]), and a
      deletion to leave nothing in the subscription of the scope that is built
      for the request ([Reconcile_cleans]).  Footprint.v: what a run may
      write, whatever its outcome.  Termination.v: every run ends.
    - Interference.v, Interleaving.v: runs whose calls interleave with those of
      other writers.  Before each call of a run the others take a [Turn], any
      change that leaves the cluster's part [undisturbed]; a [Shared] world,
      seen through that part, meets every law of a world of one's own, so that
      the theorems against the laws hold in it: what a run leaves in place and
      what a deletion leaves ([Reconcile_in_place_shared],
      [Reconcile_cleans_shared]).  Conversely a [Shared] world keeps the calls
      that the run makes, and each single one, whatever the run comes to,
      leaves alone what belongs to the others ([operator_call_footprint]); so
      calls of other runs, in any number and order, are turns that a run copes
      with ([other_calls_keep_cluster]).
    - EndToEnd.v: a reconciliation of a live or of a deleted cluster that
      succeeds has established what the services promise, public and private.
      Which private services those are - names, addresses, networks,
      subscriptions, identities - is [api_service] and [ingress_service] of
      Services.v, in terms of the objects read.
    - Finalizers.v, LiveFinalizers.v: what a deletion does to the stored
      finalizers, and that a run for a live cluster stores the operator's.
    - DnsReconcile.v: the public service: convergence and frame of [Reconcile],
      seen as a part that [prepare]s the resource group, the zone and the
      delegation and a part that writes records ([write_records]); what
      deletion removes, the resource group's tags, the desired and missing
      records against declarative definitions, and where it never settles;
      Idempotence.v, Settling.v: a run in a settled state changes nothing, and
      a successful run leaves such a state, so that a second one changes nothing.
    - ClientProps.v: the two clients implement their interfaces, every method
      of them, listings end, the error classes survive, requests are counted.
    - PrivateReconcile.v: the same questions for the private service, and which
      network its zone is linked to ([network_linked] of PrivateFacts.v).
    - InfraProps.v: endpoints; credentials and identities, with the objects they
      are read from ([configured], [from_management]); finalizers through a
      patch, tags, memoised lookups; status conditions against the list spelled
      out ([conditions_after]).
    - ControllerProps.v: the finalizer on every outcome of a deletion,
      readiness, early returns, missing secrets, deleted metrics.
    - ScopeProps.v: which parameters and which configuration are refused, and
      the start-up of the process.
    - Reference.v, ReferencePrivate.v: an in-memory Azure, Kubernetes and
      Prometheus that satisfies every class and law used as a hypothesis;
      Scenario.v: a workload cluster in it, on which the whole controller runs;
      Witnesses.v, OperatorWitnesses.v, InterleavingWitnesses.v: the theorems
      with hypotheses, applied there.

    ** Fuel

    The only loops that are not structural go over the pages of a listing
    ([Azure.drain]).  They take the number of pages as fuel; [ends_within n p]
    says that a pager has at most [n] pages, [SDKSpec] bounds the pages of a
    public listing by [page_bound] and [PrivateSDKSpec] those of a private one
    by [private_page_bound].  [ListRecordSets_terminates] and the refinement
    theorems of ClientProps.v show that this many are enough and that more make
    no difference; [Reconcile_halts] concludes it for the whole handler.

    ** What is abstracted

    A name decoded from an answer carries the address of its string, because
    the source compares two such addresses; [decoded_addr] are the addresses of
    decoded strings.  Numbers are [Z] ([int64] TTLs and sizes are only copied
    and printed).  Azure's record types, zones and links have the fields the
    operator uses.  A run sees the world change through its own calls alone,
    except in a [Shared] world, where others write between any two of them; a
    call itself is one step.  In the transition system [operator_step] of
    Operator.v complete runs follow one another, in [operator_call] of
    Interleaving.v single calls of the up to [cluster-concurrency] runs the
    operator makes at a time.  The cluster's own part must be left to its
    worker: controller-runtime never hands one request to two workers, and two
    clusters of one name in two namespaces are a finding, not a case of the
    theorems.  The metrics are those of one run.

    Not modelled: logging, the recorder of events, contexts and timeouts; the
    registration of the metrics; controller-runtime itself
    (class [ControllerRuntime]) and capz's own cluster scope (class [Capz]);
    Helm and kustomize files.

    ** What comes next

    The second run for the whole handler, whose private services write their
    wildcard again at every run; private zones in the footprint of the handler
    and in the part of a shared world that belongs to a cluster. *)
From stdpp Require Export base tactics prelude list gmap strings.

(** * Outcomes of a Go computation

    [Ok] is a normal return with a nil error, [Err] a return with a non-nil
    error, [Panic] a run-time panic (a nil dereference, an index out of range)
    and [Diverged] stands for a loop that used up the fuel it was given. *)

Inductive outcome (E A : Type) : Type :=
| Ok (a : A)
| Err (e : E)
| Panic
| Diverged.
Arguments Ok {E A} a.
Arguments Err {E A} e.
Arguments Panic {E A}.
Arguments Diverged {E A}.

Definition is_Ok {E A} (r : outcome E A) : bool :=
  match r with Ok _ => true | _ => false end.

Definition is_Err {E A} (r : outcome E A) : bool :=
  match r with Err _ => true | _ => false end.

(** What a failed first half of a sequence returns for the whole sequence. *)
Definition recast {E A B} (r : outcome E A) : outcome E B :=
  match r with
  | Ok _ => Panic
  | Err e => Err e
  | Panic => Panic
  | Diverged => Diverged
  end.

(** * The effect monad: explicit state, and the state survives a failure *)

Definition M (S E A : Type) : Type := S → outcome E A * S.

#[global] Instance M_ret {S E} : MRet (M S E) := λ A a s, (Ok a, s).

#[global] Instance M_bind {S E} : MBind (M S E) := λ A B k m s,
  match m s with
  | (Ok a, s') => k a s'
  | (Err e, s') => (Err e, s')
  | (Panic, s') => (Panic, s')
  | (Diverged, s') => (Diverged, s')
  end.

Definition throw {S E A} (e : E) : M S E A := λ s, (Err e, s).
Definition panic {S E A} : M S E A := λ s, (Panic, s).
Definition out_of_fuel {S E A} : M S E A := λ s, (Diverged, s).
Definition gets {S E A} (f : S → A) : M S E A := λ s, (Ok (f s), s).
Definition modify {S E} (f : S → S) : M S E unit := λ s, (Ok tt, f s).

(** [x, err := m]: both results are handed to the continuation, which decides
    on the error itself. *)
Definition try {S E A} (m : M S E A) : M S E (E + A) := λ s,
  match m s with
  | (Ok a, s') => (Ok (inr a), s')
  | (Err e, s') => (Ok (inl e), s')
  | (Panic, s') => (Panic, s')
  | (Diverged, s') => (Diverged, s')
  end.

(** [if err != nil { return f(err) }] *)
Definition map_err {S E A} (f : E → E) (m : M S E A) : M S E A := λ s,
  match m s with
  | (Err e, s') => (Err (f e), s')
  | rs => rs
  end.

(** [*p]: reading through a nil pointer panics. *)
Definition deref {S E A} (p : option A) : M S E A :=
  match p with
  | Some a => mret a
  | None => panic
  end.

(** [for _, x := range l { body(x) }] where the body may leave the function
    with an error. *)
Fixpoint foreach {S E A} (l : list A) (body : A → M S E unit) : M S E unit :=
  match l with
  | [] => mret tt
  | x :: l' => body x;; foreach l' body
  end.

(** A [range] loop that threads an accumulator (the Go variables the loop
    body assigns). *)
Fixpoint foldlM {S E A B} (f : B → A → M S E B) (b : B) (l : list A) : M S E B :=
  match l with
  | [] => mret b
  | x :: l' => b' ← f b x; foldlM f b' l'
  end.

(** * Weakest preconditions *)

Definition wp {S E A} (m : M S E A) (Q : outcome E A → S → Prop) (s : S) : Prop :=
  Q (m s).1 (m s).2.

(** The postcondition of the first half of a sequence. *)
Definition bind_post {S E A B} (k : A → M S E B) (Q : outcome E B → S → Prop)
    (r : outcome E A) (s : S) : Prop :=
  match r with
  | Ok a => wp (k a) Q s
  | r => Q (recast r) s
  end.

Section wp_rules.
Context {S E : Type}.

Lemma wp_ret {A} (a : A) (Q : outcome E A → S → Prop) s :
  Q (Ok a) s → wp (mret a) Q s.
Proof. done. Qed.

Lemma wp_throw {A} (e : E) (Q : outcome E A → S → Prop) s :
  Q (Err e) s → wp (throw e) Q s.
Proof. done. Qed.

Lemma wp_bind {A B} (m : M S E A) (k : A → M S E B) Q s :
  wp m (bind_post k Q) s → wp (m ≫= k) Q s.
Proof.
  unfold wp, bind_post, mbind, M_bind. by destruct (m s) as [[]?].
Qed.

Lemma wp_mono {A} (m : M S E A) (P Q : outcome E A → S → Prop) s :
  wp m P s → (∀ r s', P r s' → Q r s') → wp m Q s.
Proof. unfold wp. eauto. Qed.

Lemma wp_map_err {A} f (m : M S E A) Q s :
  wp m (λ r s', match r with Err e => Q (Err (f e)) s' | _ => Q r s' end) s →
  wp (map_err f m) Q s.
Proof. unfold wp, map_err. by destruct (m s) as [[]?]. Qed.

Lemma wp_try {A} (m : M S E A) Q s :
  wp m (λ r s', match r with
                | Ok a => Q (Ok (inr a)) s'
                | Err e => Q (Ok (inl e)) s'
                | r => Q (recast r) s'
                end) s →
  wp (try m) Q s.
Proof. unfold wp, try. by destruct (m s) as [[]?]. Qed.

Lemma wp_gets {A} (f : S → A) (Q : outcome E A → S → Prop) s :
  Q (Ok (f s)) s → wp (gets f) Q s.
Proof. done. Qed.

Lemma wp_modify (f : S → S) (Q : outcome E unit → S → Prop) s :
  Q (Ok tt) (f s) → wp (modify f) Q s.
Proof. done. Qed.

Lemma wp_deref_Some {A} (a : A) (Q : outcome E A → S → Prop) s :
  Q (Ok a) s → wp (deref (Some a)) Q s.
Proof. done. Qed.

(** The loop rule: an invariant on the elements still to be visited. *)
Lemma wp_foreach {A} (l : list A) (body : A → M S E unit)
    (I : list A → S → Prop) (Q : outcome E unit → S → Prop) s :
  (∀ x l' s, I (x :: l') s →
     wp (body x) (λ r s', match r with
                          | Ok _ => I l' s'
                          | r => Q (recast r) s'
                          end) s) →
  (∀ s, I [] s → Q (Ok tt) s) →
  I l s → wp (foreach l body) Q s.
Proof.
  intros Hbody Hend. revert s. induction l as [|x l IH]; intros s HI; simpl.
  - by apply wp_ret, Hend.
  - apply wp_bind. eapply wp_mono; [by apply Hbody|].
    intros [] s' Hs'; simpl in *; eauto.
Qed.

Lemma wp_foldlM {A B} (f : B → A → M S E B) (l : list A) (b : B)
    (I : B → list A → S → Prop) (Q : outcome E B → S → Prop) s :
  (∀ b x l' s, I b (x :: l') s →
     wp (f b x) (λ r s', match r with
                         | Ok b' => I b' l' s'
                         | r => Q (recast r) s'
                         end) s) →
  (∀ b s, I b [] s → Q (Ok b) s) →
  I b l s → wp (foldlM f b l) Q s.
Proof.
  intros Hbody Hend. revert b s. induction l as [|x l IH]; intros b s HI; simpl.
  - by apply wp_ret, Hend.
  - apply wp_bind. eapply wp_mono; [by apply Hbody|].
    intros [] s' Hs'; simpl in *; eauto.
Qed.
End wp_rules.

(** Running the first half of a sequence. *)
Lemma run_bind {S E A B} (m : M S E A) (k : A → M S E B) a s s' :
  m s = (Ok a, s') → (m ≫= k) s = k a s'.
Proof. unfold mbind, M_bind. by intros ->. Qed.

Lemma run_bind_Err {S E A B} (m : M S E A) (k : A → M S E B) e s s' :
  m s = (Err e, s') → (m ≫= k) s = (Err e, s').
Proof. unfold mbind, M_bind. by intros ->. Qed.

Lemma run_map_err {S E A} (f : E → E) (m : M S E A) a s s' :
  m s = (Ok a, s') → map_err f m s = (Ok a, s').
Proof. unfold map_err. by intros ->. Qed.

Lemma run_map_err_Err {S E A} (f : E → E) (m : M S E A) e s s' :
  m s = (Err e, s') → map_err f m s = (Err (f e), s').
Proof. unfold map_err. by intros ->. Qed.

Lemma run_try {S E A} (m : M S E A) a s s' :
  m s = (Ok a, s') → try m s = (Ok (inr a), s').
Proof. unfold try. by intros ->. Qed.

Lemma run_try_Err {S E A} (m : M S E A) e s s' :
  m s = (Err e, s') → try m s = (Ok (inl e), s').
Proof. unfold try. by intros ->. Qed.

(** [bind_step tac]: run the first call of the goal with the equation [H]. *)
Ltac bind_step tac := erewrite run_bind; [|solve [tac]]; cbn beta iota.

(** * State changes allowed on every path

    [steps R m]: whatever [m] returns, error and panic paths included, the
    states before and after are related by [R].  For a preorder [R] this
    composes along the program text. *)

Definition steps {S E A} (R : relation S) (m : M S E A) : Prop :=
  ∀ s, R s (m s).2.

(** The preorder "the component [f] of the state is untouched". *)
Definition same {S X} (f : S → X) : relation S := λ s s', f s = f s'.

#[global] Instance same_preorder {S X} (f : S → X) : PreOrder (same f).
Proof. split; [done|]. unfold same. intros ???; congruence. Qed.

Section steps_rules.
Context {S E : Type} (R : relation S) `{!PreOrder R}.

Lemma steps_pure {A} (r : outcome E A) : steps R (λ s, (r, s)).
Proof. intros s. reflexivity. Qed.

Lemma steps_ret {A} (a : A) : steps R (mret a : M S E A).
Proof. apply (steps_pure (Ok a)). Qed.

Lemma steps_throw {A} (e : E) : steps R (throw e : M S E A).
Proof. apply (steps_pure (Err e)). Qed.

Lemma steps_panic {A} : steps R (panic : M S E A).
Proof. apply (steps_pure Panic). Qed.

Lemma steps_gets {A} (f : S → A) : steps R (gets f : M S E A).
Proof. intros s. reflexivity. Qed.

Lemma steps_out_of_fuel {A} : steps R (out_of_fuel : M S E A).
Proof. apply (steps_pure Diverged). Qed.

Lemma steps_deref {A} (p : option A) : steps R (deref p : M S E A).
Proof. destruct p; [apply steps_ret|apply steps_panic]. Qed.

Lemma steps_modify f : (∀ s, R s (f s)) → steps R (modify f : M S E unit).
Proof. done. Qed.

Lemma steps_bind {A B} (m : M S E A) (k : A → M S E B) :
  steps R m → (∀ a, steps R (k a)) → steps R (m ≫= k).
Proof.
  intros Hm Hk s. specialize (Hm s). unfold mbind, M_bind.
  destruct (m s) as [[a| | |] s']; simpl in *; try done.
  transitivity s'; [done|apply Hk].
Qed.

Lemma steps_try {A} (m : M S E A) : steps R m → steps R (try m).
Proof. intros Hm s. specialize (Hm s). unfold try. by destruct (m s) as [[]?]. Qed.

Lemma steps_map_err {A} f (m : M S E A) : steps R m → steps R (map_err f m).
Proof. intros Hm s. specialize (Hm s). unfold map_err. by destruct (m s) as [[]?]. Qed.

Lemma steps_foreach {A} (l : list A) (body : A → M S E unit) :
  (∀ x, x ∈ l → steps R (body x)) → steps R (foreach l body).
Proof.
  induction l as [|x l IH]; intros Hb; simpl; [apply steps_ret|].
  apply steps_bind; [apply Hb; set_solver|]. intros _. apply IH. set_solver.
Qed.

Lemma steps_foldlM {A B} (f : B → A → M S E B) (b : B) (l : list A) :
  (∀ b x, steps R (f b x)) → steps R (foldlM f b l).
Proof.
  intros Hf. revert b. induction l as [|x l IH]; intros b; simpl; [apply steps_ret|].
  by apply steps_bind.
Qed.
End steps_rules.

(** [steps_tac] walks down the program text; what is left are the calls whose
    [steps] lemma is not in the hint database [go_steps]. *)
Create HintDb go_steps discriminated.
#[export] Hint Resolve steps_ret steps_throw steps_panic steps_gets
  steps_deref steps_out_of_fuel steps_try steps_map_err : go_steps.

Ltac steps_step :=
  lazymatch goal with
  | |- steps _ (mbind _ _) => apply steps_bind; [try apply _| |intros ?]
  | |- steps _ (foreach _ _) => apply steps_foreach; [try apply _|intros ? ?]
  | |- steps _ (foldlM _ _ _) => apply steps_foldlM; [try apply _|intros ? ?]
  | |- steps _ (try _) => apply steps_try
  | |- steps _ (map_err _ _) => apply steps_map_err
  | |- steps _ (if ?b then _ else _) => destruct b
  | |- steps _ (match ?x with _ => _ end) => destruct x
  end.

Ltac steps_tac :=
  repeat (intros; first [ solve [ eauto 3 with go_steps typeclass_instances ] | steps_step ]).

(** * No panic, no lack of fuel

    [total m]: from every state [m] returns a value or an error. *)

Definition returned {E A} (r : outcome E A) : Prop :=
  match r with Ok _ | Err _ => True | _ => False end.

Definition total {S E A} (m : M S E A) : Prop := ∀ s, returned (m s).1.

Section total_rules.
Context {S E : Type}.

Lemma total_ret {A} (a : A) : total (mret a : M S E A).
Proof. done. Qed.

Lemma total_throw {A} (e : E) : total (throw e : M S E A).
Proof. done. Qed.

Lemma total_gets {A} (f : S → A) : total (gets f : M S E A).
Proof. done. Qed.

Lemma total_modify f : total (modify f : M S E unit).
Proof. done. Qed.

Lemma total_deref {A} (p : option A) : is_Some p → total (deref p : M S E A).
Proof. by intros [a ->]. Qed.

Lemma total_bind {A B} (m : M S E A) (k : A → M S E B) :
  total m → (∀ a, total (k a)) → total (m ≫= k).
Proof.
  intros Hm Hk s. specialize (Hm s). unfold mbind, M_bind.
  destruct (m s) as [[a| | |] s']; simpl in *; try done. apply Hk.
Qed.

Lemma total_try {A} (m : M S E A) : total m → total (try m).
Proof. intros Hm s. specialize (Hm s). unfold try. by destruct (m s) as [[]?]. Qed.

Lemma total_map_err {A} f (m : M S E A) : total m → total (map_err f m).
Proof. intros Hm s. specialize (Hm s). unfold map_err. by destruct (m s) as [[]?]. Qed.

Lemma total_foreach {A} (l : list A) (body : A → M S E unit) :
  (∀ x, x ∈ l → total (body x)) → total (foreach l body).
Proof.
  induction l as [|x l IH]; intros Hb; simpl; [done|].
  apply total_bind; [apply Hb; set_solver|]. intros _. apply IH. set_solver.
Qed.

Lemma total_foldlM {A B} (f : B → A → M S E B) (b : B) (l : list A) :
  (∀ b x, x ∈ l → total (f b x)) → total (foldlM f b l).
Proof.
  revert b. induction l as [|x l IH]; intros b Hf; simpl; [done|].
  apply total_bind; [apply Hf; set_solver|]. intros b'. apply IH. set_solver.
Qed.
End total_rules.

Create HintDb go_total discriminated.
#[export] Hint Resolve total_ret total_throw total_gets total_modify total_deref
  total_try total_map_err : go_total.

Ltac total_step :=
  lazymatch goal with
  | |- total (mbind _ _) => apply total_bind; [|intros ?]
  | |- total (foreach _ _) => apply total_foreach; intros ? ?
  | |- total (foldlM _ _ _) => apply total_foldlM; intros ? ? ?
  | |- total (try _) => apply total_try
  | |- total (map_err _ _) => apply total_map_err
  | |- total (if ?b then _ else _) => destruct b
  | |- total (match ?x with _ => _ end) => destruct x
  end.

Ltac total_tac :=
  repeat (intros; first [ solve [ eauto 3 with go_total ] | total_step ]).

(** * Postconditions of values returned, with the state left open *)

Definition ok_post {S E A} (m : M S E A) (P : A → Prop) : Prop :=
  ∀ s a s', m s = (Ok a, s') → P a.

(** The three kinds of fact together. *)
Lemma wp_combine {S E A} (R : relation S) (P : A → Prop) (m : M S E A) s :
  total m → steps R m → ok_post m P →
  wp m (λ r s', R s s' ∧ match r with Ok a => P a | Err _ => True | _ => False end) s.
Proof.
  intros Ht Hs Hp. unfold wp. split; [apply Hs|].
  specialize (Ht s). specialize (Hp s). destruct (m s) as [[a|e| |] s']; simpl in *; eauto.
Qed.

Lemma ok_post_bind {S E A B} (m : M S E A) (k : A → M S E B) (P : A → Prop) (Q : B → Prop) :
  ok_post m P → (∀ a, P a → ok_post (k a) Q) → ok_post (m ≫= k) Q.
Proof.
  intros Hm Hk s b s'. unfold mbind, M_bind. specialize (Hm s).
  destruct (m s) as [[a|e| |] s1] eqn:Hms; try done. intros Hb. eapply Hk; eauto.
Qed.

Lemma ok_post_True {S E A} (m : M S E A) : ok_post m (λ _, True).
Proof. done. Qed.

Lemma ok_post_ret {S E A} (a : A) (P : A → Prop) : P a → ok_post (mret a : M S E A) P.
Proof. intros HP s b s'. unfold mret, M_ret. by intros [= -> ->]. Qed.

Lemma ok_post_throw {S E A} (e : E) (P : A → Prop) : ok_post (throw e : M S E A) P.
Proof. by intros s b s' [=]. Qed.

Lemma ok_post_map_err {S E A} f (m : M S E A) P : ok_post m P → ok_post (map_err f m) P.
Proof.
  intros Hm s a s'. unfold map_err. specialize (Hm s). destruct (m s) as [[]?] eqn:He; try done.
  intros [= -> ->]. eauto.
Qed.

(** * Equality of computations

    Two computations are the same when they agree from every state; the
    monad laws hold up to it and everything above respects it. *)

Definition same_run {S E A} (m1 m2 : M S E A) : Prop := ∀ s, m1 s = m2 s.
Declare Scope go_scope.
Delimit Scope go_scope with go.
Infix "≡ₘ" := same_run (at level 70, no associativity) : go_scope.
Open Scope go_scope.

#[global] Instance same_run_equivalence {S E A} : Equivalence (@same_run S E A).
Proof. split; unfold same_run; [done|by intros ??|]. intros ??? H1 H2 s. by rewrite H1. Qed.

#[global] Instance bind_proper {S E A B} :
  Proper (pointwise_relation A (@same_run S E B) ==> @same_run S E A ==> @same_run S E B) mbind.
Proof.
  intros k1 k2 Hk m1 m2 Hm s. unfold mbind, M_bind. rewrite (Hm s).
  destruct (m2 s) as [[]?]; try done. apply Hk.
Qed.

#[global] Instance map_err_proper {S E A} f :
  Proper (@same_run S E A ==> @same_run S E A) (map_err f).
Proof. intros m1 m2 Hm s. unfold map_err. by rewrite (Hm s). Qed.

#[global] Instance total_proper {S E A} : Proper (@same_run S E A ==> iff) total.
Proof. intros m1 m2 Hm. split; intros Ht s; specialize (Ht s); congruence. Qed.

#[global] Instance steps_proper {S E A} (R : relation S) :
  Proper (@same_run S E A ==> iff) (steps R).
Proof. intros m1 m2 Hm. split; intros Ht s; specialize (Ht s); congruence. Qed.

#[global] Instance ok_post_proper {S E A} :
  Proper (@same_run S E A ==> eq ==> iff) ok_post.
Proof.
  intros m1 m2 Hm P ? <-. split; intros Hp s a s' Hs; eapply Hp; [rewrite Hm|rewrite <- Hm]; done.
Qed.

Lemma bind_ret_l {S E A B} (a : A) (k : A → M S E B) : mret a ≫= k ≡ₘ k a.
Proof. done. Qed.

Lemma bind_ret_r {S E A} (m : M S E A) : m ≫= mret ≡ₘ m.
Proof. intros s. unfold mbind, M_bind. by destruct (m s) as [[]?]. Qed.

Lemma bind_bind {S E A B C} (m : M S E A) (f : A → M S E B) (g : B → M S E C) :
  (m ≫= f) ≫= g ≡ₘ m ≫= λ a, f a ≫= g.
Proof. intros s. unfold mbind, M_bind. by destruct (m s) as [[]?]. Qed.

(** * Runs that returned a value *)

Lemma bind_Ok_inv {S E A B} (m : M S E A) (k : A → M S E B) s b s' :
  (m ≫= k) s = (Ok b, s') → ∃ a s1, m s = (Ok a, s1) ∧ k a s1 = (Ok b, s').
Proof. unfold mbind, M_bind. destruct (m s) as [[a|e| |] s1] eqn:Hm; try done. eauto. Qed.

Lemma map_err_Ok_inv {S E A} (f : E → E) (m : M S E A) s a s' :
  map_err f m s = (Ok a, s') → m s = (Ok a, s').
Proof. unfold map_err. by destruct (m s) as [[]?]. Qed.

(** * Running within a relation

    [runs R m s P]: from [s], [m] returns, whatever it returns the new state
    is [R]-related to [s], and a value it returns satisfies [P]. *)

Definition runs {S E A} (R : relation S) (m : M S E A) (s : S) (P : A → S → Prop) : Prop :=
  wp m (λ r s', R s s' ∧ match r with Ok a => P a s' | Err _ => True | _ => False end) s.

Section runs_rules.
Context {S E : Type} (R : relation S) `{!PreOrder R}.

Lemma runs_ret {A} (a : A) s (P : A → S → Prop) : P a s → runs R (mret a : M S E A) s P.
Proof. intros HP. split; [reflexivity|done]. Qed.

Lemma runs_throw {A} (e : E) s (P : A → S → Prop) : runs R (throw e) s P.
Proof. split; [reflexivity|done]. Qed.

Lemma runs_mono {A} (m : M S E A) s (P Q : A → S → Prop) :
  runs R m s P → (∀ a s', R s s' → P a s' → Q a s') → runs R m s Q.
Proof. intros [HR Hm] HPQ. split; [done|]. destruct (m s) as [[]?]; simpl in *; eauto. Qed.

(** The cut rule. *)
Lemma runs_bind {A B} (m : M S E A) (k : A → M S E B) s (P : A → S → Prop) Q :
  runs R m s P → (∀ a s', R s s' → P a s' → runs R (k a) s' Q) → runs R (m ≫= k) s Q.
Proof.
  intros [HR Hm] Hk. apply wp_bind. unfold wp. destruct (m s) as [[a|e| |] s1]; simpl in *; try done.
  destruct (Hk a s1 HR Hm) as [HR' Hk']. split; [by etransitivity|done].
Qed.

Lemma runs_map_err {A} f (m : M S E A) s (P : A → S → Prop) :
  runs R m s P → runs R (map_err f m) s P.
Proof. unfold runs, wp, map_err. by destruct (m s) as [[]?]. Qed.

Lemma runs_gets {A} (f : S → A) s (P : A → S → Prop) : P (f s) s → runs R (gets f : M S E A) s P.
Proof. intros HP. split; [reflexivity|done]. Qed.

Lemma runs_modify (f : S → S) s (P : unit → S → Prop) :
  R s (f s) → P tt (f s) → runs R (modify f : M S E unit) s P.
Proof. by split. Qed.

Lemma runs_deref {A} (p : option A) a s (P : A → S → Prop) :
  p = Some a → P a s → runs R (deref p : M S E A) s P.
Proof. intros ->. apply runs_ret. Qed.

(** A call whose error the program looks at. *)
Lemma runs_try {A} (m : M S E A) s (P : E + A → S → Prop) :
  wp m (λ r s', R s s' ∧ match r with
                         | Ok a => P (inr a) s'
                         | Err e => P (inl e) s'
                         | _ => False
                         end) s →
  runs R (try m) s P.
Proof. unfold runs, wp, try. by destruct (m s) as [[]?]. Qed.

Lemma runs_foreach {A} (l : list A) (body : A → M S E unit) (I : list A → S → Prop) s
    (P : unit → S → Prop) :
  (∀ x l' s, I (x :: l') s → runs R (body x) s (λ _ s', I l' s')) →
  I l s → (∀ s', I [] s' → P tt s') → runs R (foreach l body) s P.
Proof.
  intros Hb HI HP. revert s HI. induction l as [|x l IH]; intros s HI; simpl.
  - by apply runs_ret, HP.
  - eapply runs_bind; [by apply Hb|]. intros a s' _ HI'. by apply IH.
Qed.

Lemma runs_steps {A} (m : M S E A) s (P : A → Prop) :
  total m → steps R m → ok_post m P → runs R m s (λ a _, P a).
Proof. intros. by apply wp_combine. Qed.
End runs_rules.

(** A larger relation. *)
Lemma runs_weaken {S E A} (R R' : relation S) (m : M S E A) s P :
  (∀ s', R s s' → R' s s') → runs R m s P → runs R' m s P.
Proof. intros HR [H1 H2]. split; [by apply HR|done]. Qed.

(** A first half that only reads the state. *)
Lemma runs_read {S E A B} (R : relation S) (m : M S E A) (k : A → M S E B) a s P :
  m s = (Ok a, s) → runs R (k a) s P → runs R (m ≫= k) s P.
Proof. unfold runs, wp, mbind, M_bind. by intros ->. Qed.

(** The cut rule on the goal: [rbind] leaves the postcondition of the first
    half open, [rbind P] states it. *)
Tactic Notation "rbind" :=
  lazymatch goal with |- runs ?R _ _ _ => eapply (runs_bind R) end.
Tactic Notation "rbind" uconstr(P) :=
  lazymatch goal with |- runs ?R _ _ _ => eapply (runs_bind R _ _ _ P) end.
Ltac rret := lazymatch goal with |- runs ?R _ _ _ => apply (runs_ret R) end.
Ltac rthrow := lazymatch goal with |- runs ?R _ _ _ => apply (runs_throw R) end.
Ltac rread := eapply runs_read; [done|]; cbn beta iota.

(** * Sequences of calls that leave a component of the state alone *)

(** Stepping over a call that does not touch [f]: the rest is to be proved
    from any later state with the same [f]. *)
Lemma wp_keep {S E A B X} (f : S → X) (m : M S E A) (k : A → M S E B)
    (Q : outcome E B → S → Prop) s :
  steps (same f) m →
  (∀ a s', f s' = f s → m s = (Ok a, s') → wp (k a) Q s') →
  (∀ r s', f s' = f s → is_Ok r = false → Q r s') →
  wp (m ≫= k) Q s.
Proof.
  intros Hm Hk Hfail. apply wp_bind. unfold wp. specialize (Hm s). unfold same in Hm.
  destruct (m s) as [[a|e| |] s']; simpl in *; [by apply Hk|by apply Hfail..].
Qed.

Lemma steps_bind_post {S E A B} (R : relation S) `{!PreOrder R} (m : M S E A) (P : A → Prop)
    (k : A → M S E B) :
  steps R m → ok_post m P → (∀ a, P a → steps R (k a)) → steps R (m ≫= k).
Proof.
  intros Hm HP Hk s. specialize (Hm s). specialize (HP s). unfold mbind, M_bind.
  destruct (m s) as [[a| | |] s']; simpl in *; try done.
  transitivity s'; [done|]. by eapply Hk, HP.
Qed.

(** * Lists *)

(** A filter that everything passes. *)
Lemma filter_keeps {A} (P : A → Prop) `{∀ x, Decision (P x)} (l : list A) :
  (∀ x, x ∈ l → P x) → filter P l = l.
Proof.
  induction l as [|x l IH]; intros HP; [done|].
  rewrite filter_cons, decide_True by (apply HP; by left). f_equal. apply IH.
  intros y Hy. apply HP. by right.
Qed.
