(* ===== verification/GoStd.v ===== *)
(** The parts of Go's standard library the operator computes with: the
    [strings] helpers, [fmt.Sprintf] on strings (written out as concatenation
    at its uses), the index search of [slices] and the [net.IP] functions
    ([ParseIP], [IP.To4], [IP.IsPrivate], [IP.String]).  Bytes are [Z] in
    [0, 256), a [net.IP] is [None] for the nil slice or [Some] of its bytes. *)
From S2P Require Import Prelude.
From Stdlib Require Import Ascii Lia.
Open Scope Z_scope.

(** * strings *)

Definition HasPrefix (s prefix : string) : bool := String.prefix prefix s.

Definition TrimPrefix (s prefix : string) : string :=
  if HasPrefix s prefix
  then String.substring (String.length prefix) (String.length s - String.length prefix) s
  else s.

Definition HasSuffix (s suffix : string) : bool :=
  (String.length suffix <=? String.length s)%nat &&
  String.eqb (String.substring (String.length s - String.length suffix)
                (String.length suffix) s) suffix.

Definition TrimSuffix (s suffix : string) : string :=
  if HasSuffix s suffix
  then String.substring 0 (String.length s - String.length suffix) s
  else s.

(** * slices *)

(** [slices.IndexFunc]: the first index whose element satisfies [f], or -1;
    [f] may panic, and is not called after the first hit. *)
Fixpoint IndexFunc_from {S E A} (i : Z) (l : list A) (f : A → M S E bool) : M S E Z :=
  match l with
  | [] => mret (-1)
  | x :: l' => b ← f x; if (b : bool) then mret i else IndexFunc_from (i + 1) l' f
  end.

Definition IndexFunc {S E A} (l : list A) (f : A → M S E bool) : M S E Z :=
  IndexFunc_from 0 l f.

(** [l[i]]: an index out of range panics. *)
Definition at_index {S E A} (l : list A) (i : Z) : M S E A :=
  if i <? 0 then panic else deref (l !! Z.to_nat i).

(** * net.IP *)

Abbreviation IP := (option (list Z)).

Definition char_code (c : ascii) : Z := Z.of_nat (nat_of_ascii c).

Definition between (lo hi : ascii) (c : ascii) : bool :=
  (char_code lo <=? char_code c) && (char_code c <=? char_code hi).

Definition is_char (c d : ascii) : bool := Ascii.eqb c d.

(** [netip.parseIPv4Fields]: the loop over the characters, [prev] being the
    character before the current one. *)
Fixpoint parseIPv4Fields (s : list ascii) (prev : option ascii)
    (fields : list Z) (val digLen : Z) : option (list Z) :=
  match s with
  | [] => if (length fields <? 3)%nat then None else Some (fields ++ [val])
  | c :: s' =>
      if between "0" "9" c then
        if (digLen =? 1) && (val =? 0) then None
        else
          let val := val * 10 + (char_code c - char_code "0") in
          if 255 <? val then None
          else parseIPv4Fields s' (Some c) fields val (digLen + 1)
      else if is_char c "." then
        if match prev with None => true | Some p => is_char p "." end
           || match s' with [] => true | _ => false end
        then None
        else if (length fields =? 3)%nat then None
        else parseIPv4Fields s' (Some c) (fields ++ [val]) 0 0
      else None
  end.

Definition hex_digit (c : ascii) : option Z :=
  if between "0" "9" c then Some (char_code c - char_code "0")
  else if between "a" "f" c then Some (char_code c - char_code "a" + 10)
  else if between "A" "F" c then Some (char_code c - char_code "A" + 10)
  else None.

(** The hexadecimal group at the head of [s]: its number of digits, its value
    and what follows; [None] for a group of more than four digits. *)
Fixpoint parse_group (s : list ascii) (off : nat) (acc : Z) : option (nat * Z * list ascii) :=
  match s with
  | [] => Some (off, acc, [])
  | c :: s' =>
      match hex_digit c with
      | None => Some (off, acc, s)
      | Some d =>
          if (3 <? off)%nat then None
          else if 65535 <? Z.shiftl acc 4 + d then None
          else parse_group s' (S off) (Z.shiftl acc 4 + d)
      end
  end.

(** The main loop of [netip.parseIPv6]; [ip] holds the bytes written so far,
    [n] the two-byte groups that still fit. *)
Fixpoint parseIPv6_loop (n : nat) (ip : list Z) (ellipsis : option nat)
    (s : list ascii) : option (list Z * option nat * list ascii) :=
  match n with
  | O => Some (ip, ellipsis, s)
  | S n' =>
      match parse_group s 0 0 with
      | None => None
      | Some (O, _, _) => None
      | Some (_, acc, rest) =>
          if match rest with c :: _ => is_char c "." | [] => false end then
            if match ellipsis with None => negb (length ip =? 12)%nat | Some _ => false end
            then None
            else if (16 <? length ip + 4)%nat then None
            else match parseIPv4Fields s None [] 0 0 with
                 | None => None
                 | Some v4 => Some (ip ++ v4, ellipsis, [])
                 end
          else
            let ip := ip ++ [Z.shiftr acc 8; Z.land acc 255] in
            match rest with
            | [] => Some (ip, ellipsis, [])
            | c :: rest' =>
                if negb (is_char c ":") then None
                else match rest' with
                     | [] => None
                     | d :: rest'' =>
                         if is_char d ":" then
                           match ellipsis with
                           | Some _ => None
                           | None =>
                               match rest'' with
                               | [] => Some (ip, Some (length ip), [])
                               | _ => parseIPv6_loop n' ip (Some (length ip)) rest''
                               end
                           end
                         else parseIPv6_loop n' ip ellipsis rest'
                     end
            end
      end
  end.

Definition expand_ellipsis (ip : list Z) (e : nat) : list Z :=
  take e ip ++ replicate (16 - length ip) 0 ++ drop e ip.

(** [netip.parseIPv6] without a zone (an address with a zone is no [net.IP]). *)
Definition parseIPv6 (s : list ascii) : option (list Z) :=
  let '(ellipsis, s1) :=
    match s with
    | c :: d :: rest =>
        if is_char c ":" && is_char d ":" then (Some O, rest) else (None, s)
    | _ => (None, s)
    end in
  match ellipsis, s1 with
  | Some _, [] => Some (replicate 16 0)
  | _, _ =>
      match parseIPv6_loop 8 [] ellipsis s1 with
      | Some (ip, e, []) =>
          if (length ip <? 16)%nat then
            match e with
            | None => None
            | Some e => Some (expand_ellipsis ip e)
            end
          else match e with
               | None => Some ip
               | Some _ => None
               end
      | _ => None
      end
  end.

Definition v4InV6Prefix : list Z := [0; 0; 0; 0; 0; 0; 0; 0; 0; 0; 255; 255].

(** [netip.ParseAddr]: the first of the characters [.], [:] and [%] decides. *)
Fixpoint ParseAddr_scan (s l : list ascii) : option (list Z) :=
  match l with
  | [] => None
  | c :: l' =>
      if is_char c "." then
        match parseIPv4Fields s None [] 0 0 with
        | Some v4 => Some (v4InV6Prefix ++ v4)
        | None => None
        end
      else if is_char c ":" then
        if existsb (is_char "%") s then None else parseIPv6 s
      else if is_char c "%" then None
      else ParseAddr_scan s l'
  end.

(** [net.ParseIP] *)
Definition ParseIP (s : string) : IP :=
  ParseAddr_scan (String.list_ascii_of_string s) (String.list_ascii_of_string s).

(** [IP.To4] on a slice of 16 bytes or nil *)
Definition To4 (ip : IP) : option (list Z) :=
  match ip with
  | Some b =>
      if (length b =? 4)%nat then Some b
      else if (length b =? 16)%nat && forallb (λ x, x =? 0) (take 10 b) &&
              (nth 10 b 0 =? 255) && (nth 11 b 0 =? 255)
      then Some (drop 12 b)
      else None
  | None => None
  end.

(** [IP.IsPrivate]: RFC 1918 and RFC 4193. *)
Definition IsPrivate (ip : IP) : bool :=
  match To4 ip with
  | Some b =>
      (nth 0 b 0 =? 10) ||
      ((nth 0 b 0 =? 172) && (Z.land (nth 1 b 0) 240 =? 16)) ||
      ((nth 0 b 0 =? 192) && (nth 1 b 0 =? 168))
  | None =>
      match ip with
      | Some b => (length b =? 16)%nat && (Z.land (nth 0 b 0) 254 =? 252)
      | None => false
      end
  end.

Definition digit_char (d : Z) : ascii :=
  ascii_of_nat (Z.to_nat (if d <? 10 then 48 + d else 87 + d)).

(** [netip.appendDecimal] *)
Definition decimal (x : Z) : list ascii :=
  (if 100 <=? x then [digit_char (x / 100)] else []) ++
  (if 10 <=? x then [digit_char (x / 10 mod 10)] else []) ++
  [digit_char (x mod 10)].

(** [netip.appendHex] *)
Definition hexadecimal (x : Z) : list ascii :=
  (if 4096 <=? x then [digit_char (Z.shiftr x 12)] else []) ++
  (if 256 <=? x then [digit_char (Z.land (Z.shiftr x 8) 15)] else []) ++
  (if 16 <=? x then [digit_char (Z.land (Z.shiftr x 4) 15)] else []) ++
  [digit_char (Z.land x 15)].

(** [Addr.string4] *)
Fixpoint string4 (b : list Z) : list ascii :=
  match b with
  | [] => []
  | [x] => decimal x
  | x :: b' => decimal x ++ "."%char :: string4 b'
  end.

Fixpoint groups16 (b : list Z) : list Z :=
  match b with
  | hi :: lo :: b' => Z.lor (Z.shiftl hi 8) lo :: groups16 b'
  | _ => []
  end.

Fixpoint zero_run (g : list Z) : nat :=
  match g with
  | x :: g' => if x =? 0 then S (zero_run g') else O
  | [] => O
  end.

(** The first longest run of at least two zero groups, as [Addr.appendTo6]
    finds it: [(start, length)], length 0 for none. *)
Fixpoint longest_run (g : list Z) (i : nat) (best : nat * nat) : nat * nat :=
  match g with
  | [] => best
  | _ :: g' =>
      let l := zero_run g in
      let best := if (2 <=? l)%nat && (best.2 <? l)%nat then (i, l) else best in
      longest_run g' (S i) best
  end.

Fixpoint join_groups (g : list Z) : list ascii :=
  match g with
  | [] => []
  | [x] => hexadecimal x
  | x :: g' => hexadecimal x ++ ":"%char :: join_groups g'
  end.

(** [Addr.appendTo6] *)
Definition string6 (b : list Z) : list ascii :=
  let g := groups16 b in
  let '(start, len) := longest_run g 0 (O, O) in
  if (len =? 0)%nat then join_groups g
  else join_groups (take start g) ++ [":"; ":"]%char ++ join_groups (drop (start + len) g).

(** [IP.String]; the only slices that occur are nil and 16 bytes long. *)
Definition IP_String (ip : IP) : string :=
  match ip with
  | None => "<nil>"
  | Some b =>
      String.string_of_list_ascii (match To4 ip with Some p4 => string4 p4 | None => string6 b end)
  end.

Definition IPv4 (a b c d : Z) : IP := Some (v4InV6Prefix ++ [a; b; c; d]).

#[local] Arguments String.append : simpl nomatch.

(** * Facts about strings *)

Lemma string_app_length (s t : string) :
  String.length (s +:+ t) = (String.length s + String.length t)%nat.
Proof. induction s; simpl; congruence. Qed.

Lemma string_app_assoc (s t u : string) : (s +:+ t) +:+ u = s +:+ (t +:+ u).
Proof. induction s; simpl; congruence. Qed.

Lemma string_app_nil_r (s : string) : s +:+ "" = s.
Proof. induction s; simpl; congruence. Qed.

Lemma prefix_app (p s : string) : String.prefix p (p +:+ s) = true.
Proof.
  induction p as [|c p IH]; simpl; [by destruct s|].
  by destruct (Ascii.ascii_dec c c).
Qed.

Lemma substring_all (s : string) : String.substring 0 (String.length s) s = s.
Proof. induction s; simpl; congruence. Qed.

Lemma substring_app_l (s t : string) :
  String.substring 0 (String.length s) (s +:+ t) = s.
Proof. induction s; simpl; [by destruct t|congruence]. Qed.

Lemma substring_app_r (s t : string) n :
  String.substring (String.length s) n (s +:+ t) = String.substring 0 n t.
Proof. induction s; simpl; [done|]. exact IHs. Qed.

Lemma prefix_split (p s : string) :
  String.prefix p s = true → s = p +:+ String.substring (String.length p)
                                        (String.length s - String.length p) s.
Proof.
  revert s. induction p as [|c p IH]; intros s; simpl.
  - intros _. rewrite Nat.sub_0_r. by rewrite substring_all.
  - destruct s as [|c' s]; [done|]. simpl.
    destruct (Ascii.ascii_dec c c') as [->|]; simpl; [|done].
    intros Hp. f_equal. by apply IH.
Qed.

Lemma HasPrefix_spec (s p : string) : HasPrefix s p = true ↔ ∃ t, s = p +:+ t.
Proof.
  split.
  - intros H. eexists. by apply prefix_split.
  - intros [t ->]. apply prefix_app.
Qed.

Lemma TrimPrefix_app (p s : string) : TrimPrefix (p +:+ s) p = s.
Proof.
  unfold TrimPrefix, HasPrefix. rewrite prefix_app, string_app_length.
  replace (String.length p + String.length s - String.length p)%nat
    with (String.length s) by lia.
  by rewrite substring_app_r, substring_all.
Qed.

Lemma HasSuffix_app (s t : string) : HasSuffix (s +:+ t) t = true.
Proof.
  unfold HasSuffix. rewrite string_app_length.
  replace (String.length s + String.length t - String.length t)%nat
    with (String.length s) by lia.
  rewrite substring_app_r, substring_all, String.eqb_refl, andb_true_r.
  apply Nat.leb_le. lia.
Qed.

Lemma TrimSuffix_app (s t : string) : TrimSuffix (s +:+ t) t = s.
Proof.
  unfold TrimSuffix. rewrite HasSuffix_app, string_app_length.
  replace (String.length s + String.length t - String.length t)%nat
    with (String.length s) by lia.
  apply substring_app_l.
Qed.

Lemma TrimSuffix_other (s t : string) : HasSuffix s t = false → TrimSuffix s t = s.
Proof. unfold TrimSuffix. by intros ->. Qed.

Lemma substring_split n s : (n ≤ String.length s)%nat →
  s = String.substring 0 n s +:+ String.substring n (String.length s - n) s.
Proof.
  revert n. induction s as [|c s IH]; intros [|n] Hn; simpl in *; [done|lia| |].
  - by rewrite substring_all.
  - etransitivity; [apply (f_equal (String c)), (IH n); lia|done].
Qed.

Lemma TrimSuffix_split s suffix : HasSuffix s suffix = true →
  s = TrimSuffix s suffix +:+ suffix.
Proof.
  intros Hs. unfold TrimSuffix. rewrite Hs. unfold HasSuffix in Hs.
  apply andb_true_iff in Hs as [Hl%Nat.leb_le Heq%String.eqb_eq].
  pose proof (substring_split (String.length s - String.length suffix) s) as Hsplit.
  replace (String.length s - (String.length s - String.length suffix))%nat
    with (String.length suffix) in Hsplit by lia.
  rewrite Heq in Hsplit. apply Hsplit. lia.
Qed.

(** * Facts about the index search *)

Section index_func.
Context {S E A : Type}.

Definition first_index (p : A → bool) (l : list A) : Z :=
  match list_find p l with Some (i, _) => Z.of_nat i | None => -1 end.

Lemma IndexFunc_from_run (l : list A) (f : A → M S E bool) (p : A → bool) s i :
  0 ≤ i → (∀ x, x ∈ l → f x s = (Ok (p x), s)) →
  IndexFunc_from i l f s
  = (Ok (match list_find p l with Some (n, _) => i + Z.of_nat n | None => -1 end), s).
Proof.
  revert i. induction l as [|x l IH]; intros i Hi Hf; [done|]. simpl.
  unfold mbind, M_bind. rewrite Hf by set_solver.
  destruct (p x) eqn:Hp; simpl.
  - unfold mret, M_ret. repeat f_equal. lia.
  - rewrite IH by (try lia; set_solver).
    destruct (list_find p l) as [[n y]|]; simpl; [|done]. do 2 f_equal. lia.
Qed.

(** When the predicate reads fields that are all set, the search is the plain
    one. *)
Lemma IndexFunc_run (l : list A) (f : A → M S E bool) (p : A → bool) s :
  (∀ x, x ∈ l → f x s = (Ok (p x), s)) →
  IndexFunc l f s = (Ok (first_index p l), s).
Proof. intros Hf. unfold IndexFunc, first_index. by rewrite (IndexFunc_from_run _ _ p). Qed.

Lemma at_index_nat (l : list A) (n : nat) (x : A) (s : S) :
  l !! n = Some x → at_index l (Z.of_nat n) s = ((Ok x, s) : outcome E A * S).
Proof.
  intros H. unfold at_index. destruct (Z.ltb_spec (Z.of_nat n) 0); [lia|].
  by rewrite Nat2Z.id, H.
Qed.

(** The index by a decidable property. *)
Lemma first_index_of (P : A → Prop) `{∀ x, Decision (P x)} (p : A → bool) (l : list A) :
  (∀ x, p x = true ↔ P x) →
  first_index p l = match list_find P l with Some (i, _) => Z.of_nat i | None => -1 end.
Proof.
  intros Hp. unfold first_index.
  assert (list_find p l = list_find P l) as ->; [|done]. apply list_find_ext.
  intros x. by rewrite <- Hp, Is_true_true.
Qed.

Lemma steps_IndexFunc (R : relation S) `{!PreOrder R} (l : list A) (f : A → M S E bool) :
  (∀ x, steps R (f x)) → steps R (IndexFunc l f).
Proof.
  intros Hf. unfold IndexFunc. generalize 0.
  induction l as [|x l IH]; intros i; simpl; [by apply steps_ret|].
  apply steps_bind; [done|done|]. intros []; [by apply steps_ret|done].
Qed.

Lemma steps_at_index (R : relation S) `{!PreOrder R} (l : list A) i :
  steps R (at_index l i : M S E A).
Proof. unfold at_index. destruct (i <? 0); [by apply steps_panic|by apply steps_deref]. Qed.
End index_func.

#[export] Hint Resolve steps_at_index : go_steps.

(** * Facts about IPv4 addresses *)

Lemma digit_char_spec d : 0 ≤ d < 10 →
  between "0" "9" (digit_char d) = true ∧
  char_code (digit_char d) - char_code "0" = d ∧
  is_char (digit_char d) "." = false ∧ is_char (digit_char d) ":" = false ∧
  is_char (digit_char d) "%" = false.
Proof.
  intros Hd.
  assert (d = 0 ∨ d = 1 ∨ d = 2 ∨ d = 3 ∨ d = 4 ∨ d = 5 ∨ d = 6 ∨ d = 7 ∨ d = 8 ∨ d = 9)
    as H by lia.
  by destruct_or! H; subst.
Qed.

Lemma parse_digit d s prev fields val n : 0 ≤ d < 10 →
  n ≠ 1 ∨ val ≠ 0 → val * 10 + d ≤ 255 →
  parseIPv4Fields (digit_char d :: s) prev fields val n
  = parseIPv4Fields s (Some (digit_char d)) fields (val * 10 + d) (n + 1).
Proof.
  intros Hd Hz Hv. destruct (digit_char_spec d Hd) as (Hb & Hc & _).
  simpl. rewrite Hb, Hc.
  destruct ((n =? 1) && (val =? 0)) eqn:Hg; [lia|].
  by destruct (Z.ltb_spec 255 (val * 10 + d)); [lia|].
Qed.

(** Reading back one printed field. *)
Lemma parse_decimal x s prev fields : 0 ≤ x < 256 →
  ∃ d n, 0 ≤ d < 10 ∧
    parseIPv4Fields (decimal x ++ s) prev fields 0 0
    = parseIPv4Fields s (Some (digit_char d)) fields x n.
Proof.
  intros Hx. exists (x mod 10). unfold decimal.
  pose proof (Z.mod_pos_bound x 10 ltac:(lia)).
  assert (x / 10 mod 10 = x / 10 - 10 * (x / 100)) as Hmid.
  { rewrite Z.mod_eq, Z.div_div by lia. done. }
  destruct (Z.leb_spec 100 x); [|destruct (Z.leb_spec 10 x)].
  - rewrite (proj2 (Z.leb_le 10 x)) by lia. exists (0 + 1 + 1 + 1). split; [done|].
    rewrite Hmid. cbn [app].
    rewrite !parse_digit by (Z.to_euclidean_division_equations; lia).
    f_equal. Z.to_euclidean_division_equations; lia.
  - exists (0 + 1 + 1). split; [done|]. rewrite Hmid. cbn [app].
    rewrite !parse_digit by (Z.to_euclidean_division_equations; lia).
    f_equal. Z.to_euclidean_division_equations; lia.
  - exists (0 + 1). split; [done|]. cbn [app].
    rewrite !parse_digit by (Z.to_euclidean_division_equations; lia).
    f_equal. Z.to_euclidean_division_equations; lia.
Qed.

Lemma parse_dot s d fields val n : 0 ≤ d < 10 → s ≠ [] → length fields ≠ 3%nat →
  parseIPv4Fields ("."%char :: s) (Some (digit_char d)) fields val n
  = parseIPv4Fields s (Some "."%char) (fields ++ [val]) 0 0.
Proof.
  intros Hd Hs Hf. destruct (digit_char_spec d Hd) as (_ & _ & Hdot & _).
  simpl. rewrite Hdot. destruct s; [done|]. simpl.
  by destruct (Nat.eqb_spec (length fields) 3).
Qed.

Definition byte (x : Z) : Prop := 0 ≤ x < 256.

Lemma decimal_app_nonempty x s : decimal x ++ s ≠ [].
Proof. unfold decimal. intros H. by apply app_nil in H as [[_ [_ ?]%app_nil]%app_nil _]. Qed.

Lemma parse_string4 a b c d : byte a → byte b → byte c → byte d →
  parseIPv4Fields (string4 [a; b; c; d]) None [] 0 0 = Some [a; b; c; d].
Proof.
  intros Ha Hb Hc Hd. unfold string4.
  destruct (parse_decimal a ("."%char :: decimal b ++ "."%char :: decimal c ++ "."%char :: decimal d)
              None [] Ha) as (? & ? & ? & ->).
  rewrite parse_dot by (try done; apply decimal_app_nonempty). simpl.
  destruct (parse_decimal b ("."%char :: decimal c ++ "."%char :: decimal d)
              (Some "."%char) [a] Hb) as (? & ? & ? & ->).
  rewrite parse_dot by (try done; apply decimal_app_nonempty). simpl.
  destruct (parse_decimal c ("."%char :: decimal d) (Some "."%char) [a; b] Hc) as (? & ? & ? & ->).
  rewrite parse_dot by (try done; pose proof (decimal_app_nonempty d []) as Hn;
                        by rewrite app_nil_r in Hn). simpl.
  destruct (parse_decimal d [] (Some "."%char) [a; b; c] Hd) as (? & ? & ? & He).
  rewrite app_nil_r in He. by rewrite He.
Qed.

(** The first of [.], [:], [%] in a printed IPv4 address is a dot. *)
Lemma scan_digit s d l : 0 ≤ d < 10 → ParseAddr_scan s (digit_char d :: l) = ParseAddr_scan s l.
Proof. intros Hd. destruct (digit_char_spec d Hd) as (_ & _ & H1 & H2 & H3). simpl. by rewrite H1, H2, H3. Qed.

Lemma scan_decimal s x l : byte x → ParseAddr_scan s (decimal x ++ l) = ParseAddr_scan s l.
Proof.
  intros Hx. unfold decimal, byte in *.
  destruct (100 <=? x), (10 <=? x); cbn [app];
    rewrite !scan_digit by (Z.to_euclidean_division_equations; lia); done.
Qed.

(** [ParseIP] reads back what [String] prints, for every IPv4 address. *)
Lemma ParseIP_String_v4 a b c d : byte a → byte b → byte c → byte d →
  ParseIP (IP_String (IPv4 a b c d)) = IPv4 a b c d.
Proof.
  intros Ha Hb Hc Hd. unfold ParseIP, IP_String, IPv4. simpl To4. cbn -[string4 ParseAddr_scan].
  rewrite String.list_ascii_of_string_of_list_ascii.
  assert (∀ s, ParseAddr_scan s (string4 [a; b; c; d])
               = match parseIPv4Fields s None [] 0 0 with
                 | Some v4 => Some (v4InV6Prefix ++ v4) | None => None end) as Hscan.
  { intros s. unfold string4. by rewrite scan_decimal. }
  rewrite Hscan, parse_string4; done.
Qed.

(** The 172.16.0.0/12 test on the second byte, over all 256 values. *)
Lemma land_240 b : byte b → (Z.land b 240 =? 16) = ((16 <=? b) && (b <? 32)).
Proof.
  intros Hb. unfold byte in Hb.
  assert (forallb (λ n, Bool.eqb (Z.land (Z.of_nat n) 240 =? 16)
            ((16 <=? Z.of_nat n) && (Z.of_nat n <? 32))) (seq 0 256) = true) as H
    by by vm_compute.
  rewrite forallb_forall in H.
  specialize (H (Z.to_nat b) ltac:(apply in_seq; lia)).
  rewrite Z2Nat.id in H by lia. by apply Bool.eqb_prop.
Qed.

Lemma IsPrivate_v4 a b c d : byte b →
  IsPrivate (IPv4 a b c d) = true ↔
  a = 10 ∨ (a = 172 ∧ 16 ≤ b < 32) ∨ (a = 192 ∧ b = 168).
Proof.
  intros Hb. unfold IsPrivate.
  replace (To4 (IPv4 a b c d)) with (Some [a; b; c; d]) by done. cbn [nth].
  rewrite land_240 by done. lia.
Qed.
