(* ===== verification/Errors.v ===== *)
(** Errors: the values a Go [error] takes in this program, the interface of
    the [microerror] package, and the error variables and predicates of
    azure/errors.go, azure/services/dns/errors.go and pkg/errors/errors.go. *)
From S2P Require Import Prelude.

(** A non-nil [error].
    - [MicroError v] is the package variable [v] of type [*microerror.Error];
      two of them are the same pointer exactly when they are the same variable;
    - [NewError] is what [errors.New] and [fmt.Errorf] (without [%w]) return;
    - [ResponseError] is an [*azcore.ResponseError] with its [ErrorCode];
    - [StatusError] is an error of the Kubernetes API with its reason;
    - [Wrapped tag e] is an error of any other type (named by [tag]) whose
      [Unwrap] method returns [e]. *)
Inductive GoError : Type :=
| MicroError (variable : string)
| NewError (text : string)
| ResponseError (ErrorCode : string)
| StatusError (reason : string)
| Wrapped (tag : string) (inner : GoError).

#[global] Instance GoError_eq_dec : EqDecision GoError.
Proof. solve_decision. Defined.

(** [errors.As(err, &rerr)] with a [*azcore.ResponseError] target: the first
    error of the [Unwrap] chain that has that type. *)
Fixpoint errors_As_ResponseError (e : GoError) : option string :=
  match e with
  | ResponseError code => Some code
  | Wrapped _ e' => errors_As_ResponseError e'
  | _ => None
  end.

(** * The microerror package *)

Class Microerror := {
  Mask : GoError → GoError;
  Maskf : GoError → string → GoError;
  Cause : GoError → GoError;
}.

(** What the package documents: masking keeps the cause and the [Unwrap]
    chain, an error that wraps nothing is its own cause, and a masked error is
    of the package's own type. *)
Class MicroerrorLaws `{Microerror} := {
  Cause_Mask e : Cause (Mask e) = Cause e;
  Cause_Maskf e m : Cause (Maskf e m) = Cause e;
  Cause_variable v : Cause (MicroError v) = MicroError v;
  Cause_response c : Cause (ResponseError c) = ResponseError c;
  As_Mask e : errors_As_ResponseError (Mask e) = errors_As_ResponseError e;
  Mask_not_response e c : Mask e ≠ ResponseError c;
}.

(** * azure/errors.go *)

Definition ParentResourceNotFoundErrorCode : string := "ParentResourceNotFound".

(** The argument may be the nil error ([None]). *)
Definition IsParentResourceNotFound (err : option GoError) : bool :=
  match err with
  | None => false
  | Some e =>
      match errors_As_ResponseError e with
      | Some code => bool_decide (code = ParentResourceNotFoundErrorCode)
      | None => false
      end
  end.

(** * pkg/errors/errors.go *)

Definition InvalidConfigError : GoError := MicroError "invalidConfigError".
Definition FatalError : GoError := MicroError "FatalError".

(** * azure/services/dns/errors.go *)

Definition resourceGroupNotFoundErrorMessage : string := "ResourceGroupNotFound".
Definition ingressNotReadyError : GoError := MicroError "ingressNotReadyError".
Definition tooManyICServicesError : GoError := MicroError "tooManyICServicesError".
Definition resourceNotFoundError : GoError := MicroError "resourceNotFoundError".

Section predicates.
Context `{Microerror}.

Definition IsInvalidConfig (err : GoError) : bool :=
  bool_decide (Cause err = InvalidConfigError).

Definition IsFatal (err : GoError) : bool :=
  bool_decide (Cause err = FatalError).

Definition IsIngressNotReady (err : GoError) : bool :=
  bool_decide (Cause err = ingressNotReadyError).

Definition IsTooManyICServices (err : GoError) : bool :=
  bool_decide (Cause err = tooManyICServicesError).

(** The second test is a type assertion on [err] itself, not on its cause. *)
Definition IsResourceNotFoundError (err : GoError) : bool :=
  if bool_decide (Cause err = resourceNotFoundError) then true
  else match err with
       | ResponseError code => bool_decide (code = resourceGroupNotFoundErrorMessage)
       | _ => false
       end.

Context `{!MicroerrorLaws}.

Lemma IsParentResourceNotFound_Mask e :
  IsParentResourceNotFound (Some (Mask e)) = IsParentResourceNotFound (Some e).
Proof. simpl. by rewrite As_Mask. Qed.

Lemma IsResourceNotFoundError_Mask_variable :
  IsResourceNotFoundError (Mask resourceNotFoundError) = true.
Proof. unfold IsResourceNotFoundError. by rewrite Cause_Mask, (Cause_variable "resourceNotFoundError"). Qed.

Lemma IsIngressNotReady_Mask e : IsIngressNotReady (Mask e) = IsIngressNotReady e.
Proof. unfold IsIngressNotReady. by rewrite Cause_Mask. Qed.

Lemma IsInvalidConfig_Maskf m : IsInvalidConfig (Maskf InvalidConfigError m) = true.
Proof. unfold IsInvalidConfig. by rewrite Cause_Maskf, (Cause_variable "invalidConfigError"). Qed.

(** Once masked, an Azure response error is no longer recognised: the clients
    have to classify it before they mask. *)
Lemma IsResourceNotFoundError_Mask_response c :
  IsResourceNotFoundError (Mask (ResponseError c)) = false.
Proof.
  unfold IsResourceNotFoundError. rewrite Cause_Mask, Cause_response. simpl.
  destruct (Mask (ResponseError c)) eqn:HM; try done.
  by apply Mask_not_response in HM.
Qed.
End predicates.

(** * Calls of external services *)

(** A call of a service or library that may change the outside world [W] and
    may fail. *)
Definition io (W A : Type) : Type := W → (GoError + A) * W.
