(* ===== verification/Metrics.v ===== *)
(** pkg/metrics/metrics.go: the operator's Prometheus metrics.  The client
    library is an interface; the module's variables are a record of vectors. *)
From S2P Require Import Prelude.
Open Scope Z_scope.

Class Prometheus := {
  GaugeVec : Type;
  CounterVec : Type;
  (** [prometheus.NewGaugeVec(opts, labelNames)] *)
  NewGaugeVec : list string → GaugeVec;
  NewCounterVec : list string → CounterVec;
  (** the label names of a vector *)
  GaugeNames : GaugeVec → list string;
  (** [v.WithLabelValues(lvs...).Set(x)] *)
  GaugeSet : GaugeVec → list string → Z → GaugeVec;
  (** the exported series, [None] for a series that does not exist *)
  GaugeValue : GaugeVec → list string → option Z;
  (** [v.DeletePartialMatch(labels)]: the vector left and the number deleted *)
  DeletePartialMatch : GaugeVec → list (string * string) → GaugeVec * nat;
  (** [v.WithLabelValues(lv).Inc()] *)
  CounterInc : CounterVec → string → CounterVec;
  CounterValue : CounterVec → string → nat;
}.

(** The labels of a series match when each is among its name-value pairs. *)
Definition labels_match (names : list string) (labels : list (string * string))
    (lvs : list string) : bool :=
  forallb (λ kv, bool_decide (kv ∈ zip names lvs)) labels.

Class PrometheusLaws `{Prometheus} := {
  GaugeNames_New names : GaugeNames (NewGaugeVec names) = names;
  GaugeNames_Set v lvs x : GaugeNames (GaugeSet v lvs x) = GaugeNames v;
  GaugeNames_Delete v labels : GaugeNames (DeletePartialMatch v labels).1 = GaugeNames v;
  GaugeValue_Delete v labels lvs :
    GaugeValue (DeletePartialMatch v labels).1 lvs
    = if labels_match (GaugeNames v) labels lvs then None else GaugeValue v lvs;
  GaugeValue_Set_eq v lvs x : GaugeValue (GaugeSet v lvs x) lvs = Some x;
  GaugeValue_Set_ne v lvs lvs' x :
    lvs ≠ lvs' → GaugeValue (GaugeSet v lvs x) lvs' = GaugeValue v lvs';
  CounterValue_Inc_eq v l : CounterValue (CounterInc v l) l = S (CounterValue v l);
  CounterValue_Inc_ne v l l' :
    l ≠ l' → CounterValue (CounterInc v l) l' = CounterValue v l';
}.

Definition MetricZone : string := "zone".
Definition ZoneType : string := "type".
Definition ZoneTypePrivate : string := "private".
Definition ZoneTypePublic : string := "public".

Section metrics.
Context `{Prometheus}.

Record Metrics := mkMetrics {
  ZoneInfo : GaugeVec;
  ClusterZoneRecords : GaugeVec;
  RecordInfo : GaugeVec;
  AzureRequestError : CounterVec;
  AzureRequest : CounterVec;
}.

(** The package's variables as they are initialised. *)
Definition initialMetrics : Metrics := {|
  ZoneInfo :=
    NewGaugeVec [MetricZone; ZoneType; "resource_group"; "tenant_id"; "subscription_id"]%string;
  ClusterZoneRecords := NewGaugeVec [MetricZone; ZoneType];
  RecordInfo := NewGaugeVec [MetricZone; ZoneType; "fqdn"; "ip"; "ttl"]%string;
  AzureRequestError := NewCounterVec ["method"]%string;
  AzureRequest := NewCounterVec ["method"]%string;
|}.

Definition ZoneInfo_Set (lvs : list string) (x : Z) (m : Metrics) : Metrics :=
  mkMetrics (GaugeSet (ZoneInfo m) lvs x) (ClusterZoneRecords m) (RecordInfo m)
    (AzureRequestError m) (AzureRequest m).

Definition ClusterZoneRecords_Set (lvs : list string) (x : Z) (m : Metrics) : Metrics :=
  mkMetrics (ZoneInfo m) (GaugeSet (ClusterZoneRecords m) lvs x) (RecordInfo m)
    (AzureRequestError m) (AzureRequest m).

Definition RecordInfo_Set (lvs : list string) (x : Z) (m : Metrics) : Metrics :=
  mkMetrics (ZoneInfo m) (ClusterZoneRecords m) (GaugeSet (RecordInfo m) lvs x)
    (AzureRequestError m) (AzureRequest m).

Definition AzureRequestError_Inc (method : string) (m : Metrics) : Metrics :=
  mkMetrics (ZoneInfo m) (ClusterZoneRecords m) (RecordInfo m)
    (CounterInc (AzureRequestError m) method) (AzureRequest m).

Definition AzureRequest_Inc (method : string) (m : Metrics) : Metrics :=
  mkMetrics (ZoneInfo m) (ClusterZoneRecords m) (RecordInfo m)
    (AzureRequestError m) (CounterInc (AzureRequest m) method).

(** [deleteClusterMetrics] of controllers/cluster_controller.go: the series of
    one zone in the three gauge vectors, and how many went. *)
Definition deleteClusterMetrics (zoneName zoneType : string) (m : Metrics) : Metrics * nat :=
  let labels := [(MetricZone, zoneName); (ZoneType, zoneType)] in
  let '(zi, n1) := DeletePartialMatch (ZoneInfo m) labels in
  let '(zr, n2) := DeletePartialMatch (ClusterZoneRecords m) labels in
  let '(ri, n3) := DeletePartialMatch (RecordInfo m) labels in
  (mkMetrics zi zr ri (AzureRequestError m) (AzureRequest m), (n1 + n2 + n3)%nat).

(** ** Deleting the series of a zone *)

Context `{!PrometheusLaws}.

(** The vectors have the label names they were created with. *)
Definition metrics_named (m : Metrics) : Prop :=
  GaugeNames (ZoneInfo m) = GaugeNames (ZoneInfo initialMetrics) ∧
  GaugeNames (ClusterZoneRecords m) = GaugeNames (ClusterZoneRecords initialMetrics) ∧
  GaugeNames (RecordInfo m) = GaugeNames (RecordInfo initialMetrics).

Lemma ZoneInfo_Set_named lvs x m : metrics_named m → metrics_named (ZoneInfo_Set lvs x m).
Proof. intros (?&?&?). split_and!; simpl; by rewrite ?GaugeNames_Set. Qed.

Lemma ClusterZoneRecords_Set_named lvs x m :
  metrics_named m → metrics_named (ClusterZoneRecords_Set lvs x m).
Proof. intros (?&?&?). split_and!; simpl; by rewrite ?GaugeNames_Set. Qed.

Lemma RecordInfo_Set_named lvs x m : metrics_named m → metrics_named (RecordInfo_Set lvs x m).
Proof. intros (?&?&?). split_and!; simpl; by rewrite ?GaugeNames_Set. Qed.

Lemma zone_labels_match (names lvs : list string) (zone ty zone' ty' : string) :
  MetricZone ∉ names → ZoneType ∉ names →
  labels_match (MetricZone :: ZoneType :: names) [(MetricZone, zone); (ZoneType, ty)]
    (zone' :: ty' :: lvs) = bool_decide (zone' = zone ∧ ty' = ty).
Proof.
  intros Hz Ht. unfold labels_match. simpl.
  assert (∀ k v, k ∉ names → (k, v) ∉ zip names lvs) as Hzip.
  { intros k v Hk Hin. by apply elem_of_zip_l in Hin. }
  rewrite andb_true_r, <- bool_decide_and. apply bool_decide_ext. rewrite !elem_of_cons.
  pose proof (Hzip _ zone Hz). pose proof (Hzip _ ty Ht).
  split.
  - intros [[[= <-]|[[=]|?]] [[=]|[[= <-]|?]]]; try tauto.
  - intros [-> ->]. tauto.
Qed.
End metrics.
