(* ===== verification/Kube.v ===== *)
(** The Kubernetes side of the operator's environment: the fields of the
    objects it reads and writes, the calls of the API,
    and the library functions it calls on unstructured objects.  Everything
    outside src/ is a field of the class [Kubernetes]. *)
From S2P Require Import Prelude Errors.
Open Scope Z_scope.

(** * Go values *)

(** A pointer that is compared by address: the address and what is stored
    there.  Pointers that are only ever read through are plain options. *)
Record ptr (A : Type) := mkptr { addr : Z; pointee : A }.
Arguments mkptr {A}.
Arguments addr {A}.
Arguments pointee {A}.

(** A Go [map[string]string]: [None] is the nil map.  Reading a missing key, or
    any key of the nil map, gives the empty string. *)
Abbreviation strmap := (option (gmap string string)).

Definition map_get (m : strmap) (k : string) : string :=
  default "" (m ≫= λ m, m !! k).

(** [v, ok := m[k]] *)
Definition map_get_ok (m : strmap) (k : string) : option string :=
  m ≫= λ m, m !! k.

(** * Objects *)

Record ObjectReference := { ref_Name : string; ref_Namespace : string }.

(** [infrav1.IdentityType]; the three kinds the source distinguishes. *)
Inductive IdentityType := UserAssignedMSI | ManualServicePrincipal | WorkloadIdentity
  | OtherIdentity (name : string).

#[global] Instance IdentityType_eq_dec : EqDecision IdentityType.
Proof. solve_decision. Defined.

Record AzureClusterIdentity := {
  identity_Type : IdentityType;
  identity_ClientID : string;
  identity_TenantID : string;
  identity_ClientSecret : ObjectReference;
}.

(** The empty struct [&infrav1.AzureClusterIdentity{}]. *)
Definition zero_AzureClusterIdentity : AzureClusterIdentity :=
  {| identity_Type := OtherIdentity ""; identity_ClientID := ""; identity_TenantID := "";
     identity_ClientSecret := {| ref_Name := ""; ref_Namespace := "" |} |}.

(** [corev1.Secret]: its [Data]. *)
Record Secret := { secret_Data : gmap string string }.
Definition zero_Secret : Secret := {| secret_Data := ∅ |}.

Record PrivateEndpoint := {
  pe_Name : string;
  PrivateIPAddresses : list string;
}.

Record Subnet := { PrivateEndpoints : list PrivateEndpoint }.

Record AzureClusterSpec := {
  spec_ResourceGroup : string;
  spec_SubscriptionID : string;
  spec_IdentityRef : option ObjectReference;
  spec_VnetID : string;
  spec_Subnets : list Subnet;
}.

Definition zero_AzureClusterSpec : AzureClusterSpec :=
  {| spec_ResourceGroup := ""; spec_SubscriptionID := ""; spec_IdentityRef := None;
     spec_VnetID := ""; spec_Subnets := [] |}.

(** [clusterv1beta1.Condition]; [LastTransitionTime] is [None] for the zero
    time. *)
Record Condition := mkCondition {
  cond_Type : string;
  cond_Status : string;
  cond_Reason : string;
  cond_Message : string;
  cond_LastTransitionTime : option Z;
}.

#[global] Instance Condition_eq_dec : EqDecision Condition.
Proof. solve_decision. Defined.

Record AzureCluster := {
  ac_Name : string;
  ac_Namespace : string;
  ac_Spec : AzureClusterSpec;
  (** [Status.Conditions] *)
  ac_Conditions : list Condition;
}.

Definition zero_AzureCluster : AzureCluster :=
  {| ac_Name := ""; ac_Namespace := ""; ac_Spec := zero_AzureClusterSpec; ac_Conditions := [] |}.

(** [capi.Cluster]; [cluster_Name_addr] is the address [&cluster.Name]. *)
Record Cluster := {
  cluster_Name : string;
  cluster_Name_addr : Z;
  cluster_Namespace : string;
  cluster_Annotations : strmap;
  cluster_DeletionTimestamp : option Z;
  cluster_Phase : string;
  ControlPlaneEndpoint_Host : string;
  InfrastructureRef_Name : string;
}.

Record Service_obj := {
  svc_Annotations : strmap;
  svc_Type : string;
  (** the [IP] fields of [Status.LoadBalancer.Ingress] *)
  svc_IngressIPs : list string;
}.

(** [corev1.ServiceTypeLoadBalancer] *)
Definition ServiceTypeLoadBalancer : string := "LoadBalancer".

Record NamespacedName := { nn_Name : string; nn_Namespace : string }.

(** * The environment *)

Class KubeTypes := {
  (** [map[string]interface{}] items of a status *)
  JMap : Type;
  (** everything in an unstructured object besides the metadata below *)
  JBody : Type;
  (** the values behind controller-runtime's [client.Client] *)
  Client : Type;
}.

(** [unstructured.Unstructured]: the metadata the operator reads and writes,
    and the rest. *)
Record Unstructured `{KubeTypes} := mkUnstructured {
  u_Kind : string;
  u_Name : string;
  u_Namespace : string;
  u_Annotations : strmap;
  u_Finalizers : list string;
  u_DeletionTimestamp : option Z;
  u_Body : JBody;
}.

Arguments mkUnstructured {_}.

(** An element of a [[]interface{}]. *)
Inductive JItem `{KubeTypes} := ItemMap (m : JMap) | ItemOther.

Class Kubernetes (W : Type) := {
  kube_types :: KubeTypes;
  (** [client.Client] at the types it is used with.  [Update] and
      [StatusUpdate] return the object as the response decoded into it leaves
      it. *)
  Get_AzureCluster : Client → NamespacedName → io W AzureCluster;
  Get_AzureClusterIdentity : Client → NamespacedName → io W AzureClusterIdentity;
  Get_Secret : Client → NamespacedName → io W Secret;
  Get_Cluster : Client → NamespacedName → io W Cluster;
  (** [List] of services in a namespace, with a label selector or none *)
  List_Services : Client → string → option string → io W (list Service_obj);
  Update : Client → Unstructured → io W Unstructured;
  StatusUpdate : Client → Unstructured → io W Unstructured;
  (** [util.GetClusterByName] of cluster-api *)
  GetClusterByName : Client → NamespacedName → io W Cluster;
  (** [external.GetObjectFromContractVersionedRef] for the cluster's
      [Spec.InfrastructureRef] *)
  GetObjectFromContractVersionedRef : Client → Cluster → io W Unstructured;
  (** [apierrors.IsNotFound] *)
  apierrors_IsNotFound : GoError → bool;
  (** [runtime.DefaultUnstructuredConverter.FromUnstructured] into an
      [AzureCluster] and into a [Condition], [ToUnstructured] of a condition *)
  FromUnstructured_AzureCluster : Unstructured → GoError + AzureCluster;
  FromUnstructured_Condition : JMap → GoError + Condition;
  ToUnstructured_Condition : Condition → GoError + JMap;
  (** [unstructured.NestedSlice(obj.Object, "status", "conditions")] and
      [SetNestedSlice] with the same path *)
  NestedSlice_conditions : JBody → GoError + option (list JItem);
  SetNestedSlice_conditions : JBody → list JItem → GoError + JBody;
  (** controllerutil's finalizer functions *)
  ContainsFinalizer : Unstructured → string → bool;
  AddFinalizer : Unstructured → string → Unstructured;
  RemoveFinalizer : Unstructured → string → Unstructured;
  (** [annotations.IsPaused] of cluster-api *)
  annotations_IsPaused : Cluster → Unstructured → bool;
  (** [metav1.Now] *)
  Now : W → Z;
  (** [micrologger.New], [k8srestconfig.New] and [k8sclient.NewClients] of
      giantswarm/k8sclient; [None] stands for the in-cluster configuration,
      [Some kubeconfig] for a configuration read from a kubeconfig *)
  micrologger_New : io W unit;
  RestConfig : Type;
  k8srestconfig_New : option string → io W RestConfig;
  k8sclient_NewClients : RestConfig → io W Client;
}.
