(* ===== verification/State.v ===== *)
(** The state the operator's code runs in: the outside world [W] (Azure and
    the Kubernetes API), the Prometheus metrics, the lazily filled fields of
    the current [infracluster.Scope] and the shared infrastructure cluster
    object. *)
From S2P Require Import Prelude Errors Metrics Kube.

(** The fields of [infracluster.Scope] that its methods assign. *)
Record ScopeCache `{KubeTypes} := mkCache {
  managementCluster : option AzureCluster;
  managementClusterIdentity : option AzureClusterIdentity;
  clusterK8sClient : option Client;
}.

Arguments mkCache {_}.

Record St (W : Type) `{KubeTypes, Prometheus} := mkSt {
  world : W;
  metrics : Metrics;
  cache : ScopeCache;
  (** the [*unstructured.Unstructured] the reconciler, the scope and the
      patcher share *)
  infraCluster : Unstructured;
}.
Arguments mkSt {W _ _}.
Arguments world {W _ _}.
Arguments metrics {W _ _}.
Arguments cache {W _ _}.
Arguments infraCluster {W _ _}.

(** A Go function of the operator: it may change the state and return an
    error or panic. *)
Abbreviation G W := (M (St W) GoError).

Section state.
Context {W : Type} `{KubeTypes, Prometheus}.

Definition set_world (w : W) (s : St W) : St W :=
  mkSt w (metrics s) (cache s) (infraCluster s).
Definition set_metrics (m : Metrics) (s : St W) : St W :=
  mkSt (world s) m (cache s) (infraCluster s).
Definition set_cache (c : ScopeCache) (s : St W) : St W :=
  mkSt (world s) (metrics s) c (infraCluster s).
Definition set_infraCluster (u : Unstructured) (s : St W) : St W :=
  mkSt (world s) (metrics s) (cache s) u.

(** Calling an external function. *)
Definition call {A} (f : io W A) : G W A := λ s,
  let '(r, w') := f (world s) in
  (match r with inl e => Err e | inr a => Ok a end, set_world w' s).

Definition upd_metrics (f : Metrics → Metrics) : G W unit :=
  modify (λ s, set_metrics (f (metrics s)) s).

Definition upd_cache (f : ScopeCache → ScopeCache) : G W unit :=
  modify (λ s, set_cache (f (cache s)) s).

(** A library function that is no call of a service: its result or error. *)
Definition lift_sum {A} (r : GoError + A) : G W A :=
  match r with inl e => throw e | inr a => mret a end.

(** Running a method of a struct that holds its own copy of the scope: what it
    caches there is gone when the copy is. *)
Definition with_scope_copy {A} (m : G W A) : G W A := λ s,
  let '(r, s') := m s in (r, set_cache (cache s) s').

Lemma call_run {A} (f : io W A) (s : St W) r w :
  f (world s) = (r, w) →
  call f s = (match r with inl e => Err e | inr a => Ok a end, set_world w s).
Proof. unfold call. by intros ->. Qed.

Lemma call_run_Err {A} (f : io W A) (s : St W) e w :
  f (world s) = (inl e, w) → call f s = (Err e, set_world w s).
Proof. unfold call. by intros ->. Qed.

Lemma call_run_Ok {A} (f : io W A) (s : St W) a s' :
  call f s = (Ok a, s') → f (world s) = (inr a, world s').
Proof. unfold call. destruct (f (world s)) as [[e|b] w]; by intros [= -> <-]. Qed.

Lemma wp_call {A} (f : io W A) (Q : outcome GoError A → St W → Prop) s :
  (∀ r w, f (world s) = (r, w) →
    Q (match r with inl e => Err e | inr a => Ok a end) (set_world w s)) →
  wp (call f) Q s.
Proof. unfold wp, call. destruct (f (world s)) as [r w] eqn:Hf. eauto. Qed.

Lemma wp_upd_metrics f (Q : outcome GoError unit → St W → Prop) s :
  Q (Ok tt) (set_metrics (f (metrics s)) s) → wp (upd_metrics f) Q s.
Proof. done. Qed.

Lemma wp_lift_sum {A} (r : GoError + A) (Q : outcome GoError A → St W → Prop) s :
  Q (match r with inl e => Err e | inr a => Ok a end) s → wp (lift_sum r) Q s.
Proof. by destruct r. Qed.

(** ** What the primitives leave alone *)

Lemma steps_call_world {A X} (g : St W → X) (f : io W A) :
  (∀ s w, g (set_world w s) = g s) → steps (same g) (call f).
Proof. intros Hg s. unfold call, same. destruct (f (world s)). simpl. by rewrite Hg. Qed.

Lemma steps_upd_metrics {X} (g : St W → X) f :
  (∀ s m, g (set_metrics m s) = g s) → steps (same g) (upd_metrics f).
Proof. intros Hg s. unfold same. simpl. by rewrite Hg. Qed.

Lemma steps_upd_metrics_world (R : relation W) `{!Reflexive R} f :
  steps (λ s s', R (world s) (world s')) (upd_metrics f).
Proof. intros s. simpl. reflexivity. Qed.

Lemma steps_upd_cache_world (R : relation W) `{!Reflexive R} f :
  steps (λ s s', R (world s) (world s')) (upd_cache f).
Proof. intros s. simpl. reflexivity. Qed.

Lemma steps_lift_sum (R : relation (St W)) `{!PreOrder R} {A} (r : GoError + A) :
  steps R (lift_sum r).
Proof. destruct r; [by apply steps_throw|by apply steps_ret]. Qed.

Lemma steps_call (R : relation W) {A} (f : io W A) :
  (∀ w, R w (f w).2) → steps (λ s s', R (world s) (world s')) (call f).
Proof.
  intros Hf s. unfold call. specialize (Hf (world s)).
  by destruct (f (world s)) as [r w].
Qed.
End state.

(** What a call returns. *)
Lemma ok_post_call {W} `{KubeTypes, Prometheus} {A} (f : io W A) (P : A → Prop) :
  (∀ w a w', f w = (inr a, w') → P a) → ok_post (call f) P.
Proof.
  intros Hf s a s'. unfold call. destruct (f (world s)) as [[e|b] w] eqn:Hw; [done|].
  intros [= -> _]. eauto.
Qed.

Section total_state.
Context {W : Type} `{KubeTypes, Prometheus}.

Lemma total_call {A} (f : io W A) : total (call f).
Proof. intros s. unfold call. by destruct (f (world s)) as [[]?]. Qed.

Lemma total_upd_metrics f : total (upd_metrics (W := W) f).
Proof. done. Qed.

Lemma total_upd_cache f : total (upd_cache (W := W) f).
Proof. done. Qed.

Lemma total_lift_sum {A} (r : GoError + A) : total (lift_sum (W := W) r).
Proof. by destruct r. Qed.
End total_state.

#[export] Hint Resolve total_call total_upd_metrics total_upd_cache total_lift_sum : go_total.

#[global] Instance world_preorder {W} `{KubeTypes, Prometheus} (R : relation W) `{!PreOrder R} :
  PreOrder (λ s s' : St W, R (world s) (world s')).
Proof. split; [intros s; reflexivity|intros ???; apply transitivity]. Qed.

#[export] Hint Resolve steps_upd_metrics_world steps_upd_cache_world steps_lift_sum : go_steps.
