(* ===== verification/Conditions.v ===== *)
(** pkg/infracluster/scope.go: [SetUnstructuredCondition], which sets a status
    condition on the shared infrastructure cluster object. *)
From S2P Require Import Prelude GoStd Errors Metrics Kube State.
Open Scope Z_scope.

(** The other condition type the function accepts, [metav1.Condition], and
    [apimeta.SetStatusCondition] on it, which may read the clock. *)
Class MetaConditions (W : Type) `{KubeTypes} := {
  MetaCondition : Type;
  FromUnstructured_MetaCondition : JMap → GoError + MetaCondition;
  ToUnstructured_MetaCondition : MetaCondition → GoError + JMap;
  apimeta_SetStatusCondition :
    W → list MetaCondition → MetaCondition → list MetaCondition * bool;
}.

Section conditions.
Context {W : Type} `{Kubernetes W, Prometheus}.

(** The loop that converts the items of the status, up to the first failure. *)
Fixpoint parse_items {A} (from : JMap → GoError + A) (raw : list JItem) : GoError + list A :=
  match raw with
  | [] => inr []
  | ItemOther :: _ => inl (NewError "condition item is not a map")
  | ItemMap m :: raw =>
      match from m with
      | inl e => inl e
      | inr c => match parse_items from raw with inl e => inl e | inr l => inr (c :: l) end
      end
  end.

(** The loop that converts them back. *)
Fixpoint render_items {A} (to : A → GoError + JMap) (l : list A) : GoError + list JItem :=
  match l with
  | [] => inr []
  | c :: l =>
      match to c with
      | inl e => inl e
      | inr m => match render_items to l with inl e => inl e | inr r => inr (ItemMap m :: r) end
      end
  end.

(** The conditions of the object; none when the status has no such field. *)
Definition read_conditions {A} (from : JMap → GoError + A) : G W (list A) :=
  u ← gets infraCluster;
  raw ← lift_sum (NestedSlice_conditions (u_Body u));
  match raw with
  | Some items => lift_sum (parse_items from items)
  | None => mret []
  end.

Definition with_body (b : JBody) (u : Unstructured) : Unstructured :=
  mkUnstructured (u_Kind u) (u_Name u) (u_Namespace u) (u_Annotations u) (u_Finalizers u)
    (u_DeletionTimestamp u) b.

Definition write_conditions {A} (to : A → GoError + JMap) (l : list A) : G W unit :=
  raw ← lift_sum (render_items to l);
  u ← gets infraCluster;
  b ← lift_sum (SetNestedSlice_conditions (u_Body u) raw);
  modify (set_infraCluster (with_body b u)).

Definition stamped (now : Z) (c : Condition) : Condition :=
  mkCondition (cond_Type c) (cond_Status c) (cond_Reason c) (cond_Message c) (Some now).

(** The loop over the conditions: every one of the same type is replaced, and
    the first replacement stamps the new condition if it has no time. *)
Fixpoint replace_conditions (now : Z) (l : list Condition) (condition : Condition)
    : list Condition * bool :=
  match l with
  | [] => ([], false)
  | c :: l =>
      if bool_decide (cond_Type c = cond_Type condition) then
        let condition :=
          match cond_LastTransitionTime condition with
          | None => stamped now condition
          | Some _ => condition
          end in
        (condition :: (replace_conditions now l condition).1, true)
      else
        let '(l', found) := replace_conditions now l condition in (c :: l', found)
  end.

Definition set_condition (now : Z) (l : list Condition) (condition : Condition)
    : list Condition :=
  let '(l', found) := replace_conditions now l condition in
  if found : bool then l' else l' ++ [stamped now condition].

Definition setUnstructuredCAPICondition (condition : Condition) : G W unit :=
  conditions ← read_conditions FromUnstructured_Condition;
  now ← gets (λ s, Now (world s));
  write_conditions ToUnstructured_Condition (set_condition now conditions condition).

Context `{!MetaConditions W}.

Definition setUnstructuredCondition (condition : MetaCondition) : G W unit :=
  conditions ← read_conditions FromUnstructured_MetaCondition;
  r ← gets (λ s, apimeta_SetStatusCondition (world s) conditions condition);
  let '(conditions, changed) := r in
  if negb changed then mret tt
  else write_conditions ToUnstructured_MetaCondition conditions.

(** The dynamic type behind the [any] argument. *)
Inductive AnyCondition :=
| MetaV1 (c : MetaCondition)
| CAPI (c : Condition)
| UnsupportedType (name : string).

Definition SetUnstructuredCondition (condition : AnyCondition) : G W unit :=
  match condition with
  | MetaV1 c => setUnstructuredCondition c
  | CAPI c => setUnstructuredCAPICondition c
  | UnsupportedType t => throw (NewError ("unsupported condition type " +:+ t))
  end.
End conditions.
