(* ===== verification/Infra.v ===== *)
(** pkg/infracluster: the scope of one reconciliation.  Annotations and
    resource tags (annotation.go), the [Patcher] interface and its generic
    implementation (common_patcher.go), the control plane address service
    (publicip_service.go), and the scope with its cached lookups (scope.go). *)
From S2P Require Import Prelude GoStd Errors Metrics Kube State.
From Stdlib Require Import Ascii.
Open Scope Z_scope.

(** * annotation.go *)

(** A Go [map[string]*string]; [None] is the nil map, an inner [None] a nil
    pointer. *)
Abbreviation tagmap := (option (gmap string (option string))).

Definition ResourceTagNamePrefix : string := "azure-resourcegroup-tag.".

(** The loop over the annotations, in the order [l] in which Go happens to
    range over the map. *)
Definition resource_tags_loop (l : list (string * string))
    (tags : gmap string (option string)) : gmap string (option string) :=
  fold_left (λ tags '(key, value),
    if HasPrefix key ResourceTagNamePrefix
    then <[TrimPrefix key ResourceTagNamePrefix := Some value]> tags
    else tags) l tags.

Definition GetResourceTagsFromInfraClusterAnnotations (annotations : strmap) : tagmap :=
  match annotations with
  | None => None
  | Some m =>
      if (size m =? 0)%nat then None
      else
        let tags := resource_tags_loop (map_to_list m) ∅ in
        if (size tags =? 0)%nat then None else Some tags
  end.

(** * Kinds and references *)

Definition kindAzureCluster : string := "AzureCluster".
(** [infrav1.AzureASOManagedClusterKind] *)
Definition kindAzureASOManagedCluster : string := "AzureASOManagedCluster".
Definition kubeConfigSecretSuffix : string := "-kubeconfig".
Definition kubeConfigSecretKey : string := "value".
Definition AnnotationAzureSubscriptionID : string := "giantswarm.io/azure-subscription-id".
Definition AnnotationAzureClusterIdentityName : string :=
  "azure.giantswarm.io/azure-cluster-identity".
Definition AnnotationAzureClusterIdentityNamespace : string :=
  "azure.giantswarm.io/azure-cluster-identity-namespace".

Section kinds.
Context `{KubeTypes}.

Definition isAzureCluster (u : Unstructured) : bool :=
  bool_decide (u_Kind u = kindAzureCluster).

Definition isASOManagedCluster (u : Unstructured) : bool :=
  bool_decide (u_Kind u = kindAzureASOManagedCluster).

Definition asoManagedClusterIdentityRef (u : Unstructured) : option ObjectReference :=
  if negb (isASOManagedCluster u) then None
  else
    let name := map_get (u_Annotations u) AnnotationAzureClusterIdentityName in
    if bool_decide (name = "") then None
    else Some {| ref_Name := name;
                 ref_Namespace :=
                   map_get (u_Annotations u) AnnotationAzureClusterIdentityNamespace |}.
End kinds.

(** * The interfaces of the package *)

(** [infrav1.PublicIPSpec] *)
Record PublicIPSpec := { pip_Name : string; pip_DNSName : string }.

(** [armnetwork.PublicIPAddress] as far as it is read: [Properties.IPAddress] *)
Record PublicIPAddress := { pip_Properties : option (option string) }.

(** The dynamic type behind the [interface{}] a public IP getter returns. *)
Inductive PublicIPIface :=
| ArmNetwork (v : PublicIPAddress)
| ArmNetworkV4 (v : PublicIPAddress)
| OtherType (type_name : string).

(** [capzpublicips.PublicIPSpec], the argument of the getter *)
Record PublicIPQuery := { q_Name : string; q_ResourceGroup : string }.

Section interfaces.
Context (W : Type) `{KubeTypes, Prometheus}.

(** [async.Getter] *)
Record Getter := { Getter_Get : PublicIPQuery → G W PublicIPIface }.

(** The [Patcher] interface (scope.go). *)
Record Patcher := {
  ClientID : string;
  SubscriptionID : string;
  TenantID : string;
  ClusterName : string;
  PatchObject : G W unit;
  IsAPIServerPrivate : bool;
  APIServerPrivateIP : string;
  APIServerPublicIP : option PublicIPSpec;
  Close : G W unit;
}.
End interfaces.
Arguments Getter_Get {W _ _}.
Arguments ClientID {W _ _}.
Arguments SubscriptionID {W _ _}.
Arguments TenantID {W _ _}.
Arguments ClusterName {W _ _}.
Arguments PatchObject {W _ _}.
Arguments IsAPIServerPrivate {W _ _}.
Arguments APIServerPrivateIP {W _ _}.
Arguments APIServerPublicIP {W _ _}.
Arguments Close {W _ _}.

(** The parts of cluster-api-provider-azure that build and implement the
    patcher and the public IP service of an AzureCluster. *)
Class Capz (W : Type) `{KubeTypes} := {
  capz_ClusterScope : Type;
  capz_NewClusterScope : Client → Cluster → AzureCluster → io W capz_ClusterScope;
  capz_ClientID : capz_ClusterScope → string;
  capz_SubscriptionID : capz_ClusterScope → string;
  capz_TenantID : capz_ClusterScope → string;
  capz_ClusterName : capz_ClusterScope → string;
  capz_PatchObject : capz_ClusterScope → io W unit;
  capz_IsAPIServerPrivate : capz_ClusterScope → bool;
  capz_APIServerPrivateIP : capz_ClusterScope → string;
  capz_APIServerPublicIP : capz_ClusterScope → option PublicIPSpec;
  capz_Close : capz_ClusterScope → io W unit;
  capz_publicips : Type;
  capz_publicips_New : capz_ClusterScope → GoError + capz_publicips;
  capz_publicips_Get : capz_publicips → PublicIPQuery → io W PublicIPIface;
}.

Section capz.
Context {W : Type} `{Kubernetes W, Prometheus, !Capz W}.

(** The values of these types seen through the package's interfaces. *)
Definition capz_Patcher (c : capz_ClusterScope) : Patcher W := {|
  ClientID := capz_ClientID c;
  SubscriptionID := capz_SubscriptionID c;
  TenantID := capz_TenantID c;
  ClusterName := capz_ClusterName c;
  PatchObject := call (capz_PatchObject c);
  IsAPIServerPrivate := capz_IsAPIServerPrivate c;
  APIServerPrivateIP := capz_APIServerPrivateIP c;
  APIServerPublicIP := capz_APIServerPublicIP c;
  Close := call (capz_Close c);
|}.

Definition capz_Getter (p : capz_publicips) : Getter W :=
  {| Getter_Get q := call (capz_publicips_Get p q) |}.
End capz.

(** * common_patcher.go *)

Section common_patcher.
Context {W : Type} `{Kubernetes W, Prometheus}.

(** The struct; its [InfraCluster] is the object of the state. *)
Record CommonPatcher := {
  cp_Cluster : Cluster;
  cp_clientID : string;
  cp_subscriptionID : string;
  cp_tenantID : string;
  cp_k8sClient : Client;
  cp_ip : IP;
}.

Definition NewCommonPatcher (ClientID SubscriptionID TenantID : string)
    (cluster : Cluster) (k8sClient : Client) : CommonPatcher := {|
  cp_Cluster := cluster;
  cp_clientID := ClientID;
  cp_subscriptionID := SubscriptionID;
  cp_tenantID := TenantID;
  cp_k8sClient := k8sClient;
  cp_ip := ParseIP (ControlPlaneEndpoint_Host cluster);
|}.

(** [c.Status().Update(ctx, infraCluster)] and [c.Update(ctx, infraCluster)]:
    the response is decoded into the shared object. *)
Definition status_update (c : Client) : G W unit :=
  u ← gets infraCluster; u' ← call (StatusUpdate c u); modify (set_infraCluster u').

Definition object_update (c : Client) : G W unit :=
  u ← gets infraCluster; u' ← call (Update c u); modify (set_infraCluster u').

Definition cp_PatchObject (s : CommonPatcher) : G W unit :=
  u ← gets infraCluster;
  (if negb (isASOManagedCluster u) then status_update (cp_k8sClient s) else mret tt);;
  object_update (cp_k8sClient s).

Definition cp_IsAPIServerPrivate (s : CommonPatcher) : bool :=
  match cp_ip s with
  | None => false
  | Some _ => IsPrivate (cp_ip s)
  end.

Definition cp_APIServerPrivateIP (s : CommonPatcher) : string :=
  if IsPrivate (cp_ip s) then IP_String (cp_ip s) else "".

Definition cp_APIServerPublicIP (s : CommonPatcher) : option PublicIPSpec :=
  if IsPrivate (cp_ip s) then None
  else Some {| pip_Name := IP_String (cp_ip s); pip_DNSName := "" |}.

Definition cp_Close (s : CommonPatcher) : G W unit := cp_PatchObject s.

Definition CommonPatcher_Patcher (s : CommonPatcher) : Patcher W := {|
  ClientID := cp_clientID s;
  SubscriptionID := cp_subscriptionID s;
  TenantID := cp_tenantID s;
  ClusterName := cluster_Name (cp_Cluster s);
  PatchObject := cp_PatchObject s;
  IsAPIServerPrivate := cp_IsAPIServerPrivate s;
  APIServerPrivateIP := cp_APIServerPrivateIP s;
  APIServerPublicIP := cp_APIServerPublicIP s;
  Close := cp_Close s;
|}.

(** * publicip_service.go *)

Definition PublicIPService_Get (cluster : Cluster) (_ : PublicIPQuery) : G W PublicIPIface :=
  let ip := ParseIP (ControlPlaneEndpoint_Host cluster) in
  match ip with
  | None =>
      throw (NewError ("cluster " +:+ cluster_Name cluster +:+
                       " does not have valid control plane IP address"))
  | Some _ => mret (ArmNetwork {| pip_Properties := Some (Some (IP_String ip)) |})
  end.

Definition NewPublicIPService (cluster : Cluster) : Getter W :=
  {| Getter_Get := PublicIPService_Get cluster |}.
End common_patcher.

(** * scope.go *)

Record ManagementClusterConfig := { mc_Name : string; mc_Namespace : string }.

Record ClusterZoneAzureConfig := {
  zone_SubscriptionID : string;
  zone_ClientID : string;
  zone_TenantID : string;
  zone_ClientSecret : string;
  zone_Location : string;
}.

Section scope.
Context {W : Type} `{Microerror, Kubernetes W, Prometheus, !Capz W}.

(** [Scope] without the fields of [ScopeCache], which live in the state, and
    without [InfraCluster], which is the object of the state. *)
Record Scope := {
  s_Client : Client;
  s_Cluster : Cluster;
  s_Patcher : Patcher W;
  s_publicIPService : Getter W;
  s_managementClusterConfig : ManagementClusterConfig;
  s_clusterIdentityRef : option ObjectReference;
  s_AzureLocation : string;
}.

Definition IsAzureCluster : G W bool := gets (λ s, isAzureCluster (infraCluster s)).

Definition IsASOManagedCluster : G W bool := gets (λ s, isASOManagedCluster (infraCluster s)).

Definition InfraClusterAnnotations : G W strmap := gets (λ s, u_Annotations (infraCluster s)).

Definition azureClusterFromInfraObject (u : Unstructured) : option AzureCluster :=
  if negb (isAzureCluster u) then None
  else match FromUnstructured_AzureCluster u with
       | inl _ => None
       | inr ac => Some ac
       end.

Definition azureClusterSpec (u : Unstructured) : option AzureClusterSpec :=
  match azureClusterFromInfraObject u with
  | None => None
  | Some ac => Some (ac_Spec ac)
  end.

(** [azureClusterStatus]: the conditions are all the status that is read. *)
Definition azureClusterStatus (u : Unstructured) : option (list Condition) :=
  match azureClusterFromInfraObject u with
  | None => None
  | Some ac => Some (ac_Conditions ac)
  end.

(** An object that is not found is the empty object, not an error. *)
Definition managementAzureCluster (c : Client) (name namespace : string) : G W AzureCluster :=
  r ← try (call (Get_AzureCluster c {| nn_Name := name; nn_Namespace := namespace |}));
  match r with
  | inr ac => mret ac
  | inl err =>
      if apierrors_IsNotFound err then mret zero_AzureCluster else throw (Mask err)
  end.

Definition azureClusterIdentity (c : Client) (identityRef : option ObjectReference)
    : G W AzureClusterIdentity :=
  match identityRef with
  | None => throw (NewError "azure cluster or identity reference does not exist")
  | Some ref =>
      r ← try (call (Get_AzureClusterIdentity c
                       {| nn_Name := ref_Name ref; nn_Namespace := ref_Namespace ref |}));
      match r with
      | inr idt => mret idt
      | inl err =>
          if apierrors_IsNotFound err then mret zero_AzureClusterIdentity
          else throw (Mask err)
      end
  end.

Definition ManagementCluster (s : Scope) : G W AzureCluster :=
  c ← gets cache;
  match managementCluster c with
  | Some ac => mret ac
  | None =>
      ac ← managementAzureCluster (s_Client s) (mc_Name (s_managementClusterConfig s))
             (mc_Namespace (s_managementClusterConfig s));
      upd_cache (λ c, mkCache (Some ac) (managementClusterIdentity c) (clusterK8sClient c));;
      mret ac
  end.

Definition ManagementClusterIdentity (s : Scope) : G W AzureClusterIdentity :=
  c ← gets cache;
  match managementClusterIdentity c with
  | Some idt => mret idt
  | None =>
      ac ← ManagementCluster s;
      idt ← azureClusterIdentity (s_Client s) (spec_IdentityRef (ac_Spec ac));
      upd_cache (λ c, mkCache (managementCluster c) (Some idt) (clusterK8sClient c));;
      mret idt
  end.

(** The last two sources of an identity: the reference the operator was
    started with, then the management cluster. *)
Definition identity_fallback (s : Scope) : G W AzureClusterIdentity :=
  match s_clusterIdentityRef s with
  | Some ref =>
      r ← try (azureClusterIdentity (s_Client s) (Some ref));
      match r with
      | inr idt => mret idt
      | inl _ => ManagementClusterIdentity s
      end
  | None => ManagementClusterIdentity s
  end.

Definition InfraClusterIdentity (s : Scope) : G W AzureClusterIdentity :=
  u ← gets infraCluster;
  let after_spec :=
    match asoManagedClusterIdentityRef u with
    | Some ref => azureClusterIdentity (s_Client s) (Some ref)
    | None => identity_fallback s
    end in
  match azureClusterSpec u with
  | Some spec =>
      r ← try (azureClusterIdentity (s_Client s) (spec_IdentityRef spec));
      match r with
      | inr idt => mret idt
      | inl _ => after_spec
      end
  | None => after_spec
  end.

Definition getK8sClient (kubeconfig : option string) : G W Client :=
  restConfig ← map_err Mask (call (k8srestconfig_New kubeconfig));
  map_err Mask (call (k8sclient_NewClients restConfig)).

Definition getClusterKubeConfig (s : Scope) : G W string :=
  k8sClient ← map_err Mask (getK8sClient None);
  secret ← map_err Mask (call (Get_Secret k8sClient
    {| nn_Name := cluster_Name (s_Cluster s) +:+ kubeConfigSecretSuffix;
       nn_Namespace := cluster_Namespace (s_Cluster s) |}));
  mret (default "" (secret_Data secret !! kubeConfigSecretKey)).

Definition getClusterK8sClient (s : Scope) : G W Client :=
  map_err Mask (call micrologger_New);;
  kubeconfig ← map_err Mask (getClusterKubeConfig s);
  getK8sClient (Some kubeconfig).

Definition ClusterK8sClient (s : Scope) : G W Client :=
  c ← gets cache;
  match clusterK8sClient c with
  | Some k => mret k
  | None =>
      k ← getClusterK8sClient s;
      upd_cache (λ c, mkCache (managementCluster c) (managementClusterIdentity c) (Some k));;
      mret k
  end.

(** Where a client is set, no other is asked for. *)
Definition SetClusterK8sClient (c : Client) : G W unit :=
  upd_cache (λ ca, mkCache (managementCluster ca) (managementClusterIdentity ca) (Some c)).

(** [ScopeParams] without the infrastructure cluster. *)
Record ScopeParams := {
  p_Client : Client;
  p_Cluster : Cluster;
  p_ManagementClusterConfig : ManagementClusterConfig;
  p_ClusterIdentityRef : option ObjectReference;
  p_ClusterZoneAzureConfig : ClusterZoneAzureConfig;
}.

(** Subscription, client and tenant of an AKS cluster, from the annotations
    where they are set. *)
Definition aso_credentials (params : ScopeParams) (u : Unstructured)
    (subscriptionID clientID tenantID : string) : G W (string * string * string) :=
  if isASOManagedCluster u then
    let annotationSubscriptionID :=
      map_get (cluster_Annotations (p_Cluster params)) AnnotationAzureSubscriptionID in
    let subscriptionID :=
      if bool_decide (annotationSubscriptionID = "") then subscriptionID
      else annotationSubscriptionID in
    match asoManagedClusterIdentityRef u with
    | Some ref =>
        idt ← azureClusterIdentity (p_Client params) (Some ref);
        mret (subscriptionID, identity_ClientID idt, identity_TenantID idt)
    | None => mret (subscriptionID, clientID, tenantID)
    end
  else mret (subscriptionID, clientID, tenantID).

(** When one of the three is missing, all come from the management cluster,
    whose object and identity the scope then holds. *)
Definition complete_credentials (params : ScopeParams) (creds : string * string * string)
    : G W (string * string * string * option AzureCluster * option AzureClusterIdentity) :=
  let '(subscriptionID, clientID, tenantID) := creds in
  if bool_decide (subscriptionID = "") || bool_decide (clientID = "") ||
     bool_decide (tenantID = "")
  then
    ac ← managementAzureCluster (p_Client params)
           (mc_Name (p_ManagementClusterConfig params))
           (mc_Namespace (p_ManagementClusterConfig params));
    idt ← azureClusterIdentity (p_Client params) (spec_IdentityRef (ac_Spec ac));
    mret (spec_SubscriptionID (ac_Spec ac), identity_ClientID idt,
          identity_TenantID idt, Some ac, Some idt)
  else mret (subscriptionID, clientID, tenantID, None, None).

Definition NewScope (params : ScopeParams) : G W Scope :=
  u ← gets infraCluster;
  if isAzureCluster u then
    azureCluster ← call (Get_AzureCluster (p_Client params)
      {| nn_Name := InfrastructureRef_Name (p_Cluster params);
         nn_Namespace := cluster_Namespace (p_Cluster params) |});
    clusterScope ← call (capz_NewClusterScope (p_Client params) (p_Cluster params) azureCluster);
    publicips ← lift_sum (capz_publicips_New clusterScope);
    upd_cache (λ _, mkCache None None None);;
    mret {| s_Client := p_Client params;
            s_Cluster := p_Cluster params;
            s_Patcher := capz_Patcher clusterScope;
            s_publicIPService := capz_Getter publicips;
            s_managementClusterConfig := p_ManagementClusterConfig params;
            s_clusterIdentityRef := None;
            s_AzureLocation := "" |}
  else
    let config := p_ClusterZoneAzureConfig params in
    creds ← aso_credentials params u (zone_SubscriptionID config) (zone_ClientID config)
              (zone_TenantID config);
    '(subscriptionID, clientID, tenantID, mc, mcIdentity) ← complete_credentials params creds;
    let clusterScope :=
      NewCommonPatcher clientID subscriptionID tenantID (p_Cluster params) (p_Client params) in
    upd_cache (λ _, mkCache mc mcIdentity None);;
    mret {| s_Client := p_Client params;
            s_Cluster := p_Cluster params;
            s_Patcher := CommonPatcher_Patcher clusterScope;
            s_publicIPService := NewPublicIPService (p_Cluster params);
            s_managementClusterConfig := p_ManagementClusterConfig params;
            s_clusterIdentityRef := p_ClusterIdentityRef params;
            s_AzureLocation := zone_Location config |}.
End scope.
Arguments Scope W {_ _}.
