(* ===== verification/Azure.v ===== *)
(** The Azure SDK as the operator uses it: the fields of armdns, armprivatedns
    and armresources objects that are read or written, and the SDK's clients,
    pollers and pagers as the fields of the class [AzureSDK].  Elements of the
    SDK's slices of pointers ([[]*RecordSet] and the like) are not nil. *)
From S2P Require Import Prelude Errors Metrics Kube State Infra.
Open Scope Z_scope.

(** * armdns (armprivatedns has the same fields for what is used) *)

(** [armdns.RecordType] *)
Inductive RecordType := RecordTypeA | RecordTypeCNAME | RecordTypeNS
  | RecordTypeOther (name : string).

#[global] Instance RecordType_eq_dec : EqDecision RecordType.
Proof. solve_decision. Defined.

#[global] Instance RecordType_countable : Countable RecordType.
Proof.
  refine (inj_countable' (λ t, match t with
      | RecordTypeA => inl 0%nat | RecordTypeCNAME => inl 1%nat
      | RecordTypeNS => inl 2%nat | RecordTypeOther n => inr n end)
    (λ x, match x with
      | inl 0%nat => RecordTypeA | inl 1%nat => RecordTypeCNAME
      | inl _ => RecordTypeNS | inr n => RecordTypeOther n end) _).
  by intros [].
Defined.

(** [string(t)] *)
Definition RecordType_string (t : RecordType) : string :=
  match t with
  | RecordTypeA => "A"
  | RecordTypeCNAME => "CNAME"
  | RecordTypeNS => "NS"
  | RecordTypeOther n => n
  end.

Record ARecord := mkARecord { IPv4Address : option string }.
Record CnameRecord := mkCnameRecord { Cname : option string }.
Record NsRecord := mkNsRecord { Nsdname : option string }.

#[global] Instance ARecord_eq_dec : EqDecision ARecord.
Proof. solve_decision. Defined.
#[global] Instance CnameRecord_eq_dec : EqDecision CnameRecord.
Proof. solve_decision. Defined.
#[global] Instance NsRecord_eq_dec : EqDecision NsRecord.
Proof. solve_decision. Defined.

(** A nil slice and an empty one are both []. *)
Record RecordSetProperties := mkProperties {
  TTL : option Z;
  ARecords : list ARecord;
  rsp_CnameRecord : option CnameRecord;
  NsRecords : list NsRecord;
  ProvisioningState : option string;
}.

#[global] Instance RecordSetProperties_eq_dec : EqDecision RecordSetProperties.
Proof. solve_decision. Defined.

Record RecordSet := mkRecordSet {
  rs_Name : option (ptr string);
  rs_Type : option string;
  rs_Properties : option RecordSetProperties;
}.

(** [pointer.String(s)] for a [Name]: the address of a fresh variable; it is
    never compared, and 0 stands for it. *)
Definition pointer_String (s : string) : option (ptr string) := Some (mkptr 0 s).

(** [*recordSet.Name] *)
Definition name_of {S E} (rs : RecordSet) : M S E string :=
  p ← deref (rs_Name rs); mret (pointee p).

Definition has_name (n : string) (rs : RecordSet) : bool :=
  match rs_Name rs with Some p => bool_decide (pointee p = n) | None => false end.

Record ZoneProperties := {
  NumberOfRecordSets : option Z;
  NameServers : list (option string);
}.

(** [armdns.Zone] and [armprivatedns.PrivateZone] *)
Record Zone := {
  zone_Name : option string;
  zone_LocationField : option string;
  zone_Properties : option ZoneProperties;
}.

(** The empty structs the clients return next to an error. *)
Definition zero_Zone : Zone :=
  {| zone_Name := None; zone_LocationField := None; zone_Properties := None |}.

(** [capzazure.Global] *)
Definition Global_location : string := "global".

(** * armprivatedns: virtual network links *)

Record VirtualNetworkLinkProperties := {
  RegistrationEnabled : option bool;
  (** [VirtualNetwork]: the [ID] of the [SubResource] *)
  VirtualNetwork : option (option string);
}.

Record VirtualNetworkLink := {
  link_Name : option string;
  link_ID : option string;
  link_Location : option string;
  link_Properties : option VirtualNetworkLinkProperties;
}.

(** * armresources *)

Record ResourceGroupProperties := { rgp_ProvisioningState : option string }.

#[global] Instance ResourceGroupProperties_eq_dec : EqDecision ResourceGroupProperties.
Proof. solve_decision. Defined.

Record ResourceGroup := {
  rg_Name : option string;
  rg_Location : option string;
  rg_Tags : tagmap;
  rg_Properties : option ResourceGroupProperties;
}.

#[global] Instance ResourceGroup_eq_dec : EqDecision ResourceGroup.
Proof. solve_decision. Defined.

(** * The SDK *)

Class AzureSDK (W : Type) := {
  TokenCredential : Type;
  (** azidentity *)
  NewManagedIdentityCredential : string → io W TokenCredential;
  NewClientSecretCredential : string → string → string → io W TokenCredential;
  NewWorkloadIdentityCredential : string → string → io W TokenCredential;
  (** the clients; the credential may be the nil interface *)
  ZonesClient : Type;
  RecordSetsClient : Type;
  ResourceGroupsClient : Type;
  NewZonesClient : string → option TokenCredential → io W ZonesClient;
  NewRecordSetsClient : string → option TokenCredential → io W RecordSetsClient;
  NewResourceGroupsClient : string → option TokenCredential → io W ResourceGroupsClient;
  (** pollers of long-running operations *)
  Poller : Type;
  PollUntilDone : Poller → io W unit;
  (** pagers of list operations *)
  Pager : Type → Type;
  pager_More {T} : Pager T → bool;
  pager_NextPage {T} : Pager T → W → (GoError + list T) * Pager T * W;
  (** armdns *)
  zones_Get : ZonesClient → string → string → io W Zone;
  zones_CreateOrUpdate : ZonesClient → string → string → Zone → io W Zone;
  zones_BeginDelete : ZonesClient → string → string → io W Poller;
  recordSets_NewListByDNSZonePager : RecordSetsClient → string → string → Pager RecordSet;
  recordSets_CreateOrUpdate :
    RecordSetsClient → string → string → string → RecordType → RecordSet → io W RecordSet;
  recordSets_Delete : RecordSetsClient → string → string → string → RecordType → io W unit;
  (** armresources *)
  resourceGroups_Get : ResourceGroupsClient → string → io W ResourceGroup;
  resourceGroups_CreateOrUpdate :
    ResourceGroupsClient → string → ResourceGroup → io W ResourceGroup;
  resourceGroups_BeginDelete : ResourceGroupsClient → string → io W Poller;
  (** armprivatedns *)
  PrivateZonesClient : Type;
  PrivateRecordSetsClient : Type;
  VirtualNetworkLinksClient : Type;
  NewPrivateZonesClient : string → option TokenCredential → io W PrivateZonesClient;
  NewPrivateRecordSetsClient : string → option TokenCredential → io W PrivateRecordSetsClient;
  NewVirtualNetworkLinksClient : string → option TokenCredential → io W VirtualNetworkLinksClient;
  privateZones_Get : PrivateZonesClient → string → string → io W Zone;
  privateZones_BeginCreateOrUpdate : PrivateZonesClient → string → string → Zone → io W Poller;
  privateZones_BeginDelete : PrivateZonesClient → string → string → io W Poller;
  privateRecordSets_NewListByTypePager :
    PrivateRecordSetsClient → string → string → RecordType → Pager RecordSet;
  privateRecordSets_NewListPager : PrivateRecordSetsClient → string → string → Pager RecordSet;
  privateRecordSets_CreateOrUpdate :
    PrivateRecordSetsClient → string → string → RecordType → string → RecordSet → io W RecordSet;
  virtualNetworkLinks_BeginCreateOrUpdate :
    VirtualNetworkLinksClient → string → string → string → VirtualNetworkLink → io W Poller;
  virtualNetworkLinks_BeginDelete :
    VirtualNetworkLinksClient → string → string → string → io W Poller;
  virtualNetworkLinks_NewListPager :
    VirtualNetworkLinksClient → string → string → Pager VirtualNetworkLink;
}.

(** * The loop over a pager *)

Section pager.
Context {W : Type} `{AzureSDK W, KubeTypes, Prometheus}.

(** [pager.NextPage(ctx)], which also moves the pager. *)
Definition NextPage {T} (p : Pager T) : G W (list T * Pager T) :=
  call (λ w, let '(r, p', w') := pager_NextPage p w in
             (match r with inl e => inl e | inr page => inr (page, p') end, w')).

(** [for pager.More() { page, err := pager.NextPage(ctx); if err != nil
    { return nil, onError(err) }; acc = append(acc, page.Value...) }] *)
Fixpoint drain {T} (onError : GoError → GoError) (fuel : nat) (p : Pager T) (acc : list T)
    : G W (list T) :=
  if pager_More p then
    match fuel with
    | O => out_of_fuel
    | S fuel =>
        '(page, p') ← map_err onError (NextPage p);
        drain onError fuel p' (acc ++ page)
    end
  else mret acc.

(** The server ends the listing within [n] pages, whatever it answers. *)
Fixpoint ends_within {T} (n : nat) (p : Pager T) : Prop :=
  pager_More p = false ∨
  match n with
  | O => False
  | S n => ∀ w page p' w', pager_NextPage p w = (inr page, p', w') → ends_within n p'
  end.

(** Enough fuel: the loop returns, with a list or with the error of a page. *)
Lemma drain_returns {T} onError n (p : Pager T) acc s :
  ends_within n p →
  match (drain onError n p acc s).1 with Ok _ | Err _ => True | _ => False end.
Proof.
  revert p acc s. induction n as [|n IH]; intros p acc s Hend; simpl in *.
  - by destruct Hend as [->|].
  - destruct Hend as [->|Hstep]; [done|]. destruct (pager_More p); [|done].
    unfold mbind, M_bind, map_err, NextPage, call.
    destruct (pager_NextPage p (world s)) as [[[e|page] p'] w'] eqn:Hp; [done|].
    apply IH. eauto.
Qed.

(** The loop's result does not depend on the fuel once it is enough. *)
Lemma drain_more_fuel {T} onError n m (p : Pager T) acc s :
  ends_within n p → (n ≤ m)%nat → drain onError m p acc s = drain onError n p acc s.
Proof.
  revert m p acc s. induction n as [|n IH]; intros m p acc s Hend Hle.
  - destruct Hend as [Hend|[]]. by destruct m; simpl; rewrite Hend.
  - destruct m as [|m]; [lia|]. simpl in *.
    destruct (pager_More p) eqn:Hmore; [|done].
    destruct Hend as [|Hstep]; [done|].
    unfold mbind, M_bind, map_err, NextPage, call.
    destruct (pager_NextPage p (world s)) as [[[e|page] p'] w'] eqn:Hp; [done|].
    apply IH; [eauto|lia].
Qed.
End pager.
