(* ===== verification/Scope.v ===== *)
(** azure/scope: the parameters of one run of the public DNS service
    (dns.go, [DNSScope]) and of the private DNS service (privatedns.go,
    [PrivateDNSScope]), and the names derived from them. *)
From S2P Require Import Prelude GoStd Errors Metrics Kube State Infra.

Definition clientSecretKeyName : string := "clientSecret".
Definition AnnotationWildcardCNAMETarget : string := "network.giantswarm.io/wildcard-cname-target".
Definition apiPrivateLinkSuffix : string := "-api-privatelink-privateendpoint".

(** [Identity] and [identity]: an identity and its secret. *)
Record Identity := {
  clusterIdentity : AzureClusterIdentity;
  identity_secret : Secret;
}.

Definition client_secret (i : Identity) : string :=
  default "" (secret_Data (identity_secret i) !! clientSecretKeyName).

(** * dns.go *)

Record BaseZoneCredentials := {
  bz_ClientID : string;
  bz_ClientSecret : string;
  bz_SubscriptionID : string;
  bz_TenantID : string;
}.

#[global] Instance BaseZoneCredentials_eq_dec : EqDecision BaseZoneCredentials.
Proof. solve_decision. Defined.

Definition zero_BaseZoneCredentials : BaseZoneCredentials :=
  {| bz_ClientID := ""; bz_ClientSecret := ""; bz_SubscriptionID := ""; bz_TenantID := "" |}.

Section dns_scope.
Context {W : Type} `{Kubernetes W, Prometheus}.

Record DNSScopeParams := {
  dp_ClusterScope : Scope W;
  dp_BaseDomain : string;
  dp_BaseDomainResourceGroup : string;
  dp_BaseZoneCredentials : BaseZoneCredentials;
  dp_AzureClusterIdentity : AzureClusterIdentity;
  dp_AzureClusterServicePrincipalSecret : Secret;
  dp_ManagementClusterAzureIdentity : AzureClusterIdentity;
  dp_ManagementClusterServicePrincipalSecret : Secret;
  dp_ManagementClusterSpec : AzureClusterSpec;
  dp_ResourceTags : tagmap;
}.

Record DNSScope := {
  ds_Scope : Scope W;
  baseDomain : string;
  baseDomainResourceGroup : string;
  baseZoneCredentials : BaseZoneCredentials;
  ds_identity : Identity;
  ds_managementClusterIdentity : Identity;
  ds_managementClusterSpec : AzureClusterSpec;
  resourceTags : tagmap;
}.

Definition NewDNSScope `{Microerror} (params : DNSScopeParams) : GoError + DNSScope :=
  if bool_decide (dp_BaseDomain params = "") then
    inl (Maskf InvalidConfigError "scope.DNSScopeParams.BaseDomain must not be nil")
  else if bool_decide (dp_BaseDomainResourceGroup params = "") then
    inl (Maskf InvalidConfigError "scope.DNSScopeParams.BaseDomainResourceGroup must not be nil")
  else if bool_decide (dp_BaseZoneCredentials params = zero_BaseZoneCredentials) then
    inl (Maskf InvalidConfigError "scope.DNSScopeParams.BaseZoneCredentials must not be nil")
  else inr {|
    ds_Scope := dp_ClusterScope params;
    baseDomain := dp_BaseDomain params;
    baseDomainResourceGroup := dp_BaseDomainResourceGroup params;
    baseZoneCredentials := dp_BaseZoneCredentials params;
    ds_identity := {| clusterIdentity := dp_AzureClusterIdentity params;
                      identity_secret := dp_AzureClusterServicePrincipalSecret params |};
    ds_managementClusterIdentity :=
      {| clusterIdentity := dp_ManagementClusterAzureIdentity params;
         identity_secret := dp_ManagementClusterServicePrincipalSecret params |};
    ds_managementClusterSpec := dp_ManagementClusterSpec params;
    resourceTags := dp_ResourceTags params;
  |}.

(** The promoted field [s.Patcher]. *)
Definition ds_Patcher (s : DNSScope) : Patcher W := s_Patcher (ds_Scope s).

(** [APIServerPublicIP] may be nil, and its [Name] is read all the same. *)
Definition APIEndpoint (s : DNSScope) : G W string :=
  ip ← deref (APIServerPublicIP (ds_Patcher s)); mret (pip_Name ip).

Definition ClusterDomain (s : DNSScope) : string :=
  ClusterName (ds_Patcher s) +:+ "." +:+ baseDomain s.

Definition ResourceGroup_name (s : DNSScope) : string := ClusterName (ds_Patcher s).

Definition AzureClientSecret (s : DNSScope) : string := client_secret (ds_identity s).

Definition WildcardFQDN (s : DNSScope) : string :=
  let target :=
    map_get (cluster_Annotations (s_Cluster (ds_Scope s))) AnnotationWildcardCNAMETarget in
  if bool_decide (target = "") then "ingress." +:+ ClusterDomain s
  else target +:+ "." +:+ ClusterDomain s.
End dns_scope.
Arguments DNSScope W {_ _}.
Arguments DNSScopeParams W {_ _}.

(** * privatedns.go *)

Record PrivateDNSScopeParams := {
  pp_BaseDomain : string;
  pp_ClusterName : string;
  pp_APIServerIP : string;
  pp_MCIngressIP : string;
  pp_WildcardCNAMETarget : string;
  pp_VirtualNetworkIDToAttachPrivateDNS : string;
  pp_ClusterAzureIdentityToAttachPrivateDNS : AzureClusterIdentity;
  pp_ClusterServicePrincipalSecretToAttachPrivateDNS : Secret;
  pp_ClusterSpecToAttachPrivateDNS : AzureClusterSpec;
}.

Record PrivateDNSScope := {
  ps_baseDomain : string;
  ps_clusterName : string;
  ps_apiServerIP : string;
  ps_mcIngressIP : string;
  ps_wildcardCNAMETarget : string;
  ps_virtualNetworkID : string;
  ps_managementClusterIdentity : Identity;
  ps_managementClusterSpec : AzureClusterSpec;
}.

Definition NewPrivateDNSScope `{Microerror} (params : PrivateDNSScopeParams)
    : GoError + PrivateDNSScope :=
  if bool_decide (pp_BaseDomain params = "") then
    inl (Maskf InvalidConfigError "scope.PrivateDNSScopeParams.BaseDomain must not be nil")
  else inr {|
    ps_baseDomain := pp_BaseDomain params;
    ps_clusterName := pp_ClusterName params;
    ps_managementClusterIdentity :=
      {| clusterIdentity := pp_ClusterAzureIdentityToAttachPrivateDNS params;
         identity_secret := pp_ClusterServicePrincipalSecretToAttachPrivateDNS params |};
    ps_managementClusterSpec := pp_ClusterSpecToAttachPrivateDNS params;
    ps_apiServerIP := pp_APIServerIP params;
    ps_mcIngressIP := pp_MCIngressIP params;
    ps_wildcardCNAMETarget := pp_WildcardCNAMETarget params;
    ps_virtualNetworkID := pp_VirtualNetworkIDToAttachPrivateDNS params;
  |}.

Definition PrivateClusterDomain (s : PrivateDNSScope) : string :=
  ps_clusterName s +:+ "." +:+ ps_baseDomain s.

Definition ManagementClusterVnetID (s : PrivateDNSScope) : string := ps_virtualNetworkID s.

Definition ManagementClusterResourceGroup (s : PrivateDNSScope) : string :=
  spec_ResourceGroup (ps_managementClusterSpec s).

Definition ManagementClusterAzureIdentity (s : PrivateDNSScope) : AzureClusterIdentity :=
  clusterIdentity (ps_managementClusterIdentity s).

Definition ManagementClusterAzureClientSecret (s : PrivateDNSScope) : string :=
  client_secret (ps_managementClusterIdentity s).

Definition ManagementClusterSubscriptionID (s : PrivateDNSScope) : string :=
  spec_SubscriptionID (ps_managementClusterSpec s).

Definition ManagementClusterTenantID (s : PrivateDNSScope) : string :=
  identity_TenantID (ManagementClusterAzureIdentity s).

Definition ManagementClusterClientID (s : PrivateDNSScope) : string :=
  identity_ClientID (ManagementClusterAzureIdentity s).

Definition privateLinkedAPIServerIPFromClusterAnnotation (s : PrivateDNSScope) : string :=
  ps_apiServerIP s.

Definition privateLinkedMcIngressIPFromClusterAnnotation (s : PrivateDNSScope) : string :=
  ps_mcIngressIP s.

(** The two nested loops; every hit overwrites the one before. *)
Definition privateLinkedAPIServerIPFromManagementCluster (s : PrivateDNSScope) : string :=
  fold_left (λ ip subnet,
    fold_left (λ ip pe,
      if bool_decide (pe_Name pe = ps_clusterName s +:+ apiPrivateLinkSuffix) then
        match PrivateIPAddresses pe with
        | a :: _ => a
        | [] => ip
        end
      else ip) (PrivateEndpoints subnet) ip)
    (spec_Subnets (ps_managementClusterSpec s)) "".

Definition PrivateLinkedAPIServerIP (s : PrivateDNSScope) : string :=
  if (0 <? String.length (privateLinkedAPIServerIPFromClusterAnnotation s))%nat
  then privateLinkedAPIServerIPFromClusterAnnotation s
  else if (0 <? String.length (privateLinkedAPIServerIPFromManagementCluster s))%nat
  then privateLinkedAPIServerIPFromManagementCluster s
  else "".

Definition PrivateLinkedMcIngressIP (s : PrivateDNSScope) : string :=
  privateLinkedMcIngressIPFromClusterAnnotation s.

Definition PrivateWildcardFQDN (s : PrivateDNSScope) : string :=
  if bool_decide (ps_wildcardCNAMETarget s = "") then "ingress." +:+ PrivateClusterDomain s
  else ps_wildcardCNAMETarget s +:+ "." +:+ PrivateClusterDomain s.

(** * Names *)

(** A cluster's zone is never the base zone itself. *)
Lemma subdomain_ne (n base : string) : n +:+ "." +:+ base ≠ base.
Proof.
  intros H. apply (f_equal String.length) in H.
  rewrite !string_app_length in H. simpl in H. lia.
Qed.
