(* ===== verification/DnsClient.v ===== *)
(** azure/services/dns/client.go: the client the DNS service talks to Azure
    through, on top of the SDK.  [client] is the interface declared in dns.go,
    [azureClient] its implementation; every request is counted in the metrics
    and classified before its error is masked. *)
From S2P Require Import Prelude GoStd Errors Metrics Kube State Infra Azure Scope.

(** * The interface (dns.go) *)

Record client (W : Type) `{KubeTypes, Prometheus} := {
  GetZone : string → string → G W Zone;
  CreateOrUpdateZone : string → string → Zone → G W Zone;
  DeleteZone : string → string → G W unit;
  CreateOrUpdateRecordSet : string → string → RecordType → string → RecordSet → G W RecordSet;
  DeleteRecordSet : string → string → RecordType → string → G W unit;
  ListRecordSets : string → string → G W (list RecordSet);
  GetResourceGroup : string → G W ResourceGroup;
  CreateOrUpdateResourceGroup : string → ResourceGroup → G W ResourceGroup;
  DeleteResourceGroup : string → G W unit;
}.
Arguments GetZone {W _ _}.
Arguments CreateOrUpdateZone {W _ _}.
Arguments DeleteZone {W _ _}.
Arguments CreateOrUpdateRecordSet {W _ _}.
Arguments DeleteRecordSet {W _ _}.
Arguments ListRecordSets {W _ _}.
Arguments GetResourceGroup {W _ _}.
Arguments CreateOrUpdateResourceGroup {W _ _}.
Arguments DeleteResourceGroup {W _ _}.

(** * The implementation *)

Section azure_client.
Context {W : Type} `{Microerror, Kubernetes W, Prometheus, AzureSDK W}.

Record azureClient := {
  zones : ZonesClient;
  recordSets : RecordSetsClient;
  resourceGroups : ResourceGroupsClient;
}.

(** [AzureRequest.WithLabelValues(method).Inc()] and the same for errors *)
Definition count_request (method : string) : G W unit := upd_metrics (AzureRequest_Inc method).
Definition count_error (method : string) : G W unit := upd_metrics (AzureRequestError_Inc method).

(** [if err != nil { AzureRequestError...Inc(); return ..., microerror.Mask(err) }] *)
Definition counted_mask {A} (method : string) (m : G W A) : G W A :=
  r ← try m;
  match r with
  | inr a => mret a
  | inl err => count_error method;; throw (Mask err)
  end.

Definition azureClient_GetZone (ac : azureClient) (rg zoneName : string) : G W Zone :=
  count_request "zones.Get";;
  counted_mask "zones.Get" (call (zones_Get (zones ac) rg zoneName)).

Definition azureClient_CreateOrUpdateZone (ac : azureClient) (rg zoneName : string)
    (zone : Zone) : G W Zone :=
  count_request "zones.CreateOrUpdate";;
  counted_mask "zones.CreateOrUpdate" (call (zones_CreateOrUpdate (zones ac) rg zoneName zone)).

Definition azureClient_DeleteZone (ac : azureClient) (rg zoneName : string) : G W unit :=
  count_request "zones.BeginDelete";;
  poller ← counted_mask "zones.BeginDelete" (call (zones_BeginDelete (zones ac) rg zoneName));
  count_request "poller.PollUntilDone";;
  counted_mask "poller.PollUntilDone" (call (PollUntilDone poller)).

(** [fuel] bounds the pages of one listing. *)
Definition azureClient_ListRecordSets (fuel : nat) (ac : azureClient) (rg zoneName : string)
    : G W (list RecordSet) :=
  count_request "recordSets.NewListByDNSZonePager";;
  drain Mask fuel (recordSets_NewListByDNSZonePager (recordSets ac) rg zoneName) [].

Definition azureClient_CreateOrUpdateRecordSet (ac : azureClient) (rg zoneName : string)
    (recordType : RecordType) (recordSetName : string) (recordSet : RecordSet) : G W RecordSet :=
  count_request "recordSets.CreateOrUpdate";;
  counted_mask "recordSets.CreateOrUpdate"
    (call (recordSets_CreateOrUpdate (recordSets ac) rg zoneName recordSetName recordType
             recordSet)).

Definition azureClient_DeleteRecordSet (ac : azureClient) (rg zoneName : string)
    (recordType : RecordType) (recordSetName : string) : G W unit :=
  count_request "recordSets.Delete";;
  counted_mask "recordSets.Delete"
    (call (recordSets_Delete (recordSets ac) rg zoneName recordSetName recordType)).

Definition azureClient_GetResourceGroup (ac : azureClient) (rg : string) : G W ResourceGroup :=
  count_request "resourceGroups.Get";;
  r ← try (call (resourceGroups_Get (resourceGroups ac) rg));
  match r with
  | inr g => mret g
  | inl err =>
      count_error "resourceGroups.Get";;
      if IsResourceNotFoundError err then throw (Mask resourceNotFoundError)
      else throw (Mask err)
  end.

(** The two labels differ in a capital letter. *)
Definition azureClient_CreateOrUpdateResourceGroup (ac : azureClient) (rg : string)
    (resourceGroup : ResourceGroup) : G W ResourceGroup :=
  count_request "resourceGroups.createOrUpdate";;
  counted_mask "resourceGroups.CreateOrUpdate"
    (call (resourceGroups_CreateOrUpdate (resourceGroups ac) rg resourceGroup)).

Definition azureClient_DeleteResourceGroup (ac : azureClient) (rg : string) : G W unit :=
  count_request "resourceGroups.Delete";;
  r ← try (call (resourceGroups_BeginDelete (resourceGroups ac) rg));
  match r with
  | inl err =>
      if IsResourceNotFoundError err then throw (Mask resourceNotFoundError)
      else count_error "resourceGroups.Delete";; throw (Mask err)
  | inr poller => counted_mask "poller.PollUntilDone" (call (PollUntilDone poller))
  end.

(** [var _ client = ( *azureClient)(nil)] *)
Definition azureClient_client (fuel : nat) (ac : azureClient) : client W := {|
  GetZone := azureClient_GetZone ac;
  CreateOrUpdateZone := azureClient_CreateOrUpdateZone ac;
  DeleteZone := azureClient_DeleteZone ac;
  CreateOrUpdateRecordSet := azureClient_CreateOrUpdateRecordSet ac;
  DeleteRecordSet := azureClient_DeleteRecordSet ac;
  ListRecordSets := azureClient_ListRecordSets fuel ac;
  GetResourceGroup := azureClient_GetResourceGroup ac;
  CreateOrUpdateResourceGroup := azureClient_CreateOrUpdateResourceGroup ac;
  DeleteResourceGroup := azureClient_DeleteResourceGroup ac;
|}.

(** * Construction *)

Definition newZonesClient (subscriptionID : string) (cred : option TokenCredential)
    : io W ZonesClient :=
  NewZonesClient subscriptionID cred.

Definition newRecordSetsClient (subscriptionID : string) (cred : option TokenCredential)
    : io W RecordSetsClient :=
  NewRecordSetsClient subscriptionID cred.

Definition newResourceGroupClient (subscriptionID : string) (cred : option TokenCredential)
    : io W ResourceGroupsClient :=
  NewResourceGroupsClient subscriptionID cred.

(** The three SDK clients of one subscription. *)
Definition new_clients (subscriptionID : string) (cred : option TokenCredential)
    : G W azureClient :=
  zonesClient ← map_err Mask (call (newZonesClient subscriptionID cred));
  recordSetsClient ← map_err Mask (call (newRecordSetsClient subscriptionID cred));
  resourceGroupsClient ← map_err Mask (call (newResourceGroupClient subscriptionID cred));
  mret {| zones := zonesClient; recordSets := recordSetsClient;
          resourceGroups := resourceGroupsClient |}.

(** An identity of any other type leaves the credential nil. *)
Definition newAzureClient (scope : DNSScope W) : G W azureClient :=
  let clusterIdt := clusterIdentity (ds_identity scope) in
  cred ← match identity_Type clusterIdt with
         | UserAssignedMSI =>
             c ← map_err Mask (call (NewManagedIdentityCredential (ClientID (ds_Patcher scope))));
             mret (Some c)
         | ManualServicePrincipal =>
             c ← call (NewClientSecretCredential (identity_TenantID clusterIdt)
                         (identity_ClientID clusterIdt) (AzureClientSecret scope));
             mret (Some c)
         | WorkloadIdentity =>
             c ← map_err Mask (call (NewWorkloadIdentityCredential (identity_TenantID clusterIdt)
                                       (identity_ClientID clusterIdt)));
             mret (Some c)
         | OtherIdentity _ => mret None
         end;
  new_clients (SubscriptionID (ds_Patcher scope)) cred.

Definition newBaseZoneClient (credentials : BaseZoneCredentials) : G W azureClient :=
  cred ← map_err Mask (call (NewClientSecretCredential (bz_TenantID credentials)
                               (bz_ClientID credentials) (bz_ClientSecret credentials)));
  new_clients (bz_SubscriptionID credentials) (Some cred).
End azure_client.
