(* ===== verification/DnsRecords.v ===== *)
(** azure/services/dns: the record sets of a cluster's public zone.  The
    [Service] struct (dns.go), the A records (arecords.go), the CNAME record
    (cnamerecords.go) and the NS record in the base zone (nsrecords.go). *)
From stdpp Require Import pretty.
From S2P Require Import Prelude GoStd Errors Metrics Kube State Infra Azure Scope DnsClient.
Open Scope Z_scope.

Definition apiRecordName : string := "api".
Definition apiserverRecordName : string := "apiserver".
Definition apiRecordTTL : Z := 300.
Definition ingressRecordTTL : Z := 300.
Definition gatewayRecordTTL : Z := 300.
Definition ingressServiceSelector : string :=
  "app.kubernetes.io/name in (ingress-nginx,nginx-ingress-controller)".
Definition ingressAppNamespace : string := "kube-system".
Definition gatewayNamespace : string := "envoy-gateway-system".
Definition externalDNSManagedAnnotation : string := "giantswarm.io/external-dns".
Definition externalDNSManagedValue : string := "managed".
Definition externalDNSHostnameAnnotation : string := "external-dns.alpha.kubernetes.io/hostname".
Definition cnameRecordTTL : Z := 300.
Definition zoneRecordTTL : Z := 3600.

(** [fmt.Sprint(ttl)] *)
Definition fmt_Sprint (x : Z) : string := pretty x.

(** [RecordSetProperties] with only TTL and A records set, as the source
    builds them. *)
Definition a_properties (ttl : Z) (ips : list string) : RecordSetProperties :=
  mkProperties (Some ttl) (map (λ ip, mkARecord (Some ip)) ips) None [] None.

Definition a_recordset (name : string) (ttl : Z) (ips : list string) : RecordSet :=
  mkRecordSet (pointer_String name) (Some (RecordType_string RecordTypeA))
    (Some (a_properties ttl ips)).

(** [x.Properties.ARecords = append(x.Properties.ARecords, &ARecord{...})] for
    the element [i] of a slice. *)
Definition append_ARecord {S E} (l : list RecordSet) (i : Z) (ip : string)
    : M S E (list RecordSet) :=
  rs ← at_index l i;
  p ← deref (rs_Properties rs);
  let p' := mkProperties (TTL p) (ARecords p ++ [mkARecord (Some ip)]) (rsp_CnameRecord p)
              (NsRecords p) (ProvisioningState p) in
  mret (<[Z.to_nat i := mkRecordSet (rs_Name rs) (rs_Type rs) (Some p')]> l).

(** [l[i].Properties.ProvisioningState = nil] *)
Definition clear_ProvisioningState {S E} (l : list RecordSet) (i : Z) : M S E (list RecordSet) :=
  rs ← at_index l i;
  p ← deref (rs_Properties rs);
  let p' := mkProperties (TTL p) (ARecords p) (rsp_CnameRecord p) (NsRecords p) None in
  mret (<[Z.to_nat i := mkRecordSet (rs_Name rs) (rs_Type rs) (Some p')]> l).

Section dns.
Context {W : Type} `{Microerror, Kubernetes W, Prometheus}.

Record Service := {
  scope : DNSScope W;
  (** client for the cluster's zone and resource group *)
  svc_azureClient : client W;
  (** client for the base zone *)
  svc_azureBaseZoneClient : client W;
  publicIPsService : Getter W;
}.

Definition svc_Patcher (s : Service) : Patcher W := ds_Patcher (scope s).
Definition svc_Scope (s : Service) : Scope W := ds_Scope (scope s).

(** * arecords.go *)

Definition getIPAddressForPublicDNS (s : Service) : G W string :=
  ip ← deref (APIServerPublicIP (svc_Patcher s));
  match ParseIP (pip_Name ip) with
  | None =>
      publicIPIface ← map_err Mask (Getter_Get (publicIPsService s)
        {| q_Name := pip_Name ip; q_ResourceGroup := ResourceGroup_name (scope s) |});
      match publicIPIface with
      | ArmNetwork v | ArmNetworkV4 v => p ← deref (pip_Properties v); deref p
      | OtherType t => throw (Mask (NewError (t +:+ " is not a armnetwork.PublicIPAddress")))
      end
  | Some _ => mret (pip_Name ip)
  end.

(** The filter both loops over services share: managed by external-dns, with a
    hostname, of type LoadBalancer; the hostname. *)
Definition managed_hostname (svc : Service_obj) : option string :=
  if negb (bool_decide (map_get (svc_Annotations svc) externalDNSManagedAnnotation
                        = externalDNSManagedValue)) then None
  else match map_get_ok (svc_Annotations svc) externalDNSHostnameAnnotation with
       | None => None
       | Some hostname =>
           if bool_decide (hostname = "") then None
           else if negb (bool_decide (svc_Type svc = ServiceTypeLoadBalancer)) then None
           else Some hostname
       end.

(** [svc.Status.LoadBalancer.Ingress[0].IP], if there is one and it is set *)
Definition first_ingress_ip (svc : Service_obj) : option string :=
  match svc_IngressIPs svc with
  | ip :: _ => if bool_decide (ip = "") then None else Some ip
  | [] => None
  end.

Fixpoint ingress_loop (clusterZone : string) (items : list Service_obj)
    : G W (option RecordSet) :=
  match items with
  | [] => mret None
  | icService :: items =>
      match managed_hostname icService with
      | None => ingress_loop clusterZone items
      | Some hostname =>
          match first_ingress_ip icService with
          | None => throw (Mask ingressNotReadyError)
          | Some ip =>
              mret (Some (a_recordset (TrimSuffix hostname ("." +:+ clusterZone))
                            ingressRecordTTL [ip]))
          end
      end
  end.

Definition getIngressARecord (s : Service) : G W (option RecordSet) :=
  k8sClient ← map_err Mask (ClusterK8sClient (svc_Scope s));
  icServices ← map_err Mask
    (call (List_Services k8sClient ingressAppNamespace (Some ingressServiceSelector)));
  ingress_loop (ClusterDomain (scope s)) icServices.

Fixpoint gateway_loop (clusterZone : string) (items : list Service_obj)
    (recordSets : list RecordSet) : list RecordSet :=
  match items with
  | [] => recordSets
  | svc :: items =>
      gateway_loop clusterZone items
        match managed_hostname svc, first_ingress_ip svc with
        | Some hostname, Some ip =>
            recordSets ++ [a_recordset (TrimSuffix hostname ("." +:+ clusterZone))
                             gatewayRecordTTL [ip]]
        | _, _ => recordSets
        end
  end.

Definition getGatewayARecords (s : Service) : G W (list RecordSet) :=
  k8sClient ← map_err Mask (ClusterK8sClient (svc_Scope s));
  services ← map_err Mask (call (List_Services k8sClient gatewayNamespace None));
  mret (gateway_loop (ClusterDomain (scope s)) services []).

Definition getDesiredARecords (s : Service) : G W (list RecordSet) :=
  aso ← IsASOManagedCluster;
  if (aso : bool) then mret []
  else
    let armdnsRecordSet :=
      [a_recordset apiRecordName apiRecordTTL []; a_recordset apiserverRecordName apiRecordTTL []] in
    apiIndex ← IndexFunc armdnsRecordSet
      (λ rs, n ← name_of rs; mret (bool_decide (n = apiRecordName)));
    apiserverIndex ← IndexFunc armdnsRecordSet
      (λ rs, n ← name_of rs; mret (bool_decide (n = apiserverRecordName)));
    armdnsRecordSet ←
      (if IsAPIServerPrivate (svc_Patcher s) then
         l ← append_ARecord armdnsRecordSet apiIndex (APIServerPrivateIP (svc_Patcher s));
         append_ARecord l apiserverIndex (APIServerPrivateIP (svc_Patcher s))
       else
         publicIP ← getIPAddressForPublicDNS s;
         l ← append_ARecord armdnsRecordSet apiIndex publicIP;
         append_ARecord l apiserverIndex publicIP);
    azure ← IsAzureCluster;
    if (azure : bool) then mret armdnsRecordSet
    else
      ingressRecord ← map_err Mask (getIngressARecord s);
      let armdnsRecordSet :=
        match ingressRecord with
        | Some r => armdnsRecordSet ++ [r]
        | None => armdnsRecordSet
        end in
      gatewayRecords ← map_err Mask (getGatewayARecords s);
      mret (armdnsRecordSet ++ gatewayRecords).

(** The loop over the A records of the current record set, which exports them
    as metrics. *)
Definition export_ARecords (zone : string) (zoneType : string) (current : RecordSet) : G W unit :=
  p ← deref (rs_Properties current);
  foreach (ARecords p) (λ ip,
    name ← name_of current;
    address ← deref (IPv4Address ip);
    ttl ← deref (TTL p);
    upd_metrics (RecordInfo_Set
      [zone; zoneType; name +:+ "." +:+ zone; address; fmt_Sprint ttl] 1)).

(** One desired record set against the current ones: appended to the records
    to create when it is missing or differs in addresses or TTL. *)
Definition compare_ARecord (s : Service) (acc : list RecordSet * list RecordSet)
    (desired : RecordSet) : G W (list RecordSet * list RecordSet) :=
  let '(recordsToCreate, currentRecordSets) := acc in
  desiredName ← name_of desired;
  currentRecordSetIndex ← IndexFunc currentRecordSets
    (λ rs, n ← name_of rs; mret (bool_decide (n = desiredName)));
  if currentRecordSetIndex =? -1 then
    mret (recordsToCreate ++ [desired], currentRecordSets)
  else
    currentRecordSets ← clear_ProvisioningState currentRecordSets currentRecordSetIndex;
    current ← at_index currentRecordSets currentRecordSetIndex;
    dp ← deref (rs_Properties desired);
    cp ← deref (rs_Properties current);
    let recordsToCreate :=
      if negb (bool_decide (ARecords dp = ARecords cp)) then recordsToCreate ++ [desired]
      else if negb (bool_decide (TTL dp = TTL cp)) then recordsToCreate ++ [desired]
      else recordsToCreate in
    export_ARecords (ClusterDomain (scope s)) ZoneTypePublic current;;
    mret (recordsToCreate, currentRecordSets).

(** The records to create, and the current record sets as the loop leaves them
    (their [ProvisioningState] is cleared in place). *)
Definition calculateMissingARecords (s : Service) (currentRecordSets : list RecordSet)
    : G W (list RecordSet * list RecordSet) :=
  desiredRecordSets ← getDesiredARecords s;
  foldlM (compare_ARecord s) ([], currentRecordSets) desiredRecordSets.

Definition updateARecords (s : Service) (currentRecordSets : list RecordSet)
    : G W (list RecordSet) :=
  '(recordsToCreate, currentRecordSets) ← calculateMissingARecords s currentRecordSets;
  (if (length recordsToCreate =? 0)%nat then mret tt
   else foreach recordsToCreate (λ aRecord,
     name ← name_of aRecord;
     deref (rs_Properties aRecord);;
     map_err Mask (CreateOrUpdateRecordSet (svc_azureClient s) (ResourceGroup_name (scope s))
       (ClusterDomain (scope s)) RecordTypeA name aRecord);;
     mret tt));;
  mret currentRecordSets.

(** * cnamerecords.go *)

Definition desiredCnameRecords (wildcardTarget : string) : list RecordSet :=
  [mkRecordSet (pointer_String "*") (Some (RecordType_string RecordTypeCNAME))
     (Some (mkProperties (Some cnameRecordTTL) [] (Some (mkCnameRecord (Some wildcardTarget)))
              [] None))].

Definition compare_CnameRecord (currentRecordSets : list RecordSet)
    (recordsToCreate : list RecordSet) (desired : RecordSet) : G W (list RecordSet) :=
  desiredName ← name_of desired;
  currentRecordSetIndex ← IndexFunc currentRecordSets
    (λ rs, n ← name_of rs; mret (bool_decide (n = desiredName)));
  if currentRecordSetIndex <? 0 then mret (recordsToCreate ++ [desired])
  else
    current ← at_index currentRecordSets currentRecordSetIndex;
    cp ← deref (rs_Properties current);
    dp ← deref (rs_Properties desired);
    mret (if negb (bool_decide (rsp_CnameRecord cp = rsp_CnameRecord dp))
          then recordsToCreate ++ [desired]
          else if negb (bool_decide (TTL cp = TTL dp)) then recordsToCreate ++ [desired]
          else recordsToCreate).

Definition calculateMissingCnameRecords (s : Service) (currentRecordSets : list RecordSet)
    : G W (list RecordSet) :=
  foldlM (compare_CnameRecord currentRecordSets) []
    (desiredCnameRecords (WildcardFQDN (scope s))).

Definition updateCnameRecords (s : Service) (currentRecordSets : list RecordSet) : G W unit :=
  recordsToCreate ← calculateMissingCnameRecords s currentRecordSets;
  if (length recordsToCreate =? 0)%nat then mret tt
  else foreach recordsToCreate (λ cnameRecord,
    name ← name_of cnameRecord;
    deref (rs_Properties cnameRecord);;
    CreateOrUpdateRecordSet (svc_azureClient s) (ResourceGroup_name (scope s))
      (ClusterDomain (scope s)) RecordTypeCNAME name cnameRecord;;
    mret tt).

(** * nsrecords.go *)

Definition deleteClusterNSRecords (s : Service) : G W unit :=
  DeleteRecordSet (svc_azureBaseZoneClient s) (baseDomainResourceGroup (scope s))
    (baseDomain (scope s)) RecordTypeNS (ClusterName (svc_Patcher s)).

Definition createClusterNSRecord (s : Service) (nameServerRecords : list NsRecord) : G W unit :=
  CreateOrUpdateRecordSet (svc_azureBaseZoneClient s) (baseDomainResourceGroup (scope s))
    (baseDomain (scope s)) RecordTypeNS (ClusterName (svc_Patcher s))
    (mkRecordSet None None
       (Some (mkProperties (Some zoneRecordTTL) [] None nameServerRecords None)));;
  mret tt.
End dns.
Arguments Service W {_ _}.
