(* ===== verification/DnsService.v ===== *)
(** azure/services/dns: the resource group of a cluster (resourcegroup.go) and
    the reconciliation of its public zone (dns.go). *)
From S2P Require Import Prelude GoStd Errors Metrics Kube State Infra Azure Scope DnsClient.
From S2P Require Import DnsRecords.
Open Scope Z_scope.

Definition map_of (t : tagmap) : gmap string (option string) := default ∅ t.

(** The loop of [resourceGroupTagsEqual] over the new tags, in the order [l]
    Go ranges over them; it returns at the first difference. *)
Fixpoint tags_equal_loop {S E} (existingTags : gmap string (option string))
    (l : list (string * option string)) : M S E bool :=
  match l with
  | [] => mret true
  | (key, value) :: l =>
      match existingTags !! key with
      | None => mret false
      | Some existingValue =>
          e ← deref existingValue;
          v ← deref value;
          if negb (bool_decide (e = v)) then mret false
          else tags_equal_loop existingTags l
      end
  end.

Definition resourceGroupTagsEqual {S E} (existingTags newTags : tagmap) : M S E bool :=
  if negb (size (map_of existingTags) =? size (map_of newTags))%nat then mret false
  else tags_equal_loop (map_of existingTags) (map_to_list (map_of newTags)).

(** The two copying loops; the result does not depend on their order, a key of
    [newTags] wins. *)
Definition mergeResourceTags (existingTags newTags : tagmap) : tagmap :=
  let merged := fold_left (λ m '(k, v), <[k := v]> m) (map_to_list (map_of existingTags)) ∅ in
  Some (fold_left (λ m '(k, v), <[k := v]> m) (map_to_list (map_of newTags)) merged).

Section dns.
Context {W : Type} `{Microerror, Kubernetes W, Prometheus}.

(** * resourcegroup.go *)

Definition updateClusterResourceGroup (s : Service W) (existing : ResourceGroup)
    : G W ResourceGroup :=
  let resourceGroupName := ResourceGroup_name (scope s) in
  let tags := resourceTags (scope s) in
  equal ← resourceGroupTagsEqual (rg_Tags existing) tags;
  if negb (equal : bool) then
    let merged := mergeResourceTags (rg_Tags existing) tags in
    deref (rg_Properties existing);;
    let existing := {| rg_Name := rg_Name existing; rg_Location := rg_Location existing;
                       rg_Tags := merged;
                       rg_Properties := Some {| rgp_ProvisioningState := None |} |} in
    map_err Mask (CreateOrUpdateResourceGroup (svc_azureClient s) resourceGroupName existing);;
    mret existing
  else mret existing.

(** The location of a new resource group: the configured one, else that of the
    management cluster's resource group. *)
Definition resource_group_location (s : Service W) : G W (option string) :=
  if bool_decide (s_AzureLocation (svc_Scope s) = "") then
    managementCluster ← map_err Mask (ManagementCluster (svc_Scope s));
    g ← map_err Mask (GetResourceGroup (svc_azureClient s)
                        (spec_ResourceGroup (ac_Spec managementCluster)));
    mret (rg_Location g)
  else mret (Some (s_AzureLocation (svc_Scope s))).

Definition createClusterResourceGroup (s : Service W) : G W ResourceGroup :=
  let resourceGroupName := ResourceGroup_name (scope s) in
  r ← try (GetResourceGroup (svc_azureClient s) resourceGroupName);
  match r with
  | inr existing => updateClusterResourceGroup s existing
  | inl err =>
      if negb (IsResourceNotFoundError err) then throw (Mask err)
      else
        location ← resource_group_location s;
        map_err Mask (CreateOrUpdateResourceGroup (svc_azureClient s) resourceGroupName
          {| rg_Name := Some resourceGroupName; rg_Location := location;
             rg_Tags := resourceTags (scope s); rg_Properties := None |})
  end.

Definition deleteClusterResourceGroup (s : Service W) : G W unit :=
  r ← try (DeleteResourceGroup (svc_azureClient s) (ResourceGroup_name (scope s)));
  match r with
  | inl err => if negb (IsResourceNotFoundError err) then throw (Mask err) else mret tt
  | inr _ => mret tt
  end.

(** * dns.go *)

(** [New]: the clients of the cluster's and of the base zone's subscription *)
Definition New `{AzureSDK W} (fuel : nat) (sc : DNSScope W) (publicIPs : Getter W)
    : G W (Service W) :=
  ac ← map_err Mask (newAzureClient sc);
  bc ← map_err Mask (newBaseZoneClient (baseZoneCredentials sc));
  mret {| scope := sc;
          svc_azureClient := azureClient_client fuel ac;
          svc_azureBaseZoneClient := azureClient_client fuel bc;
          publicIPsService := publicIPs |}.

Definition createClusterDNSZone (s : Service W) : G W Zone :=
  let zoneName := ClusterDomain (scope s) in
  map_err Mask (CreateOrUpdateZone (svc_azureClient s) (ResourceGroup_name (scope s)) zoneName
    {| zone_Name := Some zoneName; zone_LocationField := Some Global_location;
       zone_Properties := None |}).

(** The record sets of the cluster's zone; a zone that does not exist is
    created, and has none. *)
Definition list_or_create_zone (s : Service W) : G W (list RecordSet) :=
  r ← try (ListRecordSets (svc_azureClient s) (ResourceGroup_name (scope s))
             (ClusterDomain (scope s)));
  match r with
  | inl err =>
      if negb (IsParentResourceNotFound (Some err)) then
        upd_metrics (AzureRequestError_Inc "recordSets.NewListByDNSZonePager");;
        throw (Mask err)
      else map_err Mask (createClusterDNSZone s);; mret []
  | inr l => mret l
  end.

(** [p == &s.scope.Cluster.Name]: the two pointers, not the two strings. *)
Definition is_cluster_name_pointer (s : Service W) (p : option (ptr string)) : bool :=
  match p with
  | Some p => addr p =? cluster_Name_addr (s_Cluster (svc_Scope s))
  | None => false
  end.

(** The loop that looks for an existing NS record in the base zone. *)
Definition find_clusterNSRecord (s : Service W) (basedomainRecordSets : list RecordSet)
    : G W bool :=
  foldlM (λ exists_ rs,
    if is_cluster_name_pointer s (rs_Name rs) then
      p ← deref (rs_Properties rs);
      mret (if (0 <? length (NsRecords p))%nat then true else exists_)
    else mret exists_) false basedomainRecordSets.

Definition Reconcile (s : Service W) : G W unit :=
  let clusterZoneName := ClusterDomain (scope s) in
  azure ← IsAzureCluster;
  (if negb (azure : bool) then map_err Mask (createClusterResourceGroup s);; mret tt
   else mret tt);;
  upd_metrics (ZoneInfo_Set [ClusterDomain (scope s); ZoneTypePublic; ResourceGroup_name (scope s);
                             TenantID (svc_Patcher s); SubscriptionID (svc_Patcher s)] 1);;
  clusterRecordSets ← list_or_create_zone s;
  clusterZone ← map_err Mask
    (GetZone (svc_azureClient s) (ResourceGroup_name (scope s)) clusterZoneName);
  zp ← deref (zone_Properties clusterZone);
  n ← deref (NumberOfRecordSets zp);
  upd_metrics (ClusterZoneRecords_Set [ClusterDomain (scope s); ZoneTypePublic] n);;
  basedomainRecordSets ← map_err Mask
    (ListRecordSets (svc_azureBaseZoneClient s) (baseDomainResourceGroup (scope s))
       (baseDomain (scope s)));
  upd_metrics (ClusterZoneRecords_Set [baseDomain (scope s); ZoneTypePublic]
                 (Z.of_nat (length basedomainRecordSets)));;
  clusterNSRecordExists ← find_clusterNSRecord s basedomainRecordSets;
  let clusterZoneNameServers := map mkNsRecord (NameServers zp) in
  (if negb (clusterNSRecordExists : bool)
   then map_err Mask (createClusterNSRecord s clusterZoneNameServers)
   else mret tt);;
  clusterRecordSets ← map_err Mask (updateARecords s clusterRecordSets);
  map_err Mask (updateCnameRecords s clusterRecordSets).

Definition ReconcileDelete (s : Service W) : G W unit :=
  map_err Mask (deleteClusterNSRecords s);;
  azure ← IsAzureCluster;
  if negb (azure : bool) then map_err Mask (deleteClusterResourceGroup s) else mret tt.
End dns.
