(* ===== verification/PrivateClient.v ===== *)
(** azure/services/privatedns/client.go: the client of the private DNS service.
    [PrivateClient] is the source's interface [Client], [privateClient] the
    struct [azureClient] that implements it. *)
From S2P Require Import Prelude GoStd Errors Metrics Kube State Infra Azure Scope DnsClient.
Open Scope Z_scope.

(** * The interface *)

Record PrivateClient (W : Type) `{KubeTypes, Prometheus} := {
  pc_CreateOrUpdatePrivateZone : string → string → Zone → G W unit;
  pc_GetPrivateZone : string → string → G W Zone;
  pc_DeletePrivateZone : string → string → G W unit;
  pc_ListPrivateRecordSets : string → string → G W (list RecordSet);
  (** resource group, zone, workload cluster, virtual network, link *)
  pc_CreateOrUpdateVirtualNetworkLink : string → string → string → string → string → G W unit;
  pc_ListVirtualNetworkLink : string → string → G W (list VirtualNetworkLink);
  pc_DeleteVirtualNetworkLink : string → string → string → G W unit;
  pc_ListRecordSets : string → string → G W (list RecordSet);
  pc_CreateOrUpdateRecordSet :
    string → string → RecordType → string → RecordSet → G W RecordSet;
}.
Arguments pc_CreateOrUpdatePrivateZone {W _ _}.
Arguments pc_GetPrivateZone {W _ _}.
Arguments pc_DeletePrivateZone {W _ _}.
Arguments pc_ListPrivateRecordSets {W _ _}.
Arguments pc_CreateOrUpdateVirtualNetworkLink {W _ _}.
Arguments pc_ListVirtualNetworkLink {W _ _}.
Arguments pc_DeleteVirtualNetworkLink {W _ _}.
Arguments pc_ListRecordSets {W _ _}.
Arguments pc_CreateOrUpdateRecordSet {W _ _}.

Definition virtualNetworkLinkName (resourceGroupName : string) : string :=
  resourceGroupName +:+ "-vnet-link".

(** * The implementation *)

Section private_client.
Context {W : Type} `{Microerror, Kubernetes W, Prometheus, AzureSDK W}.

Record privateClient := {
  privateZones : PrivateZonesClient;
  privateRecordSets : PrivateRecordSetsClient;
  virtualNetworkLinkClient : VirtualNetworkLinksClient;
}.

(** [poller.PollUntilDone], counted once it is back *)
Definition private_poll (poller : Poller) : G W unit :=
  r ← try (call (PollUntilDone poller));
  count_request "poller.PollUntilDone";;
  match r with
  | inl err => count_error "poller.PollUntilDone";; throw (Mask err)
  | inr _ => mret tt
  end.

Definition ListPrivateRecordSets (fuel : nat) (ac : privateClient) (rg zoneName : string)
    : G W (list RecordSet) :=
  count_request "privateRecordSets.NewListByTypePager";;
  drain Mask fuel
    (privateRecordSets_NewListByTypePager (privateRecordSets ac) rg zoneName RecordTypeA) [].

Definition CreateOrUpdatePrivateZone (ac : privateClient) (rg zoneName : string) (zone : Zone)
    : G W unit :=
  count_request "privateZones.BeginCreateOrUpdate";;
  poller ← counted_mask "privateZones.BeginCreateOrUpdate"
             (call (privateZones_BeginCreateOrUpdate (privateZones ac) rg zoneName zone));
  private_poll poller.

Definition CreateOrUpdateVirtualNetworkLink (ac : privateClient)
    (rg zoneName workloadClusterName vnetID vnetLinkName : string) : G W unit :=
  count_request "virtualNetworkLinkClient.BeginCreateOrUpdate";;
  poller ← counted_mask "virtualNetworkLinkClient.BeginCreateOrUpdate"
    (call (virtualNetworkLinks_BeginCreateOrUpdate (virtualNetworkLinkClient ac) rg zoneName
       vnetLinkName
       {| link_Name := None; link_ID := None; link_Location := Some Global_location;
          link_Properties := Some {| RegistrationEnabled := Some false;
                                     VirtualNetwork := Some (Some vnetID) |} |}));
  private_poll poller.

(** An error of a page is returned as it is. *)
Definition ListVirtualNetworkLink (fuel : nat) (ac : privateClient) (rg zoneName : string)
    : G W (list VirtualNetworkLink) :=
  count_request "virtualNetworkLinkClient.NewListPager";;
  drain id fuel
    (virtualNetworkLinks_NewListPager (virtualNetworkLinkClient ac) rg zoneName) [].

(** The request itself is not counted. *)
Definition DeleteVirtualNetworkLink (ac : privateClient) (rg zoneName linkName : string)
    : G W unit :=
  poller ← counted_mask "virtualNetworkLinkClient.BeginDelete"
    (call (virtualNetworkLinks_BeginDelete (virtualNetworkLinkClient ac) rg zoneName linkName));
  private_poll poller.

Definition GetPrivateZone (ac : privateClient) (rg zoneName : string) : G W Zone :=
  count_request "privateZones.Get";;
  counted_mask "privateZones.Get" (call (privateZones_Get (privateZones ac) rg zoneName)).

Definition DeletePrivateZone (ac : privateClient) (rg zoneName : string) : G W unit :=
  count_request "privateZones.BeginDelete";;
  poller ← counted_mask "privateZones.BeginDelete"
             (call (privateZones_BeginDelete (privateZones ac) rg zoneName));
  private_poll poller.

Definition ListRecordSets (fuel : nat) (ac : privateClient) (rg zoneName : string)
    : G W (list RecordSet) :=
  count_request "privateRecordSets.NewListPager";;
  drain Mask fuel (privateRecordSets_NewListPager (privateRecordSets ac) rg zoneName) [].

Definition CreateOrUpdateRecordSet (ac : privateClient) (rg zoneName : string)
    (recordType : RecordType) (recordSetName : string) (recordSet : RecordSet) : G W RecordSet :=
  count_request "privateRecordSets.CreateOrUpdate";;
  counted_mask "privateRecordSets.CreateOrUpdate"
    (call (privateRecordSets_CreateOrUpdate (privateRecordSets ac) rg zoneName recordType
             recordSetName recordSet)).

Definition privateClient_Client (fuel : nat) (ac : privateClient) : PrivateClient W := {|
  pc_CreateOrUpdatePrivateZone := CreateOrUpdatePrivateZone ac;
  pc_GetPrivateZone := GetPrivateZone ac;
  pc_DeletePrivateZone := DeletePrivateZone ac;
  pc_ListPrivateRecordSets := ListPrivateRecordSets fuel ac;
  pc_CreateOrUpdateVirtualNetworkLink := CreateOrUpdateVirtualNetworkLink ac;
  pc_ListVirtualNetworkLink := ListVirtualNetworkLink fuel ac;
  pc_DeleteVirtualNetworkLink := DeleteVirtualNetworkLink ac;
  pc_ListRecordSets := ListRecordSets fuel ac;
  pc_CreateOrUpdateRecordSet := CreateOrUpdateRecordSet ac;
|}.

Definition newPrivateZonesClient (subscriptionID : string) (cred : option TokenCredential)
    : io W PrivateZonesClient :=
  NewPrivateZonesClient subscriptionID cred.

Definition newPrivateRecordSetsClient (subscriptionID : string) (cred : option TokenCredential)
    : io W PrivateRecordSetsClient :=
  NewPrivateRecordSetsClient subscriptionID cred.

Definition newVirtualNetworkLinkClient (subscriptionID : string) (cred : option TokenCredential)
    : io W VirtualNetworkLinksClient :=
  NewVirtualNetworkLinksClient subscriptionID cred.

Definition newPrivateDNSClient (scope : PrivateDNSScope) : G W privateClient :=
  let idt := ManagementClusterAzureIdentity scope in
  cred ← match identity_Type idt with
         | UserAssignedMSI =>
             c ← map_err Mask (call (NewManagedIdentityCredential (identity_ClientID idt)));
             mret (Some c)
         | ManualServicePrincipal =>
             c ← call (NewClientSecretCredential (identity_TenantID idt) (identity_ClientID idt)
                         (ManagementClusterAzureClientSecret scope));
             mret (Some c)
         | WorkloadIdentity =>
             c ← map_err Mask (call (NewWorkloadIdentityCredential (identity_TenantID idt)
                                       (identity_ClientID idt)));
             mret (Some c)
         | OtherIdentity _ => mret None
         end;
  let sub := ManagementClusterSubscriptionID scope in
  privateZonesClient ← map_err Mask (call (newPrivateZonesClient sub cred));
  privateRecordSetsClient ← map_err Mask (call (newPrivateRecordSetsClient sub cred));
  linkClient ← map_err Mask (call (newVirtualNetworkLinkClient sub cred));
  mret {| privateZones := privateZonesClient; privateRecordSets := privateRecordSetsClient;
          virtualNetworkLinkClient := linkClient |}.
End private_client.
