(* ===== verification/PrivateDns.v ===== *)
(** azure/services/privatedns: the reconciliation of a cluster's private zone
    in the resource group of the management cluster (privatedns.go,
    arecords.go, cnamerecords.go). *)
From S2P Require Import Prelude GoStd Errors Metrics Kube State Infra Azure Scope DnsClient.
From S2P Require Import PrivateClient DnsRecords.
Open Scope Z_scope.

Definition apiserverRecordName : string := "apiserver".
Definition mcIngressRecordName : string := "ingress".
Definition apiRecordTTL : Z := 300.
Definition cnameRecordTTL : Z := 300.

Section privatedns.
Context {W : Type} `{Microerror, Kubernetes W, Prometheus}.

Record Service := {
  scope : PrivateDNSScope;
  privateDNSClient : PrivateClient W;
}.

Definition New `{!AzureSDK W} (fuel : nat) (sc : PrivateDNSScope) : G W Service :=
  ac ← map_err Mask (newPrivateDNSClient sc);
  mret {| scope := sc; privateDNSClient := privateClient_Client fuel ac |}.

(** * arecords.go *)

(** One [if len(ip) > 0 {...}] block: a record set for the name, the index
    search for it, and the address appended. *)
Definition append_private_record (name ip : string) (l : list RecordSet)
    : G W (list RecordSet) :=
  if (0 <? String.length ip)%nat then
    let l := l ++ [a_recordset name apiRecordTTL []] in
    i ← IndexFunc l (λ rs, n ← name_of rs; mret (bool_decide (n = name)));
    append_ARecord l i ip
  else mret l.

Definition getDesiredPrivateARecords (s : Service) : G W (list RecordSet) :=
  l ← append_private_record apiserverRecordName (PrivateLinkedAPIServerIP (scope s)) [];
  append_private_record mcIngressRecordName (PrivateLinkedMcIngressIP (scope s)) l.

Definition compare_ARecord (s : Service) (currentRecordSets : list RecordSet)
    (recordsToCreate : list RecordSet) (desired : RecordSet) : G W (list RecordSet) :=
  desiredName ← name_of desired;
  currentRecordSetIndex ← IndexFunc currentRecordSets
    (λ rs, n ← name_of rs; mret (bool_decide (n = desiredName)));
  if currentRecordSetIndex =? -1 then mret (recordsToCreate ++ [desired])
  else
    dp ← deref (rs_Properties desired);
    current ← at_index currentRecordSets currentRecordSetIndex;
    cp ← deref (rs_Properties current);
    let recordsToCreate :=
      if negb (bool_decide (ARecords dp = ARecords cp)) then recordsToCreate ++ [desired]
      else if negb (bool_decide (TTL dp = TTL cp)) then recordsToCreate ++ [desired]
      else recordsToCreate in
    export_ARecords (PrivateClusterDomain (scope s)) ZoneTypePrivate current;;
    mret recordsToCreate.

Definition calculateMissingARecords (s : Service) (currentRecordSets : list RecordSet)
    : G W (list RecordSet) :=
  desiredRecordSets ← getDesiredPrivateARecords s;
  foldlM (compare_ARecord s currentRecordSets) [] desiredRecordSets.

Definition updateARecords (s : Service) (currentRecordSets : list RecordSet) : G W unit :=
  recordsToCreate ← calculateMissingARecords s currentRecordSets;
  if (length recordsToCreate =? 0)%nat then mret tt
  else foreach recordsToCreate (λ aRecord,
    name ← name_of aRecord;
    deref (rs_Properties aRecord);;
    map_err Mask (pc_CreateOrUpdateRecordSet (privateDNSClient s)
      (ManagementClusterResourceGroup (scope s)) (PrivateClusterDomain (scope s))
      RecordTypeA name aRecord);;
    mret tt).

(** * cnamerecords.go *)

Definition desiredCnameRecords (wildcardTarget : string) : list RecordSet :=
  [mkRecordSet (pointer_String "*") (Some (RecordType_string RecordTypeCNAME))
     (Some (mkProperties (Some cnameRecordTTL) [] (Some (mkCnameRecord (Some wildcardTarget)))
              [] None))].

Definition compare_CnameRecord (currentRecordSets : list RecordSet)
    (recordsToCreate : list RecordSet) (desired : RecordSet) : G W (list RecordSet) :=
  desiredName ← name_of desired;
  currentRecordSetIndex ← IndexFunc currentRecordSets
    (λ rs, n ← name_of rs; mret (bool_decide (n = desiredName)));
  if currentRecordSetIndex <? 0 then mret (recordsToCreate ++ [desired])
  else
    current ← at_index currentRecordSets currentRecordSetIndex;
    cp ← deref (rs_Properties current);
    dp ← deref (rs_Properties desired);
    mret (if negb (bool_decide (rsp_CnameRecord cp = rsp_CnameRecord dp))
          then recordsToCreate ++ [desired]
          else if negb (bool_decide (TTL cp = TTL dp)) then recordsToCreate ++ [desired]
          else recordsToCreate).

Definition calculateMissingCnameRecords (s : Service) (currentRecordSets : list RecordSet)
    : G W (list RecordSet) :=
  foldlM (compare_CnameRecord currentRecordSets) []
    (desiredCnameRecords (PrivateWildcardFQDN (scope s))).

Definition updateCnameRecords (s : Service) (currentRecordSets : list RecordSet) : G W unit :=
  recordsToCreate ← calculateMissingCnameRecords s currentRecordSets;
  if (length recordsToCreate =? 0)%nat then mret tt
  else foreach recordsToCreate (λ cnameRecord,
    name ← name_of cnameRecord;
    deref (rs_Properties cnameRecord);;
    pc_CreateOrUpdateRecordSet (privateDNSClient s)
      (ManagementClusterResourceGroup (scope s)) (PrivateClusterDomain (scope s))
      RecordTypeCNAME name cnameRecord;;
    mret tt).

(** * privatedns.go *)

(** The record sets of the private zone; a zone that does not exist is
    created, and has none. *)
Definition list_or_create_zone (s : Service) : G W (list RecordSet) :=
  let clusterZoneName := PrivateClusterDomain (scope s) in
  let rg := ManagementClusterResourceGroup (scope s) in
  r ← try (pc_ListPrivateRecordSets (privateDNSClient s) rg clusterZoneName);
  match r with
  | inr l => mret l
  | inl err =>
      if negb (IsParentResourceNotFound (Some err)) then throw (Mask err)
      else
        map_err Mask (pc_CreateOrUpdatePrivateZone (privateDNSClient s) rg clusterZoneName
          {| zone_Name := Some clusterZoneName; zone_LocationField := Some Global_location;
             zone_Properties := None |});;
        mret []
  end.

(** The two predicates of the searches through the links. *)
Definition operator_link (s : Service) (link : VirtualNetworkLink) : G W bool :=
  name ← deref (link_Name link);
  if bool_decide (name = virtualNetworkLinkName (ManagementClusterResourceGroup (scope s)))
  then mret true
  else id ← deref (link_ID link); mret (bool_decide (id = ManagementClusterClientID (scope s))).

Definition link_to_vnet (s : Service) (link : VirtualNetworkLink) : G W bool :=
  p ← deref (link_Properties link);
  vnet ← deref (VirtualNetwork p);
  id ← deref vnet;
  mret (bool_decide (id = ManagementClusterVnetID (scope s))).

(** The operator's link is created unless it is there; a link of another name
    to the same network is deleted before. *)
Definition ensure_link (s : Service) : G W unit :=
  let clusterZoneName := PrivateClusterDomain (scope s) in
  let rg := ManagementClusterResourceGroup (scope s) in
  networkLinks ← map_err Mask (pc_ListVirtualNetworkLink (privateDNSClient s) rg clusterZoneName);
  operatorIndex ← IndexFunc networkLinks (operator_link s);
  if operatorIndex =? -1 then
    existingIndex ← IndexFunc networkLinks (link_to_vnet s);
    (if 0 <=? existingIndex then
       existing ← at_index networkLinks existingIndex;
       name ← deref (link_Name existing);
       map_err Mask (pc_DeleteVirtualNetworkLink (privateDNSClient s) rg clusterZoneName name)
     else mret tt);;
    map_err Mask (pc_CreateOrUpdateVirtualNetworkLink (privateDNSClient s) rg clusterZoneName
      (ps_clusterName (scope s)) (ManagementClusterVnetID (scope s)) (virtualNetworkLinkName rg))
  else mret tt.

(** An error of [GetPrivateZone] is only logged, and the empty zone read on. *)
Definition export_zone_size (s : Service) : G W unit :=
  let clusterZoneName := PrivateClusterDomain (scope s) in
  r ← try (pc_GetPrivateZone (privateDNSClient s) (ManagementClusterResourceGroup (scope s))
             clusterZoneName);
  let privateZone := match r with inr z => z | inl _ => zero_Zone end in
  p ← deref (zone_Properties privateZone);
  n ← deref (NumberOfRecordSets p);
  upd_metrics (ClusterZoneRecords_Set [clusterZoneName; ZoneTypePrivate] n).

Definition Reconcile (s : Service) : G W unit :=
  let clusterZoneName := PrivateClusterDomain (scope s) in
  let rg := ManagementClusterResourceGroup (scope s) in
  upd_metrics (ZoneInfo_Set [clusterZoneName; ZoneTypePrivate; rg;
    ManagementClusterTenantID (scope s); ManagementClusterSubscriptionID (scope s)] 1);;
  privateClusterRecordSets ← list_or_create_zone s;
  ensure_link s;;
  export_zone_size s;;
  map_err Mask (updateARecords s privateClusterRecordSets);;
  map_err Mask (updateCnameRecords s privateClusterRecordSets).

Definition ReconcileDelete (s : Service) : G W unit :=
  let clusterZoneName := PrivateClusterDomain (scope s) in
  let rg := ManagementClusterResourceGroup (scope s) in
  map_err Mask (pc_DeleteVirtualNetworkLink (privateDNSClient s) rg clusterZoneName
                  (virtualNetworkLinkName rg));;
  map_err Mask (pc_DeletePrivateZone (privateDNSClient s) rg clusterZoneName).
End privatedns.
Arguments Service W {_ _}.
