(* ===== verification/Controller.v ===== *)
(** controllers/cluster_controller.go: one reconciliation of a cluster.  The
    private DNS services, the public DNS service, the finalizer, the status
    condition and the metrics, in the order the controller runs them. *)
From S2P Require Import Prelude GoStd Errors Metrics Kube State Conditions Infra Azure Scope.
From S2P Require Import DnsClient PrivateClient DnsRecords DnsService PrivateDns.
Open Scope Z_scope.

Definition AzureClusterControllerFinalizer : string :=
  "dns-operator-azure.giantswarm.io/azurecluster".
Definition azurePrivateEndpointOperatorApiServerAnnotation : string :=
  "azure-private-endpoint-operator.giantswarm.io/private-link-apiserver-ip".
Definition azurePrivateEndpointOperatorMcIngressAnnotation : string :=
  "azure-private-endpoint-operator.giantswarm.io/private-link-mc-ingress-ip".
(** [capi.ClusterPhaseProvisioned], [infrav1.LoadBalancersReadyCondition] *)
Definition ClusterPhaseProvisioned : string := "Provisioned".
Definition LoadBalancersReadyCondition : string := "LoadBalancersReady".

(** [ctrl.Result]: when to run again, in seconds, 0 for not at all. *)
Record Result := { RequeueAfter : Z }.
Definition no_requeue : Result := {| RequeueAfter := 0 |}.

#[global] Instance Result_eq_dec : EqDecision Result.
Proof. solve_decision. Defined.

Definition GSDNSZoneReady : Condition :=
  mkCondition "GSDNSZoneReady" "True" "GSDNSZonesCreated"
    "GiantSwarm DNS Zones have been created" None.

Section controller.
Context {W : Type} `{Microerror, Kubernetes W, Prometheus, !AzureSDK W, !Capz W,
                     !MetaConditions W}.
(** pages of one Azure listing *)
Context (fuel : nat).

Record ClusterReconciler := {
  r_Client : Client;
  BaseDomain : string;
  BaseDomainResourceGroup : string;
  BaseZoneClientID : string;
  BaseZoneClientSecret : string;
  BaseZoneSubscriptionID : string;
  BaseZoneTenantID : string;
  r_ManagementClusterConfig : ManagementClusterConfig;
  InfraClusterZoneAzureConfig : ClusterZoneAzureConfig;
  ClusterAzureIdentityRef : option ObjectReference;
}.

(** * Building the services *)

Definition identity_secret_name (idt : AzureClusterIdentity) : NamespacedName :=
  {| nn_Name := ref_Name (identity_ClientSecret idt);
     nn_Namespace := ref_Namespace (identity_ClientSecret idt) |}.

Definition getInfraClusterStaticServicePrincipalSecret (r : ClusterReconciler)
    (idt : AzureClusterIdentity) : G W Secret :=
  if bool_decide (identity_Type idt = ManualServicePrincipal)
  then call (Get_Secret (r_Client r) (identity_secret_name idt))
  else mret zero_Secret.

Definition getDnsServiceForPublicRecords (r : ClusterReconciler) (sc : Scope W)
    : G W (DnsRecords.Service W) :=
  azureClusterIdentity ← map_err Mask (InfraClusterIdentity sc);
  secret ← map_err Mask (getInfraClusterStaticServicePrincipalSecret r azureClusterIdentity);
  annotations ← InfraClusterAnnotations;
  dnsScope ← map_err Mask (lift_sum (NewDNSScope {|
    dp_ClusterScope := sc;
    dp_BaseDomain := BaseDomain r;
    dp_BaseDomainResourceGroup := BaseDomainResourceGroup r;
    dp_BaseZoneCredentials := {| bz_ClientID := BaseZoneClientID r;
                                 bz_ClientSecret := BaseZoneClientSecret r;
                                 bz_SubscriptionID := BaseZoneSubscriptionID r;
                                 bz_TenantID := BaseZoneTenantID r |};
    dp_AzureClusterIdentity := azureClusterIdentity;
    dp_AzureClusterServicePrincipalSecret := secret;
    dp_ManagementClusterAzureIdentity := zero_AzureClusterIdentity;
    dp_ManagementClusterServicePrincipalSecret := zero_Secret;
    dp_ManagementClusterSpec := zero_AzureClusterSpec;
    dp_ResourceTags := GetResourceTagsFromInfraClusterAnnotations annotations |}));
  map_err Mask (DnsService.New fuel dnsScope (s_publicIPService sc)).

(** The secret of a private service's identity.  [None]: it does not exist,
    and the caller then returns the nil service without an error. *)
Definition private_identity_secret (r : ClusterReconciler) (idt : AzureClusterIdentity)
    : G W (option Secret) :=
  if bool_decide (identity_Type idt = ManualServicePrincipal) then
    s ← try (call (Get_Secret (r_Client r) (identity_secret_name idt)));
    match s with
    | inr s => mret (Some s)
    | inl err => if apierrors_IsNotFound err then mret None else throw (Mask err)
    end
  else mret (Some zero_Secret).

Definition private_service (params : PrivateDNSScopeParams)
    : G W (option (PrivateDns.Service W)) :=
  privateDnsScope ← map_err Mask (lift_sum (NewPrivateDNSScope params));
  service ← map_err Mask (PrivateDns.New fuel privateDnsScope);
  mret (Some service).

Definition getPrivateDnsServiceForMcToWcApi (r : ClusterReconciler) (sc : Scope W)
    : G W (option (PrivateDns.Service W)) :=
  managementCluster ← map_err Mask (ManagementCluster sc);
  identity ← map_err Mask (ManagementClusterIdentity sc);
  secret ← private_identity_secret r identity;
  match secret with
  | None => mret None
  | Some secret =>
      infraCluster ← gets infraCluster;
      private_service {|
        pp_BaseDomain := BaseDomain r;
        pp_ClusterName := u_Name infraCluster;
        pp_ClusterSpecToAttachPrivateDNS := ac_Spec managementCluster;
        pp_ClusterAzureIdentityToAttachPrivateDNS := identity;
        pp_ClusterServicePrincipalSecretToAttachPrivateDNS := secret;
        pp_VirtualNetworkIDToAttachPrivateDNS := spec_VnetID (ac_Spec managementCluster);
        pp_APIServerIP := map_get (u_Annotations infraCluster)
                            azurePrivateEndpointOperatorApiServerAnnotation;
        pp_MCIngressIP := "";
        pp_WildcardCNAMETarget := map_get (cluster_Annotations (s_Cluster sc))
                                    AnnotationWildcardCNAMETarget |}
  end.

Definition getPrivateDnsServiceForWcToMcIngress (r : ClusterReconciler) (sc : Scope W)
    : G W (option (PrivateDns.Service W)) :=
  managementCluster ← map_err Mask (ManagementCluster sc);
  identity ← map_err Mask (InfraClusterIdentity sc);
  secret ← private_identity_secret r identity;
  match secret with
  | None => mret None
  | Some secret =>
      managementCAPICluster ← map_err Mask (call (Get_Cluster (r_Client r)
        {| nn_Name := ac_Name managementCluster; nn_Namespace := ac_Namespace managementCluster |}));
      infraCluster ← gets infraCluster;
      spec ← deref (azureClusterSpec infraCluster);
      private_service {|
        pp_BaseDomain := BaseDomain r;
        pp_ClusterName := ac_Name managementCluster;
        pp_ClusterSpecToAttachPrivateDNS := spec;
        pp_ClusterAzureIdentityToAttachPrivateDNS := identity;
        pp_ClusterServicePrincipalSecretToAttachPrivateDNS := secret;
        pp_VirtualNetworkIDToAttachPrivateDNS := spec_VnetID spec;
        pp_APIServerIP := "";
        pp_MCIngressIP := map_get (u_Annotations infraCluster)
                            azurePrivateEndpointOperatorMcIngressAnnotation;
        pp_WildcardCNAMETarget := map_get (cluster_Annotations managementCAPICluster)
                                    AnnotationWildcardCNAMETarget |}
  end.

(** * Readiness *)

Definition isClusterReadyForDnsManagements (cluster : Cluster) : G W (Result * bool) :=
  if negb (bool_decide (cluster_Phase cluster = ClusterPhaseProvisioned))
  then mret ({| RequeueAfter := 120 |}, false)
  else
    u ← gets infraCluster;
    if isAzureCluster u then
      let ready := match azureClusterStatus u with
                   | Some conditions =>
                       existsb (λ c, bool_decide (cond_Type c = LoadBalancersReadyCondition))
                         conditions
                   | None => false
                   end in
      if negb ready then mret ({| RequeueAfter := 120 |}, false)
      else mret (no_requeue, true)
    else mret (no_requeue, true).

(** * The reconciliation of a live cluster *)

(** Whether one of the two private services is wanted: only for an AzureCluster
    whose annotation is set. *)
Definition wants_private (annotations : strmap) (spec : option AzureClusterSpec)
    (annotation : string) : bool :=
  match spec with
  | Some _ => negb (bool_decide (map_get annotations annotation = ""))
  | None => false
  end.

Definition ensure_finalizer (sc : Scope W) : G W unit :=
  u ← gets infraCluster;
  if negb (ContainsFinalizer u AzureClusterControllerFinalizer) then
    modify (set_infraCluster (AddFinalizer u AzureClusterControllerFinalizer));;
    PatchObject (s_Patcher sc)
  else mret tt.

(** A method call on a pointer that may be nil. *)
Definition reconcile_private (get : G W (option (PrivateDns.Service W))) : G W unit :=
  p ← get;
  svc ← deref p;
  map_err Mask (PrivateDns.Reconcile svc).

Definition publish_condition (sc : Scope W) : G W unit :=
  aso ← IsASOManagedCluster;
  if negb (aso : bool) then
    SetUnstructuredCondition (CAPI GSDNSZoneReady);;
    status_update (s_Client sc)
  else mret tt.

Definition reconcileNormal (r : ClusterReconciler) (sc : Scope W) : G W Result :=
  ensure_finalizer sc;;
  '(result, isReady) ← isClusterReadyForDnsManagements (s_Cluster sc);
  if negb isReady then mret result
  else
    u ← gets infraCluster;
    let annotations := u_Annotations u in
    let spec := azureClusterSpec u in
    (if wants_private annotations spec azurePrivateEndpointOperatorApiServerAnnotation
     then reconcile_private (getPrivateDnsServiceForMcToWcApi r sc) else mret tt);;
    (if wants_private annotations spec azurePrivateEndpointOperatorMcIngressAnnotation
     then reconcile_private (map_err Mask (getPrivateDnsServiceForWcToMcIngress r sc))
     else mret tt);;
    dnsService ← map_err Mask (getDnsServiceForPublicRecords r sc);
    upd_metrics (ZoneInfo_Set [BaseDomain r; ZoneTypePublic; BaseDomainResourceGroup r;
                               BaseZoneTenantID r; BaseZoneSubscriptionID r] 1);;
    map_err Mask (with_scope_copy (DnsService.Reconcile dnsService));;
    publish_condition sc;;
    PatchObject (s_Patcher sc);;
    mret {| RequeueAfter := 300 |}.

(** * The reconciliation of a deleted cluster *)

(** [deletedMetrics += deleteClusterMetrics(...)]; the number is only logged. *)
Definition delete_cluster_metrics (r : ClusterReconciler) (sc : Scope W) (zoneType : string)
    : G W unit :=
  upd_metrics (λ m, (deleteClusterMetrics (ClusterName (s_Patcher sc) +:+ "." +:+ BaseDomain r)
                       zoneType m).1).

Definition delete_private (r : ClusterReconciler) (sc : Scope W)
    (get : G W (option (PrivateDns.Service W))) : G W unit :=
  p ← get;
  svc ← deref p;
  map_err Mask (PrivateDns.ReconcileDelete svc);;
  delete_cluster_metrics r sc ZoneTypePrivate.

Definition reconcileDelete (r : ClusterReconciler) (sc : Scope W) : G W Result :=
  u ← gets infraCluster;
  let annotations := u_Annotations u in
  let spec := azureClusterSpec u in
  (if wants_private annotations spec azurePrivateEndpointOperatorApiServerAnnotation
   then delete_private r sc (getPrivateDnsServiceForMcToWcApi r sc) else mret tt);;
  (if wants_private annotations spec azurePrivateEndpointOperatorMcIngressAnnotation
   then delete_private r sc (getPrivateDnsServiceForWcToMcIngress r sc) else mret tt);;
  dnsService ← map_err Mask (getDnsServiceForPublicRecords r sc);
  map_err Mask (with_scope_copy (DnsService.ReconcileDelete dnsService));;
  u ← gets infraCluster;
  (if ContainsFinalizer u AzureClusterControllerFinalizer
   then modify (set_infraCluster (RemoveFinalizer u AzureClusterControllerFinalizer))
   else mret tt);;
  delete_cluster_metrics r sc ZoneTypePublic;;
  mret no_requeue.

(** * Reconcile *)

(** [defer func() { if err = p.Close(ctx); err != nil && reterr == nil
    { reterr = Mask(err) } }()]: it runs however the body ends, also when it
    panics. *)
Definition deferred_close {A} (p : Patcher W) (body : G W A) : G W A := λ s,
  match body s with
  | (Diverged, s1) => (Diverged, s1)
  | (r, s1) =>
      match Close p s1 with
      | (Ok _, s2) => (r, s2)
      | (Err e, s2) => (match r with Ok _ => Err (Mask e) | r => r end, s2)
      | (Panic, s2) => (Panic, s2)
      | (Diverged, s2) => (Diverged, s2)
      end
  end.

Definition Reconcile (r : ClusterReconciler) (req : NamespacedName) : G W Result :=
  found ← try (call (GetClusterByName (r_Client r) req));
  match found with
  | inl err => if apierrors_IsNotFound err then mret no_requeue else throw err
  | inr cluster =>
      obj ← try (call (GetObjectFromContractVersionedRef (r_Client r) cluster));
      match obj with
      | inl err =>
          if apierrors_IsNotFound err then mret {| RequeueAfter := 60 |} else throw (Mask err)
      | inr obj =>
          modify (set_infraCluster obj);;
          if annotations_IsPaused cluster obj then mret no_requeue
          else
            clusterScope ← map_err Mask (NewScope {|
              p_Client := r_Client r;
              p_Cluster := cluster;
              p_ClusterZoneAzureConfig := InfraClusterZoneAzureConfig r;
              p_ClusterIdentityRef := ClusterAzureIdentityRef r;
              p_ManagementClusterConfig := r_ManagementClusterConfig r |});
            deferred_close (s_Patcher clusterScope)
              (u ← gets infraCluster;
               match cluster_DeletionTimestamp cluster, u_DeletionTimestamp u with
               | None, None => reconcileNormal r clusterScope
               | _, _ => reconcileDelete r clusterScope
               end)
      end
  end.
End controller.
