(* ===== verification/Main.v ===== *)
(** main.go and [SetupWithManager]: the flags with their defaults, the
    environment, the reconciler made from them, and the start of the manager.
    What the flag package and controller-runtime do themselves is a parameter
    (the flags given on the command line, the class [ControllerRuntime]); the
    logger and the event recorder of the reconciler, which it never uses, carry
    no state of the operator. *)
From S2P Require Import Prelude GoStd Errors Metrics Kube State Conditions Infra Azure Scope.
From S2P Require Import DnsClient PrivateClient DnsRecords DnsService PrivateDns Controller.

Open Scope Z_scope.

Definition SubscriptionId : string := "AZURE_SUBSCRIPTION_ID".
Definition TenantId : string := "AZURE_TENANT_ID".
Definition ClientId : string := "AZURE_CLIENT_ID".
Definition ClientSecret : string := "AZURE_CLIENT_SECRET".
Definition InfraClusterSubscriptionID : string := "CLUSTER_AZURE_SUBSCRIPTION_ID".
Definition InfraClusterClientID : string := "CLUSTER_AZURE_CLIENT_ID".
Definition InfraClusterClientSecret : string := "CLUSTER_AZURE_CLIENT_SECRET".
Definition InfraClusterTenantID : string := "CLUSTER_AZURE_TENANT_ID".
Definition InfraClusterLocation : string := "CLUSTER_AZURE_LOCATION".

(** The variables the flags are bound to. *)
Record Flags := {
  metrics_addr : string;
  enable_leader_election : bool;
  base_domain : string;
  base_domain_resource_group : string;
  (** in seconds *)
  sync_period : Z;
  cluster_concurrency : Z;
  management_cluster_name : string;
  management_cluster_namespace : string;
  azure_identity_ref_name : string;
  azure_identity_ref_namespace : string;
}.

(** What [flag.Parse] has found on the command line: the last value given for
    each flag, of the flag's type. *)
Record GivenFlags := {
  given_string : gmap string string;
  given_bool : gmap string bool;
  given_duration : gmap string Z;
  given_int : gmap string Z;
}.

(** [flag.StringVar(&x, name, default, ...)] and the like, all of them, after
    [flag.Parse]. *)
Definition flags_of (given : GivenFlags) : Flags :=
  let StringVar name value := default value (given_string given !! name) in
  let BoolVar name value := default value (given_bool given !! name) in
  let DurationVar name value := default value (given_duration given !! name) in
  let IntVar name value := default value (given_int given !! name) in {|
    metrics_addr := StringVar "metrics-addr" ":8080";
    enable_leader_election := BoolVar "enable-leader-election" false;
    base_domain := StringVar "base-domain" "";
    base_domain_resource_group := StringVar "base-domain-resource-group" "";
    sync_period := DurationVar "sync-period" 300;
    cluster_concurrency := IntVar "cluster-concurrency" 5;
    management_cluster_name := StringVar "management-cluster-name" "";
    management_cluster_namespace := StringVar "management-cluster-namespace" "";
    azure_identity_ref_name := StringVar "azure-identity-ref-name" "";
    azure_identity_ref_namespace := StringVar "azure-identity-ref-namespace" "" |}.

Section main.
Context {W : Type} `{Microerror, Kubernetes W}.

(** [os.Getenv]: the empty string for a variable that is not set. *)
Abbreviation environment := (gmap string string).
Definition Getenv (env : environment) (k : string) : string := default "" (env !! k).

(** [x = os.Getenv(k); if x == "" { return Mask(fmt.Errorf(...)) }] *)
Definition required (env : environment) (k : string) : GoError + string :=
  if bool_decide (Getenv env k = "")
  then inl (Mask (NewError ("environment variable " +:+ k +:+ " not set")))
  else inr (Getenv env k).

Definition clusterIdentityRef (flags : Flags) : option ObjectReference :=
  if negb (bool_decide (azure_identity_ref_name flags = "")) &&
     negb (bool_decide (azure_identity_ref_namespace flags = ""))
  then Some {| ref_Name := azure_identity_ref_name flags;
               ref_Namespace := azure_identity_ref_namespace flags |}
  else None.

Definition reconciler_of (flags : Flags) (env : environment) (c : Client)
    : GoError + ClusterReconciler :=
  match required env SubscriptionId with
  | inl e => inl e
  | inr subscriptionID =>
    match required env ClientId with
    | inl e => inl e
    | inr clientID =>
      match required env ClientSecret with
      | inl e => inl e
      | inr clientSecret =>
        match required env TenantId with
        | inl e => inl e
        | inr tenantID => inr {|
            r_Client := c;
            BaseDomain := base_domain flags;
            BaseDomainResourceGroup := base_domain_resource_group flags;
            BaseZoneClientID := clientID;
            BaseZoneClientSecret := clientSecret;
            BaseZoneSubscriptionID := subscriptionID;
            BaseZoneTenantID := tenantID;
            r_ManagementClusterConfig :=
              {| mc_Name := management_cluster_name flags;
                 mc_Namespace := management_cluster_namespace flags |};
            InfraClusterZoneAzureConfig :=
              {| zone_SubscriptionID := Getenv env InfraClusterSubscriptionID;
                 zone_ClientID := Getenv env InfraClusterClientID;
                 zone_TenantID := Getenv env InfraClusterTenantID;
                 zone_ClientSecret := Getenv env InfraClusterClientSecret;
                 zone_Location := Getenv env InfraClusterLocation |};
            ClusterAzureIdentityRef := clusterIdentityRef flags |}
        end
      end
    end
  end.
End main.

(** * The manager *)

(** [ctrl.Options], as far as they are set *)
Record ManagerOptions (Scheme : Type) := {
  Options_Scheme : Scheme;
  Metrics_BindAddress : string;
  WebhookServer_Port : Z;
  LeaderElection : bool;
  LeaderElectionID : string;
  Cache_SyncPeriod : Z;
}.
Arguments Build_ManagerOptions {_}.

(** A group and a version. *)
Abbreviation GroupVersion := (string * string)%type.

(** controller-runtime, apimachinery's schemes and cluster-api's event recorder *)
Class ControllerRuntime (W : Type) `{Kubernetes W} := {
  (** [*runtime.Scheme]; registering types may fail *)
  Scheme : Type;
  NewScheme : Scheme;
  clientgoscheme_AddToScheme : Scheme → option GoError * Scheme;
  capi_AddToScheme : Scheme → option GoError * Scheme;
  infrav1_AddToScheme : Scheme → option GoError * Scheme;
  AddKnownTypes : GroupVersion → list string → Scheme → Scheme;
  AddToGroupVersion : GroupVersion → Scheme → Scheme;
  (** aad-pod-identity's group *)
  aadpodv1_GroupName : string;
  aadpodv1_SchemeGroupVersion : GroupVersion;
  (** [*rest.Config]; [GetConfigOrDie] ends the process where there is none *)
  RestConfig_ctrl : Type;
  GetConfigOrDie : W → RestConfig_ctrl * W;
  set_UserAgent : string → RestConfig_ctrl → RestConfig_ctrl;
  Manager : Type;
  NewManager : RestConfig_ctrl → ManagerOptions Scheme → io W Manager;
  mgr_GetClient : Manager → Client;
  EventRecorder : Type;
  GetEventRecorderFor : Manager → string → EventRecorder;
  record_InitFromRecorder : EventRecorder → W → W;
  (** [NewControllerManagedBy(mgr).For(&kind{}).WithOptions(options).Complete(r)]:
      kind, [MaxConcurrentReconciles], reconciler *)
  Complete_controller : Manager → string → Z → ClusterReconciler → io W unit;
  Manager_Start : Manager → io W unit;
}.

Section main_error.
Context {W : Type} `{Microerror, Kubernetes W, !ControllerRuntime W}.

(** Before there is a reconciler the world is all the state. *)
Definition perform {A} (f : io W A) : M W GoError A := λ w,
  let '(r, w') := f w in (match r with inl e => Err e | inr a => Ok a end, w').

Definition SetupWithManager (r : ClusterReconciler) (mgr : Manager) (concurrency : Z)
    : M W GoError unit :=
  perform (Complete_controller mgr "Cluster" concurrency r).

(** The package's [scheme] after [init], which drops the errors. *)
Definition scheme : Scheme :=
  let scheme := (clientgoscheme_AddToScheme NewScheme).2 in
  let scheme := (capi_AddToScheme scheme).2 in
  let scheme := (infrav1_AddToScheme scheme).2 in
  let scheme := AddKnownTypes (aadpodv1_GroupName, "v1")
    ["AzureIdentity"; "AzureIdentityList"; "AzureIdentityBinding"; "AzureIdentityBindingList";
     "AzurePodIdentityException"; "AzurePodIdentityExceptionList"] scheme in
  AddToGroupVersion aadpodv1_SchemeGroupVersion scheme.

Definition manager_options (flags : Flags) : ManagerOptions Scheme := {|
  Options_Scheme := scheme;
  Metrics_BindAddress := metrics_addr flags;
  WebhookServer_Port := 9443;
  LeaderElection := enable_leader_election flags;
  LeaderElectionID := "dns-operator-azure-leader-election";
  Cache_SyncPeriod := sync_period flags;
|}.

Definition mainError (given : GivenFlags) (env : gmap string string) : M W GoError unit :=
  let flags := flags_of given in
  restConfig ← (λ w, let '(c, w') := GetConfigOrDie w in (Ok c, w'));
  let restConfig := set_UserAgent "dns-operator-azure" restConfig in
  mgr ← map_err Mask (perform (NewManager restConfig (manager_options flags)));
  modify (record_InitFromRecorder (GetEventRecorderFor mgr "dns-operator-azure"));;
  r ← (λ w, (match reconciler_of flags env (mgr_GetClient mgr) with
             | inl e => Err e
             | inr r => Ok r
             end, w));
  map_err Mask (SetupWithManager r mgr (cluster_concurrency flags));;
  map_err Mask (perform (Manager_Start mgr)).

(** [panic(fmt.Sprintf("%#v", err))] *)
Definition main (given : GivenFlags) (env : gmap string string) : M W GoError unit :=
  err ← try (mainError given env);
  match err with
  | inl _ => panic
  | inr _ => mret tt
  end.
End main_error.
