(* ===== verification/AzureSpec.v ===== *)
(** What the DNS service may expect from Azure: an abstract view of the world
    (DNS zones with their record sets, resource groups, private zones with their
    links) and, for each
    operation of the [client] interface, how it relates the view before and
    after to its result.  A request that fails may or may not have taken
    effect. *)
From S2P Require Import Prelude GoStd Errors Metrics Kube State Infra Azure DnsClient.
Open Scope Z_scope.

(** * The view *)

(** A zone: its name servers, and its record sets by type and name. *)
Record ZoneData := mkZone {
  zd_nameservers : list (option string);
  zd_records : gmap (RecordType * string) RecordSetProperties;
}.

#[global] Instance ZoneData_eq_dec : EqDecision ZoneData.
Proof. solve_decision. Defined.

(** Subscription, resource group and name. *)
Abbreviation zone_key := (string * string * string)%type.
Abbreviation group_key := (string * string)%type.

Class AzureView (W : Type) := {
  az_zones : W → gmap zone_key ZoneData;
  az_groups : W → gmap group_key ResourceGroup;
  (** private zones and their virtual network links *)
  az_private : W → gmap zone_key ZoneData;
  az_links : W → gmap zone_key (list VirtualNetworkLink);
  (** what the view shows as it is: whole public zones, single record sets,
      resource groups with their zones; the rest of Azure it may not follow *)
  shows_zone : zone_key → Prop;
  shows_record : zone_key → RecordType → string → Prop;
  shows_group : group_key → Prop;
  (** the addresses at which decoding a response allocates strings *)
  decoded_addr : Z → Prop;
}.

(** A view of all of Azure. *)
Class FullView (W : Type) `{AzureView W} : Prop := {
  full_zone k : shows_zone k;
  full_record k t n : shows_record k t n;
  full_group g : shows_group g;
}.

(** What a zone keeps of the properties it is sent for a type. *)
Definition stored (t : RecordType) (p : RecordSetProperties) : RecordSetProperties :=
  match t with
  | RecordTypeA => mkProperties (TTL p) (ARecords p) None [] None
  | RecordTypeCNAME => mkProperties (TTL p) [] (rsp_CnameRecord p) [] None
  | RecordTypeNS => mkProperties (TTL p) [] None (NsRecords p) None
  | RecordTypeOther _ => mkProperties (TTL p) [] None [] None
  end.

(** Every record set of a zone has a TTL, addresses that are set, and only the
    data of its own type. *)
Definition record_wf (k : RecordType * string) (p : RecordSetProperties) : Prop :=
  is_Some (TTL p) ∧ Forall (λ a, is_Some (IPv4Address a)) (ARecords p) ∧
  stored k.1 p = p.

Definition zone_wf (zd : ZoneData) : Prop :=
  ∀ k p, zd_records zd !! k = Some p → record_wf k p.

(** A record set as a listing shows it. *)
Definition shown `{AzureView} (rs : RecordSet)
    (kp : (RecordType * string) * RecordSetProperties) : Prop :=
  ∃ a st, rs_Name rs = Some (mkptr a kp.1.2) ∧ decoded_addr a ∧
    rs_Properties rs = Some (mkProperties (TTL kp.2) (ARecords kp.2) (rsp_CnameRecord kp.2)
                               (NsRecords kp.2) st).

(** A listing of a zone: its record sets, each once, in any order. *)
Definition listing `{AzureView} (zd : ZoneData) (l : list RecordSet) : Prop :=
  zone_wf zd ∧
  ∃ kps, kps ≡ₚ map_to_list (zd_records zd) ∧ Forall2 shown l kps.

(** A record set of an answer: its name is a decoded string. *)
Definition decoded `{AzureView} (rs : RecordSet) : Prop :=
  ∃ a n, rs_Name rs = Some (mkptr a n) ∧ decoded_addr a.

Lemma listing_decoded `{AzureView} zd l : listing zd l → Forall decoded l.
Proof.
  intros [_ (kps & _ & Hl)]. induction Hl as [|rs kp l kps (a & st & Hn & Ha & _) _ IH]; [done|].
  apply Forall_cons. split; [by exists a, kp.1.2|done].
Qed.

Definition group_wf (g : ResourceGroup) : Prop :=
  is_Some (rg_Properties g) ∧
  map_Forall (λ _ v, is_Some v) (default ∅ (rg_Tags g)).

(** * Changes of the view *)

Section changes.
Context {W : Type} `{AzureView W}.

Definition same_private (w w' : W) : Prop :=
  az_private w' = az_private w ∧ az_links w' = az_links w.

Definition same_public (w w' : W) : Prop :=
  az_zones w' = az_zones w ∧ az_groups w' = az_groups w.

Definition same_view (w w' : W) : Prop := same_public w w' ∧ same_private w w'.

(** A request that fails has had no effect or its whole effect. *)
Definition maybe (R : W → W → Prop) (w w' : W) : Prop := same_view w w' ∨ R w w'.

(** All but the public zones is as before. *)
Definition only_zones (w w' : W) : Prop := az_groups w' = az_groups w ∧ same_private w w'.

Definition zone_created (k : zone_key) (w w' : W) : Prop :=
  only_zones w w' ∧
  ∃ zd', az_zones w' = <[k := zd']> (az_zones w) ∧
    match az_zones w !! k with
    | Some zd => zd' = zd
    | None => zone_wf zd' ∧ ∀ t n, is_Some (zd_records zd' !! (t, n)) → n = "@"
    end.

Definition put_record (t : RecordType) (n : string) (p : RecordSetProperties) (zd : ZoneData)
    : ZoneData :=
  mkZone (zd_nameservers zd) (<[(t, n) := stored t p]> (zd_records zd)).

Definition record_put (k : zone_key) (t : RecordType) (n : string) (p : RecordSetProperties)
    (w w' : W) : Prop :=
  only_zones w w' ∧
  ∃ zd, az_zones w !! k = Some zd ∧ az_zones w' = <[k := put_record t n p zd]> (az_zones w).

Definition record_deleted (k : zone_key) (t : RecordType) (n : string) (w w' : W) : Prop :=
  only_zones w w' ∧
  az_zones w' = alter (λ zd, mkZone (zd_nameservers zd) (delete (t, n) (zd_records zd))) k
                  (az_zones w).

Definition zone_removed (k : zone_key) (w w' : W) : Prop :=
  only_zones w w' ∧ az_zones w' = delete k (az_zones w).

Definition group_put (k : group_key) (g : ResourceGroup) (w w' : W) : Prop :=
  (az_zones w' = az_zones w ∧ same_private w w') ∧
  ∃ g', az_groups w' = <[k := g']> (az_groups w) ∧
    default ∅ (rg_Tags g') = default ∅ (rg_Tags g).

(** Deleting a group takes its zones with it, one after the other; nothing
    outside it changes. *)
Definition group_shrunk (k : group_key) (w w' : W) : Prop :=
  (∀ k', k' ≠ k → az_groups w' !! k' = az_groups w !! k') ∧
  (∀ zk, zk.1 ≠ k → az_zones w' !! zk = az_zones w !! zk) ∧
  (∀ zk, zk.1 ≠ k → az_private w' !! zk = az_private w !! zk ∧ az_links w' !! zk = az_links w !! zk) ∧
  az_zones w' ⊆ az_zones w.

(** Every public zone is well-formed. *)
Definition zones_wf (w : W) : Prop := map_Forall (λ _, zone_wf) (az_zones w).

Definition group_deleted (k : group_key) (w w' : W) : Prop :=
  group_shrunk k w w' ∧ az_groups w' !! k = None ∧
  (∀ z, az_zones w' !! (k, z) = None).

#[global] Instance same_private_preorder : PreOrder same_private.
Proof. split; [done|]. intros ??? [] []. split; congruence. Qed.

#[global] Instance same_public_preorder : PreOrder same_public.
Proof. split; [done|]. intros ??? [] []. split; congruence. Qed.

#[global] Instance same_view_preorder : PreOrder same_view.
Proof. split; [done|]. intros ??? [] []. split; by etransitivity. Qed.

Lemma same_view_zones w w' : same_view w w' → az_zones w' = az_zones w.
Proof. by intros [[] ?]. Qed.

Lemma same_view_groups w w' : same_view w w' → az_groups w' = az_groups w.
Proof. by intros [[] ?]. Qed.

Lemma same_view_shrunk k w w' : same_view w w' → group_shrunk k w w'.
Proof.
  intros [[Hz Hg] [Hp Hl]]. split_and!; intros; [congruence..|split; congruence|by rewrite Hz].
Qed.

Lemma group_shrunk_trans k w1 w2 w3 :
  group_shrunk k w1 w2 → group_shrunk k w2 w3 → group_shrunk k w1 w3.
Proof.
  intros (G1 & Z1 & P1 & S1) (G2 & Z2 & P2 & S2). split_and!; [intros k' Hk..|by etransitivity].
  - by rewrite G2, G1.
  - by rewrite Z2, Z1.
  - destruct (P1 k' Hk) as [<- <-]. by apply P2.
Qed.

Lemma maybe_removed_trans k w1 w2 w3 :
  maybe (zone_removed k) w1 w2 → zone_removed k w2 w3 → zone_removed k w1 w3.
Proof.
  intros [[[Hz Hg] Hp]|[[Hg Hp] Hz]] [[Hg' Hp'] Hz']; (split; [split; [congruence|by etransitivity]|]).
  - by rewrite Hz', Hz.
  - by rewrite Hz', Hz, delete_delete_eq.
Qed.

Lemma same_zone_removed k w1 w2 w3 :
  same_view w2 w3 → zone_removed k w1 w2 → zone_removed k w1 w3.
Proof.
  intros [[Hz Hg] Hp] [[Hg' Hp'] Hz']. split; [split; [congruence|by etransitivity]|congruence].
Qed.

Lemma maybe_removed_maybe k w1 w2 w3 :
  maybe (zone_removed k) w1 w2 → maybe (zone_removed k) w2 w3 → maybe (zone_removed k) w1 w3.
Proof.
  intros H12 [H23|H23]; [|right; by eapply maybe_removed_trans].
  destruct H12 as [H12|H12]; [left; by etransitivity|right; by eapply same_zone_removed].
Qed.

(** What a record must have to be put. *)
Definition put_wf (p : RecordSetProperties) : Prop :=
  is_Some (TTL p) ∧ Forall (λ a, is_Some (IPv4Address a)) (ARecords p).

Lemma stored_wf t n p : put_wf p → record_wf (t, n) (stored t p).
Proof.
  intros [Ht Ha]. destruct t; (split; [done|split; [|done]]); [exact Ha|apply Forall_nil_2..].
Qed.

Lemma zone_wf_put t n p zd : put_wf p → zone_wf zd → zone_wf (put_record t n p zd).
Proof.
  intros Hp Hzd k p'. simpl. rewrite lookup_insert_Some.
  intros [[<- <-]|[_ Hk]]; [by apply stored_wf|by apply Hzd].
Qed.

Lemma zones_wf_same w w' : az_zones w' = az_zones w → zones_wf w → zones_wf w'.
Proof. unfold zones_wf. by intros ->. Qed.

Lemma zones_wf_put k t n p w w' :
  put_wf p → record_put k t n p w w' → zones_wf w → zones_wf w'.
Proof.
  intros Hp [_ (zd & Hk & Hz)] Hw. unfold zones_wf. rewrite Hz.
  apply map_Forall_insert_2; [|done]. apply zone_wf_put; [done|]. by eapply Hw.
Qed.

Lemma zones_wf_record_deleted k t n w w' :
  record_deleted k t n w w' → zones_wf w → zones_wf w'.
Proof.
  intros [_ Hz] Hw k' zd'. rewrite Hz.
  intros [(<- & zd & Hzd & ->)|[_ Hzd]]%lookup_alter_Some; [|by eapply Hw].
  intros tn p. simpl. intros [_ Hp]%lookup_delete_Some. by eapply (Hw k).
Qed.

Lemma zones_wf_created k w w' : zone_created k w w' → zones_wf w → zones_wf w'.
Proof.
  intros [_ (zd' & Hz & Hnew)] Hw. unfold zones_wf. rewrite Hz. apply map_Forall_insert_2; [|done].
  destruct (az_zones w !! k) as [zd|] eqn:Hk; [subst zd'; by eapply Hw|by destruct Hnew].
Qed.

Lemma zones_wf_shrunk k w w' : group_shrunk k w w' → zones_wf w → zones_wf w'.
Proof. intros (_ & _ & _ & Hs) Hw k' zd Hk. apply (Hw k'). by eapply lookup_weaken. Qed.

(** An operation of the client leaves the operator's own objects alone. *)
Definition quiet `{KubeTypes, Prometheus} (s s' : St W) : Prop :=
  cache s' = cache s ∧ infraCluster s' = infraCluster s.

#[global] Instance quiet_preorder `{KubeTypes, Prometheus} : PreOrder quiet.
Proof. split; [done|]. intros ??? [] []. split; congruence. Qed.
End changes.

(** * The contract of the [client] interface *)

(** [c] acts on the subscription [sub]. *)
Class ClientSpec {W} `{Microerror, Kubernetes W, Prometheus, AzureView W}
    (c : client W) (sub : string) : Prop := {
  spec_GetZone rg z s :
    wp (GetZone c rg z) (λ r s', quiet s s' ∧ same_view (world s) (world s') ∧
      match r with
      | Ok zn => shows_zone (sub, rg, z) →
          ∃ zd, az_zones (world s) !! (sub, rg, z) = Some zd ∧
          zone_Properties zn = Some {|
            NumberOfRecordSets := Some (Z.of_nat (size (zd_records zd)));
            NameServers := zd_nameservers zd |}
      | Err _ => True
      | _ => False
      end) s;
  spec_CreateOrUpdateZone rg z zn s : shows_zone (sub, rg, z) →
    wp (CreateOrUpdateZone c rg z zn) (λ r s', quiet s s' ∧
      match r with
      | Ok _ => zone_created (sub, rg, z) (world s) (world s')
      | Err _ => maybe (zone_created (sub, rg, z)) (world s) (world s')
      | _ => False
      end) s;
  spec_DeleteZone rg z s : shows_zone (sub, rg, z) →
    wp (DeleteZone c rg z) (λ r s', quiet s s' ∧
      match r with
      | Ok _ => zone_removed (sub, rg, z) (world s) (world s')
      | Err _ => maybe (zone_removed (sub, rg, z)) (world s) (world s')
      | _ => False
      end) s;
  spec_ListRecordSets rg z s :
    wp (ListRecordSets c rg z) (λ r s', quiet s s' ∧ same_view (world s) (world s') ∧
      match r with
      | Ok l => Forall decoded l ∧ (shows_zone (sub, rg, z) →
                  ∃ zd, az_zones (world s) !! (sub, rg, z) = Some zd ∧ listing zd l)
      | Err e => shows_zone (sub, rg, z) → IsParentResourceNotFound (Some e) = true →
                 az_zones (world s) !! (sub, rg, z) = None
      | _ => False
      end) s;
  spec_CreateOrUpdateRecordSet rg z t n rs p s :
    shows_zone (sub, rg, z) ∨ shows_record (sub, rg, z) t n → rs_Properties rs = Some p →
    wp (CreateOrUpdateRecordSet c rg z t n rs) (λ r s', quiet s s' ∧
      match r with
      | Ok _ => record_put (sub, rg, z) t n p (world s) (world s')
      | Err _ => maybe (record_put (sub, rg, z) t n p) (world s) (world s')
      | _ => False
      end) s;
  spec_DeleteRecordSet rg z t n s :
    shows_zone (sub, rg, z) ∨ shows_record (sub, rg, z) t n →
    wp (DeleteRecordSet c rg z t n) (λ r s', quiet s s' ∧
      match r with
      | Ok _ => record_deleted (sub, rg, z) t n (world s) (world s')
      | Err _ => maybe (record_deleted (sub, rg, z) t n) (world s) (world s')
      | _ => False
      end) s;
  spec_GetResourceGroup rg s :
    wp (GetResourceGroup c rg) (λ r s', quiet s s' ∧ same_view (world s) (world s') ∧
      match r with
      | Ok g => shows_group (sub, rg) → az_groups (world s) !! (sub, rg) = Some g ∧ group_wf g
      | Err e => shows_group (sub, rg) → IsResourceNotFoundError e = true → az_groups (world s) !! (sub, rg) = None
      | _ => False
      end) s;
  spec_CreateOrUpdateResourceGroup rg g s : shows_group (sub, rg) →
    wp (CreateOrUpdateResourceGroup c rg g) (λ r s', quiet s s' ∧
      match r with
      | Ok _ => group_put (sub, rg) g (world s) (world s')
      | Err _ => maybe (group_put (sub, rg) g) (world s) (world s')
      | _ => False
      end) s;
  spec_DeleteResourceGroup rg s : shows_group (sub, rg) →
    wp (DeleteResourceGroup c rg) (λ r s', quiet s s' ∧
      match r with
      | Ok _ => group_deleted (sub, rg) (world s) (world s')
      | Err e => group_shrunk (sub, rg) (world s) (world s') ∧
          (IsResourceNotFoundError e = true →
             same_view (world s) (world s') ∧ az_groups (world s) !! (sub, rg) = None ∧
             ∀ z, az_zones (world s) !! (sub, rg, z) = None)
      | _ => False
      end) s;
}.

(** * What the other services leave alone *)

(** Calls of the Kubernetes API change nothing in Azure. *)
Class KubeKeepsAzure {W} `{Kubernetes W, AzureView W} : Prop := {
  keep_Get_AzureCluster c n w : same_view w (Get_AzureCluster c n w).2;
  keep_Get_AzureClusterIdentity c n w : same_view w (Get_AzureClusterIdentity c n w).2;
  keep_Get_Secret c n w : same_view w (Get_Secret c n w).2;
  keep_Get_Cluster c n w : same_view w (Get_Cluster c n w).2;
  keep_GetClusterByName c n w : same_view w (GetClusterByName c n w).2;
  keep_GetObject c cl w : same_view w (GetObjectFromContractVersionedRef c cl w).2;
  keep_Update c u w : same_view w (Update c u w).2;
  keep_StatusUpdate c u w : same_view w (StatusUpdate c u w).2;
  keep_List_Services c ns sel w : same_view w (List_Services c ns sel w).2;
  keep_micrologger_New w : same_view w (micrologger_New w).2;
  keep_k8srestconfig_New k w : same_view w (k8srestconfig_New k w).2;
  keep_k8sclient_NewClients r w : same_view w (k8sclient_NewClients r w).2;
}.

(** Azure's view and the infrastructure cluster object are as before; the
    scope may have cached something. *)
Definition azure_quiet {W} `{AzureView W, KubeTypes, Prometheus} (s s' : St W) : Prop :=
  same_view (world s) (world s') ∧ infraCluster s' = infraCluster s.

#[global] Instance azure_quiet_preorder {W} `{AzureView W, KubeTypes, Prometheus} :
  PreOrder azure_quiet.
Proof.
  split; [done|]. intros s1 s2 s3 [] []. split; [by etransitivity|congruence].
Qed.

(** The same for calls that may write the infrastructure cluster object. *)
Definition view_kept {W} `{AzureView W, KubeTypes, Prometheus} (s s' : St W) : Prop :=
  same_view (world s) (world s').

#[global] Instance view_kept_preorder {W} `{AzureView W, KubeTypes, Prometheus} :
  PreOrder view_kept.
Proof. split; [done|]. intros s1 s2 s3 ??. unfold view_kept. by etransitivity. Qed.

(** What the DNS service relies on in the patcher and the public IP service of
    its scope. *)
Class PatcherSpec {W} `{Kubernetes W, Prometheus, AzureView W}
    (p : Patcher W) (g : Getter W) : Prop := {
  public_unless_private : IsAPIServerPrivate p = false → is_Some (APIServerPublicIP p);
  getter_total q : total (Getter_Get g q);
  getter_quiet q : steps azure_quiet (Getter_Get g q);
  patch_kept : steps view_kept (PatchObject p);
  close_kept : steps view_kept (Close p);
  getter_address q : ok_post (Getter_Get g q) (λ r,
    match r with
    | ArmNetwork v | ArmNetworkV4 v => ∃ ip, pip_Properties v = Some (Some ip)
    | OtherType _ => True
    end);
}.

Section quiet_calls.
Context {W : Type} `{AzureView W, Kubernetes W, Prometheus}.

Lemma steps_azure_quiet_call {A} (f : io W A) :
  (∀ w, same_view w (f w).2) → steps azure_quiet (call f).
Proof.
  intros Hf s. unfold call. specialize (Hf (world s)).
  by destruct (f (world s)) as [r w].
Qed.

Lemma steps_azure_quiet_upd_metrics f : steps azure_quiet (upd_metrics f).
Proof. by intros s. Qed.

Lemma steps_azure_quiet_upd_cache f : steps azure_quiet (upd_cache f).
Proof. by intros s. Qed.

Lemma steps_view_kept_call {A} (f : io W A) :
  (∀ w, same_view w (f w).2) → steps view_kept (call f).
Proof.
  intros Hf s. unfold call. specialize (Hf (world s)).
  by destruct (f (world s)) as [r w].
Qed.

Lemma steps_view_kept_upd_metrics f : steps view_kept (upd_metrics f).
Proof. by intros s. Qed.

Lemma steps_view_kept_set_infraCluster u :
  steps view_kept (modify (set_infraCluster u) : G W unit).
Proof. by intros s. Qed.

(** What keeps the object as well keeps the view. *)
Lemma steps_quiet_kept {A} (m : G W A) : steps azure_quiet m → steps view_kept m.
Proof. intros Hm s. apply Hm. Qed.
End quiet_calls.

#[export] Hint Resolve steps_azure_quiet_call steps_azure_quiet_upd_metrics
  steps_azure_quiet_upd_cache steps_view_kept_call steps_view_kept_upd_metrics
  steps_view_kept_set_infraCluster
  keep_Get_Cluster keep_GetClusterByName keep_GetObject keep_Update keep_StatusUpdate
  keep_Get_AzureCluster keep_Get_AzureClusterIdentity keep_Get_Secret keep_List_Services keep_micrologger_New keep_k8srestconfig_New
  keep_k8sclient_NewClients : go_steps.
