(* ===== verification/InfraFacts.v ===== *)
(** The scope of pkg/infracluster against the interfaces of the DNS service:
    both patchers, the generic one (common_patcher.go) and capz's, with their
    public IP services meet [PatcherSpec], and so does whatever [NewScope]
    puts into a scope. *)
From S2P Require Import Prelude GoStd Errors Metrics Kube State Infra Azure AzureSpec.
Open Scope Z_scope.

(** What capz documents of its cluster scope and its public IP service. *)
Class CapzSpec (W : Type) `{Kubernetes W, AzureView W, !Capz W} : Prop := {
  keep_capz_NewClusterScope c cl ac w : same_view w (capz_NewClusterScope c cl ac w).2;
  keep_capz_PatchObject c w : same_view w (capz_PatchObject c w).2;
  keep_capz_Close c w : same_view w (capz_Close c w).2;
  keep_capz_publicips_Get p q w : same_view w (capz_publicips_Get p q w).2;
  (** the scope is that of the cluster *)
  capz_ClusterName_of c cl ac w cs w' :
    capz_NewClusterScope c cl ac w = (inr cs, w') → capz_ClusterName cs = cluster_Name cl;
  (** a public API server has an address, and a public IP that is found has one *)
  capz_public_unless_private c :
    capz_IsAPIServerPrivate c = false → is_Some (capz_APIServerPublicIP c);
  capz_publicips_address p q w r w' : capz_publicips_Get p q w = (inr r, w') →
    match r with
    | ArmNetwork v | ArmNetworkV4 v => ∃ ip, pip_Properties v = Some (Some ip)
    | OtherType _ => True
    end;
}.

#[export] Hint Resolve keep_capz_NewClusterScope keep_capz_PatchObject keep_capz_Close
  keep_capz_publicips_Get : go_steps.

Section patchers.
Context {W : Type} `{Microerror, Kubernetes W, Prometheus, !AzureView W, !KubeKeepsAzure}.

Lemma status_update_kept c : steps view_kept (status_update (W := W) c).
Proof.
  unfold status_update. steps_tac.
Qed.

Lemma object_update_kept c : steps view_kept (object_update (W := W) c).
Proof. unfold object_update. steps_tac. Qed.

Lemma cp_PatchObject_kept cp : steps view_kept (cp_PatchObject (W := W) cp).
Proof.
  pose proof status_update_kept. pose proof object_update_kept. unfold cp_PatchObject. steps_tac.
Qed.

#[global] Instance CommonPatcher_spec (cp : CommonPatcher) (cluster : Cluster) :
  PatcherSpec (CommonPatcher_Patcher cp) (NewPublicIPService cluster).
Proof.
  split; simpl.
  - unfold cp_IsAPIServerPrivate, cp_APIServerPublicIP.
    destruct (cp_ip cp) as [ip|]; [|done]. intros ->. done.
  - intros q s. unfold PublicIPService_Get. by destruct (ParseIP _).
  - intros q s. unfold PublicIPService_Get. by destruct (ParseIP _).
  - apply cp_PatchObject_kept.
  - apply cp_PatchObject_kept.
  - intros q s r s'. unfold PublicIPService_Get. destruct (ParseIP _); [|done].
    intros [= <- _]. by eexists.
Qed.

Context `{!Capz W, !CapzSpec W}.

#[global] Instance capz_spec (cs : capz_ClusterScope) (p : capz_publicips) :
  PatcherSpec (capz_Patcher cs) (capz_Getter p).
Proof.
  split; simpl.
  - apply capz_public_unless_private.
  - intros q. apply total_call.
  - intros q. apply steps_azure_quiet_call, keep_capz_publicips_Get.
  - apply steps_view_kept_call, keep_capz_PatchObject.
  - apply steps_view_kept_call, keep_capz_Close.
  - intros q. apply ok_post_call. intros w r w'. apply capz_publicips_address.
Qed.

(** * Lookups and [NewScope] *)

Lemma managementAzureCluster_quiet c n ns :
  steps azure_quiet (managementAzureCluster (W := W) c n ns).
Proof. unfold managementAzureCluster. steps_tac. Qed.

Lemma azureClusterIdentity_quiet c ref :
  steps azure_quiet (azureClusterIdentity (W := W) c ref).
Proof. unfold azureClusterIdentity. steps_tac. Qed.

Hint Resolve managementAzureCluster_quiet azureClusterIdentity_quiet : go_steps.

Lemma ManagementCluster_quiet (sc : Scope W) : steps azure_quiet (ManagementCluster sc).
Proof. unfold ManagementCluster. steps_tac. Qed.

Hint Resolve ManagementCluster_quiet : go_steps.

Lemma ManagementClusterIdentity_quiet (sc : Scope W) :
  steps azure_quiet (ManagementClusterIdentity sc).
Proof. unfold ManagementClusterIdentity. steps_tac. Qed.

Hint Resolve ManagementClusterIdentity_quiet : go_steps.

Lemma InfraClusterIdentity_quiet (sc : Scope W) : steps azure_quiet (InfraClusterIdentity sc).
Proof. unfold InfraClusterIdentity, identity_fallback. steps_tac. Qed.

Lemma NewScope_quiet params : steps azure_quiet (NewScope (W := W) params).
Proof. unfold NewScope, aso_credentials, complete_credentials. steps_tac. Qed.

(** The scope of a cluster: for that cluster, under its name, with a patcher and
    a public IP service the DNS service can rely on. *)
Record scope_of (cluster : Cluster) (sc : Scope W) : Prop := {
  so_cluster : s_Cluster sc = cluster;
  so_name : ClusterName (s_Patcher sc) = cluster_Name cluster;
  so_patcher : PatcherSpec (s_Patcher sc) (s_publicIPService sc);
}.

Lemma NewScope_scope_of params :
  ok_post (NewScope (W := W) params) (scope_of (p_Cluster params)).
Proof.
  unfold NewScope. eapply ok_post_bind; [apply ok_post_True|intros u _].
  destruct (isAzureCluster u).
  - eapply ok_post_bind; [apply ok_post_True|intros ac _].
    eapply ok_post_bind;
      [apply ok_post_call; intros w cs w'; apply capz_ClusterName_of|intros cs Hname].
    eapply ok_post_bind; [apply ok_post_True|intros p _].
    eapply ok_post_bind; [apply ok_post_True|intros _ _].
    apply ok_post_ret. by split; [| |apply capz_spec].
  - eapply ok_post_bind; [apply ok_post_True|intros creds _].
    eapply ok_post_bind; [apply ok_post_True|]. intros [[[[sid cid] tid] mc] idt] _.
    eapply ok_post_bind; [apply ok_post_True|intros _ _].
    apply ok_post_ret. by split; [| |apply CommonPatcher_spec].
Qed.

(** Whatever is not an AzureCluster gets the generic patcher. *)
Lemma NewScope_generic params s sc s' :
  isAzureCluster (infraCluster s) = false → NewScope (W := W) params s = (Ok sc, s') →
  ∃ cp, s_Patcher sc = CommonPatcher_Patcher cp.
Proof.
  intros Hkind. unfold NewScope. erewrite run_bind by done. rewrite Hkind.
  intros (creds & s1 & _ & Hrest)%bind_Ok_inv.
  apply bind_Ok_inv in Hrest as ([[[[sid cid] tid] mc] idt] & s2 & _ & Hrest).
  apply bind_Ok_inv in Hrest as ([] & s3 & _ & Hrest). injection Hrest as <- _. by eexists.
Qed.

Lemma NewScope_generic_getter params s sc s' :
  isAzureCluster (infraCluster s) = false → NewScope (W := W) params s = (Ok sc, s') →
  s_publicIPService sc = NewPublicIPService (p_Cluster params).
Proof.
  intros Hkind. unfold NewScope. erewrite run_bind by done. rewrite Hkind.
  intros (creds & s1 & _ & Hrest)%bind_Ok_inv.
  apply bind_Ok_inv in Hrest as ([[[[sid cid] tid] mc] idt] & s2 & _ & Hrest).
  by apply bind_Ok_inv in Hrest as ([] & s3 & _ & [= <- _]).
Qed.
End patchers.

#[export] Hint Resolve managementAzureCluster_quiet azureClusterIdentity_quiet
  ManagementCluster_quiet ManagementClusterIdentity_quiet InfraClusterIdentity_quiet
  NewScope_quiet status_update_kept object_update_kept : go_steps.
