(* ===== verification/TagFacts.v ===== *)
(** The tags of a resource group (resourcegroup.go, annotation.go): the loops
    over Go maps against the finite maps they compute, whatever order Go
    ranges in. *)
From S2P Require Import Prelude GoStd Errors Metrics Kube State Infra Azure Scope DnsClient.
From S2P Require Import DnsRecords DnsService.
Open Scope Z_scope.

(** Every tag has a value. *)
Definition tags_set (t : tagmap) : Prop := map_Forall (λ _ v, is_Some v) (map_of t).

(** * Comparison *)

Lemma tags_equal_loop_run {S} (m : gmap string (option string))
    (l : list (string * option string)) (s : S) :
  map_Forall (λ _ v, is_Some v) m → Forall (λ kv, is_Some kv.2) l →
  (tags_equal_loop m l : M S GoError bool) s
  = (Ok (bool_decide (Forall (λ kv, m !! kv.1 = Some kv.2) l)), s).
Proof.
  intros Hm. induction l as [|[k v] l IH]; intros Hl; simpl; [done|].
  apply Forall_cons in Hl as [[x Hx] Hl']. simpl in Hx. subst v.
  destruct (m !! k) as [e|] eqn:Hk.
  - destruct (Hm k e Hk) as [y ->]. do 2 (erewrite run_bind by done).
    destruct (decide (y = x)) as [->|Hne].
    + rewrite bool_decide_true by done. simpl. rewrite (IH Hl').
      do 2 f_equal. apply bool_decide_ext. rewrite Forall_cons. simpl. tauto.
    + rewrite bool_decide_false by done. simpl.
      rewrite (bool_decide_false (Forall _ _)); [done|]. rewrite Forall_cons. simpl. intros []; congruence.
  - rewrite (bool_decide_false (Forall _ _)); [done|]. rewrite Forall_cons. simpl. intros []; congruence.
Qed.

Lemma subset_Forall (m n : gmap string (option string)) :
  Forall (λ kv, m !! kv.1 = Some kv.2) (map_to_list n) ↔ n ⊆ m.
Proof.
  rewrite map_subseteq_spec, Forall_forall. split.
  - intros Hl k v Hk. apply (Hl (k, v)). by apply elem_of_map_to_list.
  - intros Hs [k v] Hk. apply Hs. by apply elem_of_map_to_list.
Qed.

Lemma resourceGroupTagsEqual_run {S} (a b : tagmap) (s : S) : tags_set a → tags_set b →
  (resourceGroupTagsEqual a b : M S GoError bool) s
  = (Ok (bool_decide (map_of a = map_of b)), s).
Proof.
  intros Ha Hb. unfold resourceGroupTagsEqual.
  destruct (Nat.eqb_spec (size (map_of a)) (size (map_of b))) as [Hsize|Hsize]; simpl.
  - rewrite tags_equal_loop_run; [|done|].
    + do 2 f_equal. apply bool_decide_ext. rewrite subset_Forall. split.
      * intros Hs. symmetry. apply map_subseteq_size_eq; [done|lia].
      * by intros ->.
    + apply Forall_forall. intros [k v] Hk. apply elem_of_map_to_list in Hk. by apply (Hb k).
  - rewrite (bool_decide_false (_ = _)); [done|]. by intros Heq; rewrite Heq in Hsize.
Qed.

(** * Merging *)

(** A copying loop over any list without duplicate keys. *)
Lemma copy_loop_union (l : list (string * option string)) (m : gmap string (option string)) :
  NoDup l.*1 → fold_left (λ m '(k, v), <[k := v]> m) l m = list_to_map l ∪ m.
Proof.
  revert m. induction l as [|[k v] l IH]; intros m; simpl.
  - intros _. by rewrite (left_id_L ∅ (∪)).
  - rewrite NoDup_cons. intros [Hk Hnd]. rewrite IH by done.
    rewrite <- insert_union_l, insert_union_r; [done|]. by apply not_elem_of_list_to_map_1.
Qed.

Lemma copy_loop_map (n m : gmap string (option string)) :
  fold_left (λ m '(k, v), <[k := v]> m) (map_to_list n) m = n ∪ m.
Proof. rewrite copy_loop_union by apply NoDup_fst_map_to_list. by rewrite list_to_map_to_list. Qed.

Lemma mergeResourceTags_union (existing new : tagmap) :
  mergeResourceTags existing new = Some (map_of new ∪ map_of existing).
Proof.
  unfold mergeResourceTags. rewrite !copy_loop_map. by rewrite (right_id_L ∅ (∪)).
Qed.

(** * Tags from annotations *)

(** The loop adds, for each prefixed annotation of [l], its tag. *)
Lemma resource_tags_loop_lookup (l : list (string * string)) tags k :
  NoDup l.*1 →
  resource_tags_loop l tags !! k
  = match list_to_map (M := gmap string string) l !! (ResourceTagNamePrefix +:+ k) with
    | Some v => Some (Some v)
    | None => tags !! k
    end.
Proof.
  revert tags. induction l as [|[key v] l IH]; intros tags Hnd; simpl; [done|].
  apply NoDup_cons in Hnd as [Hkey Hnd].
  change (resource_tags_loop ((key, v) :: l) tags) with
    (resource_tags_loop l (if HasPrefix key ResourceTagNamePrefix
       then <[TrimPrefix key ResourceTagNamePrefix := Some v]> tags else tags)).
  rewrite IH by done.
  destruct (decide (key = ResourceTagNamePrefix +:+ k)) as [->|Hne].
  - rewrite lookup_insert_eq.
    rewrite (not_elem_of_list_to_map_1 l) by done.
    assert (HasPrefix (ResourceTagNamePrefix +:+ k) ResourceTagNamePrefix = true) as ->.
    { apply HasPrefix_spec. by exists k. }
    rewrite TrimPrefix_app. by rewrite lookup_insert_eq.
  - rewrite lookup_insert_ne by done. destruct (list_to_map l !! _); [done|].
    destruct (HasPrefix key ResourceTagNamePrefix) eqn:Hp; [|done].
    apply HasPrefix_spec in Hp as [t ->]. rewrite TrimPrefix_app.
    rewrite lookup_insert_ne; [done|]. by intros ->.
Qed.

Lemma GetResourceTags_lookup (annotations : strmap) k :
  map_of (GetResourceTagsFromInfraClusterAnnotations annotations) !! k
  = Some <$> map_get_ok annotations (ResourceTagNamePrefix +:+ k).
Proof.
  unfold GetResourceTagsFromInfraClusterAnnotations, map_get_ok, map_of.
  destruct annotations as [m|]; [|done]. simpl.
  assert (resource_tags_loop (map_to_list m) ∅ !! k
          = Some <$> m !! (ResourceTagNamePrefix +:+ k)) as Hk.
  { rewrite resource_tags_loop_lookup by apply NoDup_fst_map_to_list.
    rewrite list_to_map_to_list, lookup_empty. by destruct (m !! _). }
  destruct (Nat.eqb_spec (size m) 0) as [Hm|Hm]; simpl.
  - apply map_size_empty_inv in Hm as ->. by rewrite !lookup_empty.
  - destruct (Nat.eqb_spec (size (resource_tags_loop (map_to_list m) ∅)) 0) as [Ht|Ht]; simpl;
      [|done].
    apply map_size_empty_inv in Ht. rewrite <- Hk, Ht. by rewrite !lookup_empty.
Qed.

Lemma GetResourceTags_set (annotations : strmap) :
  tags_set (GetResourceTagsFromInfraClusterAnnotations annotations).
Proof.
  intros k v. rewrite GetResourceTags_lookup. destruct (map_get_ok _ _); [|done].
  intros [= <-]. by eexists.
Qed.
