(* ===== verification/DnsClientFacts.v ===== *)
(** [azureClient] implements the [client] interface: from what the SDK
    documents of its calls, each method meets its part of the contract
    [ClientSpec] - its request counted, its error classified and masked, its
    listing read to the end. *)
From S2P Require Import Prelude GoStd Errors Metrics Kube State Infra Azure Scope DnsClient.
From S2P Require Import AzureSpec.
Open Scope Z_scope.

(** * The SDK *)

(** An error of the SDK is none of the operator's own error variables. *)
Definition foreign `{Microerror} (e : GoError) : Prop := ∀ v, Cause e ≠ MicroError v.

(** A listing under way ends within [n] pages, whatever happens between them;
    its pages hold decoded record sets, and asking for one changes nothing. *)
Fixpoint pages_end {W} `{AzureSDK W, AzureView W} (n : nat) (p : Pager RecordSet) : Prop :=
  if pager_More p then
    match n with
    | O => False
    | S n => ∀ w,
        let '(r, p', w') := pager_NextPage p w in
        same_view w w' ∧ match r with
                         | inr page => Forall decoded page ∧ pages_end n p'
                         | inl _ => True
                         end
    end
  else True.

Class SDKSpec (W : Type) `{Microerror, AzureSDK W, AzureView W} := {
  (** the subscription a client was made for *)
  zones_sub : ZonesClient → string;
  recordSets_sub : RecordSetsClient → string;
  resourceGroups_sub : ResourceGroupsClient → string;
  sdk_zones_Get c rg z w :
    let '(r, w') := zones_Get c rg z w in
    same_view w w' ∧
    match r with
    | inr zn => shows_zone (zones_sub c, rg, z) →
        ∃ zd, az_zones w !! (zones_sub c, rg, z) = Some zd ∧
        zone_Properties zn = Some {|
          NumberOfRecordSets := Some (Z.of_nat (size (zd_records zd)));
          NameServers := zd_nameservers zd |}
    | inl _ => True
    end;
  sdk_zones_CreateOrUpdate c rg z zn w : shows_zone (zones_sub c, rg, z) →
    let '(r, w') := zones_CreateOrUpdate c rg z zn w in
    match r with
    | inr _ => zone_created (zones_sub c, rg, z) w w'
    | inl _ => maybe (zone_created (zones_sub c, rg, z)) w w'
    end;
  sdk_recordSets_CreateOrUpdate c rg z n t rs p w :
    shows_zone (recordSets_sub c, rg, z) ∨ shows_record (recordSets_sub c, rg, z) t n →
    rs_Properties rs = Some p →
    let '(r, w') := recordSets_CreateOrUpdate c rg z n t rs w in
    match r with
    | inr _ => record_put (recordSets_sub c, rg, z) t n p w w'
    | inl _ => maybe (record_put (recordSets_sub c, rg, z) t n p) w w'
    end;
  sdk_recordSets_Delete c rg z n t w :
    shows_zone (recordSets_sub c, rg, z) ∨ shows_record (recordSets_sub c, rg, z) t n →
    let '(r, w') := recordSets_Delete c rg z n t w in
    match r with
    | inr _ => record_deleted (recordSets_sub c, rg, z) t n w w'
    | inl _ => maybe (record_deleted (recordSets_sub c, rg, z) t n) w w'
    end;
  (** the most pages of a zone *)
  page_bound : nat;
  sdk_pages_end c rg z : pages_end page_bound (recordSets_NewListByDNSZonePager c rg z);
  (** [listing_pages k acc p w]: the pager [p] lists the zone [k] and has given
      [acc] so far; nothing but a change of the zone disturbs it *)
  listing_pages : zone_key → list RecordSet → Pager RecordSet → W → Prop;
  sdk_pages_first c rg z w : shows_zone (recordSets_sub c, rg, z) →
    listing_pages (recordSets_sub c, rg, z) [] (recordSets_NewListByDNSZonePager c rg z) w;
  sdk_pages_last k acc p w :
    listing_pages k acc p w → pager_More p = false →
    ∃ zd, az_zones w !! k = Some zd ∧ listing zd acc;
  sdk_pages_next k acc p w :
    listing_pages k acc p w → pager_More p = true →
    let '(r, p', w') := pager_NextPage p w in
    match r with
    | inr page => listing_pages k (acc ++ page) p' w'
    | inl e => IsParentResourceNotFound (Some e) = true → az_zones w !! k = None
    end;
  sdk_pages_stable k acc p w w' :
    az_zones w' !! k = az_zones w !! k → listing_pages k acc p w → listing_pages k acc p w';
  sdk_resourceGroups_Get c rg w :
    let '(r, w') := resourceGroups_Get c rg w in
    same_view w w' ∧
    match r with
    | inr g => shows_group (resourceGroups_sub c, rg) →
        az_groups w !! (resourceGroups_sub c, rg) = Some g ∧ group_wf g
    | inl e => foreign e ∧ (shows_group (resourceGroups_sub c, rg) → e = ResponseError resourceGroupNotFoundErrorMessage →
                            az_groups w !! (resourceGroups_sub c, rg) = None)
    end;
  sdk_resourceGroups_CreateOrUpdate c rg g w : shows_group (resourceGroups_sub c, rg) →
    let '(r, w') := resourceGroups_CreateOrUpdate c rg g w in
    match r with
    | inr _ => group_put (resourceGroups_sub c, rg) g w w'
    | inl _ => maybe (group_put (resourceGroups_sub c, rg) g) w w'
    end;
  (** the poller of a deletion of a group *)
  deletion : Poller → group_key → Prop;
  sdk_resourceGroups_BeginDelete c rg w : shows_group (resourceGroups_sub c, rg) →
    let '(r, w') := resourceGroups_BeginDelete c rg w in
    group_shrunk (resourceGroups_sub c, rg) w w' ∧
    match r with
    | inr poller => deletion poller (resourceGroups_sub c, rg)
    | inl e => foreign e ∧ (e = ResponseError resourceGroupNotFoundErrorMessage →
        same_view w w' ∧ az_groups w !! (resourceGroups_sub c, rg) = None ∧
        ∀ z, az_zones w !! (resourceGroups_sub c, rg, z) = None)
    end;
  sdk_PollUntilDone poller k w :
    deletion poller k →
    let '(r, w') := PollUntilDone poller w in
    match r with
    | inr _ => group_deleted k w w'
    | inl e => foreign e ∧ group_shrunk k w w'
    end;
  (** the poller of a deletion of a zone *)
  zone_deletion : Poller → zone_key → Prop;
  sdk_zones_BeginDelete c rg z w : shows_zone (zones_sub c, rg, z) →
    let '(r, w') := zones_BeginDelete c rg z w in
    maybe (zone_removed (zones_sub c, rg, z)) w w' ∧
    match r with inr poller => zone_deletion poller (zones_sub c, rg, z) | inl _ => True end;
  sdk_zone_PollUntilDone poller k w :
    zone_deletion poller k →
    let '(r, w') := PollUntilDone poller w in
    match r with
    | inr _ => zone_removed k w w'
    | inl _ => maybe (zone_removed k) w w'
    end;
}.

(** The constructors of the SDK's credentials and clients: a client belongs to
    the subscription it is made for, and making it changes nothing in Azure. *)
Class SDKConstructors (W : Type) `{SDKSpec W} : Prop := {
  keep_NewManagedIdentityCredential c w : same_view w (NewManagedIdentityCredential c w).2;
  keep_NewClientSecretCredential t c k w : same_view w (NewClientSecretCredential t c k w).2;
  keep_NewWorkloadIdentityCredential t c w : same_view w (NewWorkloadIdentityCredential t c w).2;
  keep_NewZonesClient sub cred w : same_view w (NewZonesClient sub cred w).2;
  keep_NewRecordSetsClient sub cred w : same_view w (NewRecordSetsClient sub cred w).2;
  keep_NewResourceGroupsClient sub cred w : same_view w (NewResourceGroupsClient sub cred w).2;
  NewZonesClient_sub sub cred w c w' :
    NewZonesClient sub cred w = (inr c, w') → zones_sub c = sub;
  NewRecordSetsClient_sub sub cred w c w' :
    NewRecordSetsClient sub cred w = (inr c, w') → recordSets_sub c = sub;
  NewResourceGroupsClient_sub sub cred w c w' :
    NewResourceGroupsClient sub cred w = (inr c, w') → resourceGroups_sub c = sub;
}.

#[export] Hint Resolve keep_NewManagedIdentityCredential keep_NewClientSecretCredential
  keep_NewWorkloadIdentityCredential keep_NewZonesClient keep_NewRecordSetsClient
  keep_NewResourceGroupsClient : go_steps.

(** * The methods *)

Section client_facts.
Context {W : Type} `{Microerror, Kubernetes W, Prometheus, AzureSDK W, AzureView W}.

(** A counted request: the metrics aside, the state is what the call makes of
    it, and an error comes back masked. *)
Lemma wp_counted {A} (m : string) (f : io W A) (Q : outcome GoError A → St W → Prop) s :
  (∀ r s', f (world s) = (r, world s') → quiet s s' →
     Q (match r with inl e => Err (Mask e) | inr a => Ok a end) s') →
  wp (counted_mask m (call f)) Q s.
Proof.
  intros HQ. unfold wp, counted_mask, mbind, M_bind, try, call.
  destruct (f (world s)) as [[e|a] w'] eqn:Hf; simpl.
  - by apply (HQ (inl e)).
  - by apply (HQ (inr a)).
Qed.

Lemma wp_count_request {A} (m : string) (k : G W A) (Q : outcome GoError A → St W → Prop) s :
  (∀ s', world s' = world s → quiet s s' → wp k Q s') →
  wp (count_request m;; k) Q s.
Proof. intros HQ. by apply (HQ (set_metrics (AzureRequest_Inc m (metrics s)) s)). Qed.

Lemma wp_request {A} (m m' : string) (f : io W A) (Q : outcome GoError A → St W → Prop) s :
  (∀ r s', f (world s) = (r, world s') → quiet s s' →
     Q (match r with inl e => Err (Mask e) | inr a => Ok a end) s') →
  wp (count_request m;; counted_mask m' (call f)) Q s.
Proof.
  intros HQ. apply wp_count_request. intros s1 Hw Hq. apply wp_counted.
  intros r s2 Hf Hq2. rewrite Hw in Hf. apply HQ; [done|by etransitivity].
Qed.

Context `{!MicroerrorLaws, !SDKSpec W}.

(** A masked SDK error is never taken for a missing resource. *)
Lemma foreign_masked e : foreign e → IsResourceNotFoundError (Mask e) = false.
Proof.
  intros Hf. unfold IsResourceNotFoundError. rewrite Cause_Mask.
  rewrite bool_decide_false by apply (Hf "resourceNotFoundError").
  destruct (Mask e) eqn:He; try done. by apply Mask_not_response in He.
Qed.

(** The classification of the clients: exactly Azure's code for a missing
    resource group. *)
Lemma foreign_not_found e :
  foreign e → IsResourceNotFoundError e = true →
  e = ResponseError resourceGroupNotFoundErrorMessage.
Proof.
  intros Hf. unfold IsResourceNotFoundError.
  rewrite bool_decide_false by apply (Hf "resourceNotFoundError").
  destruct e; try done. intros Hc. by apply bool_decide_eq_true in Hc as ->.
Qed.

Lemma wp_drain fuel n acc (p : Pager RecordSet) s :
  (n ≤ fuel)%nat → pages_end n p → Forall decoded acc →
  wp (drain Mask fuel p acc) (λ r s', quiet s s' ∧ same_view (world s) (world s') ∧
    match r with
    | Ok l => Forall decoded l ∧ ∀ k, listing_pages k acc p (world s) →
        ∃ zd, az_zones (world s) !! k = Some zd ∧ listing zd l
    | Err e => ∀ k, listing_pages k acc p (world s) →
        IsParentResourceNotFound (Some e) = true → az_zones (world s) !! k = None
    | _ => False
    end) s.
Proof.
  revert n acc p s. induction fuel as [|fuel IH]; intros n acc p s Hle Hp Hacc; simpl;
    destruct (pager_More p) eqn:Hmore; destruct n as [|n]; simpl in Hp; rewrite Hmore in Hp;
    try done; try lia;
    try (apply wp_ret; split_and!; [done..|]; intros k Hk; by eapply sdk_pages_last).
  specialize (Hp (world s)). apply wp_bind, wp_map_err. unfold wp, NextPage, call.
  pose proof (λ k, sdk_pages_next k acc p (world s)) as Hnext.
  destruct (pager_NextPage p (world s)) as [[[e|page] p'] w']; destruct Hp as [Hv Hp]; simpl.
  - split_and!; [done..|]. intros k Hk. rewrite As_Mask. by apply (Hnext k Hk).
  - destruct Hp as [Hpage Hp].
    eapply wp_mono; [apply (IH n); [lia|done|by apply Forall_app]|].
    intros r s' (Hq & Hv' & Hr'). split; [done|]. split; [by etransitivity|].
    simpl in Hr'. rewrite (same_view_zones _ _ Hv) in Hr'.
    destruct r; [..|done|done].
    + destruct Hr' as [Hl Hr']. split; [done|]. intros k Hk. by apply Hr', (Hnext k Hk).
    + intros k Hk. by apply Hr', (Hnext k Hk).
Qed.

(** * The contract *)

(** The SDK clients of [ac] are those of the subscription [sub]. *)
Definition clients_of (ac : azureClient) (sub : string) : Prop :=
  zones_sub (zones ac) = sub ∧ recordSets_sub (recordSets ac) = sub ∧
  resourceGroups_sub (resourceGroups ac) = sub.

Lemma wp_maybe {A} (R : W → W → Prop) (r : GoError + A) (s s' : St W) :
  match r with inr _ => R (world s) (world s') | inl _ => maybe R (world s) (world s') end →
  match (match r with inl e => Err (Mask e) | inr a => Ok a end : outcome GoError A) with
  | Ok _ => R (world s) (world s')
  | Err _ => maybe R (world s) (world s')
  | _ => False
  end.
Proof. by destruct r. Qed.

Lemma wp_azureClient_GetResourceGroup ac rg s :
  wp (azureClient_GetResourceGroup ac rg) (λ r s', quiet s s' ∧ same_view (world s) (world s') ∧
    match r with
    | Ok g => shows_group (resourceGroups_sub (resourceGroups ac), rg) →
              az_groups (world s) !! (resourceGroups_sub (resourceGroups ac), rg) = Some g ∧
              group_wf g
    | Err e => shows_group (resourceGroups_sub (resourceGroups ac), rg) → IsResourceNotFoundError e = true →
               az_groups (world s) !! (resourceGroups_sub (resourceGroups ac), rg) = None
    | _ => False
    end) s.
Proof.
  apply wp_count_request. intros s1 Hw Hq. apply wp_bind, wp_try, wp_call.
  intros r w' Hr. pose proof (sdk_resourceGroups_Get (resourceGroups ac) rg (world s1)) as Hlaw.
  rewrite Hr, Hw in Hlaw. destruct r as [e|g]; simpl.
  - destruct Hlaw as (Hv & Hf & Hnone). apply wp_bind, wp_upd_metrics. simpl.
    destruct (IsResourceNotFoundError e) eqn:He; apply wp_throw; (split; [done|split; [done|]]).
    + intros Hs _. by apply Hnone, foreign_not_found.
    + by rewrite foreign_masked.
  - done.
Qed.

Lemma wp_azureClient_DeleteResourceGroup ac rg s :
  shows_group (resourceGroups_sub (resourceGroups ac), rg) →
  wp (azureClient_DeleteResourceGroup ac rg) (λ r s', quiet s s' ∧
    match r with
    | Ok _ => group_deleted (resourceGroups_sub (resourceGroups ac), rg) (world s) (world s')
    | Err e =>
        group_shrunk (resourceGroups_sub (resourceGroups ac), rg) (world s) (world s') ∧
        (IsResourceNotFoundError e = true →
           same_view (world s) (world s') ∧
           az_groups (world s) !! (resourceGroups_sub (resourceGroups ac), rg) = None ∧
           ∀ z, az_zones (world s) !! (resourceGroups_sub (resourceGroups ac), rg, z) = None)
    | _ => False
    end) s.
Proof.
  intros Hshow. apply wp_count_request. intros s1 Hw Hq. apply wp_bind, wp_try, wp_call.
  intros r w' Hr.
  pose proof (sdk_resourceGroups_BeginDelete (resourceGroups ac) rg (world s1) Hshow) as Hlaw.
  rewrite Hr, Hw in Hlaw. destruct r as [e|poller]; simpl.
  - destruct Hlaw as (Hs & Hf & Hnone).
    destruct (IsResourceNotFoundError e) eqn:He.
    + apply wp_throw. split; [done|split; [done|]]. intros _. by apply Hnone, foreign_not_found.
    + apply wp_bind, wp_upd_metrics, wp_throw. split; [done|split; [done|]].
      by rewrite foreign_masked.
  - destruct Hlaw as [Hs Hdel]. apply wp_counted. intros r s2 Hr2 Hq2. simpl in Hr2.
    pose proof (sdk_PollUntilDone _ _ w' Hdel) as Hpoll. rewrite Hr2 in Hpoll.
    split; [by do 2 (etransitivity; [eassumption|])|]. destruct r as [e|[]].
    + destruct Hpoll as [Hf Hs2]. split; [by eapply group_shrunk_trans|]. by rewrite foreign_masked.
    + destruct Hpoll as (Hs2 & Hrest). split; [by eapply group_shrunk_trans|done].
Qed.

Lemma wp_azureClient_DeleteZone ac rg z s :
  shows_zone (zones_sub (zones ac), rg, z) →
  wp (azureClient_DeleteZone ac rg z) (λ r s', quiet s s' ∧
    match r with
    | Ok _ => zone_removed (zones_sub (zones ac), rg, z) (world s) (world s')
    | Err _ => maybe (zone_removed (zones_sub (zones ac), rg, z)) (world s) (world s')
    | _ => False
    end) s.
Proof.
  intros Hshow. apply wp_count_request. intros s1 Hw Hq. apply wp_bind, wp_counted.
  intros r s2 Hr Hq2. pose proof (sdk_zones_BeginDelete (zones ac) rg z (world s1) Hshow) as Hlaw.
  rewrite Hr, Hw in Hlaw. destruct Hlaw as [Hz Hdel].
  destruct r as [e|poller]; simpl; [split; [by etransitivity|done]|].
  apply wp_count_request. intros s3 Hw3 Hq3. apply wp_counted. intros r s4 Hr4 Hq4.
  pose proof (sdk_zone_PollUntilDone _ _ (world s3) Hdel) as Hpoll. rewrite Hr4, Hw3 in Hpoll.
  split; [by do 3 (etransitivity; [eassumption|])|].
  destruct r as [e|[]]; [by eapply maybe_removed_maybe|by eapply maybe_removed_trans].
Qed.

Lemma azureClient_meets_spec ac sub fuel :
  clients_of ac sub → (page_bound (W := W) ≤ fuel)%nat →
  ClientSpec (azureClient_client fuel ac) sub.
Proof.
  intros (Hz & Hrs & Hrg) Hfuel. split; simpl.
  - intros rg z s. apply wp_request. intros r s' Hr Hq.
    pose proof (sdk_zones_Get (zones ac) rg z (world s)) as Hlaw. rewrite Hr, Hz in Hlaw.
    destruct Hlaw as [Hv Hlaw]. split; [done|split; [done|]]. by destruct r.
  - intros rg z zn s Hs. apply wp_request. intros r s' Hr Hq. split; [done|]. apply wp_maybe.
    rewrite <- Hz in *.
    pose proof (sdk_zones_CreateOrUpdate (zones ac) rg z zn (world s) Hs) as Hlaw.
    by rewrite Hr in Hlaw.
  - intros rg z s. rewrite <- Hz. apply wp_azureClient_DeleteZone.
  - intros rg z s. apply wp_count_request. intros s1 Hw Hq.
    eapply wp_mono; [apply (wp_drain _ page_bound); [done|apply sdk_pages_end|done]|].
    intros r s' (Hq' & Hv & Hrest). rewrite Hw in Hv, Hrest. rewrite <- Hrs.
    split; [by etransitivity|]. split; [done|]. destruct r; [..|done|done].
    + destruct Hrest as [Hd Hrest]. split; [done|]. intros Hs. by apply Hrest, sdk_pages_first.
    + intros Hs. by apply Hrest, sdk_pages_first.
  - intros rg z t n rs p s Hs Hp. apply wp_request. intros r s' Hr Hq. split; [done|].
    apply wp_maybe. rewrite <- Hrs in *.
    pose proof (sdk_recordSets_CreateOrUpdate (recordSets ac) rg z n t rs p (world s) Hs Hp) as Hlaw.
    by rewrite Hr in Hlaw.
  - intros rg z t n s Hs. apply wp_request. intros r s' Hr Hq. split; [done|]. apply wp_maybe.
    rewrite <- Hrs in *.
    pose proof (sdk_recordSets_Delete (recordSets ac) rg z n t (world s) Hs) as Hlaw.
    by rewrite Hr in Hlaw.
  - intros rg s. rewrite <- Hrg. apply wp_azureClient_GetResourceGroup.
  - intros rg g s Hs. apply wp_request. intros r s' Hr Hq. split; [done|]. apply wp_maybe.
    rewrite <- Hrg in *.
    pose proof (sdk_resourceGroups_CreateOrUpdate (resourceGroups ac) rg g (world s) Hs) as Hlaw.
    by rewrite Hr in Hlaw.
  - intros rg s. rewrite <- Hrg. apply wp_azureClient_DeleteResourceGroup.
Qed.

(** * Construction *)

Context `{!SDKConstructors W}.

Lemma new_clients_of sub cred :
  ok_post (new_clients (W := W) sub cred) (λ ac, clients_of ac sub).
Proof.
  unfold new_clients.
  eapply ok_post_bind; [apply ok_post_map_err, ok_post_call, NewZonesClient_sub|intros z Hz].
  eapply ok_post_bind; [apply ok_post_map_err, ok_post_call, NewRecordSetsClient_sub|intros rs Hrs].
  eapply ok_post_bind; [apply ok_post_map_err, ok_post_call, NewResourceGroupsClient_sub|].
  intros g Hg. by apply ok_post_ret.
Qed.

Lemma new_clients_quiet sub cred : steps azure_quiet (new_clients (W := W) sub cred).
Proof.
  unfold new_clients, newZonesClient, newRecordSetsClient, newResourceGroupClient. steps_tac.
Qed.

Lemma newAzureClient_of sc :
  ok_post (newAzureClient (W := W) sc) (λ ac, clients_of ac (SubscriptionID (ds_Patcher sc))).
Proof. eapply ok_post_bind; [apply ok_post_True|intros cred _]. apply new_clients_of. Qed.

Lemma newBaseZoneClient_of creds :
  ok_post (newBaseZoneClient (W := W) creds) (λ ac, clients_of ac (bz_SubscriptionID creds)).
Proof. eapply ok_post_bind; [apply ok_post_True|intros cred _]. apply new_clients_of. Qed.

Lemma newAzureClient_quiet sc : steps azure_quiet (newAzureClient (W := W) sc).
Proof. pose proof new_clients_quiet. unfold newAzureClient. steps_tac. Qed.

Lemma newBaseZoneClient_quiet creds : steps azure_quiet (newBaseZoneClient (W := W) creds).
Proof. pose proof new_clients_quiet. unfold newBaseZoneClient. steps_tac. Qed.
End client_facts.
