(* ===== verification/DnsRecordsFacts.v ===== *)
(** Facts about the record computations of DnsRecords.v: the comparison loops
    against a declarative specification, the shape of the desired records, and
    what the update loops write. *)
From S2P Require Import Prelude GoStd Errors Metrics Kube State Infra Azure Scope DnsClient.
From S2P Require Import AzureSpec DnsRecords.
Open Scope Z_scope.

Lemma bool_decide_Some {A} `{EqDecision A} (x y : A) :
  bool_decide (Some x = Some y) = bool_decide (x = y).
Proof. apply bool_decide_ext. naive_solver. Qed.

(** * Record sets up to their provisioning state *)

Definition strip_props (p : RecordSetProperties) : RecordSetProperties :=
  mkProperties (TTL p) (ARecords p) (rsp_CnameRecord p) (NsRecords p) None.

Definition strip (rs : RecordSet) : RecordSet :=
  mkRecordSet (rs_Name rs) (rs_Type rs) (strip_props <$> rs_Properties rs).

(** A record set whose name, properties, TTL and addresses can be read. *)
Definition readable (rs : RecordSet) : Prop :=
  is_Some (rs_Name rs) ∧
  ∃ p, rs_Properties rs = Some p ∧ is_Some (TTL p) ∧
       Forall (λ a, is_Some (IPv4Address a)) (ARecords p).

(** The record set a search by name finds. *)
Definition first_named (n : string) (l : list RecordSet) : option RecordSet :=
  snd <$> list_find (has_name n) l.

(** The declarative test: missing, or other addresses, or another TTL. *)
Definition outdated_A (l : list RecordSet) (d : RecordSet) : bool :=
  match rs_Name d with
  | None => true
  | Some n =>
      match first_named (pointee n) l with
      | None => true
      | Some c =>
          negb (bool_decide (ARecords <$> rs_Properties d = ARecords <$> rs_Properties c) &&
                bool_decide (TTL <$> rs_Properties d = TTL <$> rs_Properties c))
      end
  end.

Definition outdated_CNAME (l : list RecordSet) (d : RecordSet) : bool :=
  match rs_Name d with
  | None => true
  | Some n =>
      match first_named (pointee n) l with
      | None => true
      | Some c =>
          negb (bool_decide (rsp_CnameRecord <$> rs_Properties c = rsp_CnameRecord <$> rs_Properties d) &&
                bool_decide (TTL <$> rs_Properties c = TTL <$> rs_Properties d))
      end
  end.

(** A record set as the operator builds one for an address. *)
Definition desired_A (d : RecordSet) : Prop := ∃ n ip, d = a_recordset n 300 [ip].

Lemma a_recordset_readable n ttl ips : readable (a_recordset n ttl ips).
Proof.
  split; [by eexists|]. eexists. split; [done|]. split; [by eexists|].
  apply Forall_forall. intros a (ip & -> & _)%list_elem_of_fmap. by eexists.
Qed.

Lemma desired_A_readable d : desired_A d → readable d.
Proof. intros (n & ip & ->). apply a_recordset_readable. Qed.

Lemma strip_readable rs rs' : strip rs = strip rs' → readable rs → readable rs'.
Proof.
  intros [= Hn _ Hp] [Hname (p & Hps & Httl & Hips)]. rewrite Hn in Hname. split; [done|].
  rewrite Hps in Hp. destruct (rs_Properties rs') as [p'|]; [|done].
  simpl in Hp. injection Hp as H1 H2 _ _. exists p'. rewrite <- H1, <- H2. done.
Qed.

Lemma map_strip_cons rs rs' l l' :
  map strip (rs :: l) = map strip (rs' :: l') → strip rs = strip rs' ∧ map strip l = map strip l'.
Proof.
  intros Heq. split; [by apply (f_equal (head (A:=RecordSet))) in Heq; injection Heq as ? ? ?;
    unfold strip; congruence|by apply (f_equal tail) in Heq].
Qed.

Lemma first_named_cons n rs l :
  first_named n (rs :: l) = if has_name n rs then Some rs else first_named n l.
Proof.
  unfold first_named. simpl. destruct (has_name n rs); simpl; [done|].
  by destruct (list_find _ l) as [[]|].
Qed.

Lemma Forall_readable_strip l l' :
  map strip l = map strip l' → Forall readable l → Forall readable l'.
Proof.
  revert l'. induction l as [|rs l IH]; intros [|rs' l'] Heq Hf; try done.
  apply map_strip_cons in Heq as [Hs Hl]. inversion Hf; subst. constructor.
  - by eapply (strip_readable rs).
  - by apply IH.
Qed.

Lemma first_named_strip n l l' :
  map strip l = map strip l' → strip <$> first_named n l = strip <$> first_named n l'.
Proof.
  revert l'. induction l as [|rs l IH]; intros [|rs' l'] Heq; try done.
  apply map_strip_cons in Heq as [Hs Hl]. specialize (IH _ Hl).
  rewrite !first_named_cons.
  assert (has_name n rs = has_name n rs') as ->
    by (unfold has_name; by injection Hs as -> _ _).
  destruct (has_name n rs'); [|done]. simpl. by rewrite Hs.
Qed.

Lemma strip_content c c' : strip c = strip c' →
  ARecords <$> rs_Properties c = ARecords <$> rs_Properties c' ∧
  TTL <$> rs_Properties c = TTL <$> rs_Properties c' ∧
  rsp_CnameRecord <$> rs_Properties c = rsp_CnameRecord <$> rs_Properties c'.
Proof.
  intros [= _ _ Hp]. destruct (rs_Properties c), (rs_Properties c'); try done.
  injection Hp as H1 H2 H3 H4. simpl. by rewrite H1, H2, H3.
Qed.

Lemma outdated_A_strip l l' d : map strip l = map strip l' → outdated_A l d = outdated_A l' d.
Proof.
  intros Heq. unfold outdated_A. destruct (rs_Name d) as [n|]; [|done].
  pose proof (first_named_strip (pointee n) _ _ Heq) as Hf.
  destruct (first_named _ l) as [c|], (first_named _ l') as [c'|]; try done.
  apply (inj Some), strip_content in Hf as (-> & -> & _); done.
Qed.

Lemma outdated_CNAME_strip l l' d :
  map strip l = map strip l' → outdated_CNAME l d = outdated_CNAME l' d.
Proof.
  intros Heq. unfold outdated_CNAME. destruct (rs_Name d) as [n|]; [|done].
  pose proof (first_named_strip (pointee n) _ _ Heq) as Hf.
  destruct (first_named _ l) as [c|], (first_named _ l') as [c'|]; try done.
  apply (inj Some), strip_content in Hf as (_ & -> & ->); done.
Qed.

(** * The search by name *)

Section search.
Context {S E : Type}.

Lemma name_test_run (n : string) (rs : RecordSet) (s : S) : is_Some (rs_Name rs) →
  (m ← name_of rs; mret (bool_decide (m = n)) : M S E bool) s = (Ok (has_name n rs), s).
Proof. intros [p Hp]. unfold name_of, has_name. by rewrite Hp. Qed.

Lemma search_run (n : string) (l : list RecordSet) (s : S) : Forall readable l →
  IndexFunc l (λ rs, m ← name_of rs; mret (bool_decide (m = n)) : M S E bool) s
  = (Ok (first_index (has_name n) l), s).
Proof.
  intros Hl. apply IndexFunc_run. intros rs Hrs. apply name_test_run.
  rewrite Forall_forall in Hl. by apply Hl.
Qed.

Lemma first_index_cases (n : string) (l : list RecordSet) :
  (first_named n l = None ∧ first_index (has_name n) l = -1) ∨
  ∃ i c, first_named n l = Some c ∧ l !! i = Some c ∧
         first_index (has_name n) l = Z.of_nat i.
Proof.
  unfold first_named, first_index. destruct (list_find _ l) as [[i c]|] eqn:Hf; simpl.
  - right. exists i, c. apply list_find_Some in Hf as (? & _ & _). done.
  - by left.
Qed.
End search.

(** * The comparison loops *)

Section comparison.
Context {W : Type} `{Microerror, Kubernetes W, Prometheus}.

(** [m] returns [a], and has changed nothing but the metrics. *)
Definition returns_counting {A} (m : G W A) (a : A) (s : St W) : Prop :=
  ∃ mt, m s = (Ok a, set_metrics mt s).

Lemma returns_counting_ret {A} (a : A) s : returns_counting (mret a) a s.
Proof. exists (metrics s). by destruct s. Qed.

Lemma returns_counting_bind {A B} (m : G W A) (k : A → G W B) a b s :
  returns_counting m a s → (∀ s', returns_counting (k a) b s') →
  returns_counting (m ≫= k) b s.
Proof.
  intros [mt Hm] Hk. destruct (Hk (set_metrics mt s)) as [mt' Hmt'].
  exists mt'. unfold mbind, M_bind. by rewrite Hm, Hmt'.
Qed.

Lemma returns_counting_foreach {A} (l : list A) (body : A → G W unit) s :
  (∀ x s, x ∈ l → returns_counting (body x) tt s) → returns_counting (foreach l body) tt s.
Proof.
  revert s. induction l as [|x l IH]; intros s Hb; simpl; [apply returns_counting_ret|].
  eapply returns_counting_bind; [apply Hb; set_solver|]. intros s'. apply IH. set_solver.
Qed.

Lemma export_ARecords_run zone zoneType current s : readable current →
  returns_counting (export_ARecords zone zoneType current) tt s.
Proof.
  intros [[n Hn] (p & Hp & [ttl Httl] & Hips)]. unfold export_ARecords. rewrite Hp.
  apply returns_counting_foreach. intros a s' Ha.
  rewrite Forall_forall in Hips. destruct (Hips a Ha) as [ip Hip].
  unfold name_of. rewrite Hn, Httl, Hip. by eexists.
Qed.

Lemma clear_ProvisioningState_run (l : list RecordSet) i c (s : St W) :
  l !! i = Some c → readable c →
  ∃ c' l', (clear_ProvisioningState l (Z.of_nat i) : G W _) s = (Ok l', s) ∧
    l' !! i = Some c' ∧ strip c' = strip c ∧ map strip l' = map strip l.
Proof.
  intros Hi [_ (p & Hp & _)].
  eexists (mkRecordSet (rs_Name c) (rs_Type c) (Some _)), _. split; [|split; [|split]].
  - unfold clear_ProvisioningState, mbind, M_bind.
    rewrite (at_index_nat l i c) by done. rewrite Hp. simpl. by rewrite Nat2Z.id.
  - apply list_lookup_insert_eq. by eapply lookup_lt_Some.
  - unfold strip. by rewrite Hp.
  - etransitivity; [apply list_fmap_insert|]. apply list_insert_id.
    rewrite list_lookup_fmap, Hi. unfold strip. simpl. by rewrite Hp.
Qed.

Lemma name_of_a n ttl ips (s : St W) : (name_of (a_recordset n ttl ips) : G W _) s = (Ok n, s).
Proof. done. Qed.

(** The outcome of one comparison. *)
Lemma compare_ARecord_run (svc : Service W) acc cur d s :
  desired_A d → Forall readable cur →
  ∃ cur', map strip cur' = map strip cur ∧
    returns_counting (compare_ARecord svc (acc, cur) d)
      (if outdated_A cur d then acc ++ [d] else acc, cur') s.
Proof.
  intros (n & ip & ->) Hcur. unfold compare_ARecord.
  destruct (first_index_cases n cur) as [[Hf Hi]|(i & c & Hf & Hc & Hi)].
  - exists cur. split; [done|]. exists (metrics s).
    bind_step ltac:(apply name_of_a). bind_step ltac:(by apply search_run). rewrite Hi. simpl.
    unfold outdated_A. simpl. rewrite Hf. by destruct s.
  - assert (readable c) as Hread.
    { rewrite Forall_forall in Hcur. apply Hcur. by eapply list_elem_of_lookup_2. }
    destruct (clear_ProvisioningState_run cur i c s Hc Hread)
      as (c' & cur' & Hclear & Hc' & Hstrip & Hmap).
    exists cur'. split; [done|].
    assert (readable c') as Hread' by by eapply strip_readable.
    destruct (export_ARecords_run (ClusterDomain (scope svc)) ZoneTypePublic c' s Hread')
      as [mt Hmt].
    exists mt. bind_step ltac:(apply name_of_a). bind_step ltac:(by apply search_run). rewrite Hi.
    destruct (Z.eqb_spec (Z.of_nat i) (-1)); [lia|].
    bind_step ltac:(exact Hclear). bind_step ltac:(by apply at_index_nat).
    apply strip_content in Hstrip as (HA & HT & _).
    destruct Hread' as [_ (p' & Hp' & _)].
    bind_step ltac:(done). bind_step ltac:(by rewrite Hp'). bind_step ltac:(exact Hmt).
    unfold outdated_A. simpl. rewrite Hf, <- HA, <- HT, Hp'. simpl.
    rewrite !bool_decide_Some. by destruct (bool_decide _), (bool_decide _).
Qed.

Lemma compare_loop_run (svc : Service W) ds acc cur s :
  Forall desired_A ds → Forall readable cur →
  ∃ cur', map strip cur' = map strip cur ∧
    returns_counting (foldlM (compare_ARecord svc) (acc, cur) ds)
      (acc ++ filter (λ d, outdated_A cur d) ds, cur') s.
Proof.
  revert acc cur s. induction ds as [|d ds IH]; intros acc cur s Hds Hcur.
  - exists cur. split; [done|]. rewrite app_nil_r. apply returns_counting_ret.
  - inversion Hds; subst.
    destruct (compare_ARecord_run svc acc cur d s) as (cur1 & Hm1 & [mt1 Hr1]); [done..|].
    destruct (IH (if outdated_A cur d then acc ++ [d] else acc) cur1 (set_metrics mt1 s))
      as (cur2 & Hm2 & [mt2 Hr2]); [done|by eapply Forall_readable_strip|].
    exists cur2. split; [congruence|]. exists mt2.
    cbn [foldlM]. bind_step ltac:(exact Hr1). rewrite Hr2. do 3 f_equal. simpl.
    assert (filter (λ x, outdated_A cur1 x) ds = filter (λ x, outdated_A cur x) ds) as ->.
    { apply list_filter_iff. intros x. rewrite (outdated_A_strip _ _ x Hm1). done. }
    rewrite filter_cons. destruct (outdated_A cur d); simpl; [by rewrite <- app_assoc|done].
Qed.

Lemma name_of_star ty p (s : St W) :
  (name_of (mkRecordSet (pointer_String "*") ty p) : G W _) s = (Ok "*", s).
Proof. done. Qed.

Lemma compare_CnameRecord_run acc cur target s :
  Forall readable cur →
  ∀ d, d ∈ desiredCnameRecords target →
  (compare_CnameRecord cur acc d : G W _) s
  = (Ok (if outdated_CNAME cur d then acc ++ [d] else acc), s).
Proof.
  intros Hcur d Hd. unfold desiredCnameRecords in Hd. apply list_elem_of_singleton in Hd as ->.
  unfold compare_CnameRecord.
  destruct (first_index_cases "*" cur) as [[Hf Hi]|(i & c & Hf & Hc & Hi)];
    (bind_step ltac:(by apply name_of_star)); (bind_step ltac:(by apply search_run)); rewrite Hi;
    unfold outdated_CNAME; simpl; rewrite Hf; [done|].
  destruct (Z.ltb_spec (Z.of_nat i) 0); [lia|].
  bind_step ltac:(by apply at_index_nat).
  rewrite Forall_forall in Hcur.
  destruct (Hcur c) as [_ (p & Hp & _)]; [by eapply list_elem_of_lookup_2|].
  bind_step ltac:(by rewrite Hp). bind_step ltac:(done). rewrite Hp. simpl.
  rewrite !bool_decide_Some. by destruct (bool_decide _), (bool_decide _).
Qed.

Lemma calculateMissingCnameRecords_run (svc : Service W) cur s : Forall readable cur →
  calculateMissingCnameRecords svc cur s
  = (Ok (filter (λ d, outdated_CNAME cur d) (desiredCnameRecords (WildcardFQDN (scope svc)))), s).
Proof.
  intros Hcur. unfold calculateMissingCnameRecords, desiredCnameRecords. cbn [foldlM].
  bind_step ltac:(by apply (compare_CnameRecord_run [] cur (WildcardFQDN (scope svc)));
                    [|constructor]).
  rewrite filter_cons. by destruct (outdated_CNAME _ _).
Qed.
End comparison.

(** * The loops over services *)

(** The first service the ingress loop does not skip, with its hostname. *)
Definition first_managed (items : list Service_obj) : option (string * Service_obj) :=
  head (omap (λ svc, (λ h, (h, svc)) <$> managed_hostname svc) items).

(** The record of one gateway service, if it gets one. *)
Definition gateway_record (clusterZone : string) (svc : Service_obj) : option RecordSet :=
  hostname ← managed_hostname svc;
  ip ← first_ingress_ip svc;
  Some (a_recordset (TrimSuffix hostname ("." +:+ clusterZone)) gatewayRecordTTL [ip]).

Lemma gateway_loop_omap zone items acc :
  gateway_loop zone items acc = acc ++ omap (gateway_record zone) items.
Proof.
  revert acc. induction items as [|svc items IH]; intros acc; simpl; [by rewrite app_nil_r|].
  rewrite IH. unfold gateway_record at 2. simpl.
  destruct (managed_hostname svc); simpl; [|done].
  destruct (first_ingress_ip svc); simpl; [by rewrite <- app_assoc|done].
Qed.

Section desired.
Context {W : Type} `{Microerror, Kubernetes W, Prometheus}.

Lemma ingress_loop_run zone items (s : St W) :
  ingress_loop zone items s
  = (match first_managed items with
     | None => Ok None
     | Some (hostname, svc) =>
         match first_ingress_ip svc with
         | None => Err (Mask ingressNotReadyError)
         | Some ip =>
             Ok (Some (a_recordset (TrimSuffix hostname ("." +:+ zone)) ingressRecordTTL [ip]))
         end
     end, s).
Proof.
  unfold first_managed. induction items as [|svc items IH]; simpl; [done|].
  destruct (managed_hostname svc); simpl; [|done]. by destruct (first_ingress_ip svc).
Qed.

(** * The desired records *)

Definition api_records (ip : string) : list RecordSet :=
  [a_recordset apiRecordName apiRecordTTL [ip]; a_recordset apiserverRecordName apiRecordTTL [ip]].

(** The address of the API server. *)
Definition api_address (svc : Service W) : G W string :=
  if IsAPIServerPrivate (svc_Patcher svc) then mret (APIServerPrivateIP (svc_Patcher svc))
  else getIPAddressForPublicDNS svc.

(** [getDesiredARecords] without index searches and in-place appends. *)
Definition desired_spec (svc : Service W) : G W (list RecordSet) :=
  aso ← IsASOManagedCluster;
  if (aso : bool) then mret []
  else
    ip ← api_address svc;
    azure ← IsAzureCluster;
    if (azure : bool) then mret (api_records ip)
    else
      ingressRecord ← map_err Mask (getIngressARecord svc);
      gatewayRecords ← map_err Mask (getGatewayARecords svc);
      mret (api_records ip ++ option_list ingressRecord ++ gatewayRecords).

(** The two appends to the prepared record sets. *)
Lemma append_twice_run ip (s : St W) :
  (l ← append_ARecord [a_recordset apiRecordName apiRecordTTL [];
                       a_recordset apiserverRecordName apiRecordTTL []] 0 ip;
   append_ARecord l 1 ip : G W _) s = (Ok (api_records ip), s).
Proof. done. Qed.

Lemma getDesiredARecords_spec (svc : Service W) : getDesiredARecords svc ≡ₘ desired_spec svc.
Proof.
  intros s.
  unfold getDesiredARecords, desired_spec.
  bind_step ltac:(done). erewrite (run_bind IsASOManagedCluster) by done.
  destruct (isASOManagedCluster (infraCluster s)); [done|].
  do 2 (bind_step ltac:(done)).
  assert (∀ ip s0,
    (azure ← IsAzureCluster;
     if (azure : bool) then mret (api_records ip)
     else
       ingressRecord ← map_err Mask (getIngressARecord svc);
       gatewayRecords ← map_err Mask (getGatewayARecords svc);
       mret (match ingressRecord with
             | Some r => api_records ip ++ [r] | None => api_records ip end ++ gatewayRecords)) s0
    = (azure ← IsAzureCluster;
       if (azure : bool) then mret (api_records ip)
       else
         ingressRecord ← map_err Mask (getIngressARecord svc);
         gatewayRecords ← map_err Mask (getGatewayARecords svc);
         mret (api_records ip ++ option_list ingressRecord ++ gatewayRecords)) s0) as Hrest.
  { intros ip s0. do 2 erewrite (run_bind IsAzureCluster) by done.
    destruct (isAzureCluster _); [done|]. unfold mbind, M_bind.
    destruct (map_err Mask (getIngressARecord svc) s0) as [[[r|]|e| |] s1]; try done. }
  unfold api_address. destruct (IsAPIServerPrivate _).
  - bind_step ltac:(apply append_twice_run). erewrite (run_bind (mret _)) by done. by apply Hrest.
  - destruct (getIPAddressForPublicDNS svc s) as [[ip|e| |] s1] eqn:Hg.
    + bind_step ltac:(erewrite run_bind by exact Hg; apply append_twice_run).
      erewrite (run_bind (getIPAddressForPublicDNS svc)) by exact Hg. by apply Hrest.
    + unfold mbind, M_bind. by rewrite Hg.
    + unfold mbind, M_bind. by rewrite Hg.
    + unfold mbind, M_bind. by rewrite Hg.
Qed.

(** ** Effects and shape *)

Lemma desired_A_api ip : Forall desired_A (api_records ip).
Proof. repeat constructor; by eexists _, _. Qed.

Lemma desired_A_gateway zone items acc :
  Forall desired_A acc → Forall desired_A (gateway_loop zone items acc).
Proof.
  intros Hacc. rewrite gateway_loop_omap. apply Forall_app. split; [done|].
  apply Forall_forall. intros d (svc & _ & Hd)%list_elem_of_omap.
  unfold gateway_record in Hd. destruct (managed_hostname svc), (first_ingress_ip svc); try done.
  injection Hd as <-. by eexists _, _.
Qed.

Lemma ingress_loop_desired zone items :
  ok_post (ingress_loop (W := W) zone items) (λ r, Forall desired_A (option_list r)).
Proof.
  intros s r s'. rewrite ingress_loop_run. intros [= Hr _].
  destruct (first_managed items) as [[h svc]|]; [|injection Hr as <-; constructor].
  destruct (first_ingress_ip svc); [|done]. injection Hr as <-.
  repeat constructor. by eexists _, _.
Qed.

Lemma getDesiredARecords_desired (svc : Service W) :
  ok_post (getDesiredARecords svc) (Forall desired_A).
Proof.
  rewrite getDesiredARecords_spec. unfold desired_spec.
  eapply ok_post_bind; [apply ok_post_True|]. intros [] _; [by apply ok_post_ret|].
  eapply ok_post_bind; [apply ok_post_True|]. intros ip _.
  eapply ok_post_bind; [apply ok_post_True|].
  intros [] _; [apply ok_post_ret, desired_A_api|].
  eapply ok_post_bind.
  { apply ok_post_map_err. unfold getIngressARecord.
    do 2 (eapply ok_post_bind; [apply ok_post_True|intros ? _]). apply ingress_loop_desired. }
  intros r Hr. eapply ok_post_bind.
  { apply ok_post_map_err. unfold getGatewayARecords.
    do 2 (eapply ok_post_bind; [apply ok_post_True|intros ? _]).
    apply ok_post_ret, desired_A_gateway, Forall_nil_2. }
  intros g Hg. apply ok_post_ret. rewrite !Forall_app. split_and!; [apply desired_A_api|done..].
Qed.

Context `{!AzureView W, !KubeKeepsAzure}.

Lemma ClusterK8sClient_quiet (sc : Scope W) : steps azure_quiet (ClusterK8sClient sc).
Proof.
  unfold ClusterK8sClient, getClusterK8sClient, getClusterKubeConfig, getK8sClient. steps_tac.
Qed.

Lemma ClusterK8sClient_total (sc : Scope W) : total (ClusterK8sClient sc).
Proof.
  unfold ClusterK8sClient, getClusterK8sClient, getClusterKubeConfig, getK8sClient. total_tac.
Qed.

Lemma ingress_loop_quiet zone items : steps azure_quiet (ingress_loop (W := W) zone items).
Proof. intros s. by rewrite ingress_loop_run. Qed.

Lemma ingress_loop_total zone items : total (ingress_loop (W := W) zone items).
Proof. intros s. rewrite ingress_loop_run. by repeat case_match. Qed.

Context (svc : Service W) `{!PatcherSpec (svc_Patcher svc) (publicIPsService svc)}.

Lemma getDesiredARecords_quiet : steps azure_quiet (getDesiredARecords svc).
Proof.
  pose proof ClusterK8sClient_quiet. pose proof ingress_loop_quiet.
  pose proof (getter_quiet (p := svc_Patcher svc) (g := publicIPsService svc)).
  rewrite getDesiredARecords_spec.
  unfold desired_spec, IsASOManagedCluster, IsAzureCluster, api_address,
    getIPAddressForPublicDNS, getIngressARecord, getGatewayARecords. steps_tac.
Qed.

Lemma getIPAddressForPublicDNS_total :
  IsAPIServerPrivate (svc_Patcher svc) = false → total (getIPAddressForPublicDNS svc).
Proof.
  intros Hp. unfold getIPAddressForPublicDNS.
  destruct (public_unless_private (g := publicIPsService svc) Hp) as [spec ->].
  intros s. erewrite run_bind by done. destruct (ParseIP (pip_Name spec)); [done|].
  set (q := {| q_Name := _ |}). unfold mbind, M_bind, map_err.
  pose proof (getter_total (p := svc_Patcher svc) (g := publicIPsService svc) q s) as Ht.
  pose proof (getter_address (p := svc_Patcher svc) (g := publicIPsService svc) q s) as Ha.
  destruct (Getter_Get (publicIPsService svc) q s) as [[r|e| |] s1]; try done.
  specialize (Ha r s1 eq_refl). destruct r as [v|v|t]; [..|done]; by destruct Ha as [ip ->].
Qed.

Lemma getDesiredARecords_total : total (getDesiredARecords svc).
Proof.
  pose proof ClusterK8sClient_total. pose proof ingress_loop_total.
  rewrite getDesiredARecords_spec. unfold desired_spec.
  apply total_bind; [done|]. intros []; [done|].
  apply total_bind.
  { unfold api_address. destruct (IsAPIServerPrivate _) eqn:Hp; [done|].
    by apply getIPAddressForPublicDNS_total. }
  unfold getIngressARecord, getGatewayARecords, IsAzureCluster. total_tac.
Qed.
End desired.
