(* ===== verification/DnsServiceFacts.v ===== *)
(** The reconciliation of a public zone, against the contract of its clients:
    what it may change, what it leaves alone, and what holds when it returns
    without an error. *)
From S2P Require Import Prelude GoStd Errors Metrics Kube State Infra Azure Scope DnsClient.
From S2P Require Import AzureSpec InfraFacts DnsRecords DnsRecordsFacts DnsService TagFacts.
Open Scope Z_scope.

(** * Listings and zones *)

(** [l] shows the records of [zd]: what a search by name finds is a record set
    of the zone with that name. *)
Definition reflects (zd : ZoneData) (l : list RecordSet) : Prop :=
  Forall readable l ∧
  ∀ n c, first_named n l = Some c →
    ∃ t p p', zd_records zd !! (t, n) = Some p ∧ record_wf (t, n) p ∧
      rs_Properties c = Some p' ∧ strip_props p' = strip_props p.

Lemma reflects_nil zd : reflects zd [].
Proof. by split. Qed.

(** The provisioning states, which the comparison clears, do not matter. *)
Lemma reflects_strip zd l l' : map strip l' = map strip l → reflects zd l → reflects zd l'.
Proof.
  intros Heq [Hread Hl]. split; [by eapply Forall_readable_strip|].
  intros n c' Hc'. pose proof (first_named_strip n _ _ Heq) as Hf. rewrite Hc' in Hf.
  destruct (first_named n l) as [c|] eqn:Hc; [|done]. simpl in Hf.
  destruct (Hl n c Hc) as (t & p & p' & Hk & Hwf & Hp & Hs).
  injection Hf as _ _ Hprops. rewrite Hp in Hprops.
  destruct (rs_Properties c') as [q|] eqn:Hq; [|done]. exists t, p, q.
  split_and!; [done|done|done|]. rewrite <- Hs. unfold strip_props. by injection Hprops as -> -> -> ->.
Qed.

(** Record sets that show entries of the zone reflect it, in any order and
    whichever part of the zone they show. *)
Lemma shown_reflects zd l (kps : list ((RecordType * string) * RecordSetProperties)) :
  zone_wf zd → (∀ kp, kp ∈ kps → zd_records zd !! kp.1 = Some kp.2) →
  Forall2 (λ rs kp, ∃ a st, rs_Name rs = Some (mkptr a kp.1.2) ∧
    rs_Properties rs = Some (mkProperties (TTL kp.2) (ARecords kp.2) (rsp_CnameRecord kp.2)
                               (NsRecords kp.2) st)) l kps →
  reflects zd l.
Proof.
  intros Hwf Hkps Hl.
  assert (∀ rs, rs ∈ l → ∃ k p a st, zd_records zd !! k = Some p ∧
    rs_Name rs = Some (mkptr a k.2) ∧ rs_Properties rs
      = Some (mkProperties (TTL p) (ARecords p) (rsp_CnameRecord p) (NsRecords p) st)) as Hin.
  { intros rs (i & Hi)%list_elem_of_lookup.
    destruct (Forall2_lookup_l _ _ _ _ _ Hl Hi) as ([k p] & Hkp & a & st & Hn & Hp).
    exists k, p, a, st. split_and!; [|done..]. apply (Hkps (k, p)).
    by eapply list_elem_of_lookup_2. }
  split.
  - apply Forall_forall. intros rs Hrs. destruct (Hin rs Hrs) as (k & p & a & st & Hk & Hn & Hp).
    destruct (Hwf k p Hk) as (Httl & Hips & _).
    split; [by eexists|]. eexists. split; [done|]. done.
  - intros n c Hc. unfold first_named in Hc.
    destruct (list_find _ l) as [[i c']|] eqn:Hf; [|done]. injection Hc as ->.
    apply list_find_Some in Hf as (Hi & Hname & _).
    destruct (Hin c) as ([t m] & p & a & st & Hk & Hn & Hp);
      [by eapply list_elem_of_lookup_2|]. simpl in *.
    unfold has_name in Hname. rewrite Hn in Hname. simpl in Hname.
    apply bool_decide_unpack in Hname as ->.
    exists t, p. eexists. split_and!; [done|by apply Hwf|done|done].
Qed.

Lemma listing_reflects `{AzureView} zd l : listing zd l → reflects zd l.
Proof.
  intros [Hwf (kps & Hperm & Hl)]. eapply (shown_reflects zd l kps); [done| |].
  - intros kp Hkp. rewrite Hperm in Hkp. destruct kp. by apply elem_of_map_to_list.
  - eapply Forall2_impl; [exact Hl|]. intros rs kp (a & st & Hn & _ & Hp). by exists a, st.
Qed.

(** The name under which a record set is created. *)
Definition record_name (d : RecordSet) : option string := pointee <$> rs_Name d.
Definition name_is (d : RecordSet) (n : string) : Prop := record_name d = Some n.

(** The record set [d] is in the zone as an A record set. *)
Definition has_A (zd : ZoneData) (d : RecordSet) : Prop :=
  ∀ n p, name_is d n → rs_Properties d = Some p →
    ∃ p', zd_records zd !! (RecordTypeA, n) = Some p' ∧
          ARecords p' = ARecords p ∧ TTL p' = TTL p.

(** What a comparison passes over is in the zone already. *)
Lemma current_has_A zd l d :
  reflects zd l → desired_A d → outdated_A l d = false → has_A zd d.
Proof.
  intros [_ Hl] (n & ip & ->) Ho n' p Hn Hp.
  injection Hn as <-. injection Hp as <-. unfold outdated_A in Ho. simpl in Ho.
  destruct (first_named n l) as [c|] eqn:Hf; [|done].
  destruct (Hl n c Hf) as (t & p & p' & Hk & (_ & _ & Hst) & Hc & Hs).
  rewrite Hc in Ho. simpl in Ho. rewrite !bool_decide_Some in Ho.
  apply negb_false_iff, andb_true_iff in Ho as [HA HT].
  apply bool_decide_eq_true in HA, HT. injection Hs as Httl Ha _ _.
  rewrite Ha in HA. rewrite Httl in HT.
  destruct t; simpl in Hst.
  - exists p. split; [done|]. by rewrite <- HA, <- HT.
  - by rewrite <- Hst in HA.
  - by rewrite <- Hst in HA.
  - by rewrite <- Hst in HA.
Qed.

Lemma put_has_A zd d n p :
  name_is d n → rs_Properties d = Some p → has_A (put_record RecordTypeA n p zd) d.
Proof.
  intros Hn Hp n' p' Hn' Hp'. unfold name_is in *. rewrite Hn in Hn'. injection Hn' as ->.
  rewrite Hp in Hp'. injection Hp' as ->. eexists. split; [apply lookup_insert_eq|done].
Qed.

Lemma put_keeps_A zd d n p :
  ¬ name_is d n → has_A zd d → has_A (put_record RecordTypeA n p zd) d.
Proof.
  intros Hne Hd n' p' Hn' Hp'. destruct (Hd n' p' Hn' Hp') as (q & Hq & Hrest).
  exists q. split; [|done]. simpl. rewrite lookup_insert_ne; [done|]. congruence.
Qed.

Lemma has_A_agree zd zd' d :
  (∀ n, zd_records zd' !! (RecordTypeA, n) = zd_records zd !! (RecordTypeA, n)) →
  has_A zd d → has_A zd' d.
Proof. intros Heq Hd n p Hn Hp. rewrite Heq. by apply Hd. Qed.

(** The zone after the record set [d] is written as an A record set. *)
Definition put_A (zd : ZoneData) (d : RecordSet) : ZoneData :=
  match rs_Name d, rs_Properties d with
  | Some n, Some p => put_record RecordTypeA (pointee n) p zd
  | _, _ => zd
  end.

Lemma put_A_nameservers ds zd :
  zd_nameservers (fold_left put_A ds zd) = zd_nameservers zd.
Proof.
  revert zd. induction ds as [|d ds IH]; intros zd; simpl; [done|]. rewrite IH.
  unfold put_A. by destruct (rs_Name d), (rs_Properties d).
Qed.

Lemma put_A_other ds zd t n : t ≠ RecordTypeA →
  zd_records (fold_left put_A ds zd) !! (t, n) = zd_records zd !! (t, n).
Proof.
  intros Ht. revert zd. induction ds as [|d ds IH]; intros zd; simpl; [done|]. rewrite IH.
  unfold put_A. destruct (rs_Name d), (rs_Properties d); simpl; [|done..].
  apply lookup_insert_ne. congruence.
Qed.

(** A write of [f] does not undo one of [d]. *)
Definition compatible (d f : RecordSet) : Prop := f = d ∨ record_name f ≠ record_name d.

Lemma put_A_step zd d f : desired_A f → compatible d f → has_A zd d → has_A (put_A zd f) d.
Proof.
  intros (n & ip & ->) [<-|Hne] Hd; [by apply put_has_A|].
  apply put_keeps_A; [|done]. unfold name_is. by intros Hn; apply Hne; rewrite Hn.
Qed.

Lemma put_A_keeps fs zd d :
  Forall desired_A fs → Forall (compatible d) fs → has_A zd d → has_A (fold_left put_A fs zd) d.
Proof.
  revert zd. induction fs as [|f fs IH]; intros zd Hfs Hc Hd; simpl; [done|].
  apply Forall_cons in Hfs as [], Hc as []. apply IH; [done..|]. by apply put_A_step.
Qed.

Lemma put_A_in fs zd d :
  Forall desired_A fs → Forall (compatible d) fs → d ∈ fs → has_A (fold_left put_A fs zd) d.
Proof.
  revert zd. induction fs as [|f fs IH]; intros zd Hfs Hc Hd; [by apply not_elem_of_nil in Hd|].
  apply Forall_cons in Hfs as [Hf ?], Hc as []. simpl.
  apply elem_of_cons in Hd as [->|Hd]; [|by apply IH].
  apply put_A_keeps; [done..|]. destruct Hf as (n & ip & ->). by apply put_has_A.
Qed.

Lemma distinct_compatible ds d f :
  NoDup (map record_name ds) → d ∈ ds → f ∈ ds → compatible d f.
Proof.
  intros Hnd [i Hi]%list_elem_of_lookup [j Hj]%list_elem_of_lookup.
  destruct (decide (record_name f = record_name d)) as [Heq|]; [left|by right].
  assert (i = j) as ->; [|congruence].
  eapply (NoDup_lookup (map record_name ds)); [done|..]; rewrite list_lookup_fmap.
  - by rewrite Hi.
  - rewrite Hj. simpl. by rewrite Heq.
Qed.

(** The record sets whose name no other one has. *)
Definition uniquely_named (ds : list RecordSet) : list RecordSet :=
  filter (λ d, length (filter (λ f, record_name f = record_name d) ds) = 1%nat) ds.

Lemma uniquely_named_compatible ds d f : d ∈ uniquely_named ds → f ∈ ds → compatible d f.
Proof.
  intros [Hlen Hd]%list_elem_of_filter Hf.
  destruct (decide (record_name f = record_name d)) as [Heq|]; [left|by right].
  destruct (filter (λ f, record_name f = record_name d) ds) as [|x [|]] eqn:Hx; [done| |done].
  assert (∀ g, g ∈ ds → record_name g = record_name d → g = x) as Hg.
  { intros g Hg Hn. apply list_elem_of_singleton. rewrite <- Hx. by apply list_elem_of_filter. }
  by rewrite (Hg f), (Hg d).
Qed.

(** All of them, where the names are distinct. *)
Lemma uniquely_named_all ds : NoDup (map record_name ds) → uniquely_named ds = ds.
Proof.
  intros Hnd. apply filter_keeps. intros d Hd.
  assert (NoDup (filter (λ f, record_name f = record_name d) ds)) as Hf.
  { apply NoDup_filter. by apply (NoDup_fmap_1 record_name). }
  assert (∀ f, f ∈ filter (λ f, record_name f = record_name d) ds → f = d) as Hall.
  { intros f [Hn Hin]%list_elem_of_filter. by destruct (distinct_compatible ds d f). }
  assert (d ∈ filter (λ f, record_name f = record_name d) ds) as Hin by by apply list_elem_of_filter.
  destruct (filter _ ds) as [|x [|y l]]; [by apply not_elem_of_nil in Hin|done|].
  apply NoDup_cons in Hf as [Hx _]. destruct Hx.
  rewrite (Hall x), (Hall y) by (repeat (apply elem_of_cons; try (by left); right)). by left.
Qed.

(** Writing what a comparison found outdated leaves every desired record in
    the zone whose name no other one has. *)
Lemma put_A_has_A l ds zd :
  Forall desired_A ds → reflects zd l →
  Forall (has_A (fold_left put_A (filter (λ d, outdated_A l d) ds) zd)) (uniquely_named ds).
Proof.
  intros Hds Hl. apply Forall_forall. intros d Hd.
  assert (∀ f, f ∈ filter (λ d, outdated_A l d) ds → desired_A f ∧ compatible d f) as Hfs.
  { intros f [_ Hf]%list_elem_of_filter. rewrite Forall_forall in Hds.
    split; [by apply Hds|by eapply uniquely_named_compatible]. }
  apply list_elem_of_filter in Hd as [_ Hd].
  destruct (outdated_A l d) eqn:Ho.
  - apply put_A_in; [by apply Forall_forall; intros; apply Hfs..|].
    apply list_elem_of_filter. by rewrite Ho.
  - apply put_A_keeps; [by apply Forall_forall; intros; apply Hfs..|].
    rewrite Forall_forall in Hds. by apply (current_has_A zd l); [|apply Hds|].
Qed.

(** The wildcard record. *)
Definition has_wildcard (zd : ZoneData) (target : string) : Prop :=
  ∃ p, zd_records zd !! (RecordTypeCNAME, "*") = Some p ∧
       rsp_CnameRecord p = Some (mkCnameRecord (Some target)) ∧ TTL p = Some cnameRecordTTL.

Lemma current_has_wildcard zd l target d :
  reflects zd l → d ∈ desiredCnameRecords target → outdated_CNAME l d = false →
  has_wildcard zd target.
Proof.
  intros [_ Hl] Hd Ho. unfold desiredCnameRecords in Hd. apply list_elem_of_singleton in Hd as ->.
  unfold outdated_CNAME in Ho. simpl in Ho.
  destruct (first_named "*" l) as [c|] eqn:Hf; [|done].
  destruct (Hl _ c Hf) as (t & p & p' & Hk & (_ & _ & Hst) & Hc & Hs).
  rewrite Hc in Ho. simpl in Ho. rewrite !bool_decide_Some in Ho.
  apply negb_false_iff, andb_true_iff in Ho as [HA HT].
  apply bool_decide_eq_true in HA, HT. injection Hs as Httl _ Hcn _.
  rewrite Hcn in HA. rewrite Httl in HT.
  destruct t; simpl in Hst.
  - by rewrite <- Hst in HA.
  - by exists p.
  - by rewrite <- Hst in HA.
  - by rewrite <- Hst in HA.
Qed.

(** * What a reconciliation may write *)

Section service.
Context {W : Type} `{Microerror, Kubernetes W, Prometheus, AzureView W}.
Context (svc : Service W) (sub bsub : string).

Definition cluster_zone : zone_key :=
  (sub, ResourceGroup_name (scope svc), ClusterDomain (scope svc)).

Definition base_zone : zone_key :=
  (bsub, baseDomainResourceGroup (scope svc), baseDomain (scope svc)).

Definition cluster_group : group_key := (sub, ResourceGroup_name (scope svc)).

(** In the cluster's zone the A records and the wildcard CNAME record, in the
    base zone the NS record named after the cluster. *)
Definition may_write (k : zone_key) (tn : RecordType * string) : Prop :=
  (k = cluster_zone ∧ (tn.1 = RecordTypeA ∨ tn = (RecordTypeCNAME, "*"))) ∨
  (k = base_zone ∧ tn = (RecordTypeNS, ClusterName (svc_Patcher svc))).

(** Two states of Azure between which only permitted writes happened: no
    record set or zone disappears, only the cluster's zone can be new. *)
Record within (w w' : W) : Prop := {
  within_groups g : g ≠ cluster_group → az_groups w' !! g = az_groups w !! g;
  within_zones k zd : az_zones w !! k = Some zd →
    ∃ zd', az_zones w' !! k = Some zd' ∧ zd_nameservers zd' = zd_nameservers zd ∧
      (∀ tn, ¬ may_write k tn → zd_records zd' !! tn = zd_records zd !! tn) ∧
      (∀ tn, is_Some (zd_records zd !! tn) → is_Some (zd_records zd' !! tn));
  within_new k : k ≠ cluster_zone → az_zones w !! k = None → az_zones w' !! k = None;
  within_created zd : az_zones w !! cluster_zone = None → az_zones w' !! cluster_zone = Some zd →
    ∀ tn, is_Some (zd_records zd !! tn) → may_write cluster_zone tn ∨ tn.2 = "@";
  within_private : same_private w w';
  within_wf : zones_wf w → zones_wf w';
}.

#[global] Instance within_preorder : PreOrder within.
Proof.
  split.
  - intros w. split; [done| |done|congruence|done..]. intros k zd Hk. by exists zd.
  - intros w1 w2 w3 [G1 Z1 N1 C1 P1 T1] [G2 Z2 N2 C2 P2 T2]. split; [..|by auto].
    + intros g Hg. by rewrite G2, G1.
    + intros k zd1 Hk. destruct (Z1 k zd1 Hk) as (zd2 & Hk2 & Hns2 & Hr2 & Hs2).
      destruct (Z2 k zd2 Hk2) as (zd3 & Hk3 & Hns3 & Hr3 & Hs3).
      exists zd3. split_and!; [done|congruence| |auto].
      intros tn Htn. by rewrite Hr3, Hr2.
    + intros k Hk Hn. by apply N2, N1.
    + intros zd3 Hn Hk3 tn Htn. destruct (az_zones w2 !! cluster_zone) as [zd2|] eqn:Hk2;
        [|by eapply C2].
      destruct (decide (is_Some (zd_records zd2 !! tn))) as [Hin|Hin]; [by eapply C1|].
      destruct (Z2 _ _ Hk2) as (zd & Hk & _ & Hr & _). rewrite Hk3 in Hk. injection Hk as <-.
      left. destruct (decide (may_write cluster_zone tn)) as [Hm|Hm]; [done|].
      by rewrite Hr in Htn.
    + by etransitivity.
Qed.

(** The same for states of the operator, whose own view of the infrastructure
    cluster does not change either. *)
Definition frame (s s' : St W) : Prop :=
  within (world s) (world s') ∧ infraCluster s' = infraCluster s.

#[global] Instance frame_preorder : PreOrder frame.
Proof.
  split; [intros s; by split|]. intros s1 s2 s3 [] [].
  split; [by etransitivity|congruence].
Qed.

Lemma within_same_view w w' : same_view w w' → within w w'.
Proof.
  intros [[Hz Hg] Hp]. split; [congruence| |congruence|congruence|done|by apply zones_wf_same].
  intros k zd Hk. exists zd. by rewrite Hz.
Qed.

Lemma within_record_put k t n p w w' :
  may_write k (t, n) → put_wf p → record_put k t n p w w' → within w w'.
Proof.
  intros Hmay Hwf Hput. pose proof (zones_wf_put _ _ _ _ _ _ Hwf Hput).
  destruct Hput as [[Hg Hp] (zd & Hk & Hz)]. split; [congruence| | | |done|done].
  - intros k' zd' Hk'. rewrite Hz. destruct (decide (k = k')) as [<-|Hne].
    + rewrite Hk in Hk'. injection Hk' as <-. rewrite lookup_insert_eq.
      eexists. split; [done|]. split; [done|]. split; simpl.
      * intros tn Htn. rewrite lookup_insert_ne; [done|]. by intros <-.
      * intros tn Htn. destruct (decide ((t, n) = tn)) as [<-|].
        -- by rewrite lookup_insert_eq.
        -- by rewrite lookup_insert_ne.
    + rewrite lookup_insert_ne by done. by exists zd'.
  - intros k' _ Hk'. rewrite Hz. rewrite lookup_insert_ne; [done|]. congruence.
  - intros zd' Hn. rewrite Hz, lookup_insert_ne by congruence. congruence.
Qed.

Lemma within_zone_created w w' : zone_created cluster_zone w w' → within w w'.
Proof.
  intros Hc. pose proof (zones_wf_created _ _ _ Hc). destruct Hc as [[Hg Hp] (zd' & Hz & Hold)].
  split; [congruence| | | |done|done].
  - intros k zd Hk. rewrite Hz. destruct (decide (cluster_zone = k)) as [<-|Hne].
    + rewrite Hk in Hold. subst zd'. rewrite lookup_insert_eq. by exists zd.
    + rewrite lookup_insert_ne by done. by exists zd.
  - intros k Hne Hk. rewrite Hz. by rewrite lookup_insert_ne.
  - intros zd Hn. rewrite Hz, lookup_insert_eq. intros [= ->] [t n] Htn. right.
    rewrite Hn in Hold. by apply (proj2 Hold t).
Qed.

Lemma within_group_put g w w' : group_put cluster_group g w w' → within w w'.
Proof.
  intros [[Hz Hp] (g' & Hg & _)]. split; [| |congruence|congruence|done|by apply zones_wf_same].
  - intros g0 Hne. rewrite Hg. by rewrite lookup_insert_ne.
  - intros k zd Hk. exists zd. by rewrite Hz.
Qed.

Lemma frame_azure_quiet s s' : azure_quiet s s' → frame s s'.
Proof. intros [Hv Hi]. split; [by apply within_same_view|done]. Qed.

Lemma frame_quiet_same s s' : quiet s s' → same_view (world s) (world s') → frame s s'.
Proof. intros [_ Hi] Hv. split; [by apply within_same_view|done]. Qed.

(** * The operations of the two clients, within the frame *)

(** What the service works on is in the view. *)
Class InView : Prop := {
  in_view_zone : shows_zone cluster_zone;
  in_view_group : shows_group cluster_group;
  in_view_NS : shows_record base_zone RecordTypeNS (ClusterName (svc_Patcher svc));
}.

#[global] Instance full_in_view `{!FullView W} : InView.
Proof. split; [apply full_zone|apply full_group|apply full_record]. Qed.

Context `{!InView}.
Context `{!ClientSpec (svc_azureClient svc) sub, !ClientSpec (svc_azureBaseZoneClient svc) bsub}.

(** What the operator puts is well-formed. *)
Lemma a_properties_wf ttl ips : put_wf (a_properties ttl ips).
Proof.
  split; [by eexists|]. apply Forall_forall. intros a (ip & -> & _)%list_elem_of_fmap.
  by eexists.
Qed.

Lemma no_addresses_wf ttl cn ns st : put_wf (mkProperties (Some ttl) [] cn ns st).
Proof. split; [by eexists|apply Forall_nil_2]. Qed.

Lemma runs_put t n rs p s :
  rs_Properties rs = Some p → put_wf p → may_write cluster_zone (t, n) →
  runs frame (CreateOrUpdateRecordSet (svc_azureClient svc) (ResourceGroup_name (scope svc))
                (ClusterDomain (scope svc)) t n rs) s
    (λ _ s', record_put cluster_zone t n p (world s) (world s')).
Proof.
  intros Hp Hwf Hmay.
  eapply wp_mono; [apply spec_CreateOrUpdateRecordSet; [left; apply in_view_zone|exact Hp]|].
  intros r s' [[_ Hi] Hr]. destruct r as [a|e| |]; [..|done|done].
  - split; [|done]. split; [by eapply within_record_put|done].
  - split; [|done]. split; [|done].
    destruct Hr as [Hv|Hput]; [by apply within_same_view|by eapply within_record_put].
Qed.

Lemma runs_put_base rs p s :
  rs_Properties rs = Some p → put_wf p →
  runs frame (CreateOrUpdateRecordSet (svc_azureBaseZoneClient svc)
                (baseDomainResourceGroup (scope svc)) (baseDomain (scope svc)) RecordTypeNS
                (ClusterName (svc_Patcher svc)) rs) s
    (λ _ s', record_put base_zone RecordTypeNS (ClusterName (svc_Patcher svc)) p
               (world s) (world s')).
Proof.
  intros Hp Hwf.
  assert (may_write base_zone (RecordTypeNS, ClusterName (svc_Patcher svc))) as Hmay by by right.
  eapply wp_mono; [apply spec_CreateOrUpdateRecordSet; [right; apply in_view_NS|exact Hp]|].
  intros r s' [[_ Hi] Hr]. destruct r as [a|e| |]; [..|done|done].
  - split; [|done]. split; [by eapply within_record_put|done].
  - split; [|done]. split; [|done].
    destruct Hr as [Hv|Hput]; [by apply within_same_view|by eapply within_record_put].
Qed.

Lemma runs_list_base s :
  runs frame (ListRecordSets (svc_azureBaseZoneClient svc)
                (baseDomainResourceGroup (scope svc)) (baseDomain (scope svc))) s
    (λ l s', same_view (world s) (world s') ∧ Forall decoded l).
Proof.
  eapply wp_mono; [apply spec_ListRecordSets|].
  intros r s' (Hq & Hv & Hr). destruct r; [..|done|done].
  - split; [by apply frame_quiet_same|]. by destruct Hr.
  - split; [by apply frame_quiet_same|done].
Qed.

Lemma runs_get_zone s :
  runs frame (GetZone (svc_azureClient svc) (ResourceGroup_name (scope svc))
                (ClusterDomain (scope svc))) s
    (λ zn s', same_view (world s) (world s') ∧
       ∃ zd, az_zones (world s) !! cluster_zone = Some zd ∧
         zone_Properties zn = Some {|
            NumberOfRecordSets := Some (Z.of_nat (size (zd_records zd)));
            NameServers := zd_nameservers zd |}).
Proof.
  eapply wp_mono; [apply spec_GetZone|].
  intros r s' (Hq & Hv & Hr). destruct r; [..|done|done].
  - split; [by apply frame_quiet_same|]. split; [done|]. by apply Hr, in_view_zone.
  - split; [by apply frame_quiet_same|done].
Qed.

Lemma runs_metrics f s (P : unit → St W → Prop) :
  P tt (set_metrics (f (metrics s)) s) → runs frame (upd_metrics f) s P.
Proof. intros HP. apply runs_modify; [|done]. split; [reflexivity|done]. Qed.

(** ** The zone and its listing *)

Lemma runs_list_or_create_zone s :
  runs frame (list_or_create_zone svc) s
    (λ l s', ∃ zd, az_zones (world s') !! cluster_zone = Some zd ∧ reflects zd l).
Proof.
  unfold list_or_create_zone.
  rbind (λ r s', match r with
    | inr l => ∃ zd, az_zones (world s') !! cluster_zone = Some zd ∧ reflects zd l
    | inl e => True end).
  { apply runs_try. eapply wp_mono; [apply spec_ListRecordSets|].
    intros r s' (Hq & Hv & Hr).
    destruct r as [l|e| |]; [|split; [by apply frame_quiet_same|done]|done|done].
    split; [by apply frame_quiet_same|].
    destruct Hr as [_ Hr]. destruct (Hr in_view_zone) as (zd & Hk & Hl).
    exists zd. destruct Hv as [[-> _] _]. split; [done|by apply listing_reflects]. }
  intros [e|l] s' _ HP; [|by rret].
  destruct (negb _).
  { rbind (λ _ _, True); [by apply runs_metrics|]. intros [] ? _ _. by rthrow. }
  rbind (λ _ s1, ∃ zd, az_zones (world s1) !! cluster_zone = Some zd).
  { apply runs_map_err. unfold createClusterDNSZone. apply runs_map_err.
    eapply wp_mono; [apply spec_CreateOrUpdateZone, in_view_zone|].
    intros r s1 [[_ Hi] Hr]. destruct r; [..|done|done].
    - split; [split; [by apply within_zone_created|done]|].
      destruct Hr as [_ (zd & -> & _)]. exists zd. by rewrite lookup_insert_eq.
    - split; [|done]. split; [|done].
      destruct Hr; [by apply within_same_view|by apply within_zone_created]. }
  intros _ s1 _ [zd Hzd]. rret. exists zd. split; [done|apply reflects_nil].
Qed.

(** ** The records *)

(** The zone of a key after a write to another key, or to it. *)
Lemma record_put_zone k t n p w w' zd :
  record_put k t n p w w' → az_zones w !! k = Some zd →
  az_zones w' !! k = Some (put_record t n p zd).
Proof.
  intros [_ (zd0 & Hk & Hz)] Hk0. rewrite Hk in Hk0. injection Hk0 as ->.
  by rewrite Hz, lookup_insert_eq.
Qed.

Lemma record_put_other k k' t n p w w' :
  record_put k t n p w w' → k' ≠ k → az_zones w' !! k' = az_zones w !! k'.
Proof. intros [_ (zd0 & Hk & Hz)] Hne. by rewrite Hz, lookup_insert_ne. Qed.

Lemma base_zone_ne : base_zone ≠ cluster_zone.
Proof. intros [= _ _ Heq]. by apply (subdomain_ne (ClusterName (svc_Patcher svc)) (baseDomain (scope svc))). Qed.

(** The two zones of a state. *)
Definition zones_are (zd : ZoneData) (zb : option ZoneData) (s : St W) : Prop :=
  az_zones (world s) !! cluster_zone = Some zd ∧ az_zones (world s) !! base_zone = zb.

Lemma runs_write_A zd zb (ds : list RecordSet) s :
  Forall desired_A ds → zones_are zd zb s →
  runs frame (foreach ds (λ aRecord,
     name ← name_of aRecord;
     deref (rs_Properties aRecord);;
     map_err Mask (CreateOrUpdateRecordSet (svc_azureClient svc) (ResourceGroup_name (scope svc))
       (ClusterDomain (scope svc)) RecordTypeA name aRecord);;
     mret tt)) s (λ _ s', zones_are (fold_left put_A ds zd) zb s').
Proof.
  intros Hds Hz. revert zd s Hds Hz. induction ds as [|d ds IH]; intros zd s Hds [Hzd Hzb];
    simpl; [by rret|].
  apply Forall_cons in Hds as [(n & ip & ->) Hds].
  rbind (λ _ s', zones_are (put_A zd (a_recordset n 300 [ip])) zb s').
  - do 2 rread. rbind (λ _ s', _); [|intros a s' _ HP; rret; exact HP].
    apply runs_map_err. eapply runs_mono; [eapply runs_put; [done|apply a_properties_wf|by left; split; [|left]]|].
    intros a s1 _ Hput. cbn beta. split; [by apply (record_put_zone _ _ _ _ _ _ zd Hput)|].
    by rewrite (record_put_other _ _ _ _ _ _ _ Hput base_zone_ne).
  - intros _ s' _ Hz'. by apply IH.
Qed.

Lemma runs_updateARecords `{!KubeKeepsAzure}
    `{!PatcherSpec (svc_Patcher svc) (publicIPsService svc)} zd zb l s :
  zones_are zd zb s → reflects zd l →
  runs frame (updateARecords svc l) s (λ l' s',
    map strip l' = map strip l ∧
    ∃ ds s1, getDesiredARecords svc s = (Ok ds, s1) ∧ Forall desired_A ds ∧
      zones_are (fold_left put_A (filter (λ d, outdated_A l d) ds) zd) zb s').
Proof.
  intros Hz [Hread _]. unfold updateARecords.
  rbind (λ '(todo, l') s', map strip l' = map strip l ∧ zones_are zd zb s' ∧
    ∃ ds s1, getDesiredARecords svc s = (Ok ds, s1) ∧ Forall desired_A ds ∧
      todo = filter (λ d, outdated_A l d) ds).
  - unfold calculateMissingARecords.
    rbind (λ ds s', zones_are zd zb s' ∧ Forall desired_A ds ∧
                    getDesiredARecords svc s = (Ok ds, s')).
    + split.
      * apply frame_azure_quiet. apply (getDesiredARecords_quiet svc).
      * pose proof (getDesiredARecords_total svc s) as Ht.
        pose proof (getDesiredARecords_quiet svc s) as [[[Hq _] _] _].
        pose proof (getDesiredARecords_desired svc s) as Hd.
        destruct (getDesiredARecords svc s) as [[ds|e| |] s1] eqn:Hg; [|done..].
        simpl in *. split_and!; [|by eapply Hd|done].
        unfold zones_are. by rewrite Hq.
    + intros ds s1 _ (Hz1 & Hds & Hg).
      destruct (compare_loop_run svc ds [] l s1 Hds Hread) as (l' & Hl' & [mt Hr]).
      unfold runs, wp. rewrite Hr. simpl. split; [by split; [apply within_same_view|]|].
      split; [done|]. split; [done|]. by exists ds, s1.
  - intros [todo l'] s' _ (Hl' & Hz' & ds & s1 & Hg & Hds & ->).
    rbind (λ _ s', zones_are (fold_left put_A (filter (λ d, outdated_A l d) ds) zd) zb s').
    + destruct (filter _ ds) as [|d todo] eqn:Hf; [by rret|].
      cbn [length Nat.eqb]. apply runs_write_A; [|done].
      rewrite <- Hf. apply Forall_forall. intros f [_ Hin]%list_elem_of_filter.
      rewrite Forall_forall in Hds. by apply Hds.
    + intros _ s2 _ Hz2. rret. split; [done|]. by exists ds, s1.
Qed.

(** ** The wildcard record *)

Lemma runs_updateCnameRecords zd zb l s :
  zones_are zd zb s → Forall readable l →
  runs frame (updateCnameRecords svc l) s (λ _ s',
    zones_are (if existsb (outdated_CNAME l) (desiredCnameRecords (WildcardFQDN (scope svc)))
               then put_record RecordTypeCNAME "*"
                      (mkProperties (Some cnameRecordTTL) []
                         (Some (mkCnameRecord (Some (WildcardFQDN (scope svc))))) [] None) zd
               else zd) zb s').
Proof.
  intros [Hzd Hzb] Hl. unfold updateCnameRecords.
  eapply runs_read; [by apply calculateMissingCnameRecords_run|].
  unfold desiredCnameRecords. rewrite filter_cons. simpl existsb. rewrite orb_false_r.
  destruct (outdated_CNAME l _) eqn:Ho; [|by rret].
  cbn [filter length Nat.eqb foreach].
  rbind (λ _ s', zones_are _ zb s'); [|intros a s' _ HP; rret; exact HP].
  do 2 rread. rbind (λ _ s', zones_are _ zb s'); [|intros a s' _ HP; rret; exact HP].
  eapply runs_mono; [eapply runs_put; [done|by apply no_addresses_wf|by left; split; [|right]]|].
  intros a s1 _ Hput. split; [by apply (record_put_zone _ _ _ _ _ _ zd Hput)|].
  by rewrite (record_put_other _ _ _ _ _ _ _ Hput base_zone_ne).
Qed.

(** The updates together: what a completed pair of updates leaves in the zone. *)
Lemma updated_has_wildcard zd zd1 l :
  reflects zd l →
  (∀ t n, t ≠ RecordTypeA → zd_records zd1 !! (t, n) = zd_records zd !! (t, n)) →
  has_wildcard
    (if existsb (outdated_CNAME l) (desiredCnameRecords (WildcardFQDN (scope svc)))
     then put_record RecordTypeCNAME "*"
            (mkProperties (Some cnameRecordTTL) []
               (Some (mkCnameRecord (Some (WildcardFQDN (scope svc))))) [] None) zd1
     else zd1) (WildcardFQDN (scope svc)).
Proof.
  intros Hl Hsame. destruct (existsb _ _) eqn:Hex.
  - eexists. split; [apply lookup_insert_eq|done].
  - simpl in Hex. apply orb_false_iff in Hex as [Ho _].
    destruct (current_has_wildcard zd l (WildcardFQDN (scope svc)) _ Hl
                (proj2 (list_elem_of_singleton _ _) eq_refl) Ho) as (p & Hp & Hrest).
    exists p. split; [|done]. by rewrite Hsame.
Qed.

(** ** The resource group *)

Lemma runs_group_put g s :
  runs frame (CreateOrUpdateResourceGroup (svc_azureClient svc) (ResourceGroup_name (scope svc)) g)
    s (λ _ s', group_put cluster_group g (world s) (world s')).
Proof.
  eapply wp_mono; [apply spec_CreateOrUpdateResourceGroup, in_view_group|].
  intros r s' [[_ Hi] Hr]. destruct r as [a|e| |]; [..|done|done].
  - split; [|done]. split; [|done]. by eapply within_group_put.
  - split; [|done]. split; [|done].
    destruct Hr as [Hv|Hput]; [by apply within_same_view|by eapply within_group_put].
Qed.

(** The group exists, and has every tag asked for. *)
Definition tagged (s : St W) : Prop :=
  ∃ g, az_groups (world s) !! cluster_group = Some g ∧
       map_of (resourceTags (scope svc)) ⊆ map_of (rg_Tags g).

Lemma group_put_tagged g w s :
  map_of (resourceTags (scope svc)) ⊆ map_of (rg_Tags g) →
  group_put cluster_group g w (world s) → tagged s.
Proof.
  intros Hsub [_ (g' & Hg & Ht)]. exists g'. split; [by rewrite Hg, lookup_insert_eq|].
  unfold map_of in *. by rewrite Ht.
Qed.

Lemma runs_updateClusterResourceGroup g s :
  tags_set (resourceTags (scope svc)) → group_wf g →
  az_groups (world s) !! cluster_group = Some g →
  runs frame (updateClusterResourceGroup svc g) s (λ _ s', tagged s').
Proof.
  intros Hset [[gp Hgp] Hgt] Hg. unfold updateClusterResourceGroup.
  eapply runs_read; [by apply resourceGroupTagsEqual_run|].
  destruct (decide (map_of (rg_Tags g) = map_of (resourceTags (scope svc)))) as [Heq|Hne].
  - rewrite bool_decide_true by done. rret. exists g. split; [done|]. by rewrite Heq.
  - rewrite bool_decide_false by done. simpl. rewrite Hgp. rread.
    rbind; [apply runs_map_err, runs_group_put|].
    intros a s' _ Hput. rret. eapply group_put_tagged; [|exact Hput].
    rewrite mergeResourceTags_union. simpl. apply map_union_subseteq_l.
Qed.

Lemma ManagementCluster_total (sc : Scope W) : total (ManagementCluster sc).
Proof. unfold ManagementCluster, managementAzureCluster. total_tac. Qed.

Lemma runs_resource_group_location `{!KubeKeepsAzure} s :
  runs azure_quiet (resource_group_location svc) s (λ _ _, True).
Proof.
  unfold resource_group_location. destruct (bool_decide _); [|by rret].
  rbind (λ _ _, True).
  { apply runs_map_err. apply (runs_steps _ _ _ (λ _, True)); [apply ManagementCluster_total|
      apply ManagementCluster_quiet|apply ok_post_True]. }
  intros mc s1 _ _. rbind (λ _ _, True); [|intros; by rret].
  apply runs_map_err. eapply wp_mono; [apply spec_GetResourceGroup|].
  intros r s2 ([_ Hi] & Hv & Hr). split; [by split|by destruct r].
Qed.

Lemma runs_createClusterResourceGroup `{!KubeKeepsAzure} s :
  tags_set (resourceTags (scope svc)) →
  runs frame (createClusterResourceGroup svc) s (λ _ s', tagged s').
Proof.
  intros Hset. unfold createClusterResourceGroup.
  rbind (λ r s', match r with
    | inr g => az_groups (world s') !! cluster_group = Some g ∧ group_wf g
    | inl _ => True end).
  { apply runs_try. eapply wp_mono; [apply spec_GetResourceGroup|].
    intros r s' (Hq & Hv & Hr). destruct r as [g|e| |]; [..|done|done].
    - split; [by apply frame_quiet_same|]. rewrite (same_view_groups _ _ Hv).
      by apply Hr, in_view_group.
    - split; [by apply frame_quiet_same|done]. }
  intros [e|g] s' _ Hg.
  - destruct (negb _); [by rthrow|].
    rbind (λ _ _, True).
    { eapply runs_weaken; [intros ?; apply frame_azure_quiet|].
      apply runs_resource_group_location. }
    intros loc s1 _ _. apply runs_map_err.
    eapply runs_mono; [apply runs_group_put|]. intros a s2 _ Hput.
    by eapply group_put_tagged; [|exact Hput].
  - destruct Hg. by apply runs_updateClusterResourceGroup.
Qed.

(** ** The NS record of the base zone *)

(** No record set of a listing is named by the address of the cluster's name. *)
Lemma find_clusterNSRecord_run l s :
  Forall decoded l → ¬ decoded_addr (cluster_Name_addr (s_Cluster (svc_Scope svc))) →
  find_clusterNSRecord svc l s = (Ok false, s).
Proof.
  intros Hl Hfresh. unfold find_clusterNSRecord. revert s.
  induction Hl as [|rs l (a & n & Hn & Ha) Hl IH]; intros s; simpl; [done|].
  erewrite run_bind; [apply IH|]. unfold is_cluster_name_pointer. rewrite Hn. simpl.
  destruct (Z.eqb_spec a (cluster_Name_addr (s_Cluster (svc_Scope svc)))); [congruence|done].
Qed.

(** The NS record of the cluster for the given name servers. *)
Definition ns_record (nameservers : list (option string)) : RecordSetProperties :=
  mkProperties (Some zoneRecordTTL) [] None (map mkNsRecord nameservers) None.

Lemma runs_createClusterNSRecord nameservers zd s :
  az_zones (world s) !! cluster_zone = Some zd →
  runs frame (createClusterNSRecord svc (map mkNsRecord nameservers)) s (λ _ s',
    az_zones (world s') !! cluster_zone = Some zd ∧
    ∃ zb, az_zones (world s') !! base_zone = Some zb ∧
      zd_records zb !! (RecordTypeNS, ClusterName (svc_Patcher svc)) = Some (ns_record nameservers)).
Proof.
  intros Hzd. unfold createClusterNSRecord.
  rbind; [by apply runs_put_base, no_addresses_wf|].
  intros a s' _ Hput. rret. split.
  - rewrite (record_put_other _ _ _ _ _ _ _ Hput); [done|]. intros Heq. by apply base_zone_ne.
  - destruct Hput as [_ (zb & _ & Hz)]. eexists. split; [by rewrite Hz, lookup_insert_eq|].
    apply lookup_insert_eq.
Qed.

End service.
