(* ===== verification/PrivateFacts.v ===== *)
(** The reconciliation of a private zone: the contract its client is expected
    to meet, the record computations against the declarative tests, and what a
    run may change and has established at its end. *)
From S2P Require Import Prelude GoStd Errors Metrics Kube State Infra Azure Scope DnsClient.
From S2P Require Import PrivateClient DnsRecords DnsService PrivateDns AzureSpec TagFacts.
From S2P Require Import DnsRecordsFacts DnsServiceFacts.
Open Scope Z_scope.

(** * Records *)

Section records.
Context {W : Type} `{Microerror, Kubernetes W, Prometheus}.

(** One optional record. *)
Definition private_record (name ip : string) : list RecordSet :=
  if (0 <? String.length ip)%nat then [a_recordset name 300 [ip]] else [].

Definition private_desired (sc : PrivateDNSScope) : list RecordSet :=
  private_record PrivateDns.apiserverRecordName (PrivateLinkedAPIServerIP sc) ++
  private_record mcIngressRecordName (PrivateLinkedMcIngressIP sc).

Lemma getDesiredPrivateARecords_run (svc : PrivateDns.Service W) s :
  getDesiredPrivateARecords svc s = (Ok (private_desired (PrivateDns.scope svc)), s).
Proof.
  unfold getDesiredPrivateARecords, append_private_record, private_desired, private_record.
  destruct (0 <? String.length (PrivateLinkedAPIServerIP _))%nat,
    (0 <? String.length (PrivateLinkedMcIngressIP _))%nat; reflexivity.
Qed.

Lemma private_desired_A sc : Forall desired_A (private_desired sc).
Proof.
  unfold private_desired, private_record.
  apply Forall_app; split; destruct (_ <? _)%nat; repeat constructor; by eexists _, _.
Qed.

Lemma private_desired_names sc : NoDup (map record_name (private_desired sc)).
Proof.
  unfold private_desired, private_record.
  destruct (_ <? _)%nat, (_ <? _)%nat; apply (bool_decide_unpack _); by vm_compute.
Qed.

Lemma private_compare_run (svc : PrivateDns.Service W) cur acc d s :
  desired_A d → Forall readable cur →
  returns_counting (PrivateDns.compare_ARecord svc cur acc d)
    (if outdated_A cur d then acc ++ [d] else acc) s.
Proof.
  intros (n & ip & ->) Hcur. unfold PrivateDns.compare_ARecord.
  destruct (first_index_cases n cur) as [[Hf Hi]|(i & c & Hf & Hc & Hi)].
  - exists (metrics s). bind_step ltac:(apply name_of_a). bind_step ltac:(by apply search_run).
    rewrite Hi. unfold outdated_A. simpl. rewrite Hf. by destruct s.
  - assert (readable c) as Hread.
    { rewrite Forall_forall in Hcur. apply Hcur. by eapply list_elem_of_lookup_2. }
    destruct (export_ARecords_run (PrivateClusterDomain (PrivateDns.scope svc)) ZoneTypePrivate
                c s Hread) as [mt Hmt].
    exists mt. bind_step ltac:(apply name_of_a). bind_step ltac:(by apply search_run). rewrite Hi.
    destruct (Z.eqb_spec (Z.of_nat i) (-1)); [lia|].
    destruct Hread as [_ (p & Hp & _)].
    bind_step ltac:(done). bind_step ltac:(by apply at_index_nat).
    bind_step ltac:(by rewrite Hp). bind_step ltac:(exact Hmt).
    unfold outdated_A. simpl. rewrite Hf, Hp. simpl.
    rewrite !bool_decide_Some. by destruct (bool_decide _), (bool_decide _).
Qed.

Lemma private_compare_loop (svc : PrivateDns.Service W) cur ds acc s :
  Forall desired_A ds → Forall readable cur →
  returns_counting (foldlM (PrivateDns.compare_ARecord svc cur) acc ds)
    (acc ++ filter (λ d, outdated_A cur d) ds) s.
Proof.
  revert acc s. induction ds as [|d ds IH]; intros acc s Hds Hcur; cbn [foldlM].
  - rewrite app_nil_r. apply returns_counting_ret.
  - apply Forall_cons in Hds as [Hd Hds].
    eapply returns_counting_bind; [by apply private_compare_run|]. intros s'.
    rewrite filter_cons. destruct (outdated_A cur d); simpl; [|by apply IH].
    specialize (IH (acc ++ [d]) s' Hds Hcur). by rewrite <- app_assoc in IH.
Qed.

Lemma private_calculateMissingARecords_run (svc : PrivateDns.Service W) cur s :
  Forall readable cur →
  returns_counting (PrivateDns.calculateMissingARecords svc cur)
    (filter (λ d, outdated_A cur d) (private_desired (PrivateDns.scope svc))) s.
Proof.
  intros Hcur. destruct (private_compare_loop svc cur (private_desired (PrivateDns.scope svc)) []
    s (private_desired_A _) Hcur) as [mt Hmt].
  exists mt. unfold PrivateDns.calculateMissingARecords.
  erewrite run_bind by apply getDesiredPrivateARecords_run. exact Hmt.
Qed.

Lemma private_calculateMissingCnameRecords_run (svc : PrivateDns.Service W) cur s :
  Forall readable cur →
  PrivateDns.calculateMissingCnameRecords svc cur s
  = (Ok (filter (λ d, outdated_CNAME cur d)
           (PrivateDns.desiredCnameRecords (PrivateWildcardFQDN (PrivateDns.scope svc)))), s).
Proof.
  intros Hcur. unfold PrivateDns.calculateMissingCnameRecords, PrivateDns.desiredCnameRecords.
  cbn [foldlM].
  erewrite run_bind.
  2: { exact (compare_CnameRecord_run [] cur (PrivateWildcardFQDN (PrivateDns.scope svc)) s
                Hcur _ (proj2 (list_elem_of_singleton _ _) eq_refl)). }
  rewrite filter_cons. by destruct (outdated_CNAME _ _).
Qed.
End records.

(** * The contract of the client *)

(** A link of a listing has a name, an ID and a network with an ID. *)
Definition link_wf (l : VirtualNetworkLink) : Prop :=
  is_Some (link_Name l) ∧ is_Some (link_ID l) ∧
  ∃ p id, link_Properties l = Some p ∧ VirtualNetwork p = Some (Some id).

Section changes.
Context {W : Type} `{AzureView W}.

Definition links_of (k : zone_key) (w : W) : list VirtualNetworkLink :=
  default [] (az_links w !! k).

(** All but the private zones is as before. *)
Definition only_private (w w' : W) : Prop := same_public w w' ∧ az_links w' = az_links w.

Definition private_created (k : zone_key) (w w' : W) : Prop :=
  only_private w w' ∧ ∃ zd', az_private w' = <[k := zd']> (az_private w) ∧
  match az_private w !! k with Some zd => zd' = zd | None => True end.

Definition private_put (k : zone_key) (t : RecordType) (n : string) (p : RecordSetProperties)
    (w w' : W) : Prop :=
  only_private w w' ∧
  ∃ zd, az_private w !! k = Some zd ∧ az_private w' = <[k := put_record t n p zd]> (az_private w).

Definition private_deleted (k : zone_key) (w w' : W) : Prop :=
  only_private w w' ∧ az_private w' = delete k (az_private w).

Definition other_links (k : zone_key) (w w' : W) : Prop :=
  same_public w w' ∧ az_private w' = az_private w ∧
  ∀ k', k' ≠ k → az_links w' !! k' = az_links w !! k'.

Definition link_deleted (k : zone_key) (n : string) (w w' : W) : Prop :=
  other_links k w w' ∧ links_of k w' = filter (λ l, link_Name l ≠ Some n) (links_of k w).

(** The link exists afterwards, and leads to the network; those of other names
    are as before. *)
Definition link_created (k : zone_key) (n vnet : string) (w w' : W) : Prop :=
  other_links k w w' ∧
  filter (λ l, link_Name l ≠ Some n) (links_of k w')
    = filter (λ l, link_Name l ≠ Some n) (links_of k w) ∧
  ∃ l p, l ∈ links_of k w' ∧ link_Name l = Some n ∧
    link_Properties l = Some p ∧ VirtualNetwork p = Some (Some vnet).
End changes.

(** A listing of the A records of a zone. *)
Definition listing_A (zd : ZoneData) (l : list RecordSet) : Prop :=
  zone_wf zd ∧ ∃ kps, kps ≡ₚ filter (λ kp, kp.1.1 = RecordTypeA) (map_to_list (zd_records zd)) ∧
  Forall2 (λ rs kp, ∃ a st, rs_Name rs = Some (mkptr a kp.1.2) ∧
    rs_Properties rs = Some (mkProperties (TTL kp.2) (ARecords kp.2) (rsp_CnameRecord kp.2)
                               (NsRecords kp.2) st)) l kps.

(** A listing of all its record sets. *)
Definition listing_records (zd : ZoneData) (l : list RecordSet) : Prop :=
  zone_wf zd ∧ ∃ kps, kps ≡ₚ map_to_list (zd_records zd) ∧
  Forall2 (λ rs kp, ∃ a st, rs_Name rs = Some (mkptr a kp.1.2) ∧
    rs_Properties rs = Some (mkProperties (TTL kp.2) (ARecords kp.2) (rsp_CnameRecord kp.2)
                               (NsRecords kp.2) st)) l kps.

Lemma listing_A_reflects zd l : listing_A zd l → reflects zd l.
Proof.
  intros [Hwf (kps & Hperm & Hl)]. eapply (shown_reflects zd l kps); [done| |].
  - intros kp Hkp. rewrite Hperm in Hkp. apply list_elem_of_filter in Hkp as [_ Hkp].
    destruct kp. by apply elem_of_map_to_list.
  - eapply Forall2_impl; [exact Hl|]. done.
Qed.

Class PrivateClientSpec {W} `{Microerror, Kubernetes W, Prometheus, AzureView W}
    (c : PrivateClient W) (sub : string) : Prop := {
  spec_ListPrivateRecordSets rg z s :
    wp (pc_ListPrivateRecordSets c rg z) (λ r s', quiet s s' ∧
      same_view (world s) (world s') ∧
      match r with
      | Ok l => ∃ zd, az_private (world s) !! (sub, rg, z) = Some zd ∧ listing_A zd l
      | Err _ => True
      | _ => False
      end) s;
  spec_CreateOrUpdatePrivateZone rg z zn s :
    wp (pc_CreateOrUpdatePrivateZone c rg z zn) (λ r s', quiet s s' ∧
      match r with
      | Ok _ => private_created (sub, rg, z) (world s) (world s')
      | Err _ => maybe (private_created (sub, rg, z)) (world s) (world s')
      | _ => False
      end) s;
  spec_GetPrivateZone rg z s :
    wp (pc_GetPrivateZone c rg z) (λ r s', quiet s s' ∧ same_view (world s) (world s') ∧
      match r with
      | Ok zn => ∃ zd zp, az_private (world s) !! (sub, rg, z) = Some zd ∧
          zone_Properties zn = Some zp ∧
          NumberOfRecordSets zp = Some (Z.of_nat (size (zd_records zd)))
      | Err _ => True
      | _ => False
      end) s;
  spec_DeletePrivateZone rg z s :
    wp (pc_DeletePrivateZone c rg z) (λ r s', quiet s s' ∧
      match r with
      | Ok _ => private_deleted (sub, rg, z) (world s) (world s')
      | Err _ => maybe (private_deleted (sub, rg, z)) (world s) (world s')
      | _ => False
      end) s;
  spec_ListVirtualNetworkLink rg z s :
    wp (pc_ListVirtualNetworkLink c rg z) (λ r s', quiet s s' ∧
      same_view (world s) (world s') ∧
      match r with
      | Ok l => l = links_of (sub, rg, z) (world s) ∧ Forall link_wf l
      | Err _ => True
      | _ => False
      end) s;
  spec_CreateOrUpdateVirtualNetworkLink rg z cl vnet n s :
    wp (pc_CreateOrUpdateVirtualNetworkLink c rg z cl vnet n) (λ r s', quiet s s' ∧
      match r with
      | Ok _ => link_created (sub, rg, z) n vnet (world s) (world s')
      | Err _ => maybe (link_created (sub, rg, z) n vnet) (world s) (world s')
      | _ => False
      end) s;
  spec_DeleteVirtualNetworkLink rg z n s :
    wp (pc_DeleteVirtualNetworkLink c rg z n) (λ r s', quiet s s' ∧
      match r with
      | Ok _ => link_deleted (sub, rg, z) n (world s) (world s')
      | Err _ => maybe (link_deleted (sub, rg, z) n) (world s) (world s')
      | _ => False
      end) s;
  spec_private_ListRecordSets rg z s :
    wp (pc_ListRecordSets c rg z) (λ r s', quiet s s' ∧
      same_view (world s) (world s') ∧
      match r with
      | Ok l => ∃ zd, az_private (world s) !! (sub, rg, z) = Some zd ∧ listing_records zd l
      | Err _ => True
      | _ => False
      end) s;
  spec_private_CreateOrUpdateRecordSet rg z t n rs p s :
    rs_Properties rs = Some p →
    wp (pc_CreateOrUpdateRecordSet c rg z t n rs) (λ r s', quiet s s' ∧
      match r with
      | Ok _ => private_put (sub, rg, z) t n p (world s) (world s')
      | Err _ => maybe (private_put (sub, rg, z) t n p) (world s) (world s')
      | _ => False
      end) s;
}.

(** * A run *)

Section service.
Context {W : Type} `{Microerror, Kubernetes W, Prometheus, AzureView W}.
Context (svc : PrivateDns.Service W) (sub : string).

Definition private_zone : zone_key :=
  (sub, ManagementClusterResourceGroup (PrivateDns.scope svc),
   PrivateClusterDomain (PrivateDns.scope svc)).

(** What a run may change: the links of the private zone, and in the zone,
    which may be new, A records and the wildcard record. *)
Record private_frame (s s' : St W) : Prop := {
  pf_infra : infraCluster s' = infraCluster s;
  pf_public : same_public (world s) (world s');
  pf_links k : k ≠ private_zone → az_links (world s') !! k = az_links (world s) !! k;
  pf_zones k : k ≠ private_zone → az_private (world s') !! k = az_private (world s) !! k;
  pf_zone zd : az_private (world s) !! private_zone = Some zd →
    ∃ zd', az_private (world s') !! private_zone = Some zd' ∧
      ∀ t n, t ≠ RecordTypeA → (t, n) ≠ (RecordTypeCNAME, "*") →
        zd_records zd' !! (t, n) = zd_records zd !! (t, n);
}.

#[global] Instance private_frame_preorder : PreOrder private_frame.
Proof.
  split.
  - intros s. split; [done..|]. intros zd Hzd. by exists zd.
  - intros s1 s2 s3 [I1 P1 L1 Z1 R1] [I2 P2 L2 Z2 R2]. split; [congruence|by etransitivity| | |].
    + intros k Hk. by rewrite L2, L1.
    + intros k Hk. by rewrite Z2, Z1.
    + intros zd Hzd. destruct (R1 zd Hzd) as (zd2 & Hzd2 & Hr2).
      destruct (R2 zd2 Hzd2) as (zd3 & Hzd3 & Hr3). exists zd3. split; [done|].
      intros t n Ht Hn. by rewrite Hr3, Hr2.
Qed.

Lemma frame_same_view s s' : infraCluster s' = infraCluster s →
  same_view (world s) (world s') → private_frame s s'.
Proof.
  intros Hi [Hp [Hz Hl]]. split; [done|done|by rewrite Hl|by rewrite Hz|].
  intros zd Hzd. exists zd. by rewrite Hz.
Qed.

Lemma frame_private_created s s' : infraCluster s' = infraCluster s →
  private_created private_zone (world s) (world s') → private_frame s s'.
Proof.
  intros Hi ([Hp Hl] & zd' & Hz & Hold). split; [done|done|by rewrite Hl| |].
  - intros k Hk. rewrite Hz. by rewrite lookup_insert_ne.
  - intros zd Hzd. rewrite Hzd in Hold. subst zd'. exists zd. by rewrite Hz, lookup_insert_eq.
Qed.

Lemma frame_private_put t n p s s' : infraCluster s' = infraCluster s →
  t = RecordTypeA ∨ (t, n) = (RecordTypeCNAME, "*") →
  private_put private_zone t n p (world s) (world s') → private_frame s s'.
Proof.
  intros Hi Hmay ([Hp Hl] & zd & Hk & Hz). split; [done|done|by rewrite Hl| |].
  - intros k Hne. rewrite Hz. by rewrite lookup_insert_ne.
  - intros zd0 Hzd0. rewrite Hk in Hzd0. injection Hzd0 as <-.
    eexists. split; [by rewrite Hz, lookup_insert_eq|]. intros t' n' Ht' Hn'. simpl.
    apply lookup_insert_ne. intros [= <- <-]. by destruct Hmay.
Qed.

Lemma frame_private_links s s' : infraCluster s' = infraCluster s →
  other_links private_zone (world s) (world s') → private_frame s s'.
Proof.
  intros Hi (Hp & Hz & Hl). split; [done|done|done|by rewrite Hz|].
  intros zd Hzd. exists zd. by rewrite Hz.
Qed.

(** A request with its two outcomes. *)
Lemma runs_maybe {A} (R : W → W → Prop) (m : G W A) s :
  (∀ s', infraCluster s' = infraCluster s → R (world s) (world s') → private_frame s s') →
  wp m (λ r s', quiet s s' ∧
    match r with
    | Ok _ => R (world s) (world s')
    | Err _ => maybe R (world s) (world s')
    | _ => False
    end) s →
  runs private_frame m s (λ _ s', R (world s) (world s')).
Proof.
  intros Hframe Hm. eapply wp_mono; [exact Hm|].
  intros r s' [[_ Hi] Hr]. destruct r as [a|e| |]; [..|done|done].
  - split; [by apply Hframe|done].
  - split; [|done]. destruct Hr; [by apply frame_same_view|by apply Hframe].
Qed.

(** A read. *)
Lemma runs_reading {A} (P : A → Prop) (m : G W A) s :
  wp m (λ r s', quiet s s' ∧ same_view (world s) (world s') ∧
    match r with Ok a => P a | Err _ => True | _ => False end) s →
  runs private_frame m s (λ a s', P a ∧ same_view (world s) (world s')).
Proof.
  intros Hm. eapply wp_mono; [exact Hm|]. intros r s' ([_ Hi] & Hv & Hr).
  split; [by apply frame_same_view|]. by destruct r.
Qed.

Context `{!PrivateClientSpec (privateDNSClient svc) sub}.

(** The links of the zone. *)
Definition links (s : St W) : list VirtualNetworkLink := links_of private_zone (world s).

Lemma runs_private_zone s :
  runs private_frame (PrivateDns.list_or_create_zone svc) s (λ l s', ∃ zd,
    az_private (world s') !! private_zone = Some zd ∧ reflects zd l ∧ links s' = links s).
Proof.
  unfold PrivateDns.list_or_create_zone.
  rbind (λ r s', match r with
    | inr l => ∃ zd, az_private (world s') !! private_zone = Some zd ∧ reflects zd l ∧
        links s' = links s
    | inl e => links s' = links s end).
  { apply runs_try. eapply wp_mono; [apply (spec_ListPrivateRecordSets (sub := sub))|].
    intros r s' ([_ Hi] & Hv & Hr). destruct r as [l|e| |]; [..|done|done].
    - split; [by apply frame_same_view|]. destruct Hr as (zd & Hk & Hl). exists zd.
      destruct Hv as [_ [-> Hli]]. split; [done|split; [by apply listing_A_reflects|]].
      unfold links, links_of. by rewrite Hli.
    - split; [by apply frame_same_view|]. unfold links, links_of. by destruct Hv as [_ [_ ->]]. }
  intros [e|l] s' _ HP; [|by rret].
  destruct (negb _); [by rthrow|].
  rbind; [apply runs_map_err; eapply (runs_maybe (private_created private_zone));
          [intros; by apply frame_private_created|apply spec_CreateOrUpdatePrivateZone]|].
  intros [] s1 _ ([_ Hli] & zd & Hz & _). rret. exists zd.
  split; [by rewrite Hz, lookup_insert_eq|split; [apply reflects_nil|]].
  rewrite <- HP. unfold links, links_of. by rewrite Hli.
Qed.

(** The zone of a state. *)
Definition private_zone_is (zd : ZoneData) (s : St W) : Prop :=
  az_private (world s) !! private_zone = Some zd.

(** The link the operator looks for. *)
Definition is_operator_link (l : VirtualNetworkLink) : Prop :=
  link_Name l = Some (virtualNetworkLinkName
                        (ManagementClusterResourceGroup (PrivateDns.scope svc))) ∨
  link_ID l = Some (ManagementClusterClientID (PrivateDns.scope svc)).

Definition operator_link_test (l : VirtualNetworkLink) : bool :=
  bool_decide (link_Name l = Some (virtualNetworkLinkName
                 (ManagementClusterResourceGroup (PrivateDns.scope svc)))) ||
  bool_decide (link_ID l = Some (ManagementClusterClientID (PrivateDns.scope svc))).

Lemma operator_link_run l (s : St W) : link_wf l →
  operator_link svc l s = (Ok (operator_link_test l), s).
Proof.
  intros ([n Hn] & [i Hi] & _). unfold operator_link, operator_link_test. rewrite Hn, Hi.
  erewrite run_bind by done. rewrite !bool_decide_Some.
  destruct (bool_decide (n = _)); [done|]. by erewrite run_bind by done.
Qed.

Definition vnet_test (l : VirtualNetworkLink) : bool :=
  bool_decide ((link_Properties l ≫= VirtualNetwork)
               = Some (Some (ManagementClusterVnetID (PrivateDns.scope svc)))).

Lemma link_to_vnet_run l (s : St W) : link_wf l →
  link_to_vnet svc l s = (Ok (vnet_test l), s).
Proof.
  intros (_ & _ & p & i & Hp & Hi). unfold link_to_vnet, vnet_test. rewrite Hp.
  erewrite run_bind by done. rewrite Hi. do 2 (erewrite run_bind by done). simpl. rewrite Hi.
  by rewrite !bool_decide_Some.
Qed.

Lemma first_index_found {A} (p : A → bool) l :
  first_index p l ≠ -1 → ∃ i x, first_index p l = Z.of_nat i ∧ l !! i = Some x ∧ p x = true.
Proof.
  unfold first_index. destruct (list_find p l) as [[i x]|] eqn:Hf; [|done]. intros _.
  apply list_find_Some in Hf as (Hi & Hx & _). exists i, x. by apply Is_true_true in Hx.
Qed.

(** A link that leads to the network. *)
Definition leads_to_network (l : VirtualNetworkLink) : Prop :=
  (link_Properties l ≫= VirtualNetwork)
  = Some (Some (ManagementClusterVnetID (PrivateDns.scope svc))).

#[global] Instance leads_to_network_dec l : Decision (leads_to_network l).
Proof. unfold leads_to_network. apply _. Defined.

Lemma vnet_test_spec l : vnet_test l = true ↔ leads_to_network l.
Proof. apply bool_decide_eq_true. Qed.

Lemma operator_link_test_spec l : operator_link_test l = true ↔ is_operator_link l.
Proof.
  unfold operator_link_test, is_operator_link. by rewrite orb_true_iff, !bool_decide_eq_true.
Qed.

(** The links without the one that occupies the network under another name. *)
Definition make_room (ls : list VirtualNetworkLink) : list VirtualNetworkLink :=
  match list_find leads_to_network ls with
  | Some (_, old) => filter (λ l, link_Name l ≠ link_Name old) ls
  | None => ls
  end.

(** The links [ls'] after a run that found [ls]: the operator's link stays when
    it is there; otherwise a link of the operator's name leads to the network,
    and the others are those there were, less the one in its place. *)
Record network_linked (ls ls' : list VirtualNetworkLink) : Prop := {
  nl_found : Exists is_operator_link ls → ls' = ls;
  nl_created : ¬ Exists is_operator_link ls →
    (∃ l, l ∈ ls' ∧ leads_to_network l ∧
       link_Name l = Some (virtualNetworkLinkName
                             (ManagementClusterResourceGroup (PrivateDns.scope svc)))) ∧
    filter (λ l, link_Name l ≠ Some (virtualNetworkLinkName
                   (ManagementClusterResourceGroup (PrivateDns.scope svc)))) ls'
      = make_room ls;
}.

(** The link is there, and nothing of the zones has changed. *)
Definition linked (s s' : St W) : Prop :=
  az_private (world s') = az_private (world s) ∧ network_linked (links s) (links s').

Lemma runs_link_delete n s :
  runs private_frame (pc_DeleteVirtualNetworkLink (privateDNSClient svc)
      (ManagementClusterResourceGroup (PrivateDns.scope svc))
      (PrivateClusterDomain (PrivateDns.scope svc)) n) s
    (λ _ s', link_deleted private_zone n (world s) (world s')).
Proof.
  apply runs_maybe; [|apply spec_DeleteVirtualNetworkLink].
  intros s' Hi [Ho _]. by apply frame_private_links.
Qed.

Lemma runs_link_create s :
  runs private_frame (pc_CreateOrUpdateVirtualNetworkLink (privateDNSClient svc)
      (ManagementClusterResourceGroup (PrivateDns.scope svc))
      (PrivateClusterDomain (PrivateDns.scope svc)) (ps_clusterName (PrivateDns.scope svc))
      (ManagementClusterVnetID (PrivateDns.scope svc))
      (virtualNetworkLinkName (ManagementClusterResourceGroup (PrivateDns.scope svc)))) s
    (λ _ s', link_created private_zone
       (virtualNetworkLinkName (ManagementClusterResourceGroup (PrivateDns.scope svc)))
       (ManagementClusterVnetID (PrivateDns.scope svc)) (world s) (world s')).
Proof.
  apply runs_maybe; [|apply spec_CreateOrUpdateVirtualNetworkLink].
  intros s' Hi [Ho _]. by apply frame_private_links.
Qed.

(** The link in the place of the operator's is deleted. *)
Lemma runs_make_room ls s :
  links s = ls → Forall link_wf ls →
  runs private_frame
    (if 0 <=? first_index vnet_test ls then
       existing ← at_index ls (first_index vnet_test ls);
       name ← deref (link_Name existing);
       map_err Mask (pc_DeleteVirtualNetworkLink (privateDNSClient svc)
         (ManagementClusterResourceGroup (PrivateDns.scope svc))
         (PrivateClusterDomain (PrivateDns.scope svc)) name)
     else mret tt) s
    (λ _ s', az_private (world s') = az_private (world s) ∧ links s' = make_room ls).
Proof.
  intros Hls Hwf. rewrite Forall_forall in Hwf.
  unfold make_room. rewrite (first_index_of leads_to_network) by apply vnet_test_spec.
  destruct (list_find leads_to_network ls) as [[i old]|] eqn:Hf.
  - rewrite (proj2 (Z.leb_le 0 (Z.of_nat i))) by lia.
    apply list_find_Some in Hf as (Hi & _).
    eapply runs_read; [by apply at_index_nat|].
    destruct (Hwf old) as ([n Hn] & _); [by eapply list_elem_of_lookup_2|].
    rewrite Hn. rread. eapply runs_mono; [apply runs_map_err, runs_link_delete|].
    intros [] s2 _ [(_ & Hz2 & _) Hl2]. split; [done|]. unfold links. rewrite Hl2.
    by fold (links s); rewrite Hls.
  - by rret.
Qed.

(** Without the operator's link the others are no link of its name. *)
Lemma make_room_others ls : ¬ Exists is_operator_link ls →
  filter (λ l, link_Name l ≠ Some (virtualNetworkLinkName
    (ManagementClusterResourceGroup (PrivateDns.scope svc)))) (make_room ls) = make_room ls.
Proof.
  intros Hno. rewrite Exists_exists in Hno. apply filter_keeps. intros l Hl Hn. apply Hno.
  exists l. split; [|by left]. revert Hl. unfold make_room.
  destruct (list_find _ _) as [[i old]|]; [|done]. by intros [_ Hin]%list_elem_of_filter.
Qed.

Lemma runs_ensure_link s : runs private_frame (ensure_link svc) s (λ _ s', linked s s').
Proof.
  unfold ensure_link.
  rbind; [apply runs_map_err, runs_reading, spec_ListVirtualNetworkLink|].
  intros ls s1 _ [[Hls Hwf] [_ [Hz1 Hl1]]].
  assert (links s1 = links s) as Hsame by (unfold links, links_of; by rewrite Hl1).
  change (ls = links s) in Hls. subst ls. pose proof Hwf as Hall. rewrite Forall_forall in Hall.
  eapply runs_read; [apply (IndexFunc_run _ _ operator_link_test); intros x Hx; apply operator_link_run; by apply Hall|].
  destruct (Z.eqb_spec (first_index operator_link_test (links s)) (-1)) as [Hno|Hfound].
  - assert (¬ Exists is_operator_link (links s)) as Hnone.
    { intros (l & Hl & Hop)%Exists_exists. apply operator_link_test_spec in Hop.
      unfold first_index in Hno. destruct (list_find _ _) as [[]|] eqn:Hf; [lia|].
      apply list_find_None in Hf. rewrite Forall_forall in Hf. apply (Hf l Hl). by rewrite Hop. }
    eapply runs_read; [apply (IndexFunc_run _ _ vnet_test); intros x Hx; apply link_to_vnet_run; by apply Hall|].
    rbind; [by apply (runs_make_room (links s))|].
    intros [] s2 _ [Hz2 Hl2]. eapply runs_mono; [apply runs_map_err, runs_link_create|].
    intros [] s3 _ ((_ & Hz3 & _) & Hothers & l & p & Hl & Hn & Hp & Hv). split; [congruence|].
    split; [done|]. intros _. split.
    + exists l. split_and!; [done| |done]. unfold leads_to_network. by rewrite Hp.
    + fold (links s2) in Hothers. fold (links s3) in Hothers. rewrite Hothers, Hl2.
      by apply make_room_others.
  - rret. split; [congruence|].
    destruct (first_index_found _ _ Hfound) as (i & l & _ & Hi & Htest).
    split; [by rewrite Hsame|]. intros Hno. exfalso. apply Hno, Exists_exists. exists l.
    split; [by eapply list_elem_of_lookup_2|by apply operator_link_test_spec].
Qed.

(** The read of the zone's size, when it does not fail. *)
Lemma runs_export_zone_size s :
  is_Ok (pc_GetPrivateZone (privateDNSClient svc)
           (ManagementClusterResourceGroup (PrivateDns.scope svc))
           (PrivateClusterDomain (PrivateDns.scope svc)) s).1 = true →
  runs private_frame (export_zone_size svc) s (λ _ s', same_view (world s) (world s')).
Proof.
  intros Hok. unfold export_zone_size.
  rbind (λ r s', same_view (world s) (world s') ∧ ∃ z zp n, r = inr z ∧
           zone_Properties z = Some zp ∧ NumberOfRecordSets zp = Some n).
  { apply runs_try.
    pose proof (spec_GetPrivateZone (c := privateDNSClient svc) (sub := sub)
      (ManagementClusterResourceGroup (PrivateDns.scope svc))
      (PrivateClusterDomain (PrivateDns.scope svc)) s) as Hget.
    unfold wp in *. destruct (pc_GetPrivateZone _ _ _ s) as [[z|e| |] s']; [|done..]. simpl in *.
    destruct Hget as ([_ Hi] & Hv & zd & zp & _ & Hzp & Hn).
    split; [by apply frame_same_view|]. split; [done|]. by eexists z, zp, _. }
  intros r s' _ (Hv & z & zp & n & -> & Hzp & Hn). rewrite Hzp. rread. rewrite Hn. rread.
  apply runs_modify; [|done]. by apply frame_same_view.
Qed.

Lemma runs_private_put t n rs p zd s :
  rs_Properties rs = Some p → t = RecordTypeA ∨ (t, n) = (RecordTypeCNAME, "*") →
  private_zone_is zd s →
  runs private_frame (pc_CreateOrUpdateRecordSet (privateDNSClient svc)
      (ManagementClusterResourceGroup (PrivateDns.scope svc))
      (PrivateClusterDomain (PrivateDns.scope svc)) t n rs) s
    (λ _ s', private_zone_is (put_record t n p zd) s' ∧ links s' = links s).
Proof.
  intros Hp Hmay Hzd. eapply runs_mono.
  - apply (runs_maybe (private_put private_zone t n p));
      [|by apply spec_private_CreateOrUpdateRecordSet].
    intros s' Hi Hput. by eapply frame_private_put.
  - intros a s' _ ([_ Hl] & zd0 & Hk & Hz). unfold private_zone_is in *.
    rewrite Hzd in Hk. injection Hk as <-. split; [by rewrite Hz, lookup_insert_eq|].
    unfold links, links_of. by rewrite Hl.
Qed.

Lemma runs_private_write_A zd (ds : list RecordSet) s :
  Forall desired_A ds → private_zone_is zd s →
  runs private_frame (foreach ds (λ aRecord,
    name ← name_of aRecord;
    deref (rs_Properties aRecord);;
    map_err Mask (pc_CreateOrUpdateRecordSet (privateDNSClient svc)
      (ManagementClusterResourceGroup (PrivateDns.scope svc))
      (PrivateClusterDomain (PrivateDns.scope svc)) RecordTypeA name aRecord);;
    mret tt)) s (λ _ s', private_zone_is (fold_left put_A ds zd) s' ∧ links s' = links s).
Proof.
  intros Hds Hz. revert zd s Hds Hz. induction ds as [|d ds IH]; intros zd s Hds Hz;
    simpl; [by rret|].
  apply Forall_cons in Hds as [(n & ip & ->) Hds].
  rbind (λ _ s', private_zone_is (put_A zd (a_recordset n 300 [ip])) s' ∧ links s' = links s).
  - do 2 rread. rbind (λ _ s', _); [|intros a s' _ HP; rret; exact HP].
    apply runs_map_err. by eapply runs_private_put; [|left|].
  - intros [] s' _ [Hz' Hl']. eapply runs_mono; [by apply IH|].
    intros [] s2 _ [Hz2 Hl2]. split; [done|congruence].
Qed.

Lemma runs_private_updateARecords zd l s :
  private_zone_is zd s → reflects zd l →
  runs private_frame (PrivateDns.updateARecords svc l) s (λ _ s',
    private_zone_is (fold_left put_A
      (filter (λ d, outdated_A l d) (private_desired (PrivateDns.scope svc))) zd) s' ∧
    links s' = links s).
Proof.
  intros Hz [Hread _]. unfold PrivateDns.updateARecords.
  rbind (λ todo s', todo = filter (λ d, outdated_A l d)
                             (private_desired (PrivateDns.scope svc)) ∧
                    private_zone_is zd s' ∧ links s' = links s).
  { destruct (private_calculateMissingARecords_run svc l s Hread) as [mt Hmt].
    unfold runs, wp. rewrite Hmt. split; [by apply frame_same_view|done]. }
  intros todo s' _ (-> & Hz' & Hl'). destruct (filter _ _) as [|d todo] eqn:Hf; [by rret|].
  cbn [length Nat.eqb]. rewrite <- Hl'. apply runs_private_write_A; [|done].
  rewrite <- Hf. pose proof (private_desired_A (PrivateDns.scope svc)) as Hds.
  apply Forall_forall. intros x [_ Hin]%list_elem_of_filter.
  rewrite Forall_forall in Hds. by apply Hds.
Qed.

Lemma runs_private_updateCnameRecords zd l s :
  private_zone_is zd s → Forall readable l →
  runs private_frame (PrivateDns.updateCnameRecords svc l) s (λ _ s',
    private_zone_is
      (if existsb (outdated_CNAME l) (PrivateDns.desiredCnameRecords
            (PrivateWildcardFQDN (PrivateDns.scope svc)))
       then put_record RecordTypeCNAME "*"
              (mkProperties (Some cnameRecordTTL) []
                 (Some (mkCnameRecord (Some (PrivateWildcardFQDN (PrivateDns.scope svc))))) []
                 None) zd
       else zd) s' ∧ links s' = links s).
Proof.
  intros Hz Hl. unfold PrivateDns.updateCnameRecords.
  eapply runs_read; [by apply private_calculateMissingCnameRecords_run|].
  unfold PrivateDns.desiredCnameRecords. rewrite filter_cons. simpl existsb. rewrite orb_false_r.
  destruct (outdated_CNAME l _) eqn:Ho; [|by rret].
  cbn [filter length Nat.eqb foreach].
  rbind (λ _ s', _); [|intros a s' _ HP; rret; exact HP].
  do 2 rread. rbind (λ _ s', _); [|intros a s' _ HP; rret; exact HP].
  by eapply runs_private_put; [|right|].
Qed.
End service.
