(* ===== verification/PrivateClientFacts.v ===== *)
(** The client of the private DNS service implements its interface: from what
    the SDK documents of its private DNS calls - a request begins an operation,
    polling to the end completes it, pages add up to a listing - each method of
    [privateClient] meets its part of the contract [PrivateClientSpec]. *)
From S2P Require Import Prelude GoStd Errors Metrics Kube State Infra Azure Scope DnsClient.
From S2P Require Import PrivateClient AzureSpec DnsClientFacts PrivateFacts.
Open Scope Z_scope.

(** * Listings *)

(** [lists same P n acc p w]: asked for one page after the other from [w] on,
    the pager [p] ends within [n] pages; they change nothing but [same], and
    when none of them fails, [acc] followed by their items satisfies [P]. *)
Fixpoint lists {W} `{AzureSDK W} {T} (same : relation W) (P : list T → W → Prop)
    (n : nat) (acc : list T) (p : Pager T) (w : W) : Prop :=
  if pager_More p then
    match n with
    | O => False
    | S n =>
        let '(r, p', w') := pager_NextPage p w in
        same w w' ∧ match r with
                    | inr page => lists same P n (acc ++ page) p' w'
                    | inl _ => True
                    end
    end
  else P acc w.

(** * Long-running operations *)

(** The four operations of the private DNS API that answer with a poller. *)
Inductive private_op :=
| CreateZone (k : zone_key)
| DeleteZone (k : zone_key)
| CreateLink (k : zone_key) (n vnet : string)
| DeleteLink (k : zone_key) (n : string).

(** What an operation has done once it is complete. *)
Definition private_effect `{AzureView W} (op : private_op) : relation W :=
  match op with
  | CreateZone k => private_created k
  | DeleteZone k => private_deleted k
  | CreateLink k n vnet => link_created k n vnet
  | DeleteLink k n => link_deleted k n
  end.

(** The SDK's private DNS clients, as documented.  [pending p op w0 w]: [p] is
    the poller of [op], which was begun in [w0], and the world is now [w]. *)
Class PrivateSDKSpec (W : Type) `{Microerror, AzureSDK W, AzureView W} := {
  (** the subscription a client was made for *)
  privateZones_sub : PrivateZonesClient → string;
  privateRecordSets_sub : PrivateRecordSetsClient → string;
  links_sub : VirtualNetworkLinksClient → string;
  pending : Poller → private_op → W → W → Prop;
  (** the most pages of a listing *)
  private_page_bound : nat;
  private_begins (op : private_op) (r : GoError + Poller) (w w' : W) : Prop :=
    match r with
    | inr p => pending p op w w'
    | inl _ => maybe (private_effect op) w w'
    end;
  sdk_private_poll p op w0 w :
    pending p op w0 w →
    let '(r, w') := PollUntilDone p w in
    match r with
    | inr _ => private_effect op w0 w'
    | inl _ => maybe (private_effect op) w0 w'
    end;
  sdk_private_CreateZone c rg z zn w :
    let '(r, w') := privateZones_BeginCreateOrUpdate c rg z zn w in
    private_begins (CreateZone (privateZones_sub c, rg, z)) r w w';
  sdk_private_DeleteZone c rg z w :
    let '(r, w') := privateZones_BeginDelete c rg z w in
    private_begins (DeleteZone (privateZones_sub c, rg, z)) r w w';
  sdk_private_CreateLink c rg z n l p vnet w :
    link_Properties l = Some p → VirtualNetwork p = Some (Some vnet) →
    let '(r, w') := virtualNetworkLinks_BeginCreateOrUpdate c rg z n l w in
    private_begins (CreateLink (links_sub c, rg, z) n vnet) r w w';
  sdk_private_DeleteLink c rg z n w :
    let '(r, w') := virtualNetworkLinks_BeginDelete c rg z n w in
    private_begins (DeleteLink (links_sub c, rg, z) n) r w w';
  sdk_private_Get c rg z w :
    let '(r, w') := privateZones_Get c rg z w in
    same_view w w' ∧
    match r with
    | inr zn => ∃ zd zp, az_private w !! (privateZones_sub c, rg, z) = Some zd ∧
        zone_Properties zn = Some zp ∧
        NumberOfRecordSets zp = Some (Z.of_nat (size (zd_records zd)))
    | inl _ => True
    end;
  sdk_private_CreateOrUpdate c rg z t n rs p w :
    rs_Properties rs = Some p →
    let '(r, w') := privateRecordSets_CreateOrUpdate c rg z t n rs w in
    match r with
    | inr _ => private_put (privateRecordSets_sub c, rg, z) t n p w w'
    | inl _ => maybe (private_put (privateRecordSets_sub c, rg, z) t n p) w w'
    end;
  sdk_private_ListByType c rg z w :
    lists same_view
      (λ l w, ∃ zd, az_private w !! (privateRecordSets_sub c, rg, z) = Some zd ∧ listing_A zd l)
      private_page_bound [] (privateRecordSets_NewListByTypePager c rg z RecordTypeA) w;
  sdk_private_ListAll c rg z w :
    lists same_view
      (λ l w, ∃ zd, az_private w !! (privateRecordSets_sub c, rg, z) = Some zd ∧
                    listing_records zd l)
      private_page_bound [] (privateRecordSets_NewListPager c rg z) w;
  sdk_private_ListLinks c rg z w :
    lists same_view
      (λ l w, l = links_of (links_sub c, rg, z) w ∧ Forall link_wf l)
      private_page_bound [] (virtualNetworkLinks_NewListPager c rg z) w;
}.

(** The constructors of its clients. *)
Class PrivateSDKConstructors (W : Type) `{PrivateSDKSpec W} : Prop := {
  NewPrivateZonesClient_sub sub cred w c w' :
    NewPrivateZonesClient sub cred w = (inr c, w') → privateZones_sub c = sub;
  NewPrivateRecordSetsClient_sub sub cred w c w' :
    NewPrivateRecordSetsClient sub cred w = (inr c, w') → privateRecordSets_sub c = sub;
  NewVirtualNetworkLinksClient_sub sub cred w c w' :
    NewVirtualNetworkLinksClient sub cred w = (inr c, w') → links_sub c = sub;
}.

(** What every call of the private DNS API leaves alone, whoever else writes
    private zones: the public zones and the resource groups. *)
Definition public_io `{AzureView W} {A} (f : io W A) : Prop := ∀ w, same_public w (f w).2.

Class PrivateSDKPublic (W : Type) `{AzureSDK W, AzureView W} := {
  (** the pollers and pagers of the private DNS API *)
  private_poller : Poller → Prop;
  private_pager {T} : Pager T → Prop;
  begins_private (f : io W Poller) : Prop := ∀ w,
    let '(r, w') := f w in
    same_public w w' ∧ match r with inr p => private_poller p | inl _ => True end;
  public_poll p : private_poller p → public_io (PollUntilDone p);
  public_page {T} (p : Pager T) w : private_pager p →
    let '(_, p', w') := pager_NextPage p w in same_public w w' ∧ private_pager p';
  public_CreateZone c rg z zn : begins_private (privateZones_BeginCreateOrUpdate c rg z zn);
  public_DeleteZone c rg z : begins_private (privateZones_BeginDelete c rg z);
  public_CreateLink c rg z n l :
    begins_private (virtualNetworkLinks_BeginCreateOrUpdate c rg z n l);
  public_DeleteLink c rg z n : begins_private (virtualNetworkLinks_BeginDelete c rg z n);
  public_Get c rg z : public_io (privateZones_Get c rg z);
  public_CreateOrUpdate c rg z t n rs : public_io (privateRecordSets_CreateOrUpdate c rg z t n rs);
  public_ListByType c rg z t : private_pager (privateRecordSets_NewListByTypePager c rg z t);
  public_ListAll c rg z : private_pager (privateRecordSets_NewListPager c rg z);
  public_ListLinks c rg z : private_pager (virtualNetworkLinks_NewListPager c rg z);
  keep_NewPrivateZonesClient sub cred w : same_view w (NewPrivateZonesClient sub cred w).2;
  keep_NewPrivateRecordSetsClient sub cred w :
    same_view w (NewPrivateRecordSetsClient sub cred w).2;
  keep_NewVirtualNetworkLinksClient sub cred w :
    same_view w (NewVirtualNetworkLinksClient sub cred w).2;
}.

#[export] Hint Resolve keep_NewPrivateZonesClient keep_NewPrivateRecordSetsClient
  keep_NewVirtualNetworkLinksClient : go_steps.

(** * The methods *)

Section methods.
Context {W : Type} `{Microerror, Kubernetes W, Prometheus, AzureSDK W, AzureView W}.

(** The loop over a pager that lists something, whatever is done to an error. *)
Lemma wp_lists {T} (same : relation W) `{!PreOrder same} (P : list T → W → Prop) onError
    fuel n acc (p : Pager T) s :
  (n ≤ fuel)%nat → lists same P n acc p (world s) →
  wp (drain onError fuel p acc) (λ r s', quiet s s' ∧ same (world s) (world s') ∧
    match r with Ok l => P l (world s') | Err _ => True | _ => False end) s.
Proof.
  revert n acc p s. induction fuel as [|fuel IH]; intros [|n] acc p s Hle Hp; simpl in *; try lia;
    destruct (pager_More p); try done.
  apply wp_bind, wp_map_err. unfold wp, NextPage, call.
  destruct (pager_NextPage p (world s)) as [[[e|page] p'] w']; destruct Hp as [Hs Hp]; simpl.
  - done.
  - eapply wp_mono; [apply (IH n); [lia|exact Hp]|].
    intros r s' (Hq & Hs' & Hr). split; [done|]. split; [by etransitivity|done].
Qed.

Context `{!PrivateSDKSpec W}.

(** Polling to the end completes the operation that is pending. *)
Lemma wp_private_poll p op w0 s :
  pending p op w0 (world s) →
  wp (private_poll p) (λ r s', quiet s s' ∧
    match r with
    | Ok _ => private_effect op w0 (world s')
    | Err _ => maybe (private_effect op) w0 (world s')
    | _ => False
    end) s.
Proof.
  intros Hp. pose proof (sdk_private_poll _ _ _ _ Hp) as Hlaw.
  unfold private_poll, wp, mbind, M_bind, try, call.
  destruct (PollUntilDone p (world s)) as [[e|[]] w']; by split.
Qed.

(** A request that begins an operation, and the polling of it. *)
Lemma wp_begin_poll m (f : io W Poller) op s :
  (let '(r, w') := f (world s) in private_begins op r (world s) w') →
  wp (poller ← counted_mask m (call f); private_poll poller) (λ r s', quiet s s' ∧
    match r with
    | Ok _ => private_effect op (world s) (world s')
    | Err _ => maybe (private_effect op) (world s) (world s')
    | _ => False
    end) s.
Proof.
  intros Hf. apply wp_bind, wp_counted. intros r s1 Hr Hq. rewrite Hr in Hf.
  destruct r as [e|p]; simpl; [done|].
  eapply wp_mono; [by apply wp_private_poll|]. intros r s' [Hq' Hr']. split; [by etransitivity|done].
Qed.

(** The same after a counted request. *)
Lemma wp_count_begin_poll m m' (f : io W Poller) op s :
  (∀ w, w = world s → let '(r, w') := f w in private_begins op r w w') →
  wp (count_request m;; poller ← counted_mask m' (call f); private_poll poller) (λ r s', quiet s s' ∧
    match r with
    | Ok _ => private_effect op (world s) (world s')
    | Err _ => maybe (private_effect op) (world s) (world s')
    | _ => False
    end) s.
Proof.
  intros Hf. apply wp_count_request. intros s1 Hw Hq. rewrite <- Hw.
  eapply wp_mono; [apply wp_begin_poll, Hf, Hw|].
  intros r s' [Hq' Hr]. split; [by etransitivity|done].
Qed.

(** A counted listing. *)
Lemma wp_count_lists {T} (P : list T → W → Prop) m onError fuel (p : Pager T) s :
  (private_page_bound (W := W) ≤ fuel)%nat →
  lists same_view P private_page_bound [] p (world s) →
  wp (count_request m;; drain onError fuel p []) (λ r s', quiet s s' ∧
    same_view (world s) (world s') ∧
    match r with Ok l => P l (world s') | Err _ => True | _ => False end) s.
Proof.
  intros Hle Hp. apply wp_count_request. intros s1 Hw Hq. rewrite <- Hw in Hp |- *.
  eapply wp_mono; [by apply (wp_lists same_view P onError fuel private_page_bound)|].
  intros r s' (Hq' & Hrest). split; [by etransitivity|done].
Qed.

(** The SDK clients of [ac] are those of the subscription [sub]. *)
Definition private_clients_of (ac : privateClient) (sub : string) : Prop :=
  privateZones_sub (privateZones ac) = sub ∧
  privateRecordSets_sub (privateRecordSets ac) = sub ∧
  links_sub (virtualNetworkLinkClient ac) = sub.

Lemma privateClient_meets_spec ac sub fuel :
  private_clients_of ac sub → (private_page_bound (W := W) ≤ fuel)%nat →
  PrivateClientSpec (privateClient_Client fuel ac) sub.
Proof.
  intros (Hz & Hr & Hl) Hfuel. subst sub. split; simpl.
  - intros rg z s. eapply wp_mono; [apply wp_count_lists; [done|apply sdk_private_ListByType]|].
    intros r s' (Hq & Hv & Hp). split; [done|]. split; [done|]. destruct r; try done.
    destruct Hv as [_ [<- _]]. by rewrite <- Hr.
  - intros rg z zn s. apply (wp_count_begin_poll _ _ _ (CreateZone _)).
    intros w _. apply sdk_private_CreateZone.
  - intros rg z s. apply wp_request. intros r s' Hget Hq.
    pose proof (sdk_private_Get (privateZones ac) rg z (world s)) as Hlaw. rewrite Hget in Hlaw.
    split; [done|]. split; [apply Hlaw|]. by destruct r, Hlaw.
  - intros rg z s. apply (wp_count_begin_poll _ _ _ (DeleteZone _)).
    intros w _. apply sdk_private_DeleteZone.
  - intros rg z s. eapply wp_mono; [apply wp_count_lists; [done|apply sdk_private_ListLinks]|].
    intros r s' (Hq & Hv & Hp). split; [done|]. split; [done|]. destruct r; try done.
    unfold links_of in *. destruct Hv as [_ [_ <-]]. by rewrite <- Hl.
  - intros rg z cl vnet n s. rewrite <- Hl. apply (wp_count_begin_poll _ _ _ (CreateLink _ _ _)).
    intros w _. by eapply sdk_private_CreateLink.
  - intros rg z n s. rewrite <- Hl. apply (wp_begin_poll _ _ (DeleteLink _ _)).
    apply sdk_private_DeleteLink.
  - intros rg z s. eapply wp_mono; [apply wp_count_lists; [done|apply sdk_private_ListAll]|].
    intros r s' (Hq & Hv & Hp). split; [done|]. split; [done|]. destruct r; try done.
    destruct Hv as [_ [<- _]]. by rewrite <- Hr.
  - intros rg z t n rs p s Hp. apply wp_request. intros r s' Hput Hq. split; [done|].
    pose proof (sdk_private_CreateOrUpdate (privateRecordSets ac) rg z t n rs p (world s) Hp)
      as Hlaw. rewrite Hput, Hr in Hlaw. by destruct r.
Qed.

(** * Construction *)

Context `{!PrivateSDKConstructors W, !PrivateSDKPublic W, !SDKSpec W, !SDKConstructors W}.

Lemma newPrivateDNSClient_of sc :
  ok_post (newPrivateDNSClient (W := W) sc)
    (λ ac, private_clients_of ac (ManagementClusterSubscriptionID sc)).
Proof.
  unfold newPrivateDNSClient. eapply ok_post_bind; [apply ok_post_True|intros cred _].
  eapply ok_post_bind; [apply ok_post_map_err, ok_post_call, NewPrivateZonesClient_sub|].
  intros z Hz. eapply ok_post_bind;
    [apply ok_post_map_err, ok_post_call, NewPrivateRecordSetsClient_sub|].
  intros rs Hrs. eapply ok_post_bind;
    [apply ok_post_map_err, ok_post_call, NewVirtualNetworkLinksClient_sub|].
  intros l Hl. by apply ok_post_ret.
Qed.

Lemma newPrivateDNSClient_quiet sc : steps azure_quiet (newPrivateDNSClient (W := W) sc).
Proof.
  unfold newPrivateDNSClient, newPrivateZonesClient, newPrivateRecordSetsClient,
    newVirtualNetworkLinkClient. steps_tac.
Qed.
End methods.

(** * What the private services leave alone *)

(** Azure's public zones and resource groups are as before. *)
Definition public_kept {W} `{AzureView W, KubeTypes, Prometheus} (s s' : St W) : Prop :=
  same_public (world s) (world s').

#[global] Instance public_kept_preorder {W} `{AzureView W, KubeTypes, Prometheus} :
  PreOrder public_kept.
Proof. split; [done|]. intros s1 s2 s3 ??. unfold public_kept. by etransitivity. Qed.

Section public.
Context {W : Type} `{Microerror, Kubernetes W, Prometheus, AzureSDK W, AzureView W,
                     !PrivateSDKPublic W}.

Lemma steps_public_call {A} (f : io W A) : public_io f → steps public_kept (call f).
Proof.
  intros Hf s. unfold call. specialize (Hf (world s)). by destruct (f (world s)) as [r w].
Qed.

Lemma steps_public_upd_metrics f : steps public_kept (upd_metrics f).
Proof. by intros s. Qed.

#[local] Hint Resolve steps_public_call steps_public_upd_metrics public_Get
  public_CreateOrUpdate : go_steps.

Lemma private_poll_public p : private_poller p → steps public_kept (private_poll p).
Proof. intros Hp. pose proof (public_poll p Hp). unfold private_poll. steps_tac. Qed.

Lemma begin_poll_public m (f : io W Poller) :
  begins_private f → steps public_kept (poller ← counted_mask m (call f); private_poll poller).
Proof.
  intros Hf. eapply (steps_bind_post _ _ private_poller); [| |apply private_poll_public].
  - assert (public_io f) by by intros w; specialize (Hf w); destruct (f w); destruct Hf.
    unfold counted_mask. steps_tac.
  - intros s p s'. unfold counted_mask, mbind, M_bind, try, call. specialize (Hf (world s)).
    destruct (f (world s)) as [[e|p'] w']; intros [= <- _]. by destruct Hf.
Qed.

Lemma drain_public {T} onError fuel (p : Pager T) acc :
  private_pager p → steps public_kept (drain onError fuel p acc).
Proof.
  revert p acc. induction fuel as [|fuel IH]; intros p acc Hp; simpl;
    (destruct (pager_More p); [|apply steps_ret, _]); [apply steps_out_of_fuel, _|].
  eapply (steps_bind_post _ _ (λ r, private_pager r.2)).
  - apply steps_map_err, steps_public_call. intros w.
    pose proof (public_page p w Hp) as Hlaw. by destruct (pager_NextPage p w) as [[[e|page] p'] w'], Hlaw.
  - apply ok_post_map_err. intros s [page p''] s'. unfold NextPage, call.
    pose proof (public_page p (world s) Hp) as Hlaw.
    destruct (pager_NextPage p (world s)) as [[[e|page'] p'] w']; intros [= <- <- _]. by destruct Hlaw.
  - intros [page p'] Hp'. by apply IH.
Qed.

#[local] Hint Resolve begin_poll_public drain_public public_CreateZone public_DeleteZone
  public_CreateLink public_DeleteLink public_ListByType public_ListAll public_ListLinks : go_steps.

(** Every method of the client. *)
Record public_client (c : PrivateClient W) : Prop := {
  pub_CreateZone rg z zn : steps public_kept (pc_CreateOrUpdatePrivateZone c rg z zn);
  pub_GetZone rg z : steps public_kept (pc_GetPrivateZone c rg z);
  pub_DeleteZone rg z : steps public_kept (pc_DeletePrivateZone c rg z);
  pub_ListRecords rg z : steps public_kept (pc_ListPrivateRecordSets c rg z);
  pub_CreateLink rg z cl vnet n :
    steps public_kept (pc_CreateOrUpdateVirtualNetworkLink c rg z cl vnet n);
  pub_ListLinks rg z : steps public_kept (pc_ListVirtualNetworkLink c rg z);
  pub_DeleteLink rg z n : steps public_kept (pc_DeleteVirtualNetworkLink c rg z n);
  pub_ListAll rg z : steps public_kept (pc_ListRecordSets c rg z);
  pub_PutRecord rg z t n rs : steps public_kept (pc_CreateOrUpdateRecordSet c rg z t n rs);
}.

Lemma privateClient_public fuel ac : public_client (privateClient_Client fuel ac).
Proof.
  split; intros; simpl; unfold CreateOrUpdatePrivateZone, GetPrivateZone, DeletePrivateZone,
    ListPrivateRecordSets, CreateOrUpdateVirtualNetworkLink, ListVirtualNetworkLink,
    DeleteVirtualNetworkLink, PrivateClient.ListRecordSets, CreateOrUpdateRecordSet,
    count_request;
    repeat first [ solve [ eauto 3 with go_steps ]
                 | apply steps_bind; [apply _|solve [eauto 3 with go_steps]|intros _] ].
  all: unfold counted_mask; steps_tac.
Qed.
End public.
