(* ===== verification/ControllerFacts.v ===== *)
(** Facts about the controller: none of the services it builds touches the
    infrastructure cluster object, so the finalizer is safe until the
    controller itself removes it. *)
From S2P Require Import Prelude GoStd Errors Metrics Kube State Conditions Infra Azure Scope.
From S2P Require Import DnsClient PrivateClient DnsRecords DnsService PrivateDns Controller.
Open Scope Z_scope.

Section keeps.
Context {W : Type} `{Microerror, Kubernetes W, Prometheus}.

(** [m] leaves the infrastructure cluster object as it is. *)
Definition keeps {A} (m : G W A) : Prop := steps (same infraCluster) m.

Lemma keeps_call {A} (f : io W A) : keeps (call f).
Proof. by apply steps_call_world. Qed.

Lemma keeps_upd_metrics f : keeps (upd_metrics f).
Proof. by apply steps_upd_metrics. Qed.

Lemma keeps_upd_cache f : keeps (upd_cache f).
Proof. by intros s. Qed.

Lemma keeps_with_scope_copy {A} (m : G W A) : keeps m → keeps (with_scope_copy m).
Proof. intros Hm s. specialize (Hm s). unfold with_scope_copy. by destruct (m s). Qed.

Lemma keeps_lift_sum {A} (r : GoError + A) : keeps (lift_sum r).
Proof. by destruct r. Qed.
End keeps.

Create HintDb go_keeps discriminated.
#[export] Hint Resolve keeps_call keeps_upd_metrics keeps_upd_cache keeps_lift_sum : go_keeps.

(** [keeps_tac]: walk down the program text and close the calls with the
    database and the facts in context. *)
Ltac keeps_tac :=
  unfold keeps in *;
  repeat (intros; first [ solve [ eauto 3 with go_steps go_keeps typeclass_instances ]
                        | apply keeps_call | apply keeps_upd_metrics | apply keeps_upd_cache
                        | apply keeps_lift_sum | steps_step ]).

Section clients.
Context {W : Type} `{Microerror, Kubernetes W, Prometheus, !AzureSDK W}.

Lemma keeps_counted_mask {A} method (m : G W A) : keeps m → keeps (counted_mask method m).
Proof. intros Hm. unfold counted_mask, count_error. keeps_tac. Qed.

Lemma keeps_private_poll p : keeps (W := W) (private_poll p).
Proof. unfold private_poll, count_error, count_request. keeps_tac. Qed.

Hint Resolve keeps_counted_mask keeps_private_poll : go_keeps.

Lemma keeps_deleting_client fuel (ac : azureClient) :
  (∀ rg z t n, keeps (DeleteRecordSet (azureClient_client fuel ac) rg z t n)) ∧
  (∀ rg, keeps (DeleteResourceGroup (azureClient_client fuel ac) rg)).
Proof.
  split; intros; simpl; unfold azureClient_DeleteRecordSet, azureClient_DeleteResourceGroup,
    count_request, count_error, counted_mask, count_error; keeps_tac.
Qed.

Lemma keeps_deleting_private fuel (ac : privateClient) :
  (∀ rg z n, keeps (pc_DeleteVirtualNetworkLink (privateClient_Client fuel ac) rg z n)) ∧
  (∀ rg z, keeps (pc_DeletePrivateZone (privateClient_Client fuel ac) rg z)).
Proof.
  split; intros; simpl; unfold DeleteVirtualNetworkLink, DeletePrivateZone, private_poll,
    count_request, count_error, counted_mask, count_error; keeps_tac.
Qed.

(** A service that deletes without touching the object. *)
Definition deletes_quietly (svc : DnsRecords.Service W) : Prop :=
  keeps (DnsService.ReconcileDelete svc).

Definition private_deletes_quietly (svc : option (PrivateDns.Service W)) : Prop :=
  match svc with Some svc => keeps (PrivateDns.ReconcileDelete svc) | None => True end.

Lemma New_deletes_quietly fuel (sc : DNSScope W) g :
  ok_post (DnsService.New fuel sc g) deletes_quietly.
Proof.
  unfold DnsService.New. do 2 (eapply ok_post_bind; [apply ok_post_True|intros ? _]).
  apply ok_post_ret. unfold deletes_quietly, DnsService.ReconcileDelete, deleteClusterNSRecords,
    deleteClusterResourceGroup, IsAzureCluster. simpl.
  destruct (keeps_deleting_client fuel a) as [_ Hrg].
  destruct (keeps_deleting_client fuel a0) as [Hrs _]. simpl in *. keeps_tac.
Qed.

Lemma private_New_deletes_quietly fuel (sc : PrivateDNSScope) :
  ok_post (PrivateDns.New (W := W) fuel sc) (λ svc, private_deletes_quietly (Some svc)).
Proof.
  unfold PrivateDns.New. eapply ok_post_bind; [apply ok_post_True|intros ac _].
  apply ok_post_ret. simpl. unfold PrivateDns.ReconcileDelete. simpl.
  destruct (keeps_deleting_private fuel ac) as [Hl Hz]. simpl in *. keeps_tac.
Qed.
End clients.

Section lookups.
Context {W : Type} `{Microerror, Kubernetes W, Prometheus, !AzureSDK W, !Capz W,
                     !MetaConditions W}.
Context (fuel : nat) (r : ClusterReconciler) (sc : Scope W).

Lemma keeps_ManagementCluster : keeps (ManagementCluster sc).
Proof. unfold ManagementCluster, managementAzureCluster. keeps_tac. Qed.

Lemma keeps_azureClusterIdentity c ref : keeps (azureClusterIdentity (W := W) c ref).
Proof. unfold azureClusterIdentity. keeps_tac. Qed.

Lemma keeps_ManagementClusterIdentity : keeps (ManagementClusterIdentity sc).
Proof.
  pose proof keeps_ManagementCluster. pose proof keeps_azureClusterIdentity.
  unfold ManagementClusterIdentity. keeps_tac.
Qed.

Lemma keeps_InfraClusterIdentity : keeps (InfraClusterIdentity sc).
Proof.
  pose proof keeps_ManagementClusterIdentity. pose proof keeps_azureClusterIdentity.
  unfold InfraClusterIdentity, identity_fallback. keeps_tac.
Qed.

Lemma keeps_new_client dsc : keeps (newAzureClient (W := W) dsc).
Proof. unfold newAzureClient, new_clients. keeps_tac. Qed.

Lemma keeps_newBaseZoneClient creds : keeps (newBaseZoneClient (W := W) creds).
Proof. unfold newBaseZoneClient, new_clients. keeps_tac. Qed.

Lemma keeps_getDns : keeps (getDnsServiceForPublicRecords fuel r sc).
Proof.
  pose proof keeps_InfraClusterIdentity. pose proof keeps_new_client.
  pose proof keeps_newBaseZoneClient.
  unfold getDnsServiceForPublicRecords, getInfraClusterStaticServicePrincipalSecret,
    InfraClusterAnnotations, DnsService.New. keeps_tac.
Qed.

Lemma getDns_deletes_quietly :
  ok_post (getDnsServiceForPublicRecords fuel r sc) deletes_quietly.
Proof.
  unfold getDnsServiceForPublicRecords.
  do 4 (eapply ok_post_bind; [apply ok_post_True|intros ? _]).
  apply ok_post_map_err, New_deletes_quietly.
Qed.

Lemma keeps_private_service params : keeps (private_service (W := W) fuel params).
Proof. unfold private_service, PrivateDns.New, newPrivateDNSClient. keeps_tac. Qed.

Lemma private_service_deletes_quietly params :
  ok_post (private_service (W := W) fuel params) private_deletes_quietly.
Proof.
  unfold private_service. eapply ok_post_bind; [apply ok_post_True|intros ? _].
  eapply ok_post_bind; [apply ok_post_map_err, private_New_deletes_quietly|].
  intros svc Hsvc. by apply ok_post_ret.
Qed.

Lemma keeps_private_identity_secret idt : keeps (private_identity_secret (W := W) r idt).
Proof. unfold private_identity_secret. keeps_tac. Qed.

Lemma keeps_getMcToWc : keeps (getPrivateDnsServiceForMcToWcApi fuel r sc).
Proof.
  pose proof keeps_ManagementCluster. pose proof keeps_ManagementClusterIdentity.
  pose proof keeps_private_service. pose proof keeps_private_identity_secret.
  unfold getPrivateDnsServiceForMcToWcApi. keeps_tac.
Qed.

Lemma keeps_getWcToMc : keeps (getPrivateDnsServiceForWcToMcIngress fuel r sc).
Proof.
  pose proof keeps_ManagementCluster. pose proof keeps_InfraClusterIdentity.
  pose proof keeps_private_service. pose proof keeps_private_identity_secret.
  unfold getPrivateDnsServiceForWcToMcIngress. keeps_tac.
Qed.

Lemma getMcToWc_deletes_quietly :
  ok_post (getPrivateDnsServiceForMcToWcApi fuel r sc) private_deletes_quietly.
Proof.
  unfold getPrivateDnsServiceForMcToWcApi.
  do 2 (eapply ok_post_bind; [apply ok_post_True|intros ? _]).
  eapply ok_post_bind; [apply ok_post_True|]. intros [secret|] _; [|by apply ok_post_ret].
  eapply ok_post_bind; [apply ok_post_True|intros ? _]. apply private_service_deletes_quietly.
Qed.

Lemma getWcToMc_deletes_quietly :
  ok_post (getPrivateDnsServiceForWcToMcIngress fuel r sc) private_deletes_quietly.
Proof.
  unfold getPrivateDnsServiceForWcToMcIngress.
  do 2 (eapply ok_post_bind; [apply ok_post_True|intros ? _]).
  eapply ok_post_bind; [apply ok_post_True|]. intros [secret|] _; [|by apply ok_post_ret].
  do 3 (eapply ok_post_bind; [apply ok_post_True|intros ? _]).
  apply private_service_deletes_quietly.
Qed.

Lemma keeps_delete_private get :
  keeps get → ok_post get private_deletes_quietly → keeps (delete_private r sc get).
Proof.
  intros Hget Hok. unfold delete_private, delete_cluster_metrics.
  eapply steps_bind_post; [apply _|exact Hget|exact Hok|].
  intros [svc|] Hsvc; [|by intros s].
  assert (steps (same infraCluster) (map_err Mask (PrivateDns.ReconcileDelete svc);;
            delete_cluster_metrics r sc ZoneTypePrivate)) as Hrest; [|exact Hrest].
  unfold delete_cluster_metrics. simpl in Hsvc. keeps_tac.
Qed.
End lookups.
