(* ===== verification/DnsReconcile.v ===== *)
(** The properties of the public DNS service: what a reconciliation that
    returns without an error has established, what it may have written by
    then or by the time it fails, and what deletion takes away. *)
From S2P Require Import Prelude GoStd Errors Metrics Kube State Infra Azure Scope DnsClient.
From S2P Require Import DnsRecords DnsService TagFacts DnsClientFacts AzureSpec.
From S2P Require Import DnsRecordsFacts DnsServiceFacts.
Open Scope Z_scope.

Section reconcile.
Context {W : Type} `{Microerror, Kubernetes W, Prometheus, AzureView W}.
Context (svc : Service W) (sub bsub : string).

(** The part of [Reconcile] that comes before the A records: the resource
    group, the zone and the delegation; it returns the listing of the zone. *)
Definition prepare : G W (list RecordSet) :=
  azure ← IsAzureCluster;
  (if negb (azure : bool) then map_err Mask (createClusterResourceGroup svc);; mret tt
   else mret tt);;
  upd_metrics (ZoneInfo_Set [ClusterDomain (scope svc); ZoneTypePublic;
    ResourceGroup_name (scope svc); TenantID (svc_Patcher svc); SubscriptionID (svc_Patcher svc)] 1);;
  clusterRecordSets ← list_or_create_zone svc;
  clusterZone ← map_err Mask
    (GetZone (svc_azureClient svc) (ResourceGroup_name (scope svc)) (ClusterDomain (scope svc)));
  zp ← deref (zone_Properties clusterZone);
  n ← deref (NumberOfRecordSets zp);
  upd_metrics (ClusterZoneRecords_Set [ClusterDomain (scope svc); ZoneTypePublic] n);;
  basedomainRecordSets ← map_err Mask
    (ListRecordSets (svc_azureBaseZoneClient svc) (baseDomainResourceGroup (scope svc))
       (baseDomain (scope svc)));
  upd_metrics (ClusterZoneRecords_Set [baseDomain (scope svc); ZoneTypePublic]
                 (Z.of_nat (length basedomainRecordSets)));;
  clusterNSRecordExists ← find_clusterNSRecord svc basedomainRecordSets;
  (if negb (clusterNSRecordExists : bool)
   then map_err Mask (createClusterNSRecord svc (map mkNsRecord (NameServers zp)))
   else mret tt);;
  mret clusterRecordSets.

(** The part that writes the records of the zone. *)
Definition write_records (l : list RecordSet) : G W unit :=
  l' ← map_err Mask (updateARecords svc l); map_err Mask (updateCnameRecords svc l').

Lemma Reconcile_parts : Reconcile svc ≡ₘ prepare ≫= write_records.
Proof.
  unfold Reconcile, prepare. cbv zeta.
  repeat (etransitivity; [|symmetry; apply bind_bind]; apply bind_proper; [intros ?|reflexivity]).
  reflexivity.
Qed.

(** What a completed reconciliation that started in [s] leaves in [s'].  [s0]
    is the state in which the run reads the desired records, [ds] are these,
    and [zd0] is the cluster's zone then. *)
Record converged (s s' : St W) : Prop := {
  conv_A : ∃ s0 zd0 zd ds s1,
    (∃ l, prepare s = (Ok l, s0)) ∧ frame svc sub bsub s s0 ∧
    az_zones (world s0) !! cluster_zone svc sub = Some zd0 ∧
    az_zones (world s') !! cluster_zone svc sub = Some zd ∧
    getDesiredARecords svc s0 = (Ok ds, s1) ∧
    Forall (has_A zd) (uniquely_named ds) ∧
    (∀ n, Some n ∉ map record_name ds →
       zd_records zd !! (RecordTypeA, n) = zd_records zd0 !! (RecordTypeA, n));
  conv_wildcard : ∃ zd,
    az_zones (world s') !! cluster_zone svc sub = Some zd ∧
    has_wildcard zd (WildcardFQDN (scope svc));
  conv_NS : ∃ zd zb,
    az_zones (world s') !! cluster_zone svc sub = Some zd ∧
    az_zones (world s') !! base_zone svc bsub = Some zb ∧
    zd_records zb !! (RecordTypeNS, ClusterName (svc_Patcher svc))
      = Some (ns_record (zd_nameservers zd));
}.

Lemma put_A_other_name ds zd n : Some n ∉ map record_name ds →
  zd_records (fold_left put_A ds zd) !! (RecordTypeA, n) = zd_records zd !! (RecordTypeA, n).
Proof.
  revert zd. induction ds as [|d ds IH]; intros zd Hn; simpl; [done|].
  rewrite IH by (intros ?; apply Hn; by right). unfold put_A.
  destruct (rs_Name d) as [m|] eqn:Hm, (rs_Properties d); simpl; [|done..].
  apply lookup_insert_ne. intros [= Heq]. apply Hn. simpl. unfold record_name at 1.
  rewrite Hm. simpl. rewrite Heq. by left.
Qed.

Lemma filter_name_in ds l n : Some n ∉ map record_name ds →
  Some n ∉ map record_name (filter (λ d, outdated_A l d) ds).
Proof.
  intros Hn (d & Hd & [_ Hin]%list_elem_of_filter)%list_elem_of_fmap. apply Hn.
  apply list_elem_of_fmap. by exists d.
Qed.

Context `{!InView svc sub bsub}.
Context `{!ClientSpec (svc_azureClient svc) sub, !ClientSpec (svc_azureBaseZoneClient svc) bsub}.
Context `{!KubeKeepsAzure, !PatcherSpec (svc_Patcher svc) (publicIPsService svc)}.

(** The second half of [Reconcile]: both update loops. *)
Lemma runs_write_records zd zb l s0 s :
  (∃ l, prepare s0 = (Ok l, s)) → frame svc sub bsub s0 s →
  zones_are svc sub bsub zd (Some zb) s → reflects zd l →
  zd_records zb !! (RecordTypeNS, ClusterName (svc_Patcher svc))
    = Some (ns_record (zd_nameservers zd)) →
  runs (frame svc sub bsub) (write_records l) s (λ _ s', converged s0 s').
Proof.
  intros Hprep Hf Hz Hl Hns. unfold write_records.
  rbind; [by apply runs_map_err, runs_updateARecords|].
  intros l' s1 _ (Hl' & ds & s2 & Hg & Hds & Hz1).
  set (zd1 := fold_left put_A _ zd) in Hz1.
  assert (reflects zd l') as Hreflects'.
  { eapply reflects_strip; [|exact Hl]. done. }
  eapply runs_mono.
  { apply runs_map_err. eapply runs_updateCnameRecords; [done..|apply Hreflects']. }
  intros [] s3 _ [Hz3 Hzb3].
  assert (∀ t n, t ≠ RecordTypeA → zd_records zd1 !! (t, n) = zd_records zd !! (t, n)) as Hsame.
  { intros t n Ht. by apply put_A_other. }
  pose proof (updated_has_wildcard svc zd zd1 l' Hreflects' Hsame) as Hw.
  match type of Hz3 with _ = Some ?z => set (zd3 := z) in * end.
  assert (∀ n, zd_records zd3 !! (RecordTypeA, n) = zd_records zd1 !! (RecordTypeA, n)) as HA.
  { intros n. unfold zd3. destruct (existsb _ _); [|done]. by apply lookup_insert_ne. }
  split.
  - exists s, zd, zd3, ds, s2. split_and!; [done|done|apply Hz|done|done| |].
    + eapply Forall_impl; [by apply (put_A_has_A l ds zd)|]. intros d. by apply has_A_agree.
    + intros n Hn. rewrite HA. by apply put_A_other_name, filter_name_in.
  - by exists zd3.
  - exists zd3, zb. split_and!; [done|done|]. rewrite Hns. f_equal.
    assert (zd_nameservers zd3 = zd_nameservers zd) as ->; [|done].
    unfold zd3. destruct (existsb _ _); [|]; apply put_A_nameservers.
Qed.

Lemma runs_prepare s :
  tags_set (resourceTags (scope svc)) →
  ¬ decoded_addr (cluster_Name_addr (s_Cluster (svc_Scope svc))) →
  runs (frame svc sub bsub) prepare s (λ l s', ∃ zd zb,
    zones_are svc sub bsub zd (Some zb) s' ∧ reflects zd l ∧
    zd_records zb !! (RecordTypeNS, ClusterName (svc_Patcher svc))
      = Some (ns_record (zd_nameservers zd))).
Proof.
  intros Htags Hfresh. unfold prepare. rread.
  rbind (λ _ _, True).
  { destruct (negb _); [|by rret].
    rbind (λ _ _, True); [|intros; by rret]. apply runs_map_err.
    eapply runs_mono; [by apply runs_createClusterResourceGroup|done]. }
  intros [] s1 F1 _. rbind (λ _ _, True); [by apply runs_metrics|].
  intros [] s2 F2 _. rbind; [by apply runs_list_or_create_zone|].
  intros l s3 F3 (zd & Hzd & Hl).
  rbind; [apply runs_map_err; by apply runs_get_zone|].
  intros zn s4 F4 ([[Hv4 _] _] & zd' & Hzd' & Hzn). assert (zd' = zd) as -> by congruence.
  rewrite Hzn. do 2 rread.
  rbind (λ _ s', az_zones (world s') = az_zones (world s4)); [by apply runs_metrics|].
  intros [] s5 F5 Hv5. rbind; [apply runs_map_err; by apply runs_list_base|].
  intros lb s6 F6 ([[Hv6 _] _] & Hlb).
  rbind (λ _ s', az_zones (world s') = az_zones (world s6)); [by apply runs_metrics|].
  intros [] s7 F7 Hv7.
  eapply runs_read; [by eapply find_clusterNSRecord_run|]. simpl.
  rbind; [apply runs_map_err; by apply runs_createClusterNSRecord with (zd := zd); congruence|].
  intros [] s8 F8 (Hzd8 & zb & Hzb & Hns). rret. by exists zd, zb.
Qed.

Lemma runs_Reconcile s :
  tags_set (resourceTags (scope svc)) →
  ¬ decoded_addr (cluster_Name_addr (s_Cluster (svc_Scope svc))) →
  runs (frame svc sub bsub) (Reconcile svc) s (λ _ s', converged s s').
Proof.
  intros Htags Hfresh.
  cut (runs (frame svc sub bsub) (prepare ≫= write_records) s (λ _ s', converged s s')).
  { unfold runs, wp. by rewrite (Reconcile_parts s). }
  pose proof (runs_prepare s Htags Hfresh) as Hprep.
  apply (runs_bind (frame svc sub bsub) _ _ _ (λ l s', prepare s = (Ok l, s') ∧ ∃ zd zb,
    zones_are svc sub bsub zd (Some zb) s' ∧ reflects zd l ∧
    zd_records zb !! (RecordTypeNS, ClusterName (svc_Patcher svc))
      = Some (ns_record (zd_nameservers zd)))).
  - unfold runs, wp in *. destruct (prepare s) as [[l|e| |] s'] eqn:Hrun; [|done..].
    destruct Hprep as [Hf Hp]. by split.
  - intros l s1 F1 (Hrun & zd & zb & Hz & Hl & Hns).
    apply (runs_write_records zd zb l s s1); [by exists l|done..].
Qed.

(** C7: from every state, a reconciliation of the public zone returns (no panic,
    no endless loop); at any point, even when a call fails, it has written
    nothing but A records and the wildcard CNAME record of the cluster's zone
    and the cluster's NS record in the base zone, and touched no resource group
    but the cluster's; and when it returns without an error, every A record it
    read as desired whose name no other one has, the wildcard record and an NS
    record with the zone's name servers are in place. *)
Theorem Reconcile_converges s :
  tags_set (resourceTags (scope svc)) →
  ¬ decoded_addr (cluster_Name_addr (s_Cluster (svc_Scope svc))) →
  runs (frame svc sub bsub) (Reconcile svc) s (λ _ s', converged s s').
Proof. apply runs_Reconcile. Qed.

(** ** Deletion *)

Lemma wp_deleteClusterResourceGroup s :
  wp (deleteClusterResourceGroup svc) (λ r s', infraCluster s' = infraCluster s ∧
    match r with
    | Ok _ => group_deleted (cluster_group svc sub) (world s) (world s')
    | Err _ => group_shrunk (cluster_group svc sub) (world s) (world s')
    | _ => False
    end) s.
Proof.
  unfold deleteClusterResourceGroup. apply wp_bind, wp_try.
  eapply wp_mono; [apply (spec_DeleteResourceGroup (c := svc_azureClient svc) (sub := sub));
                   apply (in_view_group svc sub bsub)|].
  intros r s' [[_ Hi] Hr]. destruct r as [[]|e| |]; simpl; [done| |done..].
  destruct Hr as [Hs Hnf]. destruct (IsResourceNotFoundError e) eqn:He; simpl; [|done].
  apply wp_ret. split; [done|]. destruct (Hnf eq_refl) as (Hv & Hg & Hz).
  pose proof Hv as [[Hvz Hvg] _]. split_and!; [done|by rewrite Hvg|]. intros z. by rewrite Hvz.
Qed.

Lemma wp_ReconcileDelete s :
  wp (ReconcileDelete svc) (λ r s',
    let k := base_zone svc bsub in
    let g := cluster_group svc sub in
    let n := ClusterName (svc_Patcher svc) in
    let azure := isAzureCluster (infraCluster s) in
    match r with
    | Ok _ => ∃ w1, record_deleted k RecordTypeNS n (world s) w1 ∧
        if azure then w1 = world s' else group_deleted g w1 (world s')
    | Err _ => ∃ w1, maybe (record_deleted k RecordTypeNS n) (world s) w1 ∧
        if azure then w1 = world s' else group_shrunk g w1 (world s')
    | _ => False
    end) s.
Proof.
  unfold ReconcileDelete. apply wp_bind, wp_map_err.
  eapply wp_mono; [apply (spec_DeleteRecordSet (c := svc_azureBaseZoneClient svc) (sub := bsub));
                   right; apply (in_view_NS svc sub bsub)|].
  intros r s1 [[_ Hi] Hr]. destruct r as [[]|e| |]; simpl; [| |done..].
  - apply wp_bind, wp_gets. simpl. rewrite Hi.
    destruct (isAzureCluster (infraCluster s)); simpl; [by eexists|].
    apply wp_map_err. eapply wp_mono; [apply wp_deleteClusterResourceGroup|].
    intros r s2 [_ Hr2]. destruct r; [..|done|done]; exists (world s1).
    + done.
    + split; [by right|done].
  - exists (world s1). split; [done|]. destruct (isAzureCluster _); [done|].
    by apply same_view_shrunk.
Qed.

(** Deletion returns from every state.  Without an error, the cluster's NS
    record is gone from the base zone and nothing else of that zone; for an
    AzureCluster that is all that has changed, for any other kind the cluster's
    resource group and all its zones are gone as well, also when the group had
    been deleted before.  With an error, nothing beyond that has changed. *)
Theorem ReconcileDelete_removes s :
  wp (ReconcileDelete svc) (λ r s',
    let k := base_zone svc bsub in
    let g := cluster_group svc sub in
    let n := ClusterName (svc_Patcher svc) in
    let azure := isAzureCluster (infraCluster s) in
    match r with
    | Ok _ => ∃ w1, record_deleted k RecordTypeNS n (world s) w1 ∧
        if azure then w1 = world s' else group_deleted g w1 (world s')
    | Err _ => ∃ w1, maybe (record_deleted k RecordTypeNS n) (world s) w1 ∧
        if azure then w1 = world s' else group_shrunk g w1 (world s')
    | _ => False
    end) s.
Proof. apply wp_ReconcileDelete. Qed.

(** The resource group is named after the cluster alone: where the cluster is
    called like the resource group of the base zone, in the same subscription,
    its deletion takes the base zone with it. *)
Theorem homonym_deletes_base s s' :
  sub = bsub → ClusterName (svc_Patcher svc) = baseDomainResourceGroup (scope svc) →
  isAzureCluster (infraCluster s) = false → ReconcileDelete svc s = (Ok tt, s') →
  az_zones (world s') !! base_zone svc bsub = None.
Proof.
  intros Hsub Hname Hkind Hrun. pose proof (wp_ReconcileDelete s) as Hwp. unfold wp in Hwp.
  rewrite Hrun, Hkind in Hwp. destruct Hwp as (w1 & _ & _ & _ & Hz).
  unfold base_zone. rewrite <- Hname, <- Hsub. apply Hz.
Qed.
End reconcile.

(** * The resource group *)

Section group.
Context {W : Type} `{Microerror, Kubernetes W, Prometheus, AzureView W}.
Context (svc : Service W) (sub bsub : string) `{!InView svc sub bsub}.
Context `{!ClientSpec (svc_azureClient svc) sub, !KubeKeepsAzure}.

(** C25: from every state, making sure of the cluster's resource group returns,
    leaves every other group alone, writes no record but those a
    reconciliation may write, and when it returns without an error the group
    exists and carries every tag asked for - whether it was missing, had other
    tags, or was right already. *)
Theorem createClusterResourceGroup_tagged s :
  tags_set (resourceTags (scope svc)) →
  runs (frame svc sub bsub) (createClusterResourceGroup svc) s (λ _ s', tagged svc sub s').
Proof. intros Htags. by apply runs_createClusterResourceGroup. Qed.
End group.

(** * The records *)

Section records.
Context {W : Type} `{Microerror, Kubernetes W, Prometheus}.

(** C33: the comparison with a listing of the base zone never finds the
    cluster's NS record, whatever is in the zone: it compares the address of a
    decoded name with the address of the cluster's own name field. *)
Theorem find_clusterNSRecord_never `{!AzureView W} (svc : Service W) l s :
  Forall decoded l → ¬ decoded_addr (cluster_Name_addr (s_Cluster (svc_Scope svc))) →
  find_clusterNSRecord svc l s = (Ok false, s).
Proof. apply find_clusterNSRecord_run. Qed.

Lemma calculateMissingARecords_run (svc : Service W) cur ds s s1 :
  getDesiredARecords svc s = (Ok ds, s1) → Forall readable cur →
  ∃ cur', map strip cur' = map strip cur ∧
    ∃ mt, calculateMissingARecords svc cur s
      = (Ok (filter (λ d, outdated_A cur d) ds, cur'), set_metrics mt s1).
Proof.
  intros Hds Hcur. pose proof (getDesiredARecords_desired svc s ds s1 Hds) as Hd.
  destruct (compare_loop_run svc ds [] cur s1 Hd Hcur) as (cur' & Hcur' & mt & Hrun).
  exists cur'. split; [done|]. exists mt. unfold calculateMissingARecords.
  by erewrite run_bind by exact Hds.
Qed.

(** Whatever is listed, it differs from one of two records with different addresses. *)
Lemma outdated_one (l : list RecordSet) (n ip1 ip2 : string) (ttl : Z) : ip1 ≠ ip2 →
  outdated_A l (a_recordset n ttl [ip1]) = true ∨ outdated_A l (a_recordset n ttl [ip2]) = true.
Proof.
  intros Hne. unfold outdated_A. simpl. destruct (first_named n l) as [c|]; [|by left].
  destruct (rs_Properties c) as [p|]; simpl; [|by left].
  rewrite !bool_decide_Some.
  destruct (decide ([mkARecord (Some ip1)] = ARecords p)) as [<-|Hn1].
  - right. rewrite (bool_decide_false (_ = _)); [done|]. congruence.
  - left. by rewrite (bool_decide_false (_ = ARecords p)).
Qed.

(** C24: the comparison of desired and current A records returns exactly the
    desired record sets that are missing or differ in addresses or TTL, in
    order, for any listing whose entries can be read; it changes nothing but
    the metrics, and the provisioning states it clears in place change no later
    comparison. *)
Theorem calculateMissingARecords_exact (svc : Service W) cur ds s s1 :
  getDesiredARecords svc s = (Ok ds, s1) → Forall readable cur →
  ∃ cur', map strip cur' = map strip cur ∧
    ∃ mt, calculateMissingARecords svc cur s
      = (Ok (filter (λ d, outdated_A cur d) ds, cur'), set_metrics mt s1).
Proof. apply calculateMissingARecords_run. Qed.

(** C23: the desired A records are those of a definition without index searches
    and appends through pointers: none for an AKS cluster; else [api] and
    [apiserver] with the address of the API server; and unless the cluster is
    an AzureCluster, the ingress record and the gateway records after them.
    Both computations agree from every state, in result, error and effects. *)
Theorem getDesiredARecords_equiv (svc : Service W) : getDesiredARecords svc ≡ₘ desired_spec svc.
Proof. apply getDesiredARecords_spec. Qed.

(** The loop over gateway services makes one record per managed load
    balancer with an address, in order, and skips the rest; the loop over
    ingress services takes the first managed load balancer, and reports
    [ingressNotReadyError] when that one has no address yet. *)
Theorem service_loops_spec (zone : string) (items : list Service_obj) (s : St W) :
  gateway_loop zone items [] = omap (gateway_record zone) items ∧
  ingress_loop zone items s
  = (match first_managed items with
     | None => Ok None
     | Some (hostname, svc) =>
         match first_ingress_ip svc with
         | None => Err (Mask ingressNotReadyError)
         | Some ip =>
             Ok (Some (a_recordset (TrimSuffix hostname ("." +:+ zone)) ingressRecordTTL [ip]))
         end
     end, s).
Proof. split; [apply (gateway_loop_omap zone items [])|apply ingress_loop_run]. Qed.

(** The record name of a managed service: every service with an address
    gets a record, a hostname inside the cluster's zone the part before the
    zone; any other hostname is used as it is, so its record lands below the
    cluster's zone all the same. *)
Theorem gateway_record_name (zone : string) (items : list Service_obj) (svc : Service_obj)
    (hostname ip : string) :
  svc ∈ items → managed_hostname svc = Some hostname → first_ingress_ip svc = Some ip →
  ∃ name, a_recordset name gatewayRecordTTL [ip] ∈ gateway_loop zone items [] ∧
    if HasSuffix hostname ("." +:+ zone) then hostname = name +:+ ("." +:+ zone)
    else name = hostname.
Proof.
  intros Hin Hh Hip. exists (TrimSuffix hostname ("." +:+ zone)). split.
  - rewrite gateway_loop_omap. apply list_elem_of_omap. exists svc. split; [done|].
    unfold gateway_record. by rewrite Hh, Hip.
  - destruct (HasSuffix hostname _) eqn:Hs; [by apply TrimSuffix_split|by apply TrimSuffix_other].
Qed.

(** C39: two desired records of one name with different addresses never settle:
    whatever the zone holds, the comparison wants at least one of the two
    written again. *)
Theorem duplicate_names_never_settle (svc : Service W) cur ds s s1 (n ip1 ip2 : string)
    (ttl : Z) :
  getDesiredARecords svc s = (Ok ds, s1) → Forall readable cur → ip1 ≠ ip2 →
  a_recordset n ttl [ip1] ∈ ds → a_recordset n ttl [ip2] ∈ ds →
  ∃ missing cur' s', calculateMissingARecords svc cur s = (Ok (missing, cur'), s') ∧
    (a_recordset n ttl [ip1] ∈ missing ∨ a_recordset n ttl [ip2] ∈ missing).
Proof.
  intros Hds Hcur Hne Hin1 Hin2. destruct (calculateMissingARecords_run svc cur ds s s1 Hds Hcur)
    as (cur' & _ & mt & Hrun). eexists _, _, _. split; [exact Hrun|].
  destruct (outdated_one cur n ip1 ip2 ttl Hne) as [Ho|Ho]; [left|right];
    apply list_elem_of_filter; by rewrite Ho.
Qed.

(** When the listing already shows every desired record, the update of
    the A records writes nothing: beyond what reading the desired records did,
    only metrics change. *)
Theorem updateARecords_settled (svc : Service W) cur ds s s1 :
  getDesiredARecords svc s = (Ok ds, s1) → Forall readable cur →
  Forall (λ d, outdated_A cur d = false) ds →
  ∃ cur' mt, updateARecords svc cur s = (Ok cur', set_metrics mt s1).
Proof.
  intros Hds Hcur Hsettled.
  destruct (calculateMissingARecords_run svc cur ds s s1 Hds Hcur) as (cur' & _ & mt & Hrun).
  exists cur', mt. unfold updateARecords. erewrite run_bind by exact Hrun.
  assert (filter (λ d, outdated_A cur d) ds = []) as ->; [|done].
  clear -Hsettled. induction Hsettled as [|d ds Hd _ IH]; [done|].
  by rewrite filter_cons, Hd.
Qed.
End records.
