(* ===== verification/Idempotence.v ===== *)
(** A second reconciliation: from a state in which the records of the public
    zone are as a reconciliation leaves them, another one changes nothing in
    Azure, whatever its outcome - it writes the NS record again, with the value
    it has, and nothing else. *)
From S2P Require Import Prelude GoStd Errors Metrics Kube State Infra Azure Scope DnsClient.
From S2P Require Import AzureSpec InfraFacts DnsRecords DnsRecordsFacts DnsService TagFacts.
From S2P Require Import DnsServiceFacts.
Open Scope Z_scope.

(** * What a listing shows of a zone *)

(** Only one type of record set has the name. *)
Definition unshared (zd : ZoneData) (t : RecordType) (n : string) : Prop :=
  ∀ t', is_Some (zd_records zd !! (t', n)) → t' = t.

Lemma listing_complete `{AzureView} zd l t n p :
  listing zd l → zd_records zd !! (t, n) = Some p → is_Some (first_named n l).
Proof.
  intros [_ (kps & Hperm & Hl)] Hp.
  assert ((t, n, p) ∈ kps) as [i Hi]%list_elem_of_lookup.
  { rewrite Hperm. by apply elem_of_map_to_list. }
  destruct (Forall2_lookup_r _ _ _ _ _ Hl Hi) as (rs & Hrs & a & st & Hn & _).
  unfold first_named. destruct (list_find _ l) as [[j c]|] eqn:Hf; [by eexists|].
  apply list_find_None in Hf. rewrite Forall_forall in Hf. exfalso.
  apply (Hf rs); [by eapply list_elem_of_lookup_2|]. unfold has_name. rewrite Hn. simpl.
  by rewrite bool_decide_true.
Qed.

(** A record set that does not share its name is what a search finds. *)
Lemma listing_finds `{AzureView} zd l t n p :
  listing zd l → zd_records zd !! (t, n) = Some p → unshared zd t n →
  ∃ c p', first_named n l = Some c ∧ rs_Properties c = Some p' ∧ strip_props p' = strip_props p.
Proof.
  intros Hl Hp Hsole. destruct (listing_complete zd l t n p Hl Hp) as [c Hc].
  destruct (listing_reflects zd l Hl) as [_ Href].
  destruct (Href n c Hc) as (t' & p0 & p' & Hp0 & _ & Hc' & Hs).
  assert (t' = t) as -> by by apply Hsole. rewrite Hp in Hp0. injection Hp0 as <-.
  by exists c, p'.
Qed.

Lemma in_place_A `{AzureView} zd l d n :
  listing zd l → desired_A d → name_is d n → has_A zd d → unshared zd RecordTypeA n →
  outdated_A l d = false.
Proof.
  intros Hl (n' & ip & ->) [= ->] Hd Hsole.
  destruct (Hd n _ eq_refl eq_refl) as (p & Hp & Ha & Ht).
  destruct (listing_finds zd l _ n p Hl Hp Hsole) as (c & p' & Hc & Hp' & Hs).
  injection Hs as Hs1 Hs2 _ _. unfold outdated_A. simpl. rewrite Hc, Hp'. simpl.
  rewrite !bool_decide_Some, Hs1, Hs2, Ha, Ht. simpl. by rewrite !bool_decide_true.
Qed.

Lemma in_place_wildcard `{AzureView} zd l target d :
  listing zd l → has_wildcard zd target → unshared zd RecordTypeCNAME "*" →
  d ∈ desiredCnameRecords target → outdated_CNAME l d = false.
Proof.
  intros Hl (p & Hp & Hcn & Ht) Hsole ->%list_elem_of_singleton.
  destruct (listing_finds zd l _ _ p Hl Hp Hsole) as (c & p' & Hc & Hp' & Hs).
  injection Hs as Hs1 _ Hs3 _. unfold outdated_CNAME. simpl. rewrite Hc, Hp'. simpl.
  rewrite !bool_decide_Some, Hs1, Hs3, Hcn, Ht. by rewrite !bool_decide_true.
Qed.

(** Nothing is found outdated where no element is. *)
Lemma filter_none {A} (f : A → bool) l : Forall (λ x, f x = false) l → filter f l = [].
Proof.
  induction 1 as [|x l Hx _ IH]; [done|]. rewrite filter_cons, IH. by rewrite Hx.
Qed.

(** Writing the value that is there. *)
Lemma record_put_same {W} `{AzureView W} k t n p zd (w w' : W) :
  az_zones w !! k = Some zd → zd_records zd !! (t, n) = Some (stored t p) →
  maybe (record_put k t n p) w w' → same_view w w'.
Proof.
  intros Hk Hp [Hv|[[Hg Hpriv] (zd' & Hk' & Hz)]]; [done|].
  rewrite Hk in Hk'. injection Hk' as <-. split; [|done]. split; [|done].
  rewrite Hz. apply insert_id. rewrite Hk. unfold put_record.
  rewrite insert_id by done. by destruct zd.
Qed.

(** * The second run *)

Section again.
Context {W : Type} `{Microerror, Kubernetes W, Prometheus, AzureView W}.
Context (svc : Service W) (sub bsub : string).

(** The records of the zones are as a reconciliation leaves them: the tags of
    the group, the zone with the wildcard record and whatever A records are
    desired, none of them sharing its name with another type, and the
    delegation. *)
Record settled (s : St W) : Prop := {
  settled_group : isAzureCluster (infraCluster s) = false →
    ∃ g, az_groups (world s) !! cluster_group svc sub = Some g ∧
         map_of (rg_Tags g) = map_of (resourceTags (scope svc));
  settled_zones : ∃ zd zb, az_zones (world s) !! cluster_zone svc sub = Some zd ∧
    az_zones (world s) !! base_zone svc bsub = Some zb ∧
    zd_records zb !! (RecordTypeNS, ClusterName (svc_Patcher svc))
      = Some (ns_record (zd_nameservers zd)) ∧
    has_wildcard zd (WildcardFQDN (scope svc)) ∧ unshared zd RecordTypeCNAME "*" ∧
    ∀ s1 ds s2, azure_quiet s s1 → getDesiredARecords svc s1 = (Ok ds, s2) →
      Forall (λ d, has_A zd d ∧ ∀ n, name_is d n → unshared zd RecordTypeA n) ds;
}.

Lemma settled_quiet s s' : azure_quiet s s' → settled s → settled s'.
Proof.
  intros Hq [Hg Hz]. pose proof Hq as [[[Ez Eg] _] Ei]. split.
  - by rewrite Eg, Ei.
  - destruct Hz as (zd & zb & Hzd & Hzb & Hns & Hw & Hu & Hds). exists zd, zb. rewrite Ez.
    split_and!; [done..|]. intros s1 ds s2 Hq1. apply Hds. by etransitivity.
Qed.

Context `{!InView svc sub bsub}.
Context `{!ClientSpec (svc_azureClient svc) sub, !ClientSpec (svc_azureBaseZoneClient svc) bsub}.
Context `{!KubeKeepsAzure, !PatcherSpec (svc_Patcher svc) (publicIPsService svc)}.

(** A read. *)
Lemma runs_read_quiet {A} (P : A → Prop) (m : G W A) s :
  wp m (λ r s', quiet s s' ∧ same_view (world s) (world s') ∧
    match r with Ok a => P a | Err _ => True | _ => False end) s →
  runs azure_quiet m s (λ a _, P a).
Proof.
  intros Hm. eapply wp_mono; [exact Hm|]. intros r s' ([_ Hi] & Hv & Hr).
  split; [by split|]. by destruct r.
Qed.

Lemma runs_quiet_metrics f s (P : unit → St W → Prop) :
  P tt (set_metrics (f (metrics s)) s) → runs azure_quiet (upd_metrics f) s P.
Proof. intros HP. by apply runs_modify. Qed.

Lemma runs_group_again s :
  settled s → tags_set (resourceTags (scope svc)) → isAzureCluster (infraCluster s) = false →
  runs azure_quiet (createClusterResourceGroup svc) s (λ _ _, True).
Proof.
  intros [Hg _] Htags Hkind. destruct (Hg Hkind) as (g & Hk & Heq).
  unfold createClusterResourceGroup.
  rbind (λ r _, match r with inr g' => g' = g ∧ group_wf g | inl e =>
    IsResourceNotFoundError e = false end).
  { apply runs_try. eapply wp_mono; [apply spec_GetResourceGroup|].
    intros r s' ([_ Hi] & Hv & Hr). fold (cluster_group svc sub) in Hr.
    pose proof (in_view_group svc sub bsub) as Hview.
    destruct r as [g'|e| |]; [..|done|done]; (split; [by split|]).
    - destruct (Hr Hview) as [Hr' Hwf]. rewrite Hk in Hr'. by injection Hr' as <-.
    - destruct (IsResourceNotFoundError e); [|done]. by rewrite Hr in Hk. }
  intros [e|g'] s' _ Hr; [rewrite Hr; by rthrow|]. destruct Hr as [-> Hwf].
  unfold updateClusterResourceGroup.
  eapply runs_read; [apply resourceGroupTagsEqual_run; [apply Hwf|done]|].
  rewrite bool_decide_true by done. by rret.
Qed.

Lemma runs_list_again s zd :
  az_zones (world s) !! cluster_zone svc sub = Some zd →
  runs azure_quiet (list_or_create_zone svc) s (λ l _, listing zd l).
Proof.
  intros Hzd. unfold list_or_create_zone.
  rbind (λ r _, match r with
    | inr l => listing zd l
    | inl e => IsParentResourceNotFound (Some e) = false end).
  { apply runs_try. eapply wp_mono; [apply spec_ListRecordSets|].
    intros r s' ([_ Hi] & Hv & Hr). fold (cluster_zone svc sub) in Hr.
    pose proof (in_view_zone svc sub bsub) as Hview.
    destruct r as [l|e| |]; [..|done|done]; (split; [by split|]).
    - destruct Hr as [_ Hr]. destruct (Hr Hview) as (zd' & Hk & Hl). rewrite Hzd in Hk. by injection Hk as <-.
    - destruct (IsParentResourceNotFound (Some e)); [|done]. by rewrite Hr in Hzd. }
  intros [e|l] s' _ Hr; [|by rret]. rewrite Hr.
  rbind (λ _ _, True); [by apply runs_quiet_metrics|]. intros; by rthrow.
Qed.

Lemma runs_NS_again s zd zb :
  az_zones (world s) !! base_zone svc bsub = Some zb →
  zd_records zb !! (RecordTypeNS, ClusterName (svc_Patcher svc))
    = Some (ns_record (zd_nameservers zd)) →
  runs azure_quiet (createClusterNSRecord svc (map mkNsRecord (zd_nameservers zd))) s (λ _ _, True).
Proof.
  intros Hzb Hns. unfold createClusterNSRecord.
  rbind (λ _ _, True); [|intros; by rret].
  eapply wp_mono; [apply spec_CreateOrUpdateRecordSet; [right; apply (in_view_NS svc sub bsub)|done]|].
  intros r s' [[_ Hi] Hr]. fold (base_zone svc bsub) in Hr.
  assert (same_view (world s) (world s')) as Hv.
  { destruct r; [..|done|done]; (eapply record_put_same; [exact Hzb| |]); [|by right| |exact Hr];
      exact Hns. }
  split; [by split|]. by destruct r.
Qed.

(** The desired A records are all there: none is written. *)
Lemma runs_A_again s zd l :
  listing zd l →
  (∀ ds s2, getDesiredARecords svc s = (Ok ds, s2) →
     Forall (λ d, has_A zd d ∧ ∀ n, name_is d n → unshared zd RecordTypeA n) ds) →
  runs azure_quiet (updateARecords svc l) s (λ l' _, map strip l' = map strip l).
Proof.
  intros Hl Hds. destruct (listing_reflects zd l Hl) as [Hread _].
  unfold updateARecords, calculateMissingARecords.
  rbind (λ '(todo, l') _, todo = [] ∧ map strip l' = map strip l).
  2: { intros [todo l'] s' _ [-> Hl']. rbind (λ _ _, True); [by rret|]. intros; by rret. }
  rbind (λ ds s', getDesiredARecords svc s = (Ok ds, s')).
  { split; [apply (getDesiredARecords_quiet svc)|].
    pose proof (getDesiredARecords_total svc s) as Ht.
    by destruct (getDesiredARecords svc s) as [[ds|e| |] s1]. }
  intros ds s1 _ Hg. specialize (Hds ds s1 Hg).
  pose proof (getDesiredARecords_desired svc s ds s1 Hg) as Hdesired.
  destruct (compare_loop_run svc ds [] l s1 Hdesired Hread) as (l' & Hl' & [mt Hr]).
  unfold runs, wp. rewrite Hr. simpl. split; [by split|]. split; [|done].
  apply filter_none. apply Forall_forall. intros d Hd. rewrite Forall_forall in Hds, Hdesired.
  destruct (Hds d Hd) as [Hin Hsole]. pose proof (Hdesired d Hd) as Hda.
  destruct (Hda) as (n & ip & Hdn). eapply in_place_A; [done|done| |done|].
  - by rewrite Hdn.
  - apply Hsole. by rewrite Hdn.
Qed.

Lemma runs_CNAME_again s zd l l' :
  listing zd l → map strip l' = map strip l → has_wildcard zd (WildcardFQDN (scope svc)) →
  unshared zd RecordTypeCNAME "*" →
  runs azure_quiet (updateCnameRecords svc l') s (λ _ _, True).
Proof.
  intros Hl Hs Hw Hu. destruct (listing_reflects zd l Hl) as [Hread _].
  unfold updateCnameRecords. eapply runs_read.
  { apply calculateMissingCnameRecords_run. by eapply Forall_readable_strip. }
  rewrite filter_none; [by rret|]. apply Forall_forall. intros d Hd.
  rewrite (outdated_CNAME_strip l' l) by done. by eapply in_place_wildcard.
Qed.

Lemma runs_Reconcile_again s :
  tags_set (resourceTags (scope svc)) →
  ¬ decoded_addr (cluster_Name_addr (s_Cluster (svc_Scope svc))) →
  settled s → runs azure_quiet (Reconcile svc) s (λ _ s', settled s').
Proof.
  intros Htags Hfresh Hs. eapply (runs_mono _ _ _ (λ _ _, True)).
  2: { intros [] s' Hq _. by eapply settled_quiet. }
  unfold Reconcile. rread. rbind (λ _ _, True).
  { destruct (isAzureCluster (infraCluster s)) eqn:Hk; [by rret|].
    rbind (λ _ _, True); [|intros; by rret]. apply runs_map_err. by apply runs_group_again. }
  intros [] s1 Q1 _. rbind (λ _ _, True); [by apply runs_quiet_metrics|].
  intros [] s2 Q2 _. apply (settled_quiet s s2) in Hs; [|by etransitivity].
  pose proof Hs as [_ (zd & zb & Hzd & Hzb & Hns & Hw & Hu & Hds)].
  rbind; [by apply runs_list_again|]. intros l s3 Q3 Hl. cbn beta in Hl.
  rbind; [apply runs_map_err, runs_read_quiet, spec_GetZone|].
  intros zn s4 Q4 Hget.
  destruct (Hget (in_view_zone svc sub bsub)) as (zd' & Hzd' & Hzn). fold (cluster_zone svc sub) in Hzd'.
  pose proof Q3 as [[[Ez3 _] _] _]. rewrite Ez3, Hzd in Hzd'. injection Hzd' as <-.
  rewrite Hzn. do 2 rread. rbind (λ _ _, True); [by apply runs_quiet_metrics|]. intros [] s5 Q5 _.
  rbind (λ lb _, Forall decoded lb).
  { apply runs_map_err. eapply wp_mono; [apply spec_ListRecordSets|].
    intros r s' ([_ Hi] & Hv & Hr). fold (base_zone svc bsub) in Hr.
    destruct r as [lb|e| |]; [..|done|done]; (split; [by split|]); [|done]. by destruct Hr. }
  intros lb s6 Q6 Hlb. rbind (λ _ _, True); [by apply runs_quiet_metrics|]. intros [] s7 Q7 _.
  eapply runs_read; [by eapply find_clusterNSRecord_run|]. simpl.
  assert (azure_quiet s2 s7) as Q by (do 4 (etransitivity; [eassumption|]); done).
  pose proof Q as [[[Ez _] _] _].
  rbind; [apply runs_map_err, (runs_NS_again s7 zd zb); [by rewrite Ez|done]|].
  intros [] s8 Q8 _. rbind; [apply runs_map_err, (runs_A_again s8 zd l); [done|]|].
  { intros ds s9 Hg. apply (Hds s8 ds s9); [by transitivity s7|done]. }
  intros l' s9 Q9 Hl'. apply runs_map_err. by apply (runs_CNAME_again s9 zd l).
Qed.

(** C13: from a state that is as a reconciliation leaves it, another
    reconciliation returns, and on every path, with or without an error,
    Azure's zones, records and groups and the infrastructure cluster object
    are what they were. *)
Theorem Reconcile_idempotent s :
  tags_set (resourceTags (scope svc)) →
  ¬ decoded_addr (cluster_Name_addr (s_Cluster (svc_Scope svc))) →
  settled s → runs azure_quiet (Reconcile svc) s (λ _ s', settled s').
Proof. apply runs_Reconcile_again. Qed.
End again.
