(* ===== verification/Settling.v ===== *)
(** Two reconciliations in a row: a successful one leaves the public records in
    a state in which another one changes nothing. *)
From S2P Require Import Prelude GoStd Errors Metrics Kube State Infra Azure Scope DnsClient.
From S2P Require Import AzureSpec InfraFacts DnsRecords DnsRecordsFacts DnsService TagFacts.
From S2P Require Import DnsServiceFacts DnsReconcile Idempotence.
Open Scope Z_scope.

(** Azure's rule for CNAME record sets: they share their name with no other. *)
Definition cname_alone (zd : ZoneData) : Prop :=
  ∀ n, is_Some (zd_records zd !! (RecordTypeCNAME, n)) → unshared zd RecordTypeCNAME n.

Section settling.
Context {W : Type} `{Microerror, Kubernetes W, Prometheus, AzureView W}.
Context (svc : Service W) (sub bsub : string).

(** The desired records are [ds] as long as nothing but permitted writes
    happens: the services and the endpoint stay as they are. *)
Definition steady (ds : list RecordSet) (s : St W) : Prop :=
  ∀ s1 ds' s2, frame svc sub bsub s s1 → getDesiredARecords svc s1 = (Ok ds', s2) → ds' = ds.

(** Their names are free: in a zone that exists no record set of another type
    has one, and a zone that is new has its own record sets at the apex only. *)
Definition names_free (ds : list RecordSet) (s : St W) : Prop :=
  Forall (λ d, ∀ n, name_is d n →
    match az_zones (world s) !! cluster_zone svc sub with
    | Some zd => unshared zd RecordTypeA n
    | None => n ≠ "@"
    end) ds.

(** What a zone has after permitted writes only it had before, or it is among
    what may be written, or the zone is new and it is at the apex. *)
Lemma within_origin w w' zd t n :
  within svc sub bsub w w' → az_zones w' !! cluster_zone svc sub = Some zd →
  is_Some (zd_records zd !! (t, n)) →
  t = RecordTypeA ∨ t = RecordTypeCNAME ∨
  match az_zones w !! cluster_zone svc sub with
  | Some zd0 => is_Some (zd_records zd0 !! (t, n))
  | None => n = "@"
  end.
Proof.
  intros [_ Hz _ Hnew _ _] Hzd Hin.
  assert (may_write svc sub bsub (cluster_zone svc sub) (t, n) →
    t = RecordTypeA ∨ t = RecordTypeCNAME) as Hmay.
  { intros [[_ [Ht|[= -> _]]]|[Heq _]]; [by left|by right|].
    by destruct (base_zone_ne svc sub bsub). }
  destruct (az_zones w !! cluster_zone svc sub) as [zd0|] eqn:Hzd0.
  - destruct (decide (may_write svc sub bsub (cluster_zone svc sub) (t, n))) as [Hm|Hm]; [tauto|].
    destruct (Hz _ _ Hzd0) as (zd1 & Hzd1 & _ & Hr & _). rewrite Hzd in Hzd1.
    injection Hzd1 as <-. rewrite Hr in Hin by done. tauto.
  - destruct (Hnew zd eq_refl Hzd _ Hin); tauto.
Qed.

Lemma has_A_unshared ds d s s' zd n :
  frame svc sub bsub s s' → names_free ds s → d ∈ ds → desired_A d →
  az_zones (world s') !! cluster_zone svc sub = Some zd → cname_alone zd →
  has_A zd d → name_is d n → unshared zd RecordTypeA n.
Proof.
  intros [Hw _] Hfree Hd (m & ip & ->) Hzd Hrule Hhas [= <-] t Ht.
  assert (is_Some (zd_records zd !! (RecordTypeA, m))) as HA.
  { destruct (Hhas m _ eq_refl eq_refl) as (p & Hp & _). by eexists. }
  destruct (within_origin _ _ _ _ _ Hw Hzd Ht) as [->|[->|Hold]]; [done| |].
  - by specialize (Hrule m Ht RecordTypeA HA).
  - unfold names_free in Hfree. rewrite Forall_forall in Hfree. specialize (Hfree _ Hd m eq_refl).
    destruct (az_zones (world s) !! cluster_zone svc sub); [by apply Hfree|done].
Qed.

Lemma converged_settled ds s s' :
  frame svc sub bsub s s' → converged svc sub bsub s s' →
  steady ds s → NoDup (map record_name ds) → names_free ds s →
  (∀ zd, az_zones (world s') !! cluster_zone svc sub = Some zd → cname_alone zd) →
  (isAzureCluster (infraCluster s') = false →
    ∃ g, az_groups (world s') !! cluster_group svc sub = Some g ∧
         map_of (rg_Tags g) = map_of (resourceTags (scope svc))) →
  settled svc sub bsub s'.
Proof.
  intros Hf [HA (zdw & Hzdw & Hw) (zdn & zb & Hzdn & Hzb & Hns)] Hsteady Hnd Hfree Hrule Hg.
  destruct HA as (s0 & zd0 & zd & ds0 & s1 & _ & Hf0 & _ & Hzd & Hds & Hall & _).
  pose proof (Hsteady _ _ _ Hf0 Hds) as ->. rewrite uniquely_named_all in Hall by done.
  pose proof (getDesiredARecords_desired svc _ _ _ Hds) as Hdesired. simplify_eq.
  pose proof (Hrule _ Hzd) as Hr. split; [done|]. exists zd, zb. split_and!; [done..| |].
  - destruct Hw as (p & Hp & _). apply Hr. by eexists.
  - intros s2 ds' s3 Hq Hd'. assert (ds' = ds) as ->.
    { eapply Hsteady, Hd'. etransitivity; [exact Hf|by apply frame_azure_quiet]. }
    rewrite Forall_forall in Hall. rewrite Forall_forall in Hdesired.
    apply Forall_forall. intros d Hd. split; [by apply Hall|].
    intros n Hn. apply (has_A_unshared ds d s s'); auto.
Qed.

Context `{!InView svc sub bsub}.
Context `{!ClientSpec (svc_azureClient svc) sub, !ClientSpec (svc_azureBaseZoneClient svc) bsub}.
Context `{!KubeKeepsAzure, !PatcherSpec (svc_Patcher svc) (publicIPsService svc)}.

(** C12: a reconciliation after a successful one changes nothing in Azure,
    whatever it comes to: as long as the desired records stay what they are,
    their names differ and are not those of foreign record sets, Azure lets no
    CNAME share its name, and the resource group has no tags but the
    operator's. *)
Theorem Reconcile_twice ds s s' :
  tags_set (resourceTags (scope svc)) →
  ¬ decoded_addr (cluster_Name_addr (s_Cluster (svc_Scope svc))) →
  steady ds s → NoDup (map record_name ds) → names_free ds s →
  (∀ zd, az_zones (world s') !! cluster_zone svc sub = Some zd → cname_alone zd) →
  (isAzureCluster (infraCluster s) = false →
    ∃ g, az_groups (world s') !! cluster_group svc sub = Some g ∧
         map_of (rg_Tags g) = map_of (resourceTags (scope svc))) →
  Reconcile svc s = (Ok tt, s') →
  runs azure_quiet (Reconcile svc) s' (λ _ s'', settled svc sub bsub s'').
Proof.
  intros Htags Haddr Hsteady Hnd Hfree Hrule Hg Hrun.
  pose proof (runs_Reconcile svc sub bsub s Htags Haddr) as Hconv. unfold runs, wp in Hconv.
  rewrite Hrun in Hconv. destruct Hconv as [Hf Hconv]. simpl in Hf, Hconv.
  apply (runs_Reconcile_again svc sub bsub); [done|done|].
  apply (converged_settled ds s s'); try done. by rewrite (proj2 Hf).
Qed.
End settling.
