(* ===== verification/ClientProps.v ===== *)
(** The properties of the two DNS clients (client.go): they implement the
    interfaces the services are proved against, listings end, errors keep their
    meaning, requests are counted. *)
From S2P Require Import Prelude GoStd Errors Metrics Kube State Infra Azure Scope DnsClient.
From S2P Require Import AzureSpec DnsClientFacts PrivateClient PrivateFacts PrivateClientFacts.
Open Scope Z_scope.

Section client_props.
Context {W : Type} `{Microerror, Kubernetes W, Prometheus, AzureSDK W}.

(** C15: from the documented behaviour of the SDK, the client implements the
    contract of the [client] interface for the subscription its SDK clients
    were made for, on every method and every outcome, given fuel for as many
    pages as a listing can have. *)
Theorem azureClient_implements_client `{!AzureView W, !MicroerrorLaws, !SDKSpec W}
    (ac : azureClient) (sub : string) (fuel : nat) :
  clients_of ac sub → (page_bound (W := W) ≤ fuel)%nat →
  ClientSpec (azureClient_client fuel ac) sub.
Proof. apply azureClient_meets_spec. Qed.

(** C16: from the documented behaviour of the private DNS API - requests that
    begin an operation and pollers that complete it, pages that add up to a
    listing - the private client implements the contract of its interface, on
    every method and every outcome, given fuel for as many pages as a listing
    can have. *)
Theorem privateClient_implements_client `{!AzureView W, !PrivateSDKSpec W}
    (ac : privateClient) (sub : string) (fuel : nat) :
  private_clients_of ac sub → (private_page_bound (W := W) ≤ fuel)%nat →
  PrivateClientSpec (privateClient_Client fuel ac) sub.
Proof. apply privateClient_meets_spec. Qed.

(** A listing whose pager ends within [n] pages returns with any fuel from
    [n] on, whatever the server answers, and its result does not depend on the
    fuel. *)
Theorem ListRecordSets_terminates (ac : azureClient) (rg zone : string) (n fuel : nat) (s : St W) :
  ends_within n (recordSets_NewListByDNSZonePager (recordSets ac) rg zone) →
  (n ≤ fuel)%nat →
  returned (azureClient_ListRecordSets fuel ac rg zone s).1 ∧
  azureClient_ListRecordSets fuel ac rg zone s = azureClient_ListRecordSets n ac rg zone s.
Proof.
  intros Hend Hle. unfold azureClient_ListRecordSets.
  do 2 erewrite (run_bind (count_request _)) by done.
  rewrite (drain_more_fuel Mask n fuel) by done. split; [|done].
  by apply (drain_returns Mask n).
Qed.


(** ** Request counters *)

Context `{!PrometheusLaws}.

Definition requests (s : St W) : string → nat := CounterValue (AzureRequest (metrics s)).
Definition request_errors (s : St W) : string → nat :=
  CounterValue (AzureRequestError (metrics s)).

(** [m] is one request: its counter goes up by one, its error counter by one
    exactly when it fails, and no other counter moves. *)
Definition counted_once {A} (method : string) (m : G W A) : Prop := ∀ s,
  let '(r, s') := m s in
  requests s' method = S (requests s method) ∧
  request_errors s' method = (request_errors s method + if is_Err r then 1 else 0)%nat ∧
  ∀ other, other ≠ method →
    requests s' other = requests s other ∧ request_errors s' other = request_errors s other.

Lemma counted_once_call {A} (method : string) (f : io W A) :
  counted_once method (count_request method;; counted_mask method (call f)).
Proof.
  intros s. unfold counted_mask. erewrite run_bind by done.
  unfold mbind at 1, M_bind at 1, try, call.
  destruct (f (world (set_metrics (AzureRequest_Inc method (metrics s)) s))) as [[e|a] w'];
    unfold requests, request_errors; simpl.
  - rewrite !CounterValue_Inc_eq. split_and!; [done|lia|].
    intros other Hne. by rewrite !CounterValue_Inc_ne by done.
  - rewrite !CounterValue_Inc_eq. split_and!; [done|lia|].
    intros other Hne. by rewrite !CounterValue_Inc_ne by done.
Qed.

(** Reads and writes of zones and record sets are counted once under their
    own name, and their failures once. *)
Theorem requests_counted (ac : azureClient) (rg zone n : string) (t : RecordType)
    (rs : RecordSet) (z : Zone) :
  counted_once "zones.Get" (azureClient_GetZone ac rg zone) ∧
  counted_once "zones.CreateOrUpdate" (azureClient_CreateOrUpdateZone ac rg zone z) ∧
  counted_once "recordSets.CreateOrUpdate"
    (azureClient_CreateOrUpdateRecordSet ac rg zone t n rs) ∧
  counted_once "recordSets.Delete" (azureClient_DeleteRecordSet ac rg zone t n).
Proof. split_and!; apply counted_once_call. Qed.

(** The creation of a resource group is the exception: the request counts
    under [resourceGroups.createOrUpdate], its failure under
    [resourceGroups.CreateOrUpdate], so no failure is ever counted under the
    name its requests have. *)
Theorem resource_group_errors_elsewhere (ac : azureClient) (rg : string) (g : ResourceGroup)
    (s : St W) :
  let '(r, s') := azureClient_CreateOrUpdateResourceGroup ac rg g s in
  requests s' "resourceGroups.createOrUpdate" = S (requests s "resourceGroups.createOrUpdate") ∧
  request_errors s' "resourceGroups.createOrUpdate"
    = request_errors s "resourceGroups.createOrUpdate" ∧
  request_errors s' "resourceGroups.CreateOrUpdate"
    = (request_errors s "resourceGroups.CreateOrUpdate" + if is_Err r then 1 else 0)%nat.
Proof.
  unfold azureClient_CreateOrUpdateResourceGroup, counted_mask. erewrite run_bind by done.
  unfold mbind at 1, M_bind at 1, try, call.
  destruct (resourceGroups_CreateOrUpdate _ _ _ _) as [[e|a] w'];
    unfold requests, request_errors; simpl.
  - rewrite !CounterValue_Inc_eq. split_and!; [done| |lia].
    by rewrite CounterValue_Inc_ne by done.
  - rewrite !CounterValue_Inc_eq. split_and!; [done|done|lia].
Qed.
End client_props.
