(* ===== verification/PrivateReconcile.v ===== *)
(** The properties of the private DNS service: what a completed reconciliation
    has established, how it fails, what deletion takes away, and which
    addresses its records get. *)
From S2P Require Import Prelude GoStd Errors Metrics Kube State Infra Azure Scope DnsClient.
From S2P Require Import PrivateClient DnsRecords DnsService PrivateDns AzureSpec TagFacts.
From S2P Require Import DnsRecordsFacts DnsServiceFacts PrivateFacts.
Open Scope Z_scope.

Section reconcile.
Context {W : Type} `{Microerror, Kubernetes W, Prometheus, AzureView W}.
Context (svc : PrivateDns.Service W) (sub : string).

(** What a completed reconciliation that started in [s] leaves. *)
Record private_converged (s s' : St W) : Prop := {
  pconv_zone : ∃ zd, az_private (world s') !! private_zone svc sub = Some zd ∧
    Forall (has_A zd) (private_desired (PrivateDns.scope svc)) ∧
    has_wildcard zd (PrivateWildcardFQDN (PrivateDns.scope svc));
  pconv_link : network_linked svc (links svc sub s) (links svc sub s');
}.

Lemma private_wildcard zd zd1 l target :
  reflects zd l →
  (∀ t n, t ≠ RecordTypeA → zd_records zd1 !! (t, n) = zd_records zd !! (t, n)) →
  has_wildcard
    (if existsb (outdated_CNAME l) (PrivateDns.desiredCnameRecords target)
     then put_record RecordTypeCNAME "*"
            (mkProperties (Some PrivateDns.cnameRecordTTL) []
               (Some (mkCnameRecord (Some target))) [] None) zd1
     else zd1) target.
Proof.
  intros Hl Hsame. destruct (existsb _ _) eqn:Hex.
  - eexists. split; [apply lookup_insert_eq|done].
  - simpl in Hex. apply orb_false_iff in Hex as [Ho _].
    destruct (current_has_wildcard zd l target _ Hl
                (proj2 (list_elem_of_singleton _ _) eq_refl) Ho) as (p & Hp & Hrest).
    exists p. split; [|done]. by rewrite Hsame.
Qed.

Context `{!PrivateClientSpec (privateDNSClient svc) sub}.

(** The end of a reconciliation: a value with the promise kept, an error, or
    the panic of a read of the zone that failed; never an endless loop. *)
Definition private_outcome (s : St W) (r : outcome GoError unit) (s' : St W) : Prop :=
  match r with
  | Ok _ => private_converged s s'
  | Err _ => True
  | Panic => ∃ s0 e, pc_GetPrivateZone (privateDNSClient svc)
      (ManagementClusterResourceGroup (PrivateDns.scope svc))
      (PrivateClusterDomain (PrivateDns.scope svc)) s0 = (Err e, s')
  | Diverged => False
  end.

(** The rest of a reconciliation, started in [s0], whose first calls run within
    the frame. *)
Lemma private_cut {A} (m : G W A) (k : A → G W unit) s0 s (P : A → St W → Prop) :
  runs (private_frame svc sub) m s P →
  (∀ a s1, private_frame svc sub s s1 → P a s1 →
     wp (k a) (λ r s', private_frame svc sub s1 s' ∧ private_outcome s0 r s') s1) →
  wp (m ≫= k) (λ r s', private_frame svc sub s s' ∧ private_outcome s0 r s') s.
Proof.
  intros [HR Hm] Hk. apply wp_bind. unfold wp in *.
  destruct (m s) as [[a|e| |] s1]; simpl in *; [|done..].
  destruct (Hk a s1 HR Hm) as [HR' Hk']. split; [by etransitivity|done].
Qed.

(** What comes after the link: the metric of the zone's size and the records. *)
Lemma private_records s0 s zd l :
  reflects zd l → private_zone_is svc sub zd s →
  network_linked svc (links svc sub s0) (links svc sub s) →
  is_Ok (pc_GetPrivateZone (privateDNSClient svc)
           (ManagementClusterResourceGroup (PrivateDns.scope svc))
           (PrivateClusterDomain (PrivateDns.scope svc)) s).1 = true →
  runs (private_frame svc sub)
    (export_zone_size svc;; map_err Mask (PrivateDns.updateARecords svc l);;
     map_err Mask (PrivateDns.updateCnameRecords svc l)) s (λ _ s', private_converged s0 s').
Proof.
  intros Hl Hzone Hlink Hget.
  rbind; [by apply runs_export_zone_size|]. intros [] s4 _ [_ [Hz4 Hl4]].
  rbind; [apply runs_map_err; apply (runs_private_updateARecords svc sub zd l); [|done]|].
  { unfold private_zone_is in *. by rewrite Hz4. }
  intros [] s5 _ [Hz5 Hl5]. set (zd1 := fold_left put_A _ zd) in Hz5.
  eapply runs_mono; [apply runs_map_err, runs_private_updateCnameRecords; [done..|apply Hl]|].
  intros [] s6 _ [Hz6 Hl6].
  assert (∀ t n, t ≠ RecordTypeA → zd_records zd1 !! (t, n) = zd_records zd !! (t, n)) as Hsame.
  { intros t n Ht. by apply put_A_other. }
  split.
  - eexists. split; [exact Hz6|]. split; [|by eapply private_wildcard].
    rewrite <- (uniquely_named_all (private_desired _)) by apply private_desired_names.
    eapply Forall_impl.
    { apply (put_A_has_A l _ zd); [apply private_desired_A|done]. }
    intros d. apply has_A_agree. intros n. destruct (existsb _ _); [|done].
    by apply lookup_insert_ne.
  - rewrite Hl6, Hl5. unfold links, links_of in *. by rewrite Hl4.
Qed.

Lemma wp_private_Reconcile s :
  wp (PrivateDns.Reconcile svc)
    (λ r s', private_frame svc sub s s' ∧ private_outcome s r s') s.
Proof.
  unfold PrivateDns.Reconcile.
  apply (private_cut _ _ _ _ (λ _ s', links svc sub s' = links svc sub s));
    [apply runs_modify; [by apply frame_same_view|done]|].
  intros [] s1 _ Hl1. eapply private_cut; [by apply runs_private_zone|].
  intros l s2 _ (zd & Hzd & Hl & Hl2).
  eapply private_cut; [by apply runs_ensure_link|]. intros [] s3 _ [Hz3 Hlink].
  rewrite Hl2, Hl1 in Hlink.
  destruct (is_Ok (pc_GetPrivateZone (privateDNSClient svc)
           (ManagementClusterResourceGroup (PrivateDns.scope svc))
           (PrivateClusterDomain (PrivateDns.scope svc)) s3).1) eqn:Hget.
  - eapply wp_mono; [apply (private_records s s3 zd l Hl); [|exact Hlink|exact Hget]|].
    { unfold private_zone_is in *. by rewrite Hz3. }
    intros [] s' [HR Hr]; by split.
  - pose proof (spec_GetPrivateZone (c := privateDNSClient svc) (sub := sub)
      (ManagementClusterResourceGroup (PrivateDns.scope svc))
      (PrivateClusterDomain (PrivateDns.scope svc)) s3) as Hspec.
    unfold wp in Hspec.
    destruct (pc_GetPrivateZone _ _ _ s3) as [[z|e| |] s4] eqn:Hrun; [done| |by destruct Hspec as (_ & _ & [])..].
    simpl in Hspec. assert (export_zone_size svc s3 = (Panic, s4)) as Hpanic.
    { unfold export_zone_size. erewrite run_bind by (by apply run_try_Err). done. }
    unfold wp, mbind, M_bind. rewrite Hpanic. split; [|by exists s3, e].
    apply frame_same_view; apply Hspec.
Qed.

(** C18: from every state, a reconciliation has at no point changed more than
    the cluster's private zone (its A records and wildcard record) and its
    links, also when it fails; when it returns without an error, the zone
    exists with every private A record and the wildcard record, and its links
    are those it had if the operator's was among them, and otherwise include one
    of the operator's name to the network of the scope, the others being those
    it had less the one that led to this network.  It always ends, and ends in a
    panic only when reading the zone fails. *)
Theorem private_Reconcile_converges s :
  wp (PrivateDns.Reconcile svc)
    (λ r s', private_frame svc sub s s' ∧ private_outcome s r s') s.
Proof. apply wp_private_Reconcile. Qed.

Lemma wp_private_ReconcileDelete s :
  wp (PrivateDns.ReconcileDelete svc) (λ r s',
    let k := private_zone svc sub in
    let n := virtualNetworkLinkName (ManagementClusterResourceGroup (PrivateDns.scope svc)) in
    match r with
    | Ok _ => ∃ w1, link_deleted k n (world s) w1 ∧ private_deleted k w1 (world s')
    | Err _ => maybe (link_deleted k n) (world s) (world s') ∨
        ∃ w1, link_deleted k n (world s) w1 ∧ maybe (private_deleted k) w1 (world s')
    | _ => False
    end) s.
Proof.
  unfold PrivateDns.ReconcileDelete. apply wp_bind, wp_map_err.
  eapply wp_mono; [apply (spec_DeleteVirtualNetworkLink (sub := sub))|].
  intros r s1 [_ Hr]. destruct r as [[]|e| |]; simpl; [|by left|done..].
  apply wp_map_err. eapply wp_mono; [apply (spec_DeletePrivateZone (sub := sub))|].
  intros r s2 [_ Hr2]. destruct r as [[]|e| |]; [..|done|done].
  - by exists (world s1).
  - right. by exists (world s1).
Qed.

(** C32: deletion removes the operator's link, then the zone, and nothing else;
    an error of the first step leaves the zone alone. *)
Theorem private_ReconcileDelete_removes s :
  wp (PrivateDns.ReconcileDelete svc) (λ r s',
    let k := private_zone svc sub in
    let n := virtualNetworkLinkName (ManagementClusterResourceGroup (PrivateDns.scope svc)) in
    match r with
    | Ok _ => ∃ w1, link_deleted k n (world s) w1 ∧ private_deleted k w1 (world s')
    | Err _ => maybe (link_deleted k n) (world s) (world s') ∨
        ∃ w1, link_deleted k n (world s) w1 ∧ maybe (private_deleted k) w1 (world s')
    | _ => False
    end) s.
Proof. apply wp_private_ReconcileDelete. Qed.
End reconcile.

Section behaviour.
Context {W : Type} `{Microerror, Kubernetes W, Prometheus}.
Context (svc : PrivateDns.Service W).

(** C34: the error of reading the private zone is only logged, and the size of
    the zone is then read from the empty answer: when that request fails, the
    reconciliation panics, whatever has happened before. *)
Theorem private_Reconcile_panics s s2 s3 s4 l e :
  PrivateDns.list_or_create_zone svc
    (set_metrics (ZoneInfo_Set
       [PrivateClusterDomain (PrivateDns.scope svc); ZoneTypePrivate;
        ManagementClusterResourceGroup (PrivateDns.scope svc);
        ManagementClusterTenantID (PrivateDns.scope svc);
        ManagementClusterSubscriptionID (PrivateDns.scope svc)] 1 (metrics s)) s) = (Ok l, s2) →
  ensure_link svc s2 = (Ok tt, s3) →
  pc_GetPrivateZone (privateDNSClient svc)
    (ManagementClusterResourceGroup (PrivateDns.scope svc))
    (PrivateClusterDomain (PrivateDns.scope svc)) s3 = (Err e, s4) →
  PrivateDns.Reconcile svc s = (Panic, s4).
Proof.
  intros Hl Hlink Hget. unfold PrivateDns.Reconcile. erewrite run_bind by done.
  erewrite run_bind by exact Hl. erewrite run_bind by exact Hlink.
  assert (export_zone_size svc s3 = (Panic, s4)) as Hpanic.
  { unfold export_zone_size. erewrite run_bind by (by apply run_try_Err). done. }
  unfold mbind, M_bind. by rewrite Hpanic.
Qed.

(** The records compared are the A records only, so no CNAME record is ever
    found: whatever record sets of other names are listed, the wildcard record
    is written on every run. *)
Theorem private_wildcard_always_written cur s :
  Forall readable cur → Forall (λ rs, has_name "*" rs = false) cur →
  PrivateDns.calculateMissingCnameRecords svc cur s
  = (Ok (PrivateDns.desiredCnameRecords (PrivateWildcardFQDN (PrivateDns.scope svc))), s).
Proof.
  intros Hread Hstar. rewrite private_calculateMissingCnameRecords_run by done.
  unfold PrivateDns.desiredCnameRecords. rewrite filter_cons. unfold outdated_CNAME. simpl.
  assert (first_named "*" cur = None) as ->; [|done]. unfold first_named.
  destruct (list_find _ cur) as [[i c]|] eqn:Hf; [|done].
  apply list_find_Some in Hf as (Hi & Hc & _). rewrite Forall_forall in Hstar.
  rewrite (Hstar c) in Hc; [done|]. by eapply list_elem_of_lookup_2.
Qed.

(** The private A records are one for the API server and one for the
    ingress of the management cluster, each exactly when its address is known,
    and the comparison returns exactly those that are missing or differ. *)
Theorem private_calculateMissingARecords_exact cur s :
  Forall readable cur →
  getDesiredPrivateARecords svc s = (Ok (private_desired (PrivateDns.scope svc)), s) ∧
  ∃ mt, PrivateDns.calculateMissingARecords svc cur s
    = (Ok (filter (λ d, outdated_A cur d) (private_desired (PrivateDns.scope svc))),
       set_metrics mt s).
Proof.
  intros Hcur. split; [apply getDesiredPrivateARecords_run|].
  by apply private_calculateMissingARecords_run.
Qed.
End behaviour.

(** * The address of the API server *)

(** The private endpoints of the management cluster for a cluster, flattened
    in order. *)
Definition api_endpoints (sc : PrivateDNSScope) : list PrivateEndpoint :=
  filter (λ pe, pe_Name pe = ps_clusterName sc +:+ apiPrivateLinkSuffix)
    (mjoin (PrivateEndpoints <$> spec_Subnets (ps_managementClusterSpec sc))).

(** The first address of the last one that has an address. *)
Definition endpoint_ip (l : list PrivateEndpoint) : string :=
  default "" (last (omap (λ pe, head (PrivateIPAddresses pe)) l)).

Lemma endpoint_loop n (pes : list PrivateEndpoint) ip :
  fold_left (λ ip pe,
      if bool_decide (pe_Name pe = n) then
        match PrivateIPAddresses pe with a :: _ => a | [] => ip end
      else ip) pes ip
  = default ip (last (omap (λ pe, head (PrivateIPAddresses pe))
                        (filter (λ pe, pe_Name pe = n) pes))).
Proof.
  revert ip. induction pes as [|pe pes IH]; intros ip; [done|]. simpl. rewrite filter_cons, IH.
  case_bool_decide; case_decide; try done. simpl.
  destruct (PrivateIPAddresses pe) as [|a ips]; simpl; [done|].
  rewrite last_cons. by destruct (last _).
Qed.

Lemma subnet_loop n (subnets : list Subnet) ip :
  fold_left (λ ip subnet,
    fold_left (λ ip pe,
      if bool_decide (pe_Name pe = n) then
        match PrivateIPAddresses pe with a :: _ => a | [] => ip end
      else ip) (PrivateEndpoints subnet) ip) subnets ip
  = default ip (last (omap (λ pe, head (PrivateIPAddresses pe))
      (filter (λ pe, pe_Name pe = n) (mjoin (PrivateEndpoints <$> subnets))))).
Proof.
  revert ip. induction subnets as [|sn subnets IH]; intros ip; [done|]. simpl.
  rewrite endpoint_loop, IH, filter_app, omap_app, last_app. by destruct (last _).
Qed.

(** C38: the private address of the API server is the one of the annotation when
    there is one; else, of all private endpoints of the management cluster's
    subnets named after the cluster, the first address of the last that has
    any; else empty. *)
Theorem PrivateLinkedAPIServerIP_spec (sc : PrivateDNSScope) :
  PrivateLinkedAPIServerIP sc
  = if bool_decide (ps_apiServerIP sc = "") then endpoint_ip (api_endpoints sc)
    else ps_apiServerIP sc.
Proof.
  unfold PrivateLinkedAPIServerIP, privateLinkedAPIServerIPFromClusterAnnotation,
    privateLinkedAPIServerIPFromManagementCluster. rewrite subnet_loop.
  fold (api_endpoints sc). fold (endpoint_ip (api_endpoints sc)).
  destruct (ps_apiServerIP sc) as [|c s]; simpl; [|done].
  by destruct (endpoint_ip _).
Qed.
