(* ===== verification/InfraProps.v ===== *)
(** The properties of pkg/infracluster: what the generic patcher derives from
    the control plane endpoint, what a patch keeps of a finalizer, where
    credentials and identities come from, and which tags and conditions end up
    where. *)
From S2P Require Import Prelude GoStd Errors Metrics Kube State Conditions Infra Azure Scope.
From S2P Require Import DnsClient DnsRecords DnsService AzureSpec InfraFacts TagFacts.
Open Scope Z_scope.

(** * The control plane endpoint *)

Section endpoint.
Context {W : Type} `{Microerror, Kubernetes W, Prometheus}.

(** RFC 1918 *)
Definition private_v4 (a b : Z) : bool :=
  (a =? 10) || ((a =? 172) && (16 <=? b) && (b <? 32)) || ((a =? 192) && (b =? 168)).

Lemma IsPrivate_private_v4 a b c d : byte b → IsPrivate (IPv4 a b c d) = private_v4 a b.
Proof.
  intros Hb. apply eq_true_iff_eq. rewrite IsPrivate_v4 by done. unfold private_v4. lia.
Qed.

Lemma getIPAddressForPublicDNS_ip (svc : Service W) ip s :
  APIServerPublicIP (svc_Patcher svc) = Some ip → is_Some (ParseIP (pip_Name ip)) →
  getIPAddressForPublicDNS svc s = (Ok (pip_Name ip), s).
Proof.
  intros Hip [x Hx]. unfold getIPAddressForPublicDNS. rewrite Hip.
  bind_step ltac:(done). by rewrite Hx.
Qed.

(** C26: for every IPv4 endpoint: the cluster is private exactly for the RFC 1918
    ranges; a private one has its address as private IP and no public IP, a
    public one the reverse; and the public address, taken through the public
    DNS lookup of the service, is the endpoint itself, printed back as it was
    read. *)
Theorem CommonPatcher_endpoint_v4 (svc : Service W) (cid sid tid : string) (cluster : Cluster)
    (c : Client) (b1 b2 b3 b4 : Z) (s : St W) :
  byte b1 → byte b2 → byte b3 → byte b4 →
  ControlPlaneEndpoint_Host cluster = IP_String (IPv4 b1 b2 b3 b4) →
  svc_Patcher svc = CommonPatcher_Patcher (NewCommonPatcher cid sid tid cluster c) →
  let host := ControlPlaneEndpoint_Host cluster in
  let p := svc_Patcher svc in
  IsAPIServerPrivate p = private_v4 b1 b2 ∧
  APIServerPrivateIP p = (if private_v4 b1 b2 then host else "") ∧
  APIServerPublicIP p
    = (if private_v4 b1 b2 then None else Some {| pip_Name := host; pip_DNSName := "" |}) ∧
  (private_v4 b1 b2 = false → getIPAddressForPublicDNS svc s = (Ok host, s)).
Proof.
  intros Hb1 Hb2 Hb3 Hb4 Hhost Hp host p.
  assert (cp_ip (NewCommonPatcher cid sid tid cluster c) = IPv4 b1 b2 b3 b4) as Hip.
  { simpl. rewrite Hhost. by apply ParseIP_String_v4. }
  assert (IsPrivate (IPv4 b1 b2 b3 b4) = private_v4 b1 b2) as Hpriv
    by by apply IsPrivate_private_v4.
  assert (APIServerPublicIP p = (if private_v4 b1 b2 then None
            else Some {| pip_Name := host; pip_DNSName := "" |})) as Hpub.
  { unfold p. rewrite Hp. cbn -[NewCommonPatcher]. unfold cp_APIServerPublicIP.
    rewrite Hip, Hpriv. unfold host. by rewrite Hhost. }
  split_and!; [| |done|].
  - unfold p. rewrite Hp. cbn -[NewCommonPatcher]. unfold cp_IsAPIServerPrivate. by rewrite Hip.
  - unfold p. rewrite Hp. cbn -[NewCommonPatcher]. unfold cp_APIServerPrivateIP.
    rewrite Hip, Hpriv. unfold host. by rewrite Hhost.
  - intros Hno. rewrite Hno in Hpub. apply (getIPAddressForPublicDNS_ip svc _ s Hpub).
    simpl. unfold host. rewrite Hhost, ParseIP_String_v4 by done. by eexists.
Qed.

(** An endpoint that is a host name, not an address, makes no cluster private,
    and its public DNS lookup is an error, never an address. *)
Theorem CommonPatcher_endpoint_hostname (svc : Service W) (cid sid tid : string)
    (cluster : Cluster) (c : Client) (s : St W) :
  ParseIP (ControlPlaneEndpoint_Host cluster) = None →
  svc_Patcher svc = CommonPatcher_Patcher (NewCommonPatcher cid sid tid cluster c) →
  publicIPsService svc = NewPublicIPService cluster →
  IsAPIServerPrivate (svc_Patcher svc) = false ∧
  getIPAddressForPublicDNS svc s
  = (Err (Mask (NewError ("cluster " +:+ cluster_Name cluster +:+
                          " does not have valid control plane IP address"))), s).
Proof.
  intros Hhost Hp Hg. split.
  - rewrite Hp. simpl. unfold cp_IsAPIServerPrivate. simpl. by rewrite Hhost.
  - unfold getIPAddressForPublicDNS. rewrite Hp. simpl. unfold cp_APIServerPublicIP. simpl.
    rewrite Hhost. simpl. erewrite run_bind by done. simpl.
    erewrite run_bind_Err; [done|]. rewrite Hg. simpl. unfold map_err, PublicIPService_Get.
    by rewrite Hhost.
Qed.
End endpoint.

(** * Finalizers and the status subresource *)

(** An API server as the operator writes infrastructure clusters through it:
    an update replaces the object, an update of the status keeps the metadata
    that is stored, and both answer with what is stored afterwards. *)
Class StatusSubresource (W : Type) `{Kubernetes W} := {
  stored_finalizers : W → NamespacedName → list string;
  update_stores c u w u' w' : Update c u w = (inr u', w') →
    u_Finalizers u' = u_Finalizers u ∧ u_Kind u' = u_Kind u ∧
    stored_finalizers w' {| nn_Name := u_Name u; nn_Namespace := u_Namespace u |}
      = u_Finalizers u;
  status_update_keeps c u w u' w' : StatusUpdate c u w = (inr u', w') →
    let n := {| nn_Name := u_Name u; nn_Namespace := u_Namespace u |} in
    u_Finalizers u' = stored_finalizers w n ∧ u_Kind u' = u_Kind u ∧
    u_Name u' = u_Name u ∧ u_Namespace u' = u_Namespace u ∧
    stored_finalizers w' n = stored_finalizers w n;
}.

Section finalizers.
Context {W : Type} `{Kubernetes W, Prometheus, !StatusSubresource W}.

Definition object_name (u : Unstructured) : NamespacedName :=
  {| nn_Name := u_Name u; nn_Namespace := u_Namespace u |}.

Lemma status_update_run c s s' : status_update c s = (Ok tt, s') →
  u_Finalizers (infraCluster s') = stored_finalizers (world s) (object_name (infraCluster s)) ∧
  object_name (infraCluster s') = object_name (infraCluster s) ∧
  stored_finalizers (world s') (object_name (infraCluster s))
    = stored_finalizers (world s) (object_name (infraCluster s)).
Proof.
  unfold status_update, call, mbind, M_bind, gets, modify.
  destruct (StatusUpdate c (infraCluster s) (world s)) as [[e|u'] w'] eqn:Hu; [done|].
  intros [= <-]. simpl. destruct (status_update_keeps _ _ _ _ _ Hu) as (Hf & _ & Hn & Hns & Hst).
  split_and!; [done| |done]. unfold object_name. by rewrite Hn, Hns.
Qed.

Lemma object_update_run c s s' : object_update c s = (Ok tt, s') →
  stored_finalizers (world s') (object_name (infraCluster s)) = u_Finalizers (infraCluster s).
Proof.
  unfold object_update, call, mbind, M_bind, gets, modify.
  destruct (Update c (infraCluster s) (world s)) as [[e|u'] w'] eqn:Hu; [done|].
  intros [= <-]. simpl. by destruct (update_stores _ _ _ _ _ Hu) as (_ & _ & Hst).
Qed.

Definition stored_here (s : St W) : list string :=
  stored_finalizers (world s) (object_name (infraCluster s)).

Lemma run_PatchObject (cp : CommonPatcher) (s s' : St W) :
  cp_PatchObject cp s = (Ok tt, s') →
  stored_finalizers (world s') (object_name (infraCluster s))
  = if isASOManagedCluster (infraCluster s) then u_Finalizers (infraCluster s)
    else stored_here s.
Proof.
  unfold cp_PatchObject. erewrite (run_bind (gets infraCluster)) by done.
  destruct (isASOManagedCluster (infraCluster s)); cbn [negb].
  - erewrite run_bind by done. apply object_update_run.
  - unfold mbind at 1, M_bind at 1.
    destruct (status_update (cp_k8sClient cp) s) as [[[]|e| |] s1] eqn:Hs; [|done..].
    apply status_update_run in Hs as (Hf & Hn & Hst). intros Hu.
    apply object_update_run in Hu. unfold stored_here. rewrite <- Hn, Hu, Hf.
    by rewrite Hn.
Qed.

(** C22: a patch by the generic patcher persists the finalizers of an AKS cluster
    object; for any other kind it first updates the status, which brings back
    the metadata that is stored, so whatever finalizer was added or removed in
    memory, the stored ones are what they were. *)
Theorem PatchObject_finalizers (cp : CommonPatcher) (s s' : St W) :
  cp_PatchObject cp s = (Ok tt, s') →
  stored_finalizers (world s') (object_name (infraCluster s))
  = if isASOManagedCluster (infraCluster s) then u_Finalizers (infraCluster s)
    else stored_here s.
Proof. apply run_PatchObject. Qed.
End finalizers.

(** * Cached lookups *)

Section cached.
Context {W : Type} `{Microerror, Kubernetes W, Prometheus}.

(** A lookup that returned a value is answered from the scope from then on:
    with the same cache it returns the same value again and asks nobody. *)
Definition memoised {A} (m : G W A) : Prop :=
  ∀ s a s1, m s = (Ok a, s1) → ∀ s2, cache s2 = cache s1 → m s2 = (Ok a, s2).

Lemma ManagementCluster_memoised (sc : Scope W) : memoised (ManagementCluster sc).
Proof.
  intros s a s1. unfold ManagementCluster. erewrite (run_bind (gets cache)) by done.
  destruct (managementCluster (cache s)) as [ac|] eqn:Hc.
  - intros [= -> <-] s2 Hs2. erewrite run_bind by done. by rewrite Hs2, Hc.
  - unfold mbind at 1, M_bind at 1.
    destruct (managementAzureCluster _ _ _ s) as [[ac|e| |] s3]; [|done..].
    intros [= <- <-] s2 Hs2. erewrite run_bind by done. by rewrite Hs2.
Qed.

(** A lookup leaves what the scope has cached so far alone. *)
Lemma managementAzureCluster_cache c n ns :
  steps (same cache) (managementAzureCluster (W := W) c n ns).
Proof.
  unfold managementAzureCluster.
  assert (∀ A (f : io W A), steps (same cache) (call f)) by (intros; by apply steps_call_world).
  steps_tac.
Qed.

Lemma azureClusterIdentity_cache c r : steps (same cache) (azureClusterIdentity (W := W) c r).
Proof.
  unfold azureClusterIdentity.
  assert (∀ A (f : io W A), steps (same cache) (call f)) by (intros; by apply steps_call_world).
  steps_tac.
Qed.

(** The management cluster, its identity and the client of the workload
    cluster are looked up once per scope: after a lookup that succeeded, every
    later one answers from the scope with the same value and leaves the state
    as it is; a client that has been set is answered without any lookup. *)
Theorem scope_lookups_memoised (sc : Scope W) :
  memoised (ManagementCluster sc) ∧ memoised (ManagementClusterIdentity sc) ∧
  memoised (ClusterK8sClient sc) ∧
  ∀ k s, (SetClusterK8sClient k;; ClusterK8sClient sc) s
         = (Ok k, (SetClusterK8sClient k s).2).
Proof.
  split_and!; [apply ManagementCluster_memoised|..|done]; intros s a s1.
  - unfold ManagementClusterIdentity. erewrite (run_bind (gets cache)) by done.
    destruct (managementClusterIdentity (cache s)) as [idt|] eqn:Hc.
    + intros [= -> <-] s2 Hs2. erewrite run_bind by done. by rewrite Hs2, Hc.
    + unfold mbind at 1, M_bind at 1.
      destruct (ManagementCluster sc s) as [[ac|e| |] s3]; [|done..].
      unfold mbind at 1, M_bind at 1.
      destruct (azureClusterIdentity _ _ s3) as [[idt|e| |] s4]; [|done..].
      intros [= <- <-] s2 Hs2. erewrite run_bind by done. by rewrite Hs2.
  - unfold ClusterK8sClient. erewrite (run_bind (gets cache)) by done.
    destruct (clusterK8sClient (cache s)) as [k|] eqn:Hc.
    + intros [= -> <-] s2 Hs2. erewrite run_bind by done. by rewrite Hs2, Hc.
    + unfold mbind at 1, M_bind at 1.
      destruct (getClusterK8sClient sc s) as [[k|e| |] s3]; [|done..].
      intros [= <- <-] s2 Hs2. erewrite run_bind by done. by rewrite Hs2.
Qed.

(** * Identities *)

(** The references that are tried in turn, an error of one leading to the next. *)
Fixpoint first_identity (c : Client) (refs : list (option ObjectReference))
    (last : G W AzureClusterIdentity) : G W AzureClusterIdentity :=
  match refs with
  | [] => last
  | ref :: refs =>
      r ← try (azureClusterIdentity c ref);
      match r with
      | inr idt => mret idt
      | inl _ => first_identity c refs last
      end
  end.

(** For an AzureCluster the reference of its spec, if it has one or not, and for
    any cluster the reference the operator was started with. *)
Definition identity_candidates (sc : Scope W) (u : Unstructured) : list (option ObjectReference) :=
  (match azureClusterSpec u with Some spec => [spec_IdentityRef spec] | None => [] end) ++
  (match s_clusterIdentityRef sc with Some ref => [Some ref] | None => [] end).

Lemma aso_no_spec u ref : asoManagedClusterIdentityRef u = Some ref → azureClusterSpec u = None.
Proof.
  unfold asoManagedClusterIdentityRef, azureClusterSpec, azureClusterFromInfraObject,
    isASOManagedCluster, isAzureCluster.
  destruct (bool_decide_reflect (u_Kind u = kindAzureASOManagedCluster)) as [Hk|]; [|done].
  intros _. by rewrite Hk.
Qed.

(** C28: the identity of a cluster is that of its annotations for an AKS cluster
    that names one, an error included; for any other cluster the candidates are
    tried in order and every error but the last lookup's is passed over, the
    identity of the management cluster coming last; and an identity object that
    does not exist is no error: the empty identity is taken and no other
    candidate is tried. *)
Theorem InfraClusterIdentity_order (sc : Scope W) (s : St W) :
  InfraClusterIdentity sc s
  = match asoManagedClusterIdentityRef (infraCluster s) with
    | Some ref => azureClusterIdentity (s_Client sc) (Some ref) s
    | None => first_identity (s_Client sc) (identity_candidates sc (infraCluster s))
                (ManagementClusterIdentity sc) s
    end ∧
  ∀ ref refs last e w,
    Get_AzureClusterIdentity (s_Client sc)
      {| nn_Name := ref_Name ref; nn_Namespace := ref_Namespace ref |} (world s) = (inl e, w) →
    apierrors_IsNotFound e = true →
    first_identity (s_Client sc) (Some ref :: refs) last s
    = (Ok zero_AzureClusterIdentity, set_world w s).
Proof.
  split.
  - unfold InfraClusterIdentity, identity_candidates. erewrite run_bind by done.
    destruct (asoManagedClusterIdentityRef _) as [ref|] eqn:Haso.
    + by rewrite (aso_no_spec _ _ Haso).
    + unfold identity_fallback. destruct (azureClusterSpec _) as [spec|], (s_clusterIdentityRef sc);
        reflexivity.
  - intros ref refs last e w Hget Hnf.
    assert (azureClusterIdentity (s_Client sc) (Some ref) s
            = (Ok zero_AzureClusterIdentity, set_world w s)) as Hrun.
    { unfold azureClusterIdentity.
      erewrite run_bind by (apply run_try_Err, call_run_Err; exact Hget). simpl. by rewrite Hnf. }
    simpl. by erewrite run_bind by (by apply run_try).
Qed.

(** * Credentials *)

Context `{!Capz W}.

Definition empty_credential (creds : string * string * string) : bool :=
  let '(subscriptionID, clientID, tenantID) := creds in
  bool_decide (subscriptionID = "") || bool_decide (clientID = "") ||
  bool_decide (tenantID = "").

Definition patcher_credentials (p : Patcher W) : string * string * string :=
  (SubscriptionID p, ClientID p, TenantID p).

(** The answer [r] of a lookup, an object that does not exist being [zero]. *)
Definition found_as {A} (zero : A) (r : GoError + A) (a : A) : Prop :=
  r = inr a ∨ ∃ e, r = inl e ∧ apierrors_IsNotFound e = true ∧ a = zero.

(** [idt] is what the API server has for the identity [ref], asked in [w]. *)
Definition identity_read (c : Client) (ref : ObjectReference) (idt : AzureClusterIdentity)
    (w w' : W) : Prop :=
  ∃ r, Get_AzureClusterIdentity c {| nn_Name := ref_Name ref; nn_Namespace := ref_Namespace ref |} w
         = (r, w') ∧ found_as zero_AzureClusterIdentity r idt.

(** The same for the management cluster of a configuration. *)
Definition management_read (c : Client) (config : ManagementClusterConfig) (ac : AzureCluster)
    (w w' : W) : Prop :=
  ∃ r, Get_AzureCluster c {| nn_Name := mc_Name config; nn_Namespace := mc_Namespace config |} w
         = (r, w') ∧ found_as zero_AzureCluster r ac.

Lemma try_call_found {A} (f : io W A) (s : St W) r s' :
  try (call f) s = (Ok r, s') → f (world s) = (r, world s').
Proof. unfold try, call. destruct (f (world s)) as [[e|a] w]; by intros [= <- <-]. Qed.

Lemma azureClusterIdentity_read c ref idt s s' :
  azureClusterIdentity c ref s = (Ok idt, s') →
  ∃ ref0, ref = Some ref0 ∧ identity_read c ref0 idt (world s) (world s').
Proof.
  destruct ref as [ref0|]; [|done]. unfold azureClusterIdentity.
  intros (r & s1 & Hget%try_call_found & Hrest)%bind_Ok_inv. exists ref0. split; [done|].
  exists r. destruct r as [e|a]; [|by injection Hrest as -> <-; split; [|left]].
  destruct (apierrors_IsNotFound e) eqn:He; [|done]. injection Hrest as <- <-.
  split; [done|]. right. by exists e.
Qed.

Lemma managementAzureCluster_read c config ac s s' :
  managementAzureCluster c (mc_Name config) (mc_Namespace config) s = (Ok ac, s') →
  management_read c config ac (world s) (world s').
Proof.
  unfold managementAzureCluster. intros (r & s1 & Hget%try_call_found & Hrest)%bind_Ok_inv.
  exists r. destruct r as [e|a]; [|by injection Hrest as -> <-; split; [|left]].
  destruct (apierrors_IsNotFound e) eqn:He; [|done]. injection Hrest as <- <-.
  split; [done|]. right. by exists e.
Qed.

(** What is configured for the cluster, read from [w] to [w']: the configured
    triple; for an AKS cluster the subscription of its annotation, if it has
    one, and client and tenant of the identity its annotations name, if any. *)
Definition configured (params : ScopeParams) (u : Unstructured)
    (creds : string * string * string) (w w' : W) : Prop :=
  let config := p_ClusterZoneAzureConfig params in
  let annotated := map_get (cluster_Annotations (p_Cluster params))
                     "giantswarm.io/azure-subscription-id" in
  let name := map_get (u_Annotations u) "azure.giantswarm.io/azure-cluster-identity" in
  let namespace := map_get (u_Annotations u) "azure.giantswarm.io/azure-cluster-identity-namespace" in
  if isASOManagedCluster u
  then creds.1.1 = (if bool_decide (annotated = "") then zone_SubscriptionID config else annotated) ∧
    if bool_decide (name = "")
    then creds.1.2 = zone_ClientID config ∧ creds.2 = zone_TenantID config ∧ w' = w
    else ∃ idt, identity_read (p_Client params)
                  {| ref_Name := name; ref_Namespace := namespace |} idt w w' ∧
           creds.1.2 = identity_ClientID idt ∧ creds.2 = identity_TenantID idt
  else creds = (zone_SubscriptionID config, zone_ClientID config, zone_TenantID config) ∧ w' = w.

Lemma aso_credentials_configured params u creds s s' :
  aso_credentials params u (zone_SubscriptionID (p_ClusterZoneAzureConfig params))
    (zone_ClientID (p_ClusterZoneAzureConfig params))
    (zone_TenantID (p_ClusterZoneAzureConfig params)) s = (Ok creds, s') →
  configured params u creds (world s) (world s').
Proof.
  unfold aso_credentials, configured, asoManagedClusterIdentityRef.
  destruct (isASOManagedCluster u); [|by intros [= <- <-]].
  change (if negb true then _ else ?x) with x. cbv zeta.
  unfold AnnotationAzureClusterIdentityName, AnnotationAzureClusterIdentityNamespace.
  case_bool_decide; [by intros [= <- <-]|].
  intros (idt & s1 & (ref0 & [= <-] & Hr)%azureClusterIdentity_read & Hret)%bind_Ok_inv.
  injection Hret as <- <-. split; [done|]. by exists idt.
Qed.

(** All three of the management cluster: its object, and the identity its object
    refers to. *)
Definition from_management (params : ScopeParams) (ac : AzureCluster) (idt : AzureClusterIdentity)
    (w w' : W) : Prop :=
  ∃ w1 ref, management_read (p_Client params) (p_ManagementClusterConfig params) ac w w1 ∧
    spec_IdentityRef (ac_Spec ac) = Some ref ∧ identity_read (p_Client params) ref idt w1 w'.

Lemma complete_credentials_cases params creds s r s' :
  complete_credentials params creds s = (Ok r, s') →
  (empty_credential creds = false ∧ s' = s ∧ r = (creds, None, None)) ∨
  (empty_credential creds = true ∧ ∃ ac idt, from_management params ac idt (world s) (world s') ∧
     r = (spec_SubscriptionID (ac_Spec ac), identity_ClientID idt, identity_TenantID idt,
          Some ac, Some idt)).
Proof.
  destruct creds as [[sid cid] tid]. unfold complete_credentials, empty_credential.
  destruct (_ || _ || _).
  - intros (ac & s1 & Hac%managementAzureCluster_read & Hrest)%bind_Ok_inv.
    apply bind_Ok_inv in Hrest
      as (idt & s2 & (ref & Href & Hidt)%azureClusterIdentity_read & Hret).
    injection Hret as <- <-. right. split; [done|]. exists ac, idt. split; [|done].
    by exists (world s1), ref.
  - intros [= <- <-]. by left.
Qed.

(** C27: a scope of a cluster other than an AzureCluster never mixes credentials:
    either its subscription, client and tenant are all configured (for an AKS
    cluster after its annotations), none of them empty, or all three come from
    the management cluster of the configuration, as the API server answers it,
    and from the identity that its object refers to, and the scope then holds
    both; an object that does not exist counts as the empty one. *)
Theorem NewScope_credentials (params : ScopeParams) (sc : Scope W) s s' :
  isAzureCluster (infraCluster s) = false →
  NewScope params s = (Ok sc, s') →
  ∃ creds w1,
    configured params (infraCluster s) creds (world s) w1 ∧
    if empty_credential creds
    then ∃ ac idt, from_management params ac idt w1 (world s') ∧
      cache s' = mkCache (Some ac) (Some idt) None ∧
      patcher_credentials (s_Patcher sc)
        = (spec_SubscriptionID (ac_Spec ac), identity_ClientID idt, identity_TenantID idt)
    else world s' = w1 ∧ cache s' = mkCache None None None ∧
      patcher_credentials (s_Patcher sc) = creds.
Proof.
  intros Hkind. unfold NewScope. erewrite (run_bind (gets infraCluster)) by done.
  rewrite Hkind. intros (creds & s1 & Hcreds%aso_credentials_configured & Hrest)%bind_Ok_inv.
  apply bind_Ok_inv in Hrest as (r & s2 & Hr & Hsc).
  exists creds, (world s1). split; [done|].
  apply complete_credentials_cases in Hr as [(-> & -> & ->)|[-> (ac & idt & Hmc & ->)]].
  - destruct creds as [[sid cid] tid]. by injection Hsc as <- <-.
  - injection Hsc as <- <-. by exists ac, idt.
Qed.
End cached.

(** * Tags *)

(** The comparison of resource tags, in whatever order Go ranges over the
    map, decides equality of the two maps when no tag value is a nil pointer
    (nil and empty maps are the same). *)
Theorem resourceGroupTagsEqual_decides {S} (a b : tagmap) (s : S) :
  tags_set a → tags_set b →
  (resourceGroupTagsEqual a b : M S GoError bool) s
  = (Ok (bool_decide (map_of a = map_of b)), s).
Proof. apply resourceGroupTagsEqual_run. Qed.

(** C36: merged tags hold the wanted value for every wanted tag and the existing
    value for every other, so merging again changes nothing; but a tag that is
    only on the group stays, and the next comparison finds a difference. *)
Theorem mergeResourceTags_spec (existing new : tagmap) :
  map_of (mergeResourceTags existing new) = map_of new ∪ map_of existing ∧
  mergeResourceTags (mergeResourceTags existing new) new = mergeResourceTags existing new ∧
  (∀ k v, map_of existing !! k = Some v → map_of new !! k = None →
     map_of (mergeResourceTags existing new) ≠ map_of new).
Proof.
  rewrite !mergeResourceTags_union. simpl. split_and!; [done| |].
  - by rewrite (assoc_L (∪)), (idemp_L (∪)).
  - intros k v He Hn Heq. assert ((map_of new ∪ map_of existing) !! k = Some v) as Hk
      by by rewrite lookup_union_r.
    by rewrite Heq, Hn in Hk.
Qed.

(** The tags an infrastructure cluster asks for are its annotations under
    the tag prefix, with the prefix removed, in any order of the map; every one
    has a value, and no tags at all is the nil map. *)
Theorem GetResourceTags_spec (annotations : strmap) :
  (∀ k, map_of (GetResourceTagsFromInfraClusterAnnotations annotations) !! k
        = Some <$> map_get_ok annotations (ResourceTagNamePrefix +:+ k)) ∧
  tags_set (GetResourceTagsFromInfraClusterAnnotations annotations) ∧
  GetResourceTagsFromInfraClusterAnnotations annotations ≠ Some ∅.
Proof.
  split_and!; [apply GetResourceTags_lookup|apply GetResourceTags_set|].
  unfold GetResourceTagsFromInfraClusterAnnotations. destruct annotations as [m|]; [|done].
  destruct (size m =? 0)%nat; [done|].
  destruct (Nat.eqb_spec (size (resource_tags_loop (map_to_list m) ∅)) 0) as [|Hn]; [done|].
  intros [= Heq]. by rewrite Heq in Hn.
Qed.

(** The annotations that ask for some tags. *)
Definition annotations_of (tags : gmap string string) : strmap :=
  Some (kmap (String.append ResourceTagNamePrefix) tags).

#[global] Instance append_inj (p : string) : Inj (=) (=) (String.append p).
Proof. intros a b Hab. induction p as [|c p IH]; [done|]. injection Hab. done. Qed.

(** C31: writing tags as annotations and reading them back gives the tags, each
    with its value; no tags give the nil map. *)
Theorem resource_tags_roundtrip (tags : gmap string string) :
  GetResourceTagsFromInfraClusterAnnotations (annotations_of tags)
  = if decide (tags = ∅) then None else Some (Some <$> tags).
Proof.
  assert (map_of (GetResourceTagsFromInfraClusterAnnotations (annotations_of tags))
          = Some <$> tags) as Hmap.
  { apply map_eq. intros k. rewrite GetResourceTags_lookup. unfold annotations_of. simpl.
    by rewrite (lookup_kmap (String.append ResourceTagNamePrefix)), lookup_fmap. }
  destruct (GetResourceTagsFromInfraClusterAnnotations _) as [m|] eqn:Hget; simpl in Hmap.
  - subst m. rewrite decide_False; [done|]. intros ->. revert Hget. by vm_compute.
  - case_decide as Hd; [done|]. exfalso. apply Hd. symmetry in Hmap.
    by apply fmap_empty_inv in Hmap.
Qed.

(** * The status condition *)

Section condition.


Lemma replace_conditions_spec now l c : is_Some (cond_LastTransitionTime c) →
  replace_conditions now l c
  = (map (λ x, if bool_decide (cond_Type x = cond_Type c) then c else x) l,
     existsb (λ x, bool_decide (cond_Type x = cond_Type c)) l).
Proof.
  intros [t Ht]. induction l as [|x l IH]; simpl; [done|].
  rewrite Ht. case_bool_decide; simpl; by rewrite IH.
Qed.

Lemma replace_conditions_stamp now l c : cond_LastTransitionTime c = None →
  replace_conditions now l c
  = (map (λ x, if bool_decide (cond_Type x = cond_Type c) then stamped now c else x) l,
     existsb (λ x, bool_decide (cond_Type x = cond_Type c)) l).
Proof.
  intros Ht. induction l as [|x l IH]; simpl; [done|]. rewrite Ht.
  case_bool_decide; simpl; [|by rewrite IH].
  rewrite replace_conditions_spec by by eexists. done.
Qed.

Section replaced.
Context (now : Z) (c : Condition).

Definition of_type (x : Condition) : bool := bool_decide (cond_Type x = cond_Type c).
Definition replaced (x : Condition) : Condition := if of_type x then stamped now c else x.

Lemma replaced_type x : cond_Type (replaced x) = cond_Type x.
Proof. unfold replaced, of_type. by case_bool_decide. Qed.

Lemma of_type_replaced x : of_type (replaced x) = of_type x.
Proof. unfold of_type. by rewrite replaced_type. Qed.

Lemma replaced_idemp x : replaced (replaced x) = replaced x.
Proof.
  unfold replaced at 1. rewrite of_type_replaced. unfold replaced. by destruct (of_type x).
Qed.

Lemma replaced_others l :
  filter (λ x, cond_Type x ≠ cond_Type c) (map replaced l)
  = filter (λ x, cond_Type x ≠ cond_Type c) l.
Proof.
  induction l as [|x l IH]; [done|]. simpl. rewrite !filter_cons, replaced_type, IH.
  unfold replaced, of_type. case_bool_decide; by case_decide.
Qed.

Lemma existsb_replaced l : existsb of_type (map replaced l) = existsb of_type l.
Proof. induction l as [|x l IH]; [done|]. simpl. by rewrite of_type_replaced, IH. Qed.

Lemma set_condition_eq l : cond_LastTransitionTime c = None →
  set_condition now l c
  = if existsb of_type l then map replaced l else map replaced l ++ [stamped now c].
Proof. intros Ht. unfold set_condition. by rewrite replace_conditions_stamp. Qed.

Lemma map_replaced_idemp l : map replaced (map replaced l) = map replaced l.
Proof. rewrite map_map. apply map_ext, replaced_idemp. Qed.

Lemma replaced_stamped : replaced (stamped now c) = stamped now c.
Proof. unfold replaced, of_type. by case_bool_decide. Qed.

Lemma replaced_is_stamped x : cond_Type (replaced x) = cond_Type c → replaced x = stamped now c.
Proof. unfold replaced, of_type. by case_bool_decide. Qed.
End replaced.

(** Setting a condition replaces every condition of its type by it, or
    appends it when there is none; it carries a time afterwards; the others
    keep their order and content; and setting it again changes nothing. *)
Theorem set_condition_spec (now : Z) (l : list Condition) (c : Condition) :
  cond_LastTransitionTime c = None →
  let l' := set_condition now l c in
  stamped now c ∈ l' ∧
  (∀ x, x ∈ l' → cond_Type x = cond_Type c → x = stamped now c) ∧
  filter (λ x, cond_Type x ≠ cond_Type c) l' = filter (λ x, cond_Type x ≠ cond_Type c) l ∧
  set_condition now l' c = l'.
Proof.
  intros Ht. simpl. rewrite !(set_condition_eq now c) by done.
  assert (∀ x, x ∈ map (replaced now c) l → cond_Type x = cond_Type c → x = stamped now c) as Hin.
  { intros x (y & -> & _)%list_elem_of_fmap. apply replaced_is_stamped. }
  destruct (existsb (of_type c) l) eqn:Hex.
  - split_and!; [|done|apply replaced_others|by rewrite existsb_replaced, Hex, map_replaced_idemp].
    apply existsb_exists in Hex as (x & Hx & Hxc). apply list_elem_of_In in Hx.
    apply list_elem_of_fmap. exists x. split; [|done]. unfold replaced. by rewrite Hxc.
  - split_and!; [set_solver| | |].
    + intros x [Hx| ->%list_elem_of_singleton]%elem_of_app; [by apply Hin|done].
    + rewrite filter_app, replaced_others, filter_cons, decide_False by (simpl; tauto).
      by rewrite app_nil_r.
    + rewrite existsb_app, existsb_replaced, Hex. simpl. unfold of_type at 1.
      rewrite bool_decide_true by done. simpl.
      by rewrite map_app, map_replaced_idemp; simpl; rewrite replaced_stamped.
Qed.
End condition.




(** What the unstructured library documents of the two conversions. *)
Class ConditionLaws (W : Type) `{Kubernetes W} : Prop := {
  condition_roundtrip c m :
    ToUnstructured_Condition c = inr m → FromUnstructured_Condition m = inr c;
  slice_roundtrip b items b' :
    SetNestedSlice_conditions b items = inr b' → NestedSlice_conditions b' = inr (Some items);
}.

Section set_unstructured.
Context {W : Type} `{Kubernetes W, Prometheus, !ConditionLaws W}.



End set_unstructured.
