(* ===== verification/ScopeProps.v ===== *)
(** The properties of azure/scope and of the start-up configuration: which
    parameters are refused, and which names they give. *)
From S2P Require Import Prelude GoStd Errors Metrics Kube State Conditions Infra Azure Scope.
From S2P Require Import DnsClient PrivateClient DnsRecords DnsService PrivateDns Controller.
From S2P Require Import Main.
Open Scope Z_scope.

Section scopes.
Context {W : Type} `{Microerror, !MicroerrorLaws, Kubernetes W, Prometheus}.

(** A public DNS scope is refused, with an error that counts as an invalid
    configuration, exactly when the base domain, its resource group or all of
    the base zone credentials are empty; one that is accepted names a zone
    inside the base domain and never the base domain itself, a resource group
    named after the cluster, and a wildcard target inside that zone. *)
Theorem NewDNSScope_spec (params : DNSScopeParams W) :
  match NewDNSScope params with
  | inl e => IsInvalidConfig e = true ∧
      (dp_BaseDomain params = "" ∨ dp_BaseDomainResourceGroup params = "" ∨
       dp_BaseZoneCredentials params = zero_BaseZoneCredentials)
  | inr ds => dp_BaseDomain params ≠ "" ∧ dp_BaseDomainResourceGroup params ≠ "" ∧
      dp_BaseZoneCredentials params ≠ zero_BaseZoneCredentials ∧
      HasSuffix (ClusterDomain ds) ("." +:+ dp_BaseDomain params) = true ∧
      ClusterDomain ds ≠ baseDomain ds ∧
      ResourceGroup_name ds = ClusterName (s_Patcher (dp_ClusterScope params)) ∧
      HasSuffix (WildcardFQDN ds) ("." +:+ ClusterDomain ds) = true
  end.
Proof.
  unfold NewDNSScope. repeat case_bool_decide; simpl.
  - split; [apply IsInvalidConfig_Maskf|tauto].
  - split; [apply IsInvalidConfig_Maskf|tauto].
  - split; [apply IsInvalidConfig_Maskf|tauto].
  - split_and!; [done..| | |done|].
    + unfold ClusterDomain. simpl. apply HasSuffix_app.
    + apply subdomain_ne.
    + unfold WildcardFQDN. case_bool_decide; [apply (HasSuffix_app "ingress")|apply HasSuffix_app].
Qed.

(** The private DNS scope is refused exactly without a base domain; its zone
    and its wildcard target lie inside that domain, whatever the annotation. *)
Theorem NewPrivateDNSScope_spec (params : PrivateDNSScopeParams) :
  match NewPrivateDNSScope params with
  | inl e => IsInvalidConfig e = true ∧ pp_BaseDomain params = ""
  | inr ps => pp_BaseDomain params ≠ "" ∧
      PrivateClusterDomain ps = pp_ClusterName params +:+ "." +:+ pp_BaseDomain params ∧
      HasSuffix (PrivateWildcardFQDN ps) ("." +:+ PrivateClusterDomain ps) = true ∧
      PrivateLinkedMcIngressIP ps = pp_MCIngressIP params
  end.
Proof.
  unfold NewPrivateDNSScope. case_bool_decide.
  - split; [apply IsInvalidConfig_Maskf|done].
  - split_and!; [done..| |done]. unfold PrivateWildcardFQDN. case_bool_decide; [apply (HasSuffix_app "ingress")|apply HasSuffix_app].
Qed.

(** The variables the operator cannot start without, in the order it asks. *)
Definition required_variables : list string := [SubscriptionId; ClientId; ClientSecret; TenantId].

Lemma reconciler_of_cases (flags : Flags) (env : gmap string string) (c : Client) :
  match reconciler_of flags env c with
  | inl e => ∃ v, head (filter (λ v, Getenv env v = "") required_variables) = Some v ∧
      e = Mask (NewError ("environment variable " +:+ v +:+ " not set"))
  | inr r => Forall (λ v, Getenv env v ≠ "") required_variables ∧
      BaseZoneSubscriptionID r = Getenv env SubscriptionId ∧
      {| bz_ClientID := BaseZoneClientID r; bz_ClientSecret := BaseZoneClientSecret r;
         bz_SubscriptionID := BaseZoneSubscriptionID r; bz_TenantID := BaseZoneTenantID r |}
      ≠ zero_BaseZoneCredentials
  end.
Proof.
  unfold reconciler_of, required, required_variables.
  destruct (bool_decide_reflect (Getenv env SubscriptionId = "")) as [Hs|Hs].
  { exists SubscriptionId. rewrite !filter_cons. by repeat case_decide. }
  destruct (bool_decide_reflect (Getenv env ClientId = "")) as [Hc|Hc].
  { exists ClientId. rewrite !filter_cons. by repeat case_decide. }
  destruct (bool_decide_reflect (Getenv env ClientSecret = "")) as [Hx|Hx].
  { exists ClientSecret. rewrite !filter_cons. by repeat case_decide. }
  destruct (bool_decide_reflect (Getenv env TenantId = "")) as [Ht|Ht].
  { exists TenantId. rewrite !filter_cons. by repeat case_decide. }
  split_and!; [by repeat constructor|done|]. intros [= Hbad]. done.
Qed.

Lemma required_none env : Forall (λ v, Getenv env v ≠ "") required_variables →
  head (filter (λ v, Getenv env v = "") required_variables) = None.
Proof.
  unfold required_variables. intros Hall. repeat (apply Forall_cons in Hall as [? Hall]).
  rewrite !filter_cons. by repeat case_decide.
Qed.

(** C30: the process panics exactly when it cannot go on, and it asks for things
    in a fixed order: without a manager nothing else happens; with one, a
    missing variable of the base zone's service principal - the first one, in
    order - is the error, and no controller is set up; otherwise the
    controller is set up for clusters, with the configured concurrency and a
    reconciler whose public DNS scope is never refused for missing credentials,
    and then the manager is started. *)
Theorem mainError_spec `{!ControllerRuntime W} (given : GivenFlags) (env : gmap string string)
    (w : W) :
  let flags := flags_of given in
  let (cfg, w0) := GetConfigOrDie w in
  let cfg := set_UserAgent "dns-operator-azure" cfg in
  let result := mainError given env w in
  main given env w = (match result.1 with Ok _ => Ok tt | Err _ => Panic | r => r end, result.2) ∧
  match NewManager cfg (manager_options flags) w0 with
  | (inl e, w1) => result = (Err (Mask e), w1)
  | (inr mgr, w1) =>
      let w2 := record_InitFromRecorder (GetEventRecorderFor mgr "dns-operator-azure") w1 in
      match head (filter (λ v, Getenv env v = "") required_variables) with
      | Some v => result = (Err (Mask (NewError ("environment variable " +:+ v +:+ " not set"))), w2)
      | None => ∃ r, reconciler_of flags env (mgr_GetClient mgr) = inr r ∧
          r_Client r = mgr_GetClient mgr ∧ BaseDomain r = base_domain flags ∧
          {| bz_ClientID := BaseZoneClientID r; bz_ClientSecret := BaseZoneClientSecret r;
             bz_SubscriptionID := BaseZoneSubscriptionID r; bz_TenantID := BaseZoneTenantID r |}
            ≠ zero_BaseZoneCredentials ∧
          result = (map_err Mask (perform (Complete_controller mgr "Cluster"
                                             (cluster_concurrency flags) r));;
                    map_err Mask (perform (Manager_Start mgr))) w2
      end
  end.
Proof.
  cbv zeta. destruct (GetConfigOrDie w) as [cfg w0] eqn:Hcfg. split.
  { unfold main, try, mbind, M_bind. by destruct (mainError given env w) as [[]?]. }
  unfold mainError. erewrite run_bind by by rewrite Hcfg.
  destruct (NewManager _ _ w0) as [[e|mgr] w1] eqn:Hmgr.
  { erewrite run_bind_Err; [done|]. unfold map_err, perform. by rewrite Hmgr. }
  erewrite run_bind by (unfold map_err, perform; by rewrite Hmgr).
  erewrite run_bind by done.
  pose proof (reconciler_of_cases (flags_of given) env (mgr_GetClient mgr)) as Hr.
  destruct (reconciler_of _ _ _) as [e|r] eqn:Heq.
  - destruct Hr as (v & -> & ->). done.
  - destruct Hr as (Hall & _ & Hcreds). rewrite required_none by done.
    exists r. split; [done|].
    assert (r_Client r = mgr_GetClient mgr ∧ BaseDomain r = base_domain (flags_of given)) as [-> ->].
    { revert Heq. unfold reconciler_of. do 4 (destruct (required _ _); [done|]). by intros [= <-]. }
    split_and!; done.
Qed.
End scopes.
