(* ===== verification/ControllerProps.v ===== *)
(** The properties of the controller: when it acts, when it comes back, what
    guards the finalizer, and where it panics. *)
From S2P Require Import Prelude GoStd Errors Metrics Kube State Conditions Infra Azure Scope.
From S2P Require Import DnsClient PrivateClient DnsRecords DnsService PrivateDns Controller.
From S2P Require Import ControllerFacts.
Open Scope Z_scope.

Section controller.
Context {W : Type} `{Microerror, Kubernetes W, Prometheus, !AzureSDK W, !Capz W,
                     !MetaConditions W}.
Context (fuel : nat) (r : ClusterReconciler).

(** The object without the operator's finalizer. *)
Definition released (u : Unstructured) : Unstructured :=
  if ContainsFinalizer u AzureClusterControllerFinalizer
  then RemoveFinalizer u AzureClusterControllerFinalizer else u.

(** A deletion, whatever its outcome: what it was when it returned. *)
Lemma wp_reconcileDelete (sc : Scope W) s :
  wp (reconcileDelete fuel r sc) (λ res s',
    match res with
    | Ok _ => infraCluster s' = released (infraCluster s) ∧
        ∃ svc s1 s2 s3, getDnsServiceForPublicRecords fuel r sc s1 = (Ok svc, s2) ∧
          infraCluster s2 = infraCluster s ∧
          with_scope_copy (DnsService.ReconcileDelete svc) s2 = (Ok tt, s3) ∧
          world s' = world s3
    | _ => infraCluster s' = infraCluster s
    end) s.
Proof.
  unfold reconcileDelete. apply wp_bind, wp_gets. simpl.
  eapply (wp_keep infraCluster).
  { destruct (wants_private _ _ _); [|by intros ?].
    apply keeps_delete_private; [apply keeps_getMcToWc|apply getMcToWc_deletes_quietly]. }
  2: { by intros [] s' Hs' Hr. }
  intros [] s1 I1 _. eapply (wp_keep infraCluster).
  { destruct (wants_private _ _ _); [|by intros ?].
    apply keeps_delete_private; [apply keeps_getWcToMc|apply getWcToMc_deletes_quietly]. }
  2: { intros [] s' Hs' Hr; simpl in *; congruence. }
  intros [] s2 I2 _. eapply (wp_keep infraCluster).
  { apply steps_map_err, keeps_getDns. }
  2: { intros [] s' Hs' Hr; simpl in *; congruence. }
  intros svc s3 I3 Hsvc. unfold map_err in Hsvc.
  destruct (getDnsServiceForPublicRecords fuel r sc s2) as [[svc'|e| |] s3'] eqn:Hget; [|done..].
  injection Hsvc as -> ->. pose proof (getDns_deletes_quietly fuel r sc s2 svc s3 Hget) as Hq.
  eapply (wp_keep infraCluster).
  { by apply steps_map_err, keeps_with_scope_copy. }
  2: { intros [] s' Hs' Hr; simpl in *; congruence. }
  intros [] s4 I4 Hdel. apply wp_bind, wp_gets. simpl.
  assert (infraCluster s4 = infraCluster s) as Hi by congruence.
  assert (with_scope_copy (DnsService.ReconcileDelete svc) s3 = (Ok tt, s4)) as Hok.
  { unfold map_err in Hdel.
    destruct (with_scope_copy _ s3) as [[[]|e| |] s4']; simpl in *; congruence. }
  assert (infraCluster s3 = infraCluster s) as Hi3 by congruence.
  apply wp_bind. destruct (ContainsFinalizer (infraCluster s4) _) eqn:Hf.
  - apply wp_modify. simpl. split; [|by exists svc, s2, s3, s4].
    unfold released. by rewrite <- Hi, Hf.
  - apply wp_ret. simpl. split; [|by exists svc, s2, s3, s4].
    unfold released. by rewrite <- Hi, Hf.
Qed.

(** C21: the finalizer of a deleted cluster leaves the object exactly when the
    reconciliation of its deletion returns without an error, and then the
    deletion of the public DNS records was run and succeeded; on every error,
    panic included, the object is as it was, so the deletion is tried again. *)
Theorem reconcileDelete_finalizer (sc : Scope W) s :
  wp (reconcileDelete fuel r sc) (λ res s',
    match res with
    | Ok _ => infraCluster s' = released (infraCluster s) ∧
        ∃ svc s1 s2, getDnsServiceForPublicRecords fuel r sc s1 = (Ok svc, s2) ∧
          (with_scope_copy (DnsService.ReconcileDelete svc) s2).1 = Ok tt
    | _ => infraCluster s' = infraCluster s
    end) s.
Proof.
  eapply wp_mono; [apply wp_reconcileDelete|]. intros [] s'; [|done..].
  intros (Hi & svc & s1 & s2 & s3 & Hget & _ & Hdel & _). split; [done|].
  exists svc, s1, s2. by rewrite Hdel.
Qed.

(** ** Readiness *)

(** A cluster is ready when it is provisioned and, for an AzureCluster, its
    load balancers are reported at all - whatever the status of the
    condition. *)
Definition ready (cluster : Cluster) (u : Unstructured) : bool :=
  bool_decide (cluster_Phase cluster = ClusterPhaseProvisioned) &&
  (negb (isAzureCluster u) ||
   match azureClusterStatus u with
   | Some conditions =>
       existsb (λ c, bool_decide (cond_Type c = LoadBalancersReadyCondition)) conditions
   | None => false
   end).

Lemma isClusterReady_run cluster (s : St W) :
  isClusterReadyForDnsManagements cluster s
  = (Ok (if ready cluster (infraCluster s) then (no_requeue, true)
         else ({| RequeueAfter := 120 |}, false)), s).
Proof.
  unfold isClusterReadyForDnsManagements, ready.
  destruct (bool_decide (cluster_Phase cluster = _)); simpl; [|done].
  erewrite run_bind by done. destruct (isAzureCluster _); simpl; [|done].
  by destruct (match azureClusterStatus _ with Some _ => _ | None => _ end).
Qed.

(** A cluster that has the finalizer and is not ready is left alone: the
    reconciliation asks to be run again in two minutes and changes nothing,
    in Azure, in Kubernetes or in the metrics. *)
Theorem reconcileNormal_not_ready (sc : Scope W) s :
  ContainsFinalizer (infraCluster s) AzureClusterControllerFinalizer = true →
  ready (s_Cluster sc) (infraCluster s) = false →
  reconcileNormal fuel r sc s = (Ok {| RequeueAfter := 120 |}, s).
Proof.
  intros Hf Hr. unfold reconcileNormal, ensure_finalizer. erewrite run_bind.
  2: { erewrite run_bind by done. by rewrite Hf. }
  erewrite run_bind by apply isClusterReady_run. by rewrite Hr.
Qed.

(** ** Missing secrets *)

(** C35: when the secret of the management cluster's service principal does not
    exist, the private service is the nil pointer and no error, and both the
    reconciliation and the deletion of the private records panic on it. *)
Theorem missing_secret_panics (sc : Scope W) s ac s1 idt s2 err w :
  ManagementCluster sc s = (Ok ac, s1) →
  ManagementClusterIdentity sc s1 = (Ok idt, s2) →
  identity_Type idt = ManualServicePrincipal →
  Get_Secret (r_Client r) (identity_secret_name idt) (world s2) = (inl err, w) →
  apierrors_IsNotFound err = true →
  getPrivateDnsServiceForMcToWcApi fuel r sc s = (Ok None, set_world w s2) ∧
  reconcile_private (getPrivateDnsServiceForMcToWcApi fuel r sc) s = (Panic, set_world w s2) ∧
  delete_private r sc (getPrivateDnsServiceForMcToWcApi fuel r sc) s = (Panic, set_world w s2).
Proof.
  intros Hac Hidt Htype Hget Hnf.
  assert (getPrivateDnsServiceForMcToWcApi fuel r sc s = (Ok None, set_world w s2)) as Hnil.
  { unfold getPrivateDnsServiceForMcToWcApi.
    erewrite run_bind by exact (run_map_err Mask _ _ _ _ Hac).
    erewrite run_bind by exact (run_map_err Mask _ _ _ _ Hidt).
    assert (private_identity_secret r idt s2 = (Ok None, set_world w s2)) as Hsecret.
    { unfold private_identity_secret. rewrite bool_decide_true by done.
      erewrite run_bind by (by apply run_try_Err, call_run_Err). simpl. by rewrite Hnf. }
    by erewrite run_bind by exact Hsecret. }
  split; [done|]. split.
  - unfold reconcile_private. by erewrite run_bind by exact Hnil.
  - unfold delete_private. by erewrite run_bind by exact Hnil.
Qed.

(** ** Early returns *)

(** C40: a cluster that is gone, or whose infrastructure object is not there
    yet, or that is paused, is not touched: no error, no write, no metric; only
    the missing object is looked for again, after a minute. *)
Theorem Reconcile_early_returns (req : NamespacedName) (cluster : Cluster) (u : Unstructured)
    (err : GoError) (s : St W) (w w' : W) :
  (GetClusterByName (r_Client r) req (world s) = (inl err, w) →
   apierrors_IsNotFound err = true →
   Reconcile fuel r req s = (Ok no_requeue, set_world w s)) ∧
  (GetClusterByName (r_Client r) req (world s) = (inr cluster, w) →
   GetObjectFromContractVersionedRef (r_Client r) cluster w = (inl err, w') →
   apierrors_IsNotFound err = true →
   Reconcile fuel r req s = (Ok {| RequeueAfter := 60 |}, set_world w' s)) ∧
  (GetClusterByName (r_Client r) req (world s) = (inr cluster, w) →
   GetObjectFromContractVersionedRef (r_Client r) cluster w = (inr u, w') →
   annotations_IsPaused cluster u = true →
   Reconcile fuel r req s = (Ok no_requeue, set_infraCluster u (set_world w' s))).
Proof.
  unfold Reconcile. split_and!.
  - intros Hc Hnf. erewrite run_bind by (by apply run_try_Err, call_run_Err). simpl.
    by rewrite Hnf.
  - intros Hc Hobj Hnf. erewrite run_bind by (apply run_try; unfold call; by rewrite Hc). simpl.
    erewrite run_bind by (by apply run_try_Err, call_run_Err). simpl. by rewrite Hnf.
  - intros Hc Hobj Hp. erewrite run_bind by (apply run_try; unfold call; by rewrite Hc). simpl.
    erewrite run_bind by (apply run_try; unfold call; simpl; by rewrite Hobj). simpl.
    erewrite run_bind by done. by rewrite Hp.
Qed.
End controller.

(** * Metrics of a deleted cluster *)

Section metrics.
Context `{Prometheus, !PrometheusLaws}.

(** Deleting the metrics of a zone removes from all three vectors every
    series of that zone and type and no other, and leaves the request counters
    alone. *)
Theorem deleteClusterMetrics_exact (zone ty : string) (m : Metrics) (zone' ty' : string)
    (lvs : list string) :
  metrics_named m →
  let m' := (deleteClusterMetrics zone ty m).1 in
  let kept v := if bool_decide (zone' = zone ∧ ty' = ty) then None
                else GaugeValue v (zone' :: ty' :: lvs) in
  GaugeValue (ZoneInfo m') (zone' :: ty' :: lvs) = kept (ZoneInfo m) ∧
  GaugeValue (ClusterZoneRecords m') (zone' :: ty' :: lvs) = kept (ClusterZoneRecords m) ∧
  GaugeValue (RecordInfo m') (zone' :: ty' :: lvs) = kept (RecordInfo m) ∧
  AzureRequest m' = AzureRequest m ∧ AzureRequestError m' = AzureRequestError m ∧
  metrics_named m'.
Proof.
  intros (Hz & Hc & Hr) m' kept.
  set (labels := [(MetricZone, zone); (ZoneType, ty)]).
  assert (m' = mkMetrics (DeletePartialMatch (ZoneInfo m) labels).1
            (DeletePartialMatch (ClusterZoneRecords m) labels).1
            (DeletePartialMatch (RecordInfo m) labels).1 (AzureRequestError m) (AzureRequest m))
    as ->.
  { unfold m', deleteClusterMetrics. fold labels.
    by destruct (DeletePartialMatch (ZoneInfo m) labels),
      (DeletePartialMatch (ClusterZoneRecords m) labels),
      (DeletePartialMatch (RecordInfo m) labels). }
  simpl. unfold metrics_named. simpl. rewrite !GaugeValue_Delete, !GaugeNames_Delete, Hz, Hc, Hr.
  cbn [ZoneInfo ClusterZoneRecords RecordInfo initialMetrics]. rewrite !GaugeNames_New.
  unfold labels, kept.
  split_and!; try done; rewrite zone_labels_match; try done; intros Hin;
    repeat (apply elem_of_cons in Hin as [[=]|Hin]); by apply elem_of_nil in Hin.
Qed.
End metrics.
