(* ===== verification/Services.v ===== *)
(** The services the controller builds (controllers/cluster_controller.go with
    azure/services/dns.New and azure/services/privatedns.New): each is built on
    the scope and configuration it should be, with clients that implement the
    contracts of their interfaces, and building one changes nothing in Azure. *)
From S2P Require Import Prelude GoStd Errors Metrics Kube State Conditions Infra Azure Scope.
From S2P Require Import DnsClient PrivateClient DnsRecords DnsService PrivateDns Controller.
From S2P Require Import AzureSpec InfraFacts TagFacts DnsClientFacts PrivateFacts.
From S2P Require Import PrivateClientFacts.
Open Scope Z_scope.

Section services.
Context {W : Type} `{Microerror, Kubernetes W, Prometheus, AzureView W, !AzureSDK W, !Capz W,
                     !MetaConditions W, !MicroerrorLaws}.
Context `{!SDKSpec W, !SDKConstructors W, !PrivateSDKSpec W, !PrivateSDKConstructors W,
          !PrivateSDKPublic W}.
Context `{!KubeKeepsAzure}.
Context (fuel : nat) (Hfuel : (page_bound (W := W) ≤ fuel)%nat).
Context (Hprivate : (private_page_bound (W := W) ≤ fuel)%nat).
Context (r : ClusterReconciler) (sc : Scope W).

(** A service for the public records of [sc]: built on that scope, for the base
    zone of the configuration, with clients that implement the contract for
    the cluster's and the base zone's subscriptions. *)
Record public_service_of (svc : DnsRecords.Service W) : Prop := {
  ps_of_scope : svc_Scope svc = sc;
  ps_of_getter : publicIPsService svc = s_publicIPService sc;
  ps_of_domain : baseDomain (DnsRecords.scope svc) = BaseDomain r;
  ps_of_group : baseDomainResourceGroup (DnsRecords.scope svc) = BaseDomainResourceGroup r;
  ps_of_tags : tags_set (resourceTags (DnsRecords.scope svc));
  ps_of_client : ClientSpec (svc_azureClient svc) (SubscriptionID (s_Patcher sc));
  ps_of_base : ClientSpec (svc_azureBaseZoneClient svc) (BaseZoneSubscriptionID r);
}.

Lemma service_patcher svc : public_service_of svc →
  PatcherSpec (s_Patcher sc) (s_publicIPService sc) →
  PatcherSpec (svc_Patcher svc) (publicIPsService svc).
Proof.
  intros [Hsc Hg _ _ _ _ _]. rewrite Hg.
  change (svc_Patcher svc) with (s_Patcher (svc_Scope svc)). by rewrite Hsc.
Qed.

Lemma New_clients (ds : DNSScope W) g :
  ok_post (DnsService.New fuel ds g) (λ svc,
    DnsRecords.scope svc = ds ∧ publicIPsService svc = g ∧
    ClientSpec (svc_azureClient svc) (SubscriptionID (ds_Patcher ds)) ∧
    ClientSpec (svc_azureBaseZoneClient svc) (bz_SubscriptionID (baseZoneCredentials ds))).
Proof.
  unfold DnsService.New.
  eapply ok_post_bind; [apply ok_post_map_err, newAzureClient_of|intros ac Hac].
  eapply ok_post_bind; [apply ok_post_map_err, newBaseZoneClient_of|intros bc Hbc].
  apply ok_post_ret. split_and!; [done..| |]; by apply azureClient_meets_spec.
Qed.

Lemma getDns_service :
  ok_post (getDnsServiceForPublicRecords fuel r sc) public_service_of.
Proof.
  unfold getDnsServiceForPublicRecords.
  do 3 (eapply ok_post_bind; [apply ok_post_True|intros ? _]).
  eapply ok_post_bind.
  { apply ok_post_map_err. intros s ds s' Hds. revert Hds. unfold NewDNSScope.
    do 3 (destruct (bool_decide _); [done|]). intros [= <- _].
    refine ((_ : (λ ds, ds_Scope ds = sc ∧ baseDomain ds = BaseDomain r ∧
      baseDomainResourceGroup ds = BaseDomainResourceGroup r ∧ tags_set (resourceTags ds) ∧
      bz_SubscriptionID (baseZoneCredentials ds) = BaseZoneSubscriptionID r) _)).
    split_and!; [done..| |done]. apply GetResourceTags_set. }
  intros ds (Hsc & Hbd & Hbg & Htags & Hbs).
  intros s svc s' Hnew%map_err_Ok_inv. apply New_clients in Hnew as (Hds & Hg & Hc & Hb).
  unfold ds_Patcher in Hc. rewrite Hsc in Hc. rewrite Hbs in Hb.
  split; [by unfold svc_Scope; rewrite Hds|done|by rewrite Hds..|done|done].
Qed.

Lemma getDns_quiet : steps azure_quiet (getDnsServiceForPublicRecords fuel r sc).
Proof.
  pose proof newAzureClient_quiet. pose proof newBaseZoneClient_quiet.
  unfold getDnsServiceForPublicRecords, getInfraClusterStaticServicePrincipalSecret,
    InfraClusterAnnotations, DnsService.New. steps_tac.
Qed.

(** * The private services *)

(** The subscription of a private service: that of the cluster whose network
    its zone is attached to. *)
Definition private_sub (svc : PrivateDns.Service W) : string :=
  ManagementClusterSubscriptionID (PrivateDns.scope svc).

(** A private service on the scope [ps], with a client that implements the
    contract. *)
Record private_service_on (ps : PrivateDNSScope) (svc : PrivateDns.Service W) : Prop := {
  pso_scope : PrivateDns.scope svc = ps;
  pso_client : PrivateClientSpec (privateDNSClient svc) (private_sub svc);
}.

(** What the controller is to build for the zone of a cluster's API server from
    the state [s]: the zone is named after the infrastructure cluster object and
    belongs to the management cluster - its subscription, resource group,
    network, identity and secret; the address is that of the object's
    annotation. *)
Definition api_service (s : St W) (svc : PrivateDns.Service W) : Prop :=
  ∃ mc idt secret s1 s2 s3,
    ManagementCluster sc s = (Ok mc, s1) ∧
    ManagementClusterIdentity sc s1 = (Ok idt, s2) ∧
    private_identity_secret r idt s2 = (Ok (Some secret), s3) ∧
    private_service_on {|
      ps_baseDomain := BaseDomain r;
      ps_clusterName := u_Name (infraCluster s);
      ps_apiServerIP := map_get (u_Annotations (infraCluster s))
                          "azure-private-endpoint-operator.giantswarm.io/private-link-apiserver-ip";
      ps_mcIngressIP := "";
      ps_wildcardCNAMETarget := map_get (cluster_Annotations (s_Cluster sc))
                                  "network.giantswarm.io/wildcard-cname-target";
      ps_virtualNetworkID := spec_VnetID (ac_Spec mc);
      ps_managementClusterIdentity := {| clusterIdentity := idt; identity_secret := secret |};
      ps_managementClusterSpec := ac_Spec mc |} svc.

(** The same for the ingress of the management cluster: the zone is named after
    the management cluster and belongs to the workload cluster, by the spec of
    its object and its identity; the address is that of the object's annotation,
    the wildcard target that of the management cluster's Cluster. *)
Definition ingress_service (s : St W) (svc : PrivateDns.Service W) : Prop :=
  ∃ mc idt secret cluster spec s1 s2 s3 w,
    ManagementCluster sc s = (Ok mc, s1) ∧
    InfraClusterIdentity sc s1 = (Ok idt, s2) ∧
    private_identity_secret r idt s2 = (Ok (Some secret), s3) ∧
    Get_Cluster (r_Client r) {| nn_Name := ac_Name mc; nn_Namespace := ac_Namespace mc |}
      (world s3) = (inr cluster, w) ∧
    azureClusterSpec (infraCluster s) = Some spec ∧
    private_service_on {|
      ps_baseDomain := BaseDomain r;
      ps_clusterName := ac_Name mc;
      ps_apiServerIP := "";
      ps_mcIngressIP := map_get (u_Annotations (infraCluster s))
                          "azure-private-endpoint-operator.giantswarm.io/private-link-mc-ingress-ip";
      ps_wildcardCNAMETarget := map_get (cluster_Annotations cluster)
                                  "network.giantswarm.io/wildcard-cname-target";
      ps_virtualNetworkID := spec_VnetID spec;
      ps_managementClusterIdentity := {| clusterIdentity := idt; identity_secret := secret |};
      ps_managementClusterSpec := spec |} svc.

(** The nil service aside, what a getter returns is one. *)
Definition serves (P : PrivateDns.Service W → Prop) (svc : option (PrivateDns.Service W)) : Prop :=
  match svc with Some svc => P svc | None => True end.

(** The scope made of parameters. *)
Definition scope_from (p : PrivateDNSScopeParams) : PrivateDNSScope := {|
  ps_baseDomain := pp_BaseDomain p;
  ps_clusterName := pp_ClusterName p;
  ps_apiServerIP := pp_APIServerIP p;
  ps_mcIngressIP := pp_MCIngressIP p;
  ps_wildcardCNAMETarget := pp_WildcardCNAMETarget p;
  ps_virtualNetworkID := pp_VirtualNetworkIDToAttachPrivateDNS p;
  ps_managementClusterIdentity := {|
    clusterIdentity := pp_ClusterAzureIdentityToAttachPrivateDNS p;
    identity_secret := pp_ClusterServicePrincipalSecretToAttachPrivateDNS p |};
  ps_managementClusterSpec := pp_ClusterSpecToAttachPrivateDNS p;
|}.

Lemma private_service_made params :
  ok_post (private_service (W := W) fuel params) (serves (private_service_on (scope_from params))).
Proof.
  unfold private_service. eapply ok_post_bind.
  { apply ok_post_map_err. intros s ps s' Hps. revert Hps. unfold NewPrivateDNSScope.
    destruct (bool_decide _); [done|]. intros [= <- _].
    exact (eq_refl : (λ ps, ps = scope_from params) _). }
  intros ps ->. eapply ok_post_bind.
  { apply ok_post_map_err. unfold PrivateDns.New.
    eapply ok_post_bind; [apply ok_post_map_err, newPrivateDNSClient_of|].
    intros ac Hac. apply ok_post_ret.
    refine ((_ : private_service_on (scope_from params) _)).
    split; [done|]. by apply privateClient_meets_spec. }
  intros svc Hsvc. by apply ok_post_ret.
Qed.

(** Its client leaves what is public alone. *)
Lemma private_service_public params :
  ok_post (private_service (W := W) fuel params) (serves (λ svc, public_client (privateDNSClient svc))).
Proof.
  unfold private_service. eapply ok_post_bind; [apply ok_post_True|intros ps _].
  eapply ok_post_bind; [|intros svc Hsvc; apply ok_post_ret; exact Hsvc].
  apply ok_post_map_err. unfold PrivateDns.New.
  eapply ok_post_bind; [apply ok_post_True|intros ac _]. apply ok_post_ret.
  apply privateClient_public.
Qed.

Lemma private_service_quiet params : steps azure_quiet (private_service (W := W) fuel params).
Proof.
  pose proof newPrivateDNSClient_quiet. unfold private_service, PrivateDns.New. steps_tac.
Qed.

Lemma quiet_run {A} (m : G W A) s a s' :
  steps azure_quiet m → m s = (Ok a, s') → infraCluster s' = infraCluster s.
Proof. intros Hm Hrun. specialize (Hm s). rewrite Hrun in Hm. by destruct Hm. Qed.

Lemma private_identity_secret_quiet idt :
  steps azure_quiet (private_identity_secret (W := W) r idt).
Proof. unfold private_identity_secret. steps_tac. Qed.

(** The controller builds what it is to build. *)
Lemma getMcToWc_service s svc s' :
  getPrivateDnsServiceForMcToWcApi fuel r sc s = (Ok (Some svc), s') → api_service s svc.
Proof.
  intros (mc & s1 & Hmc%map_err_Ok_inv & Hrest)%bind_Ok_inv.
  apply bind_Ok_inv in Hrest as (idt & s2 & Hidt%map_err_Ok_inv & Hrest).
  apply bind_Ok_inv in Hrest as ([secret|] & s3 & Hsecret & Hrest); [|done].
  exists mc, idt, secret, s1, s2, s3. split_and!; [done..|].
  apply quiet_run in Hmc; [|apply ManagementCluster_quiet].
  apply quiet_run in Hidt; [|apply ManagementClusterIdentity_quiet].
  apply quiet_run in Hsecret; [|apply private_identity_secret_quiet].
  erewrite run_bind in Hrest by done.
  rewrite Hsecret, Hidt, Hmc in Hrest. by apply private_service_made in Hrest.
Qed.

Lemma getWcToMc_service s svc s' :
  getPrivateDnsServiceForWcToMcIngress fuel r sc s = (Ok (Some svc), s') → ingress_service s svc.
Proof.
  intros (mc & s1 & Hmc%map_err_Ok_inv & Hrest)%bind_Ok_inv.
  apply bind_Ok_inv in Hrest as (idt & s2 & Hidt%map_err_Ok_inv & Hrest).
  apply bind_Ok_inv in Hrest as ([secret|] & s3 & Hsecret & Hrest); [|done].
  apply bind_Ok_inv in Hrest as (cluster & s4 & Hcluster%map_err_Ok_inv & Hrest).
  erewrite run_bind in Hrest by done.
  apply bind_Ok_inv in Hrest as (spec & s5 & Hspec & Hrest).
  pose proof (call_run_Ok _ _ _ _ Hcluster) as Hget.
  assert (infraCluster s4 = infraCluster s) as Hi.
  { apply quiet_run in Hmc; [|apply ManagementCluster_quiet].
    apply quiet_run in Hidt; [|apply InfraClusterIdentity_quiet].
    apply quiet_run in Hsecret; [|apply private_identity_secret_quiet].
    apply quiet_run in Hcluster; [congruence|apply steps_azure_quiet_call, keep_Get_Cluster]. }
  rewrite Hi in Hspec, Hrest.
  exists mc, idt, secret, cluster, spec, s1, s2, s3, (world s4). split_and!; [done..| |].
  - revert Hspec. unfold deref. by destruct (azureClusterSpec _); intros [= ->].
  - by apply private_service_made in Hrest.
Qed.

(** The clients of both implement their contract. *)
Definition has_client (svc : PrivateDns.Service W) : Prop :=
  PrivateClientSpec (privateDNSClient svc) (private_sub svc).

Lemma getMcToWc_made :
  ok_post (getPrivateDnsServiceForMcToWcApi fuel r sc) (serves has_client).
Proof.
  intros s [svc|] s' Hsvc; [|done].
  by destruct (getMcToWc_service _ _ _ Hsvc) as (? & ? & ? & ? & ? & ? & _ & _ & _ & []).
Qed.

Lemma getWcToMc_made :
  ok_post (getPrivateDnsServiceForWcToMcIngress fuel r sc) (serves has_client).
Proof.
  intros s [svc|] s' Hsvc; [|done].
  by destruct (getWcToMc_service _ _ _ Hsvc)
    as (? & ? & ? & ? & ? & ? & ? & ? & ? & _ & _ & _ & _ & _ & []).
Qed.

(** Either private service has such a client. *)
Lemma getMcToWc_public :
  ok_post (getPrivateDnsServiceForMcToWcApi fuel r sc)
    (serves (λ svc, public_client (privateDNSClient svc))).
Proof.
  unfold getPrivateDnsServiceForMcToWcApi.
  do 2 (eapply ok_post_bind; [apply ok_post_True|intros ? _]).
  eapply ok_post_bind; [apply ok_post_True|]. intros [secret|] _; [|by apply ok_post_ret].
  eapply ok_post_bind; [apply ok_post_True|intros ? _]. apply private_service_public.
Qed.

Lemma getWcToMc_public :
  ok_post (getPrivateDnsServiceForWcToMcIngress fuel r sc)
    (serves (λ svc, public_client (privateDNSClient svc))).
Proof.
  unfold getPrivateDnsServiceForWcToMcIngress.
  do 2 (eapply ok_post_bind; [apply ok_post_True|intros ? _]).
  eapply ok_post_bind; [apply ok_post_True|]. intros [secret|] _; [|by apply ok_post_ret].
  do 3 (eapply ok_post_bind; [apply ok_post_True|intros ? _]). apply private_service_public.
Qed.

Lemma getMcToWc_quiet : steps azure_quiet (getPrivateDnsServiceForMcToWcApi fuel r sc).
Proof.
  pose proof private_service_quiet. pose proof private_identity_secret_quiet.
  unfold getPrivateDnsServiceForMcToWcApi. steps_tac.
Qed.

Lemma getWcToMc_quiet : steps azure_quiet (getPrivateDnsServiceForWcToMcIngress fuel r sc).
Proof.
  pose proof private_service_quiet. pose proof private_identity_secret_quiet.
  unfold getPrivateDnsServiceForWcToMcIngress. steps_tac.
Qed.
End services.
