(* ===== verification/Footprint.v ===== *)
(** The footprint of a run in Azure's public DNS, for every outcome of the run,
    errors and panics included: the resource groups and zones named after the
    cluster, and in the base zone the NS record named after the cluster. *)
From S2P Require Import Prelude GoStd Errors Metrics Kube State Conditions Infra Azure Scope.
From S2P Require Import DnsClient PrivateClient DnsRecords DnsService PrivateDns Controller.
From S2P Require Import AzureSpec InfraFacts TagFacts DnsClientFacts DnsRecordsFacts.
From S2P Require Import DnsServiceFacts PrivateFacts PrivateClientFacts ControllerFacts.
From S2P Require Import DnsReconcile PrivateReconcile ControllerProps Services.
Open Scope Z_scope.

(** * Relations that only look at the world *)

Lemma steps_weaken {S E A} (R R' : relation S) (m : M S E A) :
  (∀ s s', R s s' → R' s s') → steps R m → steps R' m.
Proof. intros HR Hm s. apply HR, Hm. Qed.

Section footprint.
Context {W : Type} `{Microerror, Kubernetes W, Prometheus, AzureView W}.
Context (r : ClusterReconciler (W := W)).

Definition base_key : zone_key :=
  (BaseZoneSubscriptionID r, BaseDomainResourceGroup r, BaseDomain r).

(** The view shows all that the operator keeps for the cluster [n]. *)
Class ClusterView (n : string) : Prop := {
  view_zone sub z : shows_zone (sub, n, z);
  view_group sub : shows_group (sub, n);
  view_NS : shows_record base_key RecordTypeNS n;
}.

#[global] Instance full_cluster_view `{!FullView W} n : ClusterView n.
Proof. split; intros; [apply full_zone|apply full_group|apply full_record]. Qed.

(** What a base zone keeps when the cluster [n] is reconciled. *)
Definition base_kept (n : string) (zb zb' : option ZoneData) : Prop :=
  match zb, zb' with
  | Some zb, Some zb' => zd_nameservers zb' = zd_nameservers zb ∧
      ∀ tn, tn ≠ (RecordTypeNS, n) → zd_records zb' !! tn = zd_records zb !! tn
  | None, None => True
  | _, _ => False
  end.

(** What a run for the cluster [n] may touch. *)
Record touches (n : string) (w w' : W) : Prop := {
  touches_groups g : g.2 ≠ n → az_groups w' !! g = az_groups w !! g;
  touches_zones k : k.1.2 ≠ n → k ≠ base_key → az_zones w' !! k = az_zones w !! k;
  touches_base : base_kept n (az_zones w !! base_key) (az_zones w' !! base_key);
}.

#[global] Instance base_kept_preorder n : PreOrder (base_kept n).
Proof.
  split; [by intros [zb|]|]. intros [z1|] [z2|] [z3|]; simpl; try done.
  intros [N1 R1] [N2 R2]. split; [congruence|]. intros tn Htn. by rewrite R2, R1.
Qed.

#[global] Instance touches_preorder n : PreOrder (touches n).
Proof.
  split; [intros w; split; [done..|reflexivity]|]. intros w1 w2 w3 [G1 Z1 B1] [G2 Z2 B2]. split.
  - intros g Hg. by rewrite G2, G1.
  - intros k Hk Hb. by rewrite Z2, Z1.
  - by etransitivity.
Qed.

(** It touches no more, and public zones that were well-formed still are. *)
Definition leaves (n : string) (w w' : W) : Prop :=
  touches n w w' ∧ (zones_wf w → zones_wf w').

#[global] Instance leaves_preorder n : PreOrder (leaves n).
Proof.
  split; [intros w; by split|]. intros w1 w2 w3 [] []. split; [by etransitivity|auto].
Qed.

(** The same for states of the operator. *)
Definition footprint (n : string) (s s' : St W) : Prop := leaves n (world s) (world s').

#[global] Instance footprint_preorder n : PreOrder (footprint n).
Proof. split; [intros s; reflexivity|]. intros s1 s2 s3 ??. by eapply transitivity. Qed.

Lemma leaves_same_public n w w' : same_public w w' → leaves n w w'.
Proof.
  intros [Hz Hg]. split; [|by apply zones_wf_same]. split; intros; rewrite ?Hz, ?Hg; done.
Qed.

Lemma footprint_kept {A} n (m : G W A) : steps view_kept m → steps (footprint n) m.
Proof. apply steps_weaken. intros s s' [Hp _]. by apply leaves_same_public. Qed.

Lemma footprint_quiet {A} n (m : G W A) : steps azure_quiet m → steps (footprint n) m.
Proof. intros Hm. by apply footprint_kept, steps_quiet_kept. Qed.

Lemma footprint_copy {A} n (m : G W A) : steps (footprint n) m → steps (footprint n) (with_scope_copy m).
Proof. intros Hm s. specialize (Hm s). unfold with_scope_copy. by destruct (m s). Qed.

Lemma footprint_upd_metrics n f : steps (footprint n) (upd_metrics f).
Proof. intros s. unfold footprint. simpl. reflexivity. Qed.

(** * The services *)

Section of_service.
Context (sc : Scope W) (svc : DnsRecords.Service W) (Hsvc : public_service_of r sc svc).
Context (Hbase : ClusterName (s_Patcher sc) ≠ BaseDomainResourceGroup r).
Let n := ClusterName (s_Patcher sc).
Let sub := SubscriptionID (s_Patcher sc).

Lemma service_base_zone : base_zone svc (BaseZoneSubscriptionID r) = base_key.
Proof. unfold base_zone, base_key. by rewrite (ps_of_group _ _ _ Hsvc), (ps_of_domain _ _ _ Hsvc). Qed.

Lemma service_name : ClusterName (svc_Patcher svc) = n.
Proof. unfold n. by rewrite <- (ps_of_scope _ _ _ Hsvc). Qed.

Lemma service_group : cluster_group svc sub = (sub, n).
Proof. unfold cluster_group, ResourceGroup_name. by rewrite <- service_name. Qed.

Lemma service_zone : cluster_zone svc sub = (sub, n, n +:+ "." +:+ BaseDomain r).
Proof.
  unfold cluster_zone, ResourceGroup_name, ClusterDomain.
  by rewrite (ps_of_domain _ _ _ Hsvc), <- service_name.
Qed.

Lemma service_in_view : ClusterView n → InView svc sub (BaseZoneSubscriptionID r).
Proof.
  intros [Hz Hg Hns].
  split; rewrite ?service_zone, ?service_group, ?service_base_zone, ?service_name; auto.
Qed.

Lemma leaves_within w w' : within svc sub (BaseZoneSubscriptionID r) w w' → leaves n w w'.
Proof.
  intros [Hg Hz Hn _ _ Hwf]. split; [|done]. rewrite service_group in Hg. unfold may_write in Hz.
  rewrite service_zone in Hz, Hn. rewrite service_base_zone, service_name in Hz.
  assert ((sub, n, n +:+ "." +:+ BaseDomain r) ≠ base_key) as Hne.
  { unfold base_key. by intros [= _ ?]. }
  split.
  - intros g Hne'. apply Hg. by intros ->.
  - intros k Hk Hb. assert (k ≠ (sub, n, n +:+ "." +:+ BaseDomain r)) as Hk' by by intros ->.
    destruct (az_zones w !! k) as [zd|] eqn:Hzd; [|by apply Hn].
    destruct (Hz k zd Hzd) as (zd' & -> & Hns & Hrec & _). f_equal.
    destruct zd as [ns rec], zd' as [ns' rec']. simpl in *. subst ns'. f_equal.
    apply map_eq. intros tn. apply Hrec. tauto.
  - destruct (az_zones w !! base_key) as [zb|] eqn:Hzb.
    + destruct (Hz _ _ Hzb) as (zb' & -> & Hns & Hrec & _). split; [done|].
      intros tn Htn. apply Hrec. by intros [[? _]|[_ ?]].
    + by rewrite Hn by done.
Qed.

Lemma leaves_ns_deleted w w' :
  record_deleted base_key RecordTypeNS n w w' → leaves n w w'.
Proof.
  intros Hd. split; [|by eapply zones_wf_record_deleted]. destruct Hd as [[Hg _] Hz]. split.
  - by rewrite Hg.
  - intros k _ Hk. by rewrite Hz, lookup_alter_ne.
  - rewrite Hz, lookup_alter_eq. destruct (az_zones w !! base_key) as [zb|]; simpl; [|done].
    split; [done|]. intros tn Htn. by apply lookup_delete_ne.
Qed.

Lemma leaves_shrunk w w' : group_shrunk (sub, n) w w' → leaves n w w'.
Proof.
  intros Hs. split; [|by eapply zones_wf_shrunk]. destruct Hs as (Hg & Hz & _). split.
  - intros g Hne. apply Hg. by intros ->.
  - intros k Hk _. apply Hz. intros Heq. by rewrite Heq in Hk.
  - rewrite Hz; [reflexivity|]. unfold base_key. simpl. by intros [= _ ?].
Qed.

Context `{!ClusterView n, !KubeKeepsAzure, !PatcherSpec (s_Patcher sc) (s_publicIPService sc)}.

Lemma Reconcile_footprint_of :
  ¬ decoded_addr (cluster_Name_addr (s_Cluster sc)) →
  steps (footprint n) (DnsService.Reconcile svc).
Proof.
  intros Haddr s. pose proof Hsvc as [Hsc Hg _ _ Htags Hc Hb]. fold sub in Hc.
  assert (PatcherSpec (svc_Patcher svc) (publicIPsService svc)) by by eapply service_patcher.
  pose proof (service_in_view _).
  rewrite <- Hsc in Haddr.
  destruct (runs_Reconcile svc sub (BaseZoneSubscriptionID r) s Htags Haddr) as [[Hw _] _].
  by apply leaves_within.
Qed.

Lemma ReconcileDelete_footprint_of : steps (footprint n) (DnsService.ReconcileDelete svc).
Proof.
  intros s. pose proof Hsvc as [Hsc _ _ _ _ Hc Hb]. fold sub in Hc. pose proof (service_in_view _).
  pose proof (wp_ReconcileDelete svc sub (BaseZoneSubscriptionID r) s) as Hwp. unfold wp in Hwp.
  rewrite service_base_zone, service_name, service_group in Hwp. unfold footprint.
  destruct (DnsService.ReconcileDelete svc s) as [[[]|e| |] s']; simpl in *; [..|done|done];
    destruct Hwp as (w1 & Hns & Hg); transitivity w1.
  - by apply leaves_ns_deleted.
  - destruct (isAzureCluster _); [by subst|]. apply leaves_shrunk, Hg.
  - destruct Hns as [[Hs _]|Hns]; [by apply leaves_same_public|by apply leaves_ns_deleted].
  - destruct (isAzureCluster _); [by subst|]. by apply leaves_shrunk.
Qed.
End of_service.

(** The private services touch nothing public. *)
Lemma footprint_public {A} n (m : G W A) : steps public_kept m → steps (footprint n) m.
Proof. apply steps_weaken. intros s s'. apply leaves_same_public. Qed.

#[local] Hint Resolve steps_public_upd_metrics : go_steps.

Lemma private_Reconcile_public svc :
  public_client (privateDNSClient svc) → steps public_kept (PrivateDns.Reconcile svc).
Proof.
  intros []. unfold PrivateDns.Reconcile, list_or_create_zone, ensure_link, operator_link,
    link_to_vnet, export_zone_size, PrivateDns.updateARecords, PrivateDns.updateCnameRecords,
    PrivateDns.calculateMissingARecords, PrivateDns.calculateMissingCnameRecords,
    getDesiredPrivateARecords, append_private_record, append_ARecord,
    PrivateDns.compare_ARecord, PrivateDns.compare_CnameRecord, export_ARecords, name_of.
  steps_tac. all: try (apply steps_IndexFunc; [apply _|intros ?]; steps_tac).
Qed.

Lemma private_ReconcileDelete_public svc :
  public_client (privateDNSClient svc) → steps public_kept (PrivateDns.ReconcileDelete svc).
Proof. intros []. unfold PrivateDns.ReconcileDelete. steps_tac. Qed.

End footprint.

(** * The controller *)

(** What the Kubernetes API documents of the lookup of a cluster: it is the
    cluster asked for, and decoding it has allocated its own strings. *)
Class ClusterLookup (W : Type) `{Kubernetes W, AzureView W} : Prop := {
  lookup_name c n w cl w' : GetClusterByName c n w = (inr cl, w') → cluster_Name cl = nn_Name n;
  lookup_addr c n w cl w' :
    GetClusterByName c n w = (inr cl, w') → ¬ decoded_addr (cluster_Name_addr cl);
}.

Section controller.
Context {W : Type} `{Microerror, Kubernetes W, Prometheus, AzureView W, !AzureSDK W, !Capz W,
                     !MetaConditions W, !MicroerrorLaws}.
Context `{!SDKSpec W, !SDKConstructors W, !PrivateSDKPublic W, !KubeKeepsAzure, !CapzSpec W}.
Context (fuel : nat) (Hfuel : (page_bound (W := W) ≤ fuel)%nat).
Context (r : ClusterReconciler).

Lemma ensure_finalizer_kept (sc : Scope W) :
  PatcherSpec (s_Patcher sc) (s_publicIPService sc) → steps view_kept (ensure_finalizer sc).
Proof.
  intros Hp. pose proof (patch_kept (p := s_Patcher sc)). unfold ensure_finalizer. steps_tac.
Qed.

Lemma publish_condition_kept (sc : Scope W) : steps view_kept (publish_condition sc).
Proof.
  unfold publish_condition, IsASOManagedCluster, SetUnstructuredCondition,
    setUnstructuredCAPICondition, write_conditions, read_conditions.
  steps_tac.
Qed.

(** Building a private service and running it. *)
Lemma reconcile_private_footprint n (get : G W (option (PrivateDns.Service W))) :
  steps azure_quiet get → ok_post get (serves (λ svc, public_client (privateDNSClient svc))) →
  steps (footprint r n) (reconcile_private get).
Proof.
  intros Hq Hok. unfold reconcile_private.
  eapply steps_bind_post; [apply _|by apply footprint_quiet|exact Hok|].
  intros [svc|] Hsvc; [|by intros s].
  assert (steps (footprint r n) (map_err Mask (PrivateDns.Reconcile svc))) as Hrest;
    [|exact Hrest].
  by apply steps_map_err, footprint_public, private_Reconcile_public.
Qed.

Lemma delete_private_footprint n (sc : Scope W) (get : G W (option (PrivateDns.Service W))) :
  steps azure_quiet get → ok_post get (serves (λ svc, public_client (privateDNSClient svc))) →
  steps (footprint r n) (delete_private r sc get).
Proof.
  intros Hq Hok. unfold delete_private.
  eapply steps_bind_post; [apply _|by apply footprint_quiet|exact Hok|].
  intros [svc|] Hsvc; [|by intros s].
  assert (steps (footprint r n) (map_err Mask (PrivateDns.ReconcileDelete svc);;
            delete_cluster_metrics r sc ZoneTypePrivate)) as Hrest; [|exact Hrest].
  apply steps_bind; [apply _|apply steps_map_err, footprint_public, private_ReconcileDelete_public, Hsvc|].
  intros _. apply footprint_upd_metrics.
Qed.

Section of_scope.
Context (sc : Scope W) (cluster : Cluster) (Hsc : scope_of cluster sc).
Context (Hbase : cluster_Name cluster ≠ BaseDomainResourceGroup r).
Let n := cluster_Name cluster.
Context `{!ClusterView r n}.

Lemma scope_in_view : ClusterView r (ClusterName (s_Patcher sc)).
Proof. destruct Hsc as [_ -> _]. done. Qed.
#[local] Existing Instance scope_in_view.

Lemma optional_private_footprint (b : bool) (m : G W unit) :
  steps (footprint r n) m → steps (footprint r n) (if b then m else mret tt).
Proof. intros Hm. destruct b; [done|]. apply steps_ret, _. Qed.

Lemma reconcileNormal_footprint :
  ¬ decoded_addr (cluster_Name_addr cluster) → steps (footprint r n) (reconcileNormal fuel r sc).
Proof.
  intros Haddr. destruct Hsc as [Hcl Hname Hp]. unfold reconcileNormal.
  apply steps_bind; [apply _|by apply footprint_kept, ensure_finalizer_kept|intros _].
  apply steps_bind; [apply _| |].
  { intros s. rewrite isClusterReady_run. reflexivity. }
  intros [res b]. destruct (negb b); [apply steps_ret, _|].
  apply steps_bind; [apply _|apply steps_gets, _|intros u].
  apply steps_bind; [apply _| |intros _].
  { apply optional_private_footprint, reconcile_private_footprint;
      [by apply getMcToWc_quiet|by apply getMcToWc_public]. }
  apply steps_bind; [apply _| |intros _].
  { apply optional_private_footprint, reconcile_private_footprint;
      [by apply steps_map_err, getWcToMc_quiet|by apply ok_post_map_err, getWcToMc_public]. }
  eapply steps_bind_post; [apply _|by apply footprint_quiet, steps_map_err, getDns_quiet|
                           by apply ok_post_map_err, getDns_service|].
  intros svc Hsvc. apply steps_bind; [apply _|apply footprint_upd_metrics|intros _].
  apply steps_bind; [apply _| |intros _].
  { apply steps_map_err, footprint_copy. unfold n. rewrite <- Hname.
    apply (Reconcile_footprint_of r sc); [done|by rewrite Hname|apply _..|by rewrite Hcl]. }
  apply steps_bind; [apply _|apply footprint_kept, publish_condition_kept|intros _].
  apply steps_bind; [apply _|apply footprint_kept, patch_kept|intros _].
  apply steps_ret, _.
Qed.

Lemma reconcileDelete_footprint : steps (footprint r n) (reconcileDelete fuel r sc).
Proof.
  destruct Hsc as [Hcl Hname Hp]. unfold reconcileDelete.
  apply steps_bind; [apply _|apply steps_gets, _|intros u].
  apply steps_bind; [apply _| |intros _].
  { apply optional_private_footprint, delete_private_footprint;
      [by apply getMcToWc_quiet|by apply getMcToWc_public]. }
  apply steps_bind; [apply _| |intros _].
  { apply optional_private_footprint, delete_private_footprint;
      [by apply getWcToMc_quiet|by apply getWcToMc_public]. }
  eapply steps_bind_post; [apply _|by apply footprint_quiet, steps_map_err, getDns_quiet|
                           by apply ok_post_map_err, getDns_service|].
  intros svc Hsvc. apply steps_bind; [apply _| |intros _].
  { apply steps_map_err, footprint_copy. unfold n. rewrite <- Hname.
    apply (ReconcileDelete_footprint_of r sc); [done|by rewrite Hname|apply _..|done]. }
  apply steps_bind; [apply _|apply steps_gets, _|intros u'].
  apply steps_bind; [apply _|apply footprint_kept; steps_tac|intros _].
  apply steps_bind; [apply _|apply footprint_upd_metrics|intros _]. apply steps_ret, _.
Qed.
End of_scope.

Lemma deferred_close_steps (R : relation (St W)) `{!PreOrder R} {A} (p : Patcher W) (m : G W A) :
  steps R m → steps R (Close p) → steps R (deferred_close p m).
Proof.
  intros Hm Hc s. unfold deferred_close. specialize (Hm s). destruct (m s) as [res s1].
  assert (R s (let '(_, s2) := Close p s1 in s2)) as Hclose.
  { specialize (Hc s1). destruct (Close p s1). by transitivity s1. }
  destruct res; try done; destruct (Close p s1) as [[]?]; done.
Qed.

(** The whole handler. *)
Lemma steps_Reconcile `{!ClusterLookup W} req `{!ClusterView r (nn_Name req)} :
  nn_Name req ≠ BaseDomainResourceGroup r →
  steps (footprint r (nn_Name req)) (Controller.Reconcile fuel r req).
Proof.
  intros Hbase. unfold Controller.Reconcile. eapply steps_bind_post; [apply _| | |].
  { apply footprint_kept, steps_try, steps_view_kept_call, keep_GetClusterByName. }
  { instantiate (1 := λ found, match found with inl _ => True | inr cl =>
      cluster_Name cl = nn_Name req ∧ ¬ decoded_addr (cluster_Name_addr cl) end).
    intros s found s'. unfold try, call.
    destruct (GetClusterByName (r_Client r) req (world s)) as [[e|cl] w] eqn:Hg;
      intros [= <- _]; [done|]. split; [by eapply lookup_name|by eapply lookup_addr]. }
  intros [e|cl] Hcl; [destruct (apierrors_IsNotFound e); [apply steps_ret, _|apply steps_throw, _]|].
  destruct Hcl as [Hname Haddr]. rewrite <- Hname in *.
  apply steps_bind; [apply _| |].
  { apply footprint_kept, steps_try, steps_view_kept_call, keep_GetObject. }
  intros [e|obj]; [destruct (apierrors_IsNotFound e); [apply steps_ret, _|apply steps_throw, _]|].
  apply steps_bind; [apply _|apply footprint_kept; steps_tac|intros _].
  destruct (annotations_IsPaused cl obj); [apply steps_ret, _|].
  eapply steps_bind_post; [apply _|apply footprint_quiet, steps_map_err, NewScope_quiet|
                           apply ok_post_map_err, NewScope_scope_of|].
  intros sc Hsc. simpl in Hsc. apply deferred_close_steps; [apply _| |].
  2: { destruct Hsc. apply footprint_kept, close_kept. }
  apply steps_bind; [apply _|apply steps_gets, _|intros u].
  destruct (cluster_DeletionTimestamp cl), (u_DeletionTimestamp u);
    try by apply reconcileDelete_footprint.
  by apply reconcileNormal_footprint.
Qed.
End controller.
