(* ===== verification/Termination.v ===== *)
(** Every run of the handler ends: the only loops that are not structural are
    those over the pages of a listing, and the fuel of [page_bound] pages is
    enough for each of them. *)
From S2P Require Import Prelude GoStd Errors Metrics Kube State Conditions Infra Azure Scope.
From S2P Require Import DnsClient PrivateClient DnsRecords DnsService PrivateDns Controller.
From S2P Require Import AzureSpec InfraFacts TagFacts DnsClientFacts DnsRecordsFacts.
From S2P Require Import DnsServiceFacts PrivateFacts PrivateClientFacts ControllerFacts.
From S2P Require Import DnsReconcile PrivateReconcile ControllerProps Services Footprint.
Open Scope Z_scope.

(** [m] ends from every state: with a value, an error or a panic. *)
Definition halts {S E A} (m : M S E A) : Prop := ∀ s, (m s).1 ≠ Diverged.

Section halts_rules.
Context {S E : Type}.

Lemma halts_total {A} (m : M S E A) : total m → halts m.
Proof. intros Hm s Hs. specialize (Hm s). by rewrite Hs in Hm. Qed.

Lemma halts_ret {A} (a : A) : halts (mret a : M S E A).
Proof. done. Qed.

Lemma halts_throw {A} (e : E) : halts (throw e : M S E A).
Proof. done. Qed.

Lemma halts_panic {A} : halts (panic : M S E A).
Proof. done. Qed.

Lemma halts_gets {A} (f : S → A) : halts (gets f : M S E A).
Proof. done. Qed.

Lemma halts_modify f : halts (modify f : M S E unit).
Proof. done. Qed.

Lemma halts_deref {A} (p : option A) : halts (deref p : M S E A).
Proof. by destruct p. Qed.

Lemma halts_try {A} (m : M S E A) : halts m → halts (try m).
Proof. intros Hm s. specialize (Hm s). unfold try. by destruct (m s) as [[]?]. Qed.

Lemma halts_map_err {A} f (m : M S E A) : halts m → halts (map_err f m).
Proof. intros Hm s. specialize (Hm s). unfold map_err. by destruct (m s) as [[]?]. Qed.

Lemma halts_bind_post {A B} (m : M S E A) (k : A → M S E B) (P : A → Prop) :
  halts m → ok_post m P → (∀ a, P a → halts (k a)) → halts (m ≫= k).
Proof.
  intros Hm HP Hk s. specialize (Hm s). specialize (HP s). unfold mbind, M_bind.
  destruct (m s) as [[a| | |] s1]; try done. by eapply Hk, HP.
Qed.

Lemma halts_bind {A B} (m : M S E A) (k : A → M S E B) :
  halts m → (∀ a, halts (k a)) → halts (m ≫= k).
Proof. intros Hm Hk. eapply halts_bind_post; [done|apply ok_post_True|]. by intros a _. Qed.
End halts_rules.

Section state.
Context {W : Type} `{Kubernetes W, Prometheus}.

Lemma halts_call {A} (f : io W A) : halts (call f).
Proof. apply halts_total, total_call. Qed.

Lemma halts_lift_sum {A} (x : GoError + A) : halts (lift_sum (W := W) x).
Proof. by destruct x. Qed.

Lemma halts_upd_metrics f : halts (upd_metrics (W := W) f).
Proof. done. Qed.

Lemma halts_upd_cache f : halts (upd_cache (W := W) f).
Proof. done. Qed.

Lemma halts_with_scope_copy {A} (m : G W A) : halts m → halts (with_scope_copy m).
Proof. intros Hm s. specialize (Hm s). unfold with_scope_copy. by destruct (m s). Qed.

Lemma halts_deferred_close {A} (p : Patcher W) (m : G W A) `{!Microerror} :
  halts m → halts (Close p) → halts (deferred_close p m).
Proof.
  intros Hm Hc s. unfold deferred_close. specialize (Hm s). destruct (m s) as [res s1].
  specialize (Hc s1). destruct res; try done; by destruct (Close p s1) as [[]?].
Qed.
End state.

Create HintDb go_halts discriminated.
#[export] Hint Resolve halts_ret halts_throw halts_panic halts_gets halts_modify halts_deref
  halts_call halts_lift_sum halts_upd_metrics halts_upd_cache : go_halts.

Ltac halts_step :=
  lazymatch goal with
  | |- halts (mbind _ _) => apply halts_bind; [|intros ?]
  | |- halts (try _) => apply halts_try
  | |- halts (map_err _ _) => apply halts_map_err
  | |- halts (if ?b then _ else _) => destruct b
  | |- halts (match ?x with _ => _ end) => destruct x
  end.

Ltac halts_tac := repeat (intros; first [ solve [ eauto 3 with go_halts ] | halts_step ]).

Section controller.
Context {W : Type} `{Microerror, Kubernetes W, Prometheus, AzureView W, !AzureSDK W, !Capz W,
                     !MetaConditions W, !MicroerrorLaws}.
Context `{!SDKSpec W, !SDKConstructors W, !PrivateSDKSpec W, !PrivateSDKConstructors W,
          !PrivateSDKPublic W}.
Context `{!FullView W, !KubeKeepsAzure, !CapzSpec W, !ClusterLookup W}.
Context (fuel : nat) (Hfuel : (page_bound (W := W) ≤ fuel)%nat).
Context (Hprivate : (private_page_bound (W := W) ≤ fuel)%nat).
Context (r : ClusterReconciler).

(** * The calls without loops *)

Lemma halts_PatchObject params s sc s' :
  NewScope (W := W) params s = (Ok sc, s') →
  halts (PatchObject (s_Patcher sc)) ∧ halts (Close (s_Patcher sc)).
Proof.
  assert (∀ cp, halts (cp_PatchObject (W := W) cp)) as Hcp.
  { intros cp. unfold cp_PatchObject, status_update, object_update. halts_tac. }
  unfold NewScope. intros (u & s0 & _ & Hrest)%bind_Ok_inv.
  destruct (isAzureCluster u).
  - repeat (apply bind_Ok_inv in Hrest as (? & ? & _ & Hrest)). injection Hrest as <- _.
    simpl. split; apply halts_call.
  - apply bind_Ok_inv in Hrest as (creds & s1 & _ & Hrest).
    apply bind_Ok_inv in Hrest as ([[[[sid cid] tid] mc] idt] & s2 & _ & Hrest).
    apply bind_Ok_inv in Hrest as ([] & s3 & _ & Hrest). injection Hrest as <- _. simpl.
    unfold cp_Close. by split.
Qed.

Section of_scope.
Context (sc : Scope W).

Lemma halts_lookups :
  halts (ManagementCluster sc) ∧ halts (ManagementClusterIdentity sc) ∧
  halts (InfraClusterIdentity sc).
Proof.
  unfold InfraClusterIdentity, identity_fallback, ManagementClusterIdentity, ManagementCluster,
    managementAzureCluster, azureClusterIdentity. split_and!; halts_tac.
Qed.

Lemma halts_getDns : halts (getDnsServiceForPublicRecords fuel r sc).
Proof.
  destruct halts_lookups as (_ & _ & Hi).
  unfold getDnsServiceForPublicRecords, getInfraClusterStaticServicePrincipalSecret,
    InfraClusterAnnotations, DnsService.New, newAzureClient, newBaseZoneClient, new_clients.
  halts_tac.
Qed.

Lemma halts_private_service params : halts (private_service (W := W) fuel params).
Proof. unfold private_service, PrivateDns.New, newPrivateDNSClient. halts_tac. Qed.

Lemma halts_getPrivate :
  halts (getPrivateDnsServiceForMcToWcApi fuel r sc) ∧
  halts (getPrivateDnsServiceForWcToMcIngress fuel r sc).
Proof.
  destruct halts_lookups as (Hm & Hmi & Hi). pose proof halts_private_service.
  unfold getPrivateDnsServiceForMcToWcApi, getPrivateDnsServiceForWcToMcIngress,
    private_identity_secret. split; halts_tac.
Qed.

(** * The services *)

Lemma halts_reconcile_private get :
  halts get → ok_post get (serves has_client) →
  halts (reconcile_private get).
Proof.
  intros Hget Hok. eapply halts_bind_post; [done|exact Hok|]. intros [svc|] Hsvc; [|done].
  assert (has_client svc) as Hc by exact Hsvc. unfold has_client in Hc. apply halts_map_err. intros s Hs.
  destruct (wp_private_Reconcile svc (private_sub svc) s) as [_ Hout]. by rewrite Hs in Hout.
Qed.

Lemma halts_delete_private get :
  halts get → ok_post get (serves has_client) →
  halts (delete_private r sc get).
Proof.
  intros Hget Hok. eapply halts_bind_post; [done|exact Hok|]. intros [svc|] Hsvc; [|done].
  assert (has_client svc) as Hc by exact Hsvc. unfold has_client in Hc.
  assert (halts (map_err Mask (PrivateDns.ReconcileDelete svc);;
            delete_cluster_metrics r sc ZoneTypePrivate)) as Hrest; [|exact Hrest].
  apply halts_bind; [|intros _; apply halts_upd_metrics]. apply halts_map_err. intros s Hs.
  pose proof (wp_private_ReconcileDelete svc (private_sub svc) s) as Hout. unfold wp in Hout.
  by rewrite Hs in Hout.
Qed.

Context (cluster : Cluster) (Hsc : scope_of cluster sc).
Context (Hpatch : halts (PatchObject (s_Patcher sc))).

Lemma halts_reconcileNormal :
  ¬ decoded_addr (cluster_Name_addr cluster) → halts (reconcileNormal fuel r sc).
Proof.
  intros Haddr. destruct halts_getPrivate as [Hapi Hing]. pose proof halts_getDns.
  destruct Hsc as [Hcl _ Hp]. unfold reconcileNormal.
  apply halts_bind; [unfold ensure_finalizer; halts_tac|intros _].
  apply halts_bind; [intros s; by rewrite isClusterReady_run|]. intros [res b].
  destruct (negb b); [done|]. apply halts_bind; [done|intros u].
  apply halts_bind; [destruct (wants_private _ _ _); [|done]|intros _].
  { apply halts_reconcile_private; [done|by apply getMcToWc_made]. }
  apply halts_bind; [destruct (wants_private _ _ _); [|done]|intros _].
  { apply halts_reconcile_private; [by apply halts_map_err|by apply ok_post_map_err, getWcToMc_made]. }
  eapply halts_bind_post; [by apply halts_map_err|by apply ok_post_map_err, getDns_service|].
  intros svc Hsvc. apply halts_bind; [done|intros _]. apply halts_bind; [|intros _].
  - apply halts_map_err, halts_with_scope_copy. intros s Hs.
    assert (PatcherSpec (svc_Patcher svc) (publicIPsService svc)) by by eapply service_patcher.
    pose proof Hsvc as [Hsc' _ _ _ Htags Hc Hb]. rewrite <- Hcl, <- Hsc' in Haddr.
    destruct (runs_Reconcile svc _ (BaseZoneSubscriptionID r) s Htags Haddr) as [_ Hout].
    by rewrite Hs in Hout.
  - assert (halts (publish_condition sc)).
    { unfold publish_condition, IsASOManagedCluster, SetUnstructuredCondition, status_update,
        setUnstructuredCAPICondition, write_conditions, read_conditions. halts_tac. }
    halts_tac.
Qed.

Lemma halts_reconcileDelete : halts (reconcileDelete fuel r sc).
Proof.
  destruct halts_getPrivate as [Hapi Hing]. pose proof halts_getDns.
  unfold reconcileDelete. apply halts_bind; [done|intros u].
  apply halts_bind; [destruct (wants_private _ _ _); [|done]|intros _].
  { apply halts_delete_private; [done|by apply getMcToWc_made]. }
  apply halts_bind; [destruct (wants_private _ _ _); [|done]|intros _].
  { apply halts_delete_private; [done|by apply getWcToMc_made]. }
  eapply halts_bind_post; [by apply halts_map_err|by apply ok_post_map_err, getDns_service|].
  intros svc Hsvc. apply halts_bind; [|intros _].
  - apply halts_map_err, halts_with_scope_copy. intros s Hs.
    pose proof Hsvc as [_ _ _ _ _ Hc Hb].
    pose proof (wp_ReconcileDelete svc _ (BaseZoneSubscriptionID r) s) as Hout. unfold wp in Hout.
    by rewrite Hs in Hout.
  - unfold delete_cluster_metrics. halts_tac.
Qed.
End of_scope.

(** C14: a run of the handler ends from every state and for every request, with a
    value, an error or a panic, when the fuel is enough for the pages of a
    listing: nothing in it loops forever. *)
Theorem Reconcile_halts (req : NamespacedName) (s : St W) :
  (Controller.Reconcile fuel r req s).1 ≠ Diverged.
Proof.
  revert s. change (halts (Controller.Reconcile fuel r req)). unfold Controller.Reconcile.
  eapply (halts_bind_post _ _ (λ found, match found with inl _ => True | inr cl =>
    ¬ decoded_addr (cluster_Name_addr cl) end)); [apply halts_try, halts_call| |].
  { intros s found s'. unfold try, call.
    destruct (GetClusterByName (r_Client r) req (world s)) as [[e|cl] w] eqn:Hg;
      intros [= <- _]; [done|]. by eapply lookup_addr. }
  intros [e|cl] Haddr; [halts_tac|]. apply halts_bind; [apply halts_try, halts_call|].
  intros [e|obj]; [halts_tac|]. apply halts_bind; [done|intros _].
  destruct (annotations_IsPaused cl obj); [done|].
  eapply (halts_bind_post _ _ (λ sc, scope_of cl sc ∧ halts (PatchObject (s_Patcher sc)) ∧
                                     halts (Close (s_Patcher sc)))).
  { apply halts_map_err. unfold NewScope, aso_credentials, complete_credentials,
      managementAzureCluster, azureClusterIdentity. halts_tac. }
  { apply ok_post_map_err. intros s sc s' Hrun. split; [|by eapply halts_PatchObject].
    by apply NewScope_scope_of in Hrun. }
  intros sc (Hsc & Hpatch & Hclose). apply halts_deferred_close; [|done].
  apply halts_bind; [done|intros u].
  destruct (cluster_DeletionTimestamp cl), (u_DeletionTimestamp u);
    try apply halts_reconcileDelete.
  by apply (halts_reconcileNormal sc cl).
Qed.
End controller.
