(* ===== verification/EndToEnd.v ===== *)
(** The controller and the services it builds, taken together: the services that
    the controller obtains meet every contract their properties ask for, so
    what a reconciliation of a cluster object promises is a statement about
    Azure. *)
From S2P Require Import Prelude GoStd Errors Metrics Kube State Conditions Infra Azure Scope.
From S2P Require Import DnsClient PrivateClient DnsRecords DnsService PrivateDns Controller.
From S2P Require Import AzureSpec InfraFacts TagFacts DnsClientFacts DnsRecordsFacts.
From S2P Require Import DnsServiceFacts PrivateFacts PrivateClientFacts ControllerFacts.
From S2P Require Import DnsReconcile PrivateReconcile ControllerProps Services Footprint.
Open Scope Z_scope.

Section services.
Context {W : Type} `{Microerror, Kubernetes W, Prometheus, AzureView W, !AzureSDK W, !Capz W,
                     !MetaConditions W, !MicroerrorLaws}.
Context `{!SDKSpec W, !SDKConstructors W, !PrivateSDKSpec W, !PrivateSDKConstructors W,
          !PrivateSDKPublic W}.
Context `{!KubeKeepsAzure}.
Context (fuel : nat) (Hfuel : (page_bound (W := W) ≤ fuel)%nat).
Context (Hprivate : (private_page_bound (W := W) ≤ fuel)%nat).
Context (r : ClusterReconciler).

(** * The reconciliation of a live cluster *)

(** What has converged stays so while the zones stay. *)
Lemma converged_zones svc sub bsub s s' s'' :
  az_zones (world s'') = az_zones (world s') →
  converged svc sub bsub s s' → converged svc sub bsub s s''.
Proof.
  intros Hz [(s0 & zd0 & zd & ds & s1 & Hp & F & Hz0 & Hzd & Hrest) Hw Hns].
  split; [|by rewrite Hz..]. exists s0, zd0, zd, ds, s1. by rewrite Hz.
Qed.

(** The public service of a scope, run on its own copy of the scope. *)
Lemma with_copy_runs (sc : Scope W) `{!ClusterView r (ClusterName (s_Patcher sc))} svc s s' :
  public_service_of r sc svc → PatcherSpec (s_Patcher sc) (s_publicIPService sc) →
  ¬ decoded_addr (cluster_Name_addr (s_Cluster sc)) →
  with_scope_copy (DnsService.Reconcile svc) s = (Ok tt, s') →
  converged svc (SubscriptionID (s_Patcher sc)) (BaseZoneSubscriptionID r) s s' ∧
  same_private (world s) (world s').
Proof.
  intros Hsvc Hp Haddr Hrun. unfold with_scope_copy in Hrun.
  assert (PatcherSpec (svc_Patcher svc) (publicIPsService svc)) by by eapply service_patcher.
  pose proof (service_in_view r sc svc Hsvc _).
  destruct Hsvc as [<- _ _ _ Htags Hc Hb].
  destruct (runs_Reconcile svc (SubscriptionID (svc_Patcher svc)) (BaseZoneSubscriptionID r) s
              Htags Haddr) as [[[_ _ _ Hpriv] _] Hconv].
  destruct (DnsService.Reconcile svc s) as [res s1]. injection Hrun as -> <-.
  split; [by eapply converged_zones; [|exact Hconv]|done].
Qed.

(** The two stages of private services. *)
Definition api_stage (sc : Scope W) (u : Unstructured) : G W unit :=
  if wants_private (u_Annotations u) (azureClusterSpec u)
       azurePrivateEndpointOperatorApiServerAnnotation
  then reconcile_private (getPrivateDnsServiceForMcToWcApi fuel r sc) else mret tt.

Definition ingress_stage (sc : Scope W) (u : Unstructured) : G W unit :=
  if wants_private (u_Annotations u) (azureClusterSpec u)
       azurePrivateEndpointOperatorMcIngressAnnotation
  then reconcile_private (map_err Mask (getPrivateDnsServiceForWcToMcIngress fuel r sc))
  else mret tt.

(** A run that returned a value, call by call. *)
Lemma reconcileNormal_inv (sc : Scope W) s res s' :
  reconcileNormal fuel r sc s = (Ok res, s') →
  ∃ s0, ensure_finalizer sc s = (Ok tt, s0) ∧
  if ready (s_Cluster sc) (infraCluster s0)
  then res = {| RequeueAfter := 300 |} ∧
    ∃ svc s1 s2 s3 s4 s5 s6, api_stage sc (infraCluster s0) s0 = (Ok tt, s1) ∧
      ingress_stage sc (infraCluster s0) s1 = (Ok tt, s2) ∧
      getDnsServiceForPublicRecords fuel r sc s2 = (Ok svc, s3) ∧
      (world s4 = world s3 ∧ infraCluster s4 = infraCluster s3) ∧
      upd_metrics (ZoneInfo_Set [BaseDomain r; ZoneTypePublic; BaseDomainResourceGroup r;
                                 BaseZoneTenantID r; BaseZoneSubscriptionID r] 1) s3 = (Ok tt, s4) ∧
      with_scope_copy (DnsService.Reconcile svc) s4 = (Ok tt, s5) ∧
      publish_condition sc s5 = (Ok tt, s6) ∧ PatchObject (s_Patcher sc) s6 = (Ok tt, s')
  else res = {| RequeueAfter := 120 |} ∧ s' = s0.
Proof.
  intros ([] & s0 & Hfin & Hrest)%bind_Ok_inv.
  exists s0. split; [done|]. erewrite run_bind in Hrest by apply isClusterReady_run.
  destruct (ready _ _); simpl in Hrest; [|by injection Hrest as <- <-].
  erewrite run_bind in Hrest by done.
  apply bind_Ok_inv in Hrest as ([] & s1 & Hapi & Hrest).
  apply bind_Ok_inv in Hrest as ([] & s2 & Hing & Hrest).
  apply bind_Ok_inv in Hrest as (svc & s3 & Hsvc%map_err_Ok_inv & Hrest).
  apply bind_Ok_inv in Hrest as ([] & s4 & Hmt & Hrest).
  apply bind_Ok_inv in Hrest as ([] & s5 & Hrec%map_err_Ok_inv & Hrest).
  apply bind_Ok_inv in Hrest as ([] & s6 & Hcond & Hrest).
  apply bind_Ok_inv in Hrest as ([] & s7 & Hpatch & Hrest).
  injection Hrest as <- <-. split; [done|]. exists svc, s1, s2, s3, s4, s5, s6.
  split_and!; [exact Hapi|exact Hing|exact Hsvc|..|exact Hmt|exact Hrec|exact Hcond|exact Hpatch];
    by injection Hmt as <-.
Qed.

(** The view that a call of a run has kept. *)
Lemma kept_run {A} (m : G W A) s a s' :
  steps view_kept m → m s = (Ok a, s') → same_view (world s) (world s').
Proof. intros Hm Hrun. specialize (Hm s). by rewrite Hrun in Hm. Qed.

Lemma publish_patch_kept (sc : Scope W) s s1 s' :
  PatcherSpec (s_Patcher sc) (s_publicIPService sc) →
  publish_condition sc s = (Ok tt, s1) → PatchObject (s_Patcher sc) s1 = (Ok tt, s') →
  same_view (world s) (world s').
Proof.
  intros Hp Hcond Hpatch.
  pose proof (kept_run _ _ _ _ (publish_condition_kept sc) Hcond).
  apply kept_run in Hpatch; [by etransitivity|apply patch_kept].
Qed.

Lemma run_reconcileNormal_converges (sc : Scope W) `{!ClusterView r (ClusterName (s_Patcher sc))} s res s' :
  PatcherSpec (s_Patcher sc) (s_publicIPService sc) →
  ¬ decoded_addr (cluster_Name_addr (s_Cluster sc)) →
  reconcileNormal fuel r sc s = (Ok res, s') →
  ∃ s0, ensure_finalizer sc s = (Ok tt, s0) ∧
  if ready (s_Cluster sc) (infraCluster s0)
  then res = {| RequeueAfter := 300 |} ∧
    ∃ svc s1 s2 s3, public_service_of r sc svc ∧
      with_scope_copy (DnsService.Reconcile svc) s1 = (Ok tt, s2) ∧
      converged svc (SubscriptionID (s_Patcher sc)) (BaseZoneSubscriptionID r) s1 s' ∧
      publish_condition sc s2 = (Ok tt, s3) ∧ PatchObject (s_Patcher sc) s3 = (Ok tt, s')
  else res = {| RequeueAfter := 120 |} ∧ s' = s0.
Proof.
  intros Hp Haddr (s0 & Hfin & Hrun)%reconcileNormal_inv. exists s0. split; [done|].
  destruct (ready _ _); [|done]. destruct Hrun as [-> Hrun]. split; [done|].
  destruct Hrun as (svc & s1 & s2 & s3 & s4 & s5 & s6 & _ & _ & Hsvc & _ & _ & Hrec & Hcond & Hpatch).
  apply getDns_service in Hsvc; [|done].
  pose proof Hrec as [Hconv _]%(with_copy_runs sc); [|done..].
  exists svc, s4, s5, s6. split_and!; [done|done| |done|done].
  eapply converged_zones; [|exact Hconv]. by eapply same_view_zones, publish_patch_kept.
Qed.

(** C8: when the reconciliation of a live cluster returns without an error, it
    asks for the next run in two minutes and has done no more than to set the
    finalizer if the cluster was not ready; otherwise it asks for the next run
    in five minutes, the condition and the object have been written, and the
    public records have converged in Azure, in the subscription of the cluster
    and that of the base domain. *)
Theorem reconcileNormal_converges (sc : Scope W) `{!ClusterView r (ClusterName (s_Patcher sc))}
    s res s' :
  PatcherSpec (s_Patcher sc) (s_publicIPService sc) →
  ¬ decoded_addr (cluster_Name_addr (s_Cluster sc)) →
  reconcileNormal fuel r sc s = (Ok res, s') →
  ∃ s0, ensure_finalizer sc s = (Ok tt, s0) ∧
  if ready (s_Cluster sc) (infraCluster s0)
  then res = {| RequeueAfter := 300 |} ∧
    ∃ svc s1 s2 s3, public_service_of r sc svc ∧
      with_scope_copy (DnsService.Reconcile svc) s1 = (Ok tt, s2) ∧
      converged svc (SubscriptionID (s_Patcher sc)) (BaseZoneSubscriptionID r) s1 s' ∧
      publish_condition sc s2 = (Ok tt, s3) ∧ PatchObject (s_Patcher sc) s3 = (Ok tt, s')
  else res = {| RequeueAfter := 120 |} ∧ s' = s0.
Proof. by apply run_reconcileNormal_converges. Qed.

(** ** The private services *)

(** The promise of a private service depends on its own zone and links only. *)
Lemma private_converged_agree svc sub s0 s s' :
  az_private (world s') !! private_zone svc sub = az_private (world s) !! private_zone svc sub →
  az_links (world s') !! private_zone svc sub = az_links (world s) !! private_zone svc sub →
  private_converged svc sub s0 s → private_converged svc sub s0 s'.
Proof.
  intros Hz Hl [Hzone Hlink]. split; [by rewrite Hz|].
  unfold links, links_of in *. by rewrite Hl.
Qed.

Lemma private_converged_same svc sub s0 s s' :
  same_private (world s) (world s') →
  private_converged svc sub s0 s → private_converged svc sub s0 s'.
Proof. intros [Hz Hl]. by apply private_converged_agree; rewrite ?Hz, ?Hl. Qed.

Lemma private_converged_start svc sub s0 s1 s' :
  same_private (world s0) (world s1) →
  private_converged svc sub s1 s' → private_converged svc sub s0 s'.
Proof.
  intros [_ Hl] [Hzone Hlink]. split; [done|]. unfold links, links_of in *. by rewrite <- Hl.
Qed.

Lemma reconcile_private_run get s s' :
  steps azure_quiet get → ok_post get (serves has_client) →
  reconcile_private get s = (Ok tt, s') →
  ∃ svc s1, get s = (Ok (Some svc), s1) ∧ infraCluster s' = infraCluster s ∧
    same_view (world s) (world s1) ∧ private_frame svc (private_sub svc) s1 s' ∧
    private_converged svc (private_sub svc) s s'.
Proof.
  intros Hq Hof ([svc|] & s1 & Hget & Hrest)%bind_Ok_inv; [|done].
  apply map_err_Ok_inv in Hrest. exists svc, s1.
  pose proof (Hof _ _ _ Hget : has_client svc) as Hc. unfold has_client in Hc.
  pose proof (wp_private_Reconcile svc (private_sub svc) s1) as Hwp. unfold wp in Hwp.
  rewrite Hrest in Hwp. destruct Hwp as [Hframe Hconv]. simpl in Hframe, Hconv.
  assert (same_view (world s) (world s1)) as Hv.
  { eapply kept_run; [|exact Hget]. by apply steps_quiet_kept. }
  split_and!; [done| |done|done|].
  - apply quiet_run in Hget; [|done]. by rewrite (pf_infra _ _ _ _ Hframe).
  - eapply private_converged_start; [apply Hv|exact Hconv].
Qed.

(** A stage that was wanted has a service, and that has converged. *)
Lemma api_stage_run (sc : Scope W) s s' :
  api_stage sc (infraCluster s) s = (Ok tt, s') →
  infraCluster s' = infraCluster s ∧
  if wants_private (u_Annotations (infraCluster s)) (azureClusterSpec (infraCluster s))
       azurePrivateEndpointOperatorApiServerAnnotation
  then ∃ svc, api_service r sc s svc ∧ private_converged svc (private_sub svc) s s'
  else s' = s.
Proof.
  unfold api_stage. destruct (wants_private _ _ _); [|by intros [= <-]].
  intros Hrun. apply reconcile_private_run in Hrun
    as (svc & s1 & Hget & Hi & _ & _ & Hconv); [|by apply getMcToWc_quiet|by apply getMcToWc_made].
  split; [done|]. exists svc. split; [|done]. by eapply getMcToWc_service.
Qed.

Lemma ingress_stage_run (sc : Scope W) u s s' :
  ingress_stage sc u s = (Ok tt, s') →
  if wants_private (u_Annotations u) (azureClusterSpec u)
       azurePrivateEndpointOperatorMcIngressAnnotation
  then ∃ svc s1, ingress_service r sc s svc ∧ same_view (world s) (world s1) ∧
    private_frame svc (private_sub svc) s1 s' ∧ private_converged svc (private_sub svc) s s'
  else s' = s.
Proof.
  unfold ingress_stage. destruct (wants_private _ _ _); [|by intros [= <-]].
  intros Hrun. apply reconcile_private_run in Hrun
    as (svc & s1 & Hget & _ & Hrest); [|by apply steps_map_err, getWcToMc_quiet|
                                        by apply ok_post_map_err, getWcToMc_made].
  apply map_err_Ok_inv in Hget. exists svc, s1. split; [by eapply getWcToMc_service|done].
Qed.

(** What comes after the private stages leaves the private zones alone. *)
Lemma public_half_private (sc : Scope W) `{!ClusterView r (ClusterName (s_Patcher sc))}
    svc s2 s3 s4 s5 s6 s' :
  PatcherSpec (s_Patcher sc) (s_publicIPService sc) →
  ¬ decoded_addr (cluster_Name_addr (s_Cluster sc)) →
  getDnsServiceForPublicRecords fuel r sc s2 = (Ok svc, s3) → world s4 = world s3 →
  with_scope_copy (DnsService.Reconcile svc) s4 = (Ok tt, s5) →
  publish_condition sc s5 = (Ok tt, s6) → PatchObject (s_Patcher sc) s6 = (Ok tt, s') →
  same_private (world s2) (world s').
Proof.
  intros Hp Haddr Hget Hw Hrec Hcond Hpatch.
  assert (same_view (world s2) (world s3)) as [_ H23].
  { eapply kept_run; [|exact Hget]. by apply steps_quiet_kept, getDns_quiet. }
  apply (with_copy_runs sc) in Hrec as [_ H45]; [|by eapply getDns_service|done..].
  destruct (publish_patch_kept sc s5 s6 s' Hp Hcond Hpatch) as [_ H5].
  rewrite Hw in H45. by do 2 (etransitivity; [eassumption|]).
Qed.

(** C17: when the reconciliation of a live cluster has come to its end, the
    private zones that the annotations of the object ask for have converged as
    well, in the final state: the zone of the management cluster's ingress, in
    the network of the cluster, always; the zone of the cluster's API server, in
    the network of the management cluster, unless the other service writes the
    very same zone.  Names, addresses, networks, subscriptions and identities of
    both services are those of the objects read at the time. *)
Theorem reconcileNormal_private_converges
    (sc : Scope W) `{!ClusterView r (ClusterName (s_Patcher sc))} s s' :
  PatcherSpec (s_Patcher sc) (s_publicIPService sc) →
  ¬ decoded_addr (cluster_Name_addr (s_Cluster sc)) →
  reconcileNormal fuel r sc s = (Ok {| RequeueAfter := 300 |}, s') →
  ∃ s0 s1, ensure_finalizer sc s = (Ok tt, s0) ∧
    api_stage sc (infraCluster s0) s0 = (Ok tt, s1) ∧ infraCluster s1 = infraCluster s0 ∧
    let wanted := wants_private (u_Annotations (infraCluster s0))
                    (azureClusterSpec (infraCluster s0)) in
    (wanted azurePrivateEndpointOperatorMcIngressAnnotation = true →
     ∃ svc, ingress_service r sc s1 svc ∧ private_converged svc (private_sub svc) s1 s') ∧
    (wanted azurePrivateEndpointOperatorApiServerAnnotation = true →
     ∃ svc, api_service r sc s0 svc ∧
       ((wanted azurePrivateEndpointOperatorMcIngressAnnotation = true →
         ∀ svc', ingress_service r sc s1 svc' →
           private_zone svc (private_sub svc) ≠ private_zone svc' (private_sub svc')) →
        private_converged svc (private_sub svc) s0 s')).
Proof.
  intros Hp Haddr (s0 & Hfin & Hrun)%reconcileNormal_inv.
  destruct (ready _ _); [|by destruct Hrun as [[=] _]]. destruct Hrun as [_ Hrun].
  destruct Hrun as (svc & s1 & s2 & s3 & s4 & s5 & s6 & Hapi & Hing & Hget & [Hw _] & _ & Hrec & Hcond & Hpatch).
  pose proof (public_half_private sc _ _ _ _ _ _ _ Hp Haddr Hget Hw Hrec Hcond Hpatch) as Hlast.
  exists s0, s1. split; [done|]. split; [done|].
  apply api_stage_run in Hapi as [Hi Hapi]. split; [done|]. apply ingress_stage_run in Hing.
  destruct (wants_private _ _ azurePrivateEndpointOperatorMcIngressAnnotation) eqn:Hwi.
  - destruct Hing as (ing & s1' & Hof & [_ [Hvz Hvl]] & [_ _ Hfl Hfz _] & Hconv). split.
    + intros _. exists ing. split; [done|]. by eapply private_converged_same.
    + intros Hwa. rewrite Hwa in Hapi. destruct Hapi as (api & Hapi & Haconv).
      exists api. split; [done|]. intros Hne. specialize (Hne Hwi ing Hof).
      eapply private_converged_same; [exact Hlast|].
      eapply private_converged_agree; [| |exact Haconv].
      * by rewrite Hfz, Hvz.
      * by rewrite Hfl, Hvl.
  - subst s2. split; [by simpl; rewrite Hwi|]. intros Hwa. rewrite Hwa in Hapi.
    destruct Hapi as (api & Hapi & Haconv). exists api. split; [done|]. intros _.
    by eapply private_converged_same.
Qed.

(** * The reconciliation of a deleted cluster *)

Lemma run_reconcileDelete_cleans (sc : Scope W) `{!ClusterView r (ClusterName (s_Patcher sc))} s res s' :
  reconcileDelete fuel r sc s = (Ok res, s') →
  infraCluster s' = released (infraCluster s) ∧
  ∃ svc w0 w1, public_service_of r sc svc ∧
    record_deleted (base_zone svc (BaseZoneSubscriptionID r)) RecordTypeNS
      (ClusterName (s_Patcher sc)) w0 w1 ∧
    if isAzureCluster (infraCluster s) then w1 = world s'
    else group_deleted (cluster_group svc (SubscriptionID (s_Patcher sc))) w1 (world s').
Proof.
  intros Hrun. pose proof (wp_reconcileDelete fuel r sc s) as Hwp. unfold wp in Hwp.
  rewrite Hrun in Hwp. simpl in Hwp.
  destruct Hwp as (Hi & svc & s1 & s2 & s3 & Hget & Hi2 & Hdel & ->).
  split; [done|]. pose proof (getDns_service fuel Hfuel r sc s1 svc s2 Hget) as Hsvc.
  pose proof (service_in_view r sc svc Hsvc _).
  destruct (Hsvc) as [<- _ _ _ _ Hc Hb].
  pose proof (wp_ReconcileDelete svc (SubscriptionID (svc_Patcher svc)) (BaseZoneSubscriptionID r) s2)
    as Hwp. unfold wp, with_scope_copy in *.
  destruct (DnsService.ReconcileDelete svc s2) as [res3 s4]. injection Hdel as -> <-.
  simpl in Hwp. rewrite Hi2 in Hwp. destruct Hwp as (w1 & Hns & Hgroup).
  by exists svc, (world s2), w1.
Qed.

(** When the reconciliation of a deleted cluster returns without an error,
    the cluster's NS record is gone from the base zone and, unless the cluster
    is an AzureCluster, its resource group with every zone in it; the object
    has lost the finalizer, and nothing has happened in Azure since. *)
Theorem reconcileDelete_cleans (sc : Scope W) `{!ClusterView r (ClusterName (s_Patcher sc))} s res s' :
  reconcileDelete fuel r sc s = (Ok res, s') →
  infraCluster s' = released (infraCluster s) ∧
  ∃ svc w0 w1, public_service_of r sc svc ∧
    record_deleted (base_zone svc (BaseZoneSubscriptionID r)) RecordTypeNS
      (ClusterName (s_Patcher sc)) w0 w1 ∧
    if isAzureCluster (infraCluster s) then w1 = world s'
    else group_deleted (cluster_group svc (SubscriptionID (s_Patcher sc))) w1 (world s').
Proof. by apply run_reconcileDelete_cleans. Qed.
End services.
