(* ===== verification/Operator.v ===== *)
(** The operator as a whole: the handler of one request with everything it
    builds and defers, and the operator as a transition system whose steps are
    complete runs of the handler, for clusters that share a base zone, in any
    order and with any outcome. *)
From S2P Require Import Prelude GoStd Errors Metrics Kube State Conditions Infra Azure Scope.
From S2P Require Import DnsClient PrivateClient DnsRecords DnsService PrivateDns Controller.
From S2P Require Import AzureSpec InfraFacts TagFacts DnsClientFacts DnsRecordsFacts.
From S2P Require Import DnsServiceFacts PrivateFacts PrivateClientFacts ControllerFacts.
From S2P Require Import DnsReconcile ControllerProps Services Footprint EndToEnd.
From stdpp Require Import relations.
Open Scope Z_scope.

(** * What a cluster has in Azure *)

Section clusters.
Context {W : Type} `{Microerror, Kubernetes W, Prometheus, AzureView W}.
Context (r : ClusterReconciler (W := W)).

(** The zone of the cluster [n] in the subscription [sub]. *)
Definition zone_key_of (sub n : string) : zone_key := (sub, n, n +:+ "." +:+ BaseDomain r).

(** Its zone exists with its wildcard record and the A records [ds], and the
    base zone delegates to it. *)
Definition in_place (sub n target : string) (ds : list RecordSet) (w : W) : Prop :=
  ∃ zd zb, az_zones w !! zone_key_of sub n = Some zd ∧ has_wildcard zd target ∧
    Forall (has_A zd) ds ∧
    az_zones w !! base_key r = Some zb ∧
    zd_records zb !! (RecordTypeNS, n) = Some (ns_record (zd_nameservers zd)).

(** The target of the wildcard record of the cluster [cl]: below its zone, the
    name its annotation asks for, or else [ingress]. *)
Definition wildcard_target (cl : Cluster) : string :=
  let asked := map_get (cluster_Annotations cl) "network.giantswarm.io/wildcard-cname-target" in
  (if bool_decide (asked = "") then "ingress" else asked)
    +:+ "." +:+ cluster_Name cl +:+ "." +:+ BaseDomain r.

(** The parameters of the scope of the cluster [cl]. *)
Definition scope_params (cl : Cluster) : ScopeParams := {|
  p_Client := r_Client r;
  p_Cluster := cl;
  p_ClusterZoneAzureConfig := InfraClusterZoneAzureConfig r;
  p_ClusterIdentityRef := ClusterAzureIdentityRef r;
  p_ManagementClusterConfig := r_ManagementClusterConfig r;
|}.

(** The base zone does not mention it any more. *)
Definition undelegated (n : string) (w : W) : Prop :=
  ∀ zb, az_zones w !! base_key r = Some zb → zd_records zb !! (RecordTypeNS, n) = None.

(** Nothing of it is left. *)
Definition cleaned (sub n : string) (w : W) : Prop :=
  undelegated n w ∧ az_groups w !! (sub, n) = None ∧ ∀ z, az_zones w !! (sub, n, z) = None.

(** All that concerns the cluster [n] is the same. *)
Definition same_for (n : string) (w w' : W) : Prop :=
  (∀ g, g.2 = n → az_groups w' !! g = az_groups w !! g) ∧
  (∀ k, k.1.2 = n → az_zones w' !! k = az_zones w !! k) ∧
  (zd_records <$> az_zones w' !! base_key r) ≫= (λ m, m !! (RecordTypeNS, n))
    = (zd_records <$> az_zones w !! base_key r) ≫= (λ m, m !! (RecordTypeNS, n)).

#[global] Instance same_for_preorder n : PreOrder (same_for n).
Proof.
  split; [done|]. intros w1 w2 w3 (G1 & Z1 & B1) (G2 & Z2 & B2). split_and!.
  - intros g Hg. by rewrite G2, G1.
  - intros k Hk. by rewrite Z2, Z1.
  - by rewrite B2, B1.
Qed.

(** A run for another cluster. *)
Lemma touches_other m n w w' :
  m ≠ n → n ≠ BaseDomainResourceGroup r → touches r m w w' → same_for n w w'.
Proof.
  intros Hmn Hn [Hg Hz Hb]. split_and!.
  - intros g <-. by apply Hg.
  - intros k <-. apply Hz; [done|]. by intros ->.
  - destruct (az_zones w !! base_key r) as [zb|], (az_zones w' !! base_key r) as [zb'|];
      simpl in *; try done.
    destruct Hb as [_ Hb]. apply Hb. by intros [= ?].
Qed.

Lemma in_place_same sub n target ds w w' :
  same_for n w w' → in_place sub n target ds w → in_place sub n target ds w'.
Proof.
  intros (_ & Hz & Hb) (zd & zb & Hzd & Hw & Hds & Hzb & Hns).
  rewrite Hzb in Hb. simpl in Hb. rewrite Hns in Hb.
  destruct (az_zones w' !! base_key r) as [zb'|] eqn:Hzb'; [|done].
  exists zd, zb'. split_and!; [by rewrite Hz|done..].
Qed.

Lemma undelegated_same n w w' : same_for n w w' → undelegated n w → undelegated n w'.
Proof.
  intros (_ & _ & Hb) Hu zb' Hzb'. rewrite Hzb' in Hb. simpl in Hb. rewrite Hb.
  destruct (az_zones w !! base_key r) as [zb|] eqn:Hzb; [|done]. by apply Hu.
Qed.

Lemma cleaned_same sub n w w' : same_for n w w' → cleaned sub n w → cleaned sub n w'.
Proof.
  intros Hs (Hu & Hg & Hz). split_and!; [by eapply undelegated_same|..]; destruct Hs as (Sg & Sz & _).
  - by rewrite Sg.
  - intros z. by rewrite Sz.
Qed.
End clusters.

(** * The handler *)

Section operator.
Context {W : Type} `{Microerror, Kubernetes W, Prometheus, AzureView W, !AzureSDK W, !Capz W,
                     !MetaConditions W, !MicroerrorLaws}.
Context `{!SDKSpec W, !SDKConstructors W, !PrivateSDKSpec W, !PrivateSDKConstructors W,
          !PrivateSDKPublic W}.
Context `{!KubeKeepsAzure, !CapzSpec W, !ClusterLookup W}.
Context (fuel : nat) (Hfuel : (page_bound (W := W) ≤ fuel)%nat).
Context (Hprivate : (private_page_bound (W := W) ≤ fuel)%nat).
Context (r : ClusterReconciler).

Lemma deferred_close_inv {A} (p : Patcher W) (m : G W A) s a s' :
  deferred_close p m s = (Ok a, s') → ∃ s1, m s = (Ok a, s1) ∧ Close p s1 = (Ok tt, s').
Proof.
  unfold deferred_close. destruct (m s) as [res s1].
  destruct res as [b|e| |]; destruct (Close p s1) as [[[]|e'| |] s2] eqn:Hc; try done.
  intros [= -> ->]. by exists s1.
Qed.

(** The cluster was reconciled in its scope, and the scope closed. *)
Definition handled (req : NamespacedName) (s : St W) (res : Result) (s' : St W) : Prop :=
  ∃ cl obj sc s1 s2 w1 w2,
    GetClusterByName (r_Client r) req (world s) = (inr cl, w1) ∧
    GetObjectFromContractVersionedRef (r_Client r) cl w1 = (inr obj, w2) ∧
    NewScope (scope_params r cl) (set_infraCluster obj (set_world w2 s)) = (Ok sc, s1) ∧
    scope_of cl sc ∧ infraCluster s1 = obj ∧
    match cluster_DeletionTimestamp cl, u_DeletionTimestamp obj with
    | None, None => reconcileNormal fuel r sc
    | _, _ => reconcileDelete fuel r sc
    end s1 = (Ok res, s2) ∧
    Close (s_Patcher sc) s2 = (Ok tt, s').

Lemma try_call_inv {A} (f : io W A) (s : St W) a s' :
  try (call f) s = (Ok (inr a), s') →
  f (world s) = (inr a, world s') ∧ s' = set_world (world s') s.
Proof. unfold try, call. destruct (f (world s)) as [[e|b] w]; by intros [= -> <-]. Qed.

(** The cluster or its infrastructure object is not there, or it is paused. *)
Definition came_early (req : NamespacedName) (s : St W) (res : Result) : Prop :=
  (res = no_requeue ∧ ∃ e w, GetClusterByName (r_Client r) req (world s) = (inl e, w)) ∨
  ∃ cl w1, GetClusterByName (r_Client r) req (world s) = (inr cl, w1) ∧
    match (GetObjectFromContractVersionedRef (r_Client r) cl w1).1 with
    | inl _ => res = {| RequeueAfter := 60 |}
    | inr obj => res = no_requeue ∧ annotations_IsPaused cl obj = true
    end.

Lemma try_call_inv_inl {A} (f : io W A) (s : St W) e s' :
  try (call f) s = (Ok (inl e), s') → f (world s) = (inl e, world s').
Proof. unfold try, call. destruct (f (world s)) as [[e'|b] w]; by intros [= -> <-]. Qed.

Lemma Reconcile_inv req s res s' :
  Controller.Reconcile fuel r req s = (Ok res, s') →
  came_early req s res ∨ handled req s res s'.
Proof.
  intros ([e|cl] & s0 & Hget & Hrest)%bind_Ok_inv.
  { apply try_call_inv_inl in Hget. destruct (apierrors_IsNotFound e); [|done].
    injection Hrest as <- _. left. left. by eauto. }
  apply try_call_inv in Hget as [Hget Hs0].
  apply bind_Ok_inv in Hrest as ([e|obj] & s1 & Hobj & Hrest).
  { apply try_call_inv_inl in Hobj. destruct (apierrors_IsNotFound e); [|done].
    injection Hrest as <- _. left. right. exists cl, (world s0). by rewrite Hobj. }
  apply try_call_inv in Hobj as [Hobj Hs1].
  erewrite run_bind in Hrest by done. destruct (annotations_IsPaused cl obj) eqn:Hp.
  { injection Hrest as <- _. left. right. exists cl, (world s0). by rewrite Hobj. }
  right. apply bind_Ok_inv in Hrest as (sc & s2 & Hsc%map_err_Ok_inv & Hrest).
  apply deferred_close_inv in Hrest as (s3 & Hbody & Hclose).
  erewrite run_bind in Hbody by done.
  pose proof (quiet_run _ _ _ _ (NewScope_quiet _) Hsc) as Hi. simpl in Hi.
  pose proof (NewScope_scope_of _ _ _ _ Hsc) as Hof. rewrite Hi in Hbody.
  exists cl, obj, sc, s2, s3, (world s0), (world s1).
  split_and!; [done|done| |exact Hof|done|exact Hbody|done].
  rewrite Hs1, Hs0 in Hsc. exact Hsc.
Qed.

Lemma reconcileDelete_result (sc : Scope W) :
  ok_post (reconcileDelete fuel r sc) (λ res, res = no_requeue).
Proof.
  unfold reconcileDelete. repeat (eapply ok_post_bind; [apply ok_post_True|intros ? _]).
  by apply ok_post_ret.
Qed.

(** The cluster of a request is the one its scope is named after. *)
Lemma cluster_in_view req (sc : Scope W) cl `{!ClusterView r (nn_Name req)} :
  ClusterName (s_Patcher sc) = cluster_Name cl → cluster_Name cl = nn_Name req →
  ClusterView r (ClusterName (s_Patcher sc)).
Proof. intros -> ->. done. Qed.

(** ** Live clusters *)

(** What the run for [req] works out before it writes records: it reads the
    cluster and its object, builds their scope, stores the finalizer, runs the
    private services, builds the public service, makes sure of the resource
    group, the zone and the delegation, and reads the desired A records.  It
    returns the cluster's subscription, the target of its wildcard record and
    these records.  Like every computation it is a function of its state, so
    that a request and the state at the start of its run determine the three. *)
Definition plan (req : NamespacedName) : G W (string * string * list RecordSet) :=
  cl ← call (GetClusterByName (r_Client r) req);
  obj ← call (GetObjectFromContractVersionedRef (r_Client r) cl);
  modify (set_infraCluster obj);;
  sc ← NewScope (scope_params r cl);
  ensure_finalizer sc;;
  u ← gets infraCluster;
  api_stage fuel r sc u;;
  ingress_stage fuel r sc u;;
  svc ← getDnsServiceForPublicRecords fuel r sc;
  upd_metrics (ZoneInfo_Set [BaseDomain r; ZoneTypePublic; BaseDomainResourceGroup r;
                             BaseZoneTenantID r; BaseZoneSubscriptionID r] 1);;
  prepare svc;;
  ds ← desired_spec svc;
  mret (SubscriptionID (s_Patcher sc), wildcard_target r cl, ds).

(** What was planned for [req] from [s] is in place in [w]. *)
Definition as_planned (req : NamespacedName) (s : St W) (w : W) : Prop :=
  ∃ sub target ds s1, plan req s = (Ok (sub, target, ds), s1) ∧
    in_place r sub (nn_Name req) target (uniquely_named ds) w.

Lemma plan_run req s cl obj w1 w2 sc s1 s2 s3 s4 svc s5 s6 l s7 ds s8 :
  GetClusterByName (r_Client r) req (world s) = (inr cl, w1) →
  GetObjectFromContractVersionedRef (r_Client r) cl w1 = (inr obj, w2) →
  NewScope (scope_params r cl) (set_infraCluster obj (set_world w2 s)) = (Ok sc, s1) →
  ensure_finalizer sc s1 = (Ok tt, s2) →
  api_stage fuel r sc (infraCluster s2) s2 = (Ok tt, s3) →
  ingress_stage fuel r sc (infraCluster s2) s3 = (Ok tt, s4) →
  getDnsServiceForPublicRecords fuel r sc s4 = (Ok svc, s5) →
  upd_metrics (ZoneInfo_Set [BaseDomain r; ZoneTypePublic; BaseDomainResourceGroup r;
                             BaseZoneTenantID r; BaseZoneSubscriptionID r] 1) s5 = (Ok tt, s6) →
  prepare svc s6 = (Ok l, s7) → getDesiredARecords svc s7 = (Ok ds, s8) →
  plan req s = (Ok (SubscriptionID (s_Patcher sc), wildcard_target r cl, ds), s8).
Proof.
  intros Hget Hobj Hnew Hfin Hapi Hing Hsvc Hmt Hprep Hds. rewrite (getDesiredARecords_spec svc s7) in Hds.
  unfold plan. erewrite run_bind by exact (call_run _ _ _ _ Hget).
  erewrite run_bind by exact (call_run _ _ _ _ Hobj). erewrite run_bind by done.
  erewrite run_bind by exact Hnew. erewrite run_bind by exact Hfin. erewrite run_bind by done.
  erewrite run_bind by exact Hapi. erewrite run_bind by exact Hing.
  erewrite run_bind by exact Hsvc. erewrite run_bind by exact Hmt.
  erewrite run_bind by exact Hprep. by erewrite run_bind by exact Hds.
Qed.

(** A service of the scope of [cl] points its wildcard where it should. *)
Lemma service_wildcard (sc : Scope W) cl svc : scope_of cl sc → public_service_of r sc svc →
  WildcardFQDN (DnsRecords.scope svc) = wildcard_target r cl.
Proof.
  intros [Hcl Hname _] [Hsc _ Hbd _ _ _ _]. unfold WildcardFQDN, wildcard_target, ClusterDomain, ds_Patcher.
  change (ds_Scope (DnsRecords.scope svc)) with (svc_Scope svc). rewrite Hsc, Hbd, Hcl, Hname.
  by destruct (bool_decide _).
Qed.

(** A run that asks for the next one in five minutes reconciled a live cluster. *)
Lemma Reconcile_live req s s' :
  Controller.Reconcile fuel r req s = (Ok {| RequeueAfter := 300 |}, s') →
  ∃ cl obj sc s1 s2 w1 w2,
    GetClusterByName (r_Client r) req (world s) = (inr cl, w1) ∧
    GetObjectFromContractVersionedRef (r_Client r) cl w1 = (inr obj, w2) ∧
    NewScope (scope_params r cl) (set_infraCluster obj (set_world w2 s)) = (Ok sc, s1) ∧
    scope_of cl sc ∧ reconcileNormal fuel r sc s1 = (Ok {| RequeueAfter := 300 |}, s2) ∧
    Close (s_Patcher sc) s2 = (Ok tt, s').
Proof.
  intros Hrun. destruct (Reconcile_inv _ _ _ _ Hrun)
    as [Hearly|(cl & obj & sc & s1 & s2 & w1 & w2 & Hget & Hobj & Hnew & Hsc & _ & Hbody & Hclose)].
  { destruct Hearly as [[[=] _]|(cl & w1 & _ & Hearly)].
    destruct (GetObjectFromContractVersionedRef _ _ _).1; [by simplify_eq|by destruct Hearly]. }
  exists cl, obj, sc, s1, s2, w1, w2. split_and!; [done..| |done].
  destruct (cluster_DeletionTimestamp cl), (u_DeletionTimestamp obj); [..|exact Hbody];
    by apply reconcileDelete_result in Hbody.
Qed.

Lemma Reconcile_as_planned req `{!ClusterView r (nn_Name req)} s s' :
  Controller.Reconcile fuel r req s = (Ok {| RequeueAfter := 300 |}, s') →
  as_planned req s (world s').
Proof.
  intros (cl & obj & sc & s1 & s2 & w1 & w2 & Hget & Hobj & Hnew & Hsc & Hnormal & Hclose)%Reconcile_live.
  pose proof Hsc as [Hcl Hname Hp]. pose proof (lookup_name _ _ _ _ _ Hget) as Hn.
  pose proof (lookup_addr _ _ _ _ _ Hget) as Ha. rewrite <- Hcl in Ha.
  pose proof (cluster_in_view req sc cl Hname Hn).
  apply reconcileNormal_inv in Hnormal as (s3 & Hfin & Hnormal).
  destruct (ready _ _); [|by destruct Hnormal as [[=] _]]. destruct Hnormal as [_ Hnormal].
  destruct Hnormal as (svc & s4 & s5 & s6 & s7 & s8 & s9 & Hapi & Hing & Hget' & _ & Hmt & Hrec & Hcond & Hpatch).
  pose proof (getDns_service fuel Hfuel r sc _ _ _ Hget') as Hsvc.
  pose proof (with_copy_runs r sc svc s7 s8 Hsvc Hp Ha Hrec) as [[HA Hw Hns] _].
  assert (az_zones (world s') = az_zones (world s8)) as Hz.
  { apply same_view_zones. etransitivity; [by eapply publish_patch_kept|].
    eapply kept_run; [|exact Hclose]. apply close_kept. }
  destruct HA as (s10 & zd0 & zd & ds & s11 & [l Hprep] & _ & _ & Hzd & Hds & Hall & _).
  destruct Hw as (zd' & Hzd' & Hw). destruct Hns as (zd'' & zb & Hzd'' & Hzb & Hns).
  rewrite (service_zone r sc svc Hsvc) in *. rewrite (service_base_zone r sc svc Hsvc) in Hzb.
  rewrite (service_name r sc svc Hsvc) in Hns. rewrite (service_wildcard _ _ _ Hsc Hsvc) in Hw.
  rewrite Hname, Hn in *. simplify_eq. eexists _, _, ds, s11. split.
  { exact (plan_run _ _ _ _ _ _ _ _ _ _ _ _ _ _ _ _ _ _ Hget Hobj Hnew Hfin Hapi Hing Hget' Hmt Hprep Hds). }
  exists zd, zb. rewrite Hz. by split_and!.
Qed.

(** ** Deleted clusters *)

Lemma undelegated_deleted n w0 w1 :
  record_deleted (base_key r) RecordTypeNS n w0 w1 → undelegated r n w1.
Proof.
  intros [_ Hz] zb. rewrite Hz, lookup_alter_eq.
  destruct (az_zones w0 !! base_key r); intros [= <-]. apply lookup_delete_eq.
Qed.

(** A run for a deleted cluster that returned a value ran the deletion. *)
Lemma deletion_inv req cl obj w1 w2 s res s' :
  GetClusterByName (r_Client r) req (world s) = (inr cl, w1) →
  GetObjectFromContractVersionedRef (r_Client r) cl w1 = (inr obj, w2) →
  annotations_IsPaused cl obj = false →
  is_Some (cluster_DeletionTimestamp cl) ∨ is_Some (u_DeletionTimestamp obj) →
  Controller.Reconcile fuel r req s = (Ok res, s') →
  ∃ sc s1 s2,
    NewScope (scope_params r cl) (set_infraCluster obj (set_world w2 s)) = (Ok sc, s1) ∧
    scope_of cl sc ∧ infraCluster s1 = obj ∧
    reconcileDelete fuel r sc s1 = (Ok res, s2) ∧ Close (s_Patcher sc) s2 = (Ok tt, s').
Proof.
  intros Hget Hobj Hpaused Hdel Hrun. destruct (Reconcile_inv _ _ _ _ Hrun)
    as [[(_ & e & w & He)|(cl' & w & He & Hr)]|
        (cl' & obj' & sc & s1 & s2 & w3 & w4 & Hg & Ho & Hrest)].
  { congruence. }
  { rewrite Hget in He. injection He as <- <-. rewrite Hobj in Hr. destruct Hr. congruence. }
  rewrite Hget in Hg. injection Hg as <- <-. rewrite Hobj in Ho. injection Ho as <- <-.
  destruct Hrest as (Hnew & Hsc & Hi & Hbody & Hclose).
  exists sc, s1, s2. split_and!; [exact Hnew|done|done| |done].
  destruct (cluster_DeletionTimestamp cl), (u_DeletionTimestamp obj); try done.
  by destruct Hdel as [[? [=]]|[? [=]]].
Qed.

Lemma Reconcile_cleaned req `{!ClusterView r (nn_Name req)} cl obj w1 w2 s res s' :
  nn_Name req ≠ BaseDomainResourceGroup r →
  GetClusterByName (r_Client r) req (world s) = (inr cl, w1) →
  GetObjectFromContractVersionedRef (r_Client r) cl w1 = (inr obj, w2) →
  annotations_IsPaused cl obj = false →
  is_Some (cluster_DeletionTimestamp cl) ∨ is_Some (u_DeletionTimestamp obj) →
  Controller.Reconcile fuel r req s = (Ok res, s') →
  res = no_requeue ∧ undelegated r (nn_Name req) (world s') ∧
  ∃ sc s1, NewScope (scope_params r cl) (set_infraCluster obj (set_world w2 s)) = (Ok sc, s1) ∧
    (isAzureCluster obj = false →
     cleaned r (SubscriptionID (s_Patcher sc)) (nn_Name req) (world s')).
Proof.
  intros Hbase Hget Hobj Hpaused Hdel Hrun.
  destruct (deletion_inv _ _ _ _ _ _ _ _ Hget Hobj Hpaused Hdel Hrun)
    as (sc & s1 & s2 & Hnew & Hsc & Hi & Hd & Hclose).
  pose proof Hsc as [Hcl Hname Hp]. pose proof (lookup_name _ _ _ _ _ Hget) as Hn.
  pose proof (cluster_in_view req sc cl Hname Hn). split; [by eapply reconcileDelete_result|].
  destruct (run_reconcileDelete_cleans fuel Hfuel r sc s1 res s2 Hd)
    as (_ & svc & w0 & w5 & Hsvc & Hns & Hgroup).
  rewrite (service_base_zone r sc svc Hsvc) in Hns.
  rewrite (service_group r sc svc Hsvc) in Hgroup. rewrite Hname, Hn in *.
  apply undelegated_deleted in Hns.
  assert (same_view (world s2) (world s')) as [[Hz Hgr] _].
  { eapply kept_run; [|exact Hclose]. apply close_kept. }
  rewrite Hi in Hgroup. assert (undelegated r (nn_Name req) (world s2)) as Hu.
  { destruct (isAzureCluster obj); [by subst w5|]. destruct Hgroup as ((_ & Hshrunk & _) & _ & _).
    unfold undelegated. rewrite Hshrunk; [done|]. simpl. by intros [= _ ?]. }
  unfold cleaned, undelegated. rewrite Hz, Hgr. split; [done|]. exists sc, s1. split; [done|].
  intros Haz. rewrite Haz in Hgroup. by destruct Hgroup as (_ & Hg0 & Hz0).
Qed.

(** * The transition system *)

(** One step: a complete run of the handler for a request, from any metrics,
    cached lookups and object, with any outcome. *)
Inductive operator_step (req : NamespacedName) : W → W → Prop :=
| handle s res s' :
    Controller.Reconcile fuel r req s = (res, s') → operator_step req (world s) (world s').

(** The operator running for requests that satisfy [P]. *)
Definition operator_runs (P : NamespacedName → Prop) : W → W → Prop :=
  rtc (λ w w', ∃ req, P req ∧ operator_step req w w').

(** Requests for clusters that are not called [n], nor like the resource group
    of the base zone. *)
Definition not_about (n : string) (req : NamespacedName) : Prop :=
  nn_Name req ≠ n ∧ nn_Name req ≠ BaseDomainResourceGroup r.

Lemma operator_step_touches `{!FullView W} req w w' :
  nn_Name req ≠ BaseDomainResourceGroup r → operator_step req w w' → touches r (nn_Name req) w w'.
Proof.
  intros Hb [s res s' Hrun]. pose proof (steps_Reconcile fuel Hfuel r req Hb s) as Ht.
  unfold footprint in Ht. rewrite Hrun in Ht. apply Ht.
Qed.

(** By induction on the sequence of runs. *)
Lemma operator_runs_same `{!FullView W} n w w' :
  n ≠ BaseDomainResourceGroup r → operator_runs (not_about n) w w' → same_for r n w w'.
Proof.
  intros Hn. induction 1 as [w|w1 w2 w3 (req & [Hne Hb] & Hstep) _ IH]; [reflexivity|].
  transitivity w2; [|done]. eapply touches_other; [exact Hne|done|].
  by apply operator_step_touches.
Qed.

(** C5: a run of the handler, whatever its outcome (an error or a panic at any
    call included), has changed nothing in Azure's public DNS but resource
    groups and zones named after the cluster, and in the base zone the NS
    record named after the cluster; the cluster must not be called like the
    resource group of the base zone. *)
Theorem Reconcile_footprint (req : NamespacedName) `{!ClusterView r (nn_Name req)} :
  nn_Name req ≠ BaseDomainResourceGroup r →
  steps (λ s s', touches r (nn_Name req) (world s) (world s')) (Controller.Reconcile fuel r req).
Proof.
  intros Hb. eapply steps_weaken; [|by apply (steps_Reconcile fuel Hfuel r req)].
  by intros s s' [].
Qed.

(** C6: public zones stay well-formed: when every record set of every zone has
    a TTL, addresses that are set and the data of its own type only, it is so
    after a run of the handler too, whatever the run comes to. *)
Theorem Reconcile_well_formed (req : NamespacedName) `{!ClusterView r (nn_Name req)} :
  nn_Name req ≠ BaseDomainResourceGroup r →
  steps (λ s s', zones_wf (world s) → zones_wf (world s')) (Controller.Reconcile fuel r req).
Proof.
  intros Hb. eapply steps_weaken; [|by apply (steps_Reconcile fuel Hfuel r req)].
  by intros s s' [].
Qed.

(** Whatever the operator does for other clusters, in any order, however
    often and with whatever outcome, the zone, the records and the delegation
    of a cluster stay in place, and what is left of a deleted one stays gone. *)
Theorem others_keep_cluster `{!FullView W} (sub n target : string) (ds : list RecordSet) (w w' : W) :
  n ≠ BaseDomainResourceGroup r → operator_runs (not_about n) w w' →
  (in_place r sub n target ds w → in_place r sub n target ds w') ∧
  (undelegated r n w → undelegated r n w') ∧
  (cleaned r sub n w → cleaned r sub n w').
Proof.
  intros Hn Hruns%operator_runs_same; [|done]. split_and!.
  - by apply in_place_same.
  - by apply undelegated_same.
  - by apply cleaned_same.
Qed.

(** C1: when the handler asks for the next run in five minutes, the zone of the
    cluster is in place in Azure, in the subscription of the request's own
    scope: with a wildcard record for [ingress] or for what the cluster's own
    annotation asks for, with every A record that this run, from the state it
    started in, had to want once its zone was there (but for those that share
    their name with another one), and with the delegation in the base zone. *)
Theorem Reconcile_in_place (req : NamespacedName) `{!ClusterView r (nn_Name req)} (s s' : St W) :
  Controller.Reconcile fuel r req s = (Ok {| RequeueAfter := 300 |}, s') →
  ∃ sub target ds s1, plan req s = (Ok (sub, target, ds), s1) ∧
    in_place r sub (nn_Name req) target (uniquely_named ds) (world s').
Proof. by apply Reconcile_as_planned. Qed.

(** C9: a run for a deleted cluster that returns without an error asks for no
    other run; the base zone does not delegate to the cluster any more and,
    unless it is an AzureCluster, its resource group and its zones are gone
    from the subscription that the request's scope is built with.  The
    cluster is not called like the resource group of the base zone. *)
Theorem Reconcile_cleans req `{!ClusterView r (nn_Name req)} cl obj w1 w2 s res s' :
  nn_Name req ≠ BaseDomainResourceGroup r →
  GetClusterByName (r_Client r) req (world s) = (inr cl, w1) →
  GetObjectFromContractVersionedRef (r_Client r) cl w1 = (inr obj, w2) →
  annotations_IsPaused cl obj = false →
  is_Some (cluster_DeletionTimestamp cl) ∨ is_Some (u_DeletionTimestamp obj) →
  Controller.Reconcile fuel r req s = (Ok res, s') →
  res = no_requeue ∧ undelegated r (nn_Name req) (world s') ∧
  ∃ sc s1, NewScope (scope_params r cl) (set_infraCluster obj (set_world w2 s)) = (Ok sc, s1) ∧
    (isAzureCluster obj = false →
     cleaned r (SubscriptionID (s_Patcher sc)) (nn_Name req) (world s')).
Proof. by apply Reconcile_cleaned. Qed.

(** A pass over requests, every one of them with the state its run starts in,
    to its end. *)
Inductive sweep : list (NamespacedName * St W) → W → W → Prop :=
| sweep_nil w : sweep [] w w
| sweep_cons req s runs s' w' :
    Controller.Reconcile fuel r req s = (Ok {| RequeueAfter := 300 |}, s') →
    sweep runs (world s') w' → sweep ((req, s) :: runs) (world s) w'.

Lemma sweep_runs runs w w' n :
  sweep runs w w' → Forall (not_about n ∘ fst) runs → operator_runs (not_about n) w w'.
Proof.
  induction 1 as [w|req s runs s' w' Hrun _ IH]; intros Hruns; [apply rtc_refl|].
  apply Forall_cons in Hruns as [Hreq Hruns]. eapply rtc_l; [|by apply IH].
  exists req. split; [done|]. by econstructor.
Qed.

(** C11: after a pass over clusters of different names, every one of them is in
    place with its wildcard record, all the A records that its own run had to
    want (but for those that share their name with another one of the cluster)
    and its delegation: no run undoes what another has done.  None of them is
    called like the resource group of the base zone. *)
Theorem sweep_in_place `{!FullView W} (runs : list (NamespacedName * St W)) (w w' : W) :
  sweep runs w w' → NoDup (map (nn_Name ∘ fst) runs) →
  Forall (λ run, nn_Name run.1 ≠ BaseDomainResourceGroup r) runs →
  Forall (λ run, ∃ sub target ds s1, plan run.1 run.2 = (Ok (sub, target, ds), s1) ∧
    in_place r sub (nn_Name run.1) target (uniquely_named ds) w') runs.
Proof.
  induction 1 as [w|req s runs s' w' Hrun Hsweep IH]; intros Hnd Hb; [done|].
  apply NoDup_cons in Hnd as [Hnew Hnd]. apply Forall_cons in Hb as [Hreq Hb].
  apply Forall_cons. split; [|by apply IH].
  destruct (Reconcile_as_planned req s s' Hrun) as (sub & target & ds & s1 & Hplan & Hin).
  exists sub, target, ds, s1. split; [done|]. eapply in_place_same; [|exact Hin].
  eapply operator_runs_same; [done|]. eapply sweep_runs; [done|].
  rewrite Forall_forall in Hb. apply Forall_forall. intros run Hin'. split; [|by apply Hb].
  intros Heq. apply Hnew. apply list_elem_of_fmap. by exists run.
Qed.
End operator.
