(* ===== verification/Finalizers.v ===== *)
(** The finalizer of a deleted cluster in the API server: what a complete run of
    the handler, from the lookup of the cluster to the deferred patch, leaves
    of it there. *)
From S2P Require Import Prelude GoStd Errors Metrics Kube State Conditions Infra Azure Scope.
From S2P Require Import DnsClient PrivateClient DnsRecords DnsService PrivateDns Controller.
From S2P Require Import AzureSpec InfraFacts TagFacts DnsClientFacts DnsRecordsFacts.
From S2P Require Import DnsServiceFacts PrivateFacts PrivateClientFacts ControllerFacts.
From S2P Require Import InfraProps ControllerProps Services Footprint Operator.
Open Scope Z_scope.

(** Only an update writes the metadata of an object: the other calls of a run
    leave the stored finalizers alone, an object that is read has the
    finalizers that are stored, and an update answers with the same object. *)
Class MetadataKept (W : Type) `{Kubernetes W, !StatusSubresource W, AzureSDK W} : Prop := {
  meta_GetClusterByName c n w o :
    stored_finalizers (GetClusterByName c n w).2 o = stored_finalizers w o;
  meta_GetObject c cl w o :
    stored_finalizers (GetObjectFromContractVersionedRef c cl w).2 o = stored_finalizers w o;
  meta_GetObject_read c cl w u w' :
    GetObjectFromContractVersionedRef c cl w = (inr u, w') →
    u_Finalizers u = stored_finalizers w (object_name u);
  meta_Update_name c u w u' w' : Update c u w = (inr u', w') → object_name u' = object_name u;
  meta_List_Services c ns sel w o :
    stored_finalizers (List_Services c ns sel w).2 o = stored_finalizers w o;
  meta_micrologger_New w o : stored_finalizers (micrologger_New w).2 o = stored_finalizers w o;
  meta_k8srestconfig_New k w o :
    stored_finalizers (k8srestconfig_New k w).2 o = stored_finalizers w o;
  meta_k8sclient_NewClients c w o :
    stored_finalizers (k8sclient_NewClients c w).2 o = stored_finalizers w o;
  meta_zones_Get c rg z w o : stored_finalizers (zones_Get c rg z w).2 o = stored_finalizers w o;
  meta_zones_CreateOrUpdate c rg z zn w o :
    stored_finalizers (zones_CreateOrUpdate c rg z zn w).2 o = stored_finalizers w o;
  meta_page {T} (p : Pager T) w o :
    stored_finalizers (pager_NextPage p w).2 o = stored_finalizers w o;
  meta_recordSets_CreateOrUpdate c rg z n t rs w o :
    stored_finalizers (recordSets_CreateOrUpdate c rg z n t rs w).2 o = stored_finalizers w o;
  meta_resourceGroups_Get c rg w o :
    stored_finalizers (resourceGroups_Get c rg w).2 o = stored_finalizers w o;
  meta_resourceGroups_CreateOrUpdate c rg g w o :
    stored_finalizers (resourceGroups_CreateOrUpdate c rg g w).2 o = stored_finalizers w o;
  meta_Get_AzureCluster c n w o :
    stored_finalizers (Get_AzureCluster c n w).2 o = stored_finalizers w o;
  meta_Get_AzureClusterIdentity c n w o :
    stored_finalizers (Get_AzureClusterIdentity c n w).2 o = stored_finalizers w o;
  meta_Get_Secret c n w o : stored_finalizers (Get_Secret c n w).2 o = stored_finalizers w o;
  meta_NewManagedIdentityCredential c w o :
    stored_finalizers (NewManagedIdentityCredential c w).2 o = stored_finalizers w o;
  meta_NewClientSecretCredential t c k w o :
    stored_finalizers (NewClientSecretCredential t c k w).2 o = stored_finalizers w o;
  meta_NewWorkloadIdentityCredential t c w o :
    stored_finalizers (NewWorkloadIdentityCredential t c w).2 o = stored_finalizers w o;
  meta_NewZonesClient sub cred w o :
    stored_finalizers (NewZonesClient sub cred w).2 o = stored_finalizers w o;
  meta_NewRecordSetsClient sub cred w o :
    stored_finalizers (NewRecordSetsClient sub cred w).2 o = stored_finalizers w o;
  meta_NewResourceGroupsClient sub cred w o :
    stored_finalizers (NewResourceGroupsClient sub cred w).2 o = stored_finalizers w o;
  meta_recordSets_Delete c rg z n t w o :
    stored_finalizers (recordSets_Delete c rg z n t w).2 o = stored_finalizers w o;
  meta_resourceGroups_BeginDelete c rg w o :
    stored_finalizers (resourceGroups_BeginDelete c rg w).2 o = stored_finalizers w o;
  (** the poller of a resource group *)
  meta_PollUntilDone c rg w p w' w2 o :
    resourceGroups_BeginDelete c rg w = (inr p, w') →
    stored_finalizers (PollUntilDone p w2).2 o = stored_finalizers w2 o;
}.

#[export] Hint Resolve meta_GetClusterByName meta_GetObject meta_Get_AzureCluster meta_Get_AzureClusterIdentity
  meta_Get_Secret meta_NewManagedIdentityCredential meta_NewClientSecretCredential
  meta_NewWorkloadIdentityCredential meta_NewZonesClient meta_NewRecordSetsClient
  meta_NewResourceGroupsClient meta_recordSets_Delete meta_resourceGroups_BeginDelete
  meta_List_Services meta_micrologger_New meta_k8srestconfig_New meta_k8sclient_NewClients
  meta_zones_Get meta_zones_CreateOrUpdate meta_recordSets_CreateOrUpdate
  meta_resourceGroups_Get meta_resourceGroups_CreateOrUpdate : go_steps.

(** controllerutil's functions *)
Class FinalizerFunctions (W : Type) `{Kubernetes W} : Prop := {
  Contains_spec u f : ContainsFinalizer u f = bool_decide (f ∈ u_Finalizers u);
  Add_finalizers u f : f ∉ u_Finalizers u → u_Finalizers (AddFinalizer u f) = u_Finalizers u ++ [f];
  Add_kind u f : u_Kind (AddFinalizer u f) = u_Kind u;
  Add_name u f : object_name (AddFinalizer u f) = object_name u;
  Remove_finalizers u f :
    u_Finalizers (RemoveFinalizer u f) = filter (λ g, g ≠ f) (u_Finalizers u);
  Remove_kind u f : u_Kind (RemoveFinalizer u f) = u_Kind u;
  Remove_name u f : object_name (RemoveFinalizer u f) = object_name u;
}.

Section finalizers.
Context {W : Type} `{Microerror, Kubernetes W, Prometheus, !StatusSubresource W}.
Context `{!AzureSDK W, !Capz W, !MetaConditions W, !MetadataKept W, !FinalizerFunctions W}.
Context (o : NamespacedName).

(** The stored finalizers of the object [o] are what they were. *)
Definition stored_kept (s s' : St W) : Prop :=
  stored_finalizers (world s') o = stored_finalizers (world s) o.

#[global] Instance stored_kept_preorder : PreOrder stored_kept.
Proof. split; unfold stored_kept; [done|]. intros s1 s2 s3. congruence. Qed.

(** And the object in memory is. *)
Definition object_kept (s s' : St W) : Prop :=
  stored_kept s s' ∧ infraCluster s' = infraCluster s.

#[global] Instance object_kept_preorder : PreOrder object_kept.
Proof.
  split; [by split|]. intros s1 s2 s3 [] []. split; [by etransitivity|congruence].
Qed.

Lemma object_stored {A} (m : G W A) : steps object_kept m → steps stored_kept m.
Proof. apply steps_weaken. by intros s s' []. Qed.

Lemma object_kept_call {A} (f : io W A) :
  (∀ w, stored_finalizers (f w).2 o = stored_finalizers w o) → steps object_kept (call f).
Proof.
  intros Hf s. unfold call, object_kept, stored_kept. specialize (Hf (world s)).
  by destruct (f (world s)) as [r w].
Qed.

Lemma object_kept_upd_metrics f : steps object_kept (upd_metrics f).
Proof. by intros s. Qed.

Lemma object_kept_upd_cache f : steps object_kept (upd_cache f).
Proof. by intros s. Qed.

#[local] Hint Resolve object_kept_call object_kept_upd_metrics object_kept_upd_cache : go_steps.

Lemma azureClient_DeleteResourceGroup_stored ac rg :
  steps object_kept (azureClient_DeleteResourceGroup (W := W) ac rg).
Proof.
  unfold azureClient_DeleteResourceGroup, count_request, count_error, counted_mask, count_error.
  apply steps_bind; [apply _|apply object_kept_upd_metrics|intros _].
  eapply (steps_bind_post _ _ (λ res, match res with inl _ => True | inr p =>
    ∀ w, stored_finalizers (PollUntilDone p w).2 o = stored_finalizers w o end)).
  { steps_tac. }
  { intros s res s'. unfold try, call.
    destruct (resourceGroups_BeginDelete _ _ _) as [[e|p] w] eqn:Hb; intros [= <- _]; [done|].
    intros w2. by eapply meta_PollUntilDone. }
  intros [e|p] Hp; [|assert (steps object_kept (call (PollUntilDone p)))
                       by by apply object_kept_call]; steps_tac.
Qed.

Lemma getDns_stored fuel r (sc : Scope W) :
  steps object_kept (getDnsServiceForPublicRecords fuel r sc).
Proof.
  unfold getDnsServiceForPublicRecords, getInfraClusterStaticServicePrincipalSecret,
    InfraClusterAnnotations, DnsService.New, newAzureClient, newBaseZoneClient, new_clients,
    newZonesClient, newRecordSetsClient, newResourceGroupClient, InfraClusterIdentity,
    identity_fallback, ManagementClusterIdentity, ManagementCluster, managementAzureCluster,
    azureClusterIdentity.
  steps_tac.
Qed.

Lemma getDns_deletes_stored fuel r (sc : Scope W) :
  ok_post (getDnsServiceForPublicRecords fuel r sc)
    (λ svc, steps object_kept (DnsService.ReconcileDelete svc)).
Proof.
  unfold getDnsServiceForPublicRecords.
  do 4 (eapply ok_post_bind; [apply ok_post_True|intros ? _]).
  apply ok_post_map_err. unfold DnsService.New.
  do 2 (eapply ok_post_bind; [apply ok_post_True|intros ? _]).
  apply ok_post_ret. pose proof azureClient_DeleteResourceGroup_stored.
  unfold DnsService.ReconcileDelete, deleteClusterNSRecords, deleteClusterResourceGroup,
    IsAzureCluster. simpl. unfold azureClient_DeleteRecordSet, counted_mask, count_request,
    count_error. steps_tac.
Qed.

Lemma NewScope_stored params s :
  isAzureCluster (infraCluster s) = false → object_kept s (NewScope (W := W) params s).2.
Proof.
  intros Hkind. unfold NewScope.
  erewrite run_bind by done. rewrite Hkind.
  assert (∀ u a b c, steps object_kept (aso_credentials (W := W) params u a b c)).
  { intros u a b c. unfold aso_credentials, azureClusterIdentity. steps_tac. }
  assert (∀ c, steps object_kept (complete_credentials (W := W) params c)).
  { intros c. unfold complete_credentials, managementAzureCluster, azureClusterIdentity. steps_tac. }
  match goal with |- object_kept _ (?m s).2 => assert (steps object_kept m) as Hm; [|apply Hm] end.
  steps_tac.
Qed.

(** A deletion without private services. *)
Lemma reconcileDelete_stored fuel r (sc : Scope W) s :
  isAzureCluster (infraCluster s) = false →
  stored_kept s (reconcileDelete fuel r sc s).2.
Proof.
  intros Hkind. unfold reconcileDelete. erewrite run_bind by done.
  assert (azureClusterSpec (infraCluster s) = None) as Hspec.
  { unfold azureClusterSpec, azureClusterFromInfraObject. by rewrite Hkind. }
  rewrite Hspec. simpl. rewrite !(run_bind _ _ tt s s) by done.
  match goal with |- stored_kept _ (?m s).2 => assert (steps stored_kept m) as Hm; [|apply Hm] end.
  eapply steps_bind_post; [apply _|apply object_stored, steps_map_err, getDns_stored|
                           apply ok_post_map_err, getDns_deletes_stored|].
  intros svc Hsvc. simpl in Hsvc.
  assert (steps stored_kept (with_scope_copy (DnsService.ReconcileDelete svc))).
  { intros s0. specialize (Hsvc s0). unfold with_scope_copy.
    by destruct (DnsService.ReconcileDelete svc s0), Hsvc. }
  unfold delete_cluster_metrics.
  apply steps_bind; [apply _|by apply steps_map_err|intros _].
  apply steps_bind; [apply _|apply steps_gets, _|intros u].
  apply steps_bind; [apply _| |intros _].
  { destruct (ContainsFinalizer _ _); [by intros s0|apply steps_ret, _]. }
  apply object_stored. steps_tac.
Qed.
End finalizers.

#[export] Hint Resolve object_kept_call object_kept_upd_metrics object_kept_upd_cache : go_steps.

Section deletion.
Context {W : Type} `{Microerror, Kubernetes W, Prometheus, AzureView W, !AzureSDK W, !Capz W,
                     !MetaConditions W}.
Context `{!KubeKeepsAzure, !CapzSpec W, !ClusterLookup W}.
Context `{!StatusSubresource W, !MetadataKept W, !FinalizerFunctions W}.
Context (fuel : nat) (r : ClusterReconciler (W := W)).

Lemma released_spec (u : Unstructured) :
  object_name (released u) = object_name u ∧ isASOManagedCluster (released u) = isASOManagedCluster u ∧
  u_Finalizers (released u) = filter (λ g, g ≠ AzureClusterControllerFinalizer) (u_Finalizers u).
Proof.
  unfold released, isASOManagedCluster. rewrite Contains_spec. case_bool_decide as Hin.
  - by rewrite Remove_name, Remove_kind, Remove_finalizers.
  - split_and!; [done|done|]. induction (u_Finalizers u) as [|f l IH]; [done|].
    rewrite not_elem_of_cons in Hin. destruct Hin as [Hf Hl].
    rewrite filter_cons, decide_True by done. by rewrite <- IH.
Qed.

Lemma call_stored {A} (f : io W A) w a w' o :
  (∀ w, stored_finalizers (f w).2 o = stored_finalizers w o) → f w = (inr a, w') →
  stored_finalizers w' o = stored_finalizers w o.
Proof. intros Hf Hw. specialize (Hf w). by rewrite Hw in Hf. Qed.

(** C19: a run for a deleted cluster that returns without an error has removed
    the operator's finalizer, and no other, from the stored object of an AKS
    cluster; of any other kind but AzureCluster the stored object has all its
    finalizers still, so the object is never released and every later run
    deletes again. *)
Theorem deletion_finalizer req cl obj w1 w2 s res s' :
  GetClusterByName (r_Client r) req (world s) = (inr cl, w1) →
  GetObjectFromContractVersionedRef (r_Client r) cl w1 = (inr obj, w2) →
  annotations_IsPaused cl obj = false →
  is_Some (cluster_DeletionTimestamp cl) ∨ is_Some (u_DeletionTimestamp obj) →
  isAzureCluster obj = false →
  Controller.Reconcile fuel r req s = (Ok res, s') →
  stored_finalizers (world s') (object_name obj)
  = (if isASOManagedCluster obj then filter (λ g, g ≠ AzureClusterControllerFinalizer) else id)
      (stored_finalizers (world s) (object_name obj)).
Proof.
  intros Hget Hobj Hpaused Hdel Hkind Hrun.
  destruct (deletion_inv fuel r _ _ _ _ _ _ _ _ Hget Hobj Hpaused Hdel Hrun)
    as (sc & s1 & s2 & Hnew & _ & Hi & Hd & Hclose).
  set (o := object_name obj).
  set (params := scope_params r cl) in Hnew. set (s0 := set_infraCluster obj (set_world w2 s)) in Hnew.
  assert (world s0 = w2) as Hw0 by done. assert (infraCluster s0 = obj) as Hi0 by done.
  clearbody s0 params.
  assert (stored_finalizers w1 o = stored_finalizers (world s) o) as E1.
  { by eapply call_stored; [intros w; apply meta_GetClusterByName|exact Hget]. }
  assert (stored_finalizers w2 o = stored_finalizers w1 o) as E2.
  { by eapply call_stored; [intros w; apply meta_GetObject|exact Hobj]. }
  pose proof (meta_GetObject_read _ _ _ _ _ Hobj) as Hread. fold o in Hread.
  rewrite <- Hi0 in Hkind.
  destruct (NewScope_generic _ _ _ _ Hkind Hnew) as [cp Hcp].
  pose proof (NewScope_stored o params s0 Hkind) as [E3 _]. rewrite Hnew in E3. rewrite Hi0, <- Hi in Hkind.
  pose proof (reconcileDelete_stored o fuel r sc s1 Hkind) as E4.
  pose proof (wp_reconcileDelete fuel r sc s1) as Hwp. unfold wp in Hwp.
  rewrite Hd in E4, Hwp. destruct Hwp as [Hrel _]. unfold stored_kept in *. simpl in *.
  rewrite Hcp in Hclose. apply run_PatchObject in Hclose.
  destruct (released_spec obj) as (Rn & Rk & Rf). unfold stored_here in Hclose.
  rewrite Hrel, Hi, Rn, Rk, Rf in Hclose. fold o in Hclose. rewrite Hclose, Hread.
  rewrite E4, E3, Hw0, E2, E1. by destruct (isASOManagedCluster obj).
Qed.
End deletion.
