(* ===== verification/LiveFinalizers.v ===== *)
(** The finalizer of a live cluster in the API server: what a complete run of
    the handler leaves of it there, from the lookup of the cluster to the
    deferred patch. *)
From S2P Require Import Prelude GoStd Errors Metrics Kube State Conditions Infra Azure Scope.
From S2P Require Import DnsClient PrivateClient DnsRecords DnsService PrivateDns Controller.
From S2P Require Import AzureSpec InfraFacts TagFacts DnsClientFacts DnsRecordsFacts.
From S2P Require Import DnsServiceFacts PrivateFacts PrivateClientFacts ControllerFacts.
From S2P Require Import InfraProps ControllerProps Services Footprint EndToEnd Operator Finalizers.
Open Scope Z_scope.

Section live.
Context {W : Type} `{Microerror, Kubernetes W, Prometheus, !StatusSubresource W}.
Context `{!AzureSDK W, !Capz W, !MetaConditions W, !MetadataKept W, !FinalizerFunctions W}.
Context (o : NamespacedName).

(** * The calls of a reconciliation *)

Lemma drain_stored {T} onError fuel (p : Pager T) acc :
  steps (object_kept o) (drain onError fuel p acc).
Proof.
  revert p acc. induction fuel as [|fuel IH]; intros p acc; simpl;
    (destruct (pager_More p); [|apply steps_ret, _]); [apply steps_out_of_fuel, _|].
  apply steps_bind; [apply _| |intros [page p']; apply IH].
  apply steps_map_err, (object_kept_call o). intros w. rewrite <- (meta_page p w o).
  by destruct (pager_NextPage p w) as [[[e|page] p'] w'].
Qed.

(** The methods a reconciliation uses. *)
Record object_client (c : client W) : Prop := {
  obj_GetZone rg z : steps (object_kept o) (GetZone c rg z);
  obj_CreateZone rg z zn : steps (object_kept o) (CreateOrUpdateZone c rg z zn);
  obj_ListRecords rg z : steps (object_kept o) (DnsClient.ListRecordSets c rg z);
  obj_PutRecord rg z t n rs : steps (object_kept o) (DnsClient.CreateOrUpdateRecordSet c rg z t n rs);
  obj_GetGroup rg : steps (object_kept o) (GetResourceGroup c rg);
  obj_PutGroup rg g : steps (object_kept o) (CreateOrUpdateResourceGroup c rg g);
}.

Lemma azureClient_object fuel ac : object_client (azureClient_client (W := W) fuel ac).
Proof.
  split; intros; simpl; unfold azureClient_GetZone, azureClient_CreateOrUpdateZone,
    azureClient_ListRecordSets, azureClient_CreateOrUpdateRecordSet,
    azureClient_GetResourceGroup, azureClient_CreateOrUpdateResourceGroup, counted_mask,
    count_request, count_error; pose proof (@drain_stored); steps_tac.
Qed.

Lemma ingress_loop_object zone items : steps (object_kept o) (ingress_loop (W := W) zone items).
Proof. intros s. by rewrite ingress_loop_run. Qed.

Lemma getDesiredARecords_object (svc : DnsRecords.Service W) :
  (∀ q, steps (object_kept o) (Getter_Get (publicIPsService svc) q)) →
  steps (object_kept o) (getDesiredARecords svc).
Proof.
  intros Hg. rewrite getDesiredARecords_spec. pose proof ingress_loop_object.
  unfold desired_spec, IsASOManagedCluster, IsAzureCluster, api_address,
    getIPAddressForPublicDNS, getIngressARecord, getGatewayARecords, ClusterK8sClient,
    getClusterK8sClient, getClusterKubeConfig, getK8sClient.
  steps_tac.
Qed.

Lemma tags_equal_object m l : steps (object_kept o) (tags_equal_loop m l : G W bool).
Proof. induction l as [|[k v] l IH]; simpl; steps_tac. Qed.

Lemma Reconcile_object (svc : DnsRecords.Service W) :
  (∀ q, steps (object_kept o) (Getter_Get (publicIPsService svc) q)) →
  object_client (svc_azureClient svc) → object_client (svc_azureBaseZoneClient svc) →
  steps (object_kept o) (DnsService.Reconcile svc).
Proof.
  intros Hg [] []. pose proof tags_equal_object. pose proof (getDesiredARecords_object svc Hg).
  unfold DnsService.Reconcile, IsAzureCluster, createClusterResourceGroup,
    updateClusterResourceGroup, resourceGroupTagsEqual, resource_group_location,
    ManagementCluster, managementAzureCluster, DnsService.list_or_create_zone,
    createClusterDNSZone, find_clusterNSRecord, createClusterNSRecord,
    DnsRecords.updateARecords, DnsRecords.calculateMissingARecords, DnsRecords.compare_ARecord,
    clear_ProvisioningState, export_ARecords, DnsRecords.updateCnameRecords,
    DnsRecords.calculateMissingCnameRecords, DnsRecords.compare_CnameRecord, name_of.
  steps_tac. all: apply steps_IndexFunc; [apply _|intros ?]; steps_tac.
Qed.

(** * The object along a run *)

Lemma getDns_object fuel r (sc : Scope W) :
  ok_post (getDnsServiceForPublicRecords fuel r sc) (λ svc,
    publicIPsService svc = s_publicIPService sc ∧
    object_client (svc_azureClient svc) ∧ object_client (svc_azureBaseZoneClient svc)).
Proof.
  unfold getDnsServiceForPublicRecords.
  do 4 (eapply ok_post_bind; [apply ok_post_True|intros ? _]).
  apply ok_post_map_err. unfold DnsService.New.
  do 2 (eapply ok_post_bind; [apply ok_post_True|intros ? _]).
  apply ok_post_ret. split_and!; [done|apply azureClient_object..].
Qed.

(** The object is not an AzureCluster, an AKS cluster if [aso]; [F] are its
    stored finalizers, and those in memory of an AKS cluster. *)
Record tracked (aso : bool) (F : list string) (s : St W) : Prop := {
  tracked_name : object_name (infraCluster s) = o;
  tracked_generic : isAzureCluster (infraCluster s) = false;
  tracked_aso : isASOManagedCluster (infraCluster s) = aso;
  tracked_stored : stored_finalizers (world s) o = F;
  tracked_memory : aso = true → u_Finalizers (infraCluster s) = F;
}.

Lemma tracked_kept aso F s s' : object_kept o s s' → tracked aso F s → tracked aso F s'.
Proof. intros [Hst Hi] []. split; rewrite ?Hi; [done..|by rewrite Hst|done]. Qed.

Lemma kind_agree (u u' : Unstructured) : u_Kind u' = u_Kind u →
  isAzureCluster u' = isAzureCluster u ∧ isASOManagedCluster u' = isASOManagedCluster u.
Proof. unfold isAzureCluster, isASOManagedCluster. by intros ->. Qed.

Lemma status_update_tracked c F s s' :
  tracked false F s → status_update c s = (Ok tt, s') → tracked false F s'.
Proof.
  intros [Hn Ha Hb Hs Hm]. unfold status_update, call, mbind, M_bind, gets, modify.
  destruct (StatusUpdate c (infraCluster s) (world s)) as [[e|u'] w'] eqn:Hu; [done|].
  intros [= <-]. destruct (status_update_keeps _ _ _ _ _ Hu) as (Hf & Hk & Hn1 & Hn2 & Hst).
  apply kind_agree in Hk as [Ka Kb]. fold (object_name (infraCluster s)) in Hst.
  split; simpl; [|by rewrite Ka|by rewrite Kb| |done].
  - rewrite <- Hn. unfold object_name. by rewrite Hn1, Hn2.
  - by rewrite <- Hs, <- Hn.
Qed.

(** An update stores what is in memory. *)
Lemma object_update_tracked c aso s s' : object_name (infraCluster s) = o →
  isAzureCluster (infraCluster s) = false → isASOManagedCluster (infraCluster s) = aso →
  object_update c s = (Ok tt, s') → tracked aso (u_Finalizers (infraCluster s)) s'.
Proof.
  intros Hn Ha Hb. unfold object_update, call, mbind, M_bind, gets, modify.
  destruct (Update c (infraCluster s) (world s)) as [[e|u'] w'] eqn:Hu; [done|].
  intros [= <-]. destruct (update_stores _ _ _ _ _ Hu) as (Hf & Hk & Hst).
  apply meta_Update_name in Hu. apply kind_agree in Hk as [Ka Kb].
  fold (object_name (infraCluster s)) in Hst. rewrite Hn in Hst.
  split; simpl; [by rewrite Hu|by rewrite Ka|by rewrite Kb|done|done].
Qed.

(** A patch of the generic patcher stores the finalizers in memory of an AKS
    cluster, and of any other kind those that are stored. *)
Lemma patch_tracked cp aso F s s' : object_name (infraCluster s) = o →
  isAzureCluster (infraCluster s) = false → isASOManagedCluster (infraCluster s) = aso →
  stored_finalizers (world s) o = F → cp_PatchObject cp s = (Ok tt, s') →
  tracked aso (if aso then u_Finalizers (infraCluster s) else F) s'.
Proof.
  intros Hn Ha Hb Hs. unfold cp_PatchObject. erewrite run_bind by done. rewrite Hb.
  destruct aso; simpl; [by apply object_update_tracked|].
  intros ([] & s1 & Hst & Hup)%bind_Ok_inv.
  assert (tracked false F s) as Ht by by split.
  pose proof (status_update_tracked _ _ _ _ Ht Hst) as [Hn1 Ha1 Hb1 Hs1 _].
  assert (u_Finalizers (infraCluster s1) = F) as Hf.
  { apply status_update_run in Hst as (Hf & _). by rewrite Hf, Hn, Hs. }
  eapply object_update_tracked in Hup; [|done..]. by rewrite Hf in Hup.
Qed.

Lemma patch_keeps_tracked cp aso F s s' :
  tracked aso F s → cp_PatchObject cp s = (Ok tt, s') → tracked aso F s'.
Proof.
  intros [Hn Ha Hb Hs Hm] Hp. pose proof (patch_tracked cp aso F s s' Hn Ha Hb Hs Hp) as Ht.
  destruct aso; [|done]. by rewrite (Hm eq_refl) in Ht.
Qed.

Lemma publish_tracked (sc : Scope W) aso F s s' :
  tracked aso F s → publish_condition sc s = (Ok tt, s') → tracked aso F s'.
Proof.
  intros Ht. pose proof Ht as [Hn Ha Hb Hs _]. unfold publish_condition, IsASOManagedCluster.
  erewrite run_bind by done. rewrite Hb. destruct aso; simpl; [by intros [= <-]|].
  intros ([] & s1 & Hcond & Hup)%bind_Ok_inv. eapply status_update_tracked; [|exact Hup].
  revert Hcond. unfold setUnstructuredCAPICondition, write_conditions, read_conditions.
  intros (l & s2 & Hl & Hcond)%bind_Ok_inv.
  assert (s2 = s) as ->.
  { revert Hl. unfold lift_sum, mbind, M_bind, gets.
    destruct (NestedSlice_conditions _) as [e|[items|]]; simpl; try done;
      [destruct (parse_items _ _); simpl|]; by intros [= _ <-]. }
  erewrite run_bind in Hcond by done.
  apply bind_Ok_inv in Hcond as (raw & s3 & Hraw & Hcond).
  assert (s3 = s) as ->.
  { revert Hraw. unfold lift_sum. destruct (render_items _ _); by intros [= _ <-]. }
  erewrite run_bind in Hcond by done.
  apply bind_Ok_inv in Hcond as (b & s4 & Hset & Hcond).
  assert (s4 = s) as ->.
  { revert Hset. unfold lift_sum. destruct (SetNestedSlice_conditions _ _); by intros [= _ <-]. }
  injection Hcond as <-. by split.
Qed.
End live.

(** * The handler *)

Section handler.
Context {W : Type} `{Microerror, Kubernetes W, Prometheus, AzureView W, !AzureSDK W, !Capz W,
                     !MetaConditions W}.
Context `{!KubeKeepsAzure, !CapzSpec W}.
Context `{!StatusSubresource W, !MetadataKept W, !FinalizerFunctions W}.
Context (fuel : nat) (r : ClusterReconciler (W := W)).

(** The finalizers with the operator's. *)
Definition held (F : list string) : list string :=
  if bool_decide (AzureClusterControllerFinalizer ∈ F) then F
  else F ++ [AzureClusterControllerFinalizer].

Lemma ensure_finalizer_tracked o (sc : Scope W) cp aso F s s' :
  s_Patcher sc = CommonPatcher_Patcher cp → object_name (infraCluster s) = o →
  isAzureCluster (infraCluster s) = false → isASOManagedCluster (infraCluster s) = aso →
  stored_finalizers (world s) o = F → u_Finalizers (infraCluster s) = F →
  ensure_finalizer sc s = (Ok tt, s') → tracked o aso (if aso then held F else F) s'.
Proof.
  intros Hcp Hn Ha Hb Hs Hm. unfold ensure_finalizer, held. erewrite run_bind by done.
  rewrite Contains_spec, Hm. case_bool_decide as Hin; simpl.
  - intros [= <-]. by destruct aso; split.
  - erewrite run_bind by done. rewrite Hcp. simpl. intros Hp.
    destruct (kind_agree (infraCluster s) (AddFinalizer (infraCluster s)
                AzureClusterControllerFinalizer) (Add_kind _ _)) as [Ka Kb].
    eapply patch_tracked in Hp; simpl; [|by rewrite Add_name|by rewrite Ka|by rewrite Kb|exact Hs].
    simpl in Hp. rewrite Add_finalizers, Hm in Hp; [done|by rewrite Hm].
Qed.

Lemma reconcileNormal_tracked o (sc : Scope W) cp cl aso F s res s' :
  s_Patcher sc = CommonPatcher_Patcher cp → s_publicIPService sc = NewPublicIPService cl →
  object_name (infraCluster s) = o →
  isAzureCluster (infraCluster s) = false → isASOManagedCluster (infraCluster s) = aso →
  stored_finalizers (world s) o = F → u_Finalizers (infraCluster s) = F →
  reconcileNormal fuel r sc s = (Ok res, s') → tracked o aso (if aso then held F else F) s'.
Proof.
  intros Hcp Hg Hn Ha Hb Hs Hm (s0 & Hfin & Hrun)%reconcileNormal_inv.
  eapply (ensure_finalizer_tracked o) in Hfin; [|done..].
  destruct (ready _ _); [|by destruct Hrun as [_ ->]].
  destruct Hrun as (_ & svc & s1 & s2 & s3 & s4 & s5 & s6 & Hapi & Hing & Hsvc & [Hw4 Hi4] & _ & Hrec & Hcond & Hpatch).
  assert (azureClusterSpec (infraCluster s0) = None) as Hspec.
  { unfold azureClusterSpec, azureClusterFromInfraObject. by rewrite (tracked_generic _ _ _ _ Hfin). }
  unfold api_stage, ingress_stage in Hapi, Hing. rewrite Hspec in Hapi, Hing.
  injection Hapi as <-. injection Hing as <-.
  pose proof (getDns_stored o fuel r sc s0) as Hk3. rewrite Hsvc in Hk3.
  apply getDns_object with (o := o) in Hsvc as (Hgs & Hc & Hbc).
  assert (tracked o aso (if aso then held F else F) s4) as Ht4.
  { eapply tracked_kept; [|exact Hfin]. destruct Hk3 as [Hst Hi]. simpl in *.
    split; [unfold stored_kept in *; by rewrite Hw4|by rewrite Hi4]. }
  assert (steps (object_kept o) (DnsService.Reconcile svc)) as Hkept.
  { apply Reconcile_object; [|done..]. intros q s9. rewrite Hgs, Hg. simpl.
    unfold PublicIPService_Get. by destruct (ParseIP _). }
  specialize (Hkept s4). unfold with_scope_copy in Hrec.
  destruct (DnsService.Reconcile svc s4) as [r5 s5'] eqn:Hr5. injection Hrec as -> <-.
  assert (tracked o aso (if aso then held F else F) s5') as Ht5 by by eapply tracked_kept.
  eapply patch_keeps_tracked; [|rewrite Hcp in Hpatch; exact Hpatch].
  eapply publish_tracked; [|exact Hcond]. by destruct Ht5.
Qed.

(** A run for a cluster that is not deleted, past its early returns, ran the
    reconciliation. *)
Lemma live_inv req cl obj w1 w2 s res s' :
  GetClusterByName (r_Client r) req (world s) = (inr cl, w1) →
  GetObjectFromContractVersionedRef (r_Client r) cl w1 = (inr obj, w2) →
  annotations_IsPaused cl obj = false →
  cluster_DeletionTimestamp cl = None → u_DeletionTimestamp obj = None →
  Controller.Reconcile fuel r req s = (Ok res, s') →
  ∃ sc s1 s2,
    NewScope (scope_params r cl) (set_infraCluster obj (set_world w2 s)) = (Ok sc, s1) ∧
    infraCluster s1 = obj ∧
    reconcileNormal fuel r sc s1 = (Ok res, s2) ∧ Close (s_Patcher sc) s2 = (Ok tt, s').
Proof.
  intros Hget Hobj Hpaused Hc Ho Hrun. destruct (Reconcile_inv fuel r _ _ _ _ Hrun)
    as [[(_ & e & w & He)|(cl' & w & He & Hr)]|
        (cl' & obj' & sc & s1 & s2 & w3 & w4 & Hg & Hob & Hrest)].
  { congruence. }
  { rewrite Hget in He. injection He as <- <-. rewrite Hobj in Hr. destruct Hr. congruence. }
  rewrite Hget in Hg. injection Hg as <- <-. rewrite Hobj in Hob. injection Hob as <- <-.
  destruct Hrest as (Hnew & Hsc & Hi & Hbody & Hclose). rewrite Hc, Ho in Hbody.
  by exists sc, s1, s2.
Qed.

(** C20: a run for a live cluster that returns without an error has put the
    operator's finalizer on the stored object of an AKS cluster; of any other
    kind but AzureCluster the stored object has the finalizers it had, so the
    finalizer is never stored, every run adds it again, and the object can be
    deleted before the operator has cleaned up after it. *)
Theorem live_finalizer req cl obj w1 w2 s res s' :
  GetClusterByName (r_Client r) req (world s) = (inr cl, w1) →
  GetObjectFromContractVersionedRef (r_Client r) cl w1 = (inr obj, w2) →
  annotations_IsPaused cl obj = false →
  cluster_DeletionTimestamp cl = None → u_DeletionTimestamp obj = None →
  isAzureCluster obj = false →
  Controller.Reconcile fuel r req s = (Ok res, s') →
  stored_finalizers (world s') (object_name obj)
  = (if isASOManagedCluster obj then held else id)
      (stored_finalizers (world s) (object_name obj)).
Proof.
  intros Hget Hobj Hpaused Hc Ho Hkind Hrun.
  destruct (live_inv _ _ _ _ _ _ _ _ Hget Hobj Hpaused Hc Ho Hrun)
    as (sc & s1 & s2 & Hnew & Hi & Hd & Hclose).
  set (o := object_name obj).
  set (params := scope_params r cl) in Hnew. set (s0 := set_infraCluster obj (set_world w2 s)) in Hnew.
  assert (world s0 = w2) as Hw0 by done. assert (infraCluster s0 = obj) as Hi0 by done.
  clearbody s0 params.
  assert (stored_finalizers w1 o = stored_finalizers (world s) o) as E1.
  { by eapply call_stored; [intros w; apply meta_GetClusterByName|exact Hget]. }
  assert (stored_finalizers w2 o = stored_finalizers w1 o) as E2.
  { by eapply call_stored; [intros w; apply meta_GetObject|exact Hobj]. }
  pose proof (meta_GetObject_read _ _ _ _ _ Hobj) as Hread. fold o in Hread.
  rewrite <- Hi0 in Hkind. destruct (NewScope_generic _ _ _ _ Hkind Hnew) as [cp Hcp].
  pose proof (NewScope_generic_getter _ _ _ _ Hkind Hnew) as Hg.
  pose proof (NewScope_stored o params s0 Hkind) as [E3 _]. rewrite Hnew in E3.
  unfold stored_kept in E3. simpl in E3. rewrite Hi0 in Hkind. rewrite <- E1, <- E2.
  rewrite Hw0 in E3. rewrite <- E2 in Hread.
  eapply (reconcileNormal_tracked o) in Hd;
    [|exact Hcp|exact Hg|by rewrite Hi|by rewrite Hi|done|exact E3|by rewrite Hi].
  rewrite Hcp in Hclose. apply (patch_keeps_tracked o _ _ _ _ _ Hd) in Hclose.
  rewrite (tracked_stored _ _ _ _ Hclose), Hi. by destruct (isASOManagedCluster obj).
Qed.
End handler.
