(* ===== verification/Interference.v ===== *)
(** A world that others write as well: before each call of a run the other runs
    of the operator, and anybody else, may act on the world in any way that
    leaves alone what belongs to the cluster of the run.  Seen through the part
    that belongs to the cluster, such a world meets the laws of a world of its
    own, so that the theorems stated against the laws hold for runs whose
    calls interleave. *)
From S2P Require Import Prelude GoStd Errors Metrics Kube State Conditions Infra Azure Scope.
From S2P Require Import AzureSpec InfraFacts DnsClientFacts PrivateClientFacts Controller Footprint.
Open Scope Z_scope.

(** * What belongs to a cluster *)

Lemma filter_keys_agree `{Countable K} {A} (P : K → Prop) `{∀ k, Decision (P k)}
    (m m' : gmap K A) :
  (∀ k, P k → m' !! k = m !! k) →
  filter (λ kx, P kx.1) m' = filter (λ kx, P kx.1) m.
Proof.
  intros Hm. apply map_filter_strong_ext. intros k x. simpl.
  split; (intros [HP Hx]; split; [done|]); [rewrite <- Hm|rewrite Hm]; done.
Qed.

(** The base zone is in no resource group named after the cluster. *)
Class Apart (base : zone_key) (n : string) : Prop := apart : base.1.2 ≠ n.

Section own.
Context {W : Type} `{AzureView W}.
Context (base : zone_key) (n : string).

(** Of the base zone, the NS record named after the cluster. *)
Definition own_zone (k : zone_key) (zd : ZoneData) : option ZoneData :=
  if decide (k.1.2 = n) then Some zd
  else if decide (k = base)
  then Some (mkZone (zd_nameservers zd)
               (filter (λ tp, tp.1 = (RecordTypeNS, n)) (zd_records zd)))
  else None.

(** The zones in resource groups named after the cluster, and that. *)
Definition own_zones (w : W) : gmap zone_key ZoneData := map_imap own_zone (az_zones w).

Definition own_groups (w : W) : gmap group_key ResourceGroup :=
  filter (λ kg, kg.1.2 = n) (az_groups w).

Definition undisturbed (w w' : W) : Prop :=
  own_zones w' = own_zones w ∧ own_groups w' = own_groups w.

#[global] Instance undisturbed_preorder : PreOrder undisturbed.
Proof. split; [done|]. intros ??? [] []. split; congruence. Qed.

Lemma own_zones_lookup w k : own_zones w !! k = az_zones w !! k ≫= own_zone k.
Proof. apply map_lookup_imap. Qed.

Lemma own_zones_mine w k : k.1.2 = n → own_zones w !! k = az_zones w !! k.
Proof.
  intros Hk. rewrite own_zones_lookup. destruct (az_zones w !! k) as [zd|]; [|done].
  simpl. unfold own_zone. by rewrite decide_True.
Qed.

Lemma own_groups_mine w g : g.2 = n → own_groups w !! g = az_groups w !! g.
Proof.
  intros Hg. unfold own_groups. destruct (az_groups w !! g) as [rg|] eqn:Hrg.
  - by apply map_lookup_filter_Some.
  - by apply map_lookup_filter_None_2; left.
Qed.

(** What a run for another cluster does, with whatever outcome, disturbs
    nothing of this one. *)
Lemma own_zones_agree w w' :
  (∀ k, k.1.2 = n → az_zones w' !! k = az_zones w !! k) →
  (own_zone base <$> az_zones w' !! base) = (own_zone base <$> az_zones w !! base) →
  own_zones w' = own_zones w.
Proof.
  intros Hk Hb. apply map_eq. intros k. rewrite !own_zones_lookup.
  destruct (decide (k.1.2 = n)) as [Hn|Hn]; [by rewrite Hk|].
  destruct (decide (k = base)) as [->|Hne].
  - destruct (az_zones w' !! base), (az_zones w !! base); simpl in *; congruence.
  - by destruct (az_zones w' !! k), (az_zones w !! k); simpl; unfold own_zone;
      rewrite ?decide_False by done.
Qed.

(** ** What belongs to the others *)

(** Of the base zone, all but the NS record named after the cluster. *)
Definition rest_zone (k : zone_key) (zd : ZoneData) : option ZoneData :=
  if decide (k.1.2 = n) then None
  else if decide (k = base)
  then Some (mkZone (zd_nameservers zd)
               (filter (λ tp, tp.1 ≠ (RecordTypeNS, n)) (zd_records zd)))
  else Some zd.

Definition rest_zones (w : W) : gmap zone_key ZoneData := map_imap rest_zone (az_zones w).

Definition rest_groups (w : W) : gmap group_key ResourceGroup :=
  filter (λ kg, kg.1.2 ≠ n) (az_groups w).

Definition others_kept (w w' : W) : Prop :=
  rest_zones w' = rest_zones w ∧ rest_groups w' = rest_groups w.

Lemma rest_zones_agree w w' :
  (∀ k, k.1.2 ≠ n → k ≠ base → az_zones w' !! k = az_zones w !! k) →
  (rest_zone base <$> az_zones w' !! base) = (rest_zone base <$> az_zones w !! base) →
  rest_zones w' = rest_zones w.
Proof.
  intros Hk Hb. apply map_eq. intros k. unfold rest_zones. rewrite !map_lookup_imap.
  destruct (decide (k.1.2 = n)) as [Hn|Hn].
  - by destruct (az_zones w' !! k), (az_zones w !! k); simpl; unfold rest_zone;
      rewrite ?decide_True by done.
  - destruct (decide (k = base)) as [->|Hne]; [|by rewrite Hk].
    destruct (az_zones w' !! base), (az_zones w !! base); simpl in *; congruence.
Qed.

Lemma rest_groups_agree w w' :
  (∀ g, g.2 ≠ n → az_groups w' !! g = az_groups w !! g) → rest_groups w' = rest_groups w.
Proof. exact (filter_keys_agree (λ g : group_key, g.2 ≠ n) _ _). Qed.

Lemma others_kept_public w w' : same_public w w' → others_kept w w'.
Proof. intros [Hz Hg]. unfold others_kept, rest_zones, rest_groups. by rewrite Hz, Hg. Qed.

Context `{Hbase : !Apart base n}.

Lemma others_kept_zone_created k w w' : k.1.2 = n → zone_created k w w' → others_kept w w'.
Proof.
  intros Hk [[Hg _] (zd' & Hz & _)]. split; [|by unfold rest_groups; rewrite Hg].
  assert (base ≠ k) by by intros <-.
  apply rest_zones_agree; [intros k' Hk' _|]; rewrite Hz, lookup_insert_ne; try done.
  by intros <-.
Qed.

(** Records of the cluster's zones, and its own record of the base zone. *)
Definition mine (k : zone_key) (t : RecordType) (m : string) : Prop :=
  k.1.2 = n ∨ k = base ∧ t = RecordTypeNS ∧ m = n.

Lemma others_kept_record k t m f w w' : mine k t m →
  (∀ zd, zd_nameservers (f zd) = zd_nameservers zd ∧
     ∀ tn, tn ≠ (t, m) → zd_records (f zd) !! tn = zd_records zd !! tn) →
  az_groups w' = az_groups w → az_zones w' = alter f k (az_zones w) → others_kept w w'.
Proof.
  intros Hm Hf Hg Hz. split; [|by unfold rest_groups; rewrite Hg].
  apply rest_zones_agree.
  - intros k' Hk' Hb'. rewrite Hz, lookup_alter_ne; [done|].
    destruct Hm as [Hm|(-> & _)]; [by intros <-|done].
  - rewrite Hz. destruct (decide (k = base)) as [->|Hne]; [|by rewrite lookup_alter_ne].
    rewrite lookup_alter_eq. destruct (az_zones w !! base) as [zb|]; [|done]. simpl. f_equal.
    destruct Hm as [Hm|(_ & -> & ->)]; [done|]. destruct (Hf zb) as [Hns Hrec].
    unfold rest_zone. rewrite !(decide_False (P := base.1.2 = n)) by done.
    rewrite !(decide_True (P := base = base)), Hns by done. do 2 f_equal.
    exact (filter_keys_agree (λ tn, tn ≠ (RecordTypeNS, n)) _ _ Hrec).
Qed.

Lemma others_kept_record_put k t m p w w' :
  mine k t m → record_put k t m p w w' → others_kept w w'.
Proof.
  intros Hm [[Hg _] (zd & Hzd & Hz)]. apply (others_kept_record k t m (put_record t m p));
    [done| |done|].
  - intros zd'. split; [done|]. intros tn Htn. by apply lookup_insert_ne.
  - rewrite Hz. apply map_eq. intros k'. destruct (decide (k = k')) as [<-|Hne].
    + by rewrite lookup_insert_eq, lookup_alter_eq, Hzd.
    + by rewrite lookup_insert_ne, lookup_alter_ne.
Qed.

Lemma others_kept_zone_removed k w w' : k.1.2 = n → zone_removed k w w' → others_kept w w'.
Proof.
  intros Hk [[Hg _] Hz]. split; [|by unfold rest_groups; rewrite Hg].
  assert (base ≠ k) by by intros <-.
  apply rest_zones_agree; [intros k' Hk' _|]; rewrite Hz, lookup_delete_ne; try done.
  by intros <-.
Qed.

Lemma others_kept_record_deleted k t m w w' :
  mine k t m → record_deleted k t m w w' → others_kept w w'.
Proof.
  intros Hm [[Hg _] Hz]. eapply (others_kept_record k t m); [done| |done|exact Hz].
  intros zd'. split; [done|]. intros tn Htn. by apply lookup_delete_ne.
Qed.

Lemma others_kept_group_put g rg w w' : g.2 = n → group_put g rg w w' → others_kept w w'.
Proof.
  intros Hn [[Hz _] (g' & Hg & _)]. split; [by unfold rest_zones; rewrite Hz|].
  apply rest_groups_agree. intros g'' Hne. rewrite Hg, lookup_insert_ne; [done|]. by intros <-.
Qed.

Lemma others_kept_shrunk g w w' : g.2 = n → group_shrunk g w w' → others_kept w w'.
Proof.
  intros Hn (Hg & Hz & _). split.
  - apply rest_zones_agree.
    + intros k Hk _. apply Hz. intros Heq. by rewrite Heq in Hk.
    + rewrite Hz; [done|]. intros Heq. apply (apart (base := base) (n := n)). by rewrite Heq.
  - apply rest_groups_agree. intros g' Hg'. apply Hg. by intros ->.
Qed.

Lemma others_kept_maybe (R : W → W → Prop) w w' :
  (R w w' → others_kept w w') → maybe R w w' → others_kept w w'.
Proof. intros HR [[Hp _]|Hr]; [by apply others_kept_public|by apply HR]. Qed.
End own.

Lemma touches_undisturbed `{Microerror, Kubernetes W, Prometheus, AzureView W} r m n (w w' : W) :
  m ≠ n → n ≠ BaseDomainResourceGroup r → touches r m w w' →
  undisturbed (base_key r) n w w'.
Proof.
  intros Hmn Hn [Hg Hz Hb]. split.
  - apply own_zones_agree.
    + intros k <-. apply Hz; [done|]. by intros ->.
    + destruct (az_zones w !! base_key r) as [zb|], (az_zones w' !! base_key r) as [zb'|];
        simpl in *; try done. destruct Hb as [Hns Hr]. f_equal. unfold own_zone. simpl.
      destruct (decide (BaseDomainResourceGroup r = n)); [done|].
      rewrite !decide_True by done. rewrite Hns.
      pose proof (filter_keys_agree (λ k, k = (RecordTypeNS, n)) (zd_records zb) (zd_records zb'))
        as Hf. simpl in Hf. rewrite Hf; [done|]. intros k ->. apply Hr. by intros [= ?].
  - refine (filter_keys_agree (λ g : group_key, g.2 = n) _ _ _). intros g Hgn. apply Hg. by rewrite Hgn.
Qed.

(** * The shared world *)

Section shared.
Context {W : Type} `{Microerror, Kubernetes W, AzureView W}.
Context (base : zone_key) (n : string).

(** What the others do between two calls. *)
Record Turn := mkTurn { act : W → W; act_ok : ∀ w, undisturbed base n w (act w) }.

(** The world; what the others are going to do, one turn before each call of
    the run as long as there are any; and the calls the run has made so far: the
    world each one found and the world it left. *)
Record Shared := mkShared {
  actual : W;
  turns : list Turn;
  own_calls : list (W * W);
}.

(** The world a call finds. *)
Definition found (s : Shared) : W :=
  match turns s with [] => actual s | t :: _ => act t (actual s) end.

Definition after_turn (s : Shared) (w : W) : Shared :=
  mkShared w (tail (turns s)) (own_calls s ++ [(found s, w)]).

Definition shared_call {A} (f : io W A) : io Shared A := λ s,
  let '(r, w) := f (found s) in (r, after_turn s w).

Lemma found_undisturbed s : undisturbed base n (actual s) (found s).
Proof. unfold found. destruct (turns s) as [|t ts]; [reflexivity|apply act_ok]. Qed.

(** No call of the run has changed what belongs to the others. *)
Definition kept_others (s : Shared) : Prop :=
  Forall (λ c, others_kept base n c.1 c.2) (own_calls s).

#[global] Instance kept_others_dec s : Decision (kept_others s).
Proof. apply Forall_dec. intros c. unfold others_kept. apply _. Defined.

(** A mark, outside of the part of the cluster, of a run that has. *)
Definition mark_key : group_key := ("", n +:+ "'").

Definition mark (s : Shared) : gmap group_key ResourceGroup :=
  if decide (kept_others s) then ∅
  else {[ mark_key := {| rg_Name := None; rg_Location := None; rg_Tags := None;
                         rg_Properties := None |} ]}.

(** What the run can rely on seeing, with the mark. *)
#[global] Instance shared_view : AzureView Shared := {
  az_zones s := own_zones base n (actual s);
  az_groups s := own_groups n (actual s) ∪ mark s;
  az_private _ := ∅;
  az_links _ := ∅;
  shows_zone k := k.1.2 = n;
  shows_record k t m := k = base ∧ t = RecordTypeNS ∧ m = n;
  shows_group g := g.2 = n;
  decoded_addr := decoded_addr (W := W);
}.

Implicit Types s : Shared.

(** ** Changes of the world, seen through the part *)

Context `{Hbase : !Apart base n}.

Lemma mark_key_other : mark_key.2 ≠ n.
Proof.
  simpl. intros Heq. apply (f_equal String.length) in Heq.
  rewrite string_app_length in Heq. simpl in Heq. lia.
Qed.

Lemma mark_mine s g : g.2 = n → mark s !! g = None.
Proof.
  intros Hg. unfold mark. destruct (decide _); [done|]. apply lookup_singleton_ne.
  intros <-. by apply mark_key_other.
Qed.

Lemma mark_kept s s' : mark s' = mark s → kept_others s → kept_others s'.
Proof.
  unfold mark. intros Hm Hs. rewrite (decide_True (P := kept_others s)) in Hm by done.
  by destruct (decide (kept_others s')).
Qed.

Lemma kept_others_after s w : others_kept base n (found s) w →
  kept_others (after_turn s w) ↔ kept_others s.
Proof. intros Hw. unfold kept_others. simpl. rewrite Forall_app, Forall_singleton. tauto. Qed.

Lemma mark_after s w : others_kept base n (found s) w → mark (after_turn s w) = mark s.
Proof.
  intros Hw%kept_others_after. unfold mark.
  destruct (decide (kept_others (after_turn s w))), (decide (kept_others s)); tauto.
Qed.

Lemma own_zones_insert (w w' : W) k zd zd' :
  own_zone base n k zd = Some zd' → az_zones w' = <[k := zd]> (az_zones w) →
  own_zones base n w' = <[k := zd']> (own_zones base n w).
Proof.
  intros Hk Hz. apply map_eq. intros k'. rewrite own_zones_lookup, Hz.
  destruct (decide (k = k')) as [<-|Hne].
  - by rewrite !lookup_insert_eq.
  - by rewrite !lookup_insert_ne, own_zones_lookup.
Qed.

Lemma shared_groups s w :
  others_kept base n (found s) w →
  az_groups w = az_groups (found s) → az_groups (after_turn s w) = az_groups s.
Proof.
  intros Hw Hg. simpl. rewrite mark_after by done. f_equal.
  destruct (found_undisturbed s) as [_ <-]. unfold own_groups. by rewrite Hg.
Qed.

Lemma shared_zones s w :
  az_zones w = az_zones (found s) → az_zones (after_turn s w) = az_zones s.
Proof.
  intros Hz. simpl. destruct (found_undisturbed s) as [<- _]. unfold own_zones. by rewrite Hz.
Qed.

Lemma shared_public s w : same_public (found s) w → same_view s (after_turn s w).
Proof.
  intros Hw. pose proof Hw as [Hz Hg]. repeat split; [by apply shared_zones|].
  apply shared_groups; [by apply others_kept_public|done].
Qed.

Lemma shared_same s w : same_view (found s) w → same_view s (after_turn s w).
Proof. intros [Hp _]. by apply shared_public. Qed.

Lemma shared_lookup s k : k.1.2 = n → az_zones s !! k = az_zones (found s) !! k.
Proof.
  intros Hk. simpl. destruct (found_undisturbed s) as [<- _]. by apply own_zones_mine.
Qed.

Lemma shared_group_lookup s g : g.2 = n → az_groups s !! g = az_groups (found s) !! g.
Proof.
  intros Hg. simpl. rewrite lookup_union_l by by apply mark_mine.
  destruct (found_undisturbed s) as [_ <-]. by apply own_groups_mine.
Qed.

Lemma own_zone_mine k zd : k.1.2 = n → own_zone base n k zd = Some zd.
Proof. intros Hk. unfold own_zone. by rewrite decide_True. Qed.

Lemma shared_zone_created s w k :
  k.1.2 = n → zone_created k (found s) w → zone_created k s (after_turn s w).
Proof.
  intros Hk Hc. pose proof (others_kept_zone_created base n k (found s) w Hk Hc).
  destruct Hc as [[Hg _] (zd' & Hz & Hold)]. split; [split; [by apply shared_groups|done]|].
  exists zd'. split.
  - simpl. destruct (found_undisturbed s) as [<- _].
    eapply own_zones_insert; [by apply own_zone_mine|done].
  - by rewrite shared_lookup.
Qed.

Lemma own_zone_put k t m p zd : mine base n k t m →
  ∃ zd0, own_zone base n k zd = Some zd0 ∧
    own_zone base n k (put_record t m p zd) = Some (put_record t m p zd0).
Proof.
  intros [Hk|(-> & -> & ->)].
  - exists zd. by rewrite !own_zone_mine.
  - unfold own_zone. rewrite !(decide_False (P := base.1.2 = n)), !decide_True by done. eexists. split; [done|].
    unfold put_record. simpl. do 2 f_equal. by rewrite map_filter_insert_True.
Qed.

Lemma shared_record_put s w k t m p :
  mine base n k t m → record_put k t m p (found s) w → record_put k t m p s (after_turn s w).
Proof.
  intros Hk Hc. pose proof (others_kept_record_put base n k t m p (found s) w Hk Hc).
  destruct Hc as [[Hg _] (zd & Hzd & Hz)]. split; [split; [by apply shared_groups|done]|].
  destruct (own_zone_put k t m p zd Hk) as (zd0 & Hown & Hput). exists zd0. simpl.
  destruct (found_undisturbed s) as [<- _]. split.
  - rewrite own_zones_lookup, Hzd. exact Hown.
  - by eapply own_zones_insert.
Qed.

Lemma shared_record_deleted s w k t m :
  mine base n k t m → record_deleted k t m (found s) w → record_deleted k t m s (after_turn s w).
Proof.
  intros Hk Hc. pose proof (others_kept_record_deleted base n k t m (found s) w Hk Hc).
  destruct Hc as [[Hg _] Hz]. split; [split; [by apply shared_groups|done]|]. simpl.
  destruct (found_undisturbed s) as [<- _]. apply map_eq. intros k'.
  rewrite own_zones_lookup, Hz. destruct (decide (k = k')) as [<-|Hne].
  - rewrite !lookup_alter_eq, own_zones_lookup. destruct (az_zones (found s) !! k) as [zd|]; [|done].
    simpl. destruct Hk as [Hk|(-> & -> & ->)]; [by rewrite !own_zone_mine|].
    unfold own_zone. rewrite !(decide_False (P := base.1.2 = n)), !decide_True by done. simpl. do 2 f_equal.
    by rewrite map_filter_delete.
  - by rewrite !lookup_alter_ne, own_zones_lookup.
Qed.

Lemma shared_zone_removed s w k :
  k.1.2 = n → zone_removed k (found s) w → zone_removed k s (after_turn s w).
Proof.
  intros Hk Hc. pose proof (others_kept_zone_removed base n k (found s) w Hk Hc).
  destruct Hc as [[Hg _] Hz]. split; [split; [by apply shared_groups|done]|]. simpl.
  destruct (found_undisturbed s) as [<- _]. apply map_eq. intros k'.
  rewrite own_zones_lookup, Hz. destruct (decide (k = k')) as [<-|Hne].
  - by rewrite !lookup_delete_eq.
  - by rewrite !lookup_delete_ne, own_zones_lookup.
Qed.

Lemma shared_group_put s w g rg :
  g.2 = n → group_put g rg (found s) w → group_put g rg s (after_turn s w).
Proof.
  intros Hk Hc. pose proof (others_kept_group_put base n g rg (found s) w Hk Hc).
  destruct Hc as [[Hz _] (g' & Hg & Ht)]. split; [split; [by apply shared_zones|done]|].
  exists g'. split; [|done]. simpl. rewrite mark_after, insert_union_l by done. f_equal.
  destruct (found_undisturbed s) as [_ <-].
  unfold own_groups. rewrite Hg. by rewrite map_filter_insert_True.
Qed.

Lemma shared_group_shrunk s w g :
  g.2 = n → group_shrunk g (found s) w → group_shrunk g s (after_turn s w).
Proof.
  intros Hk Hc. pose proof (others_kept_shrunk base n g (found s) w Hk Hc).
  destruct Hc as (Hg & Hz & _ & Hs). destruct (found_undisturbed s) as [Fz Fg].
  split_and!; [| |done|].
  - intros g' Hne. simpl. rewrite mark_after by done. rewrite !lookup_union. f_equal.
    rewrite <- Fg. unfold own_groups. rewrite !map_lookup_filter. by rewrite Hg.
  - intros k Hne. simpl. rewrite <- Fz, !own_zones_lookup. by rewrite Hz.
  - simpl. rewrite <- Fz. apply map_subseteq_spec. intros k zd. rewrite !own_zones_lookup.
    intros (zd0 & Hzd0 & Hown)%bind_Some. by rewrite (lookup_weaken _ _ _ _ Hzd0 Hs).
Qed.

Lemma shared_group_deleted s w g :
  g.2 = n → group_deleted g (found s) w → group_deleted g s (after_turn s w).
Proof.
  intros Hk (Hs & Hg & Hz). split; [by apply shared_group_shrunk|]. split; simpl.
  - rewrite lookup_union_l by by apply mark_mine.
    unfold own_groups. by apply map_lookup_filter_None_2; left.
  - intros z. rewrite own_zones_lookup. by rewrite Hz.
Qed.

Lemma shared_maybe (R : W → W → Prop) (R' : Shared → Shared → Prop) s w :
  (R (found s) w → R' s (after_turn s w)) →
  maybe R (found s) w → maybe R' s (after_turn s w).
Proof. intros HR [Hv|Hr]; [left; by apply shared_same|right; by apply HR]. Qed.
End shared.
Arguments mkTurn {W _ base n}.
Arguments mkShared {W _ base n}.
Arguments actual {W _ base n}.
Arguments turns {W _ base n}.
Arguments own_calls {W _ base n}.
Arguments kept_others {W _ base n}.
Arguments found {W _ base n}.
Arguments after_turn {W _ base n}.
Arguments shared_call {W _ base n A}.

(** * The interfaces in a shared world: every call finds what the others left *)

Section interfaces.
Context {W : Type} `{Microerror, Kubernetes W, AzureView W, !AzureSDK W, !Capz W,
                     !MetaConditions W}.
Context (base : zone_key) (n : string).

#[global] Instance shared_kubernetes : Kubernetes (Shared base n) := {
  Get_AzureCluster c k := shared_call (Get_AzureCluster c k);
  Get_AzureClusterIdentity c k := shared_call (Get_AzureClusterIdentity c k);
  Get_Secret c k := shared_call (Get_Secret c k);
  Get_Cluster c k := shared_call (Get_Cluster c k);
  List_Services c ns sel := shared_call (List_Services c ns sel);
  Update c u := shared_call (Update c u);
  StatusUpdate c u := shared_call (StatusUpdate c u);
  GetClusterByName c k := shared_call (GetClusterByName c k);
  GetObjectFromContractVersionedRef c cl :=
    shared_call (GetObjectFromContractVersionedRef c cl);
  apierrors_IsNotFound := apierrors_IsNotFound (W := W);
  FromUnstructured_AzureCluster := FromUnstructured_AzureCluster (W := W);
  FromUnstructured_Condition := FromUnstructured_Condition (W := W);
  ToUnstructured_Condition := ToUnstructured_Condition (W := W);
  NestedSlice_conditions := NestedSlice_conditions (W := W);
  SetNestedSlice_conditions := SetNestedSlice_conditions (W := W);
  ContainsFinalizer := ContainsFinalizer (W := W);
  AddFinalizer := AddFinalizer (W := W);
  RemoveFinalizer := RemoveFinalizer (W := W);
  annotations_IsPaused := annotations_IsPaused (W := W);
  Now s := Now (actual s);
  micrologger_New := shared_call micrologger_New;
  RestConfig := RestConfig (W := W);
  k8srestconfig_New c := shared_call (k8srestconfig_New c);
  k8sclient_NewClients c := shared_call (k8sclient_NewClients c);
}.

#[global] Instance shared_capz : Capz (Shared base n) := {
  capz_ClusterScope := capz_ClusterScope (W := W);
  capz_NewClusterScope c cl ac := shared_call (capz_NewClusterScope c cl ac);
  capz_ClientID := capz_ClientID (W := W);
  capz_SubscriptionID := capz_SubscriptionID (W := W);
  capz_TenantID := capz_TenantID (W := W);
  capz_ClusterName := capz_ClusterName (W := W);
  capz_PatchObject c := shared_call (capz_PatchObject c);
  capz_IsAPIServerPrivate := capz_IsAPIServerPrivate (W := W);
  capz_APIServerPrivateIP := capz_APIServerPrivateIP (W := W);
  capz_APIServerPublicIP := capz_APIServerPublicIP (W := W);
  capz_Close c := shared_call (capz_Close c);
  capz_publicips := capz_publicips (W := W);
  capz_publicips_New := capz_publicips_New (W := W);
  capz_publicips_Get p q := shared_call (capz_publicips_Get p q);
}.

#[global] Instance shared_meta : MetaConditions (Shared base n) := {
  MetaCondition := MetaCondition (W := W);
  FromUnstructured_MetaCondition := FromUnstructured_MetaCondition (W := W);
  ToUnstructured_MetaCondition := ToUnstructured_MetaCondition (W := W);
  apimeta_SetStatusCondition s := apimeta_SetStatusCondition (actual s);
}.

Definition shared_page {T} (p : Pager T) (s : Shared base n)
    : (GoError + list T) * Pager T * Shared base n :=
  let '(r, p', w) := pager_NextPage p (found s) in (r, p', after_turn s w).

#[global] Instance shared_sdk : AzureSDK (Shared base n) := {
  TokenCredential := TokenCredential (W := W);
  NewManagedIdentityCredential c := shared_call (NewManagedIdentityCredential c);
  NewClientSecretCredential t c k := shared_call (NewClientSecretCredential t c k);
  NewWorkloadIdentityCredential t c := shared_call (NewWorkloadIdentityCredential t c);
  ZonesClient := ZonesClient (W := W);
  RecordSetsClient := RecordSetsClient (W := W);
  ResourceGroupsClient := ResourceGroupsClient (W := W);
  NewZonesClient sub c := shared_call (NewZonesClient sub c);
  NewRecordSetsClient sub c := shared_call (NewRecordSetsClient sub c);
  NewResourceGroupsClient sub c := shared_call (NewResourceGroupsClient sub c);
  Poller := Poller (W := W);
  PollUntilDone p := shared_call (PollUntilDone p);
  Pager := Pager (W := W);
  pager_More _ := pager_More (W := W);
  pager_NextPage _ := shared_page;
  zones_Get c rg z := shared_call (zones_Get c rg z);
  zones_CreateOrUpdate c rg z zn := shared_call (zones_CreateOrUpdate c rg z zn);
  zones_BeginDelete c rg z := shared_call (zones_BeginDelete c rg z);
  recordSets_NewListByDNSZonePager := recordSets_NewListByDNSZonePager (W := W);
  recordSets_CreateOrUpdate c rg z m t rs :=
    shared_call (recordSets_CreateOrUpdate c rg z m t rs);
  recordSets_Delete c rg z m t := shared_call (recordSets_Delete c rg z m t);
  resourceGroups_Get c rg := shared_call (resourceGroups_Get c rg);
  resourceGroups_CreateOrUpdate c rg g :=
    shared_call (resourceGroups_CreateOrUpdate c rg g);
  resourceGroups_BeginDelete c rg := shared_call (resourceGroups_BeginDelete c rg);
  PrivateZonesClient := PrivateZonesClient (W := W);
  PrivateRecordSetsClient := PrivateRecordSetsClient (W := W);
  VirtualNetworkLinksClient := VirtualNetworkLinksClient (W := W);
  NewPrivateZonesClient sub c := shared_call (NewPrivateZonesClient sub c);
  NewPrivateRecordSetsClient sub c := shared_call (NewPrivateRecordSetsClient sub c);
  NewVirtualNetworkLinksClient sub c := shared_call (NewVirtualNetworkLinksClient sub c);
  privateZones_Get c rg z := shared_call (privateZones_Get c rg z);
  privateZones_BeginCreateOrUpdate c rg z zn :=
    shared_call (privateZones_BeginCreateOrUpdate c rg z zn);
  privateZones_BeginDelete c rg z := shared_call (privateZones_BeginDelete c rg z);
  privateRecordSets_NewListByTypePager := privateRecordSets_NewListByTypePager (W := W);
  privateRecordSets_NewListPager := privateRecordSets_NewListPager (W := W);
  privateRecordSets_CreateOrUpdate c rg z t m rs :=
    shared_call (privateRecordSets_CreateOrUpdate c rg z t m rs);
  virtualNetworkLinks_BeginCreateOrUpdate c rg z m l :=
    shared_call (virtualNetworkLinks_BeginCreateOrUpdate c rg z m l);
  virtualNetworkLinks_BeginDelete c rg z m :=
    shared_call (virtualNetworkLinks_BeginDelete c rg z m);
  virtualNetworkLinks_NewListPager := virtualNetworkLinks_NewListPager (W := W);
}.
End interfaces.

(** * The laws *)

Section laws.
Context {W : Type} `{Microerror, Kubernetes W, AzureView W, !AzureSDK W, !Capz W,
                     !MetaConditions W}.
Context `{!FullView W, !SDKSpec W}.
Context (base : zone_key) (n : string) `{!Apart base n}.

Lemma shared_call_kept {A} (f : io W A) :
  (∀ w, same_view w (f w).2) → ∀ s : Shared base n, same_view s (shared_call f s).2.
Proof.
  intros Hf s. unfold shared_call. specialize (Hf (found s)).
  destruct (f (found s)) as [r w]. by apply shared_same.
Qed.

Lemma shared_call_inv {A} (f : io W A) (s s' : Shared base n) r :
  shared_call f s = (r, s') → ∃ w', f (found s) = (r, w') ∧ s' = after_turn s w'.
Proof. unfold shared_call. destruct (f (found s)) as [r' w]. intros [= -> <-]. by exists w. Qed.

#[global] Instance shared_kube_keeps `{!KubeKeepsAzure (W := W)} :
  KubeKeepsAzure (W := Shared base n).
Proof.
  split.
  - intros c k. exact (shared_call_kept _ (keep_Get_AzureCluster (W := W) c k)).
  - intros c k. exact (shared_call_kept _ (keep_Get_AzureClusterIdentity (W := W) c k)).
  - intros c k. exact (shared_call_kept _ (keep_Get_Secret (W := W) c k)).
  - intros c k. exact (shared_call_kept _ (keep_Get_Cluster (W := W) c k)).
  - intros c k. exact (shared_call_kept _ (keep_GetClusterByName (W := W) c k)).
  - intros c cl. exact (shared_call_kept _ (keep_GetObject (W := W) c cl)).
  - intros c u. exact (shared_call_kept _ (keep_Update (W := W) c u)).
  - intros c u. exact (shared_call_kept _ (keep_StatusUpdate (W := W) c u)).
  - intros c ns sel. exact (shared_call_kept _ (keep_List_Services (W := W) c ns sel)).
  - exact (shared_call_kept _ (keep_micrologger_New (W := W))).
  - intros k. exact (shared_call_kept _ (keep_k8srestconfig_New (W := W) k)).
  - intros k. exact (shared_call_kept _ (keep_k8sclient_NewClients (W := W) k)).
Qed.

#[global] Instance shared_capz_spec `{!CapzSpec W} : CapzSpec (Shared base n).
Proof.
  split.
  - intros c cl ac. exact (shared_call_kept _ (keep_capz_NewClusterScope (W := W) c cl ac)).
  - intros c. exact (shared_call_kept _ (keep_capz_PatchObject (W := W) c)).
  - intros c. exact (shared_call_kept _ (keep_capz_Close (W := W) c)).
  - intros p q. exact (shared_call_kept _ (keep_capz_publicips_Get (W := W) p q)).
  - intros c cl ac s cs s' (w' & Hf & _)%shared_call_inv. exact (capz_ClusterName_of (W := W) _ _ _ _ _ _ Hf).
  - apply (capz_public_unless_private (W := W)).
  - intros p q s r s' (w' & Hf & _)%shared_call_inv. exact (capz_publicips_address (W := W) _ _ _ _ _ Hf).
Qed.

#[global] Instance shared_lookup_laws `{!ClusterLookup W} : ClusterLookup (Shared base n).
Proof.
  split; intros c k s cl s' (w' & Hf & _)%shared_call_inv.
  - exact (lookup_name (W := W) _ _ _ _ _ Hf).
  - exact (lookup_addr (W := W) _ _ _ _ _ Hf).
Qed.

Lemma shared_pages_end m (p : Pager (W := W) RecordSet) :
  pages_end (W := W) m p → pages_end (W := Shared base n) m p.
Proof.
  revert p. induction m as [|m IH]; intros p; simpl; [done|].
  destruct (pager_More p); [|done]. intros Hp s. unfold shared_page.
  specialize (Hp (found s)). destruct (pager_NextPage p (found s)) as [[r p'] w].
  destruct Hp as [Hv Hr]. split; [by apply shared_same|]. destruct r; [done|].
  destruct Hr as [Hd Hp]. split; [exact Hd|by apply IH].
Qed.

(** The law of the call under a shared call, with the state it leaves. *)
Ltac shared_law law :=
  unfold shared_call; let Hlaw := fresh "Hlaw" in pose proof law as Hlaw;
  match type of Hlaw with
  | let '(_, _) := ?call in _ => destruct call as [r w']
  end.

#[local] Obligation Tactic := idtac.
#[global] Program Instance shared_sdk_spec : SDKSpec (Shared base n) := {
  zones_sub := zones_sub (W := W);
  recordSets_sub := recordSets_sub (W := W);
  resourceGroups_sub := resourceGroups_sub (W := W);
  page_bound := page_bound (W := W);
  listing_pages k acc p s := k.1.2 = n ∧ listing_pages (W := W) k acc p (actual s);
  deletion p k := k.2 = n ∧ deletion (W := W) p k;
  zone_deletion p k := k.1.2 = n ∧ zone_deletion (W := W) p k;
}.
Next Obligation.
  intros c rg z s. simpl. shared_law (sdk_zones_Get (W := W) c rg z (found s)).
  destruct Hlaw as [Hv Hr]. split; [by apply shared_same|]. destruct r as [|zn]; [done|].
  intros Hk. destruct (Hr (full_zone _)) as (zd & Hzd & Hp). exists zd.
  split; [|done]. by rewrite <- (shared_lookup base n s) in Hzd.
Qed.
Next Obligation.
  intros c rg z zn s Hk. simpl in *.
  shared_law (sdk_zones_CreateOrUpdate (W := W) c rg z zn (found s) (full_zone _)).
  destruct r as [e|zn']; [|by apply shared_zone_created].
  eapply shared_maybe; [|exact Hlaw]. by apply shared_zone_created.
Qed.
Next Obligation.
  intros c rg z m t rs p s Hk Hp. simpl in *.
  shared_law (sdk_recordSets_CreateOrUpdate (W := W) c rg z m t rs p (found s)
                (or_introl (full_zone _)) Hp).
  destruct r as [e|rs']; [|by apply shared_record_put].
  eapply shared_maybe; [|exact Hlaw]. by apply shared_record_put.
Qed.
Next Obligation.
  intros c rg z m t s Hk. simpl in *.
  shared_law (sdk_recordSets_Delete (W := W) c rg z m t (found s) (or_introl (full_zone _))).
  destruct r as [e|[]]; [|by apply shared_record_deleted].
  eapply shared_maybe; [|exact Hlaw]. by apply shared_record_deleted.
Qed.
Next Obligation. intros c rg z. exact (shared_pages_end _ _ (sdk_pages_end (W := W) c rg z)). Qed.
Next Obligation. intros c rg z s Hk. split; [exact Hk|]. exact (sdk_pages_first (W := W) c rg z _ (full_zone _)). Qed.
Next Obligation.
  intros k acc p s [Hk Hp] Hmore. destruct (sdk_pages_last (W := W) _ _ _ _ Hp Hmore) as (zd & Hzd & Hl).
  exists zd. split; [|exact Hl]. simpl. by rewrite own_zones_mine.
Qed.
Next Obligation.
  intros k acc p s [Hk Hp] Hmore. simpl. unfold shared_page.
  assert (listing_pages (W := W) k acc p (found s)) as Hf.
  { eapply (sdk_pages_stable (W := W)), Hp. rewrite <- (shared_lookup base n s) by done. simpl.
    by rewrite own_zones_mine. }
  pose proof (sdk_pages_next (W := W) k acc p (found s) Hf Hmore) as Hlaw.
  destruct (pager_NextPage (W := W) p (found s)) as [[[e|page] p'] w].
  - rewrite <- (shared_lookup base n s) in Hlaw by done. exact Hlaw.
  - by split.
Qed.
Next Obligation.
  intros k acc p s s' Hz [Hk Hp]. split; [done|]. eapply (sdk_pages_stable (W := W)), Hp. simpl in Hz.
  by rewrite !own_zones_mine in Hz.
Qed.
Next Obligation.
  intros c rg s. simpl. shared_law (sdk_resourceGroups_Get (W := W) c rg (found s)).
  destruct Hlaw as [Hv Hr]. split; [by apply shared_same|]. destruct r as [e|g].
  - destruct Hr as [Hf Hr]. split; [done|]. intros Hk He.
    specialize (Hr (full_group _) He). by rewrite <- (shared_group_lookup base n s) in Hr.
  - intros Hk. destruct (Hr (full_group _)) as [Hg Hwf].
    by rewrite <- (shared_group_lookup base n s) in Hg.
Qed.
Next Obligation.
  intros c rg g s Hk. simpl in *.
  shared_law (sdk_resourceGroups_CreateOrUpdate (W := W) c rg g (found s) (full_group _)).
  destruct r as [e|g']; [|by apply shared_group_put].
  eapply shared_maybe; [|exact Hlaw]. by apply shared_group_put.
Qed.
Next Obligation.
  intros c rg s Hk. simpl in *.
  shared_law (sdk_resourceGroups_BeginDelete (W := W) c rg (found s) (full_group _)).
  destruct Hlaw as [Hs Hr]. split; [by apply shared_group_shrunk|]. destruct r as [e|p]; [|by split].
  destruct Hr as [Hf Hr]. split; [done|]. intros He. destruct (Hr He) as (Hv & Hg & Hz).
  split; [by apply shared_same|]. split.
  - by rewrite <- (shared_group_lookup base n s) in Hg.
  - intros z. specialize (Hz z). by rewrite <- (shared_lookup base n s) in Hz.
Qed.
Next Obligation.
  intros p k s [Hk Hp]. simpl. shared_law (sdk_PollUntilDone (W := W) p k (found s) Hp).
  destruct r as [e|[]].
  - destruct Hlaw as [Hf Hs]. split; [done|]. by apply shared_group_shrunk.
  - by apply shared_group_deleted.
Qed.
Next Obligation.
  intros c rg z s Hk. simpl in *.
  shared_law (sdk_zones_BeginDelete (W := W) c rg z (found s) (full_zone _)).
  destruct Hlaw as [Hz Hr]. split; [|by destruct r].
  eapply shared_maybe; [|exact Hz]. by apply shared_zone_removed.
Qed.
Next Obligation.
  intros p k s [Hk Hp]. simpl. shared_law (sdk_zone_PollUntilDone (W := W) p k (found s) Hp).
  destruct r as [e|[]]; [|by apply shared_zone_removed].
  eapply shared_maybe; [|exact Hlaw]. by apply shared_zone_removed.
Qed.

#[global] Instance shared_constructors `{!SDKConstructors W} : SDKConstructors (Shared base n).
Proof.
  split.
  - intros c. exact (shared_call_kept _ (keep_NewManagedIdentityCredential (W := W) c)).
  - intros t c k. exact (shared_call_kept _ (keep_NewClientSecretCredential (W := W) t c k)).
  - intros t c. exact (shared_call_kept _ (keep_NewWorkloadIdentityCredential (W := W) t c)).
  - intros sub c. exact (shared_call_kept _ (keep_NewZonesClient (W := W) sub c)).
  - intros sub c. exact (shared_call_kept _ (keep_NewRecordSetsClient (W := W) sub c)).
  - intros sub c. exact (shared_call_kept _ (keep_NewResourceGroupsClient (W := W) sub c)).
  - intros sub cred s c s' (w' & Hf & _)%shared_call_inv.
    exact (NewZonesClient_sub (W := W) _ _ _ _ _ Hf).
  - intros sub cred s c s' (w' & Hf & _)%shared_call_inv.
    exact (NewRecordSetsClient_sub (W := W) _ _ _ _ _ Hf).
  - intros sub cred s c s' (w' & Hf & _)%shared_call_inv.
    exact (NewResourceGroupsClient_sub (W := W) _ _ _ _ _ Hf).
Qed.

(** ** The private calls *)

Lemma shared_public_io `{!PrivateSDKPublic W} {A} (f : io W A) :
  public_io (W := W) f → public_io (W := Shared base n) (shared_call f).
Proof.
  intros Hf s. unfold shared_call. specialize (Hf (found s)).
  destruct (f (found s)) as [r w]. by apply shared_public.
Qed.

Lemma shared_begins `{!PrivateSDKPublic W} (f : io W (Poller (W := W))) (s : Shared base n) :
  begins_private (W := W) f →
  let '(r, s') := shared_call f s in
  same_public s s' ∧ match r with inr p => private_poller (W := W) p | inl _ => True end.
Proof.
  intros Hf. unfold shared_call. specialize (Hf (found s)). destruct (f (found s)) as [r w].
  destruct Hf as [Hp Hr]. split; [by apply shared_public|done].
Qed.

#[global] Program Instance shared_private_public `{!PrivateSDKPublic W} :
  PrivateSDKPublic (Shared base n) := {
  private_poller := private_poller (W := W);
  private_pager _ := private_pager (W := W);
}.
Next Obligation. intros HP p Hp. exact (shared_public_io _ (public_poll (W := W) p Hp)). Qed.
Next Obligation.
  intros HP T p s Hp. simpl. unfold shared_page. pose proof (public_page (W := W) p (found s) Hp) as Hlaw.
  destruct (pager_NextPage (W := W) p (found s)) as [[r p'] w]. destruct Hlaw as [Hs Hp'].
  split; [by apply shared_public|done].
Qed.
Next Obligation. intros HP c rg z zn s. exact (shared_begins _ s (public_CreateZone (W := W) c rg z zn)). Qed.
Next Obligation. intros HP c rg z s. exact (shared_begins _ s (public_DeleteZone (W := W) c rg z)). Qed.
Next Obligation. intros HP c rg z m l s. exact (shared_begins _ s (public_CreateLink (W := W) c rg z m l)). Qed.
Next Obligation. intros HP c rg z m s. exact (shared_begins _ s (public_DeleteLink (W := W) c rg z m)). Qed.
Next Obligation. intros HP c rg z. exact (shared_public_io _ (public_Get (W := W) c rg z)). Qed.
Next Obligation.
  intros HP c rg z t m rs. exact (shared_public_io _ (public_CreateOrUpdate (W := W) c rg z t m rs)).
Qed.
Next Obligation. intros HP. exact (public_ListByType (W := W)). Qed.
Next Obligation. intros HP. exact (public_ListAll (W := W)). Qed.
Next Obligation. intros HP. exact (public_ListLinks (W := W)). Qed.
Next Obligation.
  intros HP sub c. exact (shared_call_kept _ (keep_NewPrivateZonesClient (W := W) sub c)).
Qed.
Next Obligation.
  intros HP sub c. exact (shared_call_kept _ (keep_NewPrivateRecordSetsClient (W := W) sub c)).
Qed.
Next Obligation.
  intros HP sub c. exact (shared_call_kept _ (keep_NewVirtualNetworkLinksClient (W := W) sub c)).
Qed.
End laws.
