(* ===== verification/Interleaving.v ===== *)
(** Runs whose calls interleave: what the handler leaves in place for a cluster,
    and what it cleans up, when the other workers of the operator - and anybody
    else - act between any two of its calls. *)
From S2P Require Import Prelude GoStd Errors Metrics Kube State Conditions Infra Azure Scope.
From S2P Require Import DnsClient PrivateClient DnsRecords DnsService PrivateDns Controller.
From S2P Require Import AzureSpec InfraFacts TagFacts DnsClientFacts PrivateClientFacts.
From S2P Require Import DnsRecordsFacts DnsServiceFacts ControllerFacts DnsReconcile.
From S2P Require Import ControllerProps Services Footprint EndToEnd Operator Interference.
From stdpp Require Import relations.
Open Scope Z_scope.

Section interleaving.
Context {W : Type} `{Microerror, Kubernetes W, Prometheus, AzureView W, !AzureSDK W, !Capz W,
                     !MetaConditions W, !MicroerrorLaws}.
Context `{!FullView W, !SDKSpec W, !SDKConstructors W, !PrivateSDKPublic W,
          !KubeKeepsAzure (W := W), !CapzSpec W, !ClusterLookup W}.
Context (fuel : nat) (Hfuel : (page_bound (W := W) ≤ fuel)%nat).
Context (r : ClusterReconciler (W := W)).

(** The world as the worker for the cluster [n] shares it, and the same
    configuration in it. *)
Definition SharedFor (n : string) : Type := Shared (base_key r) n.

Definition shared_reconciler (n : string) : ClusterReconciler (W := Shared (base_key r) n) :=
  @Build_ClusterReconciler (Shared (base_key r) n) _
    (r_Client r) (BaseDomain r) (BaseDomainResourceGroup r) (BaseZoneClientID r)
    (BaseZoneClientSecret r) (BaseZoneSubscriptionID r) (BaseZoneTenantID r)
    (r_ManagementClusterConfig r) (InfraClusterZoneAzureConfig r) (ClusterAzureIdentityRef r).

Context (n : string) (Hbase : n ≠ BaseDomainResourceGroup r).

#[local] Instance base_apart : Apart (base_key r) n.
Proof. by intros Heq. Qed.

Lemma shared_cluster_view : ClusterView (W := Shared (base_key r) n) (shared_reconciler n) n.
Proof. done. Qed.

Lemma shared_fuel : (page_bound (W := Shared (base_key r) n) ≤ fuel)%nat.
Proof. exact Hfuel. Qed.

(** What the cluster has in the part of the world that belongs to it, it has in
    the world. *)
Lemma in_place_actual sub target ds (s : Shared (base_key r) n) :
  in_place (shared_reconciler n) sub n target ds s → in_place r sub n target ds (actual s).
Proof.
  intros (zd & zb & Hzd & Hw & Hds & Hzb & Hns).
  change (own_zones (base_key r) n (actual s) !! zone_key_of r sub n = Some zd) in Hzd.
  change (own_zones (base_key r) n (actual s) !! base_key r = Some zb) in Hzb.
  rewrite own_zones_mine in Hzd by done.
  rewrite own_zones_lookup in Hzb. apply bind_Some in Hzb as (zb' & Hzb' & Hown).
  exists zd, zb'. split_and!; [done..|]. revert Hown. unfold own_zone.
  rewrite (decide_False (P := (base_key r).1.2 = n)), decide_True by done.
  intros [= <-]. simpl in Hns. by apply map_lookup_filter_Some in Hns as [Hns _].
Qed.

Lemma undelegated_actual (s : Shared (base_key r) n) :
  undelegated (shared_reconciler n) n s → undelegated r n (actual s).
Proof.
  intros Hu zb Hzb.
  assert (own_zones (base_key r) n (actual s) !! base_key r = Some (mkZone (zd_nameservers zb)
    (filter (λ tp, tp.1 = (RecordTypeNS, n)) (zd_records zb)))) as Hown.
  { rewrite own_zones_lookup, Hzb. simpl. unfold own_zone.
    by rewrite (decide_False (P := (base_key r).1.2 = n)), decide_True. }
  pose proof (Hu _ Hown) as Hns. simpl in Hns.
  by apply map_lookup_filter_None in Hns as [Hns|Hns]; [|destruct (zd_records zb !! _) eqn:Hz;
    [exfalso; by eapply Hns|]].
Qed.

Lemma cleaned_actual sub (s : Shared (base_key r) n) :
  cleaned (shared_reconciler n) sub n s → cleaned r sub n (actual s).
Proof.
  intros (Hu & Hg & Hz). split_and!; [by apply undelegated_actual|..].
  - apply lookup_union_None in Hg as [Hg _]. by rewrite own_groups_mine in Hg.
  - intros z. specialize (Hz z).
    change (own_zones (base_key r) n (actual s) !! (sub, n, z) = None) in Hz.
    by rewrite own_zones_mine in Hz.
Qed.

(** A call that keeps what belongs to the others touches the cluster alone. *)
Lemma others_kept_touches w w' : others_kept (base_key r) n w w' → touches r n w w'.
Proof.
  intros [Hz Hg].
  assert (∀ k, az_zones w' !! k ≫= rest_zone (base_key r) n k
             = az_zones w !! k ≫= rest_zone (base_key r) n k) as Hk.
  { intros k. rewrite <- !(map_lookup_imap (rest_zone (base_key r) n)).
    exact (f_equal (lookup k) Hz). }
  split.
  - intros g Hne. apply (f_equal (lookup g)) in Hg. unfold rest_groups in Hg.
    rewrite !map_lookup_filter in Hg.
    destruct (az_groups w' !! g), (az_groups w !! g); simpl in Hg; repeat case_guard; done.
  - intros k Hne Hb. specialize (Hk k). unfold rest_zone in Hk.
    destruct (az_zones w' !! k), (az_zones w !! k); simpl in Hk; repeat case_decide; done.
  - specialize (Hk (base_key r)). unfold rest_zone in Hk. unfold base_kept.
    destruct (az_zones w' !! base_key r) as [zb'|], (az_zones w !! base_key r) as [zb|];
      simpl in Hk; rewrite ?(decide_False (P := (base_key r).1.2 = n)) in Hk by done;
      repeat case_decide; try done. injection Hk as Hns Hrec. split; [done|].
    intros tn Htn. apply (f_equal (lookup tn)) in Hrec. rewrite !map_lookup_filter in Hrec.
    destruct (zd_records zb' !! tn), (zd_records zb !! tn); simpl in Hrec; repeat case_guard; done.
Qed.

(** ** What a run does to the others *)

(** Every call of a run of the handler, whatever the run comes to, leaves what
    belongs to the others. *)
Lemma calls_keep_others (req : NamespacedName) (s s' : St (Shared (base_key r) n)) res :
  nn_Name req = n → Controller.Reconcile fuel (shared_reconciler n) req s = (res, s') →
  kept_others (world s) → kept_others (world s').
Proof.
  intros Hn Hrun Hs.
  assert (ClusterView (W := Shared (base_key r) n) (shared_reconciler n) (nn_Name req)) as Hview.
  { rewrite Hn. apply shared_cluster_view. }
  assert (nn_Name req ≠ BaseDomainResourceGroup (shared_reconciler n)) as Hb by by rewrite Hn.
  pose proof (steps_Reconcile (W := Shared (base_key r) n) fuel shared_fuel (shared_reconciler n)
                req Hb s) as Ht.
  rewrite Hrun in Ht. destruct Ht as [[Hg _ _] _]. rewrite Hn in Hg.
  eapply mark_kept; [|exact Hs]. apply map_eq. intros g.
  destruct (decide (g.2 = n)) as [Hgn|Hgn]; [by rewrite !mark_mine|].
  specialize (Hg g Hgn). simpl in Hg. revert Hg. rewrite !lookup_union.
  unfold own_groups. rewrite !(map_lookup_filter_None_2 _ _ g) by by right.
  by rewrite !(left_id_L None _).
Qed.

(** C2: the handler keeps its promise also when other writers act between its
    calls: when it asks for the next run in five minutes, the zone of the
    cluster is in place at that moment, in the subscription of the request's own
    scope, with the wildcard record that the cluster asks for, with every A
    record that this run had to want (but for those that share their name with
    another one), and with its delegation - whatever the other workers did to
    other clusters, to the rest of the base zone, to Kubernetes objects or to
    private zones before each single call.  The cluster is not called like the
    resource group of the base zone. *)
Theorem Reconcile_in_place_shared (req : NamespacedName) (s s' : St (Shared (base_key r) n)) :
  nn_Name req = n →
  Controller.Reconcile fuel (shared_reconciler n) req s = (Ok {| RequeueAfter := 300 |}, s') →
  ∃ sub target ds s1, plan fuel (shared_reconciler n) req s = (Ok (sub, target, ds), s1) ∧
    in_place r sub n target (uniquely_named ds) (actual (world s')).
Proof.
  intros Hn Hrun.
  assert (ClusterView (W := Shared (base_key r) n) (shared_reconciler n) (nn_Name req)) as Hview.
  { rewrite Hn. apply shared_cluster_view. }
  destruct (Reconcile_as_planned (W := Shared (base_key r) n) fuel shared_fuel
              (shared_reconciler n) req s s' Hrun) as (sub & target & ds & s1 & Hplan & Hin).
  exists sub, target, ds, s1. split; [done|]. apply in_place_actual. by rewrite Hn in Hin.
Qed.

(** C10: a run for a deleted cluster that returns without an error has cleaned up
    after it at that moment, whatever the other writers do to other clusters, to
    the rest of the base zone, to Kubernetes objects or to private zones before
    each single call: the base zone does not delegate to the cluster any more
    and, unless it is an AzureCluster, its resource group and zones are gone from
    the subscription that the request's scope is built with.  The cluster
    is not called like the resource group of the base zone. *)
Theorem Reconcile_cleans_shared (req : NamespacedName) cl obj w1 w2 res
    (s s' : St (Shared (base_key r) n)) :
  nn_Name req = n →
  GetClusterByName (W := Shared (base_key r) n) (r_Client r) req (world s) = (inr cl, w1) →
  GetObjectFromContractVersionedRef (W := Shared (base_key r) n) (r_Client r) cl w1
    = (inr obj, w2) →
  annotations_IsPaused cl obj = false →
  is_Some (cluster_DeletionTimestamp cl) ∨ is_Some (u_DeletionTimestamp obj) →
  Controller.Reconcile fuel (shared_reconciler n) req s = (Ok res, s') →
  res = no_requeue ∧ undelegated r n (actual (world s')) ∧
  ∃ sc s1, NewScope (scope_params (shared_reconciler n) cl)
             (set_infraCluster obj (set_world w2 s)) = (Ok sc, s1) ∧
    (isAzureCluster obj = false →
     cleaned r (SubscriptionID (s_Patcher sc)) n (actual (world s'))).
Proof.
  intros Hn Hget Hobj Hpaused Hdel Hrun.
  assert (ClusterView (W := Shared (base_key r) n) (shared_reconciler n) (nn_Name req)) as Hview.
  { rewrite Hn. apply shared_cluster_view. }
  assert (nn_Name req ≠ BaseDomainResourceGroup (shared_reconciler n)) as Hb by by rewrite Hn.
  destruct (Reconcile_cleaned (W := Shared (base_key r) n) fuel shared_fuel (shared_reconciler n)
              req cl obj w1 w2 s res s' Hb Hget Hobj Hpaused Hdel Hrun) as (-> & Hu & sc & s1 & Hnew & Hc).
  rewrite Hn in *. split_and!; [done|by apply undelegated_actual|].
  exists sc, s1. split; [exact Hnew|]. intros Hazure. by apply cleaned_actual, Hc.
Qed.
End interleaving.

(** * The operator as a system of calls *)

Section calls.
Context {W : Type} `{Microerror, Kubernetes W, Prometheus, AzureView W, !AzureSDK W, !Capz W,
                     !MetaConditions W, !MicroerrorLaws}.
Context `{!FullView W, !SDKSpec W, !SDKConstructors W, !PrivateSDKPublic W,
          !KubeKeepsAzure (W := W), !CapzSpec W, !ClusterLookup W}.
Context (fuel : nat) (Hfuel : (page_bound (W := W) ≤ fuel)%nat).
Context (r : ClusterReconciler (W := W)).

(** One step: any single call of any run of the handler for a request, from the
    world that call finds to the world it leaves. *)
Inductive operator_call (req : NamespacedName) : W → W → Prop :=
| called (s s' : St (Shared (base_key r) (nn_Name req))) res w w' :
    own_calls (world s) = [] →
    Controller.Reconcile fuel (shared_reconciler r (nn_Name req)) req s = (res, s') →
    (w, w') ∈ own_calls (world s') → operator_call req w w'.

(** Calls of runs for the requests that satisfy [P], of however many runs, in
    any order. *)
Definition operator_calls (P : NamespacedName → Prop) : W → W → Prop :=
  rtc (λ w w', ∃ req, P req ∧ operator_call req w w').

Lemma operator_call_touches req w w' :
  nn_Name req ≠ BaseDomainResourceGroup r → operator_call req w w' → touches r (nn_Name req) w w'.
Proof.
  intros Hb [s s' res w0 w0' Hnil Hrun Hin]. apply others_kept_touches; [done|].
  assert (kept_others (world s)) as Hs by by unfold kept_others; rewrite Hnil.
  pose proof (calls_keep_others fuel Hfuel r (nn_Name req) Hb req s s' res eq_refl Hrun Hs) as Hk.
  unfold kept_others in Hk. rewrite Forall_forall in Hk. exact (Hk _ Hin).
Qed.

Lemma operator_calls_same n w w' :
  n ≠ BaseDomainResourceGroup r → operator_calls (not_about r n) w w' →
  undisturbed (base_key r) n w w' ∧ same_for r n w w'.
Proof.
  intros Hn. induction 1 as [w|w1 w2 w3 (req & [Hne Hb] & Hcall) _ [IHu IHs]]; [by split|].
  apply operator_call_touches in Hcall; [|done].
  split; (etransitivity; [|eassumption]).
  - by eapply touches_undisturbed.
  - by eapply touches_other.
Qed.

(** C4: every single call of a run of the handler, whatever the run comes to
    and whatever other writers did before, changes in Azure's public DNS nothing
    but resource groups and zones named after the cluster, and in the base zone
    the NS record named after the cluster, for every cluster that is not called
    like the resource group of the base zone. *)
Theorem operator_call_footprint (req : NamespacedName) (w w' : W) :
  nn_Name req ≠ BaseDomainResourceGroup r → operator_call req w w' → touches r (nn_Name req) w w'.
Proof. by apply operator_call_touches. Qed.

(** C3: calls of runs for other clusters, of however many runs at once and
    interleaved in any order, leave alone what belongs to a cluster - so that
    they are among what a run for it copes with before each of its calls - and
    in particular keep it in place, or cleaned up.  No cluster concerned is
    called like the resource group of the base zone. *)
Theorem other_calls_keep_cluster (sub n target : string) (ds : list RecordSet) (w w' : W) :
  n ≠ BaseDomainResourceGroup r → operator_calls (not_about r n) w w' →
  undisturbed (base_key r) n w w' ∧
  (in_place r sub n target ds w → in_place r sub n target ds w') ∧
  (cleaned r sub n w → cleaned r sub n w').
Proof.
  intros Hn [Hu Hs]%operator_calls_same; [|done]. split_and!; [done|..].
  - by apply in_place_same.
  - by apply cleaned_same.
Qed.
End calls.
