(* ===== verification/Reference.v ===== *)
(** A small in-memory environment: a cluster of API objects, Azure's zones and
    resource groups as finite maps, metrics as finite maps.  It instantiates
    every interface of the development and meets every law, so the theorems
    stated against the laws are about something, and the operator's code runs
    in it. *)
From S2P Require Import Prelude GoStd Errors Metrics Kube State Infra Azure Scope AzureSpec.
From S2P Require Import DnsClient DnsClientFacts.
Open Scope Z_scope.

(** * Errors and metrics *)

#[global] Instance ref_microerror : Microerror := {
  Mask e := Wrapped "microerror" e;
  Maskf e _ := Wrapped "microerror" e;
  Cause := fix cause e := match e with Wrapped _ e' => cause e' | e => e end;
}.

#[global] Instance ref_microerror_laws : MicroerrorLaws.
Proof. by split. Qed.

(** A vector: its label names and its series. *)
Definition vec (V : Type) : Type := list string * gmap (list string) V.

#[global] Instance ref_prometheus : Prometheus := {
  GaugeVec := vec Z;
  CounterVec := vec nat;
  NewGaugeVec names := (names, ∅);
  NewCounterVec names := (names, ∅);
  GaugeNames v := v.1;
  GaugeSet v lvs x := (v.1, <[lvs := x]> v.2);
  GaugeValue v lvs := v.2 !! lvs;
  DeletePartialMatch v labels :=
    let kept := filter (λ kv, labels_match v.1 labels kv.1 = false) v.2 in
    ((v.1, kept), (size v.2 - size kept)%nat);
  CounterInc v l := (v.1, <[[l] := S (default O (v.2 !! [l]))]> v.2);
  CounterValue v l := default O (v.2 !! [l]);
}.

#[global] Instance ref_prometheus_laws : PrometheusLaws.
Proof.
  split; intros; simpl; try done.
  - destruct (labels_match v.1 labels lvs) eqn:Hm.
    + apply map_lookup_filter_None_2. right. intros x _. simpl. by rewrite Hm.
    + destruct (v.2 !! lvs) as [x|] eqn:Hv.
      * by apply map_lookup_filter_Some.
      * by apply map_lookup_filter_None_2; left.
  - by rewrite lookup_insert_eq.
  - by rewrite lookup_insert_ne.
  - by rewrite lookup_insert_eq.
  - rewrite lookup_insert_ne; [done|]. congruence.
Qed.

(** * The world *)

(** The body of an unstructured object is the AzureCluster it converts to. *)
#[local] Instance ref_kube_types : KubeTypes := {
  JMap := Condition; JBody := AzureCluster; Client := unit;
}.

Abbreviation object_key := (string * string)%type.

Record World := mkWorld {
  w_zones : gmap zone_key ZoneData;
  w_groups : gmap group_key ResourceGroup;
  w_private : gmap zone_key ZoneData;
  w_links : gmap zone_key (list VirtualNetworkLink);
  (** API objects by namespace and name *)
  w_azureclusters : gmap object_key AzureCluster;
  w_identities : gmap object_key AzureClusterIdentity;
  w_secrets : gmap object_key Secret;
  w_clusters : gmap object_key Cluster;
  w_objects : gmap object_key Unstructured;
  w_services : gmap string (list Service_obj);
}.

Definition with_zones (z : gmap zone_key ZoneData) (w : World) : World :=
  mkWorld z (w_groups w) (w_private w) (w_links w) (w_azureclusters w) (w_identities w)
    (w_secrets w) (w_clusters w) (w_objects w) (w_services w).
Definition with_groups (g : gmap group_key ResourceGroup) (w : World) : World :=
  mkWorld (w_zones w) g (w_private w) (w_links w) (w_azureclusters w) (w_identities w)
    (w_secrets w) (w_clusters w) (w_objects w) (w_services w).
Definition with_private (z : gmap zone_key ZoneData) (w : World) : World :=
  mkWorld (w_zones w) (w_groups w) z (w_links w) (w_azureclusters w) (w_identities w)
    (w_secrets w) (w_clusters w) (w_objects w) (w_services w).
Definition with_links (l : gmap zone_key (list VirtualNetworkLink)) (w : World) : World :=
  mkWorld (w_zones w) (w_groups w) (w_private w) l (w_azureclusters w) (w_identities w)
    (w_secrets w) (w_clusters w) (w_objects w) (w_services w).
Definition with_objects (o : gmap object_key Unstructured) (w : World) : World :=
  mkWorld (w_zones w) (w_groups w) (w_private w) (w_links w) (w_azureclusters w)
    (w_identities w) (w_secrets w) (w_clusters w) o (w_services w).

(** * Kubernetes *)

Definition not_found : GoError := StatusError "NotFound".

Definition get_from {A} (f : World → gmap object_key A) (n : NamespacedName) : io World A :=
  λ w, (match f w !! (nn_Namespace n, nn_Name n) with Some a => inr a | None => inl not_found end,
        w).

(** A lookup that checks what it has found. *)
Definition get_checked {A} (f : World → gmap object_key A) (P : A → Prop) `{∀ a, Decision (P a)}
    (n : NamespacedName) : io World A :=
  λ w, (match f w !! (nn_Namespace n, nn_Name n) with
        | Some a => if decide (P a) then inr a else inl not_found
        | None => inl not_found
        end, w).

Definition write_object (u : Unstructured) : io World Unstructured :=
  λ w, (inr u, with_objects (<[(u_Namespace u, u_Name u) := u]> (w_objects w)) w).

(** The status of the argument with the metadata that is stored. *)
Definition write_status (u : Unstructured) : io World Unstructured := λ w,
  match w_objects w !! (u_Namespace u, u_Name u) with
  | None => (inl not_found, w)
  | Some o => write_object (mkUnstructured (u_Kind u) (u_Name u) (u_Namespace u)
      (u_Annotations o) (u_Finalizers o) (u_DeletionTimestamp o) (u_Body u)) w
  end.

Fixpoint is_not_found (e : GoError) : bool :=
  match e with
  | StatusError r => bool_decide (r = "NotFound")
  | Wrapped _ e => is_not_found e
  | _ => false
  end.

Definition with_finalizers (l : list string) (u : Unstructured) : Unstructured :=
  mkUnstructured (u_Kind u) (u_Name u) (u_Namespace u) (u_Annotations u) l
    (u_DeletionTimestamp u) (u_Body u).

Definition item_condition (i : JItem) : option Condition :=
  match i with ItemMap c => Some c | ItemOther => None end.

#[global] Instance ref_kubernetes : Kubernetes World := {
  Get_AzureCluster _ := get_from w_azureclusters;
  Get_AzureClusterIdentity _ := get_from w_identities;
  Get_Secret _ := get_from w_secrets;
  Get_Cluster _ := get_from w_clusters;
  List_Services _ ns _ := λ w, (inr (default [] (w_services w !! ns)), w);
  Update _ := write_object;
  StatusUpdate _ := write_status;
  GetClusterByName _ n :=
    get_checked w_clusters (λ c, cluster_Name c = nn_Name n ∧ cluster_Name_addr c ≠ 1) n;
  GetObjectFromContractVersionedRef _ c :=
    get_checked w_objects
      (λ u, u_Namespace u = cluster_Namespace c ∧ u_Name u = InfrastructureRef_Name c)
      {| nn_Namespace := cluster_Namespace c; nn_Name := InfrastructureRef_Name c |};
  apierrors_IsNotFound := is_not_found;
  FromUnstructured_AzureCluster u := inr (u_Body u);
  FromUnstructured_Condition := inr;
  ToUnstructured_Condition := inr;
  NestedSlice_conditions b := inr (Some (map ItemMap (ac_Conditions b)));
  SetNestedSlice_conditions b items :=
    if forallb (λ i, bool_decide (is_Some (item_condition i))) items then
      inr {| ac_Name := ac_Name b; ac_Namespace := ac_Namespace b; ac_Spec := ac_Spec b;
             ac_Conditions := omap item_condition items |}
    else inl (NewError "not a map");
  ContainsFinalizer u f := bool_decide (f ∈ u_Finalizers u);
  AddFinalizer u f :=
    if bool_decide (f ∈ u_Finalizers u) then u else with_finalizers (u_Finalizers u ++ [f]) u;
  RemoveFinalizer u f := with_finalizers (filter (λ g, g ≠ f) (u_Finalizers u)) u;
  annotations_IsPaused _ u :=
    bool_decide (is_Some (map_get_ok (u_Annotations u) "cluster.x-k8s.io/paused"));
  Now _ := 0;
  micrologger_New w := (inr tt, w);
  RestConfig := unit;
  k8srestconfig_New _ w := (inr tt, w);
  k8sclient_NewClients _ w := (inr tt, w);
}.

#[global] Instance ref_capz : Capz World := {
  capz_ClusterScope := Cluster * AzureCluster;
  capz_NewClusterScope _ cl ac w := (inr (cl, ac), w);
  capz_ClientID _ := "client";
  capz_SubscriptionID c := spec_SubscriptionID (ac_Spec c.2);
  capz_TenantID _ := "tenant";
  capz_ClusterName c := cluster_Name c.1;
  capz_PatchObject _ w := (inr tt, w);
  capz_IsAPIServerPrivate c := IsPrivate (ParseIP (ControlPlaneEndpoint_Host c.1));
  capz_APIServerPrivateIP c := ControlPlaneEndpoint_Host c.1;
  capz_APIServerPublicIP c :=
    Some {| pip_Name := ControlPlaneEndpoint_Host c.1; pip_DNSName := "" |};
  capz_Close _ w := (inr tt, w);
  capz_publicips := unit;
  capz_publicips_New _ := inr tt;
  capz_publicips_Get _ q w := (inr (ArmNetwork {| pip_Properties := Some (Some (q_Name q)) |}), w);
}.

(** * Azure *)

#[global] Instance ref_view : AzureView World := {
  az_zones := w_zones; az_groups := w_groups; az_private := w_private; az_links := w_links;
  shows_zone _ := True; shows_record _ _ _ := True; shows_group _ := True;
  decoded_addr a := a = 1;
}.

#[global] Instance ref_full_view : FullView World.
Proof. done. Qed.

#[global] Instance record_wf_dec k p : Decision (record_wf k p).
Proof. unfold record_wf. apply _. Defined.

#[global] Instance zone_wf_dec zd : Decision (zone_wf zd).
Proof. change (Decision (map_Forall record_wf (zd_records zd))). apply _. Defined.

#[global] Instance group_wf_dec g : Decision (group_wf g).
Proof. unfold group_wf. apply _. Defined.

Definition conflict : GoError := ResponseError "Conflict".

Definition fresh_zone : ZoneData :=
  mkZone [Some "ns1.azure-dns.com"; Some "ns2.azure-dns.net"]
    {[(RecordTypeNS, "@") :=
        mkProperties (Some 172800) [] None [mkNsRecord (Some "ns1.azure-dns.com")] None]}.

Definition show_zone (z : string) (zd : ZoneData) : Zone :=
  {| zone_Name := Some z; zone_LocationField := Some "global";
     zone_Properties := Some {| NumberOfRecordSets := Some (Z.of_nat (size (zd_records zd)));
                                NameServers := zd_nameservers zd |} |}.

Definition show_record (kp : (RecordType * string) * RecordSetProperties) : RecordSet :=
  mkRecordSet (Some (mkptr 1 kp.1.2)) (Some (RecordType_string kp.1.1))
    (Some (mkProperties (TTL kp.2) (ARecords kp.2) (rsp_CnameRecord kp.2) (NsRecords kp.2)
             (Some "Succeeded"))).

Definition list_zone (zones : World → gmap zone_key ZoneData) (k : zone_key)
    (keep : RecordType → bool) (w : World) : GoError + list RecordSet :=
  match zones w !! k with
  | None => inl (ResponseError ParentResourceNotFoundErrorCode)
  | Some zd =>
      if bool_decide (zone_wf zd)
      then inr (map show_record (filter (λ kp, keep kp.1.1) (map_to_list (zd_records zd))))
      else inl conflict
  end.

Definition ref_put (k : zone_key) (t : RecordType) (n : string) (rs : RecordSet)
    (zones : gmap zone_key ZoneData) : option (gmap zone_key ZoneData) :=
  zd ← zones !! k;
  p ← rs_Properties rs;
  Some (<[k := put_record t n p zd]> zones).

(** A request that succeeds with the new map or fails with [e]. *)
Definition change {A B} (set : A → World → World) (r : option A) (e : GoError) (b : B)
    : io World B := λ w,
  match r with Some a => (inr b, set a w) | None => (inl e, w) end.

Definition drop_group (k : group_key) (w : World) : World :=
  with_zones (filter (λ kz, kz.1.1 ≠ k) (w_zones w))
    (with_groups (delete k (w_groups w)) w).

Definition link_complete (l : VirtualNetworkLink) : bool :=
  match link_Name l, link_ID l, link_Properties l with
  | Some _, Some _, Some p => match VirtualNetwork p with Some (Some _) => true | _ => false end
  | _, _, _ => false
  end.

(** A pager gives its one page on the first call. *)
Record RefPager (T : Type) := { page : option (World → GoError + list T) }.
Arguments page {T}.
Arguments Build_RefPager {T}.

#[global] Instance ref_sdk : AzureSDK World := {
  TokenCredential := unit;
  NewManagedIdentityCredential _ w := (inr tt, w);
  NewClientSecretCredential _ _ _ w := (inr tt, w);
  NewWorkloadIdentityCredential _ _ w := (inr tt, w);
  (** a client is its subscription *)
  ZonesClient := string; RecordSetsClient := string; ResourceGroupsClient := string;
  NewZonesClient sub _ w := (inr sub, w);
  NewRecordSetsClient sub _ w := (inr sub, w);
  NewResourceGroupsClient sub _ w := (inr sub, w);
  (** what polling to the end does *)
  Poller := World → World;
  PollUntilDone p w := (inr tt, p w);
  Pager := RefPager;
  pager_More _ p := match page p with Some _ => true | None => false end;
  pager_NextPage _ p w :=
    (match page p with Some f => f w | None => inr [] end, Build_RefPager None, w);
  zones_Get sub rg z w :=
    (match w_zones w !! (sub, rg, z) with
     | Some zd => inr (show_zone z zd) | None => inl (ResponseError "NotFound") end, w);
  zones_CreateOrUpdate sub rg z zn w :=
    match w_zones w !! (sub, rg, z) with
    | Some zd => (inr (show_zone z zd), w)
    | None => (inr zn, with_zones (<[(sub, rg, z) := fresh_zone]> (w_zones w)) w)
    end;
  zones_BeginDelete sub rg z w :=
    (inr (λ w, with_zones (delete (sub, rg, z) (w_zones w)) w), w);
  recordSets_NewListByDNSZonePager sub rg z :=
    Build_RefPager (Some (list_zone w_zones (sub, rg, z) (λ _, true)));
  recordSets_CreateOrUpdate sub rg z n t rs w :=
    change with_zones (ref_put (sub, rg, z) t n rs (w_zones w)) conflict rs w;
  recordSets_Delete sub rg z n t w :=
    (inr tt, with_zones (alter (λ zd, mkZone (zd_nameservers zd) (delete (t, n) (zd_records zd)))
                           (sub, rg, z) (w_zones w)) w);
  resourceGroups_Get sub rg w :=
    (match w_groups w !! (sub, rg) with
     | None => inl (ResponseError resourceGroupNotFoundErrorMessage)
     | Some g => if bool_decide (group_wf g) then inr g else inl conflict
     end, w);
  resourceGroups_CreateOrUpdate sub rg g w :=
    (inr g, with_groups (<[(sub, rg) :=
       {| rg_Name := rg_Name g; rg_Location := rg_Location g; rg_Tags := rg_Tags g;
          rg_Properties := Some {| rgp_ProvisioningState := Some "Succeeded" |} |}]>
       (w_groups w)) w);
  resourceGroups_BeginDelete sub rg w :=
    match w_groups w !! (sub, rg) with
    | None => if bool_decide (filter (λ kz, kz.1.1 = (sub, rg)) (w_zones w) = ∅)
              then (inl (ResponseError resourceGroupNotFoundErrorMessage), w)
              else (inl conflict, w)
    | Some _ => (inr (drop_group (sub, rg)), w)
    end;
  PrivateZonesClient := string; PrivateRecordSetsClient := string;
  VirtualNetworkLinksClient := string;
  NewPrivateZonesClient sub _ w := (inr sub, w);
  NewPrivateRecordSetsClient sub _ w := (inr sub, w);
  NewVirtualNetworkLinksClient sub _ w := (inr sub, w);
  privateZones_Get sub rg z w :=
    (match w_private w !! (sub, rg, z) with
     | Some zd => inr (show_zone z zd) | None => inl (ResponseError "NotFound") end, w);
  privateZones_BeginCreateOrUpdate sub rg z _ w :=
    (inr (λ w, match w_private w !! (sub, rg, z) with
               | Some _ => w
               | None => with_private (<[(sub, rg, z) := mkZone [] ∅]> (w_private w)) w
               end), w);
  privateZones_BeginDelete sub rg z w :=
    (inr (λ w, with_private (delete (sub, rg, z) (w_private w)) w), w);
  privateRecordSets_NewListByTypePager sub rg z t :=
    Build_RefPager (Some (list_zone w_private (sub, rg, z) (λ t', bool_decide (t' = t))));
  privateRecordSets_NewListPager sub rg z :=
    Build_RefPager (Some (list_zone w_private (sub, rg, z) (λ _, true)));
  privateRecordSets_CreateOrUpdate sub rg z t n rs w :=
    change with_private (ref_put (sub, rg, z) t n rs (w_private w)) conflict rs w;
  virtualNetworkLinks_BeginCreateOrUpdate sub rg z n l w :=
    (inr (λ w, with_links (<[(sub, rg, z) := default [] (w_links w !! (sub, rg, z)) ++
       [{| link_Name := Some n; link_ID := Some ("/links/" +:+ n);
           link_Location := link_Location l; link_Properties := link_Properties l |}]]>
       (w_links w)) w), w);
  virtualNetworkLinks_BeginDelete sub rg z n w :=
    (inr (λ w, with_links (alter (filter (λ l, link_Name l ≠ Some n)) (sub, rg, z) (w_links w)) w),
     w);
  virtualNetworkLinks_NewListPager sub rg z :=
    Build_RefPager (Some (λ w,
      let l := default [] (w_links w !! (sub, rg, z)) in
      if forallb link_complete l then inr l else inl conflict));
}.

(** * The laws *)

#[global] Instance ref_keeps : KubeKeepsAzure (W := World).
Proof.
  split; try done. intros c u w. simpl. unfold write_status.
  by destruct (w_objects w !! _).
Qed.

Lemma listing_all zd l : zone_wf zd → l = map_to_list (zd_records zd) →
  listing zd (map show_record l).
Proof.
  intros Hwf ->. split; [done|]. eexists. split; [done|].
  apply Forall2_fmap_l, Forall_Forall2_diag, Forall_true. intros [[t n] p]. by eexists 1, _.
Qed.

(** The listing pager of a zone, before and after its page. *)
Definition ref_pages (k : zone_key) (acc : list RecordSet) (p : RefPager RecordSet) (w : World)
    : Prop :=
  (acc = [] ∧ page p = Some (list_zone w_zones k (λ _, true))) ∨
  (page p = None ∧ ∃ zd, w_zones w !! k = Some zd ∧ listing zd acc).

(** The page of a zone that can be listed. *)
Lemma list_zone_listing k w :
  match list_zone w_zones k (λ _, true) w with
  | inr l => ∃ zd, w_zones w !! k = Some zd ∧ listing zd l
  | inl e => IsParentResourceNotFound (Some e) = true → w_zones w !! k = None
  end.
Proof.
  unfold list_zone. destruct (w_zones w !! k) as [zd|]; [|done]. case_bool_decide; [|done].
  exists zd. split; [done|]. apply listing_all; [done|]. by apply filter_keeps.
Qed.

Lemma ref_pages_end k :
  pages_end 1 (Build_RefPager (Some (list_zone w_zones k (λ _, true)))).
Proof.
  simpl. intros w. split; [done|]. pose proof (list_zone_listing k w) as Hl.
  destruct (list_zone _ _ _ w); [done|]. split; [|done]. destruct Hl as (zd & _ & Hl).
  by apply listing_decoded in Hl.
Qed.

Lemma ref_pages_next k acc p w : ref_pages k acc p w → pager_More p = true →
  let '(r, p', w') := pager_NextPage p w in
  match r with
  | inr page => ref_pages k (acc ++ page) p' w'
  | inl e => IsParentResourceNotFound (Some e) = true → az_zones w !! k = None
  end.
Proof.
  intros [[-> Hp]|[Hp _]] Hmore; simpl in *; rewrite Hp in *; [|done].
  pose proof (list_zone_listing k w) as Hl. destruct (list_zone _ _ _ w); [done|]. by right.
Qed.

Lemma ref_pages_stable k acc p w w' :
  az_zones w' !! k = az_zones w !! k → ref_pages k acc p w → ref_pages k acc p w'.
Proof. intros Hk [Hp|[Hp Hl]]; [by left|right]. simpl in Hk. by rewrite Hk. Qed.

#[global] Instance ref_foreign_dec e : Decision (foreign e).
Proof.
  destruct (Cause e) as [v| | | |] eqn:He;
    [right; intros Hf; by apply (Hf v)|left; intros v; by rewrite He..].
Defined.

Lemma ref_foreign_response c : foreign (ResponseError c).
Proof. by intros v. Qed.

Lemma drop_group_deleted k w : group_deleted k w (drop_group k w).
Proof.
  split; [|split].
  - split_and!; simpl; [| |done|apply map_filter_subseteq].
    + intros k' Hne. by apply lookup_delete_ne.
    + intros zk Hne. destruct (w_zones w !! zk) as [zd|] eqn:Hz.
      * by apply map_lookup_filter_Some.
      * by apply map_lookup_filter_None_2; left.
  - simpl. apply lookup_delete_eq.
  - intros z. simpl. apply map_lookup_filter_None_2. right. intros zd _. simpl. tauto.
Qed.

Lemma filter_group_empty (k : group_key) (z : string) (m : gmap zone_key ZoneData) :
  filter (λ kz, kz.1.1 = k) m = ∅ → m !! (k, z) = None.
Proof.
  intros He. destruct (m !! (k, z)) as [zd|] eqn:Hz; [|done].
  assert (filter (λ kz, kz.1.1 = k) m !! (k, z) = Some zd) as Hf
    by by apply map_lookup_filter_Some.
  by rewrite He in Hf.
Qed.

#[local] Obligation Tactic := idtac.
#[global] Program Instance ref_sdk_spec : SDKSpec World := {
  zones_sub c := c; recordSets_sub c := c; resourceGroups_sub c := c;
  listing_pages := ref_pages;
  page_bound := 1;
  deletion p k := p = drop_group k;
  zone_deletion p k := p = λ w, with_zones (delete k (w_zones w)) w;
}.
Next Obligation.
  simpl. intros sub rg z w. simpl. split; [done|]. destruct (w_zones w !! _) as [zd|]; [|done].
  by exists zd.
Qed.
Next Obligation.
  simpl. intros sub rg z zn w _. simpl. destruct (w_zones w !! _) as [zd|] eqn:Hz.
  - split; [done|]. exists zd. simpl. by rewrite Hz, insert_id.
  - split; [done|]. exists fresh_zone. split; [done|]. simpl. rewrite Hz.
    split; [apply (bool_decide_unpack _); by vm_compute|].
    intros t n. rewrite lookup_singleton_is_Some. by intros [= _ <-].
Qed.
Next Obligation.
  simpl. intros sub rg z n t rs p w _ Hp. simpl. unfold change, ref_put. rewrite Hp.
  destruct (w_zones w !! _) as [zd|] eqn:Hz; simpl; [|by left].
  split; [done|]. by exists zd.
Qed.
Next Obligation. intros sub rg z n t w _. by split. Qed.
Next Obligation. intros sub rg z. apply ref_pages_end. Qed.
Next Obligation. intros sub rg z w _. by left. Qed.
Next Obligation.
  intros k acc p w [[_ Hp]|[_ Hz]] Hmore; simpl in *; [by rewrite Hp in Hmore|done].
Qed.
Next Obligation. apply ref_pages_next. Qed.
Next Obligation. apply ref_pages_stable. Qed.
Next Obligation.
  simpl. intros sub rg w. simpl. split; [done|]. destruct (w_groups w !! _) as [g|]; [|done].
  by case_bool_decide.
Qed.
Next Obligation. intros sub rg g w _. split; [done|]. by eexists. Qed.
Next Obligation.
  simpl. intros sub rg w _. simpl. destruct (w_groups w !! _) as [g|] eqn:Hg; [by split|].
  case_bool_decide as He; split; [done|split; [by intros ?|]|done|by split].
  intros _. split; [done|]. split; [done|]. intros z. by apply filter_group_empty.
Qed.
Next Obligation. intros p k w ->. apply drop_group_deleted. Qed.
Next Obligation. intros sub rg z w _. split; [by left|done]. Qed.
Next Obligation. intros p k w ->. by split. Qed.
