(* ===== verification/ReferencePrivate.v ===== *)
(** The rest of the laws in the in-memory environment: private zones and their
    links, the status subresource and the metadata of objects, the status
    conditions, capz, the constructors of the clients, the manager. *)
From S2P Require Import Prelude GoStd Errors Metrics Kube State Conditions Infra Azure Scope.
From S2P Require Import DnsClient PrivateClient AzureSpec DnsServiceFacts PrivateFacts.
From S2P Require Import Controller Footprint Finalizers Main InfraFacts InfraProps DnsClientFacts PrivateClientFacts EndToEnd Reference.
Open Scope Z_scope.

#[local] Obligation Tactic := idtac.
#[global] Program Instance ref_status : StatusSubresource World := {
  stored_finalizers w n := default [] (u_Finalizers <$> w_objects w !! (nn_Namespace n, nn_Name n));
}.
Next Obligation. intros c u w u' w' [= <- <-]. simpl. rewrite lookup_insert_eq. by split_and!. Qed.
Next Obligation.
  intros c u w u' w'. simpl. unfold write_status.
  destruct (w_objects w !! _) as [o|] eqn:Ho; [|by intros [=]].
  intros [= <- <-]. simpl. rewrite lookup_insert_eq. by split_and!.
Qed.

Lemma items_roundtrip items :
  forallb (λ i, bool_decide (is_Some (item_condition i))) items = true →
  map ItemMap (omap item_condition items) = items.
Proof.
  induction items as [|[m|] items IH]; simpl; [done| |done]. intros Hr. f_equal. by apply IH.
Qed.

#[global] Instance ref_condition_laws : ConditionLaws World.
Proof.
  split.
  - by intros c m [= ->].
  - intros b items b'. simpl. destruct (forallb (λ i, bool_decide (is_Some (item_condition i))) items) eqn:Hall; [|done].
    intros [= <-]. simpl. by rewrite items_roundtrip.
Qed.

#[global] Instance ref_meta : MetaConditions World := {
  MetaCondition := Condition;
  FromUnstructured_MetaCondition := inr;
  ToUnstructured_MetaCondition := inr;
  apimeta_SetStatusCondition w l c := (set_condition (Now w) l c, true);
}.

(** * Private zones *)

Definition private_client0 (sub : string) : PrivateClient World :=
  privateClient_Client 1
    {| privateZones := sub; privateRecordSets := sub; virtualNetworkLinkClient := sub |}.

Lemma link_complete_wf l : link_complete l = true → link_wf l.
Proof.
  unfold link_complete, link_wf. destruct (link_Name l), (link_ID l), (link_Properties l) as [p|];
    try done. destruct (VirtualNetwork p) as [[id|]|] eqn:Hv; try done. intros _.
  split_and!; [by eexists..|]. by exists p, id.
Qed.

Lemma listing_A_shown zd l : zone_wf zd →
  l = filter (λ kp, bool_decide (kp.1.1 = RecordTypeA)) (map_to_list (zd_records zd)) →
  listing_A zd (map show_record l).
Proof.
  intros Hwf ->. split; [done|].
  exists (filter (λ kp, bool_decide (kp.1.1 = RecordTypeA)) (map_to_list (zd_records zd))). split.
  - apply reflexive_eq, list_filter_iff. intros kp. apply bool_decide_spec.
  - apply Forall2_fmap_l, Forall_Forall2_diag, Forall_true. intros [[t n] p]. by eexists 1, _.
Qed.

Lemma listing_records_shown zd l : zone_wf zd → l = map_to_list (zd_records zd) →
  listing_records zd (map show_record l).
Proof.
  intros Hwf ->. split; [done|]. eexists. split; [done|].
  apply Forall2_fmap_l, Forall_Forall2_diag, Forall_true. intros [[t n] p]. by eexists 1, _.
Qed.

(** The case distinction on the zone the goal looks up. *)
Ltac case_zone zd Hz :=
  match goal with
  | |- context [w_private ?w !! ?k] => destruct (w_private w !! k) as [zd|] eqn:Hz
  end.

(** What the functions behind the pollers do to a world. *)
Lemma create_zone_effect k w :
  private_created k w (match w_private w !! k with
    | Some _ => w | None => with_private (<[k := mkZone [] ∅]> (w_private w)) w end).
Proof.
  unfold private_created. simpl. case_zone zd Hz.
  - split; [done|]. exists zd. by rewrite insert_id.
  - split; [done|]. by eexists.
Qed.

Lemma create_link_effect k n vnet l p w :
  link_Properties l = Some p → VirtualNetwork p = Some (Some vnet) →
  link_created k n vnet w (with_links (<[k := default [] (w_links w !! k) ++
    [{| link_Name := Some n; link_ID := Some ("/links/" +:+ n);
        link_Location := link_Location l; link_Properties := link_Properties l |}]]>
    (w_links w)) w).
Proof.
  intros Hl Hp. split.
  - split; [done|split; [done|]]. intros k' Hne. by apply lookup_insert_ne.
  - unfold links_of. simpl. rewrite lookup_insert_eq. simpl. split.
    { rewrite filter_app, (filter_cons _ _ []), decide_False by (simpl; tauto).
      by rewrite app_nil_r. }
    eexists _, p.
    split; [apply elem_of_app; right; by apply list_elem_of_singleton|done].
Qed.

Lemma delete_link_effect k n w :
  link_deleted k n w (with_links (alter (filter (λ l, link_Name l ≠ Some n)) k (w_links w)) w).
Proof.
  split.
  - split; [done|split; [done|]]. intros k' Hne. by apply lookup_alter_ne.
  - unfold links_of. simpl. rewrite lookup_alter_eq. by destruct (w_links w !! k).
Qed.

(** A pager with one page. *)
Lemma lists_one {T} (P : list T → World → Prop) (f : World → GoError + list T) w :
  match f w with inr l => P l w | inl _ => True end →
  lists same_view P 1 [] (Build_RefPager (Some f)) w.
Proof. simpl. by destruct (f w). Qed.

#[global] Program Instance ref_private_sdk : PrivateSDKSpec World := {
  privateZones_sub c := c; privateRecordSets_sub c := c; links_sub c := c;
  pending p op w0 w := w0 = w ∧ private_effect op w (p w);
  private_page_bound := 1;
}.
Next Obligation. by intros p op w0 w [-> Heff]. Qed.
Next Obligation. intros c rg z zn w. split; [done|]. apply create_zone_effect. Qed.
Next Obligation. by intros c rg z w. Qed.
Next Obligation. intros c rg z n l p vnet w Hl Hp. split; [done|]. by eapply create_link_effect. Qed.
Next Obligation. intros c rg z n w. split; [done|]. apply delete_link_effect. Qed.
Next Obligation.
  intros c rg z w. simpl. split; [done|]. case_zone zd Hz; [|done]. exists zd. by eexists.
Qed.
Next Obligation.
  intros c rg z t n rs p w Hp. simpl. unfold change, ref_put. rewrite Hp.
  case_zone zd Hz; simpl; [|by left]. split; [done|]. by exists zd.
Qed.
Next Obligation.
  intros c rg z w. apply lists_one. unfold list_zone. case_zone zd Hz; [|done].
  case_bool_decide; [|done]. exists zd. split; [done|]. by apply listing_A_shown.
Qed.
Next Obligation.
  intros c rg z w. apply lists_one. unfold list_zone. case_zone zd Hz; [|done].
  case_bool_decide; [|done]. exists zd. split; [done|]. apply listing_records_shown; [done|].
  by apply filter_keeps.
Qed.
Next Obligation.
  intros c rg z w. apply lists_one. simpl.
  match goal with |- context [forallb ?f ?l] => destruct (forallb f l) eqn:Hall end; [|done].
  split; [done|].
  apply Forall_forall. intros l Hl. apply link_complete_wf.
  rewrite forallb_forall in Hall. apply Hall. by apply list_elem_of_In.
Qed.

#[global] Instance private_client0_spec sub : PrivateClientSpec (private_client0 sub) sub.
Proof. by apply privateClient_meets_spec. Qed.

(** * The constructors *)

#[global] Instance ref_constructors : SDKConstructors World.
Proof. by split; simpl; try intros sub cred w c w' [= -> _]. Qed.

#[global] Program Instance ref_private_public : PrivateSDKPublic World := {
  private_poller p := ∀ w, same_public w (p w);
  private_pager _ _ := True;
}.
Next Obligation. intros p Hp w. apply Hp. Qed.
Next Obligation. intros T [[f|]] w _; [by destruct (f w)|done]. Qed.
Next Obligation. intros c rg z zn w. split; [done|]. intros w'. by case_zone zd Hz. Qed.
Next Obligation. by intros c rg z w. Qed.
Next Obligation. by intros c rg z n l w. Qed.
Next Obligation. by intros c rg z n w. Qed.
Next Obligation. by intros c rg z w. Qed.
Next Obligation.
  intros c rg z t n rs w. simpl. unfold change. by destruct (ref_put _ _ _ _ _).
Qed.
Solve All Obligations with done.

#[global] Instance ref_private_constructors : PrivateSDKConstructors World.
Proof. by split; simpl; try intros sub cred w c w' [= -> _]. Qed.

#[global] Instance ref_capz_spec : CapzSpec World.
Proof.
  split; try done.
  - by intros c cl ac w cs w' [= <- _].
  - by intros p q w r w' [= <- _]; eexists.
Qed.

(** * The lookups of the handler and the metadata of objects *)

#[global] Instance ref_cluster_lookup : ClusterLookup World.
Proof.
  split; intros c n w cl w'; simpl; unfold get_checked;
    (destruct (w_clusters w !! _) as [a|]; [|done]); (case_decide as Ha; [|done]);
    intros [= <- _]; apply Ha.
Qed.

#[global] Instance ref_metadata : MetadataKept World.
Proof.
  split; try done.
  - intros c cl w u w'. simpl. unfold get_checked.
    destruct (w_objects w !! _) as [a|] eqn:Ha; [|done]. case_decide as Hd; [|done].
    intros [= <- _]. simpl in *. destruct Hd as [-> ->]. by rewrite Ha.
  - by intros c u w u' w' [= <- _].
  - intros c rg z zn w o. simpl. by destruct (w_zones w !! _).
  - intros c rg z n t rs w o. simpl. unfold change. by destruct (ref_put _ _ _ _ _).
  - intros c rg w o. simpl. destruct (w_groups w !! _); [done|]. by case_bool_decide.
  - intros c rg w p w' w2 o. simpl. destruct (w_groups w !! _); [by intros [= <- _]|].
    by case_bool_decide.
Qed.

#[global] Instance ref_finalizer_functions : FinalizerFunctions World.
Proof.
  split; try done; intros u f; simpl.
  - intros Hf. by rewrite bool_decide_false.
  - by case_bool_decide.
  - by case_bool_decide.
Qed.

(** A manager that counts nothing and stops at once. *)
#[global] Instance ref_runtime : ControllerRuntime World := {
  Scheme := list (GroupVersion * list string); NewScheme := [];
  clientgoscheme_AddToScheme s := (None, s); capi_AddToScheme s := (None, s);
  infrav1_AddToScheme s := (None, s);
  AddKnownTypes gv l s := s ++ [(gv, l)]; AddToGroupVersion gv s := s ++ [(gv, [])];
  aadpodv1_GroupName := "aadpodidentity.k8s.io";
  aadpodv1_SchemeGroupVersion := ("aadpodidentity.k8s.io", "v1");
  RestConfig_ctrl := unit; GetConfigOrDie w := (tt, w); set_UserAgent _ c := c;
  Manager := unit; NewManager _ _ w := (inr tt, w); mgr_GetClient _ := tt;
  EventRecorder := unit; GetEventRecorderFor _ _ := tt; record_InitFromRecorder _ w := w;
  Complete_controller _ _ _ _ w := (inr tt, w); Manager_Start _ w := (inr tt, w);
}.
