(* ===== verification/Scenario.v ===== *)
(** A workload cluster in the in-memory environment: the inputs at which the
    theorems are instantiated. *)
From S2P Require Import Prelude GoStd Errors Metrics Kube State Infra Azure Scope DnsClient.
From S2P Require Import PrivateClient DnsRecords DnsService PrivateDns Controller AzureSpec.
From S2P Require Import InfraFacts DnsClientFacts DnsServiceFacts PrivateFacts InfraProps.
From S2P Require Import Reference ReferencePrivate.
Open Scope Z_scope.

Definition wc : Cluster := {|
  cluster_Name := "wc"; cluster_Name_addr := 7; cluster_Namespace := "org";
  cluster_Annotations := None; cluster_DeletionTimestamp := None;
  cluster_Phase := "Provisioned"; ControlPlaneEndpoint_Host := "20.1.2.3";
  InfrastructureRef_Name := "wc";
|}.

Definition mc : AzureCluster := {|
  ac_Name := "mc"; ac_Namespace := "org-mc";
  ac_Spec := {| spec_ResourceGroup := "mc-rg"; spec_SubscriptionID := "sub";
                spec_IdentityRef := Some {| ref_Name := "id"; ref_Namespace := "org-mc" |};
                spec_VnetID := "mc-vnet"; spec_Subnets := [] |};
  ac_Conditions := [];
|}.

Definition mc_identity : AzureClusterIdentity := {|
  identity_Type := ManualServicePrincipal; identity_ClientID := "client";
  identity_TenantID := "tenant";
  identity_ClientSecret := {| ref_Name := "id-secret"; ref_Namespace := "org-mc" |};
|}.

Definition infra (kind : string) : Unstructured := mkUnstructured kind "wc" "org"
  (Some {["azure-resourcegroup-tag.owner" := "team"]}) [] None mc.

Definition lb (hostname ip : string) : Service_obj := {|
  svc_Annotations := Some {[externalDNSManagedAnnotation := externalDNSManagedValue;
                            externalDNSHostnameAnnotation := hostname]};
  svc_Type := ServiceTypeLoadBalancer;
  svc_IngressIPs := [ip];
|}.

Definition world0 : World := mkWorld
  {[("base-sub", "base-rg", "example.com") := fresh_zone]}
  {[("sub", "mc-rg") := {| rg_Name := Some "mc-rg"; rg_Location := Some "westeurope";
                           rg_Tags := None;
                           rg_Properties := Some {| rgp_ProvisioningState := None |} |}]}
  ∅ ∅
  {[("org-mc", "mc") := mc]}
  {[("org-mc", "id") := mc_identity]}
  {[("org", "wc-kubeconfig") := {| secret_Data := {["value" := "kubeconfig"]} |};
    ("org-mc", "id-secret") := {| secret_Data := {[clientSecretKeyName := "s3cret"]} |}]}
  {[("org", "wc") := wc]}
  {[("org", "wc") := infra "VSphereCluster"]}
  {[ingressAppNamespace := [lb "ingress.wc.example.com" "20.1.2.4"];
    gatewayNamespace := [lb "gateway.wc.example.com" "20.1.2.5"]]}.

Definition state0 (kind : string) : St World :=
  mkSt world0 initialMetrics (mkCache None None None) (infra kind).

Definition patcher0 : CommonPatcher := NewCommonPatcher "client" "sub" "tenant" wc tt.

Definition scope0 : Scope World := {|
  s_Client := tt; s_Cluster := wc;
  s_Patcher := CommonPatcher_Patcher patcher0;
  s_publicIPService := NewPublicIPService wc;
  s_managementClusterConfig := {| mc_Name := "mc"; mc_Namespace := "org-mc" |};
  s_clusterIdentityRef := None; s_AzureLocation := "";
|}.

Definition identity0 : Identity :=
  {| clusterIdentity := mc_identity; identity_secret := zero_Secret |}.

Definition dns_scope0 : DNSScope World := {|
  ds_Scope := scope0;
  baseDomain := "example.com"; baseDomainResourceGroup := "base-rg";
  baseZoneCredentials := {| bz_ClientID := "c"; bz_ClientSecret := "s";
                            bz_SubscriptionID := "base-sub"; bz_TenantID := "t" |};
  ds_identity := identity0;
  ds_managementClusterIdentity := identity0;
  ds_managementClusterSpec := ac_Spec mc;
  resourceTags := GetResourceTagsFromInfraClusterAnnotations (u_Annotations (infra ""));
|}.

Definition client0 (sub : string) : client World :=
  azureClient_client 1 {| zones := sub; recordSets := sub; resourceGroups := sub |}.

Definition service0 : DnsRecords.Service World := {|
  DnsRecords.scope := dns_scope0;
  svc_azureClient := client0 "sub";
  svc_azureBaseZoneClient := client0 "base-sub";
  publicIPsService := NewPublicIPService wc;
|}.

#[global] Instance client0_spec sub : ClientSpec (client0 sub) sub.
Proof. by apply azureClient_meets_spec. Qed.

#[global] Instance service0_patcher :
  PatcherSpec (svc_Patcher service0) (publicIPsService service0).
Proof. apply (CommonPatcher_spec patcher0 wc). Qed.

(** ** The private service and the controller *)

Definition private_scope0 : PrivateDNSScope := {|
  ps_baseDomain := "example.com"; ps_clusterName := "wc";
  ps_apiServerIP := "10.0.0.4"; ps_mcIngressIP := ""; ps_wildcardCNAMETarget := "";
  ps_virtualNetworkID := "mc-vnet"; ps_managementClusterIdentity := identity0;
  ps_managementClusterSpec := ac_Spec mc;
|}.

Definition private_service0 : PrivateDns.Service World := {|
  PrivateDns.scope := private_scope0; privateDNSClient := private_client0 "sub";
|}.

(** The same service with a client whose reads of the zone are throttled. *)
Definition throttled_client (c : PrivateClient World) : PrivateClient World := {|
  pc_CreateOrUpdatePrivateZone := pc_CreateOrUpdatePrivateZone c;
  pc_GetPrivateZone _ _ := throw (ResponseError "TooManyRequests");
  pc_DeletePrivateZone := pc_DeletePrivateZone c;
  pc_ListPrivateRecordSets := pc_ListPrivateRecordSets c;
  pc_CreateOrUpdateVirtualNetworkLink := pc_CreateOrUpdateVirtualNetworkLink c;
  pc_ListVirtualNetworkLink := pc_ListVirtualNetworkLink c;
  pc_DeleteVirtualNetworkLink := pc_DeleteVirtualNetworkLink c;
  pc_ListRecordSets := pc_ListRecordSets c;
  pc_CreateOrUpdateRecordSet := pc_CreateOrUpdateRecordSet c;
|}.

Definition throttled_service : PrivateDns.Service World := {|
  PrivateDns.scope := private_scope0; privateDNSClient := throttled_client (private_client0 "sub");
|}.

Definition reconciler0 : ClusterReconciler (W := World) := {|
  r_Client := tt;
  BaseDomain := "example.com"; BaseDomainResourceGroup := "base-rg";
  BaseZoneClientID := "c"; BaseZoneClientSecret := "s";
  BaseZoneSubscriptionID := "base-sub"; BaseZoneTenantID := "t";
  r_ManagementClusterConfig := {| mc_Name := "mc"; mc_Namespace := "org-mc" |};
  InfraClusterZoneAzureConfig :=
    {| zone_SubscriptionID := ""; zone_ClientID := ""; zone_TenantID := "";
       zone_ClientSecret := ""; zone_Location := "" |};
  ClusterAzureIdentityRef := None;
|}.

Definition params0 : ScopeParams := {|
  p_Client := tt; p_Cluster := wc;
  p_ManagementClusterConfig := r_ManagementClusterConfig reconciler0;
  p_ClusterIdentityRef := None;
  p_ClusterZoneAzureConfig := InfraClusterZoneAzureConfig reconciler0;
|}.

(** What a run that returns a value returns. *)
Definition value_of {A} (d : A) (m : G World A) (s : St World) : A :=
  match (m s).1 with Ok a => a | _ => d end.
Definition state_of {A} (m : G World A) (s : St World) : St World := (m s).2.

Lemma run_value {A} (d : A) (m : G World A) s :
  is_Ok (m s).1 = true → m s = (Ok (value_of d m s), state_of m s).
Proof. unfold value_of, state_of. by destruct (m s) as [[]?]. Qed.

Lemma wp_value {A} (d : A) (m : G World A) (Q : outcome GoError A → St World → Prop) s :
  wp m Q s → is_Ok (m s).1 = true → Q (Ok (value_of d m s)) (state_of m s).
Proof. unfold wp, value_of, state_of. by destruct (m s) as [[]?]. Qed.

(** ** The operator's code runs here *)

Example service0_reconciles :
  is_Ok (DnsService.Reconcile service0 (state0 "VSphereCluster")).1 = true.
Proof. vm_compute. reflexivity. Qed.

Example private_service0_reconciles :
  is_Ok (PrivateDns.Reconcile private_service0 (state0 "AzureCluster")).1 = true.
Proof. vm_compute. reflexivity. Qed.

Example controller_reconciles :
  (Controller.Reconcile 1 reconciler0 {| nn_Name := "wc"; nn_Namespace := "org" |}
     (state0 "")).1 = Ok {| RequeueAfter := 300 |}.
Proof. vm_compute. reflexivity. Qed.
