(* ===== verification/Witnesses.v ===== *)
(** The theorems at concrete inputs: each is applied in the in-memory
    environment, where its hypotheses hold and the code runs. *)
From S2P Require Import Prelude GoStd Errors Metrics Kube State Conditions Infra Azure Scope.
From S2P Require Import DnsClient PrivateClient DnsRecords DnsService PrivateDns Controller.
From S2P Require Import Main AzureSpec InfraFacts TagFacts DnsClientFacts DnsRecordsFacts.
From S2P Require Import DnsServiceFacts PrivateFacts ControllerFacts DnsReconcile ClientProps.
From S2P Require Import PrivateReconcile InfraProps ScopeProps ControllerProps EndToEnd.
From S2P Require Import Services Footprint Termination Operator Finalizers Idempotence.
From S2P Require Import PrivateClientFacts Reference ReferencePrivate Scenario.
Open Scope Z_scope.

Definition vs : St World := state0 "VSphereCluster".

(** * The public DNS service *)

Lemma Reconcile_converges_witness :
  is_Ok (DnsService.Reconcile service0 vs).1 = true ∧
  runs (frame service0 "sub" "base-sub") (DnsService.Reconcile service0) vs
    (λ _ s', converged service0 "sub" "base-sub" vs s').
Proof.
  split; [by vm_compute|].
  apply (Reconcile_converges service0 "sub" "base-sub"); [|done].
  apply GetResourceTags_set.
Defined.

Lemma ReconcileDelete_removes_witness :
  is_Ok (DnsService.ReconcileDelete service0 vs).1 = true ∧
  wp (DnsService.ReconcileDelete service0) (λ r s',
    match r with
    | Ok _ => ∃ w1,
        record_deleted (base_zone service0 "base-sub") RecordTypeNS "wc" world0 w1 ∧
        group_deleted (cluster_group service0 "sub") w1 (world s')
    | Err _ => True
    | _ => False
    end) vs.
Proof.
  split; [by vm_compute|].
  eapply wp_mono; [apply (ReconcileDelete_removes service0 "sub" "base-sub")|].
  intros [] s'; [|done|done|done]. intros (w1 & Hw & Hr). by exists w1.
Defined.

Lemma createClusterResourceGroup_tagged_witness :
  is_Ok (createClusterResourceGroup service0 vs).1 = true ∧
  runs (frame service0 "sub" "base-sub") (createClusterResourceGroup service0) vs
    (λ _ s', tagged service0 "sub" s').
Proof.
  split; [by vm_compute|].
  apply (createClusterResourceGroup_tagged service0 "sub" "base-sub"), GetResourceTags_set.
Defined.

Lemma find_clusterNSRecord_never_witness :
  find_clusterNSRecord service0 (map show_record (map_to_list (zd_records fresh_zone))) vs
  = (Ok false, vs).
Proof.
  apply (find_clusterNSRecord_never service0); [|done].
  apply (listing_decoded fresh_zone), listing_all; [|done]. by apply (bool_decide_unpack _); vm_compute.
Defined.

(** The desired records of the scenario, read once. *)
Definition desired0 : list RecordSet := value_of [] (getDesiredARecords service0) vs.

Lemma desired0_run : getDesiredARecords service0 vs
  = (Ok desired0, state_of (getDesiredARecords service0) vs).
Proof. by apply run_value; vm_compute. Qed.

Lemma calculateMissingARecords_exact_witness :
  ∃ cur', map strip cur' = map strip [a_recordset "api" 300 ["1.2.3.4"]] ∧
  ∃ mt, DnsRecords.calculateMissingARecords service0 [a_recordset "api" 300 ["1.2.3.4"]] vs
    = (Ok (filter (λ d, outdated_A [a_recordset "api" 300 ["1.2.3.4"]] d) desired0, cur'),
       set_metrics mt (state_of (getDesiredARecords service0) vs)).
Proof.
  apply (calculateMissingARecords_exact service0); [apply desired0_run|].
  apply Forall_singleton, a_recordset_readable.
Defined.

Lemma gateway_record_name_witness :
  let items := [lb "gateway.wc.example.com" "20.1.2.5"; lb "www.other.org" "20.1.2.6"] in
  (∃ name, a_recordset name 300 ["20.1.2.5"] ∈ gateway_loop "wc.example.com" items [] ∧
     "gateway.wc.example.com" = name +:+ ".wc.example.com") ∧
  (∃ name, a_recordset name 300 ["20.1.2.6"] ∈ gateway_loop "wc.example.com" items [] ∧
     name = "www.other.org").
Proof.
  intros items. split.
  - apply (gateway_record_name "wc.example.com" items (lb "gateway.wc.example.com" "20.1.2.5")
             "gateway.wc.example.com"); [by left|done|done].
  - apply (gateway_record_name "wc.example.com" items (lb "www.other.org" "20.1.2.6")
             "www.other.org"); [by right; left|done|done].
Defined.

(** Two gateways that share a host name. *)
Definition twins : St World :=
  set_world (mkWorld (w_zones world0) (w_groups world0) (w_private world0) (w_links world0)
    (w_azureclusters world0) (w_identities world0) (w_secrets world0) (w_clusters world0)
    (w_objects world0)
    {[ingressAppNamespace := [lb "ingress.wc.example.com" "20.1.2.4"];
      gatewayNamespace := [lb "www.wc.example.com" "20.1.2.5"; lb "www.wc.example.com" "20.1.2.6"]]})
    vs.

Lemma duplicate_names_never_settle_witness :
  ∃ missing cur' s', DnsRecords.calculateMissingARecords service0
      [a_recordset "www" 300 ["20.1.2.5"]] twins = (Ok (missing, cur'), s') ∧
    (a_recordset "www" 300 ["20.1.2.5"] ∈ missing ∨ a_recordset "www" 300 ["20.1.2.6"] ∈ missing).
Proof.
  apply (duplicate_names_never_settle service0 _ _ _ _ "www" "20.1.2.5" "20.1.2.6" 300
           (run_value [] (getDesiredARecords service0) twins ltac:(by vm_compute))).
  - apply Forall_singleton, a_recordset_readable.
  - done.
  - apply list_elem_of_In. vm_compute. tauto.
  - apply list_elem_of_In. vm_compute. tauto.
Defined.

Lemma updateARecords_settled_witness : ∃ cur' mt,
  DnsRecords.updateARecords service0 desired0 vs
  = (Ok cur', set_metrics mt (state_of (getDesiredARecords service0) vs)).
Proof.
  apply (updateARecords_settled service0 desired0 desired0); [apply desired0_run| |].
  - eapply Forall_impl; [exact (getDesiredARecords_desired service0 vs _ _ desired0_run)|].
    apply desired_A_readable.
  - apply (bool_decide_unpack _). by vm_compute.
Defined.

(** * The client *)

Definition azure_client0 : azureClient :=
  {| zones := "sub"; recordSets := "sub"; resourceGroups := "sub" |}.

Lemma azureClient_implements_client_witness : ClientSpec (azureClient_client 1 azure_client0) "sub".
Proof. apply (azureClient_implements_client azure_client0 "sub" 1); [done|simpl; lia]. Defined.

Lemma ListRecordSets_terminates_witness :
  returned (azureClient_ListRecordSets 5 azure_client0 "rg" "zone" vs).1 ∧
  azureClient_ListRecordSets 5 azure_client0 "rg" "zone" vs
  = azureClient_ListRecordSets 1 azure_client0 "rg" "zone" vs.
Proof.
  apply (ListRecordSets_terminates azure_client0 "rg" "zone" 1 5); [|lia].
  right. intros w page p' w' [= _ <- _]. by left.
Defined.


Lemma requests_counted_witness :
  counted_once "zones.Get" (azureClient_GetZone azure_client0 "rg" "zone").
Proof.
  exact (proj1 (requests_counted azure_client0 "rg" "zone" "n" RecordTypeA
                  (a_recordset "n" 300 []) zero_Zone)).
Defined.

Lemma resource_group_errors_elsewhere_witness :
  let g := {| rg_Name := None; rg_Location := None; rg_Tags := None; rg_Properties := None |} in
  let '(r, s') := azureClient_CreateOrUpdateResourceGroup azure_client0 "rg" g vs in
  requests s' "resourceGroups.createOrUpdate" = S (requests vs "resourceGroups.createOrUpdate").
Proof.
  intros g. pose proof (resource_group_errors_elsewhere azure_client0 "rg" g vs) as Hres.
  destruct (azureClient_CreateOrUpdateResourceGroup _ _ _ _). apply Hres.
Defined.

(** * The private DNS service *)

Definition az : St World := state0 "AzureCluster".

Lemma private_Reconcile_converges_witness :
  is_Ok (PrivateDns.Reconcile private_service0 az).1 = true ∧
  private_converged private_service0 "sub" az (state_of (PrivateDns.Reconcile private_service0) az).
Proof.
  assert (is_Ok (PrivateDns.Reconcile private_service0 az).1 = true) as Hok by by vm_compute.
  split; [exact Hok|].
  destruct (wp_value tt _ _ _ (private_Reconcile_converges private_service0 "sub" az) Hok)
    as [_ Hconv]. exact Hconv.
Defined.

Lemma private_ReconcileDelete_removes_witness :
  is_Ok (PrivateDns.ReconcileDelete private_service0 az).1 = true ∧
  wp (PrivateDns.ReconcileDelete private_service0) (λ r s',
    match r with
    | Ok _ => ∃ w1, link_deleted (private_zone private_service0 "sub") "mc-rg-vnet-link" world0 w1 ∧
        private_deleted (private_zone private_service0 "sub") w1 (world s')
    | Err _ => True
    | _ => False
    end) az.
Proof.
  split; [by vm_compute|].
  eapply wp_mono; [apply (private_ReconcileDelete_removes private_service0 "sub")|].
  intros [] s'; [|done|done|done]. intros (w1 & Hw & Hr). by exists w1.
Defined.

(** The reconciliation of the throttled service up to the read that fails. *)
Definition throttled1 : St World :=
  set_metrics (ZoneInfo_Set ["wc.example.com"; ZoneTypePrivate; "mc-rg"; "tenant"; "sub"] 1
                 (metrics az)) az.
Definition throttled2 : St World :=
  state_of (PrivateDns.list_or_create_zone throttled_service) throttled1.
Definition throttled3 : St World := state_of (ensure_link throttled_service) throttled2.

Lemma private_Reconcile_panics_witness :
  PrivateDns.Reconcile throttled_service az = (Panic, throttled3).
Proof.
  apply (private_Reconcile_panics throttled_service az throttled2 throttled3 throttled3 []
           (ResponseError "TooManyRequests")).
  - exact (run_value [] (PrivateDns.list_or_create_zone throttled_service) throttled1
             ltac:(by vm_compute)).
  - assert (value_of tt (ensure_link throttled_service) throttled2 = tt) as <- by by vm_compute.
    exact (run_value tt (ensure_link throttled_service) throttled2 ltac:(by vm_compute)).
  - done.
Defined.

Lemma private_wildcard_always_written_witness :
  PrivateDns.calculateMissingCnameRecords private_service0 [a_recordset "apiserver" 300 ["10.0.0.4"]]
    az
  = (Ok (PrivateDns.desiredCnameRecords "ingress.wc.example.com"), az).
Proof.
  apply (private_wildcard_always_written private_service0).
  - apply Forall_singleton, a_recordset_readable.
  - by apply Forall_singleton.
Defined.

Lemma private_calculateMissingARecords_exact_witness :
  getDesiredPrivateARecords private_service0 az
    = (Ok [a_recordset "apiserver" 300 ["10.0.0.4"]], az) ∧
  ∃ mt, PrivateDns.calculateMissingARecords private_service0 [] az
    = (Ok [a_recordset "apiserver" 300 ["10.0.0.4"]], set_metrics mt az).
Proof. by apply (private_calculateMissingARecords_exact private_service0 []). Defined.

(** * pkg/infracluster *)

Lemma CommonPatcher_endpoint_v4_witness :
  IsAPIServerPrivate (svc_Patcher service0) = false ∧
  getIPAddressForPublicDNS service0 vs = (Ok "20.1.2.3", vs).
Proof.
  assert (byte 20 ∧ byte 1 ∧ byte 2 ∧ byte 3) as (B1 & B2 & B3 & B4) by (unfold byte; lia).
  destruct (CommonPatcher_endpoint_v4 service0 "client" "sub" "tenant" wc tt 20 1 2 3 vs
              B1 B2 B3 B4) as (Hpriv & _ & _ & Hget); [by vm_compute|done|].
  split; [exact Hpriv|]. by apply Hget.
Defined.

(** The same service behind a load balancer with a host name. *)
Definition named_cluster : Cluster := {|
  cluster_Name := "wc"; cluster_Name_addr := 7; cluster_Namespace := "org";
  cluster_Annotations := None; cluster_DeletionTimestamp := None;
  cluster_Phase := "Provisioned"; ControlPlaneEndpoint_Host := "api.example.com";
  InfrastructureRef_Name := "wc";
|}.

Definition named_service : DnsRecords.Service World := {|
  DnsRecords.scope := {|
    ds_Scope := {| s_Client := tt; s_Cluster := named_cluster;
      s_Patcher := CommonPatcher_Patcher (NewCommonPatcher "client" "sub" "tenant" named_cluster tt);
      s_publicIPService := NewPublicIPService named_cluster;
      s_managementClusterConfig := {| mc_Name := "mc"; mc_Namespace := "org-mc" |};
      s_clusterIdentityRef := None; s_AzureLocation := "" |};
    baseDomain := "example.com"; baseDomainResourceGroup := "base-rg";
    baseZoneCredentials := zero_BaseZoneCredentials; ds_identity := identity0;
    ds_managementClusterIdentity := identity0; ds_managementClusterSpec := ac_Spec mc;
    resourceTags := None |};
  svc_azureClient := client0 "sub"; svc_azureBaseZoneClient := client0 "base-sub";
  publicIPsService := NewPublicIPService named_cluster;
|}.

Lemma CommonPatcher_endpoint_hostname_witness :
  (getIPAddressForPublicDNS named_service vs).1
  = Err (Mask (NewError "cluster wc does not have valid control plane IP address")).
Proof.
  destruct (CommonPatcher_endpoint_hostname named_service "client" "sub" "tenant" named_cluster tt vs)
    as [_ Hget]; [by vm_compute|done|done|]. by rewrite Hget.
Defined.

(** A finalizer added in memory only. *)
Definition finalized (kind : string) : St World :=
  set_infraCluster (AddFinalizer (infra kind) AzureClusterControllerFinalizer) (state0 kind).

Lemma PatchObject_finalizers_witness :
  stored_here (state_of (cp_PatchObject patcher0) (finalized kindAzureASOManagedCluster))
    = [AzureClusterControllerFinalizer] ∧
  stored_here (state_of (cp_PatchObject patcher0) (finalized "VSphereCluster")) = [].
Proof.
  assert (∀ kind, is_Ok (cp_PatchObject patcher0 (finalized kind)).1 = true →
    stored_finalizers (world (state_of (cp_PatchObject patcher0) (finalized kind)))
      (object_name (infraCluster (finalized kind)))
    = if isASOManagedCluster (infraCluster (finalized kind))
      then u_Finalizers (infraCluster (finalized kind)) else stored_here (finalized kind)) as Hpatch.
  { intros kind Hok. apply (PatchObject_finalizers patcher0).
    rewrite (run_value tt _ _ Hok). by destruct (value_of _ _ _). }
  split.
  - apply (Hpatch kindAzureASOManagedCluster). by vm_compute.
  - apply (Hpatch "VSphereCluster"). by vm_compute.
Defined.

(** Nothing is configured: all comes from the management cluster. *)
Lemma NewScope_credentials_witness :
  let sc := value_of scope0 (NewScope params0) vs in
  ∃ w1 ac idt, from_management params0 ac idt w1 (world (state_of (NewScope params0) vs)) ∧
    patcher_credentials (s_Patcher sc)
      = (spec_SubscriptionID (ac_Spec ac), identity_ClientID idt, identity_TenantID idt).
Proof.
  assert (NewScope params0 vs
          = (Ok (value_of scope0 (NewScope params0) vs), state_of (NewScope params0) vs)) as Hrun
    by by apply run_value; vm_compute.
  destruct (NewScope_credentials params0 (value_of scope0 (NewScope params0) vs) vs _ eq_refl Hrun)
    as (creds & w1 & [Hcreds _] & Hrest).
  assert (empty_credential creds = true) as Hempty by (rewrite Hcreds; by vm_compute).
  rewrite Hempty in Hrest. destruct Hrest as (ac & idt & Hmc & _ & Hp). by exists w1, ac, idt.
Defined.

Lemma resourceGroupTagsEqual_decides_witness :
  (resourceGroupTagsEqual None (resourceTags dns_scope0) : M (St World) GoError bool) vs
  = (Ok (bool_decide (map_of None = map_of (resourceTags dns_scope0))), vs).
Proof.
  apply resourceGroupTagsEqual_decides; [apply map_Forall_empty|apply GetResourceTags_set].
Defined.

Lemma set_condition_spec_witness :
  stamped 5 GSDNSZoneReady ∈ set_condition 5 [mkCondition "Ready" "True" "" "" None] GSDNSZoneReady.
Proof. by apply (set_condition_spec 5 [mkCondition "Ready" "True" "" "" None] GSDNSZoneReady). Defined.


(** * azure/scope *)

Definition dns_params (base : string) : DNSScopeParams World := {|
  dp_ClusterScope := scope0; dp_BaseDomain := base; dp_BaseDomainResourceGroup := "base-rg";
  dp_BaseZoneCredentials := baseZoneCredentials dns_scope0;
  dp_AzureClusterIdentity := mc_identity; dp_AzureClusterServicePrincipalSecret := zero_Secret;
  dp_ManagementClusterAzureIdentity := mc_identity;
  dp_ManagementClusterServicePrincipalSecret := zero_Secret;
  dp_ManagementClusterSpec := ac_Spec mc; dp_ResourceTags := None;
|}.

Lemma NewDNSScope_spec_witness :
  (∃ e, NewDNSScope (dns_params "") = inl e ∧ IsInvalidConfig e = true) ∧
  ∃ ds, NewDNSScope (dns_params "example.com") = inr ds ∧ ClusterDomain ds ≠ baseDomain ds.
Proof.
  split.
  - pose proof (NewDNSScope_spec (dns_params "")) as Hspec. eexists. split; [done|]. apply Hspec.
  - pose proof (NewDNSScope_spec (dns_params "example.com")) as Hspec.
    eexists. split; [done|]. apply Hspec.
Defined.

Definition private_params (base : string) : PrivateDNSScopeParams := {|
  pp_BaseDomain := base; pp_ClusterName := "wc"; pp_APIServerIP := "10.0.0.4";
  pp_MCIngressIP := ""; pp_WildcardCNAMETarget := "";
  pp_VirtualNetworkIDToAttachPrivateDNS := "mc-vnet";
  pp_ClusterAzureIdentityToAttachPrivateDNS := mc_identity;
  pp_ClusterServicePrincipalSecretToAttachPrivateDNS := zero_Secret;
  pp_ClusterSpecToAttachPrivateDNS := ac_Spec mc;
|}.

Lemma NewPrivateDNSScope_spec_witness :
  (∃ e, NewPrivateDNSScope (private_params "") = inl e ∧ IsInvalidConfig e = true) ∧
  ∃ ps, NewPrivateDNSScope (private_params "example.com") = inr ps ∧
        PrivateClusterDomain ps = "wc.example.com".
Proof.
  split.
  - pose proof (NewPrivateDNSScope_spec (private_params "")) as Hspec. eexists. split; [done|].
    apply Hspec.
  - pose proof (NewPrivateDNSScope_spec (private_params "example.com")) as Hspec.
    eexists. split; [done|]. apply Hspec.
Defined.

(** * The controller *)

Lemma reconcileNormal_not_ready_witness :
  let s := set_infraCluster (with_finalizers [AzureClusterControllerFinalizer]
             (infra "AzureCluster")) az in
  reconcileNormal 1 reconciler0 scope0 s = (Ok {| RequeueAfter := 120 |}, s).
Proof. intros s. apply (reconcileNormal_not_ready 1 reconciler0 scope0); by vm_compute. Defined.

Lemma reconcileNormal_converges_witness :
  value_of no_requeue (reconcileNormal 1 reconciler0 scope0) vs = {| RequeueAfter := 300 |} ∧
  ∃ svc s1, public_service_of reconciler0 scope0 svc ∧
    converged svc "sub" "base-sub" s1 (state_of (reconcileNormal 1 reconciler0 scope0) vs).
Proof.
  assert (is_Ok (reconcileNormal 1 reconciler0 scope0 vs).1 = true) as Hok by by vm_compute.
  assert (value_of no_requeue (reconcileNormal 1 reconciler0 scope0) vs
          = {| RequeueAfter := 300 |}) as Hv by by vm_compute.
  split; [exact Hv|]. assert (¬ decoded_addr (cluster_Name_addr wc)) as Haddr by done.
  pose proof (reconcileNormal_converges 1 (le_n 1) reconciler0 scope0 vs _ _
    service0_patcher Haddr
    (run_value no_requeue (reconcileNormal 1 reconciler0 scope0) vs Hok)) as (s0 & Hfin & Hrest).
  rewrite Hv in Hrest. destruct (ready _ _).
  - destruct Hrest as (_ & svc & s1 & s2 & s3 & Hsvc & _ & Hconv & _).
    exists svc, s1. split; [exact Hsvc|exact Hconv].
  - by destruct Hrest as [Hres _].
Defined.

Lemma reconcileDelete_cleans_witness :
  is_Ok (reconcileDelete 1 reconciler0 scope0 (finalized "VSphereCluster")).1 = true ∧
  ∃ svc w0 w1, record_deleted (base_zone svc "base-sub") RecordTypeNS "wc" w0 w1 ∧
    group_deleted (cluster_group svc "sub") w1
      (world (state_of (reconcileDelete 1 reconciler0 scope0) (finalized "VSphereCluster"))).
Proof.
  assert (is_Ok (reconcileDelete 1 reconciler0 scope0 (finalized "VSphereCluster")).1 = true)
    as Hok by by vm_compute.
  split; [exact Hok|].
  pose proof (reconcileDelete_cleans 1 (le_n 1) reconciler0 scope0 _ _ _
    (run_value no_requeue _ _ Hok)) as (_ & svc & w0 & w1 & _ & Hns & Hgroup).
  assert (isAzureCluster (infraCluster (finalized "VSphereCluster")) = false) as Haz
    by by vm_compute.
  rewrite Haz in Hgroup. exists svc, w0, w1. split; [exact Hns|exact Hgroup].
Defined.

(** The environment without the service principal's secret. *)
Definition no_secrets : St World :=
  set_world (mkWorld (w_zones world0) (w_groups world0) (w_private world0) (w_links world0)
    (w_azureclusters world0) (w_identities world0) ∅ (w_clusters world0) (w_objects world0)
    (w_services world0)) az.

Lemma missing_secret_panics_witness :
  (reconcile_private (getPrivateDnsServiceForMcToWcApi 1 reconciler0 scope0) no_secrets).1 = Panic.
Proof.
  set (s1 := state_of (ManagementCluster scope0) no_secrets).
  set (s2 := state_of (ManagementClusterIdentity scope0) s1).
  destruct (missing_secret_panics 1 reconciler0 scope0 no_secrets mc s1 mc_identity s2 not_found
              (world s2)) as (_ & -> & _); [| | |done|done|done].
  - exact (run_value mc (ManagementCluster scope0) no_secrets ltac:(by vm_compute)).
  - exact (run_value mc_identity (ManagementClusterIdentity scope0) s1 ltac:(by vm_compute)).
  - done.
Defined.

Lemma deleteClusterMetrics_exact_witness :
  GaugeValue (ZoneInfo (deleteClusterMetrics "wc.example.com" ZoneTypePublic
     (ZoneInfo_Set ["wc.example.com"; ZoneTypePublic; "wc"; "t"; "s"] 1 initialMetrics)).1)
    ["wc.example.com"; ZoneTypePublic; "wc"; "t"; "s"] = None.
Proof.
  apply (deleteClusterMetrics_exact "wc.example.com" ZoneTypePublic
    (ZoneInfo_Set ["wc.example.com"; ZoneTypePublic; "wc"; "t"; "s"] 1 initialMetrics)
    "wc.example.com" ZoneTypePublic ["wc"; "t"; "s"]).
  by apply ZoneInfo_Set_named.
Defined.
