(* ===== verification/OperatorWitnesses.v ===== *)
(** The theorems about the operator as a whole at concrete inputs: two clusters
    that share a base zone in the in-memory environment, a second run, a
    deletion. *)
From S2P Require Import Prelude GoStd Errors Metrics Kube State Conditions Infra Azure Scope.
From S2P Require Import DnsClient PrivateClient DnsRecords DnsService PrivateDns Controller.
From S2P Require Import AzureSpec InfraFacts TagFacts DnsClientFacts DnsRecordsFacts.
From S2P Require Import DnsServiceFacts PrivateFacts PrivateClientFacts DnsReconcile.
From S2P Require Import Idempotence Settling PrivateReconcile ClientProps InfraProps Services.
From S2P Require Import Footprint Termination EndToEnd Operator.
From S2P Require Import Finalizers LiveFinalizers Reference ReferencePrivate Scenario.
Open Scope Z_scope.

(** One page is enough. *)
Lemma pages : (page_bound (W := World) ≤ 1)%nat.
Proof. done. Qed.

Lemma pages_private : (private_page_bound (W := World) ≤ 1)%nat.
Proof. done. Qed.

(** * Two clusters *)

Definition dev : Cluster := {|
  cluster_Name := "dev"; cluster_Name_addr := 8; cluster_Namespace := "org";
  cluster_Annotations := None; cluster_DeletionTimestamp := None;
  cluster_Phase := "Provisioned"; ControlPlaneEndpoint_Host := "20.1.2.9";
  InfrastructureRef_Name := "dev";
|}.

Definition dev_infra : Unstructured := mkUnstructured "VSphereCluster" "dev" "org" None [] None mc.

Definition with_clusters (c : gmap object_key Cluster) (w : World) : World :=
  mkWorld (w_zones w) (w_groups w) (w_private w) (w_links w) (w_azureclusters w)
    (w_identities w) (w_secrets w) c (w_objects w) (w_services w).

Definition world2 : World :=
  with_objects {[("org", "wc") := infra "VSphereCluster"; ("org", "dev") := dev_infra]}
    (with_clusters {[("org", "wc") := wc; ("org", "dev") := dev]}
      (mkWorld (w_zones world0) (w_groups world0) (w_private world0) (w_links world0)
        (w_azureclusters world0) (w_identities world0)
        (<[("org", "dev-kubeconfig") := {| secret_Data := {["value" := "kubeconfig"]} |}]>
           (w_secrets world0))
        (w_clusters world0) (w_objects world0) (w_services world0))).

Definition start (w : World) : St World :=
  mkSt w initialMetrics (mkCache None None None) (infra "").

Definition request (name : string) : NamespacedName := {| nn_Name := name; nn_Namespace := "org" |}.

Definition run_for (name : string) : G World Result :=
  Controller.Reconcile 1 reconciler0 (request name).

Lemma run_result {A} (m : G World A) s a : (m s).1 = Ok a → m s = (Ok a, state_of m s).
Proof. unfold state_of. intros <-. apply surjective_pairing. Qed.

(** Both clusters are reconciled, one after the other. *)
Lemma two_runs : ∃ s1 s2,
  run_for "wc" (start world2) = (Ok {| RequeueAfter := 300 |}, s1) ∧
  run_for "dev" (start (world s1)) = (Ok {| RequeueAfter := 300 |}, s2).
Proof.
  exists (state_of (run_for "wc") (start world2)).
  exists (state_of (run_for "dev") (start (world (state_of (run_for "wc") (start world2))))).
  split; apply run_result; vm_compute; reflexivity.
Qed.

Lemma step_for name w res s' :
  run_for name (start w) = (res, s') →
  operator_step 1 reconciler0 (request name) w (world s').
Proof. unfold run_for. intros Hrun. exact (handle 1 reconciler0 _ _ _ _ Hrun). Qed.

Lemma sweep_for name w s' runs w' :
  run_for name (start w) = (Ok {| RequeueAfter := 300 |}, s') →
  sweep 1 reconciler0 runs (world s') w' →
  sweep 1 reconciler0 ((request name, start w) :: runs) w w'.
Proof.
  unfold run_for. intros Hrun Hsweep. exact (sweep_cons 1 reconciler0 _ (start w) _ _ _ Hrun Hsweep).
Qed.

(** What is planned for the first of them. *)
Definition wc_records : list RecordSet :=
  api_records "20.1.2.3" ++
  [a_recordset "ingress" 300 ["20.1.2.4"]; a_recordset "gateway" 300 ["20.1.2.5"]].

Definition wc_plan : outcome GoError (string * string * list RecordSet) :=
  (plan 1 reconciler0 (request "wc") (start world2)).1.

Lemma wc_planned : wc_plan = Ok ("sub", "ingress.wc.example.com", wc_records).
Proof. vm_compute. reflexivity. Qed.

Lemma wc_records_once : uniquely_named wc_records = wc_records.
Proof. vm_compute. reflexivity. Qed.

Lemma Reconcile_in_place_witness :
  ∃ s1, run_for "wc" (start world2) = (Ok {| RequeueAfter := 300 |}, s1) ∧
    in_place reconciler0 "sub" "wc" "ingress.wc.example.com" wc_records (world s1).
Proof.
  destruct two_runs as (s1 & _ & Hwc & _). exists s1. split; [exact Hwc|].
  destruct (Reconcile_in_place 1 pages reconciler0 (request "wc") _ _ Hwc)
    as (sub & target & ds & s2 & Hplan & Hin).
  pose proof wc_planned as Hp. unfold wc_plan in Hp. rewrite Hplan in Hp.
  injection Hp as -> -> ->. rewrite wc_records_once in Hin. exact Hin.
Defined.

Lemma others_keep_cluster_witness :
  ∃ s1 s2, operator_step 1 reconciler0 (request "dev") (world s1) (world s2) ∧
    ∀ sub target ds, in_place reconciler0 sub "wc" target ds (world s1) →
                     in_place reconciler0 sub "wc" target ds (world s2).
Proof.
  destruct two_runs as (s1 & s2 & _ & Hdev). apply step_for in Hdev. exists s1, s2.
  split; [exact Hdev|]. intros sub target ds.
  apply (others_keep_cluster 1 pages reconciler0 sub "wc" target ds); [done|].
  eapply relations.rtc_once. exists (request "dev"). split; [by split|exact Hdev].
Defined.

Lemma Reconcile_footprint_witness :
  ∃ s1, run_for "wc" (start world2) = (Ok {| RequeueAfter := 300 |}, s1) ∧
    touches reconciler0 "wc" world2 (world s1).
Proof.
  destruct two_runs as (s1 & _ & Hwc & _). exists s1. split; [exact Hwc|].
  assert (nn_Name (request "wc") ≠ BaseDomainResourceGroup reconciler0) as Hbase by done.
  pose proof (Reconcile_footprint 1 pages reconciler0 (request "wc") Hbase
                (start world2)) as Hsteps.
  unfold run_for in Hwc. rewrite Hwc in Hsteps. exact Hsteps.
Defined.

Lemma Reconcile_well_formed_witness :
  ∃ s1, run_for "wc" (start world2) = (Ok {| RequeueAfter := 300 |}, s1) ∧ zones_wf (world s1).
Proof.
  destruct two_runs as (s1 & _ & Hwc & _). exists s1. split; [exact Hwc|].
  assert (nn_Name (request "wc") ≠ BaseDomainResourceGroup reconciler0) as Hbase by done.
  assert (zones_wf (world (start world2))) as Hwf.
  { apply (bool_decide_unpack (map_Forall (λ _, zone_wf) (w_zones world2))). by vm_compute. }
  pose proof (Reconcile_well_formed 1 pages reconciler0 (request "wc") Hbase
                (start world2)) as Hsteps.
  unfold run_for in Hwc. rewrite Hwc in Hsteps. exact (Hsteps Hwf).
Defined.

Lemma sweep_in_place_witness :
  ∃ s1 w', sweep 1 reconciler0 [(request "wc", start world2); (request "dev", start (world s1))]
             world2 w' ∧
    in_place reconciler0 "sub" "wc" "ingress.wc.example.com" wc_records w'.
Proof.
  destruct two_runs as (s1 & s2 & Hwc & Hdev).
  assert (sweep 1 reconciler0 [(request "wc", start world2); (request "dev", start (world s1))]
            world2 (world s2)) as Hsweep.
  { eapply sweep_for; [exact Hwc|]. eapply sweep_for; [exact Hdev|]. apply sweep_nil. }
  exists s1, (world s2). split; [exact Hsweep|].
  assert (NoDup (map (nn_Name ∘ fst)
    [(request "wc", start world2); (request "dev", start (world s1))])) as Hnd
    by by apply (bool_decide_unpack _).
  assert (Forall (λ run, nn_Name run.1 ≠ BaseDomainResourceGroup reconciler0)
    [(request "wc", start world2); (request "dev", start (world s1))]) as Hb
    by by repeat constructor.
  pose proof (sweep_in_place 1 pages reconciler0 _ _ _ Hsweep Hnd Hb) as Hall.
  apply Forall_cons in Hall as [(sub & target & ds & s3 & Hplan & Hin) _].
  pose proof wc_planned as Hp. unfold wc_plan in Hp. simpl in Hplan. rewrite Hplan in Hp.
  injection Hp as -> -> ->. rewrite wc_records_once in Hin. exact Hin.
Defined.

Lemma Reconcile_halts_witness : (run_for "wc" (start world2)).1 ≠ Diverged.
Proof.
  exact (Reconcile_halts 1 pages pages_private reconciler0 (request "wc") (start world2)).
Defined.

(** * A second run of the public service *)

Definition again : St World := state_of (DnsService.Reconcile service0) (state0 kindAzureCluster).

Definition zone_at (k : zone_key) (s : St World) : ZoneData :=
  default fresh_zone (w_zones (world s) !! k).

(** The desired records of an AzureCluster depend on its endpoint only. *)
Lemma azure_desired (s : St World) :
  isAzureCluster (infraCluster s) = true →
  getDesiredARecords service0 s = (Ok (api_records "20.1.2.3"), s).
Proof.
  intros Hk. rewrite getDesiredARecords_spec. unfold desired_spec.
  assert (isASOManagedCluster (infraCluster s) = false) as Haso.
  { revert Hk. unfold isASOManagedCluster, isAzureCluster.
    rewrite bool_decide_eq_true. intros ->. done. }
  erewrite run_bind by done. rewrite Haso. erewrite run_bind by reflexivity.
  erewrite run_bind by done. by rewrite Hk.
Qed.

Lemma again_settled : settled service0 "sub" "base-sub" again.
Proof.
  split; [by vm_compute|].
  exists (zone_at (cluster_zone service0 "sub") again).
  exists (zone_at (base_zone service0 "base-sub") again).
  split_and!.
  - vm_compute. reflexivity.
  - vm_compute. reflexivity.
  - vm_compute. reflexivity.
  - eexists. split_and!; vm_compute; reflexivity.
  - intros t. destruct t; [vm_compute; by intros []..].
  - intros s1 ds s2 [_ Hi] Hrun. rewrite azure_desired in Hrun.
    2: { rewrite Hi. vm_compute. reflexivity. }
    injection Hrun as <- _. unfold api_records.
    repeat apply Forall_cons_2; [..|apply Forall_nil_2];
      (split; [intros n p [= <-] [= <-]; eexists; split_and!; vm_compute; reflexivity|]);
      intros n [= <-] t; destruct t; vm_compute; by intros [].
Qed.

Lemma Reconcile_idempotent_witness :
  is_Ok (DnsService.Reconcile service0 again).1 = true ∧
  same_view (world again) (world (state_of (DnsService.Reconcile service0) again)).
Proof.
  assert (is_Ok (DnsService.Reconcile service0 again).1 = true) as Hok by by vm_compute.
  split; [exact Hok|].
  assert (tags_set (resourceTags (DnsRecords.scope service0))) as Htags
    by apply GetResourceTags_set.
  assert (¬ decoded_addr (cluster_Name_addr (s_Cluster (svc_Scope service0)))) as Haddr by done.
  destruct (Reconcile_idempotent service0 "sub" "base-sub" again Htags Haddr again_settled)
    as [[Hv _] _].
  exact Hv.
Defined.

(** ** After a first one *)

Lemma first_run : ∃ s', DnsService.Reconcile service0 (state0 kindAzureCluster) = (Ok tt, s') ∧
  s' = again.
Proof.
  assert ((DnsService.Reconcile service0 (state0 kindAzureCluster)).1 = Ok tt) as Hr
    by (vm_compute; reflexivity).
  apply run_result in Hr. unfold again. eexists. split; [exact Hr|reflexivity].
Qed.

(** Its zone, and that the infrastructure object is an AzureCluster's. *)
Lemma again_zone : az_zones (world again) !! cluster_zone service0 "sub"
  = Some (zone_at (cluster_zone service0 "sub") again).
Proof. vm_compute. reflexivity. Qed.

Lemma state0_azure : isAzureCluster (infraCluster (state0 kindAzureCluster)) = true.
Proof. vm_compute. reflexivity. Qed.

Lemma state0_new : az_zones (world (state0 kindAzureCluster)) !! cluster_zone service0 "sub" = None.
Proof. vm_compute. reflexivity. Qed.

(** The rule for CNAME record sets, as it is decided on a zone. *)
Lemma cname_alone_check zd :
  bool_decide (map_Forall (λ k _, k.1 = RecordTypeCNAME →
    map_Forall (λ k' _, k'.2 = k.2 → k'.1 = RecordTypeCNAME) (zd_records zd)) (zd_records zd))
  = true → cname_alone zd.
Proof.
  intros Hzd%bool_decide_eq_true n [p Hp] t [p' Hp'].
  exact (Hzd (RecordTypeCNAME, n) p Hp eq_refl (t, n) p' Hp' eq_refl).
Qed.

Lemma again_rule : cname_alone (zone_at (cluster_zone service0 "sub") again).
Proof. apply cname_alone_check. vm_compute. reflexivity. Qed.

Lemma names_apart : NoDup (map record_name (api_records "20.1.2.3")).
Proof. apply (bool_decide_unpack _). vm_compute. reflexivity. Qed.

Lemma names_not_apex : Forall (λ d, ∀ n, name_is d n → n ≠ "@") (api_records "20.1.2.3").
Proof.
  unfold api_records. repeat apply Forall_cons_2; [..|apply Forall_nil_2]; intros n [= <-] [=].
Qed.

Lemma Reconcile_twice_witness :
  ∃ s', DnsService.Reconcile service0 (state0 kindAzureCluster) = (Ok tt, s') ∧
    same_view (world s') (world (state_of (DnsService.Reconcile service0) s')).
Proof.
  destruct first_run as (s' & Hrun & Hs'). exists s'. split; [exact Hrun|].
  pose proof again_zone as Hzone. pose proof again_rule as Hrule. rewrite <- Hs' in Hzone, Hrule.
  assert (tags_set (resourceTags (DnsRecords.scope service0))) as Htags
    by apply GetResourceTags_set.
  assert (¬ decoded_addr (cluster_Name_addr (s_Cluster (svc_Scope service0)))) as Haddr by done.
  destruct (Reconcile_twice service0 "sub" "base-sub" (api_records "20.1.2.3")
              (state0 kindAzureCluster) s' Htags Haddr) as [[Hv _] _].
  - intros s1 ds' s2 [_ Hi] Hds. rewrite azure_desired in Hds; [congruence|].
    rewrite Hi. exact state0_azure.
  - exact names_apart.
  - unfold names_free. rewrite state0_new. exact names_not_apex.
  - intros zd Hzd. rewrite Hzone in Hzd. injection Hzd as <-. exact Hrule.
  - rewrite state0_azure. discriminate.
  - exact Hrun.
  - exact Hv.
Defined.

(** * A deleted cluster *)

Definition deleted_wc : Cluster := {|
  cluster_Name := "wc"; cluster_Name_addr := 7; cluster_Namespace := "org";
  cluster_Annotations := None; cluster_DeletionTimestamp := Some 1;
  cluster_Phase := "Deleting"; ControlPlaneEndpoint_Host := "20.1.2.3";
  InfrastructureRef_Name := "wc";
|}.

Definition deleted_infra (kind : string) : Unstructured :=
  with_finalizers [AzureClusterControllerFinalizer; "capi"] (infra kind).

(** Its infrastructure object is of the given kind. *)
Definition deleted_world (kind : string) : World :=
  with_objects {[("org", "wc") := deleted_infra kind]}
    (with_clusters {[("org", "wc") := deleted_wc]} world2).

Lemma deletion_runs kind :
  (run_for "wc" (start (deleted_world kind))).1 = Ok no_requeue →
  ∃ s', run_for "wc" (start (deleted_world kind)) = (Ok no_requeue, s').
Proof. intros Hr. eexists. by apply run_result. Qed.

(** The subscription it is in. *)
Definition deleted_scope (w : World) : outcome GoError (Scope World) :=
  (NewScope (scope_params reconciler0 deleted_wc)
     (set_infraCluster (deleted_infra "VSphereCluster") (set_world w (start w)))).1.

Definition scope_subscription (r : outcome GoError (Scope World)) : string :=
  match r with Ok sc => SubscriptionID (s_Patcher sc) | _ => "" end.

Lemma deleted_subscription :
  scope_subscription (deleted_scope (deleted_world "VSphereCluster")) = "sub".
Proof. vm_compute. reflexivity. Qed.

Lemma Reconcile_cleans_witness :
  ∃ s', run_for "wc" (start (deleted_world "VSphereCluster")) = (Ok no_requeue, s') ∧
    cleaned reconciler0 "sub" "wc" (world s').
Proof.
  destruct (deletion_runs "VSphereCluster") as [s' Hr]; [vm_compute; reflexivity|].
  exists s'. split; [exact Hr|].
  set (w := deleted_world "VSphereCluster") in *.
  destruct (Reconcile_cleans 1 pages reconciler0 (request "wc") deleted_wc
    (deleted_infra "VSphereCluster") w w (start w) no_requeue s')
    as (_ & _ & sc & s1 & Hnew & Hclean);
    [done|reflexivity|reflexivity|done|left; by exists 1|exact Hr|].
  pose proof deleted_subscription as Hsub. unfold deleted_scope in Hsub. fold w in Hsub.
  rewrite Hnew in Hsub. simpl in Hsub. rewrite <- Hsub. exact (Hclean eq_refl).
Defined.

Definition the_object : NamespacedName := {| nn_Name := "wc"; nn_Namespace := "org" |}.

Lemma deletion_finalizer_witness :
  (∃ s', run_for "wc" (start (deleted_world kindAzureASOManagedCluster)) = (Ok no_requeue, s') ∧
     stored_finalizers (world s') the_object = ["capi"]) ∧
  (∃ s', run_for "wc" (start (deleted_world "VSphereCluster")) = (Ok no_requeue, s') ∧
     stored_finalizers (world s') the_object = [AzureClusterControllerFinalizer; "capi"]).
Proof.
  split.
  - destruct (deletion_runs kindAzureASOManagedCluster) as [s' Hr]; [vm_compute; reflexivity|].
    exists s'. split; [exact Hr|]. set (w := deleted_world kindAzureASOManagedCluster) in *.
    refine (deletion_finalizer 1 reconciler0 (request "wc") deleted_wc
      (deleted_infra kindAzureASOManagedCluster) w w (start w) no_requeue s' _ _ _ _ _ Hr);
      [reflexivity|reflexivity|done|left; by exists 1|done].
  - destruct (deletion_runs "VSphereCluster") as [s' Hr]; [vm_compute; reflexivity|].
    exists s'. split; [exact Hr|]. set (w := deleted_world "VSphereCluster") in *.
    refine (deletion_finalizer 1 reconciler0 (request "wc") deleted_wc
      (deleted_infra "VSphereCluster") w w (start w) no_requeue s' _ _ _ _ _ Hr);
      [reflexivity|reflexivity|done|left; by exists 1|done].
Defined.

(** * The private services *)

Lemma privateClient_implements_client_witness : PrivateClientSpec (private_client0 "sub") "sub".
Proof.
  apply (privateClient_implements_client (W := World)); [by split|exact pages_private].
Defined.

Definition ready_condition : Condition := {|
  cond_Type := LoadBalancersReadyCondition; cond_Status := "True"; cond_Reason := "";
  cond_Message := ""; cond_LastTransitionTime := None;
|}.

(** An AzureCluster that asks for both private zones. *)
Definition private_infra : Unstructured := mkUnstructured kindAzureCluster "wc" "org"
  (Some {[azurePrivateEndpointOperatorApiServerAnnotation := "10.0.0.4";
          azurePrivateEndpointOperatorMcIngressAnnotation := "10.0.0.5"]})
  [AzureClusterControllerFinalizer] None
  {| ac_Name := "wc"; ac_Namespace := "org"; ac_Spec := ac_Spec mc;
     ac_Conditions := [ready_condition] |}.

Definition mc_cluster : Cluster := {|
  cluster_Name := "mc"; cluster_Name_addr := 9; cluster_Namespace := "org-mc";
  cluster_Annotations := None; cluster_DeletionTimestamp := None;
  cluster_Phase := "Provisioned"; ControlPlaneEndpoint_Host := "20.1.2.8";
  InfrastructureRef_Name := "mc";
|}.

Definition private_start : St World :=
  mkSt (with_objects {[("org", "wc") := private_infra]}
          (with_clusters (<[("org-mc", "mc") := mc_cluster]> (w_clusters world0)) world0))
    initialMetrics (mkCache None None None) private_infra.

Lemma private_run : ∃ s',
  reconcileNormal 1 reconciler0 scope0 private_start = (Ok {| RequeueAfter := 300 |}, s').
Proof. eexists. apply run_result. vm_compute. reflexivity. Qed.

(** The zone of the management cluster's ingress, in the workload cluster's
    resource group, has its records. *)
Lemma reconcileNormal_private_converges_witness :
  ∃ s' s1 ingress,
    reconcileNormal 1 reconciler0 scope0 private_start = (Ok {| RequeueAfter := 300 |}, s') ∧
    ingress_service reconciler0 scope0 s1 ingress ∧
    private_converged ingress (private_sub ingress) s1 s'.
Proof.
  destruct private_run as [s' Hrun].
  assert (PatcherSpec (s_Patcher scope0) (s_publicIPService scope0)) as Hp
    by exact service0_patcher.
  assert (¬ decoded_addr (cluster_Name_addr (s_Cluster scope0))) as Haddr by done.
  destruct (reconcileNormal_private_converges 1 pages pages_private reconciler0 scope0
              private_start s' Hp Haddr Hrun) as (s0 & s1 & Hfin & _ & _ & Hing & _).
  assert (ensure_finalizer scope0 private_start = (Ok tt, private_start)) as Hset
    by reflexivity.
  rewrite Hset in Hfin. injection Hfin as <-.
  destruct (Hing eq_refl) as (svc & Hof & Hconv). exists s', s1, svc.
  split; [exact Hrun|]. split; [exact Hof|exact Hconv].
Defined.

(** The cluster's own identity object is missing: no other candidate is tried. *)
Lemma InfraClusterIdentity_order_witness :
  InfraClusterIdentity scope0 (start world0)
  = first_identity tt (identity_candidates scope0 (infra "")) (ManagementClusterIdentity scope0)
      (start world0) ∧
  first_identity tt [Some {| ref_Name := "gone"; ref_Namespace := "org" |}]
    (ManagementClusterIdentity scope0) (start world0)
  = (Ok zero_AzureClusterIdentity, start world0).
Proof.
  destruct (InfraClusterIdentity_order scope0 (start world0)) as [Horder Hmissing]. split.
  - exact Horder.
  - by apply (Hmissing {| ref_Name := "gone"; ref_Namespace := "org" |} [] _ not_found world0).
Defined.

(** * A live cluster *)

(** Its infrastructure object is of the given kind. *)
Definition live_world (kind : string) : World :=
  with_objects {[("org", "wc") := infra kind]} world2.

Lemma live_runs kind :
  (run_for "wc" (start (live_world kind))).1 = Ok {| RequeueAfter := 300 |} →
  ∃ s', run_for "wc" (start (live_world kind)) = (Ok {| RequeueAfter := 300 |}, s').
Proof. intros Hr. eexists. by apply run_result. Qed.

Lemma live_finalizer_witness :
  (∃ s', run_for "wc" (start (live_world kindAzureASOManagedCluster))
           = (Ok {| RequeueAfter := 300 |}, s') ∧
     stored_finalizers (world s') the_object = [AzureClusterControllerFinalizer]) ∧
  (∃ s', run_for "wc" (start (live_world "VSphereCluster")) = (Ok {| RequeueAfter := 300 |}, s') ∧
     stored_finalizers (world s') the_object = []).
Proof.
  split.
  - destruct (live_runs kindAzureASOManagedCluster) as [s' Hr]; [vm_compute; reflexivity|].
    exists s'. split; [exact Hr|]. set (w := live_world kindAzureASOManagedCluster) in *.
    exact (live_finalizer 1 reconciler0 (request "wc") wc (infra kindAzureASOManagedCluster)
      w w (start w) _ s' eq_refl eq_refl eq_refl eq_refl eq_refl eq_refl Hr).
  - destruct (live_runs "VSphereCluster") as [s' Hr]; [vm_compute; reflexivity|].
    exists s'. split; [exact Hr|]. set (w := live_world "VSphereCluster") in *.
    exact (live_finalizer 1 reconciler0 (request "wc") wc (infra "VSphereCluster")
      w w (start w) _ s' eq_refl eq_refl eq_refl eq_refl eq_refl eq_refl Hr).
Defined.
