(* ===== verification/InterleavingWitnesses.v ===== *)
(** The theorems about interleaved calls at concrete inputs: two clusters that
    share a base zone, the worker for one of them with the other's run and a
    stranger's write between its calls. *)
From S2P Require Import Prelude GoStd Errors Metrics Kube State Conditions Infra Azure Scope.
From S2P Require Import DnsClient PrivateClient DnsRecords DnsService PrivateDns Controller.
From S2P Require Import AzureSpec DnsClientFacts PrivateClientFacts Footprint Operator.
From S2P Require Import Interference Interleaving Reference ReferencePrivate Scenario.
From S2P Require Import OperatorWitnesses.
From stdpp Require Import relations.
Open Scope Z_scope.

Abbreviation the_base := (base_key reconciler0).

#[local] Instance wc_apart : Apart the_base "wc".
Proof. done. Qed.

#[local] Instance dev_apart : Apart the_base "dev".
Proof. done. Qed.

(** * Turns of the others *)

(** The worker for the other cluster runs its handler, to whatever end. *)
Definition dev_acts (w : World) : World := world (run_for "dev" (start w)).2.

Lemma dev_undisturbed w : undisturbed the_base "wc" w (dev_acts w).
Proof.
  apply (touches_undisturbed reconciler0 "dev"); [done|done|].
  assert (nn_Name (request "dev") ≠ BaseDomainResourceGroup reconciler0) as Hb by done.
  pose proof (steps_Reconcile 1 pages reconciler0 (request "dev") Hb (start w)) as Ht.
  unfold dev_acts, run_for. destruct (Controller.Reconcile _ _ _ _). apply Ht.
Qed.

(** Somebody deletes the other cluster's delegation. *)
Definition cut_dev (zb : ZoneData) : ZoneData :=
  mkZone (zd_nameservers zb) (delete (RecordTypeNS, "dev") (zd_records zb)).

Definition stranger_acts (w : World) : World :=
  with_zones (alter cut_dev the_base (w_zones w)) w.

Lemma stranger_undisturbed w : undisturbed the_base "wc" w (stranger_acts w).
Proof.
  apply (touches_undisturbed reconciler0 "dev"); [done|done|]. split; [done|..]; simpl.
  - intros k _ Hne. by apply lookup_alter_ne.
  - rewrite lookup_alter_eq. destruct (w_zones w !! the_base) as [zb|]; [|done]. simpl.
    split; [done|]. intros tn Hne. by apply lookup_delete_ne.
Qed.

(** A turn each, the stranger's in the middle of the run. *)
Definition the_turns : list (Turn the_base "wc") :=
  mkTurn dev_acts dev_undisturbed ::
  replicate 40 (mkTurn stranger_acts stranger_undisturbed).

Definition shared_start (w : World) : St (Shared the_base "wc") :=
  mkSt (mkShared w the_turns []) initialMetrics (mkCache None None None) (infra "").

Definition shared_run (w : World) : outcome GoError Result * St (Shared the_base "wc") :=
  Controller.Reconcile 1 (shared_reconciler reconciler0 "wc") (request "wc") (shared_start w).

Lemma shared_result w a : (shared_run w).1 = Ok a → ∃ s', shared_run w = (Ok a, s').
Proof. intros Ha. exists (shared_run w).2. rewrite <- Ha. apply surjective_pairing. Qed.

(** The others' turns do not change what is planned. *)
Definition shared_plan : outcome GoError (string * string * list RecordSet) :=
  (plan 1 (shared_reconciler reconciler0 "wc") (request "wc") (shared_start world2)).1.

Lemma shared_planned : shared_plan = Ok ("sub", "ingress.wc.example.com", wc_records).
Proof. vm_compute. reflexivity. Qed.

Lemma Reconcile_in_place_shared_witness :
  ∃ s', shared_run world2 = (Ok {| RequeueAfter := 300 |}, s') ∧
    in_place reconciler0 "sub" "wc" "ingress.wc.example.com" wc_records (actual (world s')).
Proof.
  destruct (shared_result world2 {| RequeueAfter := 300 |}) as [s' Hrun];
    [vm_compute; reflexivity|].
  exists s'. split; [exact Hrun|].
  assert ("wc" ≠ BaseDomainResourceGroup reconciler0) as Hb by done.
  destruct (Reconcile_in_place_shared 1 pages reconciler0 "wc" Hb (request "wc") _ _ eq_refl Hrun)
    as (sub & target & ds & s2 & Hplan & Hin).
  pose proof shared_planned as Hp. unfold shared_plan in Hp. rewrite Hplan in Hp.
  injection Hp as -> -> ->. rewrite wc_records_once in Hin. exact Hin.
Defined.

(** The two lookups of a run. *)
Definition lookup_wc (w : Shared the_base "wc") :=
  GetClusterByName (r_Client (shared_reconciler reconciler0 "wc")) (request "wc") w.

Definition lookup_object (w : Shared the_base "wc") :=
  GetObjectFromContractVersionedRef (r_Client (shared_reconciler reconciler0 "wc")) deleted_wc w.

Definition subscription_of (r : outcome GoError (Scope (Shared the_base "wc")) *
    St (Shared the_base "wc")) : string :=
  match r.1 with Ok sc => SubscriptionID (s_Patcher sc) | _ => "" end.

(** The subscription the scope is built with, after both. *)
Definition shared_subscription (s : St (Shared the_base "wc")) : string :=
  subscription_of (NewScope (scope_params (shared_reconciler reconciler0 "wc") deleted_wc)
    (set_infraCluster (deleted_infra "VSphereCluster")
      (set_world (lookup_object (lookup_wc (world s)).2).2 s))).

Lemma deleted_shared_subscription :
  shared_subscription (shared_start (deleted_world "VSphereCluster")) = "sub".
Proof. vm_compute. reflexivity. Qed.

Lemma Reconcile_cleans_shared_witness :
  ∃ s', shared_run (deleted_world "VSphereCluster") = (Ok no_requeue, s') ∧
    cleaned reconciler0 "sub" "wc" (actual (world s')).
Proof.
  destruct (shared_result (deleted_world "VSphereCluster") no_requeue) as [s' Hrun];
    [vm_compute; reflexivity|].
  exists s'. split; [exact Hrun|].
  assert ("wc" ≠ BaseDomainResourceGroup reconciler0) as Hb by done.
  set (s := shared_start (deleted_world "VSphereCluster")) in *.
  set (found1 := (lookup_wc (world s)).2). set (found2 := (lookup_object found1).2).
  destruct (Reconcile_cleans_shared 1 pages reconciler0 "wc" Hb (request "wc") deleted_wc
    (deleted_infra "VSphereCluster") found1 found2 no_requeue s s' eq_refl)
    as (_ & _ & sc & s1 & Hnew & Hclean); [| |done|left; by exists 1|exact Hrun|].
  - change (lookup_wc (world s) = (inr deleted_wc, found1)).
    rewrite (surjective_pairing (lookup_wc (world s))). f_equal; vm_compute; reflexivity.
  - change (lookup_object found1 = (inr (deleted_infra "VSphereCluster"), found2)).
    rewrite (surjective_pairing (lookup_object found1)). f_equal; vm_compute; reflexivity.
  - assert (shared_subscription s = SubscriptionID (s_Patcher sc)) as Hsub
      by exact (f_equal subscription_of Hnew).
    rewrite <- deleted_shared_subscription. fold s. rewrite Hsub. exact (Hclean eq_refl).
Defined.

(** * Calls of the other worker *)

Definition dev_start (w : World) : St (Shared the_base "dev") :=
  mkSt (mkShared w [] []) initialMetrics (mkCache None None None) (infra "").

Definition dev_run (w : World) : outcome GoError Result * St (Shared the_base "dev") :=
  Controller.Reconcile 1 (shared_reconciler reconciler0 "dev") (request "dev") (dev_start w).

(** The call that creates its zone. *)
Definition creates_zone (c : World * World) : bool :=
  (size (w_zones c.1) <? size (w_zones c.2))%nat.

Lemma dev_call : ∃ w w', operator_call 1 reconciler0 (request "dev") w w' ∧
  creates_zone (w, w') = true.
Proof.
  assert (existsb creates_zone (own_calls (world (dev_run world2).2)) = true) as Hex
    by by vm_compute.
  apply existsb_exists in Hex as ([w w'] & Hin%list_elem_of_In & Hc). exists w, w'.
  split; [|exact Hc].
  exact (called 1 reconciler0 (request "dev") (dev_start world2) (dev_run world2).2
           (dev_run world2).1 w w' eq_refl (surjective_pairing _) Hin).
Qed.

Lemma operator_call_footprint_witness :
  ∃ w w', operator_call 1 reconciler0 (request "dev") w w' ∧ creates_zone (w, w') = true ∧
    touches reconciler0 "dev" w w'.
Proof.
  destruct dev_call as (w & w' & Hcall & Hc). exists w, w'. split; [exact Hcall|].
  split; [exact Hc|].
  apply (operator_call_footprint 1 pages reconciler0 (request "dev") w w'); [done|exact Hcall].
Defined.

Lemma other_calls_keep_cluster_witness :
  ∃ w w', operator_calls 1 reconciler0 (not_about reconciler0 "wc") w w' ∧
    creates_zone (w, w') = true ∧ undisturbed the_base "wc" w w'.
Proof.
  destruct dev_call as (w & w' & Hcall & Hc). exists w, w'.
  assert (operator_calls 1 reconciler0 (not_about reconciler0 "wc") w w') as Hcalls.
  { apply rtc_once. exists (request "dev"). split; [by split|exact Hcall]. }
  split; [exact Hcalls|]. split; [exact Hc|].
  refine (proj1 (other_calls_keep_cluster 1 pages reconciler0 "sub" "wc" "" [] w w' _ Hcalls)).
  done.
Defined.
